(* ===== verification/_CoqProject ===== *)
-Q . S2P
Prelude.v
RustStr.v
RustNet.v
RustHttp.v
Store.v
Json.v
Codec.v
Envelope.v
KeyDirectory.v
NetworkPolicy.v
SandboxEnv.v
Traits.v
UpstreamPolicy.v
EgressProxy.v
LlmPolicy.v
InstanceStore.v
InstanceSqlite.v
TokenStore.v
Secrets.v
McpRecords.v
Shares.v
LlmAudit.v
LlmProxy.v
EndToEnd.v
StateFiles.v
StateIngest.v
InstanceService.v
InstanceLifecycle.v
InstanceCreation.v
Snapshots.v
InPlaceSwap.v
SnapshotRestore.v
SwapSafety.v
McpManagement.v
InstanceUpdates.v
DockerArgs.v
WebhookVerify.v
WebhookStore.v
WebhookService.v
WebhookSafety.v
Base64.v
WebhookHttp.v
WebhookDispatch.v
