(* ===== verification/Prelude.v ===== *)
(** * A verification development for dyson-swarm

    dyson-swarm runs AI agents in sandboxes for many tenants.  The sandboxes
    are untrusted: everything they reach goes through services of the swarm,
    and everything a tenant entrusts to it is kept sealed.  This library
    models the parts of the Rust workspace ([src/crates]) on which that
    separation rests and proves what they promise.

    ** The parts and how they interact

    A sandbox holds bearer tokens minted by the token store.  It calls models
    through the LLM proxy, which resolves the bearer, loads its owner's usage
    policy, replaces the tenant's credentials with a key of the owner, sends
    the call and records it.  All other traffic leaves through the egress
    proxy, which enforces the policy file derived from the instance's network
    policy.  The sandbox mirrors its files through the ingest route.  Tokens,
    secrets, keys of providers and state files are stored as envelopes, sealed
    under contexts by keys of the key directory.  Users publish artefacts of
    an instance by signed share links.

    Above the stores stands the instance service.  It creates, restores,
    clones and destroys instances, pushes their configuration to the agent in
    the sandbox, and swaps the sandbox under a living instance; the snapshot
    service, the expiry sweep and the sweeps over all instances call it.  It
    also keeps the records of an instance's MCP servers, whose Docker command
    lines the MCP runtime builds from arguments that users supply.  Outside
    services reach an agent through webhooks, each with its own verifier.

    ** Files

    Foundations:
    - [Prelude]: results, the state-and-error monad of handlers, tactics, hint
      databases, lemmas on lists, sorting and sums.
    - [RustStr], [RustNet], [RustHttp], [Json]: what the sources use of Rust's
      strings, integers and UTF-8 decoding, of [std::net], of [HeaderMap] and
      of [serde_json::Value].
    - [Store]: [error.rs] and SQL tables as lists of rows.
    - [Codec]: a concrete serializer, which instantiates the interfaces below.
    - [Traits]: rows of [core/src/traits.rs] shared by the components.

    Network:
    - [NetworkPolicy]: [core/src/network_policy.rs] and [row_policy_cidrs].
    - [UpstreamPolicy]: [core/src/upstream_policy.rs].
    - [EgressProxy]: [egress-proxy/src/main.rs].

    Storage:
    - [Envelope], [KeyDirectory]: [core/src/envelope.rs], contexts and
      envelopes in the first, key files and the cipher cache in the second.
    - [InstanceStore], [InstanceSqlite]: the contract of the trait in
      [core/src/traits.rs] and [core/src/db/sqlite/instances.rs].
    - [TokenStore]: [core/src/db/sqlite/tokens.rs].
    - [Secrets]: [core/src/secrets.rs] and [core/src/db/sqlite/secrets.rs].
    - [StateFiles]: [core/src/state_files.rs] and
      [core/src/db/sqlite/state_files.rs].
    - [Shares]: [core/src/shares] and [core/src/db/sqlite/shares.rs].

    Requests of sandboxes:
    - [LlmPolicy]: [core/src/policy.rs], [swarm/src/proxy/policy_check.rs] and
      [core/src/db/sqlite/policies.rs].
    - [LlmAudit]: [core/src/db/sqlite/audit.rs].
    - [LlmProxy]: [swarm/src/proxy/http.rs], [mod.rs], [byok.rs], [adapters].
    - [StateIngest]: [ingest_file] of [swarm/src/http/internal_state.rs].
    - [EndToEnd]: the LLM proxy over the modelled token and instance stores.

    Life of an instance:
    - [SandboxEnv]: [core/src/instance/env.rs] and [compose_env].
    - [McpRecords], [McpManagement]: the records of MCP servers in
      [core/src/mcp_servers.rs], and the operations on them in
      [core/src/instance.rs] and [instance/mcp_reconcile.rs].
    - [InstanceService]: [create], [restore], [destroy] and what they call, in
      [core/src/instance.rs]; the sweep of [core/src/ttl.rs].
      [InstanceLifecycle] and [InstanceCreation] hold its theorems.
    - [InstanceUpdates]: renaming, models, tools, probes, clones and the
      runtime-config sweep.
    - [Snapshots], [SnapshotRestore]: [core/src/snapshot.rs],
      [core/src/db/sqlite/snapshots.rs], the quota of
      [swarm/src/http/snapshots.rs], the upload of [core/src/backup/s3.rs].
    - [InPlaceSwap]: rotation, recreation, reset, restore in place, change of
      network policy and the rotation sweep; [SwapSafety] holds its theorems.
    - [DockerArgs]: the validator of [core/src/mcp_servers.rs] and the launcher
      of [mcp-runtime/src/main.rs].

    Webhooks:
    - [WebhookVerify], [WebhookService], [WebhookDispatch]: the verifier, the
      service and the HTTP dispatcher of [core/src/webhooks.rs];
      [WebhookSafety] holds the theorems on the service.
    - [WebhookStore]: [core/src/db/sqlite/webhooks.rs].
    - [WebhookHttp], [Base64]: [swarm/src/http/webhooks.rs].

    The service's state is the record [FleetWorld]: the tables and a log of
    the calls made to the sandbox backend, the agent and the backup sink, each
    with the instance table at that moment.  What they answer is the class
    [FleetEnv], any function of the number of calls made before; a [FleetRun]
    supplies the clock and the random values of one operation.

    A struct is a [Record], an enum an [Inductive], a method a function from
    the state to its result and the new state, under the source's name.
    Handlers with many early returns are written in the monad of [Prelude], in
    the order of the code.  Sequences of calls are lists of an operation type
    ([StoreOp], [TokenOp], ...) run from left to right, and stand for any
    interleaving of tasks whose calls the database or a lock serialises.
    Clock readings and random values are arguments of the call that takes
    them.

    ** What is proved

    - Egress: each connection the proxy opens goes to an address that the
      policy of the requesting sandbox allows; unknown sources open none;
      private networks stay out of reach of the profiles that deny them; a bad
      policy file leaves the last good one in force; mask-and-compare is
      interval membership; resolution of a profile fails exactly on the listed
      inputs.  [UpstreamPolicy]: a validated upstream is pinned to addresses
      outside an independent list of the internal ranges, or ones the operator
      permits; an internal IPv4 address written as IPv4-mapped IPv6 is the
      stated exception.
    - LLM proxy: a request goes upstream only for a live bearer, presented
      from its bound address, whose owner's policy admits it; what is sent
      carries the key in the header of the provider, the allow-listed headers
      of the request, and no other; the
      target is the validated or configured one; audit rows are exact; the
      rate window counts exactly the calls of the last second.  [EndToEnd]
      follows a token from minting to use and shows that revocation cuts the
      sandbox off.
    - Stores: SQLite's instance store simulates its contract, and the quota of
      live instances is an invariant; a token resolves from its mint until it
      is revoked and never after; cursor paging of tool calls is exhaustive
      and free of repetition.
    - Sealing: the key directory keeps, in every reachable state, the
      interface that envelopes and their clients are verified against; what is
      sealed for a context opens under it and no other, until its owner is
      forgotten; owners do not share keys.
    - State files and ingest: accepted paths stay inside the mirrored tree;
      what was ingested reads back; a rewrap that runs late changes no
      contents; a sandbox reaches only its instance's files, and not even
      those once a newer generation has replaced it.
    - Shares: an accepted link is signed, unexpired and live; a minted link is
      accepted; revocation and key rotation end it.
    - Instances: a successful create adds the one row that was requested,
      three bound tokens and one sandbox; one that fails on the backend leaves no live token, row or
      sandbox; destroy ends an instance and leaves rows,
      tokens, secrets and files of the others as they were; the expiry sweep
      ends every expired one; the environment of a sandbox is exactly the
      managed envelope and the caller's unreserved names; the runtime-config
      sweep spares live instances and touches no cold, paused or destroyed
      one; pushes and idle waits are bounded.
    - Swaps: at no point of any run does a swap ask for the destruction of the
      sandbox the row names, and a successful one leaves the row exactly as
      announced and destroys the old sandbox as its last act.  Snapshots: a
      bundle with a recorded hash is restored only as it was taken.
    - Webhooks: a request reaches the agent only if it is authentic for the
      verifier of an enabled webhook, and at most once per idempotency key; a
      webhook saved from a preset delivers what its vendor signs, Stripe's
      prefixed secrets excepted; the log is stored sealed and reads back; strangers get nothing from the routes; a dispatch calls the
      instance's own sandbox only.
    - MCP: a saved server reads back, kept secrets included; forgetting an
      instance's servers is exact.

    Some theorems state what the code does where a comment or its purpose says
    otherwise: [accepted_entry_blocks_reload],
    [mapped_ipv4_bypasses_internal_check], [rps_limit_one_refuses_all],
    [tool_result_crosses_owners], [share_row_not_bound],
    [forget_user_keeps_secrets], [sweep_keeps_mcp_credentials],
    [restore_ignores_quota], [reserved_env_leaks_instance],
    [nested_backup_unrestorable], [failed_reset_strands_tokens],
    [index_named_server_breaks_listing], [validator_misses_host_mount],
    [scheme_switch_keeps_open], [stripe_webhook_never_delivers],
    [failed_dispatch_swallows_retry], [busy_agent_asked_eleven_times],
    [unsigned_id_replays], [template_without_body_signs_nothing] and
    [negative_skew_accepts_stale].

    ** Parameters and their laws

    Third-party code is an argument: DNS and sockets ([lookup_host],
    [connect], class [HostResolver]), URL and header parsing, serde and base64
    ([EnvelopeCodec], [RowCodec], [ShareCodec], [IngestLib], [HttpLib]),
    SHA-256 ([TokenHash]), HMAC (in [ShareCodec] and [WebhookLib]), the agent's
    HTTP answers ([AgentHttp]) and age ([AgeLib]).  The
    laws relied on are the classes with suffix [Ok]: decoding inverts
    encoding, and opening inverts sealing under the same key.  Each is
    inhabited by a concrete instance, with which the witnesses are evaluated.
    Digests are not assumed to be free of collisions: a theorem that depends
    on distinct digests says so in a hypothesis.

    ** Bounds and fuel

    Integers are [Z] with the range checks and wrapping of their Rust type
    written out; [f64] budgets are [spec_float] values.  Skipping and UTF-8
    decoding consume a byte per step, so the length of the input is enough
    fuel.  [walk_pages], the client that pages through tool calls, is given
    more fuel than there are rows, and every page but the last one consumes a
    row.  Configure pushes and state restores are tried 12 times, candidate
    identifiers 8 times, as in the code.  The wait for an idle agent has fuel
    for 11 polls: at 30 seconds each the last one is past the limit of 300
    seconds, and any larger fuel gives the same run ([idle_wait_bounded]).  A placeholder of a payload template is four
    bytes at least, so the template's length is enough ([render_fuel]).  All other recursion is
    structural.

    ** Not modelled

    The program that writes the egress policy file is not part of the
    workspace: the swarm starts it through systemd and signals the proxy.
    Failures of the database and the file system, file modes, and write-only
    logs of accesses.  Rendering of pages, the command line, the web
    interface, migrations, configuration loading, clients of remote services
    and the PostgreSQL twins of the SQLite stores.

    Of the instance service: installation of skills, and the two imports that
    parse a VS Code or a catalogue document; of the backup sink: download,
    listing and deletion, which are answers of [FleetEnv]; of the MCP runtime:
    sessions and the supervision of containers.  Texts of errors are
    abbreviated where they quote values.

    Still to come, in this order: sessions, API keys and roles; the recorder of
    streamed responses; the MCP proxy and OAuth; artefacts and channels; agent
    secrets; the local KMS commands. *)

From stdpp Require Import base list strings gmap option.
From Stdlib Require Import ZArith Lia.

(** ** Results: Rust's [Result<A, E>]

    The error type comes first so that [result E] is a monad. *)

Inductive result (E A : Type) : Type :=
| Ok (a : A)
| Err (e : E).
Arguments Ok {E A} a.
Arguments Err {E A} e.

#[global] Instance result_ret {E} : MRet (result E) := fun A a => Ok a.
#[global] Instance result_bind {E} : MBind (result E) :=
  fun A B f r => match r with Ok a => f a | Err e => Err e end.
#[global] Instance result_fmap {E} : FMap (result E) :=
  fun A B f r => match r with Ok a => Ok (f a) | Err e => Err e end.
#[global] Instance result_eq_dec {E A} `{EqDecision E, EqDecision A} :
  EqDecision (result E A).
Proof. solve_decision. Defined.

(** [r.is_ok()] *)
Definition is_ok {E A} (r : result E A) : bool :=
  match r with Ok _ => true | Err _ => false end.

(** [r.map_err(f)] *)
Definition map_err {E E' A} (f : E -> E') (r : result E A) : result E' A :=
  match r with Ok a => Ok a | Err e => Err (f e) end.

(** [o.ok_or(e)] *)
Definition ok_or {E A} (e : E) (o : option A) : result E A :=
  match o with Some a => Ok a | None => Err e end.

(** [r.ok()] *)
Definition ok {E A} (r : result E A) : option A :=
  match r with Ok a => Some a | Err _ => None end.

(** [iter.map(f).collect::<Result<Vec<_>, _>>()]: the first error wins. *)
Fixpoint traverse {E A B} (f : A -> result E B) (l : list A) : result E (list B) :=
  match l with
  | [] => Ok []
  | x :: l => y ← f x; ys ← traverse f l; Ok (y :: ys)
  end.

(** ** Stateful fallible code

    [svc W E A] is a handler over a world [W] that may fail with [E]: an
    error keeps every effect performed before it, as an early [?] does. *)

Definition svc (W E A : Type) : Type := W -> W * result E A.

#[global] Instance svc_ret {W E} : MRet (svc W E) := fun A a w => (w, Ok a).
#[global] Instance svc_bind {W E} : MBind (svc W E) :=
  fun A B f m w =>
    match m w with
    | (w', Ok a) => f a w'
    | (w', Err e) => (w', Err e)
    end.

Section svc_ops.
Context {W E : Type}.

Definition throw {A} (e : E) : svc W E A := fun w => (w, Err e).
Definition get_world : svc W E W := fun w => (w, Ok w).
Definition put_world (w : W) : svc W E unit := fun _ => (w, Ok tt).
Definition gets {A} (f : W -> A) : svc W E A := fun w => (w, Ok (f w)).
Definition modify (f : W -> W) : svc W E unit := fun w => (f w, Ok tt).
Definition lift {A} (r : result E A) : svc W E A := fun w => (w, r).

(** [m.map_err(f)?] *)
Definition with_err {E' A} (f : E' -> E) (m : svc W E' A) : svc W E A :=
  fun w => let '(w', r) := m w in (w', map_err f r).

(** [let _ = m.await;]: the effects stay, the outcome is dropped. *)
Definition best_effort {E' A} (m : svc W E' A) : svc W E unit :=
  fun w => (fst (m w), Ok tt).

(** The outcome of a call handed to a [match], with no early return. *)
Definition attempt {E' A} (m : svc W E' A) : svc W E (result E' A) :=
  fun w => let '(w', r) := m w in (w', Ok r).
End svc_ops.

(** ** Tactics *)

(** Split every [match]/[if] that the goal or a hypothesis is stuck on. *)
Ltac split_match :=
  match goal with
  | |- context [match ?x with _ => _ end] => destruct x eqn:?
  | H : context [match ?x with _ => _ end] |- _ => destruct x eqn:?
  end.

Ltac crush_match := repeat (split_match; simplify_eq/=; try done).

(** Turn boolean tests in hypotheses and goal into propositions. *)
Ltac to_prop :=
  repeat match goal with
  | H : _ && _ = true |- _ => apply andb_true_iff in H; destruct H
  | H : _ || _ = false |- _ => apply orb_false_iff in H; destruct H
  | H : negb _ = true |- _ => apply negb_true_iff in H
  | H : negb _ = false |- _ => apply negb_false_iff in H
  | H : bool_decide _ = true |- _ => apply bool_decide_eq_true in H
  | H : bool_decide _ = false |- _ => apply bool_decide_eq_false in H
  | H : (_ <=? _)%Z = true |- _ => apply Z.leb_le in H
  | H : (_ <=? _)%Z = false |- _ => apply Z.leb_gt in H
  | H : (_ <? _)%Z = true |- _ => apply Z.ltb_lt in H
  | H : (_ <? _)%Z = false |- _ => apply Z.ltb_ge in H
  | H : (_ =? _)%Z = true |- _ => apply Z.eqb_eq in H
  | H : (_ =? _)%Z = false |- _ => apply Z.eqb_neq in H
  | H : (_ =? _)%string = true |- _ => apply String.eqb_eq in H
  | H : (_ =? _)%string = false |- _ => apply String.eqb_neq in H
  end.

Lemma Ok_inj {E A} (a b : A) : @Ok E A a = Ok b -> a = b.
Proof. by intros [=]. Qed.

(** Invert a bind in [result] that ended in [Ok]. *)
Lemma result_bind_ok {E A B} (f : A -> result E B) (r : result E A) (b : B) :
  (r ≫= f) = Ok b <-> exists a, r = Ok a /\ f a = Ok b.
Proof. destruct r; cbn; naive_solver. Qed.

Lemma result_bind_err {E A B} (f : A -> result E B) (r : result E A) (e : E) :
  (r ≫= f) = Err e <-> r = Err e \/ exists a, r = Ok a /\ f a = Err e.
Proof. destruct r; cbn; naive_solver. Qed.

Lemma svc_bind_ok {W E A B} (f : A -> svc W E B) (m : svc W E A) (w w' : W) (b : B) :
  (m ≫= f) w = (w', Ok b) <-> exists w1 a, m w = (w1, Ok a) /\ f a w1 = (w', Ok b).
Proof.
  unfold mbind, svc_bind. destruct (m w) as [w1 [a|e]]; naive_solver.
Qed.

Lemma svc_bind_err {W E A B} (f : A -> svc W E B) (m : svc W E A) (w w' : W) (e : E) :
  (m ≫= f) w = (w', Err e) <->
  m w = (w', Err e) \/ exists w1 a, m w = (w1, Ok a) /\ f a w1 = (w', Err e).
Proof.
  unfold mbind, svc_bind. destruct (m w) as [w1 [a|e']]; naive_solver.
Qed.

Lemma ok_or_ok {E A} (e : E) (o : option A) (a : A) :
  ok_or e o = Ok a <-> o = Some a.
Proof. destruct o; cbn; naive_solver. Qed.

Lemma map_err_ok {E E' A} (f : E -> E') (r : result E A) (a : A) :
  map_err f r = Ok a <-> r = Ok a.
Proof. destruct r; cbn; naive_solver. Qed.

Ltac inv_ok :=
  repeat match goal with
  | H : (_ ≫= _) = Ok _ |- _ => apply result_bind_ok in H; destruct H as (? & ? & ?)
  | H : ok_or _ _ = Ok _ |- _ => apply ok_or_ok in H
  | H : map_err _ _ = Ok _ |- _ => apply map_err_ok in H
  | H : mret _ = Ok _ |- _ => injection H as H
  end; simplify_eq/=.

(** Inverting the operations of [svc] that ended in [Ok] *)
Section svc_inv.
Context {W E : Type}.

Lemma lift_ok {A} (r : result E A) (w w' : W) (a : A) :
  lift r w = (w', Ok a) <-> w' = w /\ r = Ok a.
Proof. unfold lift. naive_solver. Qed.

Lemma svc_ret_ok {A} (x a : A) (w w' : W) :
  (mret x : svc W E A) w = (w', Ok a) <-> w' = w /\ a = x.
Proof. unfold mret, svc_ret. naive_solver. Qed.

Lemma throw_ok {A} (e : E) (w w' : W) (a : A) : throw e w = (w', Ok a) <-> False.
Proof. unfold throw. naive_solver. Qed.

Lemma gets_ok {A} (f : W -> A) (w w' : W) (a : A) :
  gets (E := E) f w = (w', Ok a) <-> w' = w /\ a = f w.
Proof. unfold gets. naive_solver. Qed.

Lemma modify_ok (f : W -> W) (w w' : W) u : modify (E := E) f w = (w', Ok u) <-> w' = f w.
Proof. unfold modify. destruct u. naive_solver. Qed.

Lemma with_err_ok {E' A} (f : E' -> E) (m : svc W E' A) (w w' : W) (a : A) :
  with_err f m w = (w', Ok a) <-> m w = (w', Ok a).
Proof. unfold with_err. destruct (m w) as [w1 [x|e]]; cbn; naive_solver. Qed.

Lemma best_effort_ok {E' A} (m : svc W E' A) (w w' : W) u :
  best_effort (E := E) m w = (w', Ok u) <-> w' = fst (m w).
Proof. unfold best_effort. destruct u. naive_solver. Qed.
End svc_inv.

Ltac inv_svc :=
  repeat match goal with
  | H : (_ ≫= _) _ = (_, Ok _) |- _ => apply svc_bind_ok in H; destruct H as (? & ? & ? & H)
  | H : lift _ _ = (_, Ok _) |- _ => apply lift_ok in H; destruct H as [? H]; subst
  | H : (mret _) _ = (_, Ok _) |- _ => apply svc_ret_ok in H; destruct H as [? H]; subst
  | H : throw _ _ = (_, Ok _) |- _ => apply throw_ok in H; destruct H
  | H : gets _ _ = (_, Ok _) |- _ => apply gets_ok in H; destruct H as [? H]; subst
  | H : modify _ _ = (_, Ok _) |- _ => apply modify_ok in H; subst
  | H : with_err _ _ _ = (_, Ok _) |- _ => apply with_err_ok in H
  | H : best_effort _ _ = (_, Ok _) |- _ => apply best_effort_ok in H; subst
  end.

(** ** Frames *)

(** Whatever [m] does, it moves the world along [rel]. *)
Definition framed {W E A} (rel : W -> W -> Prop) (m : svc W E A) : Prop := forall w, rel w (m w).1.

Create HintDb framed.

Section framed.
Context {W E : Type} (rel : W -> W -> Prop) {Hrel : PreOrder rel}.

Lemma framed_bind {A B} (m : svc W E A) (f : A -> svc W E B) :
  framed rel m -> (forall a, framed rel (f a)) -> framed rel (m ≫= f).
Proof.
  intros Hm Hf w. unfold mbind, svc_bind. specialize (Hm w). destruct (m w) as [w1 [a|e]]; [|done].
  etransitivity; [exact Hm|apply Hf].
Qed.
Lemma framed_ret {A} (a : A) : framed rel (mret a : svc W E A).
Proof. intros w. reflexivity. Qed.
Lemma framed_lift {A} (r : result E A) : framed rel (lift r).
Proof. intros w. reflexivity. Qed.
Lemma framed_throw {A} (e : E) : framed rel (throw (A := A) e).
Proof. intros w. reflexivity. Qed.
Lemma framed_gets {A} (f : W -> A) : framed rel (gets (E := E) f).
Proof. intros w. reflexivity. Qed.
Lemma framed_best_effort {E' A} (m : svc W E' A) : framed rel m -> framed rel (best_effort (E := E) m).
Proof. intros Hm w. apply Hm. Qed.
Lemma framed_attempt {E' A} (m : svc W E' A) : framed rel m -> framed rel (attempt (E := E) m).
Proof. intros Hm w. unfold attempt. specialize (Hm w). by destruct (m w). Qed.
Lemma framed_with_err {E' A} (f : E' -> E) (m : svc W E' A) : framed rel m -> framed rel (with_err f m).
Proof. intros Hm w. unfold with_err. specialize (Hm w). by destruct (m w). Qed.
End framed.

#[export] Hint Resolve framed_ret framed_lift framed_throw framed_gets framed_best_effort framed_attempt
  framed_with_err : framed.

(** Walk down a handler, splitting its binds and branches. *)
Ltac framed :=
  repeat first
    [ progress auto with framed typeclass_instances
    | apply framed_bind; [apply _| |intros ?]
    | match goal with |- framed _ (match ?x with _ => _ end) => destruct x end
    | match goal with |- framed _ (if ?x then _ else _) => destruct x end ].

Lemma traverse_ok_Forall2 {E A B} (f : A -> result E B) (l : list A) (k : list B) :
  traverse f l = Ok k <-> Forall2 (fun x y => f x = Ok y) l k.
Proof.
  split.
  - revert k. induction l as [|x l IH]; cbn; intros k H; inv_ok; [constructor|].
    constructor; auto.
  - induction 1 as [|x y l k Hx _ IH]; [done|]. cbn. by rewrite Hx; cbn; rewrite IH.
Qed.

(** The error of a collection is the one of an element. *)
Lemma traverse_err {E A B} (f : A -> result E B) (l : list A) (e : E) :
  traverse f l = Err e -> exists x, x ∈ l /\ f x = Err e.
Proof.
  induction l as [|x l IH]; cbn; [done|].
  intros [H|(y & _ & H)]%result_bind_err; [exists x; set_solver|].
  apply result_bind_err in H as [H|(ys & _ & H)]; [|done]. destruct (IH H) as (z & ? & ?). exists z. set_solver.
Qed.

(** A failing element makes the whole collection fail. *)
Lemma traverse_elem_err {E A B} (f : A -> result E B) (l : list A) (x : A) (e : E) :
  x ∈ l -> f x = Err e -> is_ok (traverse f l) = false.
Proof.
  intros Hin Hf. destruct (traverse f l) as [k|] eqn:Ht; [|done].
  apply traverse_ok_Forall2 in Ht. exfalso.
  apply list_elem_of_lookup in Hin as [i Hi].
  destruct (Forall2_lookup_l _ _ _ _ _ Ht Hi) as (y & _ & Hy). congruence.
Qed.

(** ** Sorting and de-duplication: [Vec::sort] and [Vec::dedup] *)

Section sort.
Context {A : Type} (leb : A -> A -> bool).

Fixpoint insert_sorted (x : A) (l : list A) : list A :=
  match l with
  | [] => [x]
  | y :: l' => if leb x y then x :: l else y :: insert_sorted x l'
  end.

(** A stable sort; [Vec::sort] is stable too, so both agree. *)
Fixpoint sort (l : list A) : list A :=
  match l with
  | [] => []
  | x :: l => insert_sorted x (sort l)
  end.

Lemma elem_of_insert_sorted x y l : y ∈ insert_sorted x l <-> y = x \/ y ∈ l.
Proof.
  induction l as [|z l IH]; cbn; [set_solver|].
  destruct (leb x z); set_solver.
Qed.

Lemma elem_of_sort y l : y ∈ sort l <-> y ∈ l.
Proof.
  induction l as [|x l IH]; cbn; [done|].
  rewrite elem_of_insert_sorted. set_solver.
Qed.

Lemma sort_nil_inv l : sort l = [] <-> l = [].
Proof.
  split; [|by intros ->]. destruct l as [|x l]; [done|]. intros H.
  assert (x ∈ sort (x :: l)) as Hx by (apply elem_of_sort; set_solver).
  rewrite H in Hx. set_solver.
Qed.
End sort.

Section dedup.
Context {A : Type} `{EqDecision A}.

(** [Vec::dedup]: drops consecutive repetitions only. *)
Fixpoint dedup (l : list A) : list A :=
  match l with
  | [] => []
  | x :: l' =>
      match l' with
      | [] => [x]
      | y :: _ => if bool_decide (x = y) then dedup l' else x :: dedup l'
      end
  end.

Lemma dedup_cons x l :
  dedup (x :: l) =
    match l with
    | [] => [x]
    | y :: _ => if bool_decide (x = y) then dedup l else x :: dedup l
    end.
Proof. done. Qed.

Lemma elem_of_dedup x l : x ∈ dedup l <-> x ∈ l.
Proof.
  induction l as [|y l IH]; [done|]. rewrite dedup_cons.
  destruct l as [|z l]; [done|]. case_bool_decide; subst; set_solver.
Qed.

Lemma dedup_nil_inv l : dedup l = [] <-> l = [].
Proof.
  split; [|by intros ->]. destruct l as [|x l]; [done|]. intros H.
  assert (x ∈ dedup (x :: l)) as Hx by (apply elem_of_dedup; set_solver).
  rewrite H in Hx. set_solver.
Qed.

(** No two neighbours of the result are equal. *)
Fixpoint no_adjacent_dup (l : list A) : Prop :=
  match l with
  | x :: ((y :: _) as l') => x <> y /\ no_adjacent_dup l'
  | _ => True
  end.

Lemma dedup_head x l : head (dedup (x :: l)) = Some x.
Proof.
  revert x. induction l as [|y l IH]; intros x; [done|].
  rewrite dedup_cons. case_bool_decide; [|done]. subst. apply IH.
Qed.

Lemma dedup_no_adjacent_dup l : no_adjacent_dup (dedup l).
Proof.
  induction l as [|x l IH]; [done|]. rewrite dedup_cons.
  destruct l as [|y l]; [done|]. case_bool_decide as Hne; [done|].
  pose proof (dedup_head y l) as Hh.
  destruct (dedup (y :: l)) as [|z k]; [done|]. cbn in Hh. simplify_eq.
  by split.
Qed.
End dedup.

Lemma existsb_exists' {A} (f : A -> bool) (l : list A) :
  existsb f l = true <-> exists x, x ∈ l /\ f x = true.
Proof. rewrite existsb_exists. by setoid_rewrite list_elem_of_In. Qed.

Lemma forallb_forall' {A} (f : A -> bool) (l : list A) :
  forallb f l = true <-> forall x, x ∈ l -> f x = true.
Proof. rewrite forallb_forall. by setoid_rewrite list_elem_of_In. Qed.

Lemma exists_elem_cons {A} (P : A -> Prop) (x : A) (l : list A) :
  (exists c, c ∈ x :: l /\ P c) <-> P x \/ exists c, c ∈ l /\ P c.
Proof. setoid_rewrite elem_of_cons. naive_solver. Qed.

Lemma exists_elem_nil {A} (P : A -> Prop) : (exists c, c ∈ @nil A /\ P c) <-> False.
Proof. split; [|done]. intros (c & Hc & _). by apply elem_of_nil in Hc. Qed.

(** ** Hint databases of the development *)

Create HintDb swarm discriminated.
#[export] Hint Resolve elem_of_sort elem_of_dedup : swarm.
Create Rewrite HintDb swarm_rw.
#[export] Hint Rewrite @elem_of_sort @elem_of_dedup : swarm_rw.

(** ** Machine integers *)

(** A test on every integer of an interval, for facts about small words. *)
Fixpoint all_from (n : nat) (z : Z) (f : Z -> bool) : bool :=
  match n with O => true | S n => f z && all_from n (z + 1) f end.

Lemma all_from_spec n z f :
  all_from n z f = true -> forall k, (z <= k < z + Z.of_nat n)%Z -> f k = true.
Proof.
  revert z. induction n as [|n IH]; intros z H k Hk; [lia|].
  cbn in H. apply andb_true_iff in H as [H1 H2].
  destruct (Z.eq_dec z k) as [->|Hne]; [done|]. apply (IH (z + 1)%Z); [done|lia].
Qed.

Definition u8_max : Z := 255.
Definition u16_max : Z := 65535.
Definition u32_max : Z := 4294967295.
Definition u64_max : Z := 18446744073709551615.
Definition i64_max : Z := 9223372036854775807.
Definition i64_min : Z := -9223372036854775808.

(** [i64] addition of a release build, which wraps around. *)
Definition wrap_i64 (z : Z) : Z := ((z - i64_min) mod 18446744073709551616 + i64_min)%Z.

(** A projection that is injective over a list's elements picks one element. *)
Lemma NoDup_map_inj {A B} (f : A -> B) (l : list A) (x y : A) :
  base.NoDup (map f l) -> x ∈ l -> y ∈ l -> f x = f y -> x = y.
Proof.
  intros Hn Hx Hy Hf. apply list_elem_of_lookup in Hx as [i Hi], Hy as [j Hj].
  assert (i = j) as ->; [|congruence].
  eapply (NoDup_lookup (map f l)); [done| |]; rewrite list_lookup_fmap.
  - by rewrite Hi.
  - rewrite Hj. cbn. by f_equal.
Qed.

(** Sorting two related lists by related orders *)
Lemma sort_related {A B} (rel : A -> B -> Prop) (le : A -> A -> bool) (le' : B -> B -> bool) l k :
  (forall x y x' y', rel x x' -> rel y y' -> le x y = le' x' y') ->
  Forall2 rel l k -> Forall2 rel (sort le l) (sort le' k).
Proof.
  intros Hle. induction 1 as [|x x' l k Hx _ IH]; [constructor|]. cbn.
  induction IH as [|y y' l' k' Hy Hl IH]; cbn; [by constructor|].
  rewrite (Hle x y x' y' Hx Hy). destruct (le' x' y'); by repeat constructor.
Qed.

(** [i64::try_from(n).unwrap_or(i64::MAX)] on a non-negative length. *)
Definition len_i64 (n : nat) : Z :=
  if (Z.of_nat n <=? i64_max)%Z then Z.of_nat n else i64_max.
