(* ===== verification/RustStr.v ===== *)
(** * Rust's byte strings and integers

    A Rust [&str] is modelled by its UTF-8 bytes, a [string] whose
    characters are bytes.  Each definition models the standard-library
    method named in its comment; only what the sources use is here. *)

From stdpp Require Import base list strings gmap option pretty.
From Stdlib Require Import ZArith Ascii Lia.
From S2P Require Import Prelude.

Local Open Scope Z_scope.

#[global] Arguments String.append : simpl nomatch.

(** The value of a byte. *)
Definition byte_val (c : ascii) : Z := Z.of_N (N_of_ascii c).

(** [s.len()] counts bytes. *)
Definition len (s : string) : Z := Z.of_nat (String.length s).

(** [s.is_empty()] *)
Definition is_empty (s : string) : bool :=
  match s with EmptyString => true | _ => false end.

(** [u8::is_ascii_digit] *)
Definition is_ascii_digit (c : ascii) : bool :=
  (48 <=? byte_val c) && (byte_val c <=? 57).

(** [u8::is_ascii_alphabetic] *)
Definition is_ascii_alphabetic (c : ascii) : bool :=
  (65 <=? byte_val c) && (byte_val c <=? 90)
  || (97 <=? byte_val c) && (byte_val c <=? 122).

(** [u8::is_ascii_alphanumeric] *)
Definition is_ascii_alphanumeric (c : ascii) : bool :=
  is_ascii_alphabetic c || is_ascii_digit c.

(** [u8::is_ascii_whitespace]: space, tab, LF, FF, CR (not VT). *)
Definition is_ascii_whitespace (c : ascii) : bool :=
  let v := byte_val c in
  (v =? 32) || (v =? 9) || (v =? 10) || (v =? 12) || (v =? 13).

(** [u8::to_ascii_lowercase] *)
Definition to_lower (c : ascii) : ascii :=
  if (65 <=? byte_val c) && (byte_val c <=? 90)
  then ascii_of_N (N_of_ascii c + 32) else c.

(** [u8::to_ascii_uppercase], [str::to_ascii_uppercase] *)
Definition to_upper (c : ascii) : ascii :=
  if (97 <=? byte_val c) && (byte_val c <=? 122)
  then ascii_of_N (N_of_ascii c - 32) else c.
Fixpoint to_ascii_uppercase (s : string) : string :=
  match s with
  | EmptyString => EmptyString
  | String c s => String (to_upper c) (to_ascii_uppercase s)
  end.

(** [str::to_ascii_lowercase] *)
Fixpoint to_ascii_lowercase (s : string) : string :=
  match s with
  | EmptyString => EmptyString
  | String c s => String (to_lower c) (to_ascii_lowercase s)
  end.

(** [str::eq_ignore_ascii_case] *)
Definition eq_ignore_ascii_case (a b : string) : bool :=
  String.eqb (to_ascii_lowercase a) (to_ascii_lowercase b).

(** [s.bytes().all(p)] *)
Fixpoint all_bytes (p : ascii -> bool) (s : string) : bool :=
  match s with EmptyString => true | String c s => p c && all_bytes p s end.

(** [s.contains(c)] for a character. *)
Fixpoint contains_char (c : ascii) (s : string) : bool :=
  match s with
  | EmptyString => false
  | String d s => Ascii.eqb c d || contains_char c s
  end.

(** [s.starts_with(p)] *)
Fixpoint starts_with (p s : string) : bool :=
  match p, s with
  | EmptyString, _ => true
  | String c p, String d s => Ascii.eqb c d && starts_with p s
  | String _ _, EmptyString => false
  end.

(** [s.contains(p)] for a substring. *)
Fixpoint contains_str (p s : string) : bool :=
  starts_with p s
  || match s with EmptyString => false | String _ s => contains_str p s end.

(** [s.strip_prefix(p)] *)
Fixpoint strip_prefix (p s : string) : option string :=
  match p, s with
  | EmptyString, _ => Some s
  | String c p, String d s => if Ascii.eqb c d then strip_prefix p s else None
  | String _ _, EmptyString => None
  end.

(** The string with its bytes in reverse order (for the [_end] methods). *)
Fixpoint rev_append (s acc : string) : string :=
  match s with
  | EmptyString => acc
  | String c s => rev_append s (String c acc)
  end.
Definition rev_str (s : string) : string := rev_append s EmptyString.

(** [s.ends_with(p)] *)
Definition ends_with (p s : string) : bool := starts_with (rev_str p) (rev_str s).

(** [s.strip_suffix(p)] *)
Definition strip_suffix (p s : string) : option string :=
  option_map rev_str (strip_prefix (rev_str p) (rev_str s)).

(** [s.split(c)] for a character: always at least one piece. *)
Fixpoint split (sep : ascii) (s : string) : list string :=
  match s with
  | EmptyString => [EmptyString]
  | String c s' =>
      if Ascii.eqb c sep then EmptyString :: split sep s'
      else match split sep s' with
           | [] => [String c EmptyString]
           | h :: t => String c h :: t
           end
  end.

(** [s.split_once(c)] *)
Fixpoint split_once (sep : ascii) (s : string) : option (string * string) :=
  match s with
  | EmptyString => None
  | String c s' =>
      if Ascii.eqb c sep then Some (EmptyString, s')
      else match split_once sep s' with
           | Some (a, b) => Some (String c a, b)
           | None => None
           end
  end.

(** [s.split_once(pat)] for a string *)
Fixpoint split_once_str (pat s : string) : option (string * string) :=
  match strip_prefix pat s with
  | Some rest => Some (EmptyString, rest)
  | None =>
      match s with
      | EmptyString => None
      | String c s =>
          match split_once_str pat s with
          | Some (x, y) => Some (String c x, y)
          | None => None
          end
      end
  end.

(** [s.split(pat)] for a non-empty string: each piece consumes a byte. *)
Fixpoint split_str_fuel (fuel : nat) (pat s : string) : list string :=
  match fuel with
  | O => [s]
  | S fuel =>
      match split_once_str pat s with
      | Some (x, y) => x :: split_str_fuel fuel pat y
      | None => [s]
      end
  end.
Definition split_str (pat s : string) : list string := split_str_fuel (String.length s) pat s.

(** [v.join(sep)] *)
Fixpoint join (sep : string) (l : list string) : string :=
  match l with
  | [] => EmptyString
  | x :: l' => match l' with [] => x | _ :: _ => (x +:+ sep +:+ join sep l')%string end
  end.

(** ** Trimming

    [str::trim] removes the characters with the Unicode property
    [White_Space]; in UTF-8 these are the byte sequences below. *)

Definition b (n : N) : ascii := ascii_of_N n.

(** If [s] starts with a white-space character, what follows it. *)
Definition skip_ws (s : string) : option string :=
  match s with
  | String c1 s1 =>
      let v1 := byte_val c1 in
      if (v1 =? 32) || ((9 <=? v1) && (v1 <=? 13)) then Some s1 else
      match s1 with
      | String c2 s2 =>
          let v2 := byte_val c2 in
          if (v1 =? 0xC2) && ((v2 =? 0x85) || (v2 =? 0xA0)) then Some s2 else
          match s2 with
          | String c3 s3 =>
              let v3 := byte_val c3 in
              if (v1 =? 0xE1) && (v2 =? 0x9A) && (v3 =? 0x80)
                 || (v1 =? 0xE2) && (v2 =? 0x80) &&
                    ((0x80 <=? v3) && (v3 <=? 0x8A)
                     || (v3 =? 0xA8) || (v3 =? 0xA9) || (v3 =? 0xAF))
                 || (v1 =? 0xE2) && (v2 =? 0x81) && (v3 =? 0x9F)
                 || (v1 =? 0xE3) && (v2 =? 0x80) && (v3 =? 0x80)
              then Some s3 else None
          | EmptyString => None
          end
      | EmptyString => None
      end
  | EmptyString => None
  end.

(** The same on a reversed string: the bytes of the last character come in
    the opposite order. *)
Definition skip_ws_rev (s : string) : option string :=
  match s with
  | String c1 s1 =>
      let v1 := byte_val c1 in
      if (v1 =? 32) || ((9 <=? v1) && (v1 <=? 13)) then Some s1 else
      match s1 with
      | String c2 s2 =>
          let v2 := byte_val c2 in
          if (v2 =? 0xC2) && ((v1 =? 0x85) || (v1 =? 0xA0)) then Some s2 else
          match s2 with
          | String c3 s3 =>
              let v3 := byte_val c3 in
              if (v3 =? 0xE1) && (v2 =? 0x9A) && (v1 =? 0x80)
                 || (v3 =? 0xE2) && (v2 =? 0x80) &&
                    ((0x80 <=? v1) && (v1 <=? 0x8A)
                     || (v1 =? 0xA8) || (v1 =? 0xA9) || (v1 =? 0xAF))
                 || (v3 =? 0xE2) && (v2 =? 0x81) && (v1 =? 0x9F)
                 || (v3 =? 0xE3) && (v2 =? 0x80) && (v1 =? 0x80)
              then Some s3 else None
          | EmptyString => None
          end
      | EmptyString => None
      end
  | EmptyString => None
  end.

(** Repeat a skip; every step consumes a byte, so the length is enough fuel. *)
Fixpoint skip_all (skip : string -> option string) (fuel : nat) (s : string) : string :=
  match fuel with
  | O => s
  | S fuel => match skip s with Some s' => skip_all skip fuel s' | None => s end
  end.

(** [str::trim_start], [str::trim_end], [str::trim] *)
Definition trim_start (s : string) : string := skip_all skip_ws (String.length s) s.
Definition trim_end (s : string) : string :=
  rev_str (skip_all skip_ws_rev (String.length s) (rev_str s)).
Definition trim (s : string) : string := trim_end (trim_start s).

(** [s.trim_start_matches(c)], [s.trim_end_matches(c)] for a character. *)
Fixpoint trim_start_matches (c : ascii) (s : string) : string :=
  match s with
  | String d s' => if Ascii.eqb c d then trim_start_matches c s' else s
  | EmptyString => EmptyString
  end.
Definition trim_end_matches (c : ascii) (s : string) : string :=
  rev_str (trim_start_matches c (rev_str s)).

(** ** Integers in decimal *)

(** [char::to_digit(10)] on a byte. *)
Definition digit10 (c : ascii) : option Z :=
  if is_ascii_digit c then Some (byte_val c - 48) else None.

Fixpoint parse_digits (acc : Z) (s : string) : option Z :=
  match s with
  | EmptyString => Some acc
  | String c s =>
      match digit10 c with
      | Some d => parse_digits (10 * acc + d) s
      | None => None
      end
  end.

(** [s.parse::<uN>()] for the unsigned type with maximum [max]: an optional
    leading plus sign, at least one digit, and no overflow.  The running
    value only grows, so testing the final value is the per-digit test. *)
Definition parse_uint (max : Z) (s : string) : option Z :=
  let digits := match s with
                | String c r => if Ascii.eqb c "+" then r else s
                | EmptyString => s
                end in
  if is_empty digits then None
  else match parse_digits 0 digits with
       | Some n => if n <=? max then Some n else None
       | None => None
       end.

(** [s.parse::<i64>()] *)
Definition parse_i64 (s : string) : option Z :=
  match s with
  | String c digits =>
      if Ascii.eqb c "-" then
        if is_empty digits then None
        else match parse_digits 0 digits with
             | Some n => if i64_min <=? - n then Some (- n) else None
             | None => None
             end
      else parse_uint i64_max s
  | EmptyString => None
  end.

Definition parse_u8 : string -> option Z := parse_uint u8_max.
Definition parse_u16 : string -> option Z := parse_uint u16_max.

(** [format!("{n}")] for a non-negative integer. *)
Definition dec (n : Z) : string := pretty (Z.to_N n).

(** Byte-wise lexicographic order: [Ord for str]. *)
Definition str_leb (a b : string) : bool := String.leb a b.
Definition sort_strs : list string -> list string := sort str_leb.

(** ** UTF-8

    [utf8_step] reads one scalar value off a byte string, or the maximal
    ill-formed prefix that [String::from_utf8_lossy] replaces as one. *)

Definition in_range (lo hi : Z) (c : ascii) : bool := (lo <=? byte_val c) && (byte_val c <=? hi).
Definition is_cont : ascii -> bool := in_range 128 191.

(** The range of the second byte of a three- or four-byte sequence *)
Definition second_ok (c d : ascii) : bool :=
  match byte_val c with
  | 224 => in_range 160 191 d
  | 237 => in_range 128 159 d
  | 240 => in_range 144 191 d
  | 244 => in_range 128 143 d
  | _ => is_cont d
  end.

Definition utf8_step (s : string) : option (bool * string * string) :=
  match s with
  | EmptyString => None
  | String c s1 =>
      let bad n rest := Some (false, n, rest) in
      let one := String c EmptyString in
      if byte_val c <? 128 then Some (true, one, s1)
      else if in_range 194 223 c then
        match s1 with
        | String d s2 => if is_cont d then Some (true, String c (String d EmptyString), s2)
                         else bad one s1
        | EmptyString => bad one s1
        end
      else if in_range 224 244 c then
        match s1 with
        | String d s2 =>
            if negb (second_ok c d) then bad one s1
            else match s2 with
            | String e s3 =>
                if negb (is_cont e) then bad (String c (String d EmptyString)) s2
                else if byte_val c <? 240
                then Some (true, String c (String d (String e EmptyString)), s3)
                else match s3 with
                | String f s4 =>
                    if is_cont f
                    then Some (true, String c (String d (String e (String f EmptyString))), s4)
                    else bad (String c (String d (String e EmptyString))) s3
                | EmptyString => bad (String c (String d (String e EmptyString))) s3
                end
            | EmptyString => bad (String c (String d EmptyString)) s2
            end
        | EmptyString => bad one s1
        end
      else bad one s1
  end.

(** U+FFFD *)
Definition replacement : string := String (b 239) (String (b 191) (String (b 189) EmptyString)).

Fixpoint utf8_lossy_fuel (fuel : nat) (s : string) : string :=
  match fuel with
  | O => EmptyString
  | S fuel =>
      match utf8_step s with
      | None => EmptyString
      | Some (valid, chunk, rest) =>
          ((if valid then chunk else replacement) +:+ utf8_lossy_fuel fuel rest)%string
      end
  end.

(** [String::from_utf8_lossy]; each step consumes a byte at least. *)
Definition from_utf8_lossy (s : string) : string := utf8_lossy_fuel (String.length s) s.

Fixpoint utf8_valid_fuel (fuel : nat) (s : string) : bool :=
  match fuel with
  | O => true
  | S fuel =>
      match utf8_step s with
      | None => true
      | Some (valid, _, rest) => valid && utf8_valid_fuel fuel rest
      end
  end.

(** [String::from_utf8] *)
Definition from_utf8 (s : string) : option string :=
  if utf8_valid_fuel (String.length s) s then Some s else None.

(** ** Lemmas *)

(** [c] occurs nowhere in [s]. *)
Notation no_char c s := (contains_char c s = false).

Lemma contains_char_app c s t :
  contains_char c (s +:+ t)%string = contains_char c s || contains_char c t.
Proof. induction s as [|d s IH]; cbn; [done|]. by rewrite IH, orb_assoc. Qed.

Lemma split_not_nil sep s : split sep s <> [].
Proof.
  destruct s as [|c s]; cbn; [done|]. destruct (Ascii.eqb c sep); [done|].
  by destruct (split sep s).
Qed.

(** No piece of a split holds the separator. *)
Lemma split_no_sep sep s p : p ∈ split sep s -> no_char sep p.
Proof.
  revert p. induction s as [|c s IH]; cbn; intros p Hp.
  { by apply list_elem_of_singleton in Hp as ->. }
  destruct (Ascii.eqb c sep) eqn:Hc.
  { apply elem_of_cons in Hp as [->|Hp]; [done|auto]. }
  pose proof (split_not_nil sep s).
  destruct (split sep s) as [|h t] eqn:Hs; [done|].
  apply elem_of_cons in Hp as [->|Hp]; [|apply IH; set_solver].
  cbn. rewrite Ascii.eqb_sym, Hc. cbn. apply IH. set_solver.
Qed.

Lemma split_no_sep_single sep s : no_char sep s -> split sep s = [s].
Proof.
  induction s as [|c s IH]; cbn; intros H; [done|].
  apply orb_false_iff in H as [H1 H2]. rewrite Ascii.eqb_sym, H1. by rewrite IH.
Qed.

Lemma split_app sep s t :
  no_char sep s ->
  split sep (s +:+ String sep t)%string = s :: split sep t.
Proof.
  induction s as [|c s IH]; cbn; intros H; [by rewrite Ascii.eqb_refl|].
  apply orb_false_iff in H as [H1 H2]. rewrite Ascii.eqb_sym, H1.
  by rewrite IH.
Qed.

(** Splitting a join gives the pieces back. *)
Lemma split_join sep l :
  l <> [] -> Forall (fun p => no_char sep p) l ->
  split sep (join (String sep EmptyString) l) = l.
Proof.
  intros Hne Hl. induction Hl as [|p l Hp Hl IH]; [done|].
  destruct l as [|q l]; cbn [join]; [by apply split_no_sep_single|].
  transitivity (p :: split sep (join (String sep EmptyString) (q :: l))).
  - by apply (split_app sep p (join (String sep EmptyString) (q :: l))).
  - by rewrite IH.
Qed.

Lemma join_split sep s : join (String sep EmptyString) (split sep s) = s.
Proof.
  induction s as [|c s IH]; cbn [split]; [done|].
  pose proof (split_not_nil sep s) as Hne.
  destruct (Ascii.eqb c sep) eqn:Hc.
  - apply Ascii.eqb_eq in Hc as ->.
    destruct (split sep s) as [|h t]; [done|]. cbn [join] in *.
    by rewrite <- IH.
  - destruct (split sep s) as [|h t]; [done|]. cbn [join] in *.
    rewrite <- IH. by destruct t.
Qed.

Lemma split_once_some sep s x y :
  split_once sep s = Some (x, y) <-> s = (x +:+ String sep y)%string /\ no_char sep x.
Proof.
  revert x y. induction s as [|c s IH]; intros x y; cbn.
  { split; [done|]. by intros [H _]; destruct x. }
  destruct (Ascii.eqb c sep) eqn:Hc.
  - apply Ascii.eqb_eq in Hc as ->. split.
    + by intros [= <- <-].
    + intros [H Hx]. destruct x as [|d x]; cbn in *; [by simplify_eq|].
      simplify_eq. by rewrite Ascii.eqb_refl in Hx.
  - destruct (split_once sep s) as [[p q]|] eqn:Hs.
    + destruct (proj1 (IH p q) eq_refl) as [-> Hp]. split.
      * intros [= <- <-]. cbn. rewrite Ascii.eqb_sym, Hc. done.
      * intros [H Hx]. destruct x as [|d x]; cbn in *; simplify_eq.
        { by rewrite Ascii.eqb_refl in Hc. }
        apply orb_false_iff in Hx as [_ Hx].
        assert (Some (p, q) = Some (x, y)) as E by (apply IH; done). by simplify_eq.
    + split; [done|]. intros [H Hx]. destruct x as [|d x]; cbn in *; simplify_eq.
      { by rewrite Ascii.eqb_refl in Hc. }
      apply orb_false_iff in Hx as [_ Hx].
      assert (@None (string * string) = Some (x, y)) by (apply IH; done). done.
Qed.

Lemma split_once_none sep s : split_once sep s = None <-> no_char sep s.
Proof.
  induction s as [|c s IH]; cbn; [done|]. rewrite (Ascii.eqb_sym sep c).
  destruct (Ascii.eqb c sep); cbn; [done|].
  destruct (split_once sep s) as [[p q]|]; naive_solver.
Qed.

Lemma append_assoc s t u : (s +:+ (t +:+ u) = (s +:+ t) +:+ u)%string.
Proof. induction s as [|c s IH]; cbn; [done|by rewrite IH]. Qed.

Lemma rev_append_app s acc : rev_append s acc = (rev_str s +:+ acc)%string.
Proof.
  unfold rev_str. revert acc. induction s as [|c s IH]; intros acc; cbn; [done|].
  rewrite IH, (IH (String c EmptyString)). by rewrite <- append_assoc.
Qed.

Lemma append_nil_r s : (s +:+ "")%string = s.
Proof. induction s as [|c s IH]; cbn; [done|by rewrite IH]. Qed.

Lemma rev_str_app s t : rev_str (s +:+ t)%string = (rev_str t +:+ rev_str s)%string.
Proof.
  induction s as [|c s IH]; [by cbn; rewrite append_nil_r|].
  unfold rev_str in *. cbn [rev_append String.append].
  rewrite (rev_append_app (s +:+ t)), (rev_append_app s). unfold rev_str.
  rewrite IH. by rewrite <- append_assoc.
Qed.

Lemma rev_str_involutive s : rev_str (rev_str s) = s.
Proof.
  induction s as [|c s IH]; [done|].
  change (String c s) with (String c "" +:+ s)%string.
  rewrite rev_str_app, rev_str_app, IH. done.
Qed.

Lemma starts_with_app p s : starts_with p s = true <-> exists t, s = (p +:+ t)%string.
Proof.
  revert s. induction p as [|c p IH]; intros s; cbn; [naive_solver|].
  destruct s as [|d s]; cbn; [naive_solver|].
  rewrite andb_true_iff, Ascii.eqb_eq, IH. naive_solver.
Qed.

Lemma ends_with_app p s : ends_with p s = true <-> exists t, s = (t +:+ p)%string.
Proof.
  unfold ends_with. rewrite starts_with_app. split; intros [t Ht].
  - exists (rev_str t). rewrite <- (rev_str_involutive s), Ht.
    by rewrite rev_str_app, rev_str_involutive.
  - exists (rev_str t). by rewrite Ht, rev_str_app.
Qed.

Lemma strip_prefix_some p s t :
  strip_prefix p s = Some t <-> s = (p +:+ t)%string.
Proof.
  revert s. induction p as [|c p IH]; intros s; cbn; [naive_solver|].
  destruct s as [|d s]; [naive_solver|]. cbn.
  destruct (Ascii.eqb c d) eqn:E.
  - apply Ascii.eqb_eq in E as ->. rewrite IH. naive_solver.
  - apply Ascii.eqb_neq in E. naive_solver.
Qed.

Lemma strip_suffix_some p s t :
  strip_suffix p s = Some t <-> s = (t +:+ p)%string.
Proof.
  unfold strip_suffix. split.
  - destruct (strip_prefix (rev_str p) (rev_str s)) as [r|] eqn:E; cbn; [|done].
    intros [= <-]. apply strip_prefix_some in E.
    by rewrite <- (rev_str_involutive s), E, rev_str_app, rev_str_involutive.
  - intros ->. rewrite rev_str_app.
    assert (strip_prefix (rev_str p) (rev_str p +:+ rev_str t)%string = Some (rev_str t))
      as -> by by apply strip_prefix_some.
    cbn. by rewrite rev_str_involutive.
Qed.

Lemma all_bytes_app p s t :
  all_bytes p (s +:+ t)%string = all_bytes p s && all_bytes p t.
Proof. induction s as [|c s IH]; cbn; [done|]. by rewrite IH, andb_assoc. Qed.

(** A byte class that excludes [c] excludes [c] from the string. *)
Lemma all_bytes_no_char p c s : all_bytes p s = true -> p c = false -> no_char c s.
Proof.
  induction s as [|d s IH]; cbn; [done|]. intros H Hc.
  apply andb_true_iff in H as [Hd Hs]. rewrite IH by done.
  destruct (Ascii.eqb c d) eqn:E; [|done]. apply Ascii.eqb_eq in E as ->. congruence.
Qed.

Lemma byte_val_range c : 0 <= byte_val c < 256.
Proof.
  unfold byte_val. pose proof (N_ascii_bounded c). lia.
Qed.

Lemma digit10_range c d : digit10 c = Some d -> 0 <= d <= 9.
Proof. unfold digit10, is_ascii_digit. intros H. case_match; simplify_eq. to_prop. lia. Qed.

Lemma parse_digits_nonneg s acc n : 0 <= acc -> parse_digits acc s = Some n -> acc <= n.
Proof.
  revert acc. induction s as [|c s IH]; cbn; intros acc Ha H; [by simplify_eq|].
  destruct (digit10 c) as [d|] eqn:Hd; [|done]. apply digit10_range in Hd.
  apply IH in H; lia.
Qed.

Lemma parse_uint_range max s n : parse_uint max s = Some n -> 0 <= n <= max.
Proof.
  unfold parse_uint. set (digits := match s with EmptyString => _ | _ => _ end).
  destruct (is_empty digits); [done|].
  destruct (parse_digits 0 digits) as [m|] eqn:Hm; [|done].
  destruct (m <=? max) eqn:Hle; [|done]. intros [= <-]. to_prop.
  apply parse_digits_nonneg in Hm; lia.
Qed.

(** A fact about bytes, checked on all 256 of them. *)
Ltac by_bytes c := destruct c as [[] [] [] [] [] [] [] []]; vm_compute; first [reflexivity | congruence].

(** ** Trimming leaves text without white space at its ends alone *)

(** Visible ASCII. *)
Definition is_graphic (c : ascii) : bool := (33 <=? byte_val c) && (byte_val c <=? 126).

Lemma skip_ws_graphic c s : is_graphic c = true -> skip_ws (String c s) = None.
Proof.
  unfold is_graphic. intros H. to_prop. unfold skip_ws.
  repeat case_match; try done; to_prop;
  repeat match goal with H : (_ || _) = true |- _ => apply orb_true_iff in H as [H|H]; to_prop end;
  lia.
Qed.

Lemma skip_ws_rev_graphic c s : is_graphic c = true -> skip_ws_rev (String c s) = None.
Proof.
  unfold is_graphic. intros H. to_prop. unfold skip_ws_rev.
  repeat case_match; try done; to_prop;
  repeat match goal with H : (_ || _) = true |- _ => apply orb_true_iff in H as [H|H]; to_prop end;
  lia.
Qed.

Lemma all_bytes_rev p s : all_bytes p (rev_str s) = all_bytes p s.
Proof.
  induction s as [|c s IH]; [done|].
  change (String c s) with (String c "" +:+ s)%string.
  rewrite rev_str_app, !all_bytes_app, IH. cbn. by rewrite andb_true_r, andb_comm.
Qed.

Lemma skip_all_stop skip n s : skip s = None -> skip_all skip n s = s.
Proof. destruct n; cbn; [done|]. by intros ->. Qed.

Lemma trim_graphic s : all_bytes is_graphic s = true -> trim s = s.
Proof.
  intros H. unfold trim, trim_start, trim_end.
  assert (forall t, all_bytes is_graphic t = true -> skip_ws t = None) as Hs.
  { intros [|c t]; cbn [all_bytes]; [done|]. intros [? _]%andb_true_iff.
    by apply skip_ws_graphic. }
  assert (forall t, all_bytes is_graphic t = true -> skip_ws_rev t = None) as Hr.
  { intros [|c t]; cbn [all_bytes]; [done|]. intros [? _]%andb_true_iff.
    by apply skip_ws_rev_graphic. }
  rewrite (skip_all_stop skip_ws) by auto.
  rewrite skip_all_stop by (apply Hr; by rewrite all_bytes_rev).
  apply rev_str_involutive.
Qed.

Lemma all_bytes_impl (p q : ascii -> bool) s :
  (forall c, p c = true -> q c = true) -> all_bytes p s = true -> all_bytes q s = true.
Proof.
  intros Hpq. induction s as [|c s IH]; cbn; [done|].
  intros [? ?]%andb_true_iff. apply andb_true_iff. auto.
Qed.

(** ** Integers *)

(** The bytes of an accepted integer. *)
Definition is_int_char (c : ascii) : bool := is_ascii_digit c || Ascii.eqb c "+".

Lemma parse_digits_bytes s acc n :
  parse_digits acc s = Some n -> all_bytes is_ascii_digit s = true.
Proof.
  revert acc. induction s as [|c s IH]; cbn; intros acc H; [done|].
  unfold digit10 in H. destruct (is_ascii_digit c); [|done]. cbn. eauto.
Qed.

Lemma parse_uint_bytes max s n :
  parse_uint max s = Some n -> all_bytes is_int_char s = true.
Proof.
  unfold parse_uint. intros H.
  assert (forall t m, parse_digits 0 t = Some m -> all_bytes is_int_char t = true) as Hd.
  { intros t m Hm%parse_digits_bytes. revert Hm. apply all_bytes_impl.
    unfold is_int_char. by intros c ->. }
  destruct s as [|c s]; [done|]. destruct (Ascii.eqb c "+") eqn:Hc.
  - apply Ascii.eqb_eq in Hc as ->. destruct (is_empty s); [done|].
    destruct (parse_digits 0 s) as [m|] eqn:Hm; [|done].
    cbn [all_bytes]. rewrite (Hd _ _ Hm). done.
  - cbn [is_empty] in H. destruct (parse_digits 0 (String c s)) as [m|] eqn:Hm; [|done].
    eauto.
Qed.

Lemma parse_uint_not_empty max s n : parse_uint max s = Some n -> s <> EmptyString.
Proof. by intros H ->. Qed.

(** ** Lower-casing *)

Lemma to_ascii_lowercase_length s : String.length (to_ascii_lowercase s) = String.length s.
Proof. induction s as [|c s IH]; cbn; [done|by rewrite IH]. Qed.

Lemma to_lower_idem c : to_lower (to_lower c) = to_lower c.
Proof. by_bytes c. Qed.

Lemma to_ascii_lowercase_idem s :
  to_ascii_lowercase (to_ascii_lowercase s) = to_ascii_lowercase s.
Proof. induction s as [|c s IH]; cbn; [done|]. by rewrite to_lower_idem, IH. Qed.

(** A separator that is not a letter is stable under lower-casing. *)
Lemma to_lower_sep c sep :
  is_ascii_alphabetic sep = false -> Ascii.eqb (to_lower c) sep = Ascii.eqb c sep.
Proof.
  intros Hs. destruct (Ascii.eqb c sep) eqn:E.
  - apply Ascii.eqb_eq in E as ->. revert Hs. by_bytes sep.
  - apply Ascii.eqb_neq in E. apply Ascii.eqb_neq. intros <-. apply E. revert Hs.
    by_bytes c.
Qed.

Lemma split_lower sep s :
  is_ascii_alphabetic sep = false ->
  split sep (to_ascii_lowercase s) = map to_ascii_lowercase (split sep s).
Proof.
  intros Hs. induction s as [|c s IH]; cbn; [done|].
  rewrite to_lower_sep by done. destruct (Ascii.eqb c sep); cbn; [by rewrite IH|].
  rewrite IH. by destruct (split sep s).
Qed.

Lemma contains_char_lower sep s :
  is_ascii_alphabetic sep = false ->
  contains_char sep (to_ascii_lowercase s) = contains_char sep s.
Proof.
  intros Hs. induction s as [|c s IH]; cbn; [done|].
  by rewrite IH, !(Ascii.eqb_sym sep), to_lower_sep.
Qed.

Lemma all_bytes_lower p s :
  (forall c, p (to_lower c) = p c) -> all_bytes p (to_ascii_lowercase s) = all_bytes p s.
Proof. intros Hp. induction s as [|c s IH]; cbn; [done|]. by rewrite Hp, IH. Qed.

Lemma to_ascii_lowercase_app s t :
  to_ascii_lowercase (s +:+ t) = (to_ascii_lowercase s +:+ to_ascii_lowercase t)%string.
Proof. induction s as [|c s IH]; cbn; [done|by rewrite IH]. Qed.

Lemma to_ascii_lowercase_rev s :
  to_ascii_lowercase (rev_str s) = rev_str (to_ascii_lowercase s).
Proof.
  induction s as [|c s IH]; [done|].
  change (String c s) with (String c "" +:+ s)%string.
  by rewrite rev_str_app, !to_ascii_lowercase_app, IH, rev_str_app.
Qed.

Lemma digit10_lower c : digit10 (to_lower c) = digit10 c.
Proof. by_bytes c. Qed.

Lemma parse_digits_lower s acc :
  parse_digits acc (to_ascii_lowercase s) = parse_digits acc s.
Proof.
  revert acc. induction s as [|c s IH]; cbn; intros acc; [done|].
  rewrite digit10_lower. by case_match.
Qed.

Lemma parse_uint_lower max s : parse_uint max (to_ascii_lowercase s) = parse_uint max s.
Proof.
  unfold parse_uint. destruct s as [|c s]; [done|]. cbn [to_ascii_lowercase].
  rewrite to_lower_sep by done. destruct (Ascii.eqb c "+").
  - rewrite parse_digits_lower. by destruct s.
  - change (String (to_lower c) (to_ascii_lowercase s)) with (to_ascii_lowercase (String c s)).
    by rewrite parse_digits_lower.
Qed.

(** ** Decimal text and unique splitting *)

Lemma pretty_go_digits (x : N) (s : string) :
  all_bytes is_ascii_digit s = true -> all_bytes is_ascii_digit (pretty_N_go x s) = true.
Proof.
  revert s. induction (N.lt_wf_0 x) as [x _ IH]; intros s Hs.
  destruct (decide (x = 0%N)) as [->|Hx]; [done|].
  rewrite pretty_N_go_step by lia. apply IH; [apply N.div_lt; lia|].
  change (is_ascii_digit (pretty_N_char (x `mod` 10)) && all_bytes is_ascii_digit s = true).
  rewrite Hs, andb_true_r. unfold pretty_N_char. by repeat case_match.
Qed.

Lemma dec_digits n : all_bytes is_ascii_digit (dec n) = true.
Proof.
  unfold dec, pretty, pretty_N. case_match; [done|]. by apply pretty_go_digits.
Qed.

Lemma dec_inj n m : 0 <= n -> 0 <= m -> dec n = dec m -> n = m.
Proof. unfold dec. intros Hn Hm H. apply (pretty_N_inj (Z.to_N n) (Z.to_N m)) in H. lia. Qed.

(** Text before the first separator *)
Lemma app_sep_inj sep s s' t t' :
  no_char sep s -> no_char sep s' ->
  (s +:+ String sep t = s' +:+ String sep t')%string -> s = s' /\ t = t'.
Proof.
  revert s'. induction s as [|c s IH]; intros [|c' s'] Hs Hs' H; cbn in *.
  - by injection H.
  - injection H as <- _. by rewrite Ascii.eqb_refl in Hs'.
  - injection H as -> _. by rewrite Ascii.eqb_refl in Hs.
  - apply orb_false_iff in Hs as [_ Hs], Hs' as [_ Hs']. injection H as <- H.
    destruct (IH s' Hs Hs' H) as [-> ->]. done.
Qed.

Lemma contains_char_rev c s : contains_char c (rev_str s) = contains_char c s.
Proof.
  induction s as [|d s IH]; [done|].
  change (String d s) with (String d EmptyString +:+ s)%string.
  rewrite rev_str_app, !contains_char_app, IH. apply orb_comm.
Qed.

(** Text after the last separator *)
Lemma app_last_sep_inj sep s s' t t' :
  no_char sep t -> no_char sep t' ->
  (s +:+ String sep t = s' +:+ String sep t')%string -> s = s' /\ t = t'.
Proof.
  intros Ht Ht' H. apply (f_equal rev_str) in H.
  change (String sep t) with (String sep EmptyString +:+ t)%string in H.
  change (String sep t') with (String sep EmptyString +:+ t')%string in H.
  rewrite !rev_str_app, <- !append_assoc in H. change (rev_str (String sep EmptyString)) with (String sep EmptyString) in H.
  cbn [String.append] in H. apply app_sep_inj in H as [H1 H2]; [|by rewrite contains_char_rev..].
  split; rewrite <- rev_str_involutive; [rewrite <- H2|rewrite <- H1]; by rewrite rev_str_involutive.
Qed.

Lemma app_inj_suffix s t u : (s +:+ u = t +:+ u)%string -> s = t.
Proof.
  intros H. apply (f_equal rev_str) in H. rewrite !rev_str_app in H.
  apply (inj (String.append _)) in H. by rewrite <- (rev_str_involutive s), H, rev_str_involutive.
Qed.

(** ** Splitting at strings *)

Lemma split_once_str_some pat s x y : split_once_str pat s = Some (x, y) -> s = (x +:+ pat +:+ y)%string.
Proof.
  revert x y. induction s as [|c s IH]; intros x y; cbn [split_once_str];
    destruct (strip_prefix pat _) as [r|] eqn:E; try done.
  - intros [= <- <-]. by apply strip_prefix_some in E.
  - intros [= <- <-]. by apply strip_prefix_some in E.
  - destruct (split_once_str pat s) as [[x' y']|]; [|done]. intros [= <- <-]. cbn. by rewrite (IH x' y').
Qed.

(** A separator that starts with a byte the text before it lacks *)
Lemma split_once_str_app c pat x y :
  no_char c x -> split_once_str (String c pat) (x +:+ String c pat +:+ y)%string = Some (x, y).
Proof.
  intros Hx. induction x as [|d x IH].
  - destruct (strip_prefix (String c pat) (String c pat +:+ y)%string) as [r|] eqn:E.
    + cbn [String.append split_once_str]. change (String c (pat +:+ y))%string with (String c pat +:+ y)%string.
      rewrite E. apply strip_prefix_some in E. by apply (inj (String.append _)) in E as <-.
    + exfalso. clear -E. cbn [String.append strip_prefix] in E. rewrite Ascii.eqb_refl in E.
      induction pat as [|d pat IH]; [done|]. cbn [String.append strip_prefix] in E. rewrite Ascii.eqb_refl in E. by apply IH.
  - cbn [contains_char] in Hx. apply orb_false_iff in Hx as [Hc Hx].
    cbn [String.append split_once_str strip_prefix]. rewrite Hc. cbn [String.append] in IH. by rewrite (IH Hx).
Qed.

Lemma split_once_str_none c pat s : no_char c s -> split_once_str (String c pat) s = None.
Proof.
  induction s as [|d s IH]; [done|]. cbn [contains_char split_once_str strip_prefix].
  intros [Hc Hs]%orb_false_iff. by rewrite Hc, (IH Hs).
Qed.

Lemma split_str_one c pat s : no_char c s -> split_str (String c pat) s = [s].
Proof. intros H. unfold split_str. destruct (String.length s); [done|]. cbn. by rewrite split_once_str_none. Qed.

Lemma split_str_two c x y :
  no_char c x -> no_char c y -> split_str (String c "") (x +:+ String c y)%string = [x; y].
Proof.
  intros Hx Hy. unfold split_str.
  assert (exists n, String.length (x +:+ String c y)%string = S n) as [n ->].
  { destruct x; cbn; eauto. }
  cbn [split_str_fuel]. pose proof (split_once_str_app c "" x y Hx) as Hs.
  cbn [String.append] in Hs. rewrite Hs. f_equal.
  destruct n; [done|]. cbn [split_str_fuel]. by rewrite split_once_str_none.
Qed.

(** ** Decimal round trip *)

Lemma digit10_pretty (n : N) : (n < 10)%N -> digit10 (pretty_N_char n) = Some (Z.of_N n).
Proof.
  intros H. assert (exists k, (k < 10)%nat /\ n = N.of_nat k) as (k & Hk & ->) by (exists (N.to_nat n); lia).
  do 10 (destruct k as [|k]; [done|]). lia.
Qed.
Lemma parse_pretty_go (x : N) (s : string) :
  parse_digits 0 (pretty_N_go x s) = parse_digits (Z.of_N x) s.
Proof.
  revert s. induction (N.lt_wf_0 x) as [x _ IH]. intros s.
  destruct (decide (0 < x)%N) as [Hx|Hx]; [|assert (x = 0)%N as -> by lia; by rewrite pretty_N_go_0].
  rewrite pretty_N_go_step by done. rewrite IH by (apply N.div_lt; lia). cbn [parse_digits].
  rewrite digit10_pretty by (apply N.mod_lt; done). f_equal.
  rewrite N2Z.inj_div, N2Z.inj_mod. pose proof (Z.div_mod (Z.of_N x) 10). lia.
Qed.
Lemma parse_digits_dec (n : Z) : (0 <= n)%Z -> parse_digits 0 (dec n) = Some n.
Proof.
  intros Hn. unfold dec, pretty, pretty_N. case_decide as H0.
  - by assert (n = 0) as -> by lia.
  - rewrite parse_pretty_go. cbn. f_equal. lia.
Qed.

(** The decimal text of a number parses to it. *)
Lemma parse_i64_dec (n : Z) : (0 <= n <= i64_max)%Z -> parse_i64 (dec n) = Some n.
Proof.
  intros [Hn Hm]. pose proof (dec_digits n) as Hd. pose proof (parse_digits_dec n Hn) as Hp.
  unfold parse_i64, parse_uint. destruct (dec n) as [|c s] eqn:E.
  - exfalso. cbn in Hp. injection Hp as <-. discriminate.
  - cbn [all_bytes] in Hd. apply andb_true_iff in Hd as [Hc _].
    destruct (Ascii.eqb c "-") eqn:E1; [apply Ascii.eqb_eq in E1 as ->; discriminate|].
    destruct (Ascii.eqb c "+") eqn:E2; [apply Ascii.eqb_eq in E2 as ->; discriminate|].
    rewrite Hp. by apply Z.leb_le in Hm as ->.
Qed.
