(* ===== verification/RustNet.v ===== *)
(** * Rust's [std::net] addresses

    [Ipv4Addr] is its [u32] value, [Ipv6Addr] the list of its eight
    16-bit segments.  The textual parsers follow the standard library's
    recursive-descent parser: a parser consumes a prefix of its input and a
    top-level [parse] also requires the end of the input. *)

From stdpp Require Import base list strings gmap option.
From Stdlib Require Import ZArith Ascii Lia.
From S2P Require Import Prelude RustStr.

Local Open Scope Z_scope.

Inductive IpAddr : Type :=
| V4 (v4 : Z)
| V6 (segments : list Z).

#[global] Instance IpAddr_eq_dec : EqDecision IpAddr.
Proof. solve_decision. Defined.

(** [SocketAddr]; the scope id is 0 for IPv4. *)
Record SocketAddr : Type := mkSocketAddr {
  sa_ip : IpAddr;
  sa_port : Z;
  sa_scope : Z;
}.

#[global] Instance SocketAddr_eq_dec : EqDecision SocketAddr.
Proof. solve_decision. Defined.

(** ** Octets of an IPv4 address *)

Definition octet (i : Z) (ip : Z) : Z := (ip / 2 ^ (24 - 8 * i)) mod 256.
Definition ipv4_of_octets (a b c d : Z) : Z :=
  a * 2 ^ 24 + b * 2 ^ 16 + c * 2 ^ 8 + d.

(** [format!("{v4}")] *)
Definition show_ipv4 (ip : Z) : string :=
  join "." (map (fun i => dec (octet i ip)) [0; 1; 2; 3]).

(** [Ipv4Addr::is_private] and the other classifications of the standard
    library. *)
Definition is_private (ip : Z) : bool :=
  let a := octet 0 ip in let b := octet 1 ip in
  (a =? 10)
  || (a =? 172) && ((16 <=? b) && (b <=? 31))
  || (a =? 192) && (b =? 168).
Definition is_loopback_v4 (ip : Z) : bool := octet 0 ip =? 127.
Definition is_link_local (ip : Z) : bool := (octet 0 ip =? 169) && (octet 1 ip =? 254).
Definition is_multicast_v4 (ip : Z) : bool :=
  (224 <=? octet 0 ip) && (octet 0 ip <=? 239).
Definition is_unspecified_v4 (ip : Z) : bool := ip =? 0.

(** [Ipv6Addr::is_loopback], [is_multicast], [is_unspecified] *)
Definition seg (i : nat) (segs : list Z) : Z := nth i segs 0.
Definition is_loopback_v6 (segs : list Z) : bool :=
  bool_decide (segs = [0; 0; 0; 0; 0; 0; 0; 1]).
Definition is_multicast_v6 (segs : list Z) : bool :=
  Z.land (seg 0 segs) 0xff00 =? 0xff00.
Definition is_unspecified_v6 (segs : list Z) : bool :=
  bool_decide (segs = [0; 0; 0; 0; 0; 0; 0; 0]).

(** [IpAddr::is_loopback] *)
Definition is_loopback (ip : IpAddr) : bool :=
  match ip with V4 v => is_loopback_v4 v | V6 s => is_loopback_v6 s end.

(** ** Parsers *)

Abbreviation parser A := (string -> option (A * string)).

(** [char::to_digit(radix)] *)
Definition to_digit (radix : Z) (c : ascii) : option Z :=
  let v := byte_val c in
  let d := if (48 <=? v) && (v <=? 57) then v - 48
           else if (97 <=? v) && (v <=? 122) then v - 87
           else if (65 <=? v) && (v <=? 90) then v - 55
           else radix in
  if d <? radix then Some d else None.

(** The longest run of digits: value, number of digits, rest. *)
Fixpoint take_digits (radix acc : Z) (count : nat) (s : string) : Z * nat * string :=
  match s with
  | String c s' =>
      match to_digit radix c with
      | Some d => take_digits radix (radix * acc + d) (S count) s'
      | None => (acc, count, s)
      end
  | EmptyString => (acc, count, s)
  end.

(** [Parser::read_number(radix, max_digits, allow_zero_prefix)] into an
    unsigned type with maximum [max]. *)
Definition read_number (radix max : Z) (max_digits : option nat)
    (allow_zero_prefix : bool) : parser Z :=
  fun s =>
    let has_leading_zero := starts_with "0" s in
    let '(v, n, rest) := take_digits radix 0 0 s in
    if match max_digits with Some m => Nat.ltb m n | None => false end then None
    else if Nat.eqb n 0 then None
    else if negb allow_zero_prefix && has_leading_zero && Nat.ltb 1 n then None
    else if v <=? max then Some (v, rest) else None.

Definition read_char (c : ascii) : parser unit :=
  fun s => match s with
           | String d s' => if Ascii.eqb c d then Some (tt, s') else None
           | EmptyString => None
           end.

(** [Parser::read_separator(sep, index, inner)] *)
Definition read_separator {A} (sep : ascii) (index : nat) (inner : parser A) : parser A :=
  fun s => match index with
           | O => inner s
           | S _ => match read_char sep s with Some (_, s') => inner s' | None => None end
           end.

Definition read_ipv4_octet : parser Z := read_number 10 u8_max (Some 3%nat) false.

Definition read_ipv4_addr : parser Z :=
  fun s =>
    '(a, s) ← read_separator "." 0 read_ipv4_octet s;
    '(b, s) ← read_separator "." 1 read_ipv4_octet s;
    '(c, s) ← read_separator "." 2 read_ipv4_octet s;
    '(d, s) ← read_separator "." 3 read_ipv4_octet s;
    Some (ipv4_of_octets a b c d, s).

(** [read_groups] of [Parser::read_ipv6_addr]: up to [limit - i] more
    groups starting at position [i], with an optional trailing IPv4
    address; the groups read (in order), whether they end in an IPv4
    address, and the rest. *)
Fixpoint read_groups (limit i : nat) (slots : nat) (s : string) : list Z * bool * string :=
  match slots with
  | O => ([], false, s)
  | S slots =>
      match (if Nat.ltb i (limit - 1) then read_separator ":" i read_ipv4_addr s else None) with
      | Some (v4, s') => ([v4 / 2 ^ 16; v4 mod 2 ^ 16], true, s')
      | None =>
          match read_separator ":" i (read_number 16 u16_max (Some 4%nat) true) s with
          | Some (g, s') =>
              let '(gs, v4, s'') := read_groups limit (S i) slots s' in (g :: gs, v4, s'')
          | None => ([], false, s)
          end
      end
  end.

Definition read_ipv6_addr : parser (list Z) :=
  fun s =>
    let '(head, head_ipv4, s1) := read_groups 8 0 8 s in
    if Nat.eqb (length head) 8 then Some (head, s1)
    else if head_ipv4 then None
    else
      '(_, s2) ← read_char ":" s1;
      '(_, s3) ← read_char ":" s2;
      let limit := (8 - (length head + 1))%nat in
      let '(tail, _, s4) := read_groups limit 0 limit s3 in
      Some (head ++ replicate (8 - length head - length tail) 0 ++ tail, s4).

(** A top-level [parse]: the parser must consume everything. *)
Definition parse_all {A} (p : parser A) (s : string) : option A :=
  match p s with Some (a, EmptyString) => Some a | _ => None end.

(** [s.parse::<Ipv4Addr>()]: at most 15 bytes. *)
Definition parse_ipv4 (s : string) : option Z :=
  if Nat.ltb 15 (String.length s) then None else parse_all read_ipv4_addr s.

(** [s.parse::<IpAddr>()] *)
Definition parse_ip (s : string) : option IpAddr :=
  match parse_all read_ipv4_addr s with
  | Some v => Some (V4 v)
  | None => V6 <$> parse_all read_ipv6_addr s
  end.

(** [Parser::read_port] *)
Definition read_port : parser Z :=
  fun s => '(_, s) ← read_char ":" s; read_number 10 u16_max None true s.

(** [Parser::read_scope_id] *)
Definition read_scope_id : parser Z :=
  fun s => '(_, s) ← read_char "%" s; read_number 10 u32_max None true s.

Definition read_socket_addr_v4 : parser SocketAddr :=
  fun s =>
    '(ip, s) ← read_ipv4_addr s;
    '(port, s) ← read_port s;
    Some (mkSocketAddr (V4 ip) port 0, s).

Definition read_socket_addr_v6 : parser SocketAddr :=
  fun s =>
    '(_, s) ← read_char "[" s;
    '(ip, s) ← read_ipv6_addr s;
    let '(scope, s) := match read_scope_id s with Some r => r | None => (0, s) end in
    '(_, s) ← read_char "]" s;
    '(port, s) ← read_port s;
    Some (mkSocketAddr (V6 ip) port scope, s).

(** [s.parse::<SocketAddr>()] *)
Definition parse_socket_addr (s : string) : option SocketAddr :=
  match parse_all read_socket_addr_v4 s with
  | Some a => Some a
  | None => parse_all read_socket_addr_v6 s
  end.

(** ** Orders: [Ord for SocketAddr], IPv4 before IPv6 *)

Fixpoint list_compare (a b : list Z) : comparison :=
  match a, b with
  | [], [] => Eq
  | [], _ => Lt
  | _, [] => Gt
  | x :: a, y :: b => match Z.compare x y with Eq => list_compare a b | c => c end
  end.
Definition sockaddr_key (a : SocketAddr) : list Z :=
  match sa_ip a with
  | V4 v => [0; v; sa_port a]
  | V6 s => 1 :: s ++ [sa_port a; sa_scope a]
  end.
Definition sockaddr_leb (a b : SocketAddr) : bool :=
  match list_compare (sockaddr_key a) (sockaddr_key b) with Gt => false | _ => true end.

Example parse_ipv4_ex : parse_ipv4 "169.254.68.5" = Some 2852013061.
Proof. reflexivity. Qed.
Example parse_ipv4_zero : parse_ipv4 "010.0.0.1" = None.
Proof. reflexivity. Qed.
Example parse_ip_v6_ex : parse_ip "fe80::1" = Some (V6 [0xfe80; 0; 0; 0; 0; 0; 0; 1]).
Proof. reflexivity. Qed.
Example parse_ip_v6_mapped :
  parse_ip "::ffff:10.0.0.1" = Some (V6 [0; 0; 0; 0; 0; 0xffff; 0x0a00; 1]).
Proof. reflexivity. Qed.
Example parse_socket_addr_ex :
  parse_socket_addr "[::1%7]:443" = Some (mkSocketAddr (V6 [0; 0; 0; 0; 0; 0; 0; 1]) 443 7).
Proof. reflexivity. Qed.

(** ** Lemmas *)

Lemma to_digit_nonneg radix c d : 0 < radix -> to_digit radix c = Some d -> 0 <= d.
Proof.
  unfold to_digit. intros Hr H. repeat case_match; simplify_eq; to_prop; lia.
Qed.

Lemma take_digits_nonneg radix acc n s v m rest :
  0 < radix -> 0 <= acc -> take_digits radix acc n s = (v, m, rest) -> 0 <= v.
Proof.
  intros Hr. revert acc n. induction s as [|c s IH]; cbn; intros acc n Ha H.
  { by simplify_eq. }
  destruct (to_digit radix c) as [d|] eqn:Hd; [|by simplify_eq].
  apply to_digit_nonneg in Hd; [|done]. eapply IH in H; [done|nia].
Qed.

Lemma read_number_range radix max md z s v rest :
  0 < radix -> read_number radix max md z s = Some (v, rest) -> 0 <= v <= max.
Proof.
  unfold read_number. intros Hr H.
  destruct (take_digits radix 0 0 s) as [[v' n] r] eqn:Ht.
  apply take_digits_nonneg in Ht; [|done..].
  repeat case_match; simplify_eq; to_prop; lia.
Qed.

Lemma read_separator_inv {A} sep i (p : parser A) s r :
  read_separator sep i p s = Some r -> exists s', p s' = Some r.
Proof.
  unfold read_separator. intros H. destruct i; [eauto|].
  destruct (read_char sep s) as [[[] s']|]; [eauto|done].
Qed.

Lemma read_octet_range sep i s v rest :
  read_separator sep i read_ipv4_octet s = Some (v, rest) -> 0 <= v <= 255.
Proof. intros [s' H]%read_separator_inv. by apply read_number_range in H. Qed.

Definition ipv4_ok (ip : Z) : Prop := 0 <= ip < 2 ^ 32.

Lemma ipv4_of_octets_ok a b c d :
  0 <= a <= 255 -> 0 <= b <= 255 -> 0 <= c <= 255 -> 0 <= d <= 255 ->
  ipv4_ok (ipv4_of_octets a b c d).
Proof. unfold ipv4_ok, ipv4_of_octets. lia. Qed.

Lemma read_ipv4_addr_inv s ip rest :
  read_ipv4_addr s = Some (ip, rest) ->
  exists a b c d, ip = ipv4_of_octets a b c d /\
    0 <= a <= 255 /\ 0 <= b <= 255 /\ 0 <= c <= 255 /\ 0 <= d <= 255.
Proof.
  unfold read_ipv4_addr. intros H.
  apply bind_Some in H as ([a s1] & Ha & H). apply bind_Some in H as ([b s2] & Hb & H).
  apply bind_Some in H as ([c s3] & Hc & H). apply bind_Some in H as ([d s4] & Hd & H).
  simplify_eq. eexists _, _, _, _. split; [done|].
  eauto 10 using read_octet_range.
Qed.

Lemma parse_all_some {A} (p : parser A) s a : parse_all p s = Some a -> p s = Some (a, "").
Proof. unfold parse_all. repeat case_match; naive_solver. Qed.

Lemma parse_ipv4_ok s ip : parse_ipv4 s = Some ip -> ipv4_ok ip.
Proof.
  unfold parse_ipv4. case_match; [done|]. intros Hp%parse_all_some.
  apply read_ipv4_addr_inv in Hp as (a & b & c & d & -> & ? & ? & ? & ?).
  by apply ipv4_of_octets_ok.
Qed.

Lemma octet_range i ip : 0 <= octet i ip < 256.
Proof. unfold octet. apply Z.mod_pos_bound. lia. Qed.

(** The octets of an address rebuild it. *)
Lemma ipv4_octets ip :
  ipv4_ok ip -> ip = ipv4_of_octets (octet 0 ip) (octet 1 ip) (octet 2 ip) (octet 3 ip).
Proof.
  unfold ipv4_ok, ipv4_of_octets, octet.
  replace (24 - 8 * 0) with 24 by lia. replace (24 - 8 * 1) with 16 by lia.
  replace (24 - 8 * 2) with 8 by lia. replace (24 - 8 * 3) with 0 by lia.
  change (2 ^ 32) with 4294967296. change (2 ^ 24) with 16777216.
  change (2 ^ 16) with 65536. change (2 ^ 8) with 256. change (2 ^ 0) with 1.
  intros H. Z.to_euclidean_division_equations. lia.
Qed.
