(* ===== verification/RustHttp.v ===== *)
(** * Header maps

    [http::HeaderMap] as both proxies use it: (lower-case name, value) pairs
    in order, several values to a name allowed. *)

From Stdlib Require Import ZArith Ascii Lia.
From stdpp Require Import base list strings gmap option.
From S2P Require Import Prelude RustStr.

Abbreviation headers := (list (string * string)).

(** [headers.remove(name)]: every value of the name goes. *)
Definition header_remove (name : string) (hs : headers) : headers :=
  filter (fun h => fst h <> name) hs.

(** [headers.insert(name, value)] *)
Definition header_insert (name value : string) (hs : headers) : headers :=
  header_remove name hs ++ [(name, value)].

(** [headers.get(name)]: the first value. *)
Definition header_get (name : string) (hs : headers) : option string :=
  snd <$> head (filter (fun h => fst h = name) hs).

(** [headers.entry(name).or_insert(value)] *)
Definition header_or_insert (name value : string) (hs : headers) : headers :=
  match header_get name hs with
  | Some _ => hs
  | None => hs ++ [(name, value)]
  end.

Lemma header_remove_elem n h hs : h ∈ header_remove n hs <-> h ∈ hs /\ fst h <> n.
Proof. unfold header_remove. rewrite list_elem_of_filter. naive_solver. Qed.

Lemma fold_header_remove_elem names h hs :
  h ∈ fold_left (fun hs name => header_remove name hs) names hs <->
  h ∈ hs /\ fst h ∉ names.
Proof.
  revert hs. induction names as [|n names IH]; intros hs; cbn [fold_left]; [set_solver|].
  rewrite IH, header_remove_elem. set_solver.
Qed.

Lemma header_insert_elem n v h hs :
  h ∈ header_insert n v hs <-> h = (n, v) \/ h ∈ hs /\ fst h <> n.
Proof.
  unfold header_insert. rewrite elem_of_app, header_remove_elem, list_elem_of_singleton. tauto.
Qed.

Lemma header_or_insert_keeps n v h hs : h ∈ hs -> h ∈ header_or_insert n v hs.
Proof. unfold header_or_insert. case_match; set_solver. Qed.

Lemma header_or_insert_elem n v h hs :
  h ∈ header_or_insert n v hs -> h ∈ hs \/ h = (n, v).
Proof.
  unfold header_or_insert. case_match; [by left|].
  rewrite elem_of_app, list_elem_of_singleton. tauto.
Qed.
