(* ===== verification/Store.v ===== *)
(** * SQL tables as the stores use them

    [StoreError] of [crates/core/src/error.rs], and the fragment of SQL the
    [crates/core/src/db/sqlite] stores are written in: a table is the list of
    its rows in insertion order; [UPDATE ... WHERE] maps the rows that match
    and reports how many did; [SELECT ... WHERE] keeps them in order. *)

From Stdlib Require Import ZArith Lia.
From stdpp Require Import base list strings gmap option.
From S2P Require Import Prelude.

(** [StoreError] *)
Inductive StoreError : Type :=
| Io (msg : string)
| NotFound
| Constraint (msg : string)
| Malformed (msg : string).

#[global] Instance StoreError_eq_dec : EqDecision StoreError.
Proof. solve_decision. Defined.

Section table.
Context {R : Type}.

(** [SELECT * FROM t WHERE p] *)
Definition select (p : R -> bool) (t : list R) : list R := filter (fun r => p r = true) t.

(** [SELECT ... LIMIT 1] with [fetch_optional] *)
Definition select_one (p : R -> bool) (t : list R) : option R := head (select p t).

(** [UPDATE t SET f WHERE p] *)
Definition update (p : R -> bool) (f : R -> R) (t : list R) : list R :=
  map (fun r => if p r then f r else r) t.

(** [rows_affected()] of an [UPDATE] or [DELETE] *)
Definition affected (p : R -> bool) (t : list R) : nat := length (select p t).

(** [DELETE FROM t WHERE p] *)
Definition delete_where (p : R -> bool) (t : list R) : list R :=
  filter (fun r => p r = false) t.

Lemma elem_of_select p t r : r ∈ select p t <-> r ∈ t /\ p r = true.
Proof. unfold select. rewrite list_elem_of_filter. tauto. Qed.

Lemma elem_of_update p f t r :
  r ∈ update p f t <-> exists r0, r0 ∈ t /\ r = if p r0 then f r0 else r0.
Proof. unfold update. rewrite list_elem_of_fmap. naive_solver. Qed.

Lemma elem_of_delete_where p t r : r ∈ delete_where p t <-> r ∈ t /\ p r = false.
Proof. unfold delete_where. rewrite list_elem_of_filter. tauto. Qed.

Lemma select_app p t u : select p (t ++ u) = select p t ++ select p u.
Proof. apply list.filter_app. Qed.

Lemma select_cons p r t : select p (r :: t) = if p r then r :: select p t else select p t.
Proof.
  unfold select. rewrite filter_cons. by destruct (p r); destruct (decide _).
Qed.

Lemma select_nil_iff p t : select p t = [] <-> forall r, r ∈ t -> p r = false.
Proof.
  split.
  - intros H r Hr. destruct (p r) eqn:E; [|done].
    assert (r ∈ select p t) as Hin by by apply elem_of_select.
    rewrite H in Hin. by apply elem_of_nil in Hin.
  - intros H. destruct (select p t) as [|r l] eqn:E; [done|].
    assert (r ∈ select p t) as Hin by (rewrite E; set_solver).
    apply elem_of_select in Hin as [Hr Hp]. rewrite H in Hp; done.
Qed.

Lemma select_one_some p t r : select_one p t = Some r -> r ∈ t /\ p r = true.
Proof.
  unfold select_one. intros H. apply elem_of_select. destruct (select p t); cbn in H; simplify_eq.
  set_solver.
Qed.

Lemma select_one_none p t : select_one p t = None <-> forall r, r ∈ t -> p r = false.
Proof.
  unfold select_one. rewrite <- select_nil_iff. by destruct (select p t).
Qed.

(** With a key that picks at most one row, [select_one] finds that row. *)
Lemma select_one_unique p t r :
  r ∈ t -> p r = true -> (forall r', r' ∈ t -> p r' = true -> r' = r) ->
  select_one p t = Some r.
Proof.
  intros Hr Hp Hu. destruct (select_one p t) as [r'|] eqn:E.
  - apply select_one_some in E as [Hr' Hp']. by rewrite (Hu r').
  - rewrite select_one_none in E. rewrite E in Hp; done.
Qed.

(** An update that keeps a predicate's value keeps what it selects. *)
Lemma select_update (p q : R -> bool) (f : R -> R) t :
  (forall r, q r = true -> p (f r) = p r) ->
  select p (update q f t) = update q f (select p t).
Proof.
  intros H. induction t as [|r t IH]; [done|].
  cbn [update map]. rewrite !select_cons.
  change (map (fun r => if q r then f r else r) t) with (update q f t). rewrite IH.
  destruct (q r) eqn:Eq; [rewrite (H r Eq)|]; destruct (p r); cbn; by rewrite ?Eq.
Qed.

(** An update of rows that a predicate leaves out, before and after. *)
Lemma select_update_other (p q : R -> bool) (f : R -> R) t :
  (forall r, q r = true -> p r = false) -> (forall r, q r = true -> p (f r) = false) ->
  select p (update q f t) = select p t.
Proof.
  intros H1 H2. induction t as [|r t IH]; [done|]. cbn [update map]. rewrite !select_cons.
  change (map (fun r => if q r then f r else r) t) with (update q f t). rewrite IH.
  destruct (q r) eqn:E; [|done]. by rewrite (H1 r E), (H2 r E).
Qed.

Lemma update_noop (p : R -> bool) (f : R -> R) t :
  (forall r, r ∈ t -> p r = false) -> update p f t = t.
Proof.
  induction t as [|r t IH]; intros H; [done|]. cbn.
  rewrite (H r) by set_solver. f_equal. apply IH. set_solver.
Qed.

Lemma affected_zero p t : affected p t = 0%nat <-> forall r, r ∈ t -> p r = false.
Proof. unfold affected. rewrite <- select_nil_iff. by destruct (select p t). Qed.

Lemma map_update_key {K} (key : R -> K) p f t :
  (forall r, key (f r) = key r) -> map key (update p f t) = map key t.
Proof. intros H. unfold update. rewrite map_map. apply map_ext. intros r. by destruct (p r). Qed.

Lemma length_update p f t : length (update p f t) = length t.
Proof. apply length_map. Qed.
End table.

(** [COALESCE(SUM(f), 0)] *)
Definition sum_of {R} (f : R -> Z) (t : list R) : Z :=
  foldr (fun r acc => (f r + acc)%Z) 0%Z t.

Lemma sum_of_app {R} (f : R -> Z) t u : sum_of f (t ++ u) = (sum_of f t + sum_of f u)%Z.
Proof.
  induction t as [|r t IH]; [done|].
  change (sum_of f ((r :: t) ++ u)) with (f r + sum_of f (t ++ u))%Z.
  change (sum_of f (r :: t)) with (f r + sum_of f t)%Z. lia.
Qed.

(** A step that neither brings a row into the counted set nor adds one does not raise the count. *)
Lemma affected_update_le {R} (q p : R -> bool) (f : R -> R) t :
  (forall r, r ∈ t -> p r = true -> q (f r) = true -> q r = true) ->
  (affected q (update p f t) <= affected q t)%nat.
Proof.
  unfold affected. induction t as [|r t IH]; intros Hf; [done|].
  cbn [update map]. rewrite !select_cons. specialize (IH ltac:(set_solver)). unfold update in IH.
  destruct (p r) eqn:Ep; [|destruct (q r); cbn [length]; lia].
  specialize (Hf r ltac:(set_solver) Ep). destruct (q (f r)), (q r); cbn [length]; try lia.
Qed.

(** Two tables related row by row, updated by related statements, stay related. *)
Section related.
Context {R S : Type} (rel : R -> S -> Prop) (p : R -> bool) (q : S -> bool).
Context (Hpq : forall r s, rel r s -> p r = q s).

Lemma select_related t u : Forall2 rel t u -> Forall2 rel (select p t) (select q u).
Proof.
  induction 1 as [|r s t u Hr _ IH]; [constructor|].
  rewrite !select_cons, (Hpq r s Hr). destruct (q s); [by constructor|done].
Qed.

Lemma affected_related t u : Forall2 rel t u -> affected p t = affected q u.
Proof. intros H. eapply Forall2_length, select_related, H. Qed.

Lemma update_related (f : R -> R) (g : S -> S) t u :
  (forall r s, rel r s -> rel (f r) (g s)) ->
  Forall2 rel t u -> Forall2 rel (update p f t) (update q g u).
Proof.
  intros Hfg. induction 1 as [|r s t u Hr _ IH]; [constructor|].
  cbn [update map]. constructor; [|exact IH]. rewrite (Hpq r s Hr). destruct (q s); [by apply Hfg|done].
Qed.

Lemma select_one_related t u :
  Forall2 rel t u -> option_Forall2 rel (select_one p t) (select_one q u).
Proof.
  intros H. apply select_related in H. unfold select_one.
  destruct H; constructor; done.
Qed.
End related.

#[export] Hint Rewrite @elem_of_select @elem_of_update @elem_of_delete_where : swarm_rw.
