(* ===== verification/Json.v ===== *)
(** * JSON values

    [serde_json::Value] and the accessors the sources use.  An object is the
    list of its members; a number keeps its literal text, which no modelled
    code inspects. *)

From stdpp Require Import base list strings option countable gmap.
From S2P Require Import Prelude.

Unset Elimination Schemes.
Inductive json : Type :=
| JNull
| JBool (b : bool)
| JNumber (text : string)
| JString (s : string)
| JArray (items : list json)
| JObject (members : list (string * json)).
Set Elimination Schemes.

(** Induction with the hypothesis on every item and every member. *)
Section json_ind.
Context (P : json -> Prop).
Context (Hnull : P JNull) (Hbool : forall b, P (JBool b)) (Hnum : forall t, P (JNumber t)).
Context (Hstr : forall s, P (JString s)).
Context (Harr : forall items, Forall P items -> P (JArray items)).
Context (Hobj : forall ms, Forall (fun m => P (snd m)) ms -> P (JObject ms)).

Fixpoint json_ind (v : json) : P v :=
  match v with
  | JNull => Hnull
  | JBool b => Hbool b
  | JNumber t => Hnum t
  | JString s => Hstr s
  | JArray items =>
      Harr items ((fix go (l : list json) : Forall P l :=
        match l with
        | [] => List.Forall_nil _
        | x :: l => List.Forall_cons _ x l (json_ind x) (go l)
        end) items)
  | JObject ms =>
      Hobj ms ((fix go (l : list (string * json)) : Forall (fun m => P (snd m)) l :=
        match l with
        | [] => List.Forall_nil _
        | x :: l => List.Forall_cons _ x l (json_ind (snd x)) (go l)
        end) ms)
  end.
End json_ind.

(** [v.get(key)] on an object; [None] on anything else. *)
Definition jget (key : string) (v : json) : option json :=
  match v with
  | JObject ms => snd <$> head (filter (fun m => m.1 = key) ms)
  | _ => None
  end.

Definition as_str (v : json) : option string :=
  match v with JString s => Some s | _ => None end.
Definition as_array (v : json) : option (list json) :=
  match v with JArray l => Some l | _ => None end.
Definition as_bool (v : json) : option bool :=
  match v with JBool b => Some b | _ => None end.

(** [v.get(key).and_then(as_str)] *)
Definition get_str (key : string) (v : json) : option string := jget key v ≫= as_str.

(** ** JSON values are countable, so that they have a concrete text *)

Fixpoint json_tree (v : json) : gen_tree (bool + string) :=
  match v with
  | JNull => GenNode 0 []
  | JBool b => GenLeaf (inl b)
  | JNumber t => GenNode 1 [GenLeaf (inr t)]
  | JString s => GenNode 2 [GenLeaf (inr s)]
  | JArray items => GenNode 3 (map json_tree items)
  | JObject ms => GenNode 4 (map (fun m => GenNode 0 [GenLeaf (inr m.1); json_tree m.2]) ms)
  end.

Fixpoint tree_json (t : gen_tree (bool + string)) : json :=
  match t with
  | GenLeaf (inl b) => JBool b
  | GenNode 1 [GenLeaf (inr t)] => JNumber t
  | GenNode 2 [GenLeaf (inr s)] => JString s
  | GenNode 3 ts => JArray (map tree_json ts)
  | GenNode 4 ts =>
      JObject (map (fun t => match t with
                             | GenNode _ [GenLeaf (inr k); v] => (k, tree_json v)
                             | _ => (EmptyString, JNull)
                             end) ts)
  | _ => JNull
  end.

Lemma tree_json_tree v : tree_json (json_tree v) = v.
Proof.
  induction v as [|b|t|s|items IH|ms IH]; cbn; try done; f_equal; rewrite map_map.
  - induction IH as [|x l Hx _ IHl]; [done|]. cbn. by rewrite Hx, IHl.
  - induction IH as [|[k x] l Hx _ IHl]; [done|]. cbn in *. by rewrite Hx, IHl.
Qed.

#[global] Instance json_eq_dec : EqDecision json.
Proof.
  intros v v'. destruct (decide (json_tree v = json_tree v')) as [H|H].
  - left. by rewrite <- (tree_json_tree v), H, tree_json_tree.
  - right. by intros ->.
Defined.
#[global] Instance json_countable : Countable json := inj_countable' json_tree tree_json tree_json_tree.
