(* ===== verification/Codec.v ===== *)
(** * A concrete serializer

    Turns any countable type into text over two characters and back.  The
    interfaces that stand for third-party codecs (serde, postcard, base64) are
    instantiated with it, which shows that their laws can hold. *)

From Stdlib Require Import ZArith Ascii Lia.
From stdpp Require Import base list strings gmap option countable.
From S2P Require Import Prelude RustStr.

Local Open Scope string_scope.
Local Open Scope list_scope.

Fixpoint pos_str (p : positive) : string :=
  match p with
  | xH => ""
  | xO p => String "0" (pos_str p)
  | xI p => String "1" (pos_str p)
  end.

Fixpoint str_pos (s : string) : option positive :=
  match s with
  | EmptyString => Some xH
  | String c s =>
      p ← str_pos s;
      if Ascii.eqb c "0" then Some (xO p) else if Ascii.eqb c "1" then Some (xI p) else None
  end.

Lemma str_pos_str p : str_pos (pos_str p) = Some p.
Proof. induction p as [p IH|p IH|]; cbn; rewrite ?IH; done. Qed.

Definition is_bit (c : ascii) : bool := Ascii.eqb c "0" || Ascii.eqb c "1".

Lemma pos_str_bits p : all_bytes is_bit (pos_str p) = true.
Proof. induction p; cbn; done. Qed.

Lemma utf8_valid_bits s n :
  all_bytes is_bit s = true -> utf8_valid_fuel n s = true.
Proof.
  revert s. induction n as [|n IH]; intros s Hs; [done|]. destruct s as [|c s]; [done|].
  cbn [all_bytes] in Hs. apply andb_true_iff in Hs as [Hc Hs].
  assert ((byte_val c <? 128)%Z = true) as Hlt.
  { apply orb_true_iff in Hc as [Hc|Hc]; apply Ascii.eqb_eq in Hc as ->; done. }
  cbn [utf8_valid_fuel utf8_step]. rewrite Hlt. cbn [andb]. auto.
Qed.

Lemma from_utf8_bits s : all_bytes is_bit s = true -> from_utf8 s = Some s.
Proof. intros Hs. unfold from_utf8. by rewrite utf8_valid_bits. Qed.

Section codec.
Context {A : Type} `{Countable A}.

Definition to_text (a : A) : string := pos_str (encode a).
Definition of_text (s : string) : option A := str_pos s ≫= decode.

Lemma of_to_text a : of_text (to_text a) = Some a.
Proof. unfold of_text, to_text. rewrite str_pos_str. cbn. apply decode_encode. Qed.

Lemma to_text_bits a : all_bytes is_bit (to_text a) = true.
Proof. apply pos_str_bits. Qed.

Lemma to_text_utf8 a : from_utf8 (to_text a) = Some (to_text a).
Proof. apply from_utf8_bits, to_text_bits. Qed.
End codec.
