(* ===== verification/Envelope.v ===== *)
(** * Envelope encryption

    Models the context-bound envelopes of [crates/core/src/envelope.rs]:
    [seal_context], [rewrap_context], [open_context] and [open_v2], with the
    scopes and contexts they bind.  The cipher directory is the class
    [CipherDirectory]; what its clients rely on is [CipherDirectoryOk].  The
    JSON and base64 codecs are the class [EnvelopeCodec].  Key files and
    the directory that implements the class are in [KeyDirectory]. *)

From Stdlib Require Import ZArith Lia.
From stdpp Require Import base list strings gmap option.
From S2P Require Import Prelude RustStr Codec.

Local Open Scope string_scope.
Local Open Scope list_scope.
Local Open Scope Z_scope.

(** [KmsScope] *)
Inductive KmsScope : Type :=
| SystemSecret | SystemConfigure | UserSecret | UserApiKey | UserProfile | RuntimeToken
| StateFile | Artefact | WebhookDelivery | LlmToolCall | AgentSecret.

#[global] Instance KmsScope_eq_dec : EqDecision KmsScope.
Proof. solve_decision. Defined.

(** [KmsScope::as_str] *)
Definition scope_str (s : KmsScope) : string :=
  match s with
  | SystemSecret => "system_secret"
  | SystemConfigure => "system_configure"
  | UserSecret => "user_secret"
  | UserApiKey => "user_api_key"
  | UserProfile => "user_profile"
  | RuntimeToken => "runtime_token"
  | StateFile => "state_file"
  | Artefact => "artefact"
  | WebhookDelivery => "webhook_delivery"
  | LlmToolCall => "llm_tool_call"
  | AgentSecret => "agent_secret"
  end.

(** [KmsScope::parse] *)
Definition scope_parse (s : string) : option KmsScope :=
  if (s =? "system_secret")%string then Some SystemSecret
  else if (s =? "system_configure")%string then Some SystemConfigure
  else if (s =? "user_secret")%string then Some UserSecret
  else if (s =? "user_api_key")%string then Some UserApiKey
  else if (s =? "user_profile")%string then Some UserProfile
  else if (s =? "runtime_token")%string then Some RuntimeToken
  else if (s =? "state_file")%string then Some StateFile
  else if (s =? "artefact")%string then Some Artefact
  else if (s =? "webhook_delivery")%string then Some WebhookDelivery
  else if (s =? "llm_tool_call")%string then Some LlmToolCall
  else if (s =? "agent_secret")%string then Some AgentSecret
  else None.

(** [KmsContext] *)
Record KmsContext : Type := mkContext {
  cx_scope : KmsScope;
  cx_owner_id : option string;
  cx_instance_id : option string;
  cx_name : option string
}.

#[global] Instance KmsContext_eq_dec : EqDecision KmsContext.
Proof. solve_decision. Defined.

(** The constructors of [KmsContext] *)
Definition system_secret (name : string) : KmsContext :=
  mkContext SystemSecret None None (Some name).
Definition system_configure (instance_id name : string) : KmsContext :=
  mkContext SystemConfigure None (Some instance_id) (Some name).
Definition user_secret (user_id name : string) : KmsContext :=
  mkContext UserSecret (Some user_id) None (Some name).
Definition user_scoped (scope : KmsScope) (owner_id : string)
    (instance_id name : option string) : KmsContext :=
  mkContext scope (Some owner_id) instance_id name.

Definition SYSTEM_KEY_ID : string := "system".
Definition KMS_V2_ALG : string := "local-age-x25519".

(** [KmsContext::legacy_key_user] *)
Definition legacy_key_user (c : KmsContext) : string :=
  match cx_scope c with
  | SystemSecret | SystemConfigure | RuntimeToken => SYSTEM_KEY_ID
  | _ => default SYSTEM_KEY_ID (cx_owner_id c)
  end.

(** [EnvelopeError] *)
Inductive EnvelopeError : Type :=
| EnvIo (msg : string)
| KeyParse (msg : string)
| Corrupt
| Age (msg : string)
| BadUserId
| BadKeyId
| Sealed
| ContextMismatch
| BadEnvelope (msg : string).

(** [dyn EnvelopeCipher]; sealing draws randomness. *)
Record EnvelopeCipher : Type := mkCipher {
  cipher_seal : string -> string -> result EnvelopeError string;
  cipher_open : string -> result EnvelopeError string
}.

(** [VersionedCipher] *)
Record VersionedCipher : Type := mkVersioned {
  vc_key_id : string;
  vc_key_version : Z;
  vc_cipher : EnvelopeCipher
}.

(** [KmsEnvelope] *)
Record KmsEnvelope : Type := mkEnvelope {
  ev_version : Z;
  ev_algorithm : string;
  ev_scope : KmsScope;
  ev_owner_id : option string;
  ev_instance_id : option string;
  ev_name : option string;
  ev_key_id : string;
  ev_key_version : Z;
  ev_created_at : Z;
  ev_rotated_at : option Z;
  ev_rewrapped_at : option Z;
  ev_ciphertext : string
}.

(** [KmsEnvelope::context] *)
Definition envelope_context (e : KmsEnvelope) : KmsContext :=
  mkContext (ev_scope e) (ev_owner_id e) (ev_instance_id e) (ev_name e).

(** [KmsPlaintext] *)
Record KmsPlaintext : Type := mkPlaintext {
  pl_context : KmsContext;
  pl_secret_b64 : string
}.

(** [OpenEnvelopeResult] *)
Record OpenEnvelopeResult : Type := mkOpened {
  op_plaintext : string;
  op_key_id : string;
  op_key_version : Z;
  op_legacy : bool;
  op_needs_rewrap : bool
}.

(** [CipherDirectory], as of one moment: creating a key on first use is
    part of the answer. *)
Class CipherDirectory : Type := {
  for_user : string -> result EnvelopeError EnvelopeCipher;
  for_context : KmsContext -> result EnvelopeError VersionedCipher;
  active_key_meta : KmsContext -> result EnvelopeError (string * Z);
  for_key_id : string -> Z -> result EnvelopeError EnvelopeCipher
}.

(** serde_json on the two records, and the base64 engine *)
Class EnvelopeCodec : Type := {
  env_to_vec : KmsEnvelope -> result string string;
  env_from_slice : string -> option KmsEnvelope;
  plain_to_vec : KmsPlaintext -> result string string;
  plain_from_slice : string -> result string KmsPlaintext;
  b64_encode : string -> string;
  b64_decode : string -> result string string
}.

(** What one sealing reads of its surroundings: the clock and randomness. *)
Record SealRun : Type := mkSealRun { sr_now : Z; sr_entropy : string }.

Section envelope.
Context {dir : CipherDirectory} {codec : EnvelopeCodec}.

(** [seal_context_inner] *)
Definition seal_context_inner (sr : SealRun) (c : KmsContext) (plaintext : string)
    (rewrapped_at : option Z) : result EnvelopeError string :=
  active ← for_context c;
  payload ← map_err Age (plain_to_vec (mkPlaintext c (b64_encode plaintext)));
  ciphertext ← cipher_seal (vc_cipher active) (sr_entropy sr) payload;
  ciphertext ← ok_or (Age "non-utf8 armor (impossible)") (from_utf8 ciphertext);
  map_err Age (env_to_vec (mkEnvelope 2 KMS_V2_ALG (cx_scope c) (cx_owner_id c)
    (cx_instance_id c) (cx_name c) (vc_key_id active) (vc_key_version active)
    (sr_now sr) None rewrapped_at ciphertext)).

(** [seal_context], [rewrap_context] *)
Definition seal_context (sr : SealRun) (c : KmsContext) (plaintext : string) :
  result EnvelopeError string := seal_context_inner sr c plaintext None.
Definition rewrap_context (sr : SealRun) (c : KmsContext) (plaintext : string) :
  result EnvelopeError string := seal_context_inner sr c plaintext (Some (sr_now sr)).

(** [seal_context_as_string], [rewrap_context_as_string] *)
Definition seal_context_as_string (sr : SealRun) (c : KmsContext) (plaintext : string) :
  result EnvelopeError string :=
  bytes ← seal_context sr c plaintext;
  ok_or (Age "non-utf8 kms envelope") (from_utf8 bytes).
Definition rewrap_context_as_string (sr : SealRun) (c : KmsContext) (plaintext : string) :
  result EnvelopeError string :=
  bytes ← rewrap_context sr c plaintext;
  ok_or (Age "non-utf8 kms envelope") (from_utf8 bytes).

(** [open_v2] *)
Definition open_v2 (c : KmsContext) (env : KmsEnvelope) :
  result EnvelopeError OpenEnvelopeResult :=
  if negb (ev_algorithm env =? KMS_V2_ALG)%string
  then Err (BadEnvelope ("unsupported algorithm " +:+ ev_algorithm env))
  else if bool_decide (envelope_context env <> c) then Err ContextMismatch
  else
    cipher ← for_key_id (ev_key_id env) (ev_key_version env);
    payload ← cipher_open cipher (ev_ciphertext env);
    payload ← map_err BadEnvelope (plain_from_slice payload);
    if bool_decide (pl_context payload <> c) then Err ContextMismatch
    else
      plaintext ← map_err (fun e => BadEnvelope ("secret_b64: " +:+ e))
                    (b64_decode (pl_secret_b64 payload));
      active ← active_key_meta c;
      let needs_rewrap := negb (active.1 =? ev_key_id env)%string
                          || negb (active.2 =? ev_key_version env) in
      Ok (mkOpened plaintext (ev_key_id env) (ev_key_version env) false needs_rewrap).

(** [open_context] *)
Definition open_context (c : KmsContext) (stored : string) :
  result EnvelopeError OpenEnvelopeResult :=
  let legacy :=
    cipher ← for_user (legacy_key_user c);
    plaintext ← cipher_open cipher stored;
    Ok (mkOpened plaintext ("legacy/" +:+ legacy_key_user c) 1 true true) in
  match env_from_slice stored with
  | Some env => if ev_version env =? 2 then open_v2 c env else legacy
  | None => legacy
  end.

(** [is_v2_envelope] *)
Definition is_v2_envelope (stored : string) : bool :=
  match env_from_slice stored with Some env => ev_version env =? 2 | None => false end.
End envelope.

(** ** What clients rely on *)

(** The documented behaviour of a directory: the active key of a context is
    the one it seals with and can be found again by its id, and a cipher opens
    what it sealed (age armor is ASCII). *)
Class CipherDirectoryOk (dir : CipherDirectory) : Prop := {
  active_is_current : forall c v, for_context c = Ok v ->
    active_key_meta c = Ok (vc_key_id v, vc_key_version v);
  current_found_by_id : forall c v, for_context c = Ok v ->
    for_key_id (vc_key_id v) (vc_key_version v) = Ok (vc_cipher v);
  cipher_opens_sealed : forall c v entropy p ct, for_context c = Ok v ->
    cipher_seal (vc_cipher v) entropy p = Ok ct -> cipher_open (vc_cipher v) ct = Ok p;
  sealing_succeeds : forall c v entropy p, for_context c = Ok v ->
    exists ct, cipher_seal (vc_cipher v) entropy p = Ok ct /\ from_utf8 ct = Some ct
}.

(** The codecs round trip, and JSON text is UTF-8. *)
Class EnvelopeCodecOk (codec : EnvelopeCodec) : Prop := {
  env_round_trip : forall e, exists s, env_to_vec e = Ok s /\ env_from_slice s = Some e /\
    from_utf8 s = Some s;
  plain_round_trip : forall p, exists s, plain_to_vec p = Ok s /\ plain_from_slice s = Ok p;
  b64_round_trip : forall s, b64_decode (b64_encode s) = Ok s
}.

(** ** Theorems *)

Lemma scope_parse_str s : scope_parse (scope_str s) = Some s.
Proof. by destruct s. Qed.

Section theorems.
Context {dir : CipherDirectory} {codec : EnvelopeCodec}.
Context `{!CipherDirectoryOk dir, !EnvelopeCodecOk codec}.

(** The envelope a sealing stores, and what opening it under any context does *)
Lemma seal_inner_envelope sr c p rw v :
  for_context c = Ok v ->
  exists s env, seal_context_inner sr c p rw = Ok s /\ from_utf8 s = Some s /\
    env_from_slice s = Some env /\ ev_version env = 2 /\ envelope_context env = c /\
    open_v2 c env = Ok (mkOpened p (vc_key_id v) (vc_key_version v) false false).
Proof.
  intros Hv. unfold seal_context_inner. rewrite Hv. cbn [mbind result_bind].
  destruct (plain_round_trip (mkPlaintext c (b64_encode p))) as (pl & -> & Hpl).
  cbn [map_err mbind result_bind].
  destruct (sealing_succeeds c v (sr_entropy sr) pl Hv) as (ct & Hct & Hutf).
  rewrite Hct. cbn [mbind result_bind]. rewrite Hutf. cbn [ok_or mbind result_bind].
  match goal with |- context [env_to_vec ?e] => destruct (env_round_trip e) as (s & -> & Hs & Hu);
    exists s, e end. cbn [map_err].
  split_and!; try done; [by destruct c|]. unfold open_v2. cbn [ev_algorithm].
  rewrite String.eqb_refl. cbn [negb].
  rewrite bool_decide_eq_false_2 by (intros H; apply H; by destruct c).
  cbn [ev_key_id ev_key_version ev_ciphertext].
  rewrite (current_found_by_id c v Hv). cbn [mbind result_bind].
  rewrite (cipher_opens_sealed c v _ _ _ Hv Hct). cbn [mbind result_bind].
  rewrite Hpl. cbn [map_err mbind result_bind pl_context].
  rewrite bool_decide_eq_false_2 by auto.
  cbn [pl_secret_b64]. rewrite b64_round_trip. cbn [map_err mbind result_bind].
  rewrite (active_is_current c v Hv). cbn [mbind result_bind fst snd].
  by rewrite String.eqb_refl, Z.eqb_refl.
Qed.

(** Sealing and opening under the same context gives the secret back, fresh. *)
Lemma open_seal_inner sr c p rw v :
  for_context c = Ok v ->
  exists s, seal_context_inner sr c p rw = Ok s /\ from_utf8 s = Some s /\
    open_context c s = Ok (mkOpened p (vc_key_id v) (vc_key_version v) false false).
Proof.
  intros Hv. destruct (seal_inner_envelope sr c p rw v Hv) as (s & env & Hs & Hu & Hf & H2 & _ & Ho).
  exists s. split_and!; try done. unfold open_context. rewrite Hf, H2. by cbn.
Qed.
(** Whatever a sealing stored opens, fresh. *)
Lemma seal_string_opens sr c p s :
  seal_context_as_string sr c p = Ok s ->
  exists v, for_context c = Ok v /\
    open_context c s = Ok (mkOpened p (vc_key_id v) (vc_key_version v) false false).
Proof.
  unfold seal_context_as_string, seal_context. intros H.
  destruct (for_context c) as [v|] eqn:Hv.
  - destruct (open_seal_inner sr c p None v Hv) as (s' & Hs & Hu & Ho). rewrite Hs in H.
    cbn [mbind result_bind] in H. rewrite Hu in H. apply Ok_inj in H as <-. eauto.
  - unfold seal_context_inner in H. by rewrite Hv in H.
Qed.

(** Opening a fresh envelope under its own and under any other context *)
Lemma open_sealed sr c plaintext v :
  for_context c = Ok v ->
  exists stored, seal_context sr c plaintext = Ok stored /\
    open_context c stored = Ok (mkOpened plaintext (vc_key_id v) (vc_key_version v) false false) /\
    forall c', c' <> c -> open_context c' stored = Err ContextMismatch.
Proof.
  intros Hkey.
  destruct (seal_inner_envelope sr c plaintext None v Hkey)
    as (s & env & Hs & _ & Hf & H2 & Hc & Ho).
  assert (ev_algorithm env = KMS_V2_ALG) as Halg.
  { unfold open_v2 in Ho. destruct (ev_algorithm env =? KMS_V2_ALG)%string eqn:E; [by to_prop|done]. }
  exists s. split_and!; [done| |]; unfold open_context; rewrite Hf, H2; cbn [Z.eqb]; [done|].
  intros c' Hne. unfold open_v2. rewrite Halg, String.eqb_refl. cbn [negb].
  by rewrite bool_decide_eq_true_2 by (rewrite Hc; congruence).
Qed.
End theorems.

(** A secret sealed for a context is given back by opening it under that
    context, with no rewrap asked for, and refused under every other context
    (another owner, instance, name or scope), whatever keys are involved. *)
Theorem seal_open_context {dir : CipherDirectory} {codec : EnvelopeCodec}
    `{!CipherDirectoryOk dir, !EnvelopeCodecOk codec}
    (sr : SealRun) (c : KmsContext) (plaintext : string) (v : VersionedCipher)
    (Hkey : for_context c = Ok v) :
  exists stored, seal_context sr c plaintext = Ok stored /\
    open_context c stored = Ok (mkOpened plaintext (vc_key_id v) (vc_key_version v) false false) /\
    forall c', c' <> c -> open_context c' stored = Err ContextMismatch.
Proof. by apply open_sealed. Qed.

(** ** A concrete directory and codec *)

#[global] Instance KmsScope_countable : Countable KmsScope.
Proof. apply (inj_countable scope_str scope_parse). apply scope_parse_str. Defined.

#[global] Instance KmsContext_countable : Countable KmsContext.
Proof.
  refine (inj_countable' (fun c => (cx_scope c, cx_owner_id c, cx_instance_id c, cx_name c))
    (fun '(s, o, i, n) => mkContext s o i n) _). by intros [].
Defined.

#[global] Instance KmsEnvelope_eq_dec : EqDecision KmsEnvelope.
Proof. solve_decision. Defined.
#[global] Instance KmsEnvelope_countable : Countable KmsEnvelope.
Proof.
  refine (inj_countable'
    (fun e => (ev_version e, ev_algorithm e, envelope_context e, ev_key_id e, ev_key_version e,
               (ev_created_at e, ev_rotated_at e, ev_rewrapped_at e, ev_ciphertext e)))
    (fun '(v, a, c, k, kv, (t, ro, rw, ct)) =>
       mkEnvelope v a (cx_scope c) (cx_owner_id c) (cx_instance_id c) (cx_name c) k kv t ro rw ct) _).
  by intros [].
Defined.

#[global] Instance KmsPlaintext_eq_dec : EqDecision KmsPlaintext.
Proof. solve_decision. Defined.
#[global] Instance KmsPlaintext_countable : Countable KmsPlaintext.
Proof.
  refine (inj_countable' (fun p => (pl_context p, pl_secret_b64 p)) (fun '(c, s) => mkPlaintext c s) _).
  by intros [].
Defined.

(** The toy cipher tags what it seals with its key id. *)
Definition toy_cipher (key : string) : EnvelopeCipher :=
  mkCipher (fun _ p => Ok (to_text (key, p)))
    (fun ct => match of_text ct with
               | Some (k, p) => if (k =? key)%string then Ok p else Err Corrupt
               | None => Err Corrupt
               end).

Definition toy_directory : CipherDirectory := {|
  for_user u := Ok (toy_cipher ("legacy/" +:+ u));
  for_context c := Ok (mkVersioned (legacy_key_user c) 1 (toy_cipher (legacy_key_user c)));
  active_key_meta c := Ok (legacy_key_user c, 1);
  for_key_id k v := if v =? 1 then Ok (toy_cipher k) else Err BadKeyId
|}.

Definition toy_codec : EnvelopeCodec := {|
  env_to_vec e := Ok (to_text e);
  env_from_slice := of_text;
  plain_to_vec p := Ok (to_text p);
  plain_from_slice s := ok_or "plaintext" (of_text s);
  b64_encode s := to_text s;
  b64_decode s := ok_or "base64" (of_text s)
|}.

Lemma toy_directory_ok : CipherDirectoryOk toy_directory.
Proof.
  split.
  - intros c v Hv. by apply Ok_inj in Hv as <-.
  - intros c v Hv. by apply Ok_inj in Hv as <-.
  - intros c v entropy p ct Hv Hs. apply Ok_inj in Hv as <-. apply Ok_inj in Hs as <-.
    cbn [vc_cipher cipher_open toy_cipher]. by rewrite of_to_text, String.eqb_refl.
  - intros c v entropy p Hv. apply Ok_inj in Hv as <-. eexists. split; [reflexivity|].
    apply to_text_utf8.
Qed.

Lemma toy_codec_ok : EnvelopeCodecOk toy_codec.
Proof.
  split; cbn [env_to_vec env_from_slice plain_to_vec plain_from_slice b64_encode b64_decode toy_codec].
  - intros e. exists (to_text e). by rewrite of_to_text, to_text_utf8.
  - intros p. exists (to_text p). by rewrite of_to_text.
  - intros s. by rewrite of_to_text.
Qed.

Lemma seal_open_context_witness :
  exists stored, seal_context (dir := toy_directory) (codec := toy_codec) (mkSealRun 7 "r")
      (user_secret "u1" "github") "hunter2" = Ok stored /\
    open_context (dir := toy_directory) (codec := toy_codec) (user_secret "u1" "github") stored =
      Ok (mkOpened "hunter2" "u1" 1 false false) /\
    forall c', c' <> user_secret "u1" "github" ->
      open_context (dir := toy_directory) (codec := toy_codec) c' stored = Err ContextMismatch.
Proof.
  apply (seal_open_context (dir := toy_directory) (codec := toy_codec)
    (CipherDirectoryOk0 := toy_directory_ok) (EnvelopeCodecOk0 := toy_codec_ok)
    (mkSealRun 7 "r") (user_secret "u1" "github") "hunter2"
    (mkVersioned "u1" 1 (toy_cipher "u1"))).
  reflexivity.
Defined.
