(* ===== verification/KeyDirectory.v ===== *)
(** * The key directory

    Models [AgeCipher], [SealedCipher] and [AgeCipherDirectory] of
    [crates/core/src/envelope.rs]: age key files below one directory, created
    on first use, an [active] version file per key id, and a cache of loaded
    ciphers.  The age library is a parameter.  A path is the text below
    [keys_dir]; the file system answers every call that names an existing
    path, creates the missing parent directories and never runs full.

    The directory is shown to keep the promises of [CipherDirectory] that
    [Envelope] and its clients are verified against. *)

From Stdlib Require Import ZArith Ascii Lia.
From stdpp Require Import base list strings gmap option pretty.
From S2P Require Import Prelude RustStr Codec Envelope.

Local Open Scope string_scope.
Local Open Scope list_scope.
Local Open Scope Z_scope.

(** ** Key ids *)

(** [char::is_ascii_hexdigit] *)
Definition is_ascii_hexdigit (c : ascii) : bool :=
  is_ascii_digit c || in_range 65 70 c || in_range 97 102 c.

(** [validate_user_id] *)
Definition validate_user_id (id : string) : result EnvelopeError unit :=
  if (id =? SYSTEM_KEY_ID)%string then Ok tt
  else if negb (len id =? 32) || negb (all_bytes is_ascii_hexdigit id) then Err BadUserId
  else Ok tt.

(** [required_owner] *)
Definition required_owner (c : KmsContext) : result EnvelopeError string :=
  owner ← ok_or BadUserId (cx_owner_id c);
  _ ← validate_user_id owner;
  Ok owner.

Definition key_byte (c : ascii) : bool :=
  is_ascii_alphanumeric c || Ascii.eqb c "-" || Ascii.eqb c "_".

Definition bad_part (part : string) : bool :=
  is_empty part || (part =? ".")%string || (part =? "..")%string || negb (all_bytes key_byte part).

(** [validate_key_id] *)
Definition validate_key_id (key_id : string) : result EnvelopeError unit :=
  if is_empty key_id || starts_with "/" key_id || contains_str "//" key_id
     || existsb bad_part (split "/" key_id)
  then Err BadKeyId else Ok tt.

(** [scoped_key_id] *)
Definition scoped_key_id (c : KmsContext) : result EnvelopeError string :=
  let users segment := owner ← required_owner c; Ok ("users/" +:+ owner +:+ "/" +:+ segment) in
  key_id ← match cx_scope c with
           | SystemSecret => Ok "system/provider"
           | SystemConfigure => Ok "system/configure"
           | RuntimeToken => Ok "system/runtime_tokens"
           | UserApiKey => users "api_keys"
           | UserProfile => users "profile"
           | StateFile => users "state"
           | Artefact => users "artefact"
           | WebhookDelivery => users "webhook_delivery"
           | LlmToolCall => users "tool_calls"
           | AgentSecret => users "agent_secret"
           | UserSecret =>
               users (match cx_name c with
                      | Some name => if starts_with "mcp." name then "mcp" else "secrets"
                      | None => "secrets"
                      end)
           end;
  _ ← validate_key_id key_id;
  Ok key_id.

(** ** Ciphers *)

(** The age library: identities, their text form and armored encryption to
    the recipient of an identity. *)
Class AgeLib : Type := {
  Identity : Type;
  identity_generate : string -> Identity;
  identity_to_string : Identity -> string;
  identities_from_buffer : string -> result string (list Identity);
  age_encrypt : Identity -> string -> string -> result string string;
  age_decrypt : Identity -> string -> option string
}.

(** What age documents: a key file lists the identity written to it, armor is
    ASCII, and an identity decrypts what was encrypted to it. *)
Class AgeLibOk (age : AgeLib) : Prop := {
  identity_text : forall i, identities_from_buffer (identity_to_string i) = Ok [i] /\
    from_utf8 (identity_to_string i) = Some (identity_to_string i);
  age_encrypts : forall i entropy p, exists ct,
    age_encrypt i entropy p = Ok ct /\ from_utf8 ct = Some ct;
  age_decrypts : forall i entropy p ct, age_encrypt i entropy p = Ok ct -> age_decrypt i ct = Some p
}.

(** [SealedCipher] *)
Definition SealedCipher : EnvelopeCipher := mkCipher (fun _ _ => Err Sealed) (fun _ => Err Sealed).

(** [AgeCipherDirectory]: the key files, the cache and the sealed flag *)
Record KeyDir : Type := mkKeyDir {
  kd_files : gmap string string;
  kd_cache : gmap string EnvelopeCipher;
  kd_sealed : bool
}.

Section directory.
Context {age : AgeLib}.

(** [EnvelopeCipher for AgeCipher] *)
Definition AgeCipher (i : Identity) : EnvelopeCipher :=
  mkCipher (fun entropy p => map_err Age (age_encrypt i entropy p))
           (fun ct => ok_or Corrupt (age_decrypt i ct)).

(** [AgeCipher::from_identity_text] *)
Definition from_identity_text (text : string) : result EnvelopeError EnvelopeCipher :=
  identities ← map_err KeyParse (identities_from_buffer text);
  match identities with
  | [] => Err (KeyParse "no identities in key file")
  | i :: _ => Ok (AgeCipher i)
  end.

Definition keys := svc KeyDir EnvelopeError.

(** [std::fs::read_to_string]: [None] when there is no such file *)
Definition read_to_string (path : string) (d : KeyDir) : option (result EnvelopeError string) :=
  (fun raw => ok_or (EnvIo "stream did not contain valid UTF-8") (from_utf8 raw)) <$> kd_files d !! path.

Definition path_exists (path : string) (d : KeyDir) : bool := bool_decide (is_Some (kd_files d !! path)).

Definition write_file (path content : string) (d : KeyDir) : KeyDir :=
  mkKeyDir (<[path := content]> (kd_files d)) (kd_cache d) (kd_sealed d).
Definition cache_insert (key : string) (c : EnvelopeCipher) (d : KeyDir) : KeyDir :=
  mkKeyDir (kd_files d) (<[key := c]> (kd_cache d)) (kd_sealed d).

(** [AgeCipher::from_key_file] *)
Definition from_key_file (path : string) (d : KeyDir) : result EnvelopeError EnvelopeCipher :=
  match read_to_string path d with
  | Some raw => raw ← raw; from_identity_text raw
  | None => Err (EnvIo "entity not found")
  end.

(** [AgeCipher::generate_if_missing]; [entropy] is what the new key is drawn from. *)
Definition generate_if_missing (entropy path : string) (d : KeyDir) : KeyDir :=
  if path_exists path d then d
  else write_file path (identity_to_string (identity_generate entropy)) d.

(** [legacy_key_path] *)
Definition legacy_key_path (user_id : string) : result EnvelopeError string :=
  _ ← validate_user_id user_id; Ok (user_id +:+ ".age").

(** [active_version] *)
Definition active_path (key_id : string) : string := key_id +:+ "/active".
Definition active_version (key_id : string) (d : KeyDir) : result EnvelopeError Z :=
  _ ← validate_key_id key_id;
  match read_to_string (active_path key_id) d with
  | Some raw =>
      raw ← raw;
      version ← ok_or (KeyParse "active version is not an integer") (parse_uint u32_max (trim raw));
      if version =? 0 then Err (KeyParse "active version must be >= 1") else Ok version
  | None => Ok 1
  end.

(** [versioned_key_path] *)
Definition key_file (key_id : string) (version : Z) : string := key_id +:+ "/v" +:+ dec version +:+ ".age".
Definition versioned_key_path (key_id : string) (version : Z) : result EnvelopeError string :=
  _ ← validate_key_id key_id;
  if version =? 0 then Err (KeyParse "key version must be >= 1") else Ok (key_file key_id version).

Definition v2_cache_key (key_id : string) (version : Z) : string :=
  "v2:" +:+ key_id +:+ ":v" +:+ dec version.
Definition legacy_cache_key (user_id : string) : string := "legacy:" +:+ user_id.

(** Load a key file and remember its cipher *)
Definition load_cipher (cache_key path : string) : keys EnvelopeCipher := fun d =>
  match from_key_file path d with
  | Ok c => (cache_insert cache_key c d, Ok c)
  | Err e => (d, Err e)
  end.

(** The files a [create] of [versioned_cipher] makes sure of *)
Definition create_key (entropy key_id : string) (version : Z) (path : string) (d : KeyDir) : KeyDir :=
  let d := generate_if_missing entropy path d in
  if path_exists (active_path key_id) d then d
  else write_file (active_path key_id) (dec version +:+ String (b 10) EmptyString) d.

(** [versioned_cipher] *)
Definition versioned_cipher (entropy key_id : string) (version : Z) (create : bool) :
  keys EnvelopeCipher := fun d =>
  if kd_sealed d then (d, Ok SealedCipher)
  else match kd_cache d !! v2_cache_key key_id version with
       | Some c => (d, Ok c)
       | None =>
           match versioned_key_path key_id version with
           | Err e => (d, Err e)
           | Ok path =>
               load_cipher (v2_cache_key key_id version) path
                 (if create then create_key entropy key_id version path d else d)
           end
       end.

(** [CipherDirectory for AgeCipherDirectory] *)
Definition dir_for_user (entropy user_id : string) : keys EnvelopeCipher := fun d =>
  if kd_sealed d then (d, Ok SealedCipher)
  else match validate_user_id user_id with
       | Err e => (d, Err e)
       | Ok _ =>
           match kd_cache d !! legacy_cache_key user_id with
           | Some c => (d, Ok c)
           | None =>
               match legacy_key_path user_id with
               | Err e => (d, Err e)
               | Ok path =>
                   load_cipher (legacy_cache_key user_id) path (generate_if_missing entropy path d)
               end
           end
       end.

Definition dir_active_key_meta (c : KmsContext) (d : KeyDir) : result EnvelopeError (string * Z) :=
  key_id ← scoped_key_id c;
  key_version ← active_version key_id d;
  Ok (key_id, key_version).

Definition dir_for_context (entropy : string) (c : KmsContext) : keys VersionedCipher :=
  meta ← (fun d => (d, dir_active_key_meta c d));
  cipher ← versioned_cipher entropy meta.1 meta.2 true;
  mret (mkVersioned meta.1 meta.2 cipher).

Definition dir_for_key_id (key_id : string) (version : Z) : keys EnvelopeCipher :=
  versioned_cipher "" key_id version false.

(** [forget_user] *)
Definition dir_forget_user (user_id : string) : keys unit := fun d =>
  if kd_sealed d then (d, Err Sealed)
  else match legacy_key_path user_id with
       | Err e => (d, Err e)
       | Ok path =>
           (mkKeyDir (delete path (kd_files d)) (delete (legacy_cache_key user_id) (kd_cache d))
              (kd_sealed d), Ok tt)
       end.

(** [env_truthy], over the process environment *)
Definition env_truthy (env : string -> option string) (name : string) : bool :=
  match env name with
  | Some v => bool_decide (v ∈ ["1"; "true"; "TRUE"; "yes"; "YES"])
  | None => false
  end.

(** [AgeCipherDirectory::new], on the files a previous process may have left *)
Definition dir_new (env : string -> option string) (files : gmap string string) : KeyDir :=
  mkKeyDir files ∅ (env_truthy env "SWARM_KMS_SEALED" || env_truthy env "DYSON_SWARM_KMS_SEALED").

(** ** The directory as its clients see it *)

(** The key of a context has been created. *)
Definition key_ready (c : KmsContext) (d : KeyDir) : bool :=
  match dir_active_key_meta c d with
  | Ok (key_id, version) => path_exists (key_file key_id version) d
  | Err _ => false
  end.

(** The answers of the directory in one state; [for_context] answers for
    contexts whose key is there, which is what calling it makes true. *)
Definition directory_at (d : KeyDir) : CipherDirectory := {|
  for_user u := (dir_for_user "" u d).2;
  for_context c := if key_ready c d then (dir_for_context "" c d).2
                   else Err (EnvIo "no key yet");
  active_key_meta c := dir_active_key_meta c d;
  for_key_id k v := (dir_for_key_id k v d).2
|}.

(** One call of the directory, or a restart of the process *)
Inductive DirCall : Type :=
| CallForUser (entropy user_id : string)
| CallForContext (entropy : string) (c : KmsContext)
| CallForKeyId (key_id : string) (version : Z)
| CallForgetUser (user_id : string)
| Restart (env : string -> option string).

Definition dir_call (call : DirCall) (d : KeyDir) : KeyDir :=
  match call with
  | CallForUser entropy u => (dir_for_user entropy u d).1
  | CallForContext entropy c => (dir_for_context entropy c d).1
  | CallForKeyId k v => (dir_for_key_id k v d).1
  | CallForgetUser u => (dir_forget_user u d).1
  | Restart env => dir_new env (kd_files d)
  end.
End directory.

(** ** Paths and cache keys *)

Lemma validate_user_id_no_char u ch :
  validate_user_id u = Ok tt -> is_ascii_hexdigit ch = false -> contains_char ch "system" = false ->
  no_char ch u.
Proof.
  unfold validate_user_id. destruct (u =? SYSTEM_KEY_ID)%string eqn:E; [to_prop; by subst|].
  destruct (_ || _) eqn:H; [done|]. to_prop. intros _ Hc _. by eapply all_bytes_no_char.
Qed.

Lemma validate_key_id_parts k :
  validate_key_id k = Ok tt -> forall part, part ∈ split "/" k -> bad_part part = false.
Proof.
  unfold validate_key_id. destruct (_ || _) eqn:H; [done|]. to_prop. intros _ part Hp.
  destruct (bad_part part) eqn:E; [|done]. exfalso.
  assert (existsb bad_part (split "/" k) = true) as Ht; [|congruence].
  apply existsb_exists'. by exists part.
Qed.

Lemma v2_cache_key_inj k k' n n' :
  0 <= n -> 0 <= n' -> v2_cache_key k n = v2_cache_key k' n' -> k = k' /\ n = n'.
Proof.
  intros Hn Hn' H. unfold v2_cache_key in H. apply (inj (String.append "v2:")) in H.
  assert (forall n, no_char ":" ("v" +:+ dec n)) as Hc.
  { intros m. cbn. eapply all_bytes_no_char; [apply dec_digits|done]. }
  apply (app_last_sep_inj ":" k k' ("v" +:+ dec n) ("v" +:+ dec n')) in H as [-> H]; [|apply Hc..].
  split; [done|]. apply (inj (String.append "v")) in H. by apply dec_inj.
Qed.

Lemma cache_keys_differ k n u : v2_cache_key k n <> legacy_cache_key u.
Proof. done. Qed.

Lemma key_file_slash k n : contains_char "/" (key_file k n) = true.
Proof. unfold key_file. rewrite contains_char_app. cbn. by destruct (contains_char "/" k). Qed.

Lemma active_path_slash k : contains_char "/" (active_path k) = true.
Proof. unfold active_path. rewrite contains_char_app. cbn. by destruct (contains_char "/" k). Qed.

Lemma legacy_path_no_slash u p : legacy_key_path u = Ok p -> no_char "/" p.
Proof.
  unfold legacy_key_path. destruct (validate_user_id u) as [[]|] eqn:E; [|done].
  intros H. apply Ok_inj in H as <-. rewrite contains_char_app.
  by rewrite (validate_user_id_no_char u "/" E).
Qed.

Lemma key_file_not_active k n k' : key_file k n <> active_path k'.
Proof.
  intros H. apply (f_equal rev_str) in H. unfold key_file, active_path in H.
  rewrite !rev_str_app in H. done.
Qed.

(** ** The invariant *)

Section invariant.
Context {age : AgeLib}.

(** An unsealed directory whose cache answers what the key files say *)
Record dir_ok (d : KeyDir) : Prop := mkDirOk {
  do_unsealed : kd_sealed d = false;
  do_v2 : forall k n c, 0 <= n -> kd_cache d !! v2_cache_key k n = Some c ->
    from_key_file (key_file k n) d = Ok c;
  do_legacy : forall u c, kd_cache d !! legacy_cache_key u = Some c ->
    from_key_file (u +:+ ".age") d = Ok c
}.

(** What no call of the directory takes away: the files of the versioned
    keys; and an [active] file that appears says 1. *)
Record grows (d d' : KeyDir) : Prop := mkGrows {
  gr_files : forall p s, contains_char "/" p = true ->
    kd_files d !! p = Some s -> kd_files d' !! p = Some s;
  gr_active : forall k, kd_files d !! active_path k = None ->
    kd_files d' !! active_path k = None \/
    kd_files d' !! active_path k = Some (dec 1 +:+ String (b 10) EmptyString)
}.

Lemma grows_refl d : grows d d.
Proof. split; auto. Qed.

Lemma grows_trans d1 d2 d3 : grows d1 d2 -> grows d2 d3 -> grows d1 d3.
Proof.
  intros [H1 A1] [H2 A2]. split; [auto|]. intros k Hk.
  destruct (A1 k Hk) as [Hn|Hs]; [by apply A2|]. right. apply H2; [apply active_path_slash|done].
Qed.

Lemma from_key_file_ext p d d' :
  kd_files d' !! p = kd_files d !! p -> from_key_file p d' = from_key_file p d.
Proof. unfold from_key_file, read_to_string. by intros ->. Qed.

Lemma from_key_file_exists p d c : from_key_file p d = Ok c -> is_Some (kd_files d !! p).
Proof. unfold from_key_file, read_to_string. destruct (kd_files d !! p); [eauto|done]. Qed.

Lemma from_key_file_age p d c : from_key_file p d = Ok c -> exists i, c = AgeCipher i.
Proof.
  unfold from_key_file, from_identity_text. destruct (read_to_string p d) as [[raw|]|]; [|done..].
  cbn [mbind result_bind]. intros H. inv_ok. case_match; [done|]. simplify_eq. eauto.
Qed.

Lemma from_key_file_grows p d d' c :
  grows d d' -> contains_char "/" p = true -> from_key_file p d = Ok c -> from_key_file p d' = Ok c.
Proof.
  intros [Hg _] Hs Hf. destruct (from_key_file_exists _ _ _ Hf) as [s Hp].
  by rewrite (from_key_file_ext p d d') by by rewrite Hp, (Hg p s Hs Hp).
Qed.

(** Adding a file that is not there keeps every answer. *)
Lemma from_key_file_write p q s d c :
  kd_files d !! q = None -> from_key_file p d = Ok c -> from_key_file p (write_file q s d) = Ok c.
Proof.
  intros Hq Hp. destruct (decide (p = q)) as [->|Hne].
  - destruct (from_key_file_exists _ _ _ Hp). congruence.
  - rewrite <- Hp. apply from_key_file_ext. cbn. by rewrite lookup_insert_ne.
Qed.

Lemma write_file_ok q s d : kd_files d !! q = None -> dir_ok d -> dir_ok (write_file q s d).
Proof.
  intros Hq [Hs H2 Hl]. split; [done| |]; cbn [kd_cache write_file]; intros; apply from_key_file_write; auto.
Qed.

Lemma path_exists_false p d : path_exists p d = false -> kd_files d !! p = None.
Proof. unfold path_exists. intros H. to_prop. by apply eq_None_not_Some. Qed.

Lemma generate_ok e p d : dir_ok d -> dir_ok (generate_if_missing e p d).
Proof.
  intros Hd. unfold generate_if_missing. destruct (path_exists p d) eqn:E; [done|].
  apply write_file_ok; [by apply path_exists_false|done].
Qed.

Lemma write_file_grows q s d :
  kd_files d !! q = None -> (forall k, q = active_path k -> s = dec 1 +:+ String (b 10) EmptyString) ->
  grows d (write_file q s d).
Proof.
  intros Hq Ha. split.
  - intros p s' _ Hp. cbn. rewrite lookup_insert_ne; [done|congruence].
  - intros k Hk. cbn. destruct (decide (q = active_path k)) as [->|Hne].
    + right. rewrite lookup_insert_eq. by rewrite (Ha k eq_refl).
    + left. by rewrite lookup_insert_ne.
Qed.

Lemma generate_grows e p d :
  (forall k, p <> active_path k) -> grows d (generate_if_missing e p d).
Proof.
  intros Hp. unfold generate_if_missing. destruct (path_exists p d) eqn:E; [apply grows_refl|].
  apply write_file_grows; [by apply path_exists_false|]. intros k ->. by destruct (Hp k).
Qed.
End invariant.

Section steps.
Context {age : AgeLib}.

Lemma create_key_ok e k n p d : dir_ok d -> dir_ok (create_key e k n p d).
Proof.
  intros Hd. unfold create_key. cbn zeta. apply (generate_ok e p) in Hd.
  destruct (path_exists _ _) eqn:E; [done|]. apply write_file_ok; [by apply path_exists_false|done].
Qed.

Lemma create_key_grows e k n d :
  (kd_files d !! active_path k = None -> n = 1) -> grows d (create_key e k n (key_file k n) d).
Proof.
  intros Hn. unfold create_key. cbn zeta.
  assert (grows d (generate_if_missing e (key_file k n) d)) as Hg
    by (apply generate_grows, key_file_not_active).
  destruct (path_exists _ _) eqn:E; [exact Hg|]. apply path_exists_false in E.
  eapply grows_trans; [exact Hg|]. apply write_file_grows; [done|].
  intros k' Hk. apply app_inj_suffix in Hk as ->. rewrite Hn; [done|].
  destruct (kd_files d !! active_path k') as [s|] eqn:Hs; [|done].
  by rewrite (gr_files _ _ Hg _ _ (active_path_slash k') Hs) in E.
Qed.

Lemma create_key_exists e k n p d : is_Some (kd_files d !! p) -> grows d (create_key e k n p d) ->
  contains_char "/" p = true -> from_key_file p (create_key e k n p d) = from_key_file p d.
Proof.
  intros [s Hs] Hg Hp. apply from_key_file_ext. by rewrite Hs, (gr_files _ _ Hg p s Hp Hs).
Qed.

(** Loading a key leaves the files alone and caches what they say. *)
Lemma load_v2_ok k n d :
  0 <= n -> dir_ok d -> dir_ok (load_cipher (v2_cache_key k n) (key_file k n) d).1.
Proof.
  intros Hn [Hs H2 Hl]. unfold load_cipher. destruct (from_key_file _ d) as [c|] eqn:E; [|done].
  split; [done| |]; cbn [kd_cache cache_insert fst].
  - intros k' n' c' Hn' Hc. destruct (decide (v2_cache_key k' n' = v2_cache_key k n)) as [He|Hne].
    + rewrite He, lookup_insert_eq in Hc. apply v2_cache_key_inj in He as [-> ->]; [|done..].
      by simplify_eq.
    + rewrite lookup_insert_ne in Hc by done. by apply H2.
  - intros u c' Hc. rewrite lookup_insert_ne in Hc by apply cache_keys_differ. by apply Hl.
Qed.

Lemma load_legacy_ok u d :
  dir_ok d -> dir_ok (load_cipher (legacy_cache_key u) (u +:+ ".age") d).1.
Proof.
  intros [Hs H2 Hl]. unfold load_cipher. destruct (from_key_file _ d) as [c|] eqn:E; [|done].
  split; [done| |]; cbn [kd_cache cache_insert fst].
  - intros k' n' c' Hn' Hc. rewrite lookup_insert_ne in Hc by (intros He; by apply (cache_keys_differ k' n' u)).
    by apply H2.
  - intros u' c' Hc. destruct (decide (u' = u)) as [->|Hne].
    + rewrite lookup_insert_eq in Hc. by simplify_eq.
    + rewrite lookup_insert_ne in Hc by (intros He; by apply (inj (String.append "legacy:")) in He).
      by apply Hl.
Qed.

Lemma load_files ck p d : kd_files (load_cipher ck p d).1 = kd_files d.
Proof. unfold load_cipher. by destruct (from_key_file p d). Qed.

Lemma grows_same_files d d' d'' : kd_files d'' = kd_files d' -> grows d d' -> grows d d''.
Proof. intros H [H1 H2]. split; by rewrite H. Qed.

Lemma versioned_path_ok k n p : versioned_key_path k n = Ok p -> p = key_file k n /\ n <> 0.
Proof.
  unfold versioned_key_path. intros H. inv_ok. case_match; [done|]. simplify_eq. to_prop. done.
Qed.

(** The two things every call of [versioned_cipher] does to the state *)
Lemma versioned_cipher_step e k n create d :
  0 <= n -> dir_ok d -> (create = true -> kd_files d !! active_path k = None -> n = 1) ->
  dir_ok (versioned_cipher e k n create d).1 /\ grows d (versioned_cipher e k n create d).1.
Proof.
  intros Hn Hd Ha. unfold versioned_cipher. rewrite (do_unsealed d Hd).
  destruct (kd_cache d !! _) eqn:Ec; [split; [done|apply grows_refl]|].
  destruct (versioned_key_path k n) as [p|] eqn:Ep; [|split; [done|apply grows_refl]].
  apply versioned_path_ok in Ep as [-> _]. split.
  - apply load_v2_ok; [done|]. destruct create; [by apply create_key_ok|done].
  - eapply grows_same_files; [apply load_files|]. destruct create; [|apply grows_refl].
    apply create_key_grows. auto.
Qed.

(** The cipher it answers with is the one of the key file. *)
Lemma versioned_cipher_file e k n create d c :
  0 <= n -> dir_ok d -> (versioned_cipher e k n create d).2 = Ok c ->
  from_key_file (key_file k n) (versioned_cipher e k n create d).1 = Ok c.
Proof.
  intros Hn Hd. unfold versioned_cipher. rewrite (do_unsealed d Hd).
  destruct (kd_cache d !! _) eqn:Ec.
  { cbn. intros [= <-]. by apply do_v2. }
  destruct (versioned_key_path k n) as [p|] eqn:Ep; [|done].
  apply versioned_path_ok in Ep as [-> _]. unfold load_cipher. destruct (from_key_file _ _) eqn:E; [|done].
  cbn. intros [= <-]. exact E.
Qed.

Lemma dir_for_key_id_file k n d c :
  0 <= n -> n <> 0 -> validate_key_id k = Ok tt -> dir_ok d -> from_key_file (key_file k n) d = Ok c ->
  (dir_for_key_id k n d).2 = Ok c.
Proof.
  intros Hn Hn0 Hk Hd Hf. unfold dir_for_key_id, versioned_cipher. rewrite (do_unsealed d Hd).
  destruct (kd_cache d !! _) as [c'|] eqn:Ec.
  - apply do_v2 in Ec; [|done..]. cbn. congruence.
  - unfold versioned_key_path. rewrite Hk. cbn [mbind result_bind].
    destruct (n =? 0) eqn:E; [by to_prop|]. unfold load_cipher. by rewrite Hf.
Qed.

Lemma active_version_range k d n : active_version k d = Ok n -> 1 <= n /\ validate_key_id k = Ok tt.
Proof.
  unfold active_version. destruct (validate_key_id k) as [[]|] eqn:Ek; [|done]. cbn [mbind result_bind].
  destruct (read_to_string _ d) as [[raw|]|]; cbn [mbind result_bind]; [|done|by intros [= <-]].
  intros H. inv_ok. destruct (_ =? 0) eqn:E; [done|]. simplify_eq. to_prop.
  apply parse_uint_range in H. split; [lia|done].
Qed.

Lemma meta_ok c d k n :
  dir_active_key_meta c d = Ok (k, n) ->
  scoped_key_id c = Ok k /\ active_version k d = Ok n /\ 1 <= n /\ validate_key_id k = Ok tt.
Proof.
  unfold dir_active_key_meta. intros H. inv_ok. simplify_eq.
  split_and!; try done; by eapply active_version_range.
Qed.

Lemma active_version_missing k d n :
  active_version k d = Ok n -> kd_files d !! active_path k = None -> n = 1.
Proof.
  unfold active_version, read_to_string. intros H Hm. rewrite Hm in H. cbn [fmap option_fmap option_map] in H.
  inv_ok. by simplify_eq.
Qed.

Lemma active_version_grows k d d' n :
  grows d d' -> active_version k d = Ok n -> active_version k d' = Ok n.
Proof.
  intros Hg H. unfold active_version, read_to_string.
  destruct (kd_files d !! active_path k) as [s|] eqn:Es.
  - rewrite (gr_files _ _ Hg _ _ (active_path_slash k) Es).
    unfold active_version, read_to_string in H. by rewrite Es in H.
  - pose proof (active_version_missing k d n H Es) as ->.
    apply active_version_range in H as [_ ->]. cbn [mbind result_bind].
    destruct (gr_active _ _ Hg k Es) as [->| ->]; [done|]. vm_compute. reflexivity.
Qed.

Lemma meta_grows c d d' m :
  grows d d' -> dir_active_key_meta c d = Ok m -> dir_active_key_meta c d' = Ok m.
Proof.
  intros Hg. destruct m as [k n]. intros H. apply meta_ok in H as (Hk & Hv & _).
  unfold dir_active_key_meta. rewrite Hk. cbn [mbind result_bind].
  by rewrite (active_version_grows k d d' n Hg Hv).
Qed.
End steps.

Section calls.
Context {age : AgeLib}.

Lemma for_context_step e c d :
  dir_ok d -> dir_ok (dir_for_context e c d).1 /\ grows d (dir_for_context e c d).1.
Proof.
  intros Hd. unfold dir_for_context, mbind, svc_bind.
  destruct (dir_active_key_meta c d) as [[k n]|] eqn:Hm; [|split; [done|apply grows_refl]].
  apply meta_ok in Hm as (_ & Hv & Hn & _).
  destruct (versioned_cipher_step e k n true d) as [H1 H2]; [lia|done| |].
  { intros _. by apply active_version_missing. }
  cbn [fst snd] in *. destruct (versioned_cipher e k n true d) as [d' [v|]]; by split.
Qed.

Lemma for_user_step e u d :
  dir_ok d -> dir_ok (dir_for_user e u d).1 /\ grows d (dir_for_user e u d).1.
Proof.
  intros Hd. unfold dir_for_user. rewrite (do_unsealed d Hd).
  destruct (validate_user_id u) as [[]|] eqn:Hu; [|split; [done|apply grows_refl]].
  destruct (kd_cache d !! _); [split; [done|apply grows_refl]|].
  unfold legacy_key_path. rewrite Hu. cbn [mbind result_bind]. split.
  - by apply load_legacy_ok, generate_ok.
  - eapply grows_same_files; [apply load_files|]. apply generate_grows. intros k Hk.
    pose proof (legacy_path_no_slash u (u +:+ ".age")) as Hno. unfold legacy_key_path in Hno.
    rewrite Hu in Hno. specialize (Hno eq_refl). rewrite Hk, active_path_slash in Hno. done.
Qed.

Lemma forget_user_step u d :
  dir_ok d -> dir_ok (dir_forget_user u d).1 /\ grows d (dir_forget_user u d).1.
Proof.
  intros Hd. unfold dir_forget_user. rewrite (do_unsealed d Hd).
  destruct (legacy_key_path u) as [p|] eqn:Hp; [|split; [done|apply grows_refl]].
  pose proof (legacy_path_no_slash u p Hp) as Hno. cbn [fst].
  assert (p = u +:+ ".age") as -> by (unfold legacy_key_path in Hp; inv_ok; by simplify_eq).
  assert (forall q, contains_char "/" q = true -> (u +:+ ".age") <> q) as Hne by (intros q Hq <-; congruence).
  split.
  - destruct Hd as [Hs H2 Hl]. split; [done| |]; cbn [kd_cache].
    + intros k n c Hn Hc. rewrite lookup_delete_ne in Hc
        by (intros He; by apply (cache_keys_differ k n u)).
      rewrite <- (H2 k n c Hn Hc). apply from_key_file_ext. cbn.
      apply lookup_delete_ne, Hne, key_file_slash.
    + intros u' c Hc. destruct (decide (u = u')) as [<-|Hu]; [by rewrite lookup_delete_eq in Hc|].
      rewrite lookup_delete_ne in Hc by (intros He; by apply (inj (String.append "legacy:")) in He).
      rewrite <- (Hl u' c Hc). apply from_key_file_ext. cbn.
      apply lookup_delete_ne. intros He. by apply app_inj_suffix in He.
  - split.
    + intros q s Hq Hs. cbn. by rewrite lookup_delete_ne by by apply Hne.
    + intros k Hk. left. cbn. rewrite lookup_delete_ne; [done|]. apply Hne, active_path_slash.
Qed.

(** A key version is a [u32]; a restarted process is not sealed. *)
Definition call_wf (call : DirCall) : Prop :=
  match call with
  | CallForKeyId _ v => 0 <= v
  | Restart env => kd_sealed (dir_new env ∅) = false
  | _ => True
  end.

Lemma dir_call_step call d :
  call_wf call -> dir_ok d -> dir_ok (dir_call call d) /\ grows d (dir_call call d).
Proof.
  intros Hw Hd. destruct call; cbn [dir_call].
  - by apply for_user_step.
  - by apply for_context_step.
  - by apply versioned_cipher_step.
  - by apply forget_user_step.
  - split; [by split|]. split; cbn; auto.
Qed.

Definition dir_calls (calls : list DirCall) (d : KeyDir) : KeyDir :=
  fold_left (fun d call => dir_call call d) calls d.

Lemma dir_calls_step calls d :
  Forall call_wf calls -> dir_ok d -> dir_ok (dir_calls calls d) /\ grows d (dir_calls calls d).
Proof.
  revert d. induction calls as [|call calls IH]; intros d Hw Hd; [split; [done|apply grows_refl]|].
  inversion Hw; subst. cbn. destruct (dir_call_step call d) as [H3 H4]; [done..|].
  destruct (IH (dir_call call d)) as [H5 H6]; [done..|]. split; [done|]. by eapply grows_trans.
Qed.

(** Where the answer of [for_context] comes from *)
Lemma for_context_file e c d d' v :
  dir_ok d -> dir_for_context e c d = (d', Ok v) ->
  dir_active_key_meta c d' = Ok (vc_key_id v, vc_key_version v) /\
  from_key_file (key_file (vc_key_id v) (vc_key_version v)) d' = Ok (vc_cipher v).
Proof.
  intros Hd Hf. destruct (for_context_step e c d Hd) as [_ Hg]. rewrite Hf in Hg. cbn [fst] in Hg.
  unfold dir_for_context, mbind, svc_bind in Hf.
  destruct (dir_active_key_meta c d) as [[k n]|] eqn:Hm; [|done].
  pose proof (meta_grows c d d' _ Hg Hm) as Hm'. apply meta_ok in Hm as (_ & _ & Hn & _).
  cbn [fst snd] in Hf. destruct (versioned_cipher e k n true d) as [d1 [ci|]] eqn:Hc; [|done].
  apply pair_equal_spec in Hf as [<- Hv]. apply Ok_inj in Hv as <-. split; [done|].
  cbn [vc_key_id vc_key_version vc_cipher].
  pose proof (versioned_cipher_file e k n true d ci ltac:(lia) Hd) as Hv. rewrite Hc in Hv. by apply Hv.
Qed.

(** The view of a state answers [for_context] from the key file. *)
Lemma view_for_context c d v :
  dir_ok d -> for_context (CipherDirectory := directory_at d) c = Ok v <->
    (dir_active_key_meta c d = Ok (vc_key_id v, vc_key_version v) /\
     from_key_file (key_file (vc_key_id v) (vc_key_version v)) d = Ok (vc_cipher v)).
Proof.
  intros Hd. cbn [for_context directory_at]. unfold key_ready, dir_for_context, mbind, svc_bind.
  destruct (dir_active_key_meta c d) as [[k n]|] eqn:Hm; [|naive_solver].
  pose proof (meta_ok c d k n Hm) as (_ & Hv & Hn & Hk). cbn [fst snd].
  assert (path_exists (key_file k n) d = true ->
          (versioned_cipher "" k n true d).2 = from_key_file (key_file k n) d) as Hans.
  { intros He. unfold path_exists in He. to_prop. unfold versioned_cipher. rewrite (do_unsealed d Hd).
    destruct (kd_cache d !! _) as [c'|] eqn:Ec.
    - apply do_v2 in Ec; [by rewrite Ec|done|lia].
    - unfold versioned_key_path. rewrite Hk. cbn [mbind result_bind].
      destruct (n =? 0) eqn:E; [to_prop; lia|]. unfold load_cipher.
      rewrite (create_key_exists "" k n (key_file k n) d He);
        [by destruct (from_key_file _ d)| |apply key_file_slash].
      apply create_key_grows. intros Hmiss. by eapply active_version_missing. }
  split.
  - destruct (path_exists _ d) eqn:He; [|done]. specialize (Hans eq_refl).
    destruct (versioned_cipher "" k n true d) as [d' [ci|]]; [|done]. cbn in Hans |- *.
    intros H. apply Ok_inj in H as <-. cbn. done.
  - intros [Hm' Hf]. apply Ok_inj in Hm'. injection Hm' as -> ->.
    assert (path_exists (key_file (vc_key_id v) (vc_key_version v)) d = true) as He.
    { apply bool_decide_eq_true_2. by eapply from_key_file_exists. }
    rewrite He. specialize (Hans He). rewrite Hf in Hans.
    destruct (versioned_cipher _ _ _ _ d) as [d' ci]. cbn in Hans. subst ci. cbn. by destruct v.
Qed.
End calls.

Lemma view_ok {age : AgeLib} `{!AgeLibOk age} (d : KeyDir) :
  dir_ok d -> CipherDirectoryOk (directory_at d).
Proof.
  intros Hd.
  assert (forall c v, for_context (CipherDirectory := directory_at d) c = Ok v ->
            exists i, vc_cipher v = AgeCipher i) as Hage.
  { intros c v H. apply view_for_context in H as [_ Hf]; [|done]. by eapply from_key_file_age. }
  split.
  - intros c v H. by apply view_for_context in H as [Hm _].
  - intros c v H. apply view_for_context in H as [Hm Hf]; [|done].
    apply meta_ok in Hm as (_ & _ & Hn & Hk). apply dir_for_key_id_file; [lia|lia|done..].
  - intros c v e p ct H Hs. destruct (Hage c v H) as [i Hi]. rewrite Hi in *.
    cbn [AgeCipher cipher_seal cipher_open] in *. apply map_err_ok in Hs.
    by rewrite (age_decrypts i e p ct Hs).
  - intros c v e p H. destruct (Hage c v H) as [i ->].
    destruct (age_encrypts i e p) as (ct & Hct & Hu). exists ct. cbn. by rewrite Hct.
Qed.

(** A key once handed out is handed out by every later state. *)
Lemma for_context_survives {age : AgeLib} e c d d1 v calls :
  Forall call_wf calls -> dir_ok d -> dir_for_context e c d = (d1, Ok v) ->
  dir_ok (dir_calls calls d1) /\
  for_context (CipherDirectory := directory_at (dir_calls calls d1)) c = Ok v.
Proof.
  intros Hw Hd Hf. destruct (for_context_step e c d Hd) as [Hd1 _].
  destruct (for_context_file e c d d1 v Hd Hf) as [Hm Hk]. rewrite Hf in Hd1. cbn [fst] in Hd1.
  destruct (dir_calls_step calls d1 Hw Hd1) as [Hd2 Hg]. split; [done|].
  apply view_for_context; [done|]. split; [by eapply meta_grows|].
  eapply from_key_file_grows; [done|apply key_file_slash|done].
Qed.

Lemma sealed_opens_later {age : AgeLib} {codec : EnvelopeCodec} `{!AgeLibOk age, !EnvelopeCodecOk codec}
    e c d d1 v calls sr p :
  Forall call_wf calls -> dir_ok d -> dir_for_context e c d = (d1, Ok v) ->
  exists stored, seal_context (dir := directory_at d1) sr c p = Ok stored /\
    open_context (dir := directory_at (dir_calls calls d1)) c stored =
      Ok (mkOpened p (vc_key_id v) (vc_key_version v) false false) /\
    forall c', c' <> c ->
      open_context (dir := directory_at (dir_calls calls d1)) c' stored = Err ContextMismatch.
Proof.
  intros Hw Hd Hf.
  destruct (for_context_survives e c d d1 v [] ltac:(constructor) Hd Hf) as [_ H1].
  destruct (for_context_survives e c d d1 v calls Hw Hd Hf) as [Hd2 H2]. cbn [dir_calls fold_left] in H1.
  pose proof (view_ok _ Hd2).
  destruct (open_sealed (dir := directory_at (dir_calls calls d1)) sr c p v H2) as (s & Hs & Ho & Hx).
  exists s. split; [|done]. unfold seal_context, seal_context_inner in *. by rewrite H1; rewrite H2 in Hs.
Qed.

(** ** Theorems *)




(** Forgetting a user forgets only the legacy key: the call succeeds, yet
    every secret sealed for that user under a versioned key still opens. *)
Theorem forget_user_keeps_secrets {age : AgeLib} {codec : EnvelopeCodec}
    `{!AgeLibOk age, !EnvelopeCodecOk codec}
    (e user name p : string) (d d1 : KeyDir) (v : VersionedCipher) (sr : SealRun)
    (Hd : dir_ok d) (Hkey : dir_for_context e (user_secret user name) d = (d1, Ok v)) :
  (dir_forget_user user d1).2 = Ok tt /\
  exists stored, seal_context (dir := directory_at d1) sr (user_secret user name) p = Ok stored /\
    op_plaintext <$> open_context (dir := directory_at (dir_forget_user user d1).1)
      (user_secret user name) stored = Ok p.
Proof.
  split.
  - destruct (for_context_file e _ d d1 v Hd Hkey) as [Hm _].
    destruct (for_context_step e (user_secret user name) d Hd) as [Hd1 _]. rewrite Hkey in Hd1.
    unfold dir_forget_user. rewrite (do_unsealed d1 Hd1). unfold legacy_key_path.
    apply meta_ok in Hm as (Hk & _). unfold scoped_key_id, required_owner in Hk.
    cbn [cx_scope user_secret cx_owner_id ok_or mbind result_bind] in Hk.
    by destruct (validate_user_id user) as [[]|].
  - destruct (sealed_opens_later e (user_secret user name) d d1 v [CallForgetUser user] sr p) as (s & Hs & Ho & _); [|done..|].
    { by repeat constructor. }
    exists s. split; [exact Hs|]. cbn [dir_calls fold_left dir_call] in Ho. by rewrite Ho.
Qed.

(** Whose data a context is about: nobody's for the three system scopes *)
Definition key_owner (c : KmsContext) : option string :=
  match cx_scope c with
  | SystemSecret | SystemConfigure | RuntimeToken => None
  | _ => cx_owner_id c
  end.

(** The two shapes of a key id *)
Lemma scoped_key_id_shape c k :
  scoped_key_id c = Ok k ->
  (key_owner c = None /\ starts_with "system/" k = true) \/
  exists owner segment, key_owner c = Some owner /\ no_char "/" owner /\
    k = "users/" +:+ owner +:+ "/" +:+ segment.
Proof.
  intros H. assert (forall seg, (owner ← required_owner c; Ok ("users/" +:+ owner +:+ "/" +:+ seg)) = Ok k ->
    exists owner segment, cx_owner_id c = Some owner /\ no_char "/" owner /\
      k = "users/" +:+ owner +:+ "/" +:+ segment) as Husers.
  { intros seg Hs. unfold required_owner in Hs. destruct (cx_owner_id c) as [owner|]; [|done].
    cbn [ok_or mbind result_bind] in Hs. destruct (validate_user_id owner) as [[]|] eqn:Hu; [|done].
    cbn [mbind result_bind] in Hs. apply Ok_inj in Hs as <-. exists owner, seg.
    split_and!; [done| |done]. by apply (validate_user_id_no_char owner "/"). }
  unfold scoped_key_id in H. cbn zeta in H.
  destruct (cx_scope c) eqn:Es; unfold key_owner; rewrite Es;
    try (left; inv_ok; by simplify_eq); right; eapply Husers;
    match type of H with mbind _ ?m = _ => destruct m as [k0|] eqn:Em; [|done] end;
    cbn [mbind result_bind] in H; destruct (validate_key_id k0) as [[]|]; try done;
    cbn [mbind result_bind] in H; apply Ok_inj in H as <-; exact Em.
Qed.

(** Keys separate tenants and stay in their directory: two contexts share
    a key only when they are about the same owner (or both about none), and
    every path segment of a key id is a plain name, never empty, "." or "..". *)
Theorem key_ids_isolate_owners (c c' : KmsContext) (k : string)
    (Hc : scoped_key_id c = Ok k) (Hc' : scoped_key_id c' = Ok k) :
  key_owner c = key_owner c' /\ forall part, part ∈ split "/" k -> bad_part part = false.
Proof.
  split.
  - apply scoped_key_id_shape in Hc as [[-> Hs]|(o & s & -> & Ho & ->)],
      Hc' as [[-> Hs']|(o' & s' & -> & Ho' & Hk)]; try done.
    + by rewrite Hk in Hs.
    + apply (inj (String.append "users/")) in Hk.
      apply (app_sep_inj "/" o o' s s') in Hk as [-> _]; done.
  - apply validate_key_id_parts. unfold scoped_key_id in Hc. inv_ok.
    match goal with H : validate_key_id _ = Ok ?u |- _ => destruct u end. by simplify_eq.
Qed.

(** ** A concrete library, for witnesses *)

Definition toy_age : AgeLib := {|
  Identity := string;
  identity_generate s := s;
  identity_to_string i := to_text i;
  identities_from_buffer s := (fun i => [i]) <$> ok_or "no identity" (of_text s);
  age_encrypt i _ p := Ok (to_text (i, p));
  age_decrypt i ct := match of_text ct with
                      | Some (k, p) => if (k =? i)%string then Some p else None
                      | None => None
                      end
|}.

Lemma toy_age_ok : AgeLibOk toy_age.
Proof.
  split; cbn [Identity identity_to_string identities_from_buffer age_encrypt age_decrypt toy_age].
  - intros i. rewrite of_to_text. split; [done|apply to_text_utf8].
  - intros i e p. eexists. split; [reflexivity|apply to_text_utf8].
  - intros i e p ct H. apply Ok_inj in H as <-. by rewrite of_to_text, String.eqb_refl.
Qed.

Section examples.
#[local] Existing Instance toy_age.
#[local] Existing Instance toy_age_ok.
#[local] Existing Instance toy_codec.
#[local] Existing Instance toy_codec_ok.

Definition fresh_dir : KeyDir := mkKeyDir ∅ ∅ false.
Definition alice : string := "00112233445566778899aabbccddeeff".
Definition alice_secret : KmsContext := user_secret alice "github".
Definition alice_key : VersionedCipher :=
  mkVersioned ("users/" +:+ alice +:+ "/secrets") 1 (AgeCipher "rnd").
Definition used_dir : KeyDir := (dir_for_context "rnd" alice_secret fresh_dir).1.


Lemma fresh_dir_ok : dir_ok fresh_dir.
Proof. split; done. Qed.

Lemma example_key : dir_for_context "rnd" alice_secret fresh_dir = (used_dir, Ok alice_key).
Proof.
  unfold used_dir. apply injective_projections; [done|].
  assert (dir_active_key_meta alice_secret fresh_dir = Ok ("users/" +:+ alice +:+ "/secrets", 1)) as Hm
    by reflexivity.
  unfold dir_for_context, mbind, svc_bind. rewrite Hm. cbn [fst snd].
  assert ((versioned_cipher "rnd" ("users/" +:+ alice +:+ "/secrets") 1 true fresh_dir).2 =
          Ok (AgeCipher "rnd")) as Hv.
  { unfold versioned_cipher. cbn [kd_sealed fresh_dir kd_cache]. rewrite lookup_empty.
    change (versioned_key_path ("users/" +:+ alice +:+ "/secrets") 1) with
      (@Ok EnvelopeError string (key_file ("users/" +:+ alice +:+ "/secrets") 1)).
    unfold load_cipher, from_key_file, read_to_string. 
    assert (kd_files (create_key "rnd" ("users/" +:+ alice +:+ "/secrets") 1
              (key_file ("users/" +:+ alice +:+ "/secrets") 1) fresh_dir)
            !! key_file ("users/" +:+ alice +:+ "/secrets") 1 = Some (to_text "rnd")) as ->.
    { vm_compute. reflexivity. }
    cbn [fmap option_fmap option_map]. rewrite to_text_utf8. cbn [ok_or mbind result_bind].
    unfold from_identity_text. cbn [identities_from_buffer toy_age]. by rewrite of_to_text. }
  destruct (versioned_cipher _ _ _ _ _) as [d' r]. cbn in Hv. by subst r.
Qed.



Lemma forget_user_keeps_secrets_witness :
  (dir_forget_user alice used_dir).2 = Ok tt /\
  exists stored, op_plaintext <$> open_context (dir := directory_at (dir_forget_user alice used_dir).1)
    alice_secret stored = Ok "s3cret".
Proof.
  destruct (forget_user_keeps_secrets "rnd" alice "github" "s3cret" fresh_dir used_dir alice_key
              (mkSealRun 7 "r") fresh_dir_ok example_key) as (Hf & s & _ & Ho).
  split; [exact Hf|]. exists s. exact Ho.
Defined.

Lemma key_ids_isolate_owners_witness :
  key_owner alice_secret = key_owner (user_secret alice "gitlab").
Proof.
  destruct (key_ids_isolate_owners alice_secret (user_secret alice "gitlab")
              ("users/" +:+ alice +:+ "/secrets")) as [H _].
  - reflexivity.
  - reflexivity.
  - exact H.
Defined.
End examples.
