(* ===== verification/NetworkPolicy.v ===== *)
(** * Per-instance network policies

    Models [crates/core/src/network_policy.rs]: the five egress profiles,
    validation of user entries, DNS resolution through the [HostResolver]
    trait and the translation of a profile into the CubeAPI wire shape
    ([resolve]); and [row_policy_cidrs] of [instance/env.rs]. *)

From stdpp Require Import base list strings gmap option.
From Stdlib Require Import ZArith Ascii Lia.
From S2P Require Import Prelude RustStr RustNet.

Local Open Scope string_scope.
Local Open Scope list_scope.
Local Open Scope Z_scope.

(** ** Data *)

Definition DEFAULT_DENY_OUT : list string :=
  [ "0.0.0.0/8"; "10.0.0.0/8"; "100.64.0.0/10"; "127.0.0.0/8"; "169.254.0.0/16";
    "172.16.0.0/12"; "192.168.0.0/16"; "224.0.0.0/4"; "240.0.0.0/4" ].

Inductive NetworkPolicy : Type :=
| NoLocalNet
| Open
| Airgap
| Allowlist (entries : list string)
| Denylist (entries : list string).

#[global] Instance NetworkPolicy_eq_dec : EqDecision NetworkPolicy.
Proof. solve_decision. Defined.

(** [NetworkPolicy::kind_str] *)
Definition kind_str (p : NetworkPolicy) : string :=
  match p with
  | NoLocalNet => "nolocalnet"
  | Open => "open"
  | Airgap => "airgap"
  | Allowlist _ => "allowlist"
  | Denylist _ => "denylist"
  end.

(** [NetworkPolicy::entries] *)
Definition policy_entries (p : NetworkPolicy) : list string :=
  match p with
  | NoLocalNet | Open | Airgap => []
  | Allowlist entries | Denylist entries => entries
  end.

(** [NetworkPolicy::is_internal_network] *)
Definition is_internal_network (p : NetworkPolicy) : bool :=
  match p with Open => true | _ => false end.

(** [PolicyError] *)
Inductive PolicyError : Type :=
| InvalidEntry (s : string)
| HostUnresolvable (host : string)
| EmptyAllowlist
| LlmCidrRequired.

#[global] Instance PolicyError_eq_dec : EqDecision PolicyError.
Proof. solve_decision. Defined.

(** [EntryShape] *)
Inductive EntryShape : Type :=
| Cidr (c : string)
| Host (h : string).

#[global] Instance EntryShape_eq_dec : EqDecision EntryShape.
Proof. solve_decision. Defined.

(** [ResolvedPolicy] *)
Record ResolvedPolicy : Type := mkResolved {
  allow_internet_access : bool;
  allow_out : list string;
  deny_out : list string;
  llm_cidr_used : option string;
}.

#[global] Instance ResolvedPolicy_eq_dec : EqDecision ResolvedPolicy.
Proof. solve_decision. Defined.

(** [impl Default for ResolvedPolicy] *)
Definition ResolvedPolicy_default : ResolvedPolicy :=
  mkResolved true [] DEFAULT_DENY_OUT None.

(** The [HostResolver] trait: what resolution needs from DNS. *)
Class HostResolver : Type := {
  resolve_ipv4 : string -> result PolicyError (list string);
}.

(** ** Validation of entries *)

(** The loop over the octets: each parses as [u16] and is at most 255. *)
Definition octet_ok (o : string) : bool :=
  match parse_u16 o with Some n => n <=? 255 | None => false end.

(** [parse_cidr_or_ip] *)
Definition parse_cidr_or_ip (s : string) : option EntryShape :=
  let '(ip_part, prefix_part) :=
    match split_once "/" s with
    | Some (ip, prefix) => (ip, Some prefix)
    | None => (s, None)
    end in
  let octets := split "." ip_part in
  if negb (Nat.eqb (length octets) 4) then None
  else if negb (forallb octet_ok octets) then None
  else
    prefix ← match prefix_part with Some p => parse_u8 p | None => Some 32 end;
    if 32 <? prefix then None
    else Some (Cidr (ip_part +:+ "/" +:+ dec prefix)).

(** The per-label checks of [is_valid_hostname]. *)
Definition label_ok (label : string) : bool :=
  negb (is_empty label || (63 <? len label))
  && negb (starts_with "-" label || ends_with "-" label)
  && all_bytes (fun c => is_ascii_alphanumeric c || Ascii.eqb c "-") label.

(** [is_valid_hostname] *)
Definition is_valid_hostname (s : string) : bool :=
  if 253 <? len s then false
  else if negb (contains_char "." s) then false
  else if all_bytes (fun c => is_ascii_digit c || Ascii.eqb c ".") s then false
  else forallb label_ok (split "." s).

(** [validate_entry] *)
Definition validate_entry (s : string) : result PolicyError EntryShape :=
  let s := trim s in
  if is_empty s then Err (InvalidEntry s)
  else match parse_cidr_or_ip s with
       | Some shape => Ok shape
       | None =>
           if is_valid_hostname s then Ok (Host (to_ascii_lowercase s))
           else Err (InvalidEntry s)
       end.

(** ** Resolution *)

(** [DnsHostResolver::resolve_ipv4]; [lookup_host] is the operating
    system's resolver behind [tokio::net::lookup_host], called with
    [host:0]. *)
Definition dns_resolve_ipv4 (lookup_host : string -> result unit (list SocketAddr))
    (host : string) : result PolicyError (list string) :=
  addrs ← map_err (fun _ => HostUnresolvable host) (lookup_host (host +:+ ":0"));
  let out := omap (fun sa => match sa_ip sa with
                             | V4 v4 => Some (show_ipv4 v4 +:+ "/32")
                             | V6 _ => None
                             end) addrs in
  let out := dedup (sort_strs out) in
  match out with
  | [] => Err (HostUnresolvable host)
  | _ => Ok out
  end.

#[global] Instance DnsHostResolver (lookup_host : string -> result unit (list SocketAddr)) :
  HostResolver := {| resolve_ipv4 := dns_resolve_ipv4 lookup_host |}.

Section resolve.
Context {R : HostResolver}.

(** One iteration of the loop of [resolve_entries]. *)
Definition resolve_entry (entry : string) : result PolicyError (list string) :=
  shape ← validate_entry entry;
  match shape with
  | Cidr c => Ok [c]
  | Host h => resolve_ipv4 h
  end.

(** The loop of [resolve_entries], before sorting. *)
Fixpoint collect_entries (raw : list string) (out : list string) :
  result PolicyError (list string) :=
  match raw with
  | [] => Ok out
  | entry :: raw => cs ← resolve_entry entry; collect_entries raw (out ++ cs)
  end.

(** [resolve_entries] *)
Definition resolve_entries (raw : list string) : result PolicyError (list string) :=
  out ← collect_entries raw [];
  Ok (dedup (sort_strs out)).

(** [resolve] *)
Definition resolve (policy : NetworkPolicy) (llm_cidr : option string) :
  result PolicyError ResolvedPolicy :=
  let llm_or_default := default "192.168.0.1/32" llm_cidr in
  let default_deny := DEFAULT_DENY_OUT in
  match policy with
  | NoLocalNet => Ok (mkResolved true [] default_deny llm_cidr)
  | Open =>
      Ok (mkResolved true ["0.0.0.0/0"; llm_or_default] default_deny
            (Some llm_or_default))
  | Airgap =>
      llm ← ok_or LlmCidrRequired llm_cidr;
      Ok (mkResolved false [llm] default_deny (Some llm))
  | Allowlist entries =>
      if bool_decide (entries = []) then Err EmptyAllowlist
      else
        llm ← ok_or LlmCidrRequired llm_cidr;
        user_resolved ← resolve_entries entries;
        let allow_out := dedup (llm :: user_resolved) in
        Ok (mkResolved false allow_out default_deny (Some llm))
  | Denylist entries =>
      user_resolved ← resolve_entries entries;
      let deny_out := dedup (default_deny ++ user_resolved) in
      Ok (mkResolved true ["0.0.0.0/0"; llm_or_default] deny_out
            (Some llm_or_default))
  end.
End resolve.

(** [row_policy_cidrs] of [instance/env.rs]: what the instance row keeps. *)
Definition row_policy_cidrs (policy : NetworkPolicy) (resolved : ResolvedPolicy) :
  list string :=
  match policy with
  | Denylist _ => deny_out resolved
  | _ => allow_out resolved
  end.

Example validate_cidr : validate_entry "10.0.0.0/8" = Ok (Cidr "10.0.0.0/8").
Proof. vm_compute. reflexivity. Qed.
Example validate_host : validate_entry " API.GitHub.com" = Ok (Host "api.github.com").
Proof. vm_compute. reflexivity. Qed.
Example validate_bad : validate_entry "1.2.3.4/99" = Err (InvalidEntry "1.2.3.4/99").
Proof. vm_compute. reflexivity. Qed.

(** ** Lemmas on resolution *)

Section resolve_lemmas.
Context {R : HostResolver}.

Lemma collect_entries_ok raw out cs :
  collect_entries raw out = Ok cs <->
  exists parts, traverse resolve_entry raw = Ok parts /\ cs = out ++ mjoin parts.
Proof.
  revert out. induction raw as [|e raw IH]; intros out; cbn [collect_entries traverse].
  { split; [intros [= <-]; exists []; by rewrite app_nil_r|].
    by intros (parts & [= <-] & ->); cbn; rewrite app_nil_r. }
  destruct (resolve_entry e) as [c|err] eqn:He; cbn; [|naive_solver].
  rewrite IH. split.
  - intros (parts & -> & ->). exists (c :: parts). cbn. by rewrite <- app_assoc.
  - intros (parts & Hp & ->). destruct (traverse resolve_entry raw) as [ps|]; [|done].
    cbn in Hp. simplify_eq. exists ps. cbn. by rewrite <- app_assoc.
Qed.

(** [e] is the error of the first entry that does not resolve. *)
Definition first_error (raw : list string) (e : PolicyError) : Prop :=
  exists pre x post, raw = pre ++ x :: post /\
    Forall (fun y => is_ok (resolve_entry y) = true) pre /\ resolve_entry x = Err e.

Lemma collect_entries_err raw out e :
  collect_entries raw out = Err e <-> first_error raw e.
Proof.
  revert out. induction raw as [|x raw IH]; intros out; cbn [collect_entries].
  { split; [done|]. intros (pre & y & post & H & _). by destruct pre. }
  destruct (resolve_entry x) as [c|err] eqn:Hx; cbn.
  - rewrite IH. split.
    + intros (pre & y & post & -> & Hp & Hy). exists (x :: pre), y, post.
      split_and!; [done| |done]. constructor; [by rewrite Hx|done].
    + intros (pre & y & post & Heq & Hp & Hy). destruct pre as [|z pre]; simplify_eq/=; [congruence|].
      apply Forall_inv_tail in Hp. exists pre, y, post. done.
  - split.
    + intros [= <-]. exists [], x, raw. done.
    + intros (pre & y & post & Heq & Hp & Hy). destruct pre as [|z pre]; simplify_eq/=; [congruence|].
      apply Forall_inv in Hp as Hz. by rewrite Hx in Hz.
Qed.

(** What the resolution of a list holds: what each entry resolves to. *)
Lemma resolve_entries_elem raw cs c :
  resolve_entries raw = Ok cs ->
  c ∈ cs <-> exists e l, e ∈ raw /\ resolve_entry e = Ok l /\ c ∈ l.
Proof.
  unfold resolve_entries. intros H. apply result_bind_ok in H as (out & Hout & [= <-]).
  apply collect_entries_ok in Hout as (parts & Hp & ->). cbn [app].
  rewrite elem_of_dedup. unfold sort_strs. rewrite elem_of_sort.
  rewrite list_elem_of_join. apply traverse_ok_Forall2 in Hp. split.
  - intros (l & Hc & Hl). apply list_elem_of_lookup in Hl as [i Hi].
    destruct (Forall2_lookup_r _ _ _ _ _ Hp Hi) as (e & He & Hr).
    exists e, l. split_and!; [|done..]. apply list_elem_of_lookup. eauto.
  - intros (e & l & He & Hr & Hc). apply list_elem_of_lookup in He as [i Hi].
    destruct (Forall2_lookup_l _ _ _ _ _ Hp Hi) as (l' & Hl' & Hr').
    rewrite Hr in Hr'. simplify_eq. exists l'. split; [done|].
    apply list_elem_of_lookup. eauto.
Qed.

Lemma resolve_entries_err raw e : resolve_entries raw = Err e <-> first_error raw e.
Proof.
  unfold resolve_entries. rewrite result_bind_err, collect_entries_err. naive_solver.
Qed.

Lemma resolve_deny_base policy llm rp :
  resolve policy llm = Ok rp -> forall c, c ∈ DEFAULT_DENY_OUT -> c ∈ deny_out rp.
Proof.
  intros H c Hc. destruct policy as [| | |es|es]; unfold resolve in H.
  1-3: inv_ok; done.
  - case_bool_decide; [done|]. inv_ok. done.
  - apply result_bind_ok in H as (us & _ & <-%Ok_inj). cbn [deny_out].
    apply elem_of_dedup, elem_of_app. by left.
Qed.
End resolve_lemmas.

(** ** Lemmas on validation *)

Lemma dec_prefix n : 0 <= n <= 32 ->
  parse_u8 (dec n) = Some n /\ all_bytes is_ascii_digit (dec n) = true.
Proof.
  intros Hn.
  assert (forallb (fun k => bool_decide (parse_u8 (dec (Z.of_nat k)) = Some (Z.of_nat k))
                            && all_bytes is_ascii_digit (dec (Z.of_nat k))) (seq 0 33) = true)
    as H by (vm_compute; reflexivity).
  rewrite forallb_forall in H. specialize (H (Z.to_nat n)).
  rewrite Z2Nat.id in H by lia.
  assert (In (Z.to_nat n) (seq 0 33)) as Hin by (apply in_seq; lia).
  specialize (H Hin). to_prop. done.
Qed.

Lemma octet_ok_bytes o : octet_ok o = true -> all_bytes is_int_char o = true.
Proof.
  unfold octet_ok. destruct (parse_u16 o) as [n|] eqn:E; [|done].
  intros _. by eapply parse_uint_bytes.
Qed.

(** Joining byte-wise good pieces keeps the property. *)
Lemma all_bytes_join p sep l :
  all_bytes p sep = true -> Forall (fun s => all_bytes p s = true) l ->
  all_bytes p (join sep l) = true.
Proof.
  intros Hs Hl. induction Hl as [|x l Hx Hl IH]; [done|]. cbn [join].
  destruct l; [done|]. by rewrite !all_bytes_app, Hx, Hs, IH.
Qed.

Lemma parse_cidr_or_ip_some s shape :
  parse_cidr_or_ip s = Some shape ->
  exists ip prefix, shape = Cidr (ip +:+ "/" +:+ dec prefix) /\
    length (split "." ip) = 4%nat /\ forallb octet_ok (split "." ip) = true /\
    0 <= prefix <= 32 /\ contains_char "/" ip = false.
Proof.
  unfold parse_cidr_or_ip.
  set (pr := match split_once "/" s with Some _ => _ | None => _ end).
  assert (contains_char "/" (fst pr) = false) as Hslash.
  { subst pr. destruct (split_once "/" s) as [[x y]|] eqn:E; cbn.
    - by apply split_once_some in E as [_ ?].
    - by apply split_once_none in E. }
  destruct pr as [ip pp]. cbn in Hslash.
  destruct (Nat.eqb _ 4) eqn:H4; [|done]. apply Nat.eqb_eq in H4.
  destruct (forallb octet_ok _) eqn:Ho; [|done]. cbn [negb].
  intros H. apply bind_Some in H as (prefix & Hp & H).
  destruct (32 <? prefix) eqn:Hlt; [done|]. to_prop. simplify_eq.
  exists ip, prefix. split_and!; try done.
  destruct pp as [p|]; [by apply parse_uint_range in Hp as [? _]|by simplify_eq].
Qed.

Lemma ip_part_bytes ip :
  forallb octet_ok (split "." ip) = true ->
  all_bytes (fun c => is_int_char c || Ascii.eqb c ".") ip = true.
Proof.
  intros H. rewrite <- (join_split "." ip). apply all_bytes_join; [done|].
  apply Forall_forall. intros o Ho%list_elem_of_In. rewrite forallb_forall' in H.
  specialize (H o Ho). apply octet_ok_bytes in H. revert H. apply all_bytes_impl.
  by intros c ->.
Qed.

(** A canonical CIDR is accepted unchanged. *)
Lemma parse_cidr_or_ip_canonical ip prefix :
  length (split "." ip) = 4%nat -> forallb octet_ok (split "." ip) = true ->
  0 <= prefix <= 32 -> contains_char "/" ip = false ->
  validate_entry (ip +:+ "/" +:+ dec prefix) = Ok (Cidr (ip +:+ "/" +:+ dec prefix)).
Proof.
  intros H4 Ho Hp Hs. destruct (dec_prefix _ Hp) as [Hd Hdd].
  unfold validate_entry. rewrite trim_graphic; last first.
  { rewrite !all_bytes_app. apply andb_true_iff. split.
    - apply ip_part_bytes in Ho. revert Ho. apply all_bytes_impl. intros c. by_bytes c.
    - cbn. revert Hdd. apply all_bytes_impl. intros c. by_bytes c. }
  destruct (is_empty _) eqn:E; [by destruct ip|].
  unfold parse_cidr_or_ip.
  assert (split_once "/" (ip +:+ "/" +:+ dec prefix) = Some (ip, dec prefix)) as ->
    by by apply split_once_some.
  rewrite H4. cbn [Nat.eqb negb]. rewrite Ho. cbn [negb]. rewrite Hd. cbn [mbind option_bind].
  assert (32 <? prefix = false) as -> by (apply Z.ltb_ge; lia). done.
Qed.

Lemma label_ok_lower l : label_ok (to_ascii_lowercase l) = label_ok l.
Proof.
  unfold label_ok, len, ends_with. rewrite to_ascii_lowercase_length.
  rewrite all_bytes_lower by (intros c; by_bytes c).
  rewrite <- to_ascii_lowercase_rev.
  assert (forall t, starts_with "-" (to_ascii_lowercase t) = starts_with "-" t) as H.
  { intros [|c t]; [done|]. cbn [to_ascii_lowercase starts_with].
    by rewrite !(Ascii.eqb_sym "-"), to_lower_sep. }
  change (rev_str "-") with "-". rewrite !H.
  by assert (is_empty (to_ascii_lowercase l) = is_empty l) as -> by by destruct l.
Qed.

Lemma is_valid_hostname_lower s :
  is_valid_hostname (to_ascii_lowercase s) = is_valid_hostname s.
Proof.
  unfold is_valid_hostname, len. rewrite to_ascii_lowercase_length.
  rewrite contains_char_lower by done. rewrite all_bytes_lower by (intros c; by_bytes c).
  rewrite split_lower by done. repeat case_match; try done.
  induction (split "." s) as [|l ls IH]; [done|]. cbn. by rewrite label_ok_lower, IH.
Qed.

Lemma is_valid_hostname_bytes s :
  is_valid_hostname s = true ->
  all_bytes (fun c => is_ascii_alphanumeric c || Ascii.eqb c "-" || Ascii.eqb c ".") s = true.
Proof.
  unfold is_valid_hostname. repeat case_match; try done. intros Hl.
  rewrite <- (join_split "." s). apply all_bytes_join; [done|].
  apply Forall_forall. intros l Hin%list_elem_of_In. rewrite forallb_forall' in Hl.
  apply Hl in Hin. unfold label_ok in Hin. to_prop.
  match goal with H : all_bytes _ l = true |- _ => revert H end.
  apply all_bytes_impl. by intros c ->.
Qed.

Lemma parse_cidr_lower s :
  contains_char "/" s = false ->
  parse_cidr_or_ip s = None -> parse_cidr_or_ip (to_ascii_lowercase s) = None.
Proof.
  intros Hs. unfold parse_cidr_or_ip.
  assert (split_once "/" s = None) as -> by by apply split_once_none.
  assert (split_once "/" (to_ascii_lowercase s) = None) as ->.
  { apply split_once_none. by rewrite contains_char_lower. }
  rewrite split_lower by done. rewrite length_map.
  assert (forallb octet_ok (map to_ascii_lowercase (split "." s)) =
          forallb octet_ok (split "." s)) as ->.
  { induction (split "." s) as [|o os IH]; [done|]. cbn. rewrite IH. f_equal.
    unfold octet_ok, parse_u16. by rewrite parse_uint_lower. }
  by repeat case_match.
Qed.

(** The text an accepted entry is stored and pushed as. *)
Definition shape_text (e : EntryShape) : string :=
  match e with Cidr c => c | Host h => h end.

(** ** Properties *)

(** Validation is idempotent: the canonical text of an accepted entry
    (the CIDR with its explicit prefix, the lower-cased hostname) is
    accepted again and yields the same shape, so re-resolving a stored
    entry never changes its meaning. *)
Theorem validate_entry_idempotent (s : string) (e : EntryShape) :
  validate_entry s = Ok e -> validate_entry (shape_text e) = Ok e.
Proof.
  unfold validate_entry at 1. destruct (is_empty (trim s)); [done|].
  destruct (parse_cidr_or_ip (trim s)) as [shape|] eqn:Hc.
  - intros [= <-]. apply parse_cidr_or_ip_some in Hc as (ip & p & -> & ? & ? & ? & ?).
    by apply parse_cidr_or_ip_canonical.
  - destruct (is_valid_hostname (trim s)) eqn:Hh; [|done]. intros [= <-]. cbn [shape_text].
    generalize dependent (trim s). clear s. intros h Hc Hh.
    pose proof (is_valid_hostname_bytes h Hh) as Hb.
    unfold validate_entry. rewrite trim_graphic; last first.
    { rewrite <- is_valid_hostname_lower in Hh. apply is_valid_hostname_bytes in Hh.
      revert Hh. apply all_bytes_impl. intros c. by_bytes c. }
    destruct (is_empty (to_ascii_lowercase h)) eqn:E; [by destruct h|].
    rewrite parse_cidr_lower; [|by eapply all_bytes_no_char|done].
    by rewrite is_valid_hostname_lower, Hh, to_ascii_lowercase_idem.
Qed.

Lemma validate_entry_idempotent_witness :
  validate_entry "8.8.8.8" = Ok (Cidr "8.8.8.8/32") /\
  validate_entry "8.8.8.8/32" = Ok (Cidr "8.8.8.8/32").
Proof.
  assert (validate_entry "8.8.8.8" = Ok (Cidr "8.8.8.8/32")) as H by (vm_compute; reflexivity).
  split; [exact H|]. exact (validate_entry_idempotent "8.8.8.8" (Cidr "8.8.8.8/32") H).
Defined.

(** A resolver used in witnesses: one known host. *)
Definition example_resolver : HostResolver := {|
  resolve_ipv4 := fun h =>
    if String.eqb h "github.com" then Ok ["140.82.121.4/32"] else Err (HostUnresolvable h)
|}.

(** Whatever the profile, a successful resolution keeps every default
    deny range (RFC1918, link-local with the cloud metadata address,
    loopback, CGNAT, multicast, reserved) in the [denyOut] list pushed to
    the sandbox. *)
Theorem resolve_keeps_default_deny (R : HostResolver) (policy : NetworkPolicy)
    (llm : option string) (rp : ResolvedPolicy) (c : string) :
  resolve policy llm = Ok rp -> c ∈ DEFAULT_DENY_OUT -> c ∈ deny_out rp.
Proof. intros H. by apply (resolve_deny_base policy llm). Qed.

Lemma resolve_keeps_default_deny_witness :
  exists rp, @resolve example_resolver (Denylist ["github.com"]) None = Ok rp /\
    "169.254.0.0/16" ∈ deny_out rp.
Proof.
  destruct (@resolve example_resolver (Denylist ["github.com"]) None) as [rp|] eqn:H;
    [|by vm_compute in H].
  exists rp. split; [done|].
  apply (resolve_keeps_default_deny example_resolver (Denylist ["github.com"]) None rp);
    [exact H|]. by apply (bool_decide_unpack _); vm_compute.
Defined.

(** Resolution fails exactly when it should, and with the right error:
    an airgapped or allow-listed instance needs the LLM-proxy CIDR, an
    empty allow list is refused before anything else, and otherwise the
    error is that of the first entry that does not validate or resolve;
    the no-local-net and open profiles never fail. *)
Theorem resolve_error_iff (R : HostResolver) (policy : NetworkPolicy)
    (llm : option string) (e : PolicyError) :
  resolve policy llm = Err e <->
  match policy with
  | NoLocalNet | Open => False
  | Airgap => llm = None /\ e = LlmCidrRequired
  | Allowlist es =>
      (es = [] /\ e = EmptyAllowlist)
      \/ (es <> [] /\ llm = None /\ e = LlmCidrRequired)
      \/ (es <> [] /\ llm <> None /\ first_error es e)
  | Denylist es => first_error es e
  end.
Proof.
  destruct policy as [| | |es|es]; unfold resolve.
  - done.
  - done.
  - destruct llm; cbn; naive_solver.
  - case_bool_decide as Hes; [naive_solver|]. destruct llm as [l|]; cbn; [|naive_solver].
    rewrite result_bind_err, resolve_entries_err. naive_solver.
  - rewrite result_bind_err, resolve_entries_err. naive_solver.
Qed.

(** An allow-listed instance may reach exactly the LLM proxy and what
    its entries resolve to: the wire shape turns internet access off, puts
    the proxy first, and a CIDR is allowed if and only if it is the proxy's
    or comes from a valid entry. *)
Theorem resolve_allowlist_exact (R : HostResolver) (es : list string) (llm : string)
    (rp : ResolvedPolicy) :
  resolve (Allowlist es) (Some llm) = Ok rp ->
  allow_internet_access rp = false /\ head (allow_out rp) = Some llm /\
  forall c, c ∈ allow_out rp <->
    c = llm \/ exists e l, e ∈ es /\ resolve_entry e = Ok l /\ c ∈ l.
Proof.
  unfold resolve. case_bool_decide; [done|]. cbn [ok_or mbind result_bind]. intros Hr.
  apply result_bind_ok in Hr as (us & Hus & Hr). apply Ok_inj in Hr as <-.
  cbn [allow_internet_access allow_out]. split; [done|]. split; [apply dedup_head|].
  intros c. rewrite elem_of_dedup, elem_of_cons, (resolve_entries_elem es us c Hus). done.
Qed.

Lemma resolve_allowlist_exact_witness :
  exists rp, @resolve example_resolver (Allowlist ["github.com"]) (Some "10.0.0.1/32") = Ok rp /\
    "140.82.121.4/32" ∈ allow_out rp.
Proof.
  destruct (@resolve example_resolver (Allowlist ["github.com"]) (Some "10.0.0.1/32"))
    as [rp|] eqn:H; [|by vm_compute in H].
  exists rp. split; [done|].
  apply (resolve_allowlist_exact example_resolver ["github.com"] "10.0.0.1/32" rp H).
  right. exists "github.com", ["140.82.121.4/32"].
  split; [set_solver|]. split; [vm_compute; reflexivity|set_solver].
Defined.

(** The adjacent-only [dedup] after prepending the LLM hop leaves a
    doubled entry when the operator also typed the hop's CIDR and it is not
    the smallest resolved entry: the comment's promise of no doubled entry
    holds only when the hop sorts first. *)
Theorem resolve_allowlist_doubled (R : HostResolver) (es : list string)
    (llm c : string) (cs : list string) (rp : ResolvedPolicy) :
  resolve_entries es = Ok (c :: cs) -> c <> llm -> llm ∈ cs ->
  resolve (Allowlist es) (Some llm) = Ok rp ->
  exists rest, allow_out rp = llm :: rest /\ llm ∈ rest.
Proof.
  intros Hes Hne Hin. unfold resolve. case_bool_decide; [done|].
  rewrite Hes. cbn [ok_or mbind result_bind]. intros Hr. apply Ok_inj in Hr as <-. cbn [allow_out].
  exists (dedup (c :: cs)). split.
  - rewrite dedup_cons. case_bool_decide; [by subst|done].
  - apply elem_of_dedup. set_solver.
Qed.

Lemma resolve_allowlist_doubled_witness :
  exists rp, @resolve example_resolver
    (Allowlist ["10.0.0.1"; "192.168.0.1"]) (Some "192.168.0.1/32") = Ok rp /\
  exists rest, allow_out rp = "192.168.0.1/32" :: rest /\ "192.168.0.1/32" ∈ rest.
Proof.
  destruct (@resolve example_resolver
    (Allowlist ["10.0.0.1"; "192.168.0.1"]) (Some "192.168.0.1/32")) as [rp|] eqn:H;
    [|by vm_compute in H].
  exists rp. split; [done|].
  apply (resolve_allowlist_doubled example_resolver ["10.0.0.1"; "192.168.0.1"]
    "192.168.0.1/32" "10.0.0.1/32" ["192.168.0.1/32"] rp); [vm_compute; reflexivity| |set_solver|exact H].
  discriminate.
Defined.
