(* ===== verification/SandboxEnv.v ===== *)
(** * The environment of a sandbox

    Models [crates/core/src/instance/env.rs] (what the orchestrator injects
    into every sandbox and which names a caller may not set) and [compose_env]
    of [crates/core/src/secrets.rs].  A [BTreeMap] is a [gmap]; where the code
    lists its keys it lists them in byte order. *)

From Stdlib Require Import ZArith Ascii Lia.
From stdpp Require Import base list strings gmap option.
From S2P Require Import Prelude RustStr Store NetworkPolicy.

Local Open Scope string_scope.
Local Open Scope list_scope.

Abbreviation env_map := (gmap string string).

(** [CubeError], [BackupError], [SwarmError]; [Config] is never built here *)
Inductive CubeError : Type :=
| CubeStatus (status : Z) (body : string)
| CubeTransport (msg : string)
| CubeDecode (msg : string).

Inductive BackupError : Type :=
| Sink (msg : string)
| BackupMissing
| BackupIo (msg : string).

Inductive SwarmError : Type :=
| SwCube (e : CubeError)
| SwStore (e : StoreError)
| SwBackup (e : BackupError)
| PolicyDenied (msg : string)
| BadRequest (msg : string)
| SwNotFound
| Internal (msg : string)
| SnapshotCorrupt (id : string)
| SnapshotQuotaExceeded (limit : Z)
| InstanceQuotaExceeded (limit : Z).

Definition ENV_PROXY_URL : string := "SWARM_PROXY_URL".
Definition ENV_PROXY_TOKEN : string := "SWARM_PROXY_TOKEN".
Definition ENV_INSTANCE_ID : string := "SWARM_INSTANCE_ID".
Definition ENV_BEARER_TOKEN : string := "SWARM_BEARER_TOKEN".
Definition ENV_NAME : string := "SWARM_NAME".
Definition ENV_TASK : string := "SWARM_TASK".
Definition ENV_MODEL : string := "SWARM_MODEL".
Definition ENV_MODELS : string := "SWARM_MODELS".
Definition ENV_TOOLS : string := "SWARM_TOOLS".
Definition ENV_IMAGE_GENERATION_MODEL : string := "SWARM_IMAGE_GENERATION_MODEL".
Definition ENV_INGEST_URL : string := "SWARM_INGEST_URL".
Definition ENV_INGEST_TOKEN : string := "SWARM_INGEST_TOKEN".
Definition ENV_STATE_SYNC_URL : string := "SWARM_STATE_SYNC_URL".
Definition ENV_STATE_SYNC_TOKEN : string := "SWARM_STATE_SYNC_TOKEN".
Definition CUBE_HTTP_PROXY_URL : string := "http://169.254.68.5:3128".
Definition CUBE_NO_PROXY : string := "169.254.68.5,169.254.254.53,127.0.0.1,localhost".

(** [build_ingest_url], [build_state_sync_url]: one path below the origin *)
Definition apex_url (proxy_base path : string) : string :=
  let trimmed := trim_end_matches "/" proxy_base in
  if is_empty trimmed then ""
  else default trimmed (strip_suffix "/llm" trimmed) +:+ path.
Definition build_ingest_url (proxy_base : string) : string :=
  apex_url proxy_base "/v1/internal/ingest/artefact".
Definition build_state_sync_url (proxy_base : string) : string :=
  apex_url proxy_base "/v1/internal/state/file".

(** [policy_permits_generic_egress] *)
Definition policy_permits_generic_egress (p : NetworkPolicy) : bool :=
  match p with Open | NoLocalNet | Denylist _ => true | Airgap | Allowlist _ => false end.

(** The six variables that point HTTP clients at the egress proxy *)
Definition proxy_env : list (string * string) :=
  [("HTTPS_PROXY", CUBE_HTTP_PROXY_URL); ("https_proxy", CUBE_HTTP_PROXY_URL);
   ("HTTP_PROXY", CUBE_HTTP_PROXY_URL); ("http_proxy", CUBE_HTTP_PROXY_URL);
   ("NO_PROXY", CUBE_NO_PROXY); ("no_proxy", CUBE_NO_PROXY)].

(** [out.insert(k, v)] for each pair in turn *)
Definition insert_all (kvs : list (string * string)) (out : env_map) : env_map :=
  fold_left (fun out kv => <[kv.1 := kv.2]> out) kvs out.

(** [managed_env] *)
Definition managed_env (proxy_base proxy_token ingest_token state_sync_token instance_id bearer name
    task : string) (network_policy : NetworkPolicy) : env_map :=
  let out := insert_all
    [(ENV_PROXY_URL, proxy_base); (ENV_PROXY_TOKEN, proxy_token);
     (ENV_INGEST_URL, build_ingest_url proxy_base); (ENV_INGEST_TOKEN, ingest_token);
     (ENV_STATE_SYNC_URL, build_state_sync_url proxy_base); (ENV_STATE_SYNC_TOKEN, state_sync_token);
     (ENV_INSTANCE_ID, instance_id); (ENV_BEARER_TOKEN, bearer);
     (ENV_NAME, name); (ENV_TASK, task)] ∅ in
  if policy_permits_generic_egress network_policy then insert_all proxy_env out else out.

(** [is_reserved_env_name] *)
Definition is_reserved_env_name (name : string) : bool :=
  if bool_decide (name ∈ [ENV_MODEL; ENV_MODELS; ENV_TOOLS; ENV_IMAGE_GENERATION_MODEL]) then false
  else
    let upper := to_ascii_uppercase name in
    if starts_with "SWARM_" upper || starts_with "DYSON_" upper then true
    else bool_decide (upper ∈ ["HTTP_PROXY"; "HTTPS_PROXY"; "NO_PROXY"; "ALL_PROXY";
                               "HTTP_PROXY_REQUEST_FULLURI"; "HTTPS_PROXY_REQUEST_FULLURI"]).

(** [env.keys()] in order *)
Definition env_keys (env : env_map) : list string := sort_strs (map fst (map_to_list env)).

(** [validate_caller_env] *)
Definition validate_caller_env (env : env_map) : result SwarmError unit :=
  let reserved := sort_strs (filter (fun name => is_reserved_env_name name = true) (env_keys env)) in
  if bool_decide (reserved = []) then Ok tt
  else Err (BadRequest ("reserved sandbox env keys may not be supplied by callers: "
                        +:+ join ", " reserved)).

(** [compose_env]: later maps win *)
Definition compose_env (template managed caller : env_map) : env_map := caller ∪ (managed ∪ template).

(** [compose_sandbox_env] *)
Definition compose_sandbox_env (managed caller : env_map) : result SwarmError env_map :=
  _ ← validate_caller_env caller;
  Ok (compose_env ∅ managed caller).

(** [models_with_primary] *)
Definition models_with_primary (existing : list string) (selected : string) : list string :=
  let selected := trim selected in
  if is_empty selected then existing
  else selected :: filter (fun m => negb (is_empty (trim m)) && negb (trim m =? selected)%string = true) existing.

(** ** What the sandbox sees *)

Lemma insert_all_lookup kvs out name :
  insert_all kvs out !! name =
  match list_to_map (M := env_map) (rev kvs) !! name with Some v => Some v | None => out !! name end.
Proof.
  revert out. induction kvs as [|[k v] kvs IH]; intros out; [done|]. cbn [insert_all fold_left rev].
  fold (insert_all kvs (<[k := v]> out)). rewrite IH, list_to_map_app. cbn [list_to_map foldr fst snd].
  rewrite lookup_union, insert_empty. destruct (list_to_map (rev kvs) !! name) as [x|] eqn:E.
  - destruct (decide (k = name)) as [<-|Hk].
    + by rewrite lookup_singleton_eq.
    + by rewrite lookup_singleton_ne.
  - destruct (decide (k = name)) as [<-|Hk].
    + by rewrite lookup_singleton_eq, lookup_insert_eq.
    + by rewrite lookup_singleton_ne, lookup_insert_ne.
Qed.

(** Whatever is injected is reserved. *)
Lemma managed_reserved pb pt it st i br n t pol name :
  is_reserved_env_name name = false -> managed_env pb pt it st i br n t pol !! name = None.
Proof.
  intros Hr. unfold managed_env. destruct (policy_permits_generic_egress pol);
    rewrite ?insert_all_lookup; cbn [rev app proxy_env list_to_map foldr fst snd];
    rewrite ?lookup_insert_ne, ?lookup_empty; try done; by intros <-.
Qed.

Lemma validate_caller_env_spec env :
  match validate_caller_env env with
  | Ok _ => forall name, is_Some (env !! name) -> is_reserved_env_name name = false
  | Err _ => exists name, is_Some (env !! name) /\ is_reserved_env_name name = true
  end.
Proof.
  unfold validate_caller_env, env_keys, sort_strs.
  set (l := filter _ (sort str_leb (map fst (map_to_list env)))).
  assert (forall name, name ∈ l <-> is_reserved_env_name name = true /\ is_Some (env !! name)) as Hl.
  { intros name. unfold l. rewrite list_elem_of_filter, elem_of_sort, list_elem_of_fmap. split.
    - intros [Hr ([k v] & -> & Hin)]. apply elem_of_map_to_list in Hin. eauto.
    - intros [Hr [v Hv]]. split; [done|]. exists (name, v). by rewrite elem_of_map_to_list. }
  case_bool_decide as Hs.
  - intros name Hn. destruct (is_reserved_env_name name) eqn:Hr; [|done]. exfalso.
    assert (name ∈ sort str_leb l) as H by by rewrite elem_of_sort, Hl. rewrite Hs in H. set_solver.
  - destruct (sort str_leb l) as [|name l'] eqn:E; [done|]. exists name.
    destruct (Hl name) as [Hfw _]. destruct Hfw; [|done].
    rewrite <- (elem_of_sort str_leb), E. set_solver.
Qed.

Lemma composed_lookup pb pt it st i br n t pol caller name :
  (forall name, is_Some (caller !! name) -> is_reserved_env_name name = false) ->
  compose_env ∅ (managed_env pb pt it st i br n t pol) caller !! name =
  if is_reserved_env_name name then managed_env pb pt it st i br n t pol !! name else caller !! name.
Proof.
  intros Hv. unfold compose_env. rewrite map_union_empty, lookup_union.
  destruct (is_reserved_env_name name) eqn:Hr.
  - destruct (caller !! name) eqn:Hc.
    + rewrite (Hv name) in Hr by by rewrite Hc. done.
    + by destruct (managed_env _ _ _ _ _ _ _ _ _ !! name).
  - rewrite managed_reserved by done. by destruct (caller !! name).
Qed.

Lemma managed_tokens pb pt it st i br n t pol :
  let m := managed_env pb pt it st i br n t pol in
  m !! ENV_PROXY_TOKEN = Some pt /\ m !! ENV_INGEST_TOKEN = Some it /\
  m !! ENV_STATE_SYNC_TOKEN = Some st /\ m !! ENV_INSTANCE_ID = Some i /\ m !! ENV_BEARER_TOKEN = Some br.
Proof.
  cbn zeta. unfold managed_env. destruct (policy_permits_generic_egress pol); rewrite ?insert_all_lookup;
    repeat split; vm_compute; reflexivity.
Qed.

Lemma proxy_name_reserved name :
  to_ascii_uppercase name ∈ ["HTTP_PROXY"; "HTTPS_PROXY"; "ALL_PROXY"] -> is_reserved_env_name name = true.
Proof.
  intros Hup. unfold is_reserved_env_name. rewrite bool_decide_eq_false_2.
  2: { intros Hin. set_unfold in Hin. destruct Hin as [->|[->|[->|[->|[]]]]]; vm_compute in Hup; set_solver. }
  cbn zeta. destruct (_ || _); [done|]. apply bool_decide_eq_true. set_solver.
Qed.

Lemma managed_no_proxy pb pt it st i br n t pol name :
  policy_permits_generic_egress pol = false ->
  to_ascii_uppercase name ∈ ["HTTP_PROXY"; "HTTPS_PROXY"; "ALL_PROXY"] ->
  managed_env pb pt it st i br n t pol !! name = None.
Proof.
  intros Hpol Hup. unfold managed_env. rewrite Hpol, insert_all_lookup.
  cbn [rev app list_to_map foldr fst snd].
  rewrite ?lookup_insert_ne, ?lookup_empty; try done; intros <-; vm_compute in Hup; set_solver.
Qed.

(** C22. A sandbox sees exactly what the orchestrator injected under the
    reserved names and what the caller asked for under all others: no caller
    can replace a token, the identity or the proxy settings.  Under a profile
    that restricts egress no spelling of a proxy variable is set.  The call
    fails exactly when the caller names a reserved variable. *)
Theorem sandbox_env_exact (pb pt it st i br n t : string) (pol : NetworkPolicy) (caller : env_map) :
  let managed := managed_env pb pt it st i br n t pol in
  match compose_sandbox_env managed caller with
  | Ok env =>
      (forall name, env !! name =
         if is_reserved_env_name name then managed !! name else caller !! name) /\
      env !! ENV_PROXY_TOKEN = Some pt /\ env !! ENV_INGEST_TOKEN = Some it /\
      env !! ENV_STATE_SYNC_TOKEN = Some st /\ env !! ENV_INSTANCE_ID = Some i /\
      env !! ENV_BEARER_TOKEN = Some br /\
      (policy_permits_generic_egress pol = false -> forall name,
         to_ascii_uppercase name ∈ ["HTTP_PROXY"; "HTTPS_PROXY"; "ALL_PROXY"] -> env !! name = None)
  | Err _ => exists name, is_Some (caller !! name) /\ is_reserved_env_name name = true
  end.
Proof.
  cbn zeta. unfold compose_sandbox_env. pose proof (validate_caller_env_spec caller) as Hv.
  destruct (validate_caller_env caller) as [[]|e]; [|done]. cbn [mbind result_bind].
  pose proof (fun name => composed_lookup pb pt it st i br n t pol caller name Hv) as Hlook.
  split; [done|]. repeat split; try (rewrite Hlook; apply managed_tokens).
  intros Hpol name Hup. rewrite Hlook, (proxy_name_reserved name Hup). by apply managed_no_proxy.
Qed.
