(* ===== verification/Traits.v ===== *)
(** * Rows shared by the components

    The data types of [crates/core/src/traits.rs] that more than one
    component reads. *)

From Stdlib Require Import ZArith.
From stdpp Require Import base list strings gmap option.
From S2P Require Import Prelude NetworkPolicy.

Local Open Scope string_scope.

(** [TokenRecord] *)
Record TokenRecord : Type := mkTokenRecord {
  tr_token : string;
  tr_instance_id : string;
  tr_provider : string;
  tr_created_at : Z;
  tr_revoked_at : option Z;
  tr_expected_src_ip : option string
}.

(** [InstanceStatus] *)
Inductive InstanceStatus : Type := Live | Paused | Cold | Configuring | Destroyed.

#[global] Instance InstanceStatus_eq_dec : EqDecision InstanceStatus.
Proof. solve_decision. Defined.

(** [InstanceStatus::as_str] *)
Definition status_str (s : InstanceStatus) : string :=
  match s with
  | Live => "live"
  | Paused => "paused"
  | Cold => "cold"
  | Configuring => "configuring"
  | Destroyed => "destroyed"
  end.

(** [InstanceStatus::parse] *)
Definition status_parse (s : string) : option InstanceStatus :=
  if (s =? "live")%string then Some Live
  else if (s =? "paused")%string then Some Paused
  else if (s =? "cold")%string then Some Cold
  else if (s =? "configuring")%string then Some Configuring
  else if (s =? "destroyed")%string then Some Destroyed
  else None.

Lemma status_parse_str s : status_parse (status_str s) = Some s.
Proof. by destruct s. Qed.

(** [ProbeResult] *)
Inductive ProbeResult : Type :=
| Healthy
| Degraded (reason : string)
| Unreachable (reason : string).

#[global] Instance ProbeResult_eq_dec : EqDecision ProbeResult.
Proof. solve_decision. Defined.

(** [InstanceRow] *)
Record InstanceRow : Type := mkInstanceRow {
  ir_id : string;
  ir_owner_id : string;
  ir_name : string;
  ir_task : string;
  ir_cube_sandbox_id : option string;
  ir_state_generation : string;
  ir_template_id : string;
  ir_status : InstanceStatus;
  ir_bearer_token : string;
  ir_pinned : bool;
  ir_expires_at : option Z;
  ir_last_active_at : Z;
  ir_last_probe_at : option Z;
  ir_last_probe_status : option ProbeResult;
  ir_created_at : Z;
  ir_destroyed_at : option Z;
  ir_rotated_to : option string;
  ir_network_policy : NetworkPolicy;
  ir_network_policy_cidrs : list string;
  ir_models : list string;
  ir_tools : list string
}.

#[global] Instance InstanceRow_eq_dec : EqDecision InstanceRow.
Proof. solve_decision. Defined.

(** [ListFilter] *)
Record ListFilter : Type := mkListFilter {
  lf_status : option InstanceStatus;
  lf_include_destroyed : bool
}.

(** [SnapshotKind], its [as_str] and [parse] *)
Inductive SnapshotKind : Type := Auto | Manual | Backup.

#[global] Instance SnapshotKind_eq_dec : EqDecision SnapshotKind.
Proof. solve_decision. Defined.

Definition snapshot_kind_str (k : SnapshotKind) : string :=
  match k with Auto => "auto" | Manual => "manual" | Backup => "backup" end.
Definition snapshot_kind_parse (s : string) : option SnapshotKind :=
  if (s =? "auto")%string then Some Auto
  else if (s =? "manual")%string then Some Manual
  else if (s =? "backup")%string then Some Backup
  else None.

(** [SnapshotRow] *)
Record SnapshotRow : Type := mkSnapshot {
  sn_id : string;
  sn_owner_id : string;
  sn_source_instance_id : string;
  sn_parent_snapshot_id : option string;
  sn_kind : SnapshotKind;
  sn_path : string;
  sn_host_ip : string;
  sn_remote_uri : option string;
  sn_size_bytes : option Z;
  sn_created_at : Z;
  sn_deleted_at : option Z;
  sn_content_hash : option string
}.
