(* ===== verification/UpstreamPolicy.v ===== *)
(** * SSRF policy for tenant-supplied upstream URLs

    Models [crates/core/src/upstream_policy.rs].  The URL parser
    ([reqwest::Url::parse]) and the system resolver
    ([tokio::net::lookup_host]) are parameters; a parsed URL is the record
    of the accessors the code reads.  Which addresses are internal is listed
    apart from the code's tests ([internal_addr]). *)

From stdpp Require Import base list strings gmap option.
From Stdlib Require Import ZArith Ascii Lia.
From S2P Require Import Prelude RustStr RustNet.

Local Open Scope string_scope.
Local Open Scope list_scope.
Local Open Scope Z_scope.

(** [OutboundUrlPolicy] *)
Record OutboundUrlPolicy : Type := mkOutboundUrlPolicy {
  enabled : bool;
  allow_localhost : bool;
  allow_internal : bool;
}.

(** [impl Default for OutboundUrlPolicy] *)
Definition OutboundUrlPolicy_default : OutboundUrlPolicy :=
  mkOutboundUrlPolicy true false false.

(** [OutboundUrlError] *)
Inductive OutboundUrlError : Type :=
| Disabled
| Empty
| InvalidUrl (msg : string)
| UnsupportedScheme (scheme : string)
| UserInfo
| QueryOrFragment
| MissingHost
| Resolve (msg : string)
| CachedAddrInvalid (addr : string)
| CachedAddrsMissing
| InternalNotAllowed.

(** The accessors of a parsed [reqwest::Url] that the code reads. *)
Record Url : Type := mkUrl {
  url_scheme : string;
  url_username : string;
  url_password : option string;
  url_query : option string;
  url_fragment : option string;
  url_host_str : option string;
  url_port_or_known_default : option Z;
}.

(** [ValidatedOutboundUrl] *)
Record ValidatedOutboundUrl : Type := mkValidated {
  v_url : Url;
  resolved_addrs : list SocketAddr;
}.

(** [is_internal_v4] *)
Definition is_internal_v4 (ip : Z) : bool :=
  let a := octet 0 ip in
  let b := octet 1 ip in
  is_private ip || is_loopback_v4 ip || is_link_local ip || is_multicast_v4 ip
  || is_unspecified_v4 ip
  || (a =? 0)
  || (a =? 100) && ((64 <=? b) && (b <=? 127))
  || (224 <=? a).

(** [is_internal_v6] *)
Definition is_internal_v6 (segs : list Z) : bool :=
  is_loopback_v6 segs || is_multicast_v6 segs || is_unspecified_v6 segs
  || (Z.land (seg 0 segs) 0xfe00 =? 0xfc00)
  || (Z.land (seg 0 segs) 0xffc0 =? 0xfe80).

(** [is_internal_ip] *)
Definition is_internal_ip (ip : IpAddr) : bool :=
  match ip with V4 v4 => is_internal_v4 v4 | V6 v6 => is_internal_v6 v6 end.

(** [host.trim_start_matches('[').trim_end_matches(']')] *)
Definition literal_host (host : string) : string :=
  trim_end_matches "]" (trim_start_matches "[" host).

(** [is_localhost_target] *)
Definition is_localhost_target (url : Url) (addrs : list SocketAddr) : bool :=
  match url_host_str url with
  | None => false
  | Some host =>
      let lit := literal_host host in
      let host_ok :=
        eq_ignore_ascii_case lit "localhost"
        || match parse_ip lit with Some ip => is_loopback ip | None => false end in
      host_ok && negb (bool_decide (addrs = []))
      && forallb (fun a => is_loopback (sa_ip a)) addrs
  end.

(** [validate_resolved_addrs] *)
Definition validate_resolved_addrs (policy : OutboundUrlPolicy) (url : Url)
    (addrs : list SocketAddr) : result OutboundUrlError unit :=
  if allow_internal policy then Ok tt
  else if allow_localhost policy && is_localhost_target url addrs then Ok tt
  else if existsb (fun a => is_internal_ip (sa_ip a)) addrs then Err InternalNotAllowed
  else Ok tt.

Section upstream.
(** [reqwest::Url::parse], with the error rendered as text. *)
Context (url_parse : string -> result string Url).
(** [tokio::net::lookup_host] on a host and a port. *)
Context (lookup_host : string -> Z -> result string (list SocketAddr)).

(** [parse_outbound_url] *)
Definition parse_outbound_url (policy : OutboundUrlPolicy) (upstream : string) :
  result OutboundUrlError Url :=
  if negb (enabled policy) then Err Disabled
  else
    let trimmed := trim upstream in
    if is_empty trimmed then Err Empty
    else
      url ← map_err InvalidUrl (url_parse trimmed);
      if negb (String.eqb (url_scheme url) "http" || String.eqb (url_scheme url) "https")
      then Err (UnsupportedScheme (url_scheme url))
      else if negb (is_empty (url_username url)) || bool_decide (is_Some (url_password url))
      then Err UserInfo
      else if bool_decide (is_Some (url_query url)) || bool_decide (is_Some (url_fragment url))
      then Err QueryOrFragment
      else
        _ ← ok_or MissingHost (url_host_str url);
        Ok url.

(** [resolve_addrs] *)
Definition resolve_addrs (host : string) (port : option Z) :
  result OutboundUrlError (list SocketAddr) :=
  let port := default 443 port in
  let lit := literal_host host in
  match parse_ip lit with
  | Some ip => Ok [mkSocketAddr ip port 0]
  | None =>
      addrs ← map_err Resolve (lookup_host lit port);
      let out := dedup (sort sockaddr_leb addrs) in
      match out with
      | [] => Err (Resolve "no addresses returned")
      | _ => Ok out
      end
  end.

(** [cached_or_literal_addrs] *)
Definition cached_or_literal_addrs (url : Url) (cached : list string) :
  result OutboundUrlError (list SocketAddr) :=
  out ← traverse (fun a => ok_or (CachedAddrInvalid a) (parse_socket_addr a)) cached;
  out ← match out with
        | [] =>
            host ← ok_or MissingHost (url_host_str url);
            ip ← ok_or CachedAddrsMissing (parse_ip host);
            Ok [mkSocketAddr ip (default 443 (url_port_or_known_default url)) 0]
        | _ => Ok out
        end;
  Ok (dedup (sort sockaddr_leb out)).

(** [validate_outbound_url] *)
Definition validate_outbound_url (policy : OutboundUrlPolicy) (upstream : string) :
  result OutboundUrlError ValidatedOutboundUrl :=
  url ← parse_outbound_url policy upstream;
  host ← ok_or MissingHost (url_host_str url);
  addrs ← resolve_addrs host (url_port_or_known_default url);
  _ ← validate_resolved_addrs policy url addrs;
  Ok (mkValidated url addrs).

(** [validate_cached_outbound_url] *)
Definition validate_cached_outbound_url (policy : OutboundUrlPolicy) (upstream : string)
    (cached : list string) : result OutboundUrlError ValidatedOutboundUrl :=
  url ← parse_outbound_url policy upstream;
  addrs ← cached_or_literal_addrs url cached;
  _ ← validate_resolved_addrs policy url addrs;
  Ok (mkValidated url addrs).
End upstream.

(** ** Lemmas *)

(** What passing the address check guarantees. *)
Lemma validate_resolved_addrs_ok policy url addrs :
  validate_resolved_addrs policy url addrs = Ok tt <->
  allow_internal policy = true
  \/ (allow_localhost policy = true /\ is_localhost_target url addrs = true)
  \/ (forall a, a ∈ addrs -> is_internal_ip (sa_ip a) = false).
Proof.
  unfold validate_resolved_addrs.
  destruct (allow_internal policy); [naive_solver|].
  destruct (allow_localhost policy && is_localhost_target url addrs) eqn:El.
  { to_prop. naive_solver. }
  apply andb_false_iff in El.
  destruct (existsb _ addrs) eqn:Ee.
  - apply existsb_exists' in Ee as (a & Ha & Hi). split; [done|].
    intros [?|[[? ?]|H]]; [done|naive_solver congruence|].
    specialize (H a Ha). congruence.
  - split; [|done]. intros _. right. right. intros a Ha.
    destruct (is_internal_ip (sa_ip a)) eqn:E; [|done].
    assert (existsb (fun a => is_internal_ip (sa_ip a)) addrs = true)
      by (apply existsb_exists'; eauto). congruence.
Qed.

Lemma is_localhost_target_loopback url addrs a :
  is_localhost_target url addrs = true -> a ∈ addrs -> is_loopback (sa_ip a) = true.
Proof.
  unfold is_localhost_target. case_match; [|done]. intros Ht. to_prop.
  match goal with H : forallb _ _ = true |- _ => rewrite forallb_forall' in H end.
  eauto.
Qed.

Lemma parse_outbound_url_ok up policy s url :
  parse_outbound_url up policy s = Ok url ->
  enabled policy = true /\ up (trim s) = Ok url /\
  (url_scheme url = "http" \/ url_scheme url = "https") /\
  url_username url = "" /\ url_password url = None /\
  url_query url = None /\ url_fragment url = None /\ is_Some (url_host_str url).
Proof.
  unfold parse_outbound_url. destruct (enabled policy); [cbn|done].
  destruct (is_empty (trim s)); [done|]. intros H. inv_ok.
  repeat case_match; try done. inv_ok. to_prop.
  repeat match goal with
  | H : negb _ = false |- _ => apply negb_false_iff in H
  | H : _ || _ = true |- _ => apply orb_true_iff in H; rewrite !String.eqb_eq in H
  | H : ~ is_Some _ |- _ => apply eq_None_not_Some in H
  end.
  split_and!; try done. by destruct (url_username url).
Qed.

(** The address set is never empty after either way of resolving it. *)
Lemma resolve_addrs_not_nil lookup host port addrs :
  resolve_addrs lookup host port = Ok addrs -> addrs <> [].
Proof.
  unfold resolve_addrs. case_match; [by intros [= <-]|]. intros Hr. inv_ok.
  destruct (dedup _) eqn:E; naive_solver.
Qed.

(** ** Properties *)

(** The IPv4 networks that are not the public Internet, first and last address:
    0.0.0.0/8, 10.0.0.0/8, 100.64.0.0/10 (shared), 127.0.0.0/8 (loopback),
    169.254.0.0/16 (link-local, where clouds serve instance metadata),
    172.16.0.0/12, 192.168.0.0/16, and 224.0.0.0 up (multicast and reserved) *)
Definition internal_v4_ranges : list (Z * Z) :=
  [(ipv4_of_octets 0 0 0 0, ipv4_of_octets 0 255 255 255);
   (ipv4_of_octets 10 0 0 0, ipv4_of_octets 10 255 255 255);
   (ipv4_of_octets 100 64 0 0, ipv4_of_octets 100 127 255 255);
   (ipv4_of_octets 127 0 0 0, ipv4_of_octets 127 255 255 255);
   (ipv4_of_octets 169 254 0 0, ipv4_of_octets 169 254 255 255);
   (ipv4_of_octets 172 16 0 0, ipv4_of_octets 172 31 255 255);
   (ipv4_of_octets 192 168 0 0, ipv4_of_octets 192 168 255 255);
   (ipv4_of_octets 224 0 0 0, ipv4_of_octets 255 255 255 255)].

Definition internal_v4_addr (ip : Z) : Prop :=
  exists lo hi, (lo, hi) ∈ internal_v4_ranges /\ lo <= ip <= hi.

(** Of IPv6: [::], [::1], fc00::/7 (unique local), fe80::/10 (link-local) and
    ff00::/8 (multicast) *)
Definition internal_v6_addr (segs : list Z) : Prop :=
  segs = [0; 0; 0; 0; 0; 0; 0; 0] \/ segs = [0; 0; 0; 0; 0; 0; 0; 1] \/
  exists s rest, segs = s :: rest /\
    (0xfc00 <= s <= 0xfdff \/ 0xfe80 <= s <= 0xfebf \/ 0xff00 <= s <= 0xffff).

(** The IPv4-mapped IPv6 address of [ip]. *)
Definition mapped (ip : Z) : list Z := [0; 0; 0; 0; 0; 0xffff; ip / 2 ^ 16; ip mod 2 ^ 16].

(** An address a request from inside could abuse: internal itself, or the
    mapped form of an internal IPv4 address *)
Definition internal_addr (ip : IpAddr) : Prop :=
  match ip with
  | V4 v => internal_v4_addr v
  | V6 segs => internal_v6_addr segs \/ exists v, segs = mapped v /\ internal_v4_addr v
  end.

Lemma internal_v4_addr_refused ip : internal_v4_addr ip -> is_internal_v4 ip = true.
Proof.
  intros (lo & hi & Hin & Hr). unfold internal_v4_ranges, ipv4_of_octets in Hin.
  assert (0 <= ip < 2 ^ 32) as Hip.
  { rewrite !elem_of_cons, elem_of_nil in Hin. destruct_or?; simplify_eq; lia. }
  assert (octet 0 ip = ip / 2 ^ 24 /\ octet 1 ip = (ip / 2 ^ 16) mod 256) as [H0 H1].
  { unfold octet. split; [|done]. change (24 - 8 * 0) with 24. rewrite Z.mod_small; [done|].
    split; [apply Z.div_pos; lia|apply Z.div_lt_upper_bound; lia]. }
  unfold is_internal_v4, is_private, is_loopback_v4, is_link_local, is_multicast_v4, is_unspecified_v4.
  rewrite H0, H1. rewrite !elem_of_cons, elem_of_nil in Hin.
  assert (ip / 2 ^ 24 * 2 ^ 24 <= ip < ip / 2 ^ 24 * 2 ^ 24 + 2 ^ 24) as Ha by (pose proof (Z.div_mod ip (2 ^ 24)); pose proof (Z.mod_pos_bound ip (2 ^ 24)); lia).
  assert ((ip / 2 ^ 16) * 2 ^ 16 <= ip < (ip / 2 ^ 16) * 2 ^ 16 + 2 ^ 16) as Hb by (pose proof (Z.div_mod ip (2 ^ 16)); pose proof (Z.mod_pos_bound ip (2 ^ 16)); lia).
  pose proof (Z.div_mod (ip / 2 ^ 16) 256). pose proof (Z.mod_pos_bound (ip / 2 ^ 16) 256).
  assert (ip / 2 ^ 16 / 256 = ip / 2 ^ 24) as Hq by (rewrite Z.div_div by lia; done).
  set (a := ip / 2 ^ 24) in *. set (q := ip / 2 ^ 16) in *. set (b := q mod 256) in *. clearbody a q b.
  repeat rewrite ?orb_true_iff, ?andb_true_iff, ?Z.eqb_eq, ?Z.leb_le.
  destruct_or? Hin; simplify_eq; lia.
Qed.

(** A mask test, over every value of a range *)
Lemma mask_range mask v lo n s :
  forallb (fun x => Z.land x mask =? v) (seqZ lo n) = true -> lo <= s < lo + n -> Z.land s mask = v.
Proof. rewrite forallb_forall'. intros H Hs. apply Z.eqb_eq, H. by apply elem_of_seqZ. Qed.

Lemma internal_v6_addr_refused segs : internal_v6_addr segs -> is_internal_v6 segs = true.
Proof.
  unfold is_internal_v6, is_multicast_v6. intros [->|[->|(s & rest & -> & Hs)]]; [done|done|]. cbn [seg nth].
  destruct Hs as [Hs|[Hs|Hs]].
  - rewrite (mask_range 0xfe00 0xfc00 0xfc00 512 s); [|vm_compute; reflexivity|lia]. by rewrite Z.eqb_refl, !orb_true_r.
  - rewrite (mask_range 0xffc0 0xfe80 0xfe80 64 s); [|vm_compute; reflexivity|lia]. by rewrite Z.eqb_refl, !orb_true_r.
  - rewrite (mask_range 0xff00 0xff00 0xff00 256 s); [|vm_compute; reflexivity|lia]. by rewrite Z.eqb_refl, !orb_true_r.
Qed.

(** The host was written as [localhost] or as a loopback literal. *)
Definition localhost_url (url : Url) : Prop :=
  exists host, url_host_str url = Some host /\
    (to_ascii_lowercase (literal_host host) = "localhost" \/
     exists ip, parse_ip (literal_host host) = Some ip /\ is_loopback ip = true).

(** What either route to a validated URL ensures.  The last case of an address
    is the one the check allows without the operator's word: not internal, but
    for an IPv4-mapped IPv6 address, into which the check does not look. *)
Definition outbound_safe (policy : OutboundUrlPolicy) (v : ValidatedOutboundUrl) : Prop :=
  enabled policy = true /\
  (url_scheme (v_url v) = "http" \/ url_scheme (v_url v) = "https") /\
  url_username (v_url v) = "" /\ url_password (v_url v) = None /\
  (forall a, a ∈ resolved_addrs v ->
     allow_internal policy = true
     \/ (allow_localhost policy = true /\ localhost_url (v_url v) /\ is_loopback (sa_ip a) = true)
     \/ (internal_addr (sa_ip a) -> exists ip, sa_ip a = V6 (mapped ip))).

Lemma is_localhost_target_url url addrs : is_localhost_target url addrs = true -> localhost_url url.
Proof.
  unfold is_localhost_target, localhost_url. destruct (url_host_str url) as [host|]; [|done]. intros Ht. to_prop.
  exists host. split; [done|]. match goal with H : _ || _ = true |- _ => apply orb_true_iff in H as [H|H] end.
  - left. by apply String.eqb_eq in H.
  - right. destruct (parse_ip _); [eauto|done].
Qed.

Lemma outbound_safe_intro up policy s url addrs :
  parse_outbound_url up policy s = Ok url ->
  validate_resolved_addrs policy url addrs = Ok tt ->
  outbound_safe policy (mkValidated url addrs).
Proof.
  intros (? & ? & ? & ? & ? & ? & ? & ?)%parse_outbound_url_ok Hv.
  split_and!; try done. cbn. intros a Ha.
  apply validate_resolved_addrs_ok in Hv as [?|[[? Hl]|Hi]]; [by left|right; left|right; right].
  - split_and!; [done|by eapply is_localhost_target_url|by eapply is_localhost_target_loopback].
  - specialize (Hi a Ha). destruct (sa_ip a) as [v|segs]; cbn in *.
    + intros Hv%internal_v4_addr_refused. congruence.
    + intros [Hv%internal_v6_addr_refused|(v & -> & _)]; [congruence|eauto].
Qed.

(** C34. An upstream URL that passes validation, freshly resolved or from the
    cached address list, is an http(s) URL without credentials, the operator
    enabled upstreams, and no pinned address lies in a private, shared,
    loopback, link-local (metadata), multicast or reserved network, as listed by
    range, unless the operator allowed internal targets, or the target was
    written as localhost, resolves to loopback and the operator allowed that.
    The exception is an IPv4-mapped IPv6 address, which passes whatever IPv4
    address it stands for. *)
Theorem validated_upstream_safe
    (up : string -> result string Url) (lookup : string -> Z -> result string (list SocketAddr))
    (policy : OutboundUrlPolicy) (s : string) (cached : list string)
    (v : ValidatedOutboundUrl) :
  validate_outbound_url up lookup policy s = Ok v
  \/ validate_cached_outbound_url up policy s cached = Ok v ->
  outbound_safe policy v.
Proof.
  unfold validate_outbound_url, validate_cached_outbound_url.
  intros [H|H]; inv_ok; match goal with H : validate_resolved_addrs _ _ _ = Ok ?u |- _ => destruct u end;
  by eapply outbound_safe_intro.
Qed.

(** A URL parser for witnesses: one public literal host. *)
Definition example_url : Url :=
  mkUrl "https" "" None None None (Some "8.8.8.8") (Some 443).
Definition example_parse (s : string) : result string Url :=
  if String.eqb s "https://8.8.8.8/v1" then Ok example_url else Err "bad".

Lemma validated_upstream_safe_witness :
  exists v, validate_cached_outbound_url example_parse OutboundUrlPolicy_default
              "https://8.8.8.8/v1" [] = Ok v /\ outbound_safe OutboundUrlPolicy_default v.
Proof.
  destruct (validate_cached_outbound_url example_parse OutboundUrlPolicy_default
              "https://8.8.8.8/v1" []) as [v|] eqn:H; [|by vm_compute in H].
  exists v. split; [done|].
  apply (validated_upstream_safe example_parse (fun _ _ => Err "") OutboundUrlPolicy_default
    "https://8.8.8.8/v1" [] v). by right.
Defined.

(** The IPv6 side of the internal-address test does not look inside
    IPv4-mapped addresses: for every IPv4 address, internal or not, its
    mapped form counts as public and so passes the default policy. *)
Theorem mapped_ipv4_bypasses_internal_check (ip port scope : Z) (url : Url) :
  validate_resolved_addrs OutboundUrlPolicy_default url
    [mkSocketAddr (V6 (mapped ip)) port scope] = Ok tt.
Proof.
  apply validate_resolved_addrs_ok. right. right. intros a ->%list_elem_of_singleton.
  unfold is_internal_ip, is_internal_v6, sa_ip, mapped, is_loopback_v6, is_unspecified_v6,
    is_multicast_v6, seg, nth.
  rewrite !bool_decide_eq_false_2 by congruence. done.
Qed.

Example mapped_loopback_parses :
  parse_ip "::ffff:127.0.0.1" = Some (V6 (mapped 2130706433)) /\
  is_internal_v4 2130706433 = true.
Proof. split; reflexivity. Qed.
