(* ===== verification/EgressProxy.v ===== *)
(** * The policy-aware egress proxy

    Models [crates/egress-proxy/src/main.rs]: CIDR matching, the policy file
    and its store with last-known-good reloads, destination parsing,
    authorisation, the two request handlers with their connection attempts,
    hop-by-hop header stripping and the connection limit of [serve]. *)

From Stdlib Require Import ZArith Ascii Lia Btauto.
From stdpp Require Import base list strings gmap option.
From S2P Require Import Prelude RustStr RustNet RustHttp NetworkPolicy UpstreamPolicy.

Local Open Scope string_scope.
Local Open Scope list_scope.
Local Open Scope Z_scope.

(** ** CIDR blocks *)

(** [Ipv4Cidr] *)
Record Ipv4Cidr : Type := mkCidr { network : Z; prefix : Z }.

#[global] Instance Ipv4Cidr_eq_dec : EqDecision Ipv4Cidr.
Proof. solve_decision. Defined.

(** [mask]: the shift is on [u32]. *)
Definition mask (prefix : Z) : Z :=
  if prefix =? 0 then 0 else Z.shiftl u32_max (32 - prefix) mod 2 ^ 32.

(** [Ipv4Cidr::contains] *)
Definition cidr_contains (c : Ipv4Cidr) (ip : Z) : bool :=
  Z.land ip (mask (prefix c)) =? network c.

(** The reason texts of [PolicyLoadError::Cidr]. *)
Inductive CidrReason : Type := MissingPrefix | BadAddress | BadPrefix | PrefixTooLarge.

(** [PolicyLoadError] *)
Inductive PolicyLoadError : Type :=
| LoadRead (io : string)
| LoadJson (msg : string)
| LoadVersion (version : Z)
| LoadSandboxIp (ip : string)
| LoadCidr (cidr : string) (reason : CidrReason)
| LoadKind (kind : string).

(** [Ipv4Cidr::parse] *)
Definition parse_cidr (raw : string) : result PolicyLoadError Ipv4Cidr :=
  '(addr, prefix) ← ok_or (LoadCidr raw MissingPrefix) (split_once "/" raw);
  ip ← ok_or (LoadCidr raw BadAddress) (parse_ipv4 addr);
  prefix ← ok_or (LoadCidr raw BadPrefix) (parse_u8 prefix);
  if 32 <? prefix then Err (LoadCidr raw PrefixTooLarge)
  else Ok (mkCidr (Z.land ip (mask prefix)) prefix).

(** [parse_cidrs] *)
Definition parse_cidrs (raw : list string) : result PolicyLoadError (list Ipv4Cidr) :=
  traverse parse_cidr raw.

(** ** The policy file *)

(** [RawSandboxPolicy] *)
Record RawSandboxPolicy : Type := mkRaw {
  raw_instance_id : string;
  raw_kind : string;
  raw_allow_out : list string;
  raw_deny_out : list string;
}.

(** [RawPolicyFile]; the [BTreeMap] is iterated in key order. *)
Record RawPolicyFile : Type := mkRawFile {
  raw_version : Z;
  raw_sandboxes : list (string * RawSandboxPolicy);
}.

(** [SandboxPolicy] *)
Record SandboxPolicy : Type := mkSandboxPolicy {
  sp_instance_id : string;
  sp_kind : NetworkPolicy;
  sp_allow_out : list Ipv4Cidr;
  sp_deny_out : list Ipv4Cidr;
}.

(** [SandboxPolicy::allows] *)
Definition allows (p : SandboxPolicy) (ip : Z) : bool :=
  let allowed := existsb (fun c => cidr_contains c ip) (sp_allow_out p) in
  let denied := existsb (fun c => cidr_contains c ip) (sp_deny_out p) in
  match sp_kind p with
  | Airgap => false
  | Allowlist _ => allowed
  | Open => allowed || negb denied
  | NoLocalNet | Denylist _ => negb denied
  end.

(** [parse_policy_kind] *)
Definition parse_policy_kind (kind : string) : result PolicyLoadError NetworkPolicy :=
  if String.eqb kind "airgap" then Ok Airgap
  else if String.eqb kind "nolocalnet" then Ok NoLocalNet
  else if String.eqb kind "allowlist" then Ok (Allowlist [])
  else if String.eqb kind "denylist" then Ok (Denylist [])
  else if String.eqb kind "open" then Ok Open
  else Err (LoadKind kind).

(** The body of the loop of [PolicySet::from_json_str] for one entry. *)
Definition compile_sandbox (source : string) (raw : RawSandboxPolicy) :
  result PolicyLoadError (Z * SandboxPolicy) :=
  source_ip ← ok_or (LoadSandboxIp source) (parse_ipv4 source);
  allow_out ← parse_cidrs (raw_allow_out raw);
  deny_out ← parse_cidrs (raw_deny_out raw);
  kind ← parse_policy_kind (raw_kind raw);
  Ok (source_ip, mkSandboxPolicy (raw_instance_id raw) kind allow_out deny_out).

Fixpoint compile_sandboxes (raws : list (string * RawSandboxPolicy))
    (acc : gmap Z SandboxPolicy) : result PolicyLoadError (gmap Z SandboxPolicy) :=
  match raws with
  | [] => Ok acc
  | (source, raw) :: raws =>
      '(ip, p) ← compile_sandbox source raw;
      compile_sandboxes raws (<[ip := p]> acc)
  end.

Section policy_file.
(** [serde_json::from_str::<RawPolicyFile>], with the error as text. *)
Context (parse_json : string -> result string RawPolicyFile).

(** [PolicySet::from_json_str] *)
Definition from_json_str (text : string) : result PolicyLoadError (gmap Z SandboxPolicy) :=
  raw ← map_err LoadJson (parse_json text);
  if negb (raw_version raw =? 1) then Err (LoadVersion (raw_version raw))
  else compile_sandboxes (raw_sandboxes raw) ∅.

(** [PolicyStore::reload]: the content of the file is what reading it
    returned; [current] is replaced only by a whole valid set. *)
Definition reload (file : result string string) (current : option (gmap Z SandboxPolicy)) :
  option (gmap Z SandboxPolicy) * result PolicyLoadError nat :=
  match (text ← map_err LoadRead file; from_json_str text) with
  | Ok set => (Some set, Ok (size set))
  | Err e => (current, Err e)
  end.
End policy_file.

(** [PolicyStore::policy_for] *)
Definition policy_for (current : option (gmap Z SandboxPolicy)) (source_ip : IpAddr) :
  option SandboxPolicy :=
  match source_ip with
  | V4 ip => set ← current; set !! ip
  | V6 _ => None
  end.

(** ** Destinations *)

(** [hyper::Uri] as its accessors return it. *)
Record Authority : Type := mkAuthority {
  auth_host : string;
  auth_port_u16 : option Z;
  auth_str : string;
}.
Record Uri : Type := mkUri {
  uri_scheme : option string;
  uri_authority : option Authority;
  uri_path_and_query : option string;
}.

(** [Host] *)
Inductive DestHost : Type := HostIpv4 (ip : Z) | HostName (name : string).

(** [Destination] *)
Record Destination : Type := mkDestination {
  dest_host : DestHost;
  dest_port : Z;
  dest_authority : string;
}.

(** The error texts of the [Destination] constructors. *)
Inductive DestError : Type :=
| NotAbsoluteHttp
| MissingAuthority
| NotAuthorityForm
| MissingPort
| PortZero
| EmptyHost
| Ipv6NotSupported.

(** [Destination::from_host_port] *)
Definition from_host_port (host : string) (port : Z) (authority : string) :
  result DestError Destination :=
  if port =? 0 then Err PortZero
  else if is_empty host then Err EmptyHost
  else if contains_char ":" host || starts_with "[" host || ends_with "]" host
  then Err Ipv6NotSupported
  else
    host ← match parse_ip host with
           | Some (V4 ip) => Ok (HostIpv4 ip)
           | Some (V6 _) => Err Ipv6NotSupported
           | None => Ok (HostName (to_ascii_lowercase host))
           end;
    Ok (mkDestination host port authority).

(** [Destination::from_absolute_uri] *)
Definition from_absolute_uri (uri : Uri) : result DestError Destination :=
  if negb (bool_decide (uri_scheme uri = Some "http")) then Err NotAbsoluteHttp
  else
    authority ← ok_or MissingAuthority (uri_authority uri);
    let port := default 80 (auth_port_u16 authority) in
    from_host_port (auth_host authority) port (auth_str authority).

(** [Destination::from_connect_uri] *)
Definition from_connect_uri (uri : Uri) : result DestError Destination :=
  if bool_decide (is_Some (uri_scheme uri)) || bool_decide (is_Some (uri_path_and_query uri))
  then Err NotAuthorityForm
  else
    authority ← ok_or MissingAuthority (uri_authority uri);
    port ← ok_or MissingPort (auth_port_u16 authority);
    from_host_port (auth_host authority) port (auth_str authority).

(** ** Authorisation *)

(** [ProxyError] *)
Inductive ProxyError : Type := Denied (reason : string) | Gateway (err : string).

(** A [SocketAddrV4]: address and port, ordered lexicographically. *)
Definition v4_leb (a b : Z * Z) : bool :=
  (fst a <? fst b) || (fst a =? fst b) && (snd a <=? snd b).

Section authorise.
(** [tokio::net::lookup_host] on a host and a port. *)
Context (lookup_host : string -> Z -> result string (list SocketAddr)).

(** [resolve_destination] *)
Definition resolve_destination (dest : Destination) : result ProxyError (list (Z * Z)) :=
  match dest_host dest with
  | HostIpv4 ip => Ok [(ip, dest_port dest)]
  | HostName host =>
      lookup ← map_err (fun e => Gateway ("DNS lookup failed: " +:+ e))
                       (lookup_host host (dest_port dest));
      let addrs := omap (fun a => match sa_ip a with
                                  | V4 v4 => Some (v4, sa_port a)
                                  | V6 _ => None
                                  end) lookup in
      let saw_ipv6 := existsb (fun a => match sa_ip a with V6 _ => true | V4 _ => false end)
                              lookup in
      let addrs := dedup (sort v4_leb addrs) in
      match addrs with
      | [] =>
          Err (Gateway
            (if saw_ipv6
             then "hostname resolved only to IPv6 addresses; IPv6 proxy egress is not enabled"
             else "hostname resolved to no addresses"))
      | _ => Ok addrs
      end
  end.

(** The loop of [resolve_authorized]: the first denied address. *)
Fixpoint check_allowed (policy : SandboxPolicy) (addrs : list (Z * Z)) :
  result ProxyError unit :=
  match addrs with
  | [] => Ok tt
  | (ip, _) :: addrs =>
      if negb (allows policy ip)
      then Err (Denied ("destination " +:+ show_ipv4 ip +:+ " denied by "
                        +:+ kind_str (sp_kind policy) +:+ " policy"))
      else check_allowed policy addrs
  end.

(** [resolve_authorized] *)
Definition resolve_authorized (dest : Destination) (source_ip : IpAddr)
    (store : option (gmap Z SandboxPolicy)) : result ProxyError (list (Z * Z)) :=
  policy ← ok_or (Denied "missing source sandbox policy") (policy_for store source_ip);
  addrs ← resolve_destination dest;
  _ ← check_allowed policy addrs;
  Ok addrs.
End authorise.

(** ** Headers *)

(** The fixed names [strip_hop_headers] removes. *)
Definition HOP_HEADERS : list string :=
  [ "connection"; "proxy-connection"; "keep-alive"; "proxy-authenticate";
    "proxy-authorization"; "te"; "trailer"; "transfer-encoding"; "upgrade" ].

Section headers.
(** [HeaderValue::to_str] and [HeaderName::from_bytes] of the http crate. *)
Context (to_str : string -> option string) (header_name : string -> option string).

Definition connection_tokens (hs : headers) : list string :=
  let values := map snd (filter (fun h => fst h = "connection") hs) in
  let tokens := mjoin (map (split ",") (omap to_str values)) in
  omap (fun t => header_name (trim t)) tokens.

(** [strip_hop_headers] *)
Definition strip_hop_headers (hs : headers) : headers :=
  let hs' := fold_left (fun hs name => header_remove name hs) (connection_tokens hs) hs in
  fold_left (fun hs name => header_remove name hs) HOP_HEADERS hs'.
End headers.

(** ** Request handling *)

Record Request : Type := mkRequest {
  req_http11 : bool;
  req_is_connect : bool;
  req_uri : Uri;
  req_headers : headers;
}.

Inductive Response : Type :=
| TextResponse (status : Z) (text : string)
| EmptyResponse (status : Z)
| Forwarded (status : Z) (hs : headers)
| Panic.

(** What a request did: the upstream addresses it opened a connection to,
    the request it forwarded, the response it gave. *)
Record Outcome : Type := mkOutcome {
  attempts : list (Z * Z);
  forwarded : option Request;
  response : Response;
}.

Definition reply (status : Z) (text : string) : Outcome :=
  mkOutcome [] None (TextResponse status text).

Section handlers.
Context (lookup_host : string -> Z -> result string (list SocketAddr)).
Context (to_str : string -> option string) (header_name : string -> option string).
(** [connect_with_timeout] succeeded; [Uri::from_str];
    [HeaderValue::from_str] accepted; the HTTP/1 handshake succeeded; what
    the upstream answered. *)
Context (connect : Z * Z -> bool) (parse_uri : string -> option Uri)
        (header_value_ok : string -> bool) (handshake : Z * Z -> bool)
        (send_request : Request -> option (Z * headers)).

(** [rewrite_to_origin_form] *)
Definition rewrite_to_origin_form (req : Request) (dest : Destination) : option Request :=
  let origin := default "/" (uri_path_and_query (req_uri req)) in
  uri ← parse_uri origin;
  if header_value_ok (dest_authority dest)
  then Some (mkRequest (req_http11 req) (req_is_connect req) uri
               (header_insert "host" (dest_authority dest) (req_headers req)))
  else None.

(** [handle_http] *)
Definition handle_http (req : Request) (source_ip : IpAddr)
    (store : option (gmap Z SandboxPolicy)) : Outcome :=
  match from_absolute_uri (req_uri req) with
  | Err _ => reply 400 "bad request"
  | Ok dest =>
      match resolve_authorized lookup_host dest source_ip store with
      | Err (Denied _) => reply 403 "egress denied"
      | Err (Gateway _) => reply 502 "bad gateway"
      | Ok [] => mkOutcome [] None Panic
      | Ok (addr :: _) =>
          if negb (connect addr)
          then mkOutcome [addr] None (TextResponse 502 "bad gateway")
          else
            let req := mkRequest (req_http11 req) (req_is_connect req) (req_uri req)
                         (strip_hop_headers to_str header_name (req_headers req)) in
            match rewrite_to_origin_form req dest with
            | None => mkOutcome [addr] None (TextResponse 400 "bad request")
            | Some req =>
                if negb (handshake addr)
                then mkOutcome [addr] None (TextResponse 502 "bad gateway")
                else match send_request req with
                     | Some (status, hs) =>
                         mkOutcome [addr] (Some req)
                           (Forwarded status (strip_hop_headers to_str header_name hs))
                     | None =>
                         mkOutcome [addr] (Some req) (TextResponse 502 "bad gateway")
                     end
            end
      end
  end.

(** [handle_connect]: on success the tunnel is to [addr]. *)
Definition handle_connect (req : Request) (source_ip : IpAddr)
    (store : option (gmap Z SandboxPolicy)) : Outcome :=
  match from_connect_uri (req_uri req) with
  | Err _ => reply 400 "bad request"
  | Ok dest =>
      match resolve_authorized lookup_host dest source_ip store with
      | Err (Denied _) => reply 403 "egress denied"
      | Err (Gateway _) => reply 502 "bad gateway"
      | Ok [] => mkOutcome [] None Panic
      | Ok (addr :: _) =>
          if negb (connect addr)
          then mkOutcome [addr] None (TextResponse 502 "bad gateway")
          else mkOutcome [addr] None (EmptyResponse 200)
      end
  end.

(** [handle_request] *)
Definition handle_request (req : Request) (source_ip : IpAddr)
    (store : option (gmap Z SandboxPolicy)) : Outcome :=
  if negb (req_http11 req) then reply 400 "bad request"
  else if req_is_connect req then handle_connect req source_ip store
  else handle_http req source_ip store.
End handlers.

(** ** The accept loop

    [serve] holds a semaphore of [max_connections] permits; a connection
    keeps its permit until its task ends. *)

Inductive serve_event : Type :=
| Accept (peer : nat)
| Finish (peer : nat).

(** The connections being served; a connection over the limit is dropped. *)
Definition serve_step (max_connections : nat) (active : list nat) (ev : serve_event) :
  list nat :=
  match ev with
  | Accept peer =>
      if Nat.ltb (length active) max_connections then peer :: active else active
  | Finish peer => filter (fun q => q <> peer) active
  end.

(** [main] clamps the limit from the command line. *)
Definition effective_limit (arg : nat) : nat := Nat.max arg 1.

Inductive serve_reachable (arg : nat) : list nat -> Prop :=
| serve_init : serve_reachable arg []
| serve_next active ev :
    serve_reachable arg active ->
    serve_reachable arg (serve_step (effective_limit arg) active ev).

(** ** Lemmas on CIDR matching *)

Lemma mask_shift p : 0 <= p <= 32 -> mask p = Z.shiftl (Z.ones p) (32 - p).
Proof.
  intros Hp.
  assert (forallb (fun k => mask (Z.of_nat k) =? Z.shiftl (Z.ones (Z.of_nat k)) (32 - Z.of_nat k))
            (seq 0 33) = true) as H by (vm_compute; reflexivity).
  rewrite forallb_forall in H. specialize (H (Z.to_nat p)).
  rewrite Z2Nat.id in H by lia. apply Z.eqb_eq, H, in_seq. lia.
Qed.

(** Masking keeps the top [p] bits. *)
Lemma land_mask ip p :
  0 <= p <= 32 -> ipv4_ok ip -> Z.land ip (mask p) = ip / 2 ^ (32 - p) * 2 ^ (32 - p).
Proof.
  intros Hp [H0 H1]. rewrite mask_shift by done.
  replace (Z.land ip (Z.shiftl (Z.ones p) (32 - p)))
    with (Z.shiftl (Z.land (Z.shiftr ip (32 - p)) (Z.ones p)) (32 - p)).
  - rewrite Z.land_ones, Z.shiftl_mul_pow2, Z.shiftr_div_pow2 by lia. f_equal.
    apply Z.mod_small. split; [apply Z.div_pos; lia|].
    apply Z.div_lt_upper_bound; [lia|]. rewrite <- Z.pow_add_r by lia.
    by replace (32 - p + p) with 32 by lia.
  - apply Z.bits_inj'. intros n Hn.
    rewrite Z.land_spec, !Z.shiftl_spec, Z.land_spec by done.
    destruct (Z.le_gt_cases (32 - p) n) as [Hle|Hgt].
    + rewrite Z.shiftr_spec by lia. by replace (n - (32 - p) + (32 - p)) with n by lia.
    + rewrite (Z.testbit_neg_r (Z.ones p)) by lia. by rewrite !andb_false_r.
Qed.

(** A block as [parse_cidr] builds it: the host bits are clear. *)
Definition cidr_wf (c : Ipv4Cidr) : Prop :=
  0 <= prefix c <= 32 /\ 0 <= network c < 2 ^ 32 /\
  network c = network c / 2 ^ (32 - prefix c) * 2 ^ (32 - prefix c).

Lemma parse_cidr_wf raw c : parse_cidr raw = Ok c -> cidr_wf c.
Proof.
  unfold parse_cidr. intros H. inv_ok.
  match goal with H : (let '(_, _) := ?x in _) = _ |- _ => destruct x as [addr pr] end.
  inv_ok. case_match; [done|]. to_prop. simplify_eq.
  match goal with H : parse_u8 _ = Some ?p |- _ => apply parse_uint_range in H; rename p into q end.
  match goal with H : parse_ipv4 _ = Some ?p |- _ => apply parse_ipv4_ok in H; rename p into ip end.
  assert (0 <= q <= 32) as Hq by lia. unfold cidr_wf. cbn [network prefix].
  rewrite land_mask by done.
  match goal with H : ipv4_ok ip |- _ => destruct H as [Hip0 Hip1] end.
  assert (0 < 2 ^ (32 - q)) as Hpow by (apply Z.pow_pos_nonneg; lia).
  split; [done|]. split.
  - split; [apply Z.mul_nonneg_nonneg; [apply Z.div_pos|]; lia|].
    pose proof (Z.mul_div_le ip (2 ^ (32 - q)) Hpow). lia.
  - by rewrite Z.div_mul by lia.
Qed.

(** Matching is comparison of the top [prefix] bits. *)
Lemma cidr_contains_iff c ip :
  cidr_wf c -> ipv4_ok ip ->
  cidr_contains c ip = true <-> ip / 2 ^ (32 - prefix c) = network c / 2 ^ (32 - prefix c).
Proof.
  intros (Hp & Hn & Hal) Hip. unfold cidr_contains. rewrite Z.eqb_eq, land_mask by done.
  assert (0 < 2 ^ (32 - prefix c)) as Hpow by (apply Z.pow_pos_nonneg; lia).
  split.
  - intros <-. by rewrite Z.div_mul by lia.
  - intros E. by rewrite E, <- Hal.
Qed.

Definition DEFAULT_DENY_CIDRS : list Ipv4Cidr :=
  [ mkCidr 0 8; mkCidr (10 * 2 ^ 24) 8; mkCidr (100 * 2 ^ 24 + 64 * 2 ^ 16) 10;
    mkCidr (127 * 2 ^ 24) 8; mkCidr (169 * 2 ^ 24 + 254 * 2 ^ 16) 16;
    mkCidr (172 * 2 ^ 24 + 16 * 2 ^ 16) 12; mkCidr (192 * 2 ^ 24 + 168 * 2 ^ 16) 16;
    mkCidr (224 * 2 ^ 24) 4; mkCidr (240 * 2 ^ 24) 4 ].

Lemma parse_default_deny : parse_cidrs DEFAULT_DENY_OUT = Ok DEFAULT_DENY_CIDRS.
Proof. vm_compute. reflexivity. Qed.

(** Both sides of the next lemma on the top 16 bits of the address. *)
Definition deny_top (q : Z) : bool :=
  existsb (fun c => q / 2 ^ (16 - prefix c) =? network c / 2 ^ (32 - prefix c))
          DEFAULT_DENY_CIDRS.
Definition internal_top (q : Z) : bool :=
  let a := q / 256 in let b := q mod 256 in
  (a =? 10) || (a =? 172) && ((16 <=? b) && (b <=? 31)) || (a =? 192) && (b =? 168)
  || (a =? 127) || (a =? 169) && (b =? 254) || (224 <=? a) || (a =? 0)
  || (a =? 100) && ((64 <=? b) && (b <=? 127)).

(** One block against the range test on the two octets. *)
Ltac top_atom :=
  apply eq_bool_prop_intro; rewrite !Is_true_true;
  rewrite ?orb_true_iff, ?andb_true_iff, ?Z.eqb_eq, ?Z.leb_le;
  Z.to_euclidean_division_equations; lia.

Lemma deny_top_internal_top q : 0 <= q < 65536 -> deny_top q = internal_top q.
Proof.
  intros Hq. unfold deny_top, internal_top, DEFAULT_DENY_CIDRS. cbn [existsb prefix network].
  change (2 ^ (16 - 8)) with 256. change (2 ^ (16 - 10)) with 64.
  change (2 ^ (16 - 16)) with 1. change (2 ^ (16 - 12)) with 16.
  change (2 ^ (16 - 4)) with 4096. rewrite !Z.div_1_r.
  change (0 / 2 ^ (32 - 8)) with 0. change (10 * 2 ^ 24 / 2 ^ (32 - 8)) with 10.
  change ((100 * 2 ^ 24 + 64 * 2 ^ 16) / 2 ^ (32 - 10)) with 401.
  change (127 * 2 ^ 24 / 2 ^ (32 - 8)) with 127.
  change ((169 * 2 ^ 24 + 254 * 2 ^ 16) / 2 ^ (32 - 16)) with 43518.
  change ((172 * 2 ^ 24 + 16 * 2 ^ 16) / 2 ^ (32 - 12)) with 2753.
  change ((192 * 2 ^ 24 + 168 * 2 ^ 16) / 2 ^ (32 - 16)) with 49320.
  change (224 * 2 ^ 24 / 2 ^ (32 - 4)) with 14. change (240 * 2 ^ 24 / 2 ^ (32 - 4)) with 15.
  assert ((q / 64 =? 401) = (q / 256 =? 100) && ((64 <=? q mod 256) && (q mod 256 <=? 127)))
    as -> by top_atom.
  assert ((q =? 43518) = (q / 256 =? 169) && (q mod 256 =? 254)) as -> by top_atom.
  assert ((q =? 49320) = (q / 256 =? 192) && (q mod 256 =? 168)) as -> by top_atom.
  assert ((q / 16 =? 2753) = (q / 256 =? 172) && ((16 <=? q mod 256) && (q mod 256 <=? 31)))
    as -> by top_atom.
  assert ((q / 4096 =? 15) = (240 <=? q / 256)) as -> by top_atom.
  assert ((q / 4096 =? 14) = (224 <=? q / 256) && negb (240 <=? q / 256)) as ->.
  { destruct (240 <=? q / 256) eqn:E; to_prop; cbn [negb];
    rewrite ?andb_false_r, ?andb_true_r; [apply Z.eqb_neq|]; [Z.to_euclidean_division_equations; lia|top_atom]. }
  assert ((224 <=? q / 256) = (224 <=? q / 256) && negb (240 <=? q / 256) || (240 <=? q / 256)) as Hsplit.
  { destruct (224 <=? q / 256) eqn:E1, (240 <=? q / 256) eqn:E2; try done; to_prop; lia. }
  rewrite Hsplit at 2. btauto.
Qed.

Lemma octet01_top ip :
  ipv4_ok ip ->
  octet 0 ip = (ip / 2 ^ 16) / 256 /\ octet 1 ip = (ip / 2 ^ 16) mod 256 /\
  0 <= ip / 2 ^ 16 < 65536.
Proof.
  unfold ipv4_ok, octet. replace (24 - 8 * 0) with 24 by lia. replace (24 - 8 * 1) with 16 by lia.
  change (2 ^ 32) with 4294967296. change (2 ^ 24) with 16777216. change (2 ^ 16) with 65536.
  intros H. rewrite Z.div_div by lia. change (65536 * 256) with 16777216.
  split_and!; [|done|apply Z.div_pos; lia|apply Z.div_lt_upper_bound; lia].
  apply Z.mod_small. split; [apply Z.div_pos; lia|apply Z.div_lt_upper_bound; lia].
Qed.

Lemma is_internal_v4_top ip : ipv4_ok ip -> is_internal_v4 ip = internal_top (ip / 2 ^ 16).
Proof.
  intros Hip. destruct (octet01_top ip Hip) as (H0 & H1 & Hq).
  unfold is_internal_v4, is_private, is_loopback_v4, is_link_local, is_multicast_v4,
    is_unspecified_v4, internal_top. rewrite H0, H1.
  destruct (ip =? 0) eqn:E0; to_prop; [by subst|]. rewrite orb_false_r.
  destruct (224 <=? ip / 2 ^ 16 / 256); btauto.
Qed.

Lemma deny_contains_top ip :
  ipv4_ok ip -> existsb (fun c => cidr_contains c ip) DEFAULT_DENY_CIDRS = deny_top (ip / 2 ^ 16).
Proof.
  intros Hip. unfold deny_top. pose proof parse_default_deny as Hp.
  apply traverse_ok_Forall2 in Hp.
  assert (Forall (fun c => prefix c <= 16) DEFAULT_DENY_CIDRS) as Hsmall
    by (repeat constructor; cbn; lia).
  revert Hsmall. induction Hp as [|s c ss cs Hc _ IH]; [done|].
  intros Hsmall. cbn [existsb]. f_equal; [|apply IH; by eapply Forall_inv_tail].
  apply Forall_inv in Hsmall. pose proof (parse_cidr_wf _ _ Hc) as Hwf.
  apply eq_bool_prop_intro. rewrite !Is_true_true, cidr_contains_iff by done.
  rewrite Z.eqb_eq, Z.div_div by (try apply Z.pow_nonzero; lia).
  destruct Hwf as [? _]. rewrite <- Z.pow_add_r by lia.
  by replace (16 + (16 - prefix c)) with (32 - prefix c) by lia.
Qed.

(** The default deny list covers exactly the addresses the SSRF policy calls
    internal. *)
Lemma default_deny_iff_internal ip :
  ipv4_ok ip ->
  existsb (fun c => cidr_contains c ip) DEFAULT_DENY_CIDRS = is_internal_v4 ip.
Proof.
  intros Hip. rewrite deny_contains_top, is_internal_v4_top by done.
  apply deny_top_internal_top. by destruct (octet01_top ip Hip) as (_ & _ & Hq).
Qed.

(** ** Lemmas on authorisation *)

Lemma check_allowed_ok policy addrs :
  check_allowed policy addrs = Ok tt <-> forall a, a ∈ addrs -> allows policy (fst a) = true.
Proof.
  induction addrs as [|[ip port] addrs IH]; cbn.
  { split; [|done]. intros _ a Ha. by apply elem_of_nil in Ha. }
  destruct (allows policy ip) eqn:E; cbn; rewrite ?IH.
  - setoid_rewrite elem_of_cons. split; [|by auto]. intros H a [->|Ha]; auto.
  - split; [done|]. intros H. specialize (H (ip, port) ltac:(set_solver)). cbn in H. congruence.
Qed.

Lemma resolve_authorized_ok lookup dest src store addrs :
  resolve_authorized lookup dest src store = Ok addrs <->
  exists policy, policy_for store src = Some policy /\
    resolve_destination lookup dest = Ok addrs /\
    forall a, a ∈ addrs -> allows policy (fst a) = true.
Proof.
  unfold resolve_authorized. split.
  - intros H. inv_ok. match goal with H : check_allowed _ _ = Ok ?u |- _ => destruct u end.
    eexists. split_and!; [done..|]. by apply check_allowed_ok.
  - intros (policy & -> & Hr & Ha). apply check_allowed_ok in Ha. cbn. rewrite Hr. cbn.
    by rewrite Ha.
Qed.

Lemma resolve_destination_not_nil lookup dest addrs :
  resolve_destination lookup dest = Ok addrs -> addrs <> [].
Proof.
  unfold resolve_destination. destruct (dest_host dest); [by intros [= <-]|].
  intros H. inv_ok. destruct (dedup _) eqn:E; [done|]. by simplify_eq.
Qed.

Lemma compile_sandboxes_err raws acc source raw :
  (source, raw) ∈ raws -> is_ok (compile_sandbox source raw) = false ->
  is_ok (compile_sandboxes raws acc) = false.
Proof.
  intros Hin Hbad. revert acc. induction raws as [|[s r] raws IH]; intros acc.
  { by apply elem_of_nil in Hin. }
  apply elem_of_cons in Hin as [[= <- <-]|Hin]; cbn [compile_sandboxes].
  - by destruct (compile_sandbox source raw) as [[ip p]|].
  - destruct (compile_sandbox s r) as [[ip p]|]; cbn; auto.
Qed.

Lemma compile_sandbox_bad_cidr source raw c e :
  c ∈ raw_allow_out raw ++ raw_deny_out raw -> parse_cidr c = Err e ->
  is_ok (compile_sandbox source raw) = false.
Proof.
  intros Hc He. unfold compile_sandbox, parse_cidrs.
  destruct (ok_or _ (parse_ipv4 source)); cbn; [|done].
  apply elem_of_app in Hc as [Hc|Hc].
  - pose proof (traverse_elem_err parse_cidr _ _ _ Hc He).
    by destruct (traverse parse_cidr (raw_allow_out raw)).
  - destruct (traverse parse_cidr (raw_allow_out raw)); cbn; [|done].
    pose proof (traverse_elem_err parse_cidr _ _ _ Hc He).
    by destruct (traverse parse_cidr (raw_deny_out raw)).
Qed.

(** A parsed deny list that includes the default ranges denies internal
    addresses. *)
Lemma deny_covers_internal raws cs ip :
  parse_cidrs raws = Ok cs -> (forall c, c ∈ DEFAULT_DENY_OUT -> c ∈ raws) ->
  ipv4_ok ip -> is_internal_v4 ip = true ->
  existsb (fun c => cidr_contains c ip) cs = true.
Proof.
  intros Hp Hsub Hip Hint. rewrite <- default_deny_iff_internal in Hint by done.
  apply existsb_exists' in Hint as (c & Hc & Hcon). apply existsb_exists'.
  pose proof parse_default_deny as Hd. apply traverse_ok_Forall2 in Hd, Hp.
  apply list_elem_of_lookup in Hc as [i Hi].
  destruct (Forall2_lookup_r _ _ _ _ _ Hd Hi) as (s & Hs & Hps).
  assert (s ∈ raws) as Hin by (apply Hsub, list_elem_of_lookup; eauto).
  apply list_elem_of_lookup in Hin as [j Hj].
  destruct (Forall2_lookup_l _ _ _ _ _ Hp Hj) as (c' & Hc' & Hps').
  rewrite Hps in Hps'. simplify_eq. exists c'. split; [|done].
  apply list_elem_of_lookup. eauto.
Qed.

(** ** Properties *)

(** The mask-and-compare test of a parsed CIDR block is membership of
    the interval the block denotes: the [2 ^ (32 - prefix)] addresses from
    its network address on, with no [u32] overflow at either end. *)
Theorem cidr_contains_interval (raw : string) (c : Ipv4Cidr) (ip : Z) :
  parse_cidr raw = Ok c -> ipv4_ok ip ->
  cidr_contains c ip = true <-> network c <= ip < network c + 2 ^ (32 - prefix c).
Proof.
  intros Hp%parse_cidr_wf Hip. rewrite cidr_contains_iff by done.
  destruct Hp as (Hpre & Hn & Hal).
  assert (0 < 2 ^ (32 - prefix c)) as Hpow by (apply Z.pow_pos_nonneg; lia).
  set (k := 2 ^ (32 - prefix c)) in *. split.
  - intros E. rewrite Hal, <- E. pose proof (Z.mod_pos_bound ip k Hpow).
    pose proof (Z.div_mod ip k ltac:(lia)). nia.
  - intros [Hlo Hhi]. symmetry. apply (Z.div_unique ip k (network c / k) (ip - network c)); lia.
Qed.

Lemma cidr_contains_interval_witness :
  exists c, parse_cidr "172.16.0.0/12" = Ok c /\
    (cidr_contains c 2887188490 = true <->
     network c <= 2887188490 < network c + 2 ^ (32 - prefix c)).
Proof.
  destruct (parse_cidr "172.16.0.0/12") as [c|] eqn:H; [|by vm_compute in H].
  exists c. split; [done|].
  apply (cidr_contains_interval "172.16.0.0/12" c 2887188490 H). unfold ipv4_ok. lia.
Defined.

(** C15. End to end: when the policy file carries the deny list a
    no-local-net or deny-list profile was resolved to, the egress proxy
    never lets that sandbox reach an internal address (RFC1918, loopback,
    link-local and cloud metadata, CGNAT, multicast, reserved). *)
Theorem proxy_blocks_internal (R : HostResolver) (policy : NetworkPolicy)
    (llm : option string) (rp : ResolvedPolicy) (source : string)
    (raw : RawSandboxPolicy) (src ip : Z) (p : SandboxPolicy) :
  resolve policy llm = Ok rp ->
  policy = NoLocalNet \/ (exists es, policy = Denylist es) ->
  raw_kind raw = kind_str policy ->
  (forall c, c ∈ deny_out rp -> c ∈ raw_deny_out raw) ->
  compile_sandbox source raw = Ok (src, p) ->
  ipv4_ok ip -> is_internal_v4 ip = true -> allows p ip = false.
Proof.
  intros Hres Hpol Hkind Hsub Hcomp Hip Hint. unfold compile_sandbox in Hcomp.
  apply result_bind_ok in Hcomp as (src' & _ & Hcomp).
  apply result_bind_ok in Hcomp as (al & _ & Hcomp).
  apply result_bind_ok in Hcomp as (de & Hde & Hcomp).
  apply result_bind_ok in Hcomp as (kind & Hk & Hcomp). simplify_eq.
  assert (existsb (fun c => cidr_contains c ip) de = true) as Hden.
  { eapply deny_covers_internal; [exact Hde| |done..].
    intros c Hc. apply Hsub. by eapply resolve_deny_base. }
  unfold allows. cbn [sp_deny_out sp_kind sp_allow_out]. rewrite Hden.
  rewrite Hkind in Hk. destruct Hpol as [->|[es ->]]; cbn in Hk; by simplify_eq.
Qed.

Lemma proxy_blocks_internal_witness :
  exists rp src p,
    @resolve example_resolver NoLocalNet None = Ok rp /\
    compile_sandbox "169.254.68.6" (mkRaw "i-1" "nolocalnet" [] (deny_out rp)) = Ok (src, p) /\
    allows p 2852039166 = false.
Proof.
  destruct (@resolve example_resolver NoLocalNet None) as [rp|] eqn:H; [|by vm_compute in H].
  destruct (compile_sandbox "169.254.68.6" (mkRaw "i-1" "nolocalnet" [] (deny_out rp)))
    as [[src p]|] eqn:Hc.
  2: { exfalso. vm_compute in H. injection H as <-. by vm_compute in Hc. }
  exists rp, src, p. split_and!; [done..|].
  apply (proxy_blocks_internal example_resolver NoLocalNet None rp "169.254.68.6"
    (mkRaw "i-1" "nolocalnet" [] (deny_out rp)) src 2852039166 p).
  - exact H.
  - by left.
  - reflexivity.
  - done.
  - exact Hc.
  - unfold ipv4_ok. lia.
  - vm_compute. reflexivity.
Defined.

(** An outcome without a panic whose connections the source may open. *)
Definition outcome_ok (store : option (gmap Z SandboxPolicy)) (src : IpAddr) (out : Outcome) :
  Prop :=
  response out <> Panic /\
  forall a, a ∈ attempts out ->
    exists policy, policy_for store src = Some policy /\ allows policy (fst a) = true.

Lemma outcome_ok_reply store src status text : outcome_ok store src (reply status text).
Proof. split; [done|]. intros a Ha. by apply elem_of_nil in Ha. Qed.

Lemma outcome_ok_single store src policy a req r :
  policy_for store src = Some policy -> allows policy (fst a) = true -> r <> Panic ->
  outcome_ok store src (mkOutcome [a] req r).
Proof. intros Hp Ha Hr. split; [done|]. cbn. intros x ->%list_elem_of_singleton. eauto. Qed.

Lemma resolve_authorized_head lookup dest src store addrs :
  resolve_authorized lookup dest src store = Ok addrs ->
  exists a rest policy, addrs = a :: rest /\ policy_for store src = Some policy /\
    allows policy (fst a) = true.
Proof.
  intros (policy & Hpol & Hd & Hall)%resolve_authorized_ok.
  destruct addrs as [|a addrs]; [by apply resolve_destination_not_nil in Hd|].
  exists a, addrs, policy. split_and!; [done..|]. apply Hall. set_solver.
Qed.

(** C1. Every upstream connection the proxy opens, for a plain request or a
    CONNECT tunnel, goes to an address that the policy of the requesting
    sandbox allows; the handler never indexes an empty address list. *)
Theorem handle_request_only_allowed
    (lookup : string -> Z -> result string (list SocketAddr))
    (to_str header_name : string -> option string) (connect : Z * Z -> bool)
    (parse_uri : string -> option Uri) (header_value_ok : string -> bool)
    (handshake : Z * Z -> bool) (send : Request -> option (Z * headers))
    (req : Request) (src : IpAddr) (store : option (gmap Z SandboxPolicy)) :
  outcome_ok store src
    (handle_request lookup to_str header_name connect parse_uri header_value_ok
       handshake send req src store).
Proof.
  unfold handle_request. destruct (req_http11 req); cbn [negb]; [|apply outcome_ok_reply].
  destruct (req_is_connect req); unfold handle_connect, handle_http.
  - destruct (from_connect_uri (req_uri req)) as [dest|]; [|apply outcome_ok_reply].
    destruct (resolve_authorized lookup dest src store) as [addrs|[?|?]] eqn:E;
      [|apply outcome_ok_reply..].
    apply resolve_authorized_head in E as (a & rest & policy & -> & ? & ?).
    by destruct (connect a); eapply outcome_ok_single.
  - destruct (from_absolute_uri (req_uri req)) as [dest|]; [|apply outcome_ok_reply].
    destruct (resolve_authorized lookup dest src store) as [addrs|[?|?]] eqn:E;
      [|apply outcome_ok_reply..].
    apply resolve_authorized_head in E as (a & rest & policy & -> & ? & ?).
    destruct (connect a); [cbn [negb]|by eapply outcome_ok_single].
    destruct (rewrite_to_origin_form _ _ _ _) as [req'|]; [|by eapply outcome_ok_single].
    destruct (handshake a); [cbn [negb]|by eapply outcome_ok_single].
    by destruct (send req') as [[? ?]|]; eapply outcome_ok_single.
Qed.

(** Fail closed: a request from a source without a policy (no file ever
    loaded, an unknown sandbox, or an IPv6 peer) opens no connection and is
    answered 400 or 403, whatever its destination. *)
Theorem unknown_source_denied
    (lookup : string -> Z -> result string (list SocketAddr))
    (to_str header_name : string -> option string) (connect : Z * Z -> bool)
    (parse_uri : string -> option Uri) (header_value_ok : string -> bool)
    (handshake : Z * Z -> bool) (send : Request -> option (Z * headers))
    (req : Request) (src : IpAddr) (store : option (gmap Z SandboxPolicy)) :
  policy_for store src = None ->
  handle_request lookup to_str header_name connect parse_uri header_value_ok
    handshake send req src store = reply 400 "bad request" \/
  handle_request lookup to_str header_name connect parse_uri header_value_ok
    handshake send req src store = reply 403 "egress denied".
Proof.
  intros Hnone.
  assert (forall dest, resolve_authorized lookup dest src store
            = Err (Denied "missing source sandbox policy")) as Hres.
  { intros dest. unfold resolve_authorized. by rewrite Hnone. }
  unfold handle_request, handle_connect, handle_http.
  destruct (req_http11 req); cbn [negb]; [|by left].
  destruct (req_is_connect req).
  - destruct (from_connect_uri (req_uri req)); [|by left]. rewrite Hres. by right.
  - destruct (from_absolute_uri (req_uri req)); [|by left]. rewrite Hres. by right.
Qed.

Lemma unknown_source_denied_witness :
  let req := mkRequest true true (mkUri None (Some (mkAuthority "1.1.1.1" (Some 443) "1.1.1.1:443")) None) [] in
  handle_request (fun _ _ => Err "") Some Some (fun _ => true) (fun _ => None) (fun _ => true)
    (fun _ => true) (fun _ => None) req (V4 1) None = reply 403 "egress denied".
Proof.
  intros req.
  destruct (unknown_source_denied (fun _ _ => Err "") Some Some (fun _ => true) (fun _ => None)
    (fun _ => true) (fun _ => true) (fun _ => None) req (V4 1) None eq_refl) as [H|H].
  - exfalso. by vm_compute in H.
  - exact H.
Defined.

(** [PolicyStore::reload] applied for each file content in turn. *)
Definition reloads (parse_json : string -> result string RawPolicyFile)
    (files : list (result string string)) (current : option (gmap Z SandboxPolicy)) :
  option (gmap Z SandboxPolicy) :=
  fold_left (fun cur f => fst (reload parse_json f cur)) files current.

(** The policy set a file content stands for, if it is valid. *)
Definition valid_set (parse_json : string -> result string RawPolicyFile)
    (f : result string string) : option (gmap Z SandboxPolicy) :=
  ok (text ← map_err LoadRead f; from_json_str parse_json text).

(** C33. Reloading keeps the last known-good policy: after any sequence of
    reload attempts (read errors, malformed JSON, unsupported versions and
    bad entries included) the proxy enforces the set of the last valid file,
    whole, and the initial one (none: fail closed) before there is any. *)
Theorem reload_last_known_good (parse_json : string -> result string RawPolicyFile)
    (files : list (result string string)) (current : option (gmap Z SandboxPolicy)) :
  reloads parse_json files current =
  match list.last (omap (valid_set parse_json) files) with
  | Some set => Some set
  | None => current
  end.
Proof.
  revert current. induction files as [|f files IH] using rev_ind; intros current; [done|].
  unfold reloads in *. rewrite fold_left_app, omap_app, list.last_app. cbn.
  rewrite IH. unfold valid_set, reload.
  destruct (_ ≫= _) as [set|e] eqn:E; cbn; [done|]. done.
Qed.

(** One entry can freeze everybody's policy: an entry such as 010.0.0.1
    is accepted by [validate_entry] (its octets are parsed as integers) but
    its canonical CIDR is refused by the proxy's stricter address parser, and
    a policy file with it in any sandbox's lists is rejected as a whole, so
    no sandbox's policy changes until it is gone. *)
Theorem accepted_entry_blocks_reload (parse_json : string -> result string RawPolicyFile)
    (text : string) (file : RawPolicyFile) (source : string) (raw : RawSandboxPolicy)
    (current : option (gmap Z SandboxPolicy)) :
  parse_json text = Ok file ->
  (source, raw) ∈ raw_sandboxes file ->
  "010.0.0.1/32" ∈ raw_allow_out raw ++ raw_deny_out raw ->
  validate_entry "010.0.0.1" = Ok (Cidr "010.0.0.1/32") /\
  exists e, reload parse_json (Ok text) current = (current, Err e).
Proof.
  intros Hp Hin Hc. split; [vm_compute; reflexivity|].
  assert (exists e, parse_cidr "010.0.0.1/32" = Err e) as [e He]
    by (eexists; vm_compute; reflexivity).
  pose proof (compile_sandboxes_err _ ∅ _ _ Hin
    (compile_sandbox_bad_cidr source raw _ _ Hc He)) as Hbad.
  unfold reload, from_json_str. cbn. rewrite Hp. cbn.
  destruct (raw_version file =? 1); cbn [negb]; [|eauto].
  destruct (compile_sandboxes (raw_sandboxes file) ∅); [done|eauto].
Qed.

Lemma accepted_entry_blocks_reload_witness :
  let raw := mkRaw "i-1" "allowlist" ["010.0.0.1/32"] [] in
  let file := mkRawFile 1 [("169.254.68.6", raw)] in
  exists e, reload (fun _ => Ok file) (Ok "x") (Some ∅) = (Some ∅, Err e).
Proof.
  intros raw file.
  apply (accepted_entry_blocks_reload (fun _ => Ok file) "x" file "169.254.68.6" raw (Some ∅));
    [reflexivity|cbn; set_solver|cbn; set_solver].
Defined.

(** Hop-by-hop headers never cross the proxy and nothing else is lost: a
    header survives stripping exactly when it is neither one of the nine
    fixed names nor named by a token of a Connection header. *)
Theorem strip_hop_headers_exact (to_str header_name : string -> option string)
    (hs : headers) (h : string * string) :
  h ∈ strip_hop_headers to_str header_name hs <->
  h ∈ hs /\ fst h ∉ HOP_HEADERS /\ fst h ∉ connection_tokens to_str header_name hs.
Proof.
  unfold strip_hop_headers. rewrite !fold_header_remove_elem. naive_solver.
Qed.

(** The proxy never serves more connections at once than the configured
    limit, which is at least one whatever the command line says. *)
Theorem serve_within_limit (arg : nat) (active : list nat) :
  serve_reachable arg active -> (length active <= Nat.max arg 1)%nat.
Proof.
  induction 1 as [|active ev _ IH]; cbn; [lia|]. destruct ev as [peer|peer]; cbn [serve_step].
  - case_match eqn:E; [|done]. apply Nat.ltb_lt in E. unfold effective_limit in E.
    cbn. lia.
  - etransitivity; [|exact IH]. apply length_filter.
Qed.

Lemma serve_within_limit_witness :
  serve_reachable 0 (serve_step 1 (serve_step 1 [] (Accept 7)) (Accept 8)) /\
  (length (serve_step 1 (serve_step 1 [] (Accept 7)) (Accept 8)) <= 1)%nat.
Proof.
  assert (serve_reachable 0 (serve_step 1 (serve_step 1 [] (Accept 7)) (Accept 8))) as H.
  { apply (serve_next 0), (serve_next 0), serve_init. }
  split; [exact H|]. exact (serve_within_limit 0 _ H).
Defined.
