(* ===== verification/LlmPolicy.v ===== *)
(** * LLM usage policy

    Models [crates/core/src/policy.rs] (the checks),
    [crates/swarm/src/proxy/policy_check.rs] (their composition) and
    [crates/core/src/db/sqlite/policies.rs] (the stored policies).  An [f64]
    is a [spec_float], so that NaN and the infinities are there. *)

From Stdlib Require Import ZArith Ascii Lia SpecFloat.
From stdpp Require Import base list strings gmap option.
From S2P Require Import Prelude RustStr Store Json.

Local Open Scope string_scope.
Local Open Scope list_scope.
Local Open Scope Z_scope.

(** [PolicyDenial] *)
Inductive PolicyDenial : Type :=
| ProviderNotAllowed
| ModelNotAllowed
| RpsExceeded
| DailyTokenBudgetExceeded
| MonthlyUsdBudgetExceeded.

#[global] Instance PolicyDenial_eq_dec : EqDecision PolicyDenial.
Proof. solve_decision. Defined.

(** [PolicyDenial::code] *)
Definition code (d : PolicyDenial) : string :=
  match d with
  | ProviderNotAllowed => "provider_not_allowed"
  | ModelNotAllowed => "model_not_allowed"
  | RpsExceeded => "rps_exceeded"
  | DailyTokenBudgetExceeded => "daily_token_budget_exceeded"
  | MonthlyUsdBudgetExceeded => "monthly_usd_budget_exceeded"
  end.

(** [provider_allowed] *)
Definition provider_allowed (allowed : list string) (provider : string) : bool :=
  existsb (fun p => (p =? "*")%string || (p =? provider)%string) allowed.

(** One entry of [model_allowed] *)
Definition model_matches (model m : string) : bool :=
  if (m =? "*")%string then true
  else match strip_suffix "*" m with
       | Some prefix => starts_with prefix model
       | None => (m =? model)%string
       end.

(** [model_allowed] *)
Definition model_allowed (allowed : list string) (model : string) : bool :=
  existsb (model_matches model) allowed.

(** [within_rps] *)
Definition within_rps (limit : option Z) (recent_rps : Z) : bool :=
  match limit with Some lim => recent_rps <? lim | None => true end.

(** [within_daily_token_budget] *)
Definition within_daily_token_budget (budget : option Z) (used_tokens : Z) : bool :=
  match budget with Some b => used_tokens <? b | None => true end.

(** [f64::is_finite] *)
Definition is_finite (x : spec_float) : bool :=
  match x with S754_zero _ | S754_finite _ _ _ => true | _ => false end.

(** [within_monthly_usd_budget] *)
Definition within_monthly_usd_budget (budget : option spec_float) (used_usd : spec_float) :
  bool :=
  match budget with Some b => is_finite used_usd && SFltb used_usd b | None => true end.

(** [PolicyRecord] *)
Record PolicyRecord : Type := mkPolicyRecord {
  allowed_providers : list string;
  allowed_models : list string;
  daily_token_budget : option Z;
  monthly_usd_budget : option spec_float;
  rps_limit : option Z
}.

(** [UsageSnapshot] *)
Record UsageSnapshot : Type := mkUsage {
  recent_rps : Z;
  daily_tokens : Z;
  monthly_usd : spec_float
}.

(** [enforce] *)
Definition enforce (policy : PolicyRecord) (usage : UsageSnapshot) (provider : string)
    (body : json) : result PolicyDenial unit :=
  if negb (provider_allowed (allowed_providers policy) provider)
  then Err ProviderNotAllowed
  else if negb (model_allowed (allowed_models policy) (default "" (get_str "model" body)))
  then Err ModelNotAllowed
  else if negb (within_rps (rps_limit policy) (recent_rps usage))
  then Err RpsExceeded
  else if negb (within_daily_token_budget (daily_token_budget policy) (daily_tokens usage))
  then Err DailyTokenBudgetExceeded
  else if negb (within_monthly_usd_budget (monthly_usd_budget policy) (monthly_usd usage))
  then Err MonthlyUsdBudgetExceeded
  else Ok tt.

(** ** Stored policies *)

(** [split_csv] *)
Definition split_csv (s : string) : list string :=
  filter (fun p => is_empty p = false) (map trim (split "," s)).

(** [join_csv] *)
Definition join_csv (items : list string) : string := join "," items.

(** A row of [user_policies]; [REAL] columns turn a NaN into NULL. *)
Record PolicyRow : Type := mkPolicyRow {
  col_providers : string;
  col_models : string;
  col_daily : option Z;
  col_monthly : option spec_float;
  col_rps : option Z
}.

Notation PolicyTable := (gmap string PolicyRow).

(** What SQLite keeps of a bound double. *)
Definition bind_real (x : option spec_float) : option spec_float :=
  match x with Some S754_nan => None | _ => x end.

(** [i64::try_from(n).unwrap_or(i64::MAX)] on a [u64] *)
Definition saturate_i64 (n : Z) : Z := if n <=? i64_max then n else i64_max.

(** [SqlitePolicyStore::put] *)
Definition policy_put (subject : string) (policy : PolicyRecord) (t : PolicyTable) :
  PolicyTable :=
  <[subject := mkPolicyRow
      (join_csv (allowed_providers policy)) (join_csv (allowed_models policy))
      (saturate_i64 <$> daily_token_budget policy)
      (bind_real (monthly_usd_budget policy))
      (rps_limit policy)]> t.

(** [SqlitePolicyStore::get] *)
Definition policy_get (subject : string) (t : PolicyTable) : option PolicyRecord :=
  (fun r => mkPolicyRecord
     (split_csv (col_providers r)) (split_csv (col_models r))
     ((fun n => Z.max n 0) <$> col_daily r)
     (col_monthly r)
     ((fun n => Z.max 0 (Z.min n u32_max)) <$> col_rps r)) <$> t !! subject.

(** ** Lemmas *)

Lemma provider_allowed_iff allowed provider :
  provider_allowed allowed provider = true <-> "*" ∈ allowed \/ provider ∈ allowed.
Proof.
  unfold provider_allowed. rewrite existsb_exists'. setoid_rewrite orb_true_iff.
  setoid_rewrite String.eqb_eq. naive_solver.
Qed.

(** An entry matches when it is the model, or a prefix of it and a star. *)
Lemma model_matches_iff model m :
  model_matches model m = true <->
    m = model /\ strip_suffix "*" m = None \/
    exists prefix rest, m = prefix +:+ "*" /\ model = prefix +:+ rest.
Proof.
  unfold model_matches. destruct (m =? "*")%string eqn:E.
  { apply String.eqb_eq in E as ->. split; [|done]. intros _. right.
    exists "", model. done. }
  destruct (strip_suffix "*" m) as [p|] eqn:Hs.
  - apply strip_suffix_some in Hs. rewrite starts_with_app. split.
    + intros [t ->]. right. by exists p, t.
    + intros [[_ ?]|(q & r & Hq & ->)]; [done|]. exists r.
      assert (strip_suffix "*" m = Some p) as H1 by by apply strip_suffix_some.
      assert (strip_suffix "*" m = Some q) as H2 by by apply strip_suffix_some.
      congruence.
  - rewrite String.eqb_eq. split; [by auto|]. intros [[? _]|(q & r & Hq & _)]; [done|].
    assert (strip_suffix "*" m = Some q) as H2 by by apply strip_suffix_some. congruence.
Qed.

Lemma model_allowed_iff allowed model :
  model_allowed allowed model = true <->
    exists m, m ∈ allowed /\ model_matches model m = true.
Proof. unfold model_allowed. by rewrite existsb_exists'. Qed.

(** What a policy admits, as one condition. *)
Definition admits (policy : PolicyRecord) (usage : UsageSnapshot) (provider model : string) :
  Prop :=
  ("*" ∈ allowed_providers policy \/ provider ∈ allowed_providers policy) /\
  (exists m, m ∈ allowed_models policy /\
     (m = model /\ strip_suffix "*" m = None \/
      exists prefix rest, m = prefix +:+ "*" /\ model = prefix +:+ rest)) /\
  (forall lim, rps_limit policy = Some lim -> recent_rps usage < lim) /\
  (forall b, daily_token_budget policy = Some b -> daily_tokens usage < b) /\
  (forall b, monthly_usd_budget policy = Some b ->
     is_finite (monthly_usd usage) = true /\ SFltb (monthly_usd usage) b = true).

Lemma within_opt_iff (limit : option Z) (used : Z) :
  match limit with Some lim => used <? lim | None => true end = true <->
  forall lim, limit = Some lim -> used < lim.
Proof. destruct limit; [rewrite Z.ltb_lt|]; naive_solver. Qed.

Lemma within_monthly_iff budget used :
  within_monthly_usd_budget budget used = true <->
  forall b, budget = Some b -> is_finite used = true /\ SFltb used b = true.
Proof. destruct budget; cbn; [rewrite andb_true_iff|]; naive_solver. Qed.

Lemma enforce_ok_checks policy usage provider body :
  enforce policy usage provider body = Ok tt <->
    provider_allowed (allowed_providers policy) provider = true /\
    model_allowed (allowed_models policy) (default "" (get_str "model" body)) = true /\
    within_rps (rps_limit policy) (recent_rps usage) = true /\
    within_daily_token_budget (daily_token_budget policy) (daily_tokens usage) = true /\
    within_monthly_usd_budget (monthly_usd_budget policy) (monthly_usd usage) = true.
Proof.
  unfold enforce.
  repeat match goal with |- context [if negb ?b then _ else _] => destruct b; cbn end;
    naive_solver.
Qed.

Lemma enforce_admits policy usage provider body :
  enforce policy usage provider body = Ok tt <->
  admits policy usage provider (default "" (get_str "model" body)).
Proof.
  rewrite enforce_ok_checks. unfold admits, within_rps, within_daily_token_budget.
  rewrite provider_allowed_iff, model_allowed_iff, !within_opt_iff, within_monthly_iff.
  by setoid_rewrite model_matches_iff.
Qed.

(** C35. The LLM gate lets a request through exactly when the provider is
    listed (or ["*"] is), some model entry is the model or a ["*"]-terminated
    prefix of it, the request count and the day's tokens are strictly below
    their limits and the month's spend is a finite number below its budget;
    a request body without a string ["model"] counts as the empty model. *)
Theorem enforce_ok_iff (policy : PolicyRecord) (usage : UsageSnapshot) (provider : string)
    (body : json) :
  enforce policy usage provider body = Ok tt <->
  admits policy usage provider (default "" (get_str "model" body)).
Proof. apply enforce_admits. Qed.

(** ** Stored policies round trip *)

(** An item that survives the comma-separated column. *)
Definition csv_clean (s : string) : Prop := no_char "," s /\ trim s = s /\ s <> "".

Lemma split_csv_join items : Forall csv_clean items -> split_csv (join_csv items) = items.
Proof.
  intros Hc. unfold split_csv, join_csv.
  destruct (decide (items = [])) as [->|Hne]; [reflexivity|].
  rewrite split_join; [|done|].
  - clear Hne. induction Hc as [|j l (_ & Ht & Hne) _ IH]; [done|].
    cbn [map]. rewrite Ht, filter_cons. destruct (decide _) as [_|Hn].
    + f_equal. exact IH.
    + destruct j; [done|]. by cbn in Hn.
  - eapply Forall_impl; [|exact Hc]. by intros s (Hs & _).
Qed.

(** A stored policy is read back as it was written, the daily budget
    capped at the largest [i64], when no list item holds a comma, outer
    white space or nothing and no budget is NaN; other subjects keep theirs. *)
Theorem policy_get_put (subject other : string) (policy : PolicyRecord) (t : PolicyTable)
    (Hp : Forall csv_clean (allowed_providers policy))
    (Hm : Forall csv_clean (allowed_models policy))
    (Hd : forall n, daily_token_budget policy = Some n -> 0 <= n <= u64_max)
    (Hr : forall n, rps_limit policy = Some n -> 0 <= n <= u32_max)
    (Hnan : monthly_usd_budget policy <> Some S754_nan) :
  policy_get other (policy_put subject policy t) =
    if decide (other = subject)
    then Some (mkPolicyRecord (allowed_providers policy) (allowed_models policy)
                 (Z.min i64_max <$> daily_token_budget policy)
                 (monthly_usd_budget policy) (rps_limit policy))
    else policy_get other t.
Proof.
  unfold policy_get, policy_put. destruct (decide (other = subject)) as [->|Hne].
  - rewrite lookup_insert_eq.
    cbn [fmap option_fmap option_map col_providers col_models col_daily col_monthly col_rps].
    rewrite !split_csv_join by done. do 2 f_equal.
    + destruct (daily_token_budget policy) as [n|]; [|done]. cbn. f_equal.
      specialize (Hd n eq_refl). unfold saturate_i64, i64_max in *. case_match; to_prop; lia.
    + destruct (monthly_usd_budget policy) as [[]|]; done.
    + destruct (rps_limit policy) as [n|]; [|done]. cbn. f_equal.
      specialize (Hr n eq_refl). lia.
  - by rewrite lookup_insert_ne by done.
Qed.

Definition example_policy : PolicyRecord :=
  mkPolicyRecord ["openai"; "anthropic"] ["gpt-4o*"] (Some u64_max) None (Some 10).

Lemma policy_get_put_witness :
  policy_get "u1" (policy_put "u1" example_policy ∅) =
    Some (mkPolicyRecord ["openai"; "anthropic"] ["gpt-4o*"] (Some i64_max) None (Some 10)).
Proof.
  rewrite (policy_get_put "u1" "u1" example_policy ∅).
  - reflexivity.
  - repeat constructor; done.
  - repeat constructor; done.
  - cbn. intros n [= <-]. unfold u64_max. lia.
  - cbn. intros n [= <-]. unfold u32_max. lia.
  - done.
Defined.
