(* ===== verification/InstanceStore.v ===== *)
(** * What the instance store promises

    The contract of [InstanceStore] ([crates/core/src/traits.rs]): a table of
    decoded rows with one function per method.  [InstanceSqlite] proves that
    the SQLite store implements it; the services that use the store are
    verified against it.  [ORDER BY created_at DESC] is a stable sort: SQL
    leaves the order of ties open. *)

From Stdlib Require Import ZArith Ascii Lia.
From stdpp Require Import base list strings gmap option.
From S2P Require Import Prelude RustStr Store NetworkPolicy Traits.

Local Open Scope string_scope.
Local Open Scope list_scope.
Local Open Scope Z_scope.

Abbreviation Instances := (list InstanceRow).

Definition by_id (id : string) (r : InstanceRow) : bool := (ir_id r =? id)%string.
Definition not_destroyed (r : InstanceRow) : bool := bool_decide (ir_status r <> Destroyed).

(** [get] *)
Definition instance_get (id : string) (t : Instances) : option InstanceRow :=
  select_one (by_id id) t.

(** [get_for_owner]: ["*"] is the system bypass. *)
Definition instance_get_for_owner (owner_id id : string) (t : Instances) : option InstanceRow :=
  select_one (fun r => by_id id r && ((owner_id =? "*")%string || (ir_owner_id r =? owner_id)%string)) t.

(** [create] *)
Definition instance_create (row : InstanceRow) (t : Instances) : Instances * result StoreError unit :=
  match instance_get (ir_id row) t with
  | Some _ => (t, Err (Constraint "UNIQUE constraint failed: instances.id"))
  | None => (t ++ [row], Ok tt)
  end.

(** The owner's rows that count against the quota *)
Definition active_rows (owner_id : string) (t : Instances) : list InstanceRow :=
  select (fun r => (ir_owner_id r =? owner_id)%string && not_destroyed r) t.

(** [create_with_owner_limit]: one transaction *)
Definition create_with_owner_limit (row : InstanceRow) (limit : Z) (t : Instances) :
  Instances * result StoreError bool :=
  if limit <=? Z.of_nat (length (active_rows (ir_owner_id row) t)) then (t, Ok false)
  else match instance_create row t with
       | (t', Ok _) => (t', Ok true)
       | (t', Err e) => (t', Err e)
       end.

(** [ORDER BY created_at DESC] *)
Definition newest_first : list InstanceRow -> list InstanceRow :=
  sort (fun a b => ir_created_at b <=? ir_created_at a).

(** [list] *)
Definition instance_list (owner_id : string) (f : ListFilter) (t : Instances) : list InstanceRow :=
  newest_first (select (fun r =>
    ((owner_id =? "*")%string || (ir_owner_id r =? owner_id)%string)
    && match lf_status f with Some s => bool_decide (ir_status r = s) | None => true end
    && (lf_include_destroyed f || not_destroyed r)) t).

(** An [UPDATE] that reports [NotFound] when it matched nothing *)
Definition update_found (p : InstanceRow -> bool) (f : InstanceRow -> InstanceRow) (t : Instances) :
  Instances * result StoreError unit :=
  if Nat.eqb (affected p t) 0 then (t, Err NotFound) else (update p f t, Ok tt).

(** [set_cube_sandbox_id] *)
Definition set_cube_sandbox_id (id sandbox_id : string) : Instances -> Instances * result StoreError unit :=
  update_found (by_id id) (fun r => mkInstanceRow (ir_id r) (ir_owner_id r) (ir_name r) (ir_task r)
    (Some sandbox_id) (ir_state_generation r) (ir_template_id r) (ir_status r) (ir_bearer_token r)
    (ir_pinned r) (ir_expires_at r) (ir_last_active_at r) (ir_last_probe_at r)
    (ir_last_probe_status r) (ir_created_at r) (ir_destroyed_at r) (ir_rotated_to r)
    (ir_network_policy r) (ir_network_policy_cidrs r) (ir_models r) (ir_tools r)).

(** [update_status]; [now] is its clock reading. *)
Definition update_status (id : string) (status : InstanceStatus) (now : Z) :
  Instances -> Instances * result StoreError unit :=
  update_found (by_id id) (fun r => mkInstanceRow (ir_id r) (ir_owner_id r) (ir_name r) (ir_task r)
    (ir_cube_sandbox_id r) (ir_state_generation r) (ir_template_id r) status (ir_bearer_token r)
    (ir_pinned r) (ir_expires_at r) (ir_last_active_at r) (ir_last_probe_at r)
    (ir_last_probe_status r) (ir_created_at r)
    (if bool_decide (status = Destroyed) then Some now else ir_destroyed_at r) (ir_rotated_to r)
    (ir_network_policy r) (ir_network_policy_cidrs r) (ir_models r) (ir_tools r)).

(** [touch] *)
Definition instance_touch (id : string) (now : Z) : Instances -> Instances * result StoreError unit :=
  update_found (by_id id) (fun r => mkInstanceRow (ir_id r) (ir_owner_id r) (ir_name r) (ir_task r)
    (ir_cube_sandbox_id r) (ir_state_generation r) (ir_template_id r) (ir_status r)
    (ir_bearer_token r) (ir_pinned r) (ir_expires_at r) now (ir_last_probe_at r)
    (ir_last_probe_status r) (ir_created_at r) (ir_destroyed_at r) (ir_rotated_to r)
    (ir_network_policy r) (ir_network_policy_cidrs r) (ir_models r) (ir_tools r)).

(** [update_identity] *)
Definition update_identity (owner_id id name task : string) :
  Instances -> Instances * result StoreError unit :=
  update_found
    (fun r => by_id id r && ((owner_id =? "*")%string || (ir_owner_id r =? owner_id)%string))
    (fun r => mkInstanceRow (ir_id r) (ir_owner_id r) name task (ir_cube_sandbox_id r)
       (ir_state_generation r) (ir_template_id r) (ir_status r) (ir_bearer_token r) (ir_pinned r)
       (ir_expires_at r) (ir_last_active_at r) (ir_last_probe_at r) (ir_last_probe_status r)
       (ir_created_at r) (ir_destroyed_at r) (ir_rotated_to r) (ir_network_policy r)
       (ir_network_policy_cidrs r) (ir_models r) (ir_tools r)).

(** [pin] *)
Definition instance_pin (id : string) (pinned : bool) (ttl : option Z) (now : Z) :
  Instances -> Instances * result StoreError unit :=
  let expires_at := if pinned then None else (fun t => wrap_i64 (now + t)) <$> ttl in
  update_found (by_id id) (fun r => mkInstanceRow (ir_id r) (ir_owner_id r) (ir_name r) (ir_task r)
    (ir_cube_sandbox_id r) (ir_state_generation r) (ir_template_id r) (ir_status r)
    (ir_bearer_token r) pinned expires_at (ir_last_active_at r) (ir_last_probe_at r)
    (ir_last_probe_status r) (ir_created_at r) (ir_destroyed_at r) (ir_rotated_to r)
    (ir_network_policy r) (ir_network_policy_cidrs r) (ir_models r) (ir_tools r)).

(** A row that is still there for the methods that refuse destroyed rows *)
Definition by_live_id (id : string) (r : InstanceRow) : bool := by_id id r && not_destroyed r.

(** [record_probe] *)
Definition record_probe (id : string) (status : ProbeResult) (now : Z) :
  Instances -> Instances * result StoreError unit :=
  update_found (by_live_id id) (fun r =>
    mkInstanceRow (ir_id r) (ir_owner_id r) (ir_name r) (ir_task r) (ir_cube_sandbox_id r)
    (ir_state_generation r) (ir_template_id r) (ir_status r) (ir_bearer_token r) (ir_pinned r)
    (ir_expires_at r) (ir_last_active_at r) (Some now) (Some status) (ir_created_at r)
    (ir_destroyed_at r) (ir_rotated_to r) (ir_network_policy r) (ir_network_policy_cidrs r)
    (ir_models r) (ir_tools r)).

(** [set_rotated_to] *)
Definition set_rotated_to (id target_id : string) : Instances -> Instances * result StoreError unit :=
  update_found (by_live_id id) (fun r =>
    mkInstanceRow (ir_id r) (ir_owner_id r) (ir_name r) (ir_task r) (ir_cube_sandbox_id r)
    (ir_state_generation r) (ir_template_id r) (ir_status r) (ir_bearer_token r) (ir_pinned r)
    (ir_expires_at r) (ir_last_active_at r) (ir_last_probe_at r) (ir_last_probe_status r)
    (ir_created_at r) (ir_destroyed_at r) (Some target_id) (ir_network_policy r)
    (ir_network_policy_cidrs r) (ir_models r) (ir_tools r)).

(** [set_models] *)
Definition set_models (id : string) (models : list string) :
  Instances -> Instances * result StoreError unit :=
  update_found (by_live_id id) (fun r =>
    mkInstanceRow (ir_id r) (ir_owner_id r) (ir_name r) (ir_task r) (ir_cube_sandbox_id r)
    (ir_state_generation r) (ir_template_id r) (ir_status r) (ir_bearer_token r) (ir_pinned r)
    (ir_expires_at r) (ir_last_active_at r) (ir_last_probe_at r) (ir_last_probe_status r)
    (ir_created_at r) (ir_destroyed_at r) (ir_rotated_to r) (ir_network_policy r)
    (ir_network_policy_cidrs r) models (ir_tools r)).

(** [set_tools] *)
Definition set_tools (id : string) (tools : list string) :
  Instances -> Instances * result StoreError unit :=
  update_found (by_live_id id) (fun r =>
    mkInstanceRow (ir_id r) (ir_owner_id r) (ir_name r) (ir_task r) (ir_cube_sandbox_id r)
    (ir_state_generation r) (ir_template_id r) (ir_status r) (ir_bearer_token r) (ir_pinned r)
    (ir_expires_at r) (ir_last_active_at r) (ir_last_probe_at r) (ir_last_probe_status r)
    (ir_created_at r) (ir_destroyed_at r) (ir_rotated_to r) (ir_network_policy r)
    (ir_network_policy_cidrs r) (ir_models r) tools).

(** [replace_cube_sandbox] *)
Definition replace_cube_sandbox (id sandbox generation template : string) (policy : NetworkPolicy)
    (cidrs : list string) (now : Z) : Instances -> Instances * result StoreError unit :=
  update_found (by_id id) (fun r => mkInstanceRow (ir_id r) (ir_owner_id r) (ir_name r) (ir_task r)
    (Some sandbox) generation template Configuring (ir_bearer_token r) (ir_pinned r)
    (ir_expires_at r) now None None (ir_created_at r) (ir_destroyed_at r) None policy cidrs
    (ir_models r) (ir_tools r)).

(** [expired] *)
Definition is_expired (now : Z) (r : InstanceRow) : bool :=
  negb (ir_pinned r)
  && match ir_expires_at r with Some e => e <? now | None => false end
  && not_destroyed r.
Definition instance_expired (now : Z) (t : Instances) : list InstanceRow := select (is_expired now) t.

(** ** The operations as data *)

Inductive StoreOp : Type :=
| OpCreate (row : InstanceRow)
| OpCreateLimit (row : InstanceRow) (limit : Z)
| OpSetSandbox (id sandbox_id : string)
| OpUpdateStatus (id : string) (status : InstanceStatus) (now : Z)
| OpTouch (id : string) (now : Z)
| OpUpdateIdentity (owner_id id name task : string)
| OpPin (id : string) (pinned : bool) (ttl : option Z) (now : Z)
| OpRecordProbe (id : string) (status : ProbeResult) (now : Z)
| OpSetRotatedTo (id target_id : string)
| OpSetModels (id : string) (models : list string)
| OpSetTools (id : string) (tools : list string)
| OpReplaceSandbox (id sandbox generation template : string) (policy : NetworkPolicy)
    (cidrs : list string) (now : Z).

(** Every method but [create_with_owner_limit] answers [()]. *)
Definition as_true {W E} (r : W * result E unit) : W * result E bool := (r.1, (fun _ => true) <$> r.2).

Definition spec_run (op : StoreOp) (t : Instances) : Instances * result StoreError bool :=
  match op with
  | OpCreate row => as_true (instance_create row t)
  | OpCreateLimit row limit => create_with_owner_limit row limit t
  | OpSetSandbox id s => as_true (set_cube_sandbox_id id s t)
  | OpUpdateStatus id s now => as_true (update_status id s now t)
  | OpTouch id now => as_true (instance_touch id now t)
  | OpUpdateIdentity o id n k => as_true (update_identity o id n k t)
  | OpPin id p ttl now => as_true (instance_pin id p ttl now t)
  | OpRecordProbe id s now => as_true (record_probe id s now t)
  | OpSetRotatedTo id x => as_true (set_rotated_to id x t)
  | OpSetModels id m => as_true (set_models id m t)
  | OpSetTools id m => as_true (set_tools id m t)
  | OpReplaceSandbox id s g k p c now => as_true (replace_cube_sandbox id s g k p c now t)
  end.

(** Ids are unique. *)
Definition instances_wf (t : Instances) : Prop := NoDup (map ir_id t).

Lemma by_id_get (id : string) t r :
  instances_wf t -> r ∈ t -> by_id id r = true -> instance_get id t = Some r.
Proof.
  intros Hn Hr Hb. apply select_one_unique; [done..|]. intros r' Hr' Hb'.
  unfold by_id in *. to_prop. subst id.
  by apply (NoDup_map_inj ir_id t).
Qed.

Definition example_row (id owner : string) : InstanceRow :=
  mkInstanceRow id owner "n" "t" None "g1" "tpl" Configuring "tok" false (Some 100) 0 None None 0 None
    None (Allowlist ["example.com"]) ["1.2.3.4/32"] ["m1"] [].
