(* ===== verification/InstanceSqlite.v ===== *)
(** * The SQLite instance store

    Models [crates/core/src/db/sqlite/instances.rs]: the row codec (a row
    against the text columns it is kept in, its bearer sealed), one function
    per method over the table of columns, and the proof that the store
    implements the contract of [InstanceStore]. *)

From Stdlib Require Import ZArith Ascii Lia.
From stdpp Require Import base list strings gmap option.
From S2P Require Import Prelude RustStr Codec Store NetworkPolicy Traits Envelope LlmPolicy InstanceStore.

Local Open Scope string_scope.
Local Open Scope list_scope.
Local Open Scope Z_scope.

(** ** The row codec *)

(** [csv_to_vec], [vec_to_csv] *)
Definition csv_to_vec (s : string) : list string :=
  if is_empty s then []
  else filter (fun p => is_empty p = false) (map trim (split "," s)).
Definition vec_to_csv (v : list string) : string := join "," v.

(** [decode_policy] *)
Definition decode_policy (kind entries_csv cidrs_csv : string) : NetworkPolicy * list string :=
  let entries := csv_to_vec entries_csv in
  let policy :=
    if (kind =? "airgap")%string then Airgap
    else if (kind =? "allowlist")%string then Allowlist entries
    else if (kind =? "denylist")%string then Denylist entries
    else if (kind =? "open")%string then Open
    else NoLocalNet in
  (policy, csv_to_vec cidrs_csv).

(** The columns of [instances] *)
Record InstanceColumns : Type := mkColumns {
  co_id : string;
  co_owner_id : string;
  co_name : string;
  co_task : string;
  co_cube_sandbox_id : option string;
  co_state_generation : string;
  co_template_id : string;
  co_status : string;
  co_bearer_token : string;
  co_pinned : Z;
  co_expires_at : option Z;
  co_last_active_at : Z;
  co_last_probe_at : option Z;
  co_last_probe_status : option string;
  co_created_at : Z;
  co_destroyed_at : option Z;
  co_rotated_to : option string;
  co_policy_kind : string;
  co_policy_entries : string;
  co_policy_cidrs : string;
  co_models : string;
  co_tools : string
}.

Abbreviation InstanceTable := (list InstanceColumns).

(** serde_json on the JSON columns *)
Class RowCodec : Type := {
  probe_to_string : ProbeResult -> result string string;
  probe_from_str : string -> result string ProbeResult;
  strs_to_string : list string -> result string string;
  strs_from_str : string -> result string (list string)
}.
Class RowCodecOk (c : RowCodec) : Prop := {
  probe_round_trip : forall p, exists s, probe_to_string p = Ok s /\ probe_from_str s = Ok p;
  strs_round_trip : forall l, exists s, strs_to_string l = Ok s /\ strs_from_str s = Ok l
}.

(** [instance_bearer_context] *)
Definition instance_bearer_context (id owner_id : string) : KmsContext :=
  mkContext RuntimeToken (Some owner_id) (Some id) (Some "instance_bearer").

Section codec.
Context {codec : EnvelopeCodec} {rc : RowCodec}.
(** [cipher] and [ciphers] of [SqlxInstanceStore] *)
Context (cipher : EnvelopeCipher) (ciphers : option CipherDirectory).

(** [seal_bearer] *)
Definition seal_bearer (sr : SealRun) (id owner_id bearer : string) : result StoreError string :=
  match ciphers with
  | Some dir =>
      map_err (fun _ => Io "seal instance bearer")
        (seal_context_as_string (dir := dir) sr (instance_bearer_context id owner_id) bearer)
  | None =>
      sealed ← map_err (fun _ => Io "seal instance bearer")
                 (cipher_seal cipher (sr_entropy sr) bearer);
      ok_or (Malformed "sealed instance bearer was not utf-8") (from_utf8 sealed)
  end.

(** [open_bearer] *)
Definition open_bearer (id owner_id stored : string) : result StoreError string :=
  match ciphers with
  | Some dir =>
      opened ← map_err (fun _ => Malformed "open instance bearer")
                 (open_context (dir := dir) (instance_bearer_context id owner_id) stored);
      ok_or (Malformed "instance bearer plaintext was not utf-8") (from_utf8 (op_plaintext opened))
  | None =>
      plain ← map_err (fun _ => Malformed "open instance bearer") (cipher_open cipher stored);
      ok_or (Malformed "instance bearer plaintext was not utf-8") (from_utf8 plain)
  end.

(** [EncodedInstanceInsert] *)
Record EncodedInstanceInsert : Type := mkEncoded {
  ei_probe_json : option string;
  ei_kind : string;
  ei_entries_csv : string;
  ei_cidrs_csv : string;
  ei_models_json : string;
  ei_tools_json : string;
  ei_bearer_token : string
}.

(** [encode_instance_insert] *)
Definition encode_instance_insert (sr : SealRun) (row : InstanceRow) :
  result StoreError EncodedInstanceInsert :=
  probe_json ← match ir_last_probe_status row with
               | Some p => s ← map_err Io (probe_to_string p); Ok (Some s)
               | None => Ok None
               end;
  models_json ← map_err (fun e => Io ("models encode: " +:+ e)) (strs_to_string (ir_models row));
  tools_json ← map_err (fun e => Io ("tools encode: " +:+ e)) (strs_to_string (ir_tools row));
  bearer_token ← seal_bearer sr (ir_id row) (ir_owner_id row) (ir_bearer_token row);
  Ok (mkEncoded probe_json (kind_str (ir_network_policy row))
        (vec_to_csv (policy_entries (ir_network_policy row)))
        (vec_to_csv (ir_network_policy_cidrs row)) models_json tools_json bearer_token).

(** The bindings of [insert_instance_row] *)
Definition bind_columns (row : InstanceRow) (e : EncodedInstanceInsert) : InstanceColumns :=
  mkColumns (ir_id row) (ir_owner_id row) (ir_name row) (ir_task row) (ir_cube_sandbox_id row)
    (ir_state_generation row) (ir_template_id row) (status_str (ir_status row)) (ei_bearer_token e)
    (if ir_pinned row then 1 else 0) (ir_expires_at row) (ir_last_active_at row)
    (ir_last_probe_at row) (ei_probe_json e) (ir_created_at row) (ir_destroyed_at row)
    (ir_rotated_to row) (ei_kind e) (ei_entries_csv e) (ei_cidrs_csv e) (ei_models_json e)
    (ei_tools_json e).

Definition decode_probe (c : option string) : result StoreError (option ProbeResult) :=
  match c with
  | Some t => p ← map_err (fun e => Malformed ("last_probe_status: " +:+ e)) (probe_from_str t);
              Ok (Some p)
  | None => Ok None
  end.

(** [row_to_instance] *)
Definition row_to_instance (c : InstanceColumns) : result StoreError InstanceRow :=
  status ← ok_or (Malformed ("status=" +:+ co_status c)) (status_parse (co_status c));
  last_probe_status ← decode_probe (co_last_probe_status c);
  let '(network_policy, network_policy_cidrs) :=
    decode_policy (co_policy_kind c) (co_policy_entries c) (co_policy_cidrs c) in
  models ← map_err (fun e => Malformed ("models: " +:+ e)) (strs_from_str (co_models c));
  tools ← map_err (fun e => Malformed ("tools: " +:+ e)) (strs_from_str (co_tools c));
  bearer ← open_bearer (co_id c) (co_owner_id c) (co_bearer_token c);
  Ok (mkInstanceRow (co_id c) (co_owner_id c) (co_name c) (co_task c) (co_cube_sandbox_id c)
        (co_state_generation c) (co_template_id c) status bearer (negb (co_pinned c =? 0))
        (co_expires_at c) (co_last_active_at c) (co_last_probe_at c) last_probe_status
        (co_created_at c) (co_destroyed_at c) (co_rotated_to c) network_policy
        network_policy_cidrs models tools).

(** ** The store's methods *)

(** [insert_instance_row]: the primary key rejects a second row of the same id. *)
Definition insert_instance_row (row : InstanceRow) (e : EncodedInstanceInsert) :
  svc InstanceTable StoreError unit :=
  fun t => if Nat.eqb (affected (fun c => (co_id c =? ir_id row)%string) t) 0
           then (t ++ [bind_columns row e], Ok tt)
           else (t, Err (Constraint "UNIQUE constraint failed: instances.id")).

(** [create] *)
Definition sql_create (sr : SealRun) (row : InstanceRow) : svc InstanceTable StoreError unit :=
  encoded ← lift (encode_instance_insert sr row);
  insert_instance_row row encoded.

(** The [COUNT] of [create_with_owner_limit] *)
Definition sql_active (owner_id : string) (c : InstanceColumns) : bool :=
  (co_owner_id c =? owner_id)%string && negb (co_status c =? "destroyed")%string.

(** [create_with_owner_limit]: count and insert in one [BEGIN IMMEDIATE]
    transaction, rolled back on every early return *)
Definition sql_create_with_owner_limit (sr : SealRun) (row : InstanceRow) (limit : Z) :
  svc InstanceTable StoreError bool :=
  encoded ← lift (encode_instance_insert sr row);
  count ← gets (fun t => Z.of_nat (affected (sql_active (ir_owner_id row)) t));
  if limit <=? count then mret false
  else _ ← insert_instance_row row encoded; mret true.

Definition sql_by_id (id : string) (c : InstanceColumns) : bool := (co_id c =? id)%string.
Definition sql_owned (owner_id id : string) (c : InstanceColumns) : bool :=
  (co_id c =? id)%string && ((owner_id =? "*")%string || (co_owner_id c =? owner_id)%string).
Definition sql_live (id : string) (c : InstanceColumns) : bool :=
  (co_id c =? id)%string && negb (co_status c =? "destroyed")%string.

Definition decode_one (c : option InstanceColumns) : result StoreError (option InstanceRow) :=
  match c with
  | Some c => r ← row_to_instance c; Ok (Some r)
  | None => Ok None
  end.

(** [get] *)
Definition sql_get (id : string) (t : InstanceTable) : result StoreError (option InstanceRow) :=
  decode_one (select_one (sql_by_id id) t).

(** [get_for_owner] *)
Definition sql_get_for_owner (owner_id id : string) (t : InstanceTable) :
  result StoreError (option InstanceRow) :=
  decode_one (select_one (sql_owned owner_id id) t).

(** [list] *)
Definition sql_list (owner_id : string) (f : ListFilter) (t : InstanceTable) :
  result StoreError (list InstanceRow) :=
  traverse row_to_instance
    (sort (fun a b => co_created_at b <=? co_created_at a)
       (select (fun c =>
          ((owner_id =? "*")%string || (co_owner_id c =? owner_id)%string)
          && match lf_status f with Some s => (co_status c =? status_str s)%string | None => true end
          && (lf_include_destroyed f || negb (co_status c =? "destroyed")%string)) t)).

(** [expired] *)
Definition sql_expired (now : Z) (t : InstanceTable) : result StoreError (list InstanceRow) :=
  traverse row_to_instance
    (select (fun c => (co_pinned c =? 0)
       && match co_expires_at c with Some e => e <? now | None => false end
       && negb (co_status c =? "destroyed")%string) t).

(** An [UPDATE] whose method reports [NotFound] when it matched nothing *)
Definition sql_update (p : InstanceColumns -> bool) (f : InstanceColumns -> InstanceColumns) :
  svc InstanceTable StoreError unit :=
  fun t => if Nat.eqb (affected p t) 0 then (t, Err NotFound) else (update p f t, Ok tt).

(** [set_cube_sandbox_id] *)
Definition sql_set_cube_sandbox_id (id sandbox_id : string) : svc InstanceTable StoreError unit :=
  sql_update (sql_by_id id) (fun c =>
    mkColumns (co_id c) (co_owner_id c) (co_name c) (co_task c) (Some sandbox_id)
    (co_state_generation c) (co_template_id c) (co_status c) (co_bearer_token c) (co_pinned c)
    (co_expires_at c) (co_last_active_at c) (co_last_probe_at c) (co_last_probe_status c)
    (co_created_at c) (co_destroyed_at c) (co_rotated_to c) (co_policy_kind c) (co_policy_entries
    c) (co_policy_cidrs c) (co_models c) (co_tools c)).

(** [update_status] *)
Definition sql_update_status (id : string) (status : InstanceStatus) (now : Z) :
  svc InstanceTable StoreError unit :=
  sql_update (sql_by_id id) (fun c =>
    mkColumns (co_id c) (co_owner_id c) (co_name c) (co_task c) (co_cube_sandbox_id c)
    (co_state_generation c) (co_template_id c) (status_str status) (co_bearer_token c) (co_pinned
    c) (co_expires_at c) (co_last_active_at c) (co_last_probe_at c) (co_last_probe_status c)
    (co_created_at c) (if (status_str status =? "destroyed")%string then Some now else
    co_destroyed_at c) (co_rotated_to c) (co_policy_kind c) (co_policy_entries c) (co_policy_cidrs
    c) (co_models c) (co_tools c)).

(** [touch] *)
Definition sql_touch (id : string) (now : Z) : svc InstanceTable StoreError unit :=
  sql_update (sql_by_id id) (fun c =>
    mkColumns (co_id c) (co_owner_id c) (co_name c) (co_task c) (co_cube_sandbox_id c)
    (co_state_generation c) (co_template_id c) (co_status c) (co_bearer_token c) (co_pinned c)
    (co_expires_at c) now (co_last_probe_at c) (co_last_probe_status c) (co_created_at c)
    (co_destroyed_at c) (co_rotated_to c) (co_policy_kind c) (co_policy_entries c) (co_policy_cidrs
    c) (co_models c) (co_tools c)).

(** [update_identity] *)
Definition sql_update_identity (owner_id id name task : string) : svc InstanceTable StoreError unit :=
  sql_update (sql_owned owner_id id) (fun c =>
    mkColumns (co_id c) (co_owner_id c) name task (co_cube_sandbox_id c) (co_state_generation c)
    (co_template_id c) (co_status c) (co_bearer_token c) (co_pinned c) (co_expires_at c)
    (co_last_active_at c) (co_last_probe_at c) (co_last_probe_status c) (co_created_at c)
    (co_destroyed_at c) (co_rotated_to c) (co_policy_kind c) (co_policy_entries c) (co_policy_cidrs
    c) (co_models c) (co_tools c)).

(** [pin] *)
Definition sql_pin (id : string) (pinned : bool) (ttl : option Z) (now : Z) :
  svc InstanceTable StoreError unit :=
  let expires_at := if pinned then None else (fun t => wrap_i64 (now + t)) <$> ttl in
  sql_update (sql_by_id id) (fun c =>
    mkColumns (co_id c) (co_owner_id c) (co_name c) (co_task c) (co_cube_sandbox_id c)
    (co_state_generation c) (co_template_id c) (co_status c) (co_bearer_token c) (if pinned then 1
    else 0) expires_at (co_last_active_at c) (co_last_probe_at c) (co_last_probe_status c)
    (co_created_at c) (co_destroyed_at c) (co_rotated_to c) (co_policy_kind c) (co_policy_entries
    c) (co_policy_cidrs c) (co_models c) (co_tools c)).

(** [record_probe] *)
Definition sql_record_probe (id : string) (status : ProbeResult) (now : Z) :
  svc InstanceTable StoreError unit :=
  json ← lift (map_err Io (probe_to_string status));
  sql_update (sql_live id) (fun c =>
    mkColumns (co_id c) (co_owner_id c) (co_name c) (co_task c) (co_cube_sandbox_id c)
    (co_state_generation c) (co_template_id c) (co_status c) (co_bearer_token c) (co_pinned c)
    (co_expires_at c) (co_last_active_at c) (Some now) (Some json) (co_created_at c)
    (co_destroyed_at c) (co_rotated_to c) (co_policy_kind c) (co_policy_entries c) (co_policy_cidrs
    c) (co_models c) (co_tools c)).

(** [set_rotated_to] *)
Definition sql_set_rotated_to (id target_id : string) : svc InstanceTable StoreError unit :=
  sql_update (sql_live id) (fun c =>
    mkColumns (co_id c) (co_owner_id c) (co_name c) (co_task c) (co_cube_sandbox_id c)
    (co_state_generation c) (co_template_id c) (co_status c) (co_bearer_token c) (co_pinned c)
    (co_expires_at c) (co_last_active_at c) (co_last_probe_at c) (co_last_probe_status c)
    (co_created_at c) (co_destroyed_at c) (Some target_id) (co_policy_kind c) (co_policy_entries c)
    (co_policy_cidrs c) (co_models c) (co_tools c)).

(** [set_models] *)
Definition sql_set_models (id : string) (models : list string) : svc InstanceTable StoreError unit :=
  json ← lift (map_err (fun e => Io ("models encode: " +:+ e)) (strs_to_string models));
  sql_update (sql_live id) (fun c =>
    mkColumns (co_id c) (co_owner_id c) (co_name c) (co_task c) (co_cube_sandbox_id c)
    (co_state_generation c) (co_template_id c) (co_status c) (co_bearer_token c) (co_pinned c)
    (co_expires_at c) (co_last_active_at c) (co_last_probe_at c) (co_last_probe_status c)
    (co_created_at c) (co_destroyed_at c) (co_rotated_to c) (co_policy_kind c) (co_policy_entries
    c) (co_policy_cidrs c) json (co_tools c)).

(** [set_tools] *)
Definition sql_set_tools (id : string) (tools : list string) : svc InstanceTable StoreError unit :=
  json ← lift (map_err (fun e => Io ("tools encode: " +:+ e)) (strs_to_string tools));
  sql_update (sql_live id) (fun c =>
    mkColumns (co_id c) (co_owner_id c) (co_name c) (co_task c) (co_cube_sandbox_id c)
    (co_state_generation c) (co_template_id c) (co_status c) (co_bearer_token c) (co_pinned c)
    (co_expires_at c) (co_last_active_at c) (co_last_probe_at c) (co_last_probe_status c)
    (co_created_at c) (co_destroyed_at c) (co_rotated_to c) (co_policy_kind c) (co_policy_entries
    c) (co_policy_cidrs c) (co_models c) json).

(** [replace_cube_sandbox] *)
Definition sql_replace_cube_sandbox (id sandbox generation template : string) (policy : NetworkPolicy)
    (cidrs : list string) (now : Z) : svc InstanceTable StoreError unit :=
  sql_update (sql_by_id id) (fun c =>
    mkColumns (co_id c) (co_owner_id c) (co_name c) (co_task c) (Some sandbox) generation template
    "configuring" (co_bearer_token c) (co_pinned c) (co_expires_at c) now None None (co_created_at
    c) (co_destroyed_at c) None (kind_str policy) (vec_to_csv (policy_entries policy)) (vec_to_csv
    cidrs) (co_models c) (co_tools c)).

(** The methods that change the table, as data; [sr] is the clock and
    randomness of the seal. *)
Definition sql_run (sr : SealRun) (op : StoreOp) (t : InstanceTable) :
  InstanceTable * result StoreError bool :=
  match op with
  | OpCreate row => as_true (sql_create sr row t)
  | OpCreateLimit row limit => sql_create_with_owner_limit sr row limit t
  | OpSetSandbox id s => as_true (sql_set_cube_sandbox_id id s t)
  | OpUpdateStatus id s now => as_true (sql_update_status id s now t)
  | OpTouch id now => as_true (sql_touch id now t)
  | OpUpdateIdentity o id n k => as_true (sql_update_identity o id n k t)
  | OpPin id p ttl now => as_true (sql_pin id p ttl now t)
  | OpRecordProbe id s now => as_true (sql_record_probe id s now t)
  | OpSetRotatedTo id x => as_true (sql_set_rotated_to id x t)
  | OpSetModels id m => as_true (sql_set_models id m t)
  | OpSetTools id m => as_true (sql_set_tools id m t)
  | OpReplaceSandbox id s g k p c now => as_true (sql_replace_cube_sandbox id s g k p c now t)
  end.
End codec.

(** ** The codec is faithful *)

Lemma csv_to_vec_join items : Forall csv_clean items -> csv_to_vec (vec_to_csv items) = items.
Proof.
  intros Hc. pose proof (split_csv_join items Hc) as Hs. unfold split_csv, join_csv in Hs.
  unfold csv_to_vec, vec_to_csv. destruct (is_empty (join "," items)) eqn:E; [|done].
  destruct (join "," items) eqn:Ej; [|done]. by rewrite <- Hs.
Qed.

Lemma decode_encode_policy p cidrs :
  Forall csv_clean (policy_entries p) -> Forall csv_clean cidrs ->
  decode_policy (kind_str p) (vec_to_csv (policy_entries p)) (vec_to_csv cidrs) = (p, cidrs).
Proof.
  intros Hp Hc. unfold decode_policy. rewrite (csv_to_vec_join cidrs Hc).
  destruct p; cbn in *; try done; by rewrite csv_to_vec_join.
Qed.

Lemma status_parse_iff s st : status_parse s = Some st <-> s = status_str st.
Proof.
  split; [|intros ->; apply status_parse_str].
  unfold status_parse. repeat (case_match; to_prop; [by intros [= <-]|]). done.
Qed.

Lemma status_str_destroyed st : (status_str st =? "destroyed")%string = bool_decide (st = Destroyed).
Proof. by destruct st. Qed.

Section refinement.
Context {codec : EnvelopeCodec} {rc : RowCodec} (cipher : EnvelopeCipher) (dir : CipherDirectory).

(** What it takes for a row to be the decoding of its columns *)
Record decodes (c : InstanceColumns) (r : InstanceRow) : Prop := mkDecodes {
  dc_id : co_id c = ir_id r;
  dc_owner_id : co_owner_id c = ir_owner_id r;
  dc_name : co_name c = ir_name r;
  dc_task : co_task c = ir_task r;
  dc_cube_sandbox_id : co_cube_sandbox_id c = ir_cube_sandbox_id r;
  dc_state_generation : co_state_generation c = ir_state_generation r;
  dc_template_id : co_template_id c = ir_template_id r;
  dc_expires_at : co_expires_at c = ir_expires_at r;
  dc_last_active_at : co_last_active_at c = ir_last_active_at r;
  dc_last_probe_at : co_last_probe_at c = ir_last_probe_at r;
  dc_created_at : co_created_at c = ir_created_at r;
  dc_destroyed_at : co_destroyed_at c = ir_destroyed_at r;
  dc_rotated_to : co_rotated_to c = ir_rotated_to r;
  dc_status : co_status c = status_str (ir_status r);
  dc_pinned : negb (co_pinned c =? 0) = ir_pinned r;
  dc_bearer : open_bearer cipher (Some dir) (co_id c) (co_owner_id c) (co_bearer_token c) =
                Ok (ir_bearer_token r);
  dc_probe : decode_probe (co_last_probe_status c) = Ok (ir_last_probe_status r);
  dc_policy : decode_policy (co_policy_kind c) (co_policy_entries c) (co_policy_cidrs c) =
                (ir_network_policy r, ir_network_policy_cidrs r);
  dc_models : strs_from_str (co_models c) = Ok (ir_models r);
  dc_tools : strs_from_str (co_tools c) = Ok (ir_tools r)
}.

Lemma decodes_iff c r : row_to_instance cipher (Some dir) c = Ok r <-> decodes c r.
Proof.
  unfold row_to_instance. destruct (decode_policy _ _ _) as [pol cidrs] eqn:Ep. split.
  - intros H. inv_ok. split; cbn [ir_id]; try done; by apply status_parse_iff.
  - intros []. apply status_parse_iff in dc_status0. rewrite dc_status0, dc_probe0.
    cbn [ok_or mbind result_bind]. rewrite dc_models0, dc_tools0, dc_bearer0.
    cbn [map_err mbind result_bind]. clear dc_bearer0 dc_probe0 dc_models0 dc_tools0 dc_status0.
    rewrite Ep in dc_policy0. apply pair_equal_spec in dc_policy0 as [-> ->]. destruct r; cbn in *. by subst.
Qed.

(** The SQL table holds exactly the rows of the contract's table. *)
Definition represents (T : InstanceTable) (t : Instances) : Prop := Forall2 decodes T t.

Lemma sql_by_id_related id c r : decodes c r -> sql_by_id id c = by_id id r.
Proof. intros []. unfold sql_by_id, by_id. congruence. Qed.

Lemma sql_owned_related o id c r :
  decodes c r ->
  sql_owned o id c = by_id id r && ((o =? "*")%string || (ir_owner_id r =? o)%string).
Proof. intros []. unfold sql_owned, by_id. congruence. Qed.

Lemma destroyed_related c r :
  decodes c r -> negb (co_status c =? "destroyed")%string = not_destroyed r.
Proof.
  intros []. rewrite dc_status0, status_str_destroyed. unfold not_destroyed.
  destruct (ir_status r); done.
Qed.

Lemma sql_live_related id c r : decodes c r -> sql_live id c = by_live_id id r.
Proof.
  intros H. unfold sql_live, by_live_id. rewrite (destroyed_related c r H).
  f_equal. by apply sql_by_id_related.
Qed.

Lemma sql_update_related p q f g T t :
  (forall c r, decodes c r -> p c = q r) -> (forall c r, decodes c r -> decodes (f c) (g r)) ->
  represents T t ->
  represents (sql_update p f T).1 (update_found q g t).1 /\
  (sql_update p f T).2 = (update_found q g t).2.
Proof.
  intros Hpq Hfg HT. unfold sql_update, update_found.
  rewrite (affected_related decodes p q Hpq T t HT). case_match; [done|]. cbn [fst snd].
  split; [|done]. by apply update_related.
Qed.

Lemma as_true_related {E} (a : InstanceTable * result E unit) (b : Instances * result E unit) :
  represents a.1 b.1 /\ a.2 = b.2 ->
  represents (as_true a).1 (as_true b).1 /\ (as_true a).2 = (as_true b).2.
Proof. intros [H1 H2]. unfold as_true. cbn. by rewrite H2. Qed.

(** A row the codec can carry: its owner has a key, its bearer is text, and
    no policy entry or range holds a comma, outer white space or nothing. *)
Definition storable (row : InstanceRow) : Prop :=
  is_ok (for_context (instance_bearer_context (ir_id row) (ir_owner_id row))) = true /\
  from_utf8 (ir_bearer_token row) = Some (ir_bearer_token row) /\
  Forall csv_clean (policy_entries (ir_network_policy row)) /\
  Forall csv_clean (ir_network_policy_cidrs row).

Definition op_storable (op : StoreOp) : Prop :=
  match op with
  | OpCreate row | OpCreateLimit row _ => storable row
  | OpReplaceSandbox _ _ _ _ p cidrs _ =>
      Forall csv_clean (policy_entries p) /\ Forall csv_clean cidrs
  | _ => True
  end.

Context `{!EnvelopeCodecOk codec, !RowCodecOk rc, !CipherDirectoryOk dir}.

Lemma encode_decodes sr row :
  storable row ->
  exists e, encode_instance_insert cipher (Some dir) sr row = Ok e /\ decodes (bind_columns row e) row.
Proof.
  intros (Hkey & Hutf & Hent & Hcid).
  destruct (for_context _) as [v|] eqn:Hv in Hkey; [|done].
  destruct (open_seal_inner sr (instance_bearer_context (ir_id row) (ir_owner_id row))
              (ir_bearer_token row) None v Hv) as (s & Hs & Hsu & Ho).
  destruct (strs_round_trip (ir_models row)) as (ms & Hms & Hms').
  destruct (strs_round_trip (ir_tools row)) as (ts & Hts & Hts').
  assert (exists pr, match ir_last_probe_status row with
            | Some p => s ← map_err Io (probe_to_string p); Ok (Some s)
            | None => Ok None
            end = Ok pr /\ decode_probe pr = Ok (ir_last_probe_status row)) as (pr & Hpr & Hpr').
  { destruct (ir_last_probe_status row) as [p|]; [|by exists None].
    destruct (probe_round_trip p) as (q & Hq & Hq'). exists (Some q). by rewrite Hq; cbn; rewrite Hq'. }
  eexists. unfold encode_instance_insert, seal_bearer, seal_context_as_string, seal_context.
  rewrite Hpr, Hms, Hts, Hs. cbn [mbind result_bind map_err]. rewrite Hsu.
  cbn [ok_or map_err mbind result_bind]. split; [reflexivity|].
  split; cbn; try done.
  - by destruct (ir_pinned row).
  - rewrite Ho. cbn. by rewrite Hutf.
  - by apply decode_encode_policy.
Qed.

Lemma insert_related row e T t :
  decodes (bind_columns row e) row -> represents T t ->
  represents (insert_instance_row row e T).1 (instance_create row t).1 /\
  (insert_instance_row row e T).2 = (instance_create row t).2.
Proof.
  intros He HT. unfold insert_instance_row, instance_create, instance_get.
  rewrite (affected_related decodes _ (by_id (ir_id row))) with (u := t); [|apply sql_by_id_related|done].
  unfold affected, select_one. destruct (select (by_id (ir_id row)) t); cbn; [|done].
  split; [|done]. apply Forall2_app; [done|by constructor].
Qed.

Lemma create_related sr row T t :
  storable row -> represents T t ->
  represents (sql_create cipher (Some dir) sr row T).1 (instance_create row t).1 /\
  (sql_create cipher (Some dir) sr row T).2 = (instance_create row t).2.
Proof.
  intros Hrow HT. destruct (encode_decodes sr row Hrow) as (e & He & Hd).
  unfold sql_create, mbind, svc_bind, lift. rewrite He. by apply insert_related.
Qed.

Lemma create_limit_related sr row limit T t :
  storable row -> represents T t ->
  represents (sql_create_with_owner_limit cipher (Some dir) sr row limit T).1
             (create_with_owner_limit row limit t).1 /\
  (sql_create_with_owner_limit cipher (Some dir) sr row limit T).2 =
    (create_with_owner_limit row limit t).2.
Proof.
  intros Hrow HT. destruct (encode_decodes sr row Hrow) as (e & He & Hd).
  unfold sql_create_with_owner_limit, create_with_owner_limit, active_rows, mbind, svc_bind, lift, gets.
  rewrite He. rewrite (affected_related decodes _
    (fun r => (ir_owner_id r =? ir_owner_id row)%string && not_destroyed r)) with (u := t); [|clear|done].
  - unfold affected. case_match; [done|].
    pose proof (insert_related row e T t Hd HT) as [H1 H2].
    destruct (insert_instance_row row e T) as [T' [?|?]], (instance_create row t) as [t' [?|?]];
      cbn in *; by simplify_eq.
  - intros c r Hc. unfold sql_active. rewrite (destroyed_related c r Hc). by destruct Hc as [_ ->].
Qed.

Lemma decode_one_related c r :
  option_Forall2 decodes c r -> decode_one cipher (Some dir) c = Ok r.
Proof.
  destruct 1 as [c r H|]; [|done]. apply decodes_iff in H. cbn. by rewrite H.
Qed.

Lemma traverse_related T t :
  Forall2 decodes T t -> traverse (row_to_instance cipher (Some dir)) T = Ok t.
Proof. intros H. apply traverse_ok_Forall2. eapply Forall2_impl; [|exact H]. apply decodes_iff. Qed.

Lemma list_related owner_id f T t :
  represents T t -> sql_list cipher (Some dir) owner_id f T = Ok (instance_list owner_id f t).
Proof.
  intros HT. apply traverse_related, sort_related.
  { intros x y x' y' Hx Hy. by rewrite (dc_created_at _ _ Hx), (dc_created_at _ _ Hy). }
  apply select_related; [|done]. intros c r Hc. rewrite (destroyed_related c r Hc).
  rewrite (dc_owner_id _ _ Hc), (dc_status _ _ Hc). do 2 f_equal. destruct (lf_status f) as [s|]; [|done].
  by destruct (ir_status r), s.
Qed.

Lemma expired_related now T t :
  represents T t -> sql_expired cipher (Some dir) now T = Ok (instance_expired now t).
Proof.
  intros HT. apply traverse_related, select_related; [|done]. intros c r Hc. unfold is_expired.
  rewrite (destroyed_related c r Hc), (dc_expires_at _ _ Hc), <- (dc_pinned _ _ Hc).
  by rewrite negb_involutive.
Qed.
End refinement.

Ltac related_update :=
  apply as_true_related, sql_update_related; [|intros c r []; split; cbn; try done|done].

(** C7. The SQLite store implements the instance store's contract: on a table
    that holds the contract's rows, every method answers as the contract does
    and leaves a table that holds the contract's new rows, as long as the rows
    and policies handed to it can be carried by the columns; every read
    returns the contract's rows, bearers unsealed, and never fails. *)
Theorem sqlite_store_refines {codec : EnvelopeCodec} {rc : RowCodec}
    (cipher : EnvelopeCipher) (dir : CipherDirectory)
    `{!EnvelopeCodecOk codec, !RowCodecOk rc, !CipherDirectoryOk dir}
    (T : InstanceTable) (t : Instances) (HT : represents cipher dir T t) :
  (forall sr op, op_storable dir op ->
     represents cipher dir (sql_run cipher (Some dir) sr op T).1 (spec_run op t).1 /\
     (sql_run cipher (Some dir) sr op T).2 = (spec_run op t).2) /\
  (forall id, sql_get cipher (Some dir) id T = Ok (instance_get id t)) /\
  (forall owner id, sql_get_for_owner cipher (Some dir) owner id T =
                    Ok (instance_get_for_owner owner id t)) /\
  (forall owner f, sql_list cipher (Some dir) owner f T = Ok (instance_list owner f t)) /\
  (forall now, sql_expired cipher (Some dir) now T = Ok (instance_expired now t)).
Proof.
  split_and!; [|intros; eapply decode_one_related, select_one_related; [|exact HT]..| |].
  - intros sr op Hop. destruct op; cbn [sql_run spec_run].
    + by apply as_true_related, create_related.
    + by apply create_limit_related.
    + related_update. apply sql_by_id_related.
    + related_update. apply sql_by_id_related. by destruct status.
    + related_update. apply sql_by_id_related.
    + related_update. apply sql_owned_related.
    + related_update. apply sql_by_id_related. by destruct pinned.
    + destruct (probe_round_trip status) as (s & Hs & Hs').
      unfold sql_record_probe, mbind, svc_bind, lift. rewrite Hs. cbn [map_err].
      related_update; [apply sql_live_related|]. by rewrite Hs'.
    + related_update. apply sql_live_related.
    + destruct (strs_round_trip models) as (s & Hs & Hs').
      unfold sql_set_models, mbind, svc_bind, lift. rewrite Hs. cbn [map_err].
      related_update. apply sql_live_related.
    + destruct (strs_round_trip tools) as (s & Hs & Hs').
      unfold sql_set_tools, mbind, svc_bind, lift. rewrite Hs. cbn [map_err].
      related_update. apply sql_live_related.
    + destruct Hop. related_update; [apply sql_by_id_related|]. by apply decode_encode_policy.
  - apply sql_by_id_related.
  - apply sql_owned_related.
  - intros. by apply list_related.
  - intros. by apply expired_related.
Qed.

(** ** The owner quota *)

(** New rows go through the quota check, and no destroyed row is brought
    back: [update_status] and [replace_cube_sandbox] would do that. *)
Definition within_discipline (limit : Z) (op : StoreOp) (T : InstanceTable) : Prop :=
  let not_gone id := forall c, c ∈ T -> co_id c = id -> co_status c <> "destroyed" in
  match op with
  | OpCreate _ => False
  | OpCreateLimit _ l => l <= limit
  | OpUpdateStatus id s _ => s = Destroyed \/ not_gone id
  | OpReplaceSandbox id _ _ _ _ _ _ => not_gone id
  | _ => True
  end.

Section quota.
Context {codec : EnvelopeCodec} {rc : RowCodec} (cipher : EnvelopeCipher) (ciphers : option CipherDirectory).

(** The tables such a deployment reaches, whatever the order of the calls and
    whatever each of them answers *)
Inductive quota_reachable (limit : Z) : InstanceTable -> Prop :=
| qr_empty : quota_reachable limit []
| qr_step sr op T :
    quota_reachable limit T -> within_discipline limit op T ->
    quota_reachable limit (sql_run cipher ciphers sr op T).1.

Definition active_count (owner : string) (T : InstanceTable) : Z :=
  Z.of_nat (affected (sql_active owner) T).

Lemma sql_update_count owner p f T :
  (forall c, c ∈ T -> p c = true -> co_owner_id (f c) = co_owner_id c /\
     (co_status c = "destroyed" -> co_status (f c) = "destroyed")) ->
  active_count owner (sql_update p f T).1 <= active_count owner T.
Proof.
  intros Hf. unfold sql_update. case_match; [done|]. cbn [fst]. apply inj_le, affected_update_le.
  intros c Hc Hp. destruct (Hf c Hc Hp) as [Ho Hs]. unfold sql_active. rewrite Ho.
  destruct (co_owner_id c =? owner)%string; [|done]. cbn [andb].
  destruct (co_status c =? "destroyed")%string eqn:E; [|done]. to_prop. rewrite Hs by done. done.
Qed.

Lemma insert_count row e owner limit T :
  active_count (ir_owner_id row) T < limit -> active_count owner T <= limit ->
  active_count owner (insert_instance_row row e T).1 <= limit.
Proof.
  intros Hlt Hle. unfold insert_instance_row. case_match; [|done]. cbn [fst].
  unfold active_count, affected in *. rewrite select_app, length_app, select_cons.
  change (co_owner_id (bind_columns row e)) with (ir_owner_id row).
  unfold sql_active at 2. change (co_owner_id (bind_columns row e)) with (ir_owner_id row).
  destruct (ir_owner_id row =? owner)%string eqn:Eo; to_prop.
  - subst owner. cbn [andb]. case_match; cbn [length select filter list_filter]; lia.
  - cbn [andb length select filter list_filter]. lia.
Qed.

Lemma create_limit_count sr row l owner limit T :
  l <= limit -> active_count owner T <= limit ->
  active_count owner (sql_create_with_owner_limit cipher ciphers sr row l T).1 <= limit.
Proof.
  intros Hl Hle. unfold sql_create_with_owner_limit, mbind, svc_bind, lift, gets.
  destruct (encode_instance_insert _ _ _ _) as [e|]; [|done].
  destruct (l <=? _) eqn:E; [done|]. to_prop.
  pose proof (insert_count row e owner limit T ltac:(unfold active_count; lia) Hle).
  by destruct (insert_instance_row row e T) as [? []].
Qed.

(** A JSON column is encoded before the [UPDATE] runs. *)
Lemma encoded_update_count {A} owner (enc : result StoreError A) p (f : A -> InstanceColumns -> InstanceColumns) T :
  (forall a c, co_owner_id (f a c) = co_owner_id c /\ co_status (f a c) = co_status c) ->
  active_count owner ((json ← lift enc; sql_update p (f json)) T).1 <= active_count owner T.
Proof.
  intros Hf. unfold mbind, svc_bind, lift. destruct enc as [a|]; [|done].
  apply sql_update_count. intros c _ _. destruct (Hf a c) as [-> ->]. done.
Qed.
End quota.

Ltac same_owner_status := apply sql_update_count; intros c _ _; done.

(** C16. As long as rows are created through the quota check and destroyed
    rows stay destroyed, no owner ever has more live instances than the limit,
    whatever the order of the store's operations and whichever of them fail. *)
Theorem owner_quota_invariant {codec : EnvelopeCodec} {rc : RowCodec}
    (cipher : EnvelopeCipher) (ciphers : option CipherDirectory)
    (limit : Z) (T : InstanceTable) (owner : string)
    (Hlimit : 0 <= limit) (HT : quota_reachable cipher ciphers limit T) :
  active_count owner T <= limit.
Proof.
  induction HT as [|sr op T _ IH Hop]; [done|].
  destruct op; cbn [sql_run as_true fst]; cbn in Hop; try (by apply create_limit_count);
    try done; (etrans; [|exact IH]).
  - same_owner_status.
  - apply sql_update_count. cbn. intros c Hc Hp. unfold sql_by_id in Hp. to_prop.
    split; [done|]. destruct Hop as [->|Hng]; [done|]. by intros ?%(Hng c Hc).
  - same_owner_status.
  - same_owner_status.
  - same_owner_status.
  - apply encoded_update_count. done.
  - same_owner_status.
  - apply encoded_update_count. done.
  - apply encoded_update_count. done.
  - apply sql_update_count. cbn. intros c Hc Hp. unfold sql_by_id in Hp. to_prop.
    split; [done|]. by intros ?%(Hop c Hc).
Qed.

(** ** Concrete codecs, for witnesses *)

#[global] Instance ProbeResult_countable : Countable ProbeResult.
Proof.
  refine (inj_countable'
    (fun p => match p with Healthy => inl tt | Degraded r => inr (inl r) | Unreachable r => inr (inr r) end)
    (fun c => match c with inl _ => Healthy | inr (inl r) => Degraded r | inr (inr r) => Unreachable r end) _).
  by intros [].
Defined.

Definition toy_rows : RowCodec := {|
  probe_to_string p := Ok (to_text p);
  probe_from_str s := ok_or "probe" (of_text s);
  strs_to_string l := Ok (to_text l);
  strs_from_str s := ok_or "list" (of_text s)
|}.

Lemma toy_rows_ok : RowCodecOk toy_rows.
Proof.
  split; cbn [probe_to_string probe_from_str strs_to_string strs_from_str toy_rows].
  - intros p. exists (to_text p). by rewrite of_to_text.
  - intros l. exists (to_text l). by rewrite of_to_text.
Qed.

Section examples.
#[local] Existing Instance toy_directory.
#[local] Existing Instance toy_codec.
#[local] Existing Instance toy_rows.
#[local] Existing Instance toy_directory_ok.
#[local] Existing Instance toy_codec_ok.
#[local] Existing Instance toy_rows_ok.

Definition example_seal : SealRun := mkSealRun 1 "r".

(** Two rows created, the second one then destroyed and both read back *)
Lemma sqlite_store_refines_witness :
  let run := sql_run (toy_cipher "k") (Some toy_directory) example_seal in
  let T1 := (run (OpCreateLimit (example_row "i1" "u1") 20) []).1 in
  sql_get (toy_cipher "k") (Some toy_directory) "i1" [] = Ok None /\
  represents (toy_cipher "k") toy_directory T1 [example_row "i1" "u1"] /\
  (run (OpCreateLimit (example_row "i1" "u1") 20) []).2 = Ok true.
Proof.
  intros run T1.
  destruct (sqlite_store_refines (toy_cipher "k") toy_directory [] [] ltac:(constructor))
    as (Hops & Hget & _).
  assert (op_storable toy_directory (OpCreateLimit (example_row "i1" "u1") 20)) as Hs.
  { split_and!; [reflexivity|reflexivity|..]; repeat constructor; done. }
  destruct (Hops example_seal _ Hs) as [H1 H2].
  split; [exact (Hget "i1")|]. split; [exact H1|exact H2].
Defined.

Lemma owner_quota_invariant_witness :
  let run := sql_run (toy_cipher "k") (Some toy_directory) example_seal in
  active_count "u1" (run (OpCreateLimit (example_row "i2" "u1") 1)
                       (run (OpCreateLimit (example_row "i1" "u1") 1) []).1).1 <= 1.
Proof.
  intros run.
  apply (owner_quota_invariant (toy_cipher "k") (Some toy_directory) 1); [lia|].
  do 2 (eapply qr_step; [|done]). apply qr_empty.
Defined.
End examples.
