(* ===== verification/TokenStore.v ===== *)
(** * Proxy tokens

    Models [crates/core/src/db/sqlite/tokens.rs]: minting of the bearers a
    sandbox presents, their look-up by digest and comparison after unsealing,
    the lazy rewrap of old ciphertexts, binding to a source address and both
    revocations.  SHA-256 with hex encoding and UUIDs are parameters; the log
    of secret accesses is write-only and left out. *)

From Stdlib Require Import ZArith Ascii Lia.
From stdpp Require Import base list strings gmap option.
From S2P Require Import Prelude RustStr Codec Store NetworkPolicy Traits Envelope InstanceStore.

Local Open Scope string_scope.
Local Open Scope list_scope.
Local Open Scope Z_scope.

(** A row of [proxy_tokens]; [token] is the primary key. *)
Record TokenRow : Type := mkTokenRow {
  tk_token : string;
  tk_lookup : string;
  tk_instance_id : string;
  tk_provider : string;
  tk_created_at : Z;
  tk_revoked_at : option Z;
  tk_expected_src_ip : option string
}.

(** The tables the store reads and writes *)
Record TokenWorld : Type := mkTokenWorld {
  tw_tokens : list TokenRow;
  tw_instances : Instances
}.

Definition with_tokens (f : list TokenRow -> list TokenRow) (w : TokenWorld) : TokenWorld :=
  mkTokenWorld (f (tw_tokens w)) (tw_instances w).

(** [OpenedToken] *)
Record OpenedToken : Type := mkOpenedToken {
  ot_plaintext : string;
  ot_opened : option OpenEnvelopeResult;
  ot_needs_context_rewrap : bool;
  ot_owner_id : option string
}.

(** The clock, the seal's randomness and the UUID of one call *)
Record TokenRun : Type := mkTokenRun { tn_seal : SealRun; tn_now : Z; tn_uuid : string }.

(** [INGEST_PROVIDER], [STATE_SYNC_PROVIDER], [SHARED_PROVIDER] *)
Definition INGEST_PROVIDER : string := "ingest".
Definition STATE_SYNC_PROVIDER : string := "state_sync".
Definition SHARED_PROVIDER : string := "*".

(** [state_sync_provider], [state_sync_provider_matches] *)
Definition state_sync_provider (generation : string) : string :=
  STATE_SYNC_PROVIDER +:+ ":" +:+ trim generation.
Definition state_sync_provider_matches (provider generation : string) : bool :=
  if is_empty (trim generation) then false
  else (provider =? state_sync_provider (trim generation))%string.

Definition token_live (r : TokenRow) : bool := bool_decide (tk_revoked_at r = None).

(** [token_context] *)
Definition token_context (instance_id : string) (owner_id : option string) (provider : string) :
  KmsContext :=
  mkContext RuntimeToken
    (match owner_id with Some o => if is_empty o then None else Some o | None => None end)
    (Some instance_id) (Some ("proxy_token:" +:+ provider)).

(** [Sha256::digest] and [hex::encode] *)
Class TokenHash : Type := { sha256_digest : string -> string; hex_text : string -> string }.

(** [token_lookup_key] *)
Definition token_lookup_key {th : TokenHash} (token : string) : string := hex_text (sha256_digest token).

Section store.
Context {codec : EnvelopeCodec} {th : TokenHash}.
(** [cipher] and [ciphers] of [SqlxTokenStore] *)
Context (cipher : EnvelopeCipher) (ciphers : option CipherDirectory).

Abbreviation tokens := (svc TokenWorld StoreError).

(** [instance_owner_id] *)
Definition instance_owner_id (instance_id : string) (w : TokenWorld) : option string :=
  ir_owner_id <$> instance_get instance_id (tw_instances w).

(** [seal_token] *)
Definition seal_token (sr : SealRun) (instance_id : string) (owner_id : option string)
    (provider token : string) : result StoreError string :=
  match ciphers with
  | Some dir =>
      map_err (fun _ => Io "seal proxy token")
        (seal_context_as_string (dir := dir) sr (token_context instance_id owner_id provider) token)
  | None =>
      sealed ← map_err (fun _ => Io "seal proxy token") (cipher_seal cipher (sr_entropy sr) token);
      ok_or (Malformed "sealed proxy token was not utf-8") (from_utf8 sealed)
  end.

(** [open_token]: a row sealed before tokens carried an owner is opened under
    the context without one. *)
Definition open_token (instance_id provider stored : string) (w : TokenWorld) :
  result StoreError OpenedToken :=
  match ciphers with
  | Some dir =>
      let owner_id := instance_owner_id instance_id w in
      opened ← match open_context (dir := dir) (token_context instance_id owner_id provider) stored with
               | Ok opened => Ok (opened, false)
               | Err ContextMismatch =>
                   match owner_id with
                   | Some _ =>
                       match open_context (dir := dir) (token_context instance_id None provider) stored with
                       | Ok opened => Ok (opened, true)
                       | Err _ => Err (Malformed "open proxy token")
                       end
                   | None => Err (Malformed "open proxy token")
                   end
               | Err _ => Err (Malformed "open proxy token")
               end;
      plaintext ← ok_or (Malformed "proxy token plaintext was not utf-8")
                    (from_utf8 (op_plaintext opened.1));
      Ok (mkOpenedToken plaintext (Some opened.1) opened.2 owner_id)
  | None =>
      plain ← map_err (fun _ => Malformed "open proxy token") (cipher_open cipher stored);
      plaintext ← ok_or (Malformed "proxy token plaintext was not utf-8") (from_utf8 plain);
      Ok (mkOpenedToken plaintext None false None)
  end.

(** Change the stored ciphertext of the rows [p]; the primary key refuses a
    ciphertext another row has. *)
Definition set_ciphertext (p : TokenRow -> bool) (next : string) : tokens unit := fun w =>
  if existsb (fun r => negb (p r) && (tk_token r =? next)%string) (tw_tokens w)
     || (1 <? Z.of_nat (affected p (tw_tokens w)))
  then (w, Err (Constraint "UNIQUE constraint failed: proxy_tokens.token"))
  else (with_tokens (update p (fun r =>
          mkTokenRow next (tk_lookup r) (tk_instance_id r) (tk_provider r) (tk_created_at r)
            (tk_revoked_at r) (tk_expected_src_ip r))) w, Ok tt).

(** [rewrap_token_if_needed] *)
Definition rewrap_token_if_needed (sr : SealRun) (instance_id provider stored : string)
    (opened : OpenedToken) : tokens unit :=
  match ot_opened opened with
  | None => mret tt
  | Some meta =>
      if negb (op_needs_rewrap meta) && negb (ot_needs_context_rewrap opened) then mret tt
      else match ciphers with
           | None => mret tt
           | Some dir =>
               next ← lift (map_err (fun _ => Io "rewrap proxy token")
                        (rewrap_context_as_string (dir := dir) sr
                           (token_context instance_id (ot_owner_id opened) provider)
                           (ot_plaintext opened)));
               set_ciphertext (fun r => (tk_instance_id r =? instance_id)%string
                 && (tk_provider r =? provider)%string && (tk_token r =? stored)%string) next
           end
  end.

(** [INSERT INTO proxy_tokens]: the primary key and the foreign key to the instance *)
Definition insert_token (row : TokenRow) : tokens unit := fun w =>
  if existsb (fun r => (tk_token r =? tk_token row)%string) (tw_tokens w)
  then (w, Err (Constraint "UNIQUE constraint failed: proxy_tokens.token"))
  else match instance_get (tk_instance_id row) (tw_instances w) with
       | None => (w, Err (Io "FOREIGN KEY constraint failed"))
       | Some _ => (with_tokens (fun t => t ++ [row]) w, Ok tt)
       end.

(** [mint_with_prefix] *)
Definition mint_with_prefix (run : TokenRun) (prefix instance_id provider : string) : tokens string :=
  let token := prefix +:+ tn_uuid run in
  owner_id ← gets (instance_owner_id instance_id);
  stored_token ← lift (seal_token (tn_seal run) instance_id owner_id provider token);
  _ ← insert_token (mkTokenRow stored_token (token_lookup_key token) instance_id provider
                      (tn_now run) None None);
  mret token.

(** [mint], [mint_ingest], [mint_state_sync_for_generation] *)
Definition token_mint (run : TokenRun) (instance_id provider : string) : tokens string :=
  mint_with_prefix run "pt_" instance_id provider.
Definition mint_ingest (run : TokenRun) (instance_id : string) : tokens string :=
  mint_with_prefix run "it_" instance_id INGEST_PROVIDER.
Definition mint_state_sync_for_generation (run : TokenRun) (instance_id generation : string) :
  tokens string :=
  mint_with_prefix run "st_" instance_id (state_sync_provider generation).

(** [bind_expected_src_ip] *)
Definition bind_expected_src_ip (instance_id expected_src_ip : string) : tokens unit :=
  let ip := trim expected_src_ip in
  if is_empty ip then mret tt
  else modify (with_tokens (update
         (fun r => (tk_instance_id r =? instance_id)%string && token_live r)
         (fun r => mkTokenRow (tk_token r) (tk_lookup r) (tk_instance_id r) (tk_provider r)
                     (tk_created_at r) (tk_revoked_at r) (Some ip)))).

(** The live row of a look-up key *)
Definition live_by_lookup (token : string) (r : TokenRow) : bool :=
  (tk_lookup r =? token_lookup_key token)%string && token_live r.

(** [resolve] *)
Definition token_resolve (run : TokenRun) (token : string) : tokens (option TokenRecord) :=
  row ← gets (fun w => select_one (live_by_lookup token) (tw_tokens w));
  match row with
  | None => mret None
  | Some row =>
      opened ← (fun w => (w, open_token (tk_instance_id row) (tk_provider row) (tk_token row) w));
      if negb (ot_plaintext opened =? token)%string then mret None
      else
        _ ← rewrap_token_if_needed (tn_seal run) (tk_instance_id row) (tk_provider row) (tk_token row) opened;
        mret (Some (mkTokenRecord (ot_plaintext opened) (tk_instance_id row) (tk_provider row)
                      (tk_created_at row) (tk_revoked_at row) (tk_expected_src_ip row)))
  end.

Definition revoke_row (now : Z) (r : TokenRow) : TokenRow :=
  mkTokenRow (tk_token r) (tk_lookup r) (tk_instance_id r) (tk_provider r) (tk_created_at r)
    (Some now) (tk_expected_src_ip r).

(** [revoke_for_instance] *)
Definition revoke_for_instance (run : TokenRun) (instance_id : string) : tokens unit :=
  modify (with_tokens (update (fun r => (tk_instance_id r =? instance_id)%string && token_live r)
                         (revoke_row (tn_now run)))).

(** [revoke_token] *)
Definition revoke_token (run : TokenRun) (token : string) : tokens bool :=
  row ← gets (fun w => select_one (live_by_lookup token) (tw_tokens w));
  match row with
  | None => mret false
  | Some row =>
      opened ← (fun w => (w, open_token (tk_instance_id row) (tk_provider row) (tk_token row) w));
      if negb (ot_plaintext opened =? token)%string then mret false
      else
        let p r := live_by_lookup token r && (tk_token r =? tk_token row)%string in
        n ← gets (fun w => affected p (tw_tokens w));
        _ ← modify (with_tokens (update p (revoke_row (tn_now run))));
        mret (negb (Nat.eqb n 0))
  end.

(** [lookup_by_instance_for_provider], [lookup_by_instance] *)
Definition lookup_by_instance_for_provider (run : TokenRun) (instance_id provider : string) :
  tokens (option string) :=
  row ← gets (fun w => head (sort (fun a b => tk_created_at b <=? tk_created_at a)
           (select (fun r => (tk_instance_id r =? instance_id)%string
                             && (tk_provider r =? provider)%string && token_live r) (tw_tokens w))));
  match row with
  | None => mret None
  | Some row =>
      opened ← (fun w => (w, open_token instance_id provider (tk_token row) w));
      _ ← rewrap_token_if_needed (tn_seal run) instance_id provider (tk_token row) opened;
      mret (Some (ot_plaintext opened))
  end.
Definition lookup_by_instance (run : TokenRun) (instance_id : string) : tokens (option string) :=
  lookup_by_instance_for_provider run instance_id SHARED_PROVIDER.

(** One call of the store *)
Inductive TokenOp : Type :=
| TkMint (run : TokenRun) (instance_id provider : string)
| TkMintIngest (run : TokenRun) (instance_id : string)
| TkMintStateSync (run : TokenRun) (instance_id generation : string)
| TkBind (instance_id ip : string)
| TkResolve (run : TokenRun) (token : string)
| TkRevokeInstance (run : TokenRun) (instance_id : string)
| TkRevokeToken (run : TokenRun) (token : string)
| TkLookup (run : TokenRun) (instance_id provider : string).

Definition token_run (op : TokenOp) (w : TokenWorld) : TokenWorld :=
  match op with
  | TkMint run i p => (token_mint run i p w).1
  | TkMintIngest run i => (mint_ingest run i w).1
  | TkMintStateSync run i g => (mint_state_sync_for_generation run i g w).1
  | TkBind i ip => (bind_expected_src_ip i ip w).1
  | TkResolve run t => (token_resolve run t w).1
  | TkRevokeInstance run i => (revoke_for_instance run i w).1
  | TkRevokeToken run t => (revoke_token run t w).1
  | TkLookup run i p => (lookup_by_instance_for_provider run i p w).1
  end.

Definition token_runs (ops : list TokenOp) (w : TokenWorld) : TokenWorld :=
  fold_left (fun w op => token_run op w) ops w.

(** The token an operation mints *)
Definition minted (op : TokenOp) : option string :=
  match op with
  | TkMint run _ _ => Some ("pt_" +:+ tn_uuid run)
  | TkMintIngest run _ => Some ("it_" +:+ tn_uuid run)
  | TkMintStateSync run _ _ => Some ("st_" +:+ tn_uuid run)
  | _ => None
  end.
End store.

(** ** What one call does to the table *)

Section steps.
Context {codec : EnvelopeCodec} {th : TokenHash} (cipher : EnvelopeCipher) (ciphers : option CipherDirectory).

(** A row that opens and needs no rewrap *)
Definition settled (w : TokenWorld) (r : TokenRow) : Prop :=
  exists o, open_token cipher ciphers (tk_instance_id r) (tk_provider r) (tk_token r) w = Ok o /\
    ot_needs_context_rewrap o = false /\
    match ot_opened o with Some m => op_needs_rewrap m = false | None => True end.

(** The rows an operation may revoke *)
Definition revokes (op : TokenOp) (r : TokenRow) : Prop :=
  match op with
  | TkRevokeInstance _ i => tk_instance_id r = i
  | TkRevokeToken _ t => tk_lookup r = token_lookup_key t
  | _ => False
  end.

Record row_step (op : TokenOp) (w : TokenWorld) (r r' : TokenRow) : Prop := mkRowStep {
  rs_lookup : tk_lookup r' = tk_lookup r;
  rs_instance : tk_instance_id r' = tk_instance_id r;
  rs_provider : tk_provider r' = tk_provider r;
  rs_revoked : tk_revoked_at r' = tk_revoked_at r \/ (revokes op r /\ is_Some (tk_revoked_at r'));
  rs_token : settled w r -> tk_token r' = tk_token r
}.

Lemma row_step_refl op w r : row_step op w r r.
Proof. split; auto. Qed.

Lemma update_rows op w p f t :
  (forall r, p r = true -> row_step op w r (f r)) -> Forall2 (row_step op w) t (update p f t).
Proof.
  intros Hf. unfold update. induction t as [|r t IH]; [constructor|]. cbn. constructor; [|exact IH].
  destruct (p r) eqn:E; [auto|apply row_step_refl].
Qed.

Lemma same_rows op w t : Forall2 (row_step op w) t t.
Proof. induction t; constructor; [apply row_step_refl|done]. Qed.

(** What a call that mints nothing may do *)
Definition quiet (op : TokenOp) (w w' : TokenWorld) : Prop :=
  tw_instances w' = tw_instances w /\ Forall2 (row_step op w) (tw_tokens w) (tw_tokens w').

Lemma quiet_refl op w : quiet op w w.
Proof. split; [done|apply same_rows]. Qed.

Lemma rewrap_quiet op w sr i p stored o :
  open_token cipher ciphers i p stored w = Ok o ->
  quiet op w (rewrap_token_if_needed ciphers sr i p stored o w).1.
Proof.
  intros Ho. unfold rewrap_token_if_needed. destruct (ot_opened o) as [m|] eqn:Em; [|apply quiet_refl].
  destruct (_ && _) eqn:En; [apply quiet_refl|]. destruct ciphers as [dir|] eqn:Ed; [|apply quiet_refl].
  unfold mbind, svc_bind, lift. destruct (map_err _ _) as [next|]; [|apply quiet_refl].
  unfold set_ciphertext. destruct (_ || _); [apply quiet_refl|]. cbn [fst]. split; [done|].
  cbn [tw_tokens with_tokens]. apply update_rows. intros r Hp. to_prop.
  split; [done..|by left|]. intros (o' & Ho' & Hc & Hm). exfalso.
  assert (o' = o) as -> by congruence. rewrite Em in Hm. by rewrite Hc, Hm in En.
Qed.

(** Opening a row and deciding on its plaintext *)
Lemma resolve_quiet op run t w : quiet op w (token_resolve cipher ciphers run t w).1.
Proof.
  unfold token_resolve, mbind, svc_bind, gets. destruct (select_one _ _) as [r|]; [|apply quiet_refl].
  destruct (open_token _ _ _ _ _ w) as [o|] eqn:Ho; [|apply quiet_refl].
  destruct (negb _); [apply quiet_refl|].
  pose proof (rewrap_quiet op w (tn_seal run) _ _ _ o Ho).
  by destruct (rewrap_token_if_needed _ _ _ _ _ _ w) as [w' []].
Qed.

Lemma lookup_quiet op run i p w :
  quiet op w (lookup_by_instance_for_provider cipher ciphers run i p w).1.
Proof.
  unfold lookup_by_instance_for_provider, mbind, svc_bind, gets.
  destruct (head _) as [r|]; [|apply quiet_refl].
  destruct (open_token _ _ _ _ _ w) as [o|] eqn:Ho; [|apply quiet_refl].
  pose proof (rewrap_quiet op w (tn_seal run) _ _ _ o Ho).
  by destruct (rewrap_token_if_needed _ _ _ _ _ _ w) as [w' []].
Qed.

Lemma bind_quiet i ip w : quiet (TkBind i ip) w (bind_expected_src_ip i ip w).1.
Proof.
  unfold bind_expected_src_ip. destruct (is_empty _); [apply quiet_refl|]. split; [done|].
  cbn. apply update_rows. intros r _. split; auto.
Qed.

Lemma revoke_instance_quiet run i w :
  quiet (TkRevokeInstance run i) w (revoke_for_instance run i w).1.
Proof.
  split; [done|]. cbn. apply update_rows. intros r Hp. to_prop. split; try done. right.
  split; [done|]. cbn. eauto.
Qed.

Lemma revoke_token_quiet run t w :
  quiet (TkRevokeToken run t) w (revoke_token cipher ciphers run t w).1.
Proof.
  unfold revoke_token, mbind, svc_bind, gets. destruct (select_one _ _) as [r|]; [|apply quiet_refl].
  destruct (open_token _ _ _ _ _ w) as [o|] eqn:Ho; [|apply quiet_refl].
  destruct (negb _); [apply quiet_refl|]. split; [done|]. cbn. apply update_rows.
  intros r' Hp. unfold live_by_lookup in Hp. to_prop. split; try done. right. split; [done|]. cbn. eauto.
Qed.

(** A mint appends one row or does nothing. *)
Lemma mint_shape run prefix i p w :
  let w' := (mint_with_prefix cipher ciphers run prefix i p w).1 in
  w' = w \/ exists row, w' = with_tokens (fun t => t ++ [row]) w /\
    tk_lookup row = token_lookup_key (prefix +:+ tn_uuid run).
Proof.
  cbn zeta. unfold mint_with_prefix, mbind, svc_bind, gets, lift.
  destruct (seal_token _ _ _ _ _ _ _) as [s|]; [|by left].
  unfold insert_token. destruct (existsb _ _); [by left|].
  destruct (instance_get _ _); [|by left]. right. eexists. by split.
Qed.

Lemma token_run_shape op w :
  quiet op w (token_run cipher ciphers op w) \/
  exists row t, minted op = Some t /\ tk_lookup row = token_lookup_key t /\
    token_run cipher ciphers op w = with_tokens (fun l => l ++ [row]) w.
Proof.
  destruct op; cbn [token_run minted].
  1-3: (unfold token_mint, mint_ingest, mint_state_sync_for_generation;
    match goal with |- context [mint_with_prefix _ _ ?run ?pre ?i ?p ?v] =>
      destruct (mint_shape run pre i p v) as [-> | (row & -> & Hl)] end;
    [left; apply quiet_refl|right; eauto]).
  - left. apply bind_quiet.
  - left. apply resolve_quiet.
  - left. apply revoke_instance_quiet.
  - left. apply revoke_token_quiet.
  - left. apply lookup_quiet.
Qed.
End steps.

(** ** Life of a token *)

Section life.
Context {codec : EnvelopeCodec} {th : TokenHash} (cipher : EnvelopeCipher) (ciphers : option CipherDirectory).

(** Look-up keys are unique. *)
Definition tokens_wf (w : TokenWorld) : Prop := NoDup (map tk_lookup (tw_tokens w)).

(** A mint draws a token nobody holds: UUIDs and their digests do not repeat. *)
Definition fresh (op : TokenOp) (w : TokenWorld) : Prop :=
  match minted op with
  | Some t => token_lookup_key t ∉ map tk_lookup (tw_tokens w)
  | None => True
  end.
Fixpoint fresh_runs (ops : list TokenOp) (w : TokenWorld) : Prop :=
  match ops with
  | [] => True
  | op :: ops => fresh op w /\ fresh_runs ops (token_run cipher ciphers op w)
  end.

Lemma quiet_lookups op w w' :
  quiet cipher ciphers op w w' -> map tk_lookup (tw_tokens w') = map tk_lookup (tw_tokens w).
Proof.
  intros [_ H]. induction H as [|r r' t t' Hr _ IH]; [done|]. cbn. rewrite IH. f_equal. apply Hr.
Qed.

Lemma token_run_wf op w : fresh op w -> tokens_wf w -> tokens_wf (token_run cipher ciphers op w).
Proof.
  intros Hf Hw. destruct (token_run_shape cipher ciphers op w) as [Hq|(row & t & Hm & Hl & ->)].
  - unfold tokens_wf. by rewrite (quiet_lookups _ _ _ Hq).
  - unfold fresh in Hf. rewrite Hm in Hf. unfold tokens_wf. cbn. rewrite map_app.
    apply list.NoDup_app. split_and!; [done| |apply NoDup_singleton].
    intros k Hk Hin. apply list_elem_of_singleton in Hin as ->. cbn in Hk. by rewrite Hl in Hk.
Qed.

(** A used look-up key stays used, and once no live row has it none ever has. *)
Definition spent (token : string) (w : TokenWorld) : Prop :=
  token_lookup_key token ∈ map tk_lookup (tw_tokens w) /\
  forall r, r ∈ tw_tokens w -> live_by_lookup token r = false.

Lemma token_run_spent token op w :
  fresh op w -> spent token w -> spent token (token_run cipher ciphers op w).
Proof.
  intros Hf [Hin Hd]. destruct (token_run_shape cipher ciphers op w) as [Hq|(row & t & Hm & Hl & ->)].
  - split; [by rewrite (quiet_lookups _ _ _ Hq)|]. destruct Hq as [_ Hq]. intros r' Hr'.
    apply list_elem_of_lookup in Hr' as [i Hi].
    destruct (Forall2_lookup_r _ _ _ _ _ Hq Hi) as (r & Hr & Hs).
    apply list_elem_of_lookup_2, Hd in Hr. unfold live_by_lookup, token_live in *.
    rewrite (rs_lookup _ _ _ _ _ _ Hs). destruct (tk_lookup r =? _)%string; [|done]. cbn [andb] in *.
    to_prop. destruct (rs_revoked _ _ _ _ _ _ Hs) as [->|[_ [z ->]]]; by apply bool_decide_eq_false_2.
  - unfold fresh in Hf. rewrite Hm in Hf. cbn. split; [set_solver|]. intros r Hr.
    apply elem_of_app in Hr as [Hr|Hr%list_elem_of_singleton]; [by apply Hd|subst r].
    unfold live_by_lookup. rewrite Hl. destruct (_ =? _)%string eqn:E; [|done]. to_prop. congruence.
Qed.

Lemma token_runs_spent token ops w :
  fresh_runs ops w -> spent token w -> spent token (token_runs cipher ciphers ops w).
Proof.
  revert w. induction ops as [|op ops IH]; intros w; [done|]. cbn. intros [Hf Hfs] Hs.
  apply IH; [done|]. by apply token_run_spent.
Qed.

Lemma spent_resolves_none token run w :
  spent token w -> token_resolve cipher ciphers run token w = (w, Ok None).
Proof.
  intros [_ Hd]. unfold token_resolve, mbind, svc_bind, gets.
  by rewrite (proj2 (select_one_none _ _)).
Qed.

Lemma revoke_instance_spends run token r w :
  tokens_wf w -> r ∈ tw_tokens w -> tk_lookup r = token_lookup_key token ->
  spent token (revoke_for_instance run (tk_instance_id r) w).1.
Proof.
  intros Hwf Hr Hl. split.
  { rewrite (quiet_lookups _ _ _ (revoke_instance_quiet cipher ciphers run (tk_instance_id r) w)), <- Hl.
    by apply list_elem_of_fmap_2. }
  intros r' Hr'. cbn in Hr'. apply elem_of_update in Hr' as (r0 & Hr0 & ->).
  destruct (_ && _) eqn:E; [by unfold live_by_lookup; cbn; rewrite andb_false_r|].
  destruct (live_by_lookup token r0) eqn:Eb; [|done]. unfold live_by_lookup in Eb. to_prop.
  assert (r0 = r) as -> by (apply (NoDup_map_inj tk_lookup (tw_tokens w)); [done..|congruence]).
  rewrite String.eqb_refl in E. cbn [andb] in E. congruence.
Qed.

Lemma token_run_instances op w : tw_instances (token_run cipher ciphers op w) = tw_instances w.
Proof.
  by destruct (token_run_shape cipher ciphers op w) as [[Hq _]|(row & t & _ & _ & ->)].
Qed.

Lemma token_runs_instances ops w : tw_instances (token_runs cipher ciphers ops w) = tw_instances w.
Proof.
  revert w. induction ops as [|op ops IH]; intros w; [done|].
  change (token_runs cipher ciphers (op :: ops) w) with
    (token_runs cipher ciphers ops (token_run cipher ciphers op w)).
  rewrite IH. apply token_run_instances.
Qed.

Lemma mint_instances run prefix i p w w' t :
  mint_with_prefix cipher ciphers run prefix i p w = (w', Ok t) -> tw_instances w' = tw_instances w.
Proof.
  intros H. destruct (mint_shape cipher ciphers run prefix i p w) as [Heq|(row & Heq & _)];
    rewrite H in Heq; cbn [fst] in Heq; by subst.
Qed.

Lemma mint_token run prefix i p w w' t :
  mint_with_prefix cipher ciphers run prefix i p w = (w', Ok t) -> t = prefix +:+ tn_uuid run.
Proof.
  unfold mint_with_prefix, mbind, svc_bind, gets, lift. destruct (seal_token _ _ _ _ _ _ _); [|done].
  destruct (insert_token _ w) as [w1 []]; [|done]. intros H.
  apply pair_equal_spec in H as [_ H]. by apply Ok_inj in H.
Qed.

(** A row of the table that is alive, opens to the token and needs no rewrap *)
Definition held (token instance_id provider : string) (w : TokenWorld) : Prop :=
  tokens_wf w /\ exists r, r ∈ tw_tokens w /\ tk_lookup r = token_lookup_key token /\
    tk_instance_id r = instance_id /\ tk_provider r = provider /\ tk_revoked_at r = None /\
    settled cipher ciphers w r /\
    (ot_plaintext <$> open_token cipher ciphers instance_id provider (tk_token r) w) = Ok token.

Lemma open_token_same_owner i p s w w' :
  instance_owner_id i w' = instance_owner_id i w ->
  open_token cipher ciphers i p s w' = open_token cipher ciphers i p s w.
Proof. intros H. unfold open_token. by rewrite H. Qed.

Lemma open_token_same_instances i p s w w' :
  tw_instances w' = tw_instances w ->
  open_token cipher ciphers i p s w' = open_token cipher ciphers i p s w.
Proof. intros H. apply open_token_same_owner. unfold instance_owner_id. by rewrite H. Qed.

(** Only the owner of the token's instance matters. *)
Lemma held_same_owner token i p w w' :
  tw_tokens w' = tw_tokens w -> instance_owner_id i w' = instance_owner_id i w ->
  held token i p w -> held token i p w'.
Proof.
  intros Ht Ho (Hwf & r & Hr & Hl & Hi & Hp & Hv & (o & Hop & Hs) & Hpl).
  split; [unfold tokens_wf; by rewrite Ht|]. exists r. rewrite Ht.
  split_and!; try done.
  - exists o. by rewrite (open_token_same_owner _ _ _ w) by by rewrite Hi.
  - by rewrite (open_token_same_owner _ _ _ w).
Qed.

Lemma settled_same_instances w w' r r' :
  tw_instances w' = tw_instances w -> tk_instance_id r' = tk_instance_id r ->
  tk_provider r' = tk_provider r -> tk_token r' = tk_token r ->
  settled cipher ciphers w r -> settled cipher ciphers w' r'.
Proof.
  intros Hi H1 H2 H3 (o & Ho & Hr). exists o. rewrite H1, H2, H3.
  by rewrite (open_token_same_instances _ _ _ w w').
Qed.

(** An operation that leaves a token alone *)
Definition spares (token instance_id : string) (op : TokenOp) : Prop :=
  match op with
  | TkRevokeInstance _ i => i <> instance_id
  | TkRevokeToken _ t => token_lookup_key t <> token_lookup_key token
  | _ => True
  end.

Lemma token_run_held token i p op w :
  fresh op w -> spares token i op -> held token i p w ->
  held token i p (token_run cipher ciphers op w).
Proof.
  intros Hf Hsp (Hwf & r & Hr & Hl & Hi & Hp & Hv & Hset & Ho).
  split; [by apply token_run_wf|].
  destruct (token_run_shape cipher ciphers op w) as [[Hin Hq]|(row & t & Hm & Hlr & ->)].
  - apply list_elem_of_lookup in Hr as [n Hn].
    destruct (Forall2_lookup_l _ _ _ _ _ Hq Hn) as (r' & Hr' & Hs).
    pose proof (rs_token _ _ _ _ _ _ Hs Hset) as Htok.
    exists r'. apply list_elem_of_lookup_2 in Hr'. split; [done|].
    rewrite (rs_lookup _ _ _ _ _ _ Hs), (rs_instance _ _ _ _ _ _ Hs), (rs_provider _ _ _ _ _ _ Hs), Htok.
    split_and!; try done.
    + destruct (rs_revoked _ _ _ _ _ _ Hs) as [->|[Hrev _]]; [done|]. exfalso.
      destruct op; cbn in Hrev, Hsp; congruence.
    + eapply settled_same_instances; [done|apply Hs|apply Hs|done|done].
    + by rewrite (open_token_same_instances _ _ _ w).
  - exists r. cbn. split; [set_solver|]. split_and!; try done.
Qed.

Lemma token_runs_held token i p ops w :
  fresh_runs ops w -> Forall (spares token i) ops -> held token i p w ->
  held token i p (token_runs cipher ciphers ops w).
Proof.
  revert w. induction ops as [|op ops IH]; intros w; [done|]. cbn. intros [Hf Hfs] Hsp Hh.
  inversion Hsp; subst. apply IH; [done..|]. by apply token_run_held.
Qed.

Lemma held_resolves token i p run w :
  held token i p w ->
  exists rec, token_resolve cipher ciphers run token w = (w, Ok (Some rec)) /\
    tr_token rec = token /\ tr_instance_id rec = i /\ tr_provider rec = p /\ tr_revoked_at rec = None.
Proof.
  intros (Hwf & r & Hr & Hl & Hi & Hp & Hv & (o & Ho & Hc & Hm) & Hpl).
  assert (select_one (live_by_lookup token) (tw_tokens w) = Some r) as Hsel.
  { apply select_one_unique; [done| |].
    - unfold live_by_lookup, token_live. rewrite Hl, Hv, String.eqb_refl. by apply bool_decide_eq_true_2.
    - intros r' Hr' Hb. unfold live_by_lookup in Hb. to_prop.
      apply (NoDup_map_inj tk_lookup (tw_tokens w)); [done..|congruence]. }
  unfold token_resolve, mbind, svc_bind, gets. rewrite Hsel, Ho. subst i p.
  rewrite Ho in Hpl. apply Ok_inj in Hpl. rewrite Hpl, String.eqb_refl. cbn [negb].
  unfold rewrap_token_if_needed.
  destruct (ot_opened o) as [m|]; [rewrite Hm, Hc; cbn [negb andb]|]; eexists; (split; [reflexivity|]);
    cbn; by rewrite Hv.
Qed.
End life.

Section mint.
Context {codec : EnvelopeCodec} {th : TokenHash} (cipher : EnvelopeCipher) (dir : CipherDirectory).
Context `{!CipherDirectoryOk dir, !EnvelopeCodecOk codec}.

(** A successful mint leaves a row that holds the token. *)
Lemma mint_held run prefix i p w w' token :
  mint_with_prefix cipher (Some dir) run prefix i p w = (w', Ok token) ->
  from_utf8 token = Some token -> token_lookup_key token ∉ map tk_lookup (tw_tokens w) ->
  tokens_wf w -> held cipher (Some dir) token i p w'.
Proof.
  intros Hm Hu Hf Hwf.
  assert (token_lookup_key (prefix +:+ tn_uuid run) ∉ map tk_lookup (tw_tokens w) -> tokens_wf w') as Hw'.
  { intros Hfr. destruct (mint_shape cipher (Some dir) run prefix i p w) as [Heq|(row & Heq & Hl)];
      rewrite Hm in Heq; cbn [fst] in Heq; subst w'; [done|].
    unfold tokens_wf. cbn. rewrite map_app. apply list.NoDup_app. split_and!; [done| |apply NoDup_singleton].
    intros k Hk Hin. apply list_elem_of_singleton in Hin as ->. cbn in Hk. by rewrite Hl in Hk. }
  unfold mint_with_prefix, mbind, svc_bind, gets, lift in Hm.
  destruct (seal_token _ _ _ _ _ _ _) as [s|] eqn:Hs; [|done].
  unfold insert_token in Hm. destruct (existsb _ _); [done|].
  destruct (instance_get _ _) eqn:Hi; [|done]. apply pair_equal_spec in Hm as [<- Ht].
  apply Ok_inj in Ht as <-. split; [by apply Hw'|].
  unfold seal_token in Hs. apply map_err_ok, seal_string_opens in Hs as (v & Hv & Ho).
  eexists. split; [cbn; apply elem_of_app; right; apply list_elem_of_singleton; reflexivity|].
  cbn [tk_lookup tk_instance_id tk_provider tk_revoked_at tk_token]. split_and!; try done.
  - unfold settled, open_token, instance_owner_id.
    cbn [tk_instance_id tk_provider tk_token tw_instances with_tokens].
    unfold instance_owner_id in Ho. rewrite Ho.
    cbn [mbind result_bind op_plaintext fst snd]. rewrite Hu. cbn [ok_or mbind result_bind].
    eexists. split; [reflexivity|]. done.
  - unfold open_token, instance_owner_id. cbn [tw_instances with_tokens].
    unfold instance_owner_id in Ho. rewrite Ho.
    cbn [mbind result_bind op_plaintext fst snd]. by rewrite Hu.
Qed.
End mint.

(** A token is good until it is revoked: after a successful mint the
    token resolves to its instance and provider, whatever the store is asked
    to do in between (other mints, resolutions with their lazy rewraps, address
    bindings, revocations of other instances and other tokens). *)
Theorem token_valid_until_revoked {codec : EnvelopeCodec} {th : TokenHash}
    (cipher : EnvelopeCipher) (dir : CipherDirectory) `{!CipherDirectoryOk dir, !EnvelopeCodecOk codec}
    (run run' : TokenRun) (prefix i p token : string) (w w' : TokenWorld) (ops : list TokenOp)
    (Hmint : mint_with_prefix cipher (Some dir) run prefix i p w = (w', Ok token))
    (Hutf : from_utf8 token = Some token)
    (Hnew : token_lookup_key token ∉ map tk_lookup (tw_tokens w)) (Hwf : tokens_wf w)
    (Hfresh : fresh_runs cipher (Some dir) ops w') (Hspares : Forall (spares token i) ops) :
  let w'' := token_runs cipher (Some dir) ops w' in
  exists rec, token_resolve cipher (Some dir) run' token w'' = (w'', Ok (Some rec)) /\
    tr_token rec = token /\ tr_instance_id rec = i /\ tr_provider rec = p /\ tr_revoked_at rec = None.
Proof. apply held_resolves, token_runs_held; [done..|]. by eapply mint_held. Qed.

(** Revocation is for good: once a token's instance is revoked, or the
    token itself is, it resolves to nothing, whatever the store is asked to do
    afterwards. *)
Theorem revoked_token_stays_dead {codec : EnvelopeCodec} {th : TokenHash}
    (cipher : EnvelopeCipher) (ciphers : option CipherDirectory)
    (run run' : TokenRun) (token : string) (r : TokenRow) (w w' : TokenWorld) (ops : list TokenOp)
    (Hwf : tokens_wf w) (Hr : r ∈ tw_tokens w) (Hl : tk_lookup r = token_lookup_key token)
    (Hrev : w' = (revoke_for_instance run (tk_instance_id r) w).1 \/
            revoke_token cipher ciphers run token w = (w', Ok true))
    (Hfresh : fresh_runs cipher ciphers ops w') :
  let w'' := token_runs cipher ciphers ops w' in
  token_resolve cipher ciphers run' token w'' = (w'', Ok None).
Proof.
  apply spent_resolves_none, token_runs_spent; [done|].
  destruct Hrev as [->|H]; [by apply (revoke_instance_spends cipher ciphers)|].
  assert (forall r', r' ∈ tw_tokens w -> tk_lookup r' = token_lookup_key token -> r' = r) as Hu.
  { intros r' Hr' Hl'. apply (NoDup_map_inj tk_lookup (tw_tokens w)); [done..|congruence]. }
  pose proof (revoke_token_quiet cipher ciphers run token w) as Hq. rewrite H in Hq. cbn [fst] in Hq. split.
  { rewrite (quiet_lookups _ _ _ _ _ Hq), <- Hl. by apply list_elem_of_fmap_2. }
  clear Hq. intros r' Hr'. unfold revoke_token, mbind, svc_bind, gets in H.
  destruct (select_one _ _) as [row|] eqn:Hsel; [|done].
  apply select_one_some in Hsel as [Hrow Hlive]. unfold live_by_lookup in Hlive. to_prop.
  assert (row = r) as -> by by apply Hu.
  destruct (open_token _ _ _ _ _ w) as [o|]; [|done]. destruct (negb _); [done|].
  apply pair_equal_spec in H as [<- _]. cbn in Hr'. apply elem_of_update in Hr' as (r0 & Hr0 & ->).
  destruct (_ && _) eqn:E; [by unfold live_by_lookup; cbn; rewrite andb_false_r|].
  destruct (live_by_lookup token r0) eqn:Eb; [|done]. unfold live_by_lookup in Eb. to_prop.
  rewrite (Hu r0) in E by done. by rewrite String.eqb_refl in E.
Qed.

(** A token resolves only by being one: the answer names a row of the
    table that is not revoked, whose look-up key is the digest of the presented
    token and whose ciphertext opens, for that row's instance and provider, to
    exactly the presented token. *)
Theorem resolve_sound {codec : EnvelopeCodec} {th : TokenHash}
    (cipher : EnvelopeCipher) (ciphers : option CipherDirectory)
    (run : TokenRun) (token : string) (w w' : TokenWorld) (rec : TokenRecord)
    (Hres : token_resolve cipher ciphers run token w = (w', Ok (Some rec))) :
  exists r, r ∈ tw_tokens w /\ tk_revoked_at r = None /\ tk_lookup r = token_lookup_key token /\
    ot_plaintext <$> open_token cipher ciphers (tk_instance_id r) (tk_provider r) (tk_token r) w = Ok token /\
    rec = mkTokenRecord token (tk_instance_id r) (tk_provider r) (tk_created_at r) None
            (tk_expected_src_ip r).
Proof.
  unfold token_resolve, mbind, svc_bind, gets in Hres.
  destruct (select_one _ _) as [r|] eqn:Hsel; [|done]. exists r.
  apply select_one_some in Hsel as [Hr Hb]. unfold live_by_lookup, token_live in Hb. to_prop.
  destruct (open_token _ _ _ _ _ w) as [o|] eqn:Ho; [|done].
  destruct (ot_plaintext o =? token)%string eqn:Ep; cbn [negb] in Hres; [|done]. to_prop.
  destruct (rewrap_token_if_needed _ _ _ _ _ _ w) as [w1 [[]|]]; [|done].
  apply pair_equal_spec in Hres as [_ Hrec]. apply Ok_inj, Some_inj in Hrec as <-.
  cbn. rewrite Ep. split_and!; try done. by f_equal.
Qed.

(** ** Examples *)

Section examples.
#[local] Existing Instance toy_directory.
#[local] Existing Instance toy_codec.
#[local] Existing Instance toy_directory_ok.
#[local] Existing Instance toy_codec_ok.

Definition toy_hash : TokenHash := {| sha256_digest t := t; hex_text t := "#" +:+ t |}.
#[local] Existing Instance toy_hash.

Definition example_tokens : TokenWorld := mkTokenWorld [] [example_row "i" "a"; example_row "i2" "b"].
Definition example_token_run (uuid : string) : TokenRun := mkTokenRun (mkSealRun 5 "r") 100 uuid.
Definition minted_tokens : TokenWorld :=
  (token_mint (toy_cipher "k") (Some toy_directory) (example_token_run "u1") "i" "*" example_tokens).1.
Definition other_ops : list TokenOp :=
  [TkMint (example_token_run "u2") "i2" "*"; TkBind "i" " 10.0.0.1 "; TkRevokeInstance (example_token_run "") "i2"].

Lemma example_mint_row :
  exists s, mint_with_prefix (toy_cipher "k") (Some toy_directory) (example_token_run "u1") "pt_" "i" "*"
      example_tokens =
    (mkTokenWorld [mkTokenRow s "#pt_u1" "i" "*" 100 None None] (tw_instances example_tokens), Ok "pt_u1").
Proof.
  assert (for_context (token_context "i" (Some "a") "*") =
          Ok (mkVersioned "system" 1 (toy_cipher "system"))) as Hv by reflexivity.
  destruct (open_seal_inner (mkSealRun 5 "r") _ "pt_u1" None _ Hv) as (s & Hs & Hu & _).
  exists s. unfold mint_with_prefix, mbind, svc_bind, gets, lift, seal_token, seal_context_as_string,
    seal_context. cbn [tn_seal tn_uuid example_token_run].
  change (instance_owner_id "i" example_tokens) with (Some "a"). change ("pt_" +:+ "u1") with "pt_u1".
  rewrite Hs. cbn [mbind result_bind]. rewrite Hu. reflexivity.
Qed.

Lemma example_token_mint :
  mint_with_prefix (toy_cipher "k") (Some toy_directory) (example_token_run "u1") "pt_" "i" "*" example_tokens =
    (minted_tokens, Ok "pt_u1").
Proof.
  unfold minted_tokens, token_mint. destruct example_mint_row as [s Hs]. rewrite Hs. reflexivity.
Qed.

Lemma minted_row : exists s, tw_tokens minted_tokens = [mkTokenRow s "#pt_u1" "i" "*" 100 None None].
Proof.
  unfold minted_tokens, token_mint. destruct example_mint_row as [s Hs]. exists s.
  rewrite Hs. reflexivity.
Qed.

Lemma other_ops_fresh : fresh_runs (toy_cipher "k") (Some toy_directory) other_ops minted_tokens.
Proof.
  destruct minted_row as [s Hs].
  cbn [fresh_runs other_ops]. split_and!; try exact I. unfold fresh. cbn [minted]. rewrite Hs. cbn. clear. set_solver.
Qed.

Lemma token_valid_until_revoked_witness :
  exists w rec, token_resolve (toy_cipher "k") (Some toy_directory) (example_token_run "") "pt_u1" w =
      (w, Ok (Some rec)) /\ tr_instance_id rec = "i" /\
    w = token_runs (toy_cipher "k") (Some toy_directory) other_ops minted_tokens.
Proof.
  destruct (token_valid_until_revoked (toy_cipher "k") toy_directory (example_token_run "u1") (example_token_run "")
              "pt_" "i" "*" "pt_u1" example_tokens minted_tokens other_ops)
    as (rec & Hr & _ & Hi & _).
  - exact example_token_mint.
  - reflexivity.
  - cbn. set_solver.
  - cbn. constructor.
  - exact other_ops_fresh.
  - by repeat constructor.
  - exists (token_runs (toy_cipher "k") (Some toy_directory) other_ops minted_tokens), rec.
    split; [exact Hr|]. split; [exact Hi|reflexivity].
Defined.

Lemma revoked_token_stays_dead_witness :
  exists w, token_resolve (toy_cipher "k") (Some toy_directory) (example_token_run "") "pt_u1" w = (w, Ok None) /\
    w = token_runs (toy_cipher "k") (Some toy_directory) [TkBind "i" "10.0.0.1"]
          (revoke_for_instance (example_token_run "") "i" minted_tokens).1.
Proof.
  destruct minted_row as [s Hs]. eexists. split; [|reflexivity].
  apply (revoked_token_stays_dead (toy_cipher "k") (Some toy_directory) (example_token_run "") (example_token_run "")
           "pt_u1" (mkTokenRow s "#pt_u1" "i" "*" 100 None None) minted_tokens).
  - unfold tokens_wf. rewrite Hs. cbn. apply NoDup_singleton.
  - rewrite Hs. clear. set_solver.
  - reflexivity.
  - left. reflexivity.
  - split; exact I.
Defined.

Lemma resolve_sound_witness :
  exists r, r ∈ tw_tokens minted_tokens /\ tk_lookup r = "#pt_u1".
Proof.
  assert (exists rec, token_resolve (toy_cipher "k") (Some toy_directory) (example_token_run "") "pt_u1"
            minted_tokens = (minted_tokens, Ok (Some rec))) as [rec Hrec].
  { destruct (held_resolves (toy_cipher "k") (Some toy_directory) "pt_u1" "i" "*" (example_token_run "")
                minted_tokens) as (rec & Hr & _); [|by exists rec].
    eapply (mint_held (toy_cipher "k") toy_directory); [exact example_token_mint|reflexivity| |constructor].
    cbn. set_solver. }
  destruct (resolve_sound (toy_cipher "k") (Some toy_directory) (example_token_run "") "pt_u1" minted_tokens
              minted_tokens rec Hrec) as (r & Hr & _ & Hl & _).
  exists r. split; [exact Hr|exact Hl].
Defined.
End examples.
