(* ===== verification/Secrets.v ===== *)
(** * Secrets at rest

    Models [crates/core/src/secrets.rs] (user and system secrets, each sealed
    under its own envelope context) over the tables of
    [crates/core/src/db/sqlite/secrets.rs].  Each call may seal, so it takes
    the [SealRun] it would use; SQLite failures are not modelled. *)

From Stdlib Require Import ZArith Ascii Lia.
From stdpp Require Import base list strings gmap option.
From S2P Require Import Prelude RustStr Store Envelope.

Local Open Scope string_scope.
Local Open Scope list_scope.
Local Open Scope Z_scope.

(** [SecretsError] *)
Inductive SecretsError : Type :=
| SecretsStore (e : StoreError)
| SecretsEnvelope (e : EnvelopeError).

(** [user_secrets] and [system_secrets]: ciphertext by key *)
Record SecretDb : Type := mkSecretDb {
  user_rows : gmap (string * string) string;
  system_rows : gmap string string
}.

Abbreviation secrets := (svc SecretDb SecretsError).

(** [SqlxUserSecretStore::put], [get], [delete] *)
Definition user_row_put (user_id name ct : string) : secrets unit :=
  modify (fun db => mkSecretDb (<[(user_id, name) := ct]> (user_rows db)) (system_rows db)).
Definition user_row_get (user_id name : string) : secrets (option string) :=
  gets (fun db => user_rows db !! (user_id, name)).
Definition user_row_delete (user_id name : string) : secrets unit :=
  modify (fun db => mkSecretDb (delete (user_id, name) (user_rows db)) (system_rows db)).

(** [SqlxSystemSecretStore::put], [get], [delete] *)
Definition system_row_put (name ct : string) : secrets unit :=
  modify (fun db => mkSecretDb (user_rows db) (<[name := ct]> (system_rows db))).
Definition system_row_get (name : string) : secrets (option string) :=
  gets (fun db => system_rows db !! name).
Definition system_row_delete (name : string) : secrets unit :=
  modify (fun db => mkSecretDb (user_rows db) (delete name (system_rows db))).

(** [system_secret_context] *)
Definition system_secret_context (name : string) : KmsContext :=
  match RustStr.strip_prefix "instance." name ≫= RustStr.strip_suffix ".configure" with
  | Some id => if is_empty id then system_secret name else system_configure id name
  | None => system_secret name
  end.

Section secrets.
Context {dir : CipherDirectory} {codec : EnvelopeCodec}.

(** [UserSecretsService::put] *)
Definition user_put (sr : SealRun) (user_id name value : string) : secrets unit :=
  ct ← lift (map_err SecretsEnvelope (seal_context_as_string sr (user_secret user_id name) value));
  user_row_put user_id name ct.

(** [UserSecretsService::get]: a row under an old key is sealed again. *)
Definition user_get (sr : SealRun) (user_id name : string) : secrets (option string) :=
  found ← user_row_get user_id name;
  match found with
  | None => mret None
  | Some ct =>
      opened ← lift (map_err SecretsEnvelope (open_context (user_secret user_id name) ct));
      _ ← (if op_needs_rewrap opened then
             rewrapped ← lift (map_err SecretsEnvelope
                (rewrap_context_as_string sr (user_secret user_id name) (op_plaintext opened)));
             user_row_put user_id name rewrapped
           else mret tt);
      mret (Some (op_plaintext opened))
  end.

(** [UserSecretsService::delete] *)
Definition user_delete (user_id name : string) : secrets unit := user_row_delete user_id name.

(** [SystemSecretsService::put], [get], [get_str], [delete] *)
Definition system_put (sr : SealRun) (name value : string) : secrets unit :=
  ct ← lift (map_err SecretsEnvelope (seal_context_as_string sr (system_secret_context name) value));
  system_row_put name ct.
Definition system_get (sr : SealRun) (name : string) : secrets (option string) :=
  found ← system_row_get name;
  match found with
  | None => mret None
  | Some ct =>
      opened ← lift (map_err SecretsEnvelope (open_context (system_secret_context name) ct));
      _ ← (if op_needs_rewrap opened then
             rewrapped ← lift (map_err SecretsEnvelope
                (rewrap_context_as_string sr (system_secret_context name) (op_plaintext opened)));
             system_row_put name rewrapped
           else mret tt);
      mret (Some (op_plaintext opened))
  end.
Definition system_get_str (sr : SealRun) (name : string) : secrets (option string) :=
  found ← system_get sr name;
  match found with
  | None => mret None
  | Some bytes =>
      s ← lift (ok_or (SecretsEnvelope (Age ("system secret `" +:+ name +:+ "` is not utf-8")))
                  (from_utf8 bytes));
      mret (Some s)
  end.
Definition system_delete (name : string) : secrets unit := system_row_delete name.

(** ** What the services promise *)

(** The row of [name] opens to [value] under the active key. *)
Definition user_holds (db : SecretDb) (user_id name value : string) : Prop :=
  exists ct o, user_rows db !! (user_id, name) = Some ct /\
    open_context (user_secret user_id name) ct = Ok o /\
    op_plaintext o = value /\ op_needs_rewrap o = false.

Lemma user_get_holds sr db user name value :
  user_holds db user name value -> user_get sr user name db = (db, Ok (Some value)).
Proof.
  intros (ct & o & Hr & Ho & <- & Hn).
  unfold user_get, mbind, svc_bind, user_row_get, gets, lift, mret, svc_ret.
  by rewrite Hr, Ho; cbn; rewrite Hn.
Qed.

Lemma user_get_absent sr db user name :
  user_rows db !! (user, name) = None -> user_get sr user name db = (db, Ok None).
Proof.
  intros Hr. unfold user_get, mbind, svc_bind, user_row_get, gets, mret, svc_ret. by rewrite Hr.
Qed.

Context `{!CipherDirectoryOk dir, !EnvelopeCodecOk codec}.

Lemma seal_string_open sr c p v :
  for_context c = Ok v ->
  exists s, seal_context_as_string sr c p = Ok s /\
    open_context c s = Ok (mkOpened p (vc_key_id v) (vc_key_version v) false false).
Proof.
  intros Hv. destruct (open_seal_inner sr c p None v Hv) as (s & Hs & Hu & Ho).
  exists s. split; [|done]. unfold seal_context_as_string, seal_context. rewrite Hs. cbn.
  by rewrite Hu.
Qed.

(** Storing a secret succeeds, makes it the one held and touches no other. *)
Lemma user_put_holds sr db user name value v :
  for_context (user_secret user name) = Ok v ->
  exists db', user_put sr user name value db = (db', Ok tt) /\
    user_holds db' user name value /\
    (forall k, k <> (user, name) -> user_rows db' !! k = user_rows db !! k) /\
    system_rows db' = system_rows db.
Proof.
  intros Hv. destruct (seal_string_open sr (user_secret user name) value v Hv) as (s & Hs & Ho).
  unfold user_put, mbind, svc_bind, lift. rewrite Hs. cbn [map_err]. eexists.
  split; [reflexivity|]. cbn [user_rows system_rows]. split_and!; [|by intros; rewrite lookup_insert_ne|done].
  exists s. eexists. cbn [user_rows]. rewrite lookup_insert_eq. split_and!; [done|exact Ho|done..].
Qed.

(** Reading a secret leaves it held under the active key, whatever key it
    was under, and touches no other row. *)
Lemma user_get_then_holds sr db db' user name value :
  user_get sr user name db = (db', Ok (Some value)) ->
  user_holds db' user name value /\
  forall k, k <> (user, name) -> user_rows db' !! k = user_rows db !! k.
Proof.
  unfold user_get. intros H. inv_svc. unfold user_row_get in *. inv_svc.
  destruct (user_rows db !! (user, name)) as [ct|] eqn:Hr; [|inv_svc; done].
  inv_svc. match goal with H : map_err _ _ = Ok ?o |- _ => apply map_err_ok in H; rename H into Ho; rename o into opened end.
  match goal with H : Some _ = Some _ |- _ => apply Some_inj in H; subst end.
  destruct (op_needs_rewrap _) eqn:Hn; inv_svc.
  - match goal with H : map_err _ (rewrap_context_as_string _ _ _) = Ok ?s |- _ =>
      apply map_err_ok in H; rename H into Hw; rename s into fresh end.
    unfold user_row_put in *. inv_svc. cbn [user_rows]. split.
    + unfold rewrap_context_as_string, rewrap_context in Hw. inv_ok.
      match goal with H : seal_context_inner _ _ _ _ = Ok ?b |- _ => rename H into Hs; rename b into sealed end.
      assert (exists v, for_context (user_secret user name) = Ok v) as [v Hv].
      { unfold seal_context_inner in Hs. inv_ok. eauto. }
      destruct (open_seal_inner sr (user_secret user name) (op_plaintext opened) (Some (sr_now sr)) v Hv)
        as (s' & Hs' & Hu & Ho'). rewrite Hs in Hs'. apply Ok_inj in Hs' as ->.
      rewrite Hu in *. simplify_eq. exists fresh. eexists.
      cbn [user_rows]. rewrite lookup_insert_eq. split_and!; [done|exact Ho'|done..].
    + intros k Hk. by rewrite lookup_insert_ne.
  - split; [|done]. exists ct, opened. done.
Qed.
End secrets.

(** Another row of the table does not matter to what a row holds. *)
Lemma user_holds_frame {dir : CipherDirectory} {codec : EnvelopeCodec} db db' user name value :
  user_rows db' !! (user, name) = user_rows db !! (user, name) ->
  user_holds db user name value -> user_holds db' user name value.
Proof. intros Hr (ct & o & H & Ho). exists ct, o. by rewrite Hr. Qed.
