(* ===== verification/McpRecords.v ===== *)
(** * MCP server records

    Models the part of [crates/core/src/mcp_servers.rs] that keeps the MCP
    servers of an instance: one sealed user secret per server and an index
    secret that lists their names, and the stanza an agent sees.  serde_json
    is the class [McpCodec]; each sealing of a call takes its own [SealRun]. *)

From Stdlib Require Import ZArith Ascii Lia.
From stdpp Require Import base list strings gmap option countable.
From S2P Require Import Prelude RustStr Json Codec Store Envelope Secrets.

Local Open Scope string_scope.
Local Open Scope list_scope.
Local Open Scope Z_scope.

(** ** Data *)

Inductive McpAuthSpec : Type :=
| AuthNone
| AuthBearer (token : string)
| AuthOauth (scopes : list string) (client_id client_secret authorization_url token_url
    registration_url : option string).

Record McpServerSpec : Type := mkMcpSpec {
  ms_name : string;
  ms_url : string;
  ms_auth : McpAuthSpec;
  ms_enabled_tools : option (list string)
}.

Inductive McpRuntimeSpec : Type :=
| DockerStdio (command : string) (args : list string) (env : gmap string string)
| HttpStreamable (url : string) (headers : gmap string string) (auth_bearer_env : option string).

Record McpDockerCatalogBinding : Type := mkBinding {
  db_id : string;
  db_placeholders : gmap string string
}.
Record McpToolSummary : Type := mkTool { ts_name : string; ts_description : option string }.
Record McpToolsCatalog : Type := mkCatalog { tc_tools : list McpToolSummary; tc_last_checked_at : Z }.
Record McpCheckError : Type := mkCheckError { ce_message : string; ce_checked_at : Z }.
Record McpOAuthTokens : Type := mkOauth {
  oa_access_token : string;
  oa_refresh_token : option string;
  oa_expires_at : option Z;
  oa_token_url : string;
  oa_client_id : string;
  oa_client_secret : option string
}.

Record McpServerEntry : Type := mkMcpEntry {
  me_url : string;
  me_auth : McpAuthSpec;
  me_headers : gmap string string;
  me_runtime : option McpRuntimeSpec;
  me_docker_catalog : option McpDockerCatalogBinding;
  me_raw_vscode_config : option json;
  me_oauth_tokens : option McpOAuthTokens;
  me_tools_catalog : option McpToolsCatalog;
  me_last_check_error : option McpCheckError;
  me_enabled_tools : option (list string)
}.

(** [McpOAuthTokens::needs_refresh] *)
Definition needs_refresh (t : McpOAuthTokens) (now : Z) : bool :=
  match oa_expires_at t with Some e => e - 60 <=? now | None => false end.

(** [McpServerEntry::from_spec] *)
Definition from_spec (spec : McpServerSpec) : string * McpServerEntry :=
  (ms_name spec,
   mkMcpEntry (ms_url spec) (ms_auth spec) ∅ None None None None None None (ms_enabled_tools spec)).

(** [serde_json::to_vec] and [from_slice] of entries and of name lists *)
Class McpCodec : Type := {
  entry_to_vec : McpServerEntry -> result string string;
  entry_from_slice : string -> result string McpServerEntry;
  names_to_vec : list string -> result string string;
  names_from_slice : string -> result string (list string)
}.
Class McpCodecOk (c : McpCodec) : Prop := {
  entry_round_trip : forall e, exists s, entry_to_vec e = Ok s /\ entry_from_slice s = Ok e;
  names_round_trip : forall l, exists s, names_to_vec l = Ok s /\ names_from_slice s = Ok l
}.

(** [entry_key], [index_key] *)
Definition entry_key (instance_id server_name : string) : string :=
  "mcp." +:+ instance_id +:+ "." +:+ server_name.
Definition index_key (instance_id : string) : string := "mcp." +:+ instance_id +:+ "._index".

(** A serialisation error as the code reports it *)
Definition serde_err (what : string) (e : string) : SecretsError :=
  SecretsEnvelope (Age (what +:+ ": " +:+ e)).

Section records.
Context {dir : CipherDirectory} {codec : EnvelopeCodec} {mc : McpCodec}.

(** [put] *)
Definition mcp_put (sr : SealRun) (owner_id instance_id server_name : string) (entry : McpServerEntry) :
  secrets unit :=
  blob ← lift (map_err (serde_err "serialise mcp entry") (entry_to_vec entry));
  user_put sr owner_id (entry_key instance_id server_name) blob.

(** The write of the index row *)
Definition put_index (sr : SealRun) (owner_id instance_id : string) (names : list string) : secrets unit :=
  idx ← lift (map_err (serde_err "serialise mcp index") (names_to_vec names));
  user_put sr owner_id (index_key instance_id) idx.

(** [put_all]; [runs k] is the sealing of the [k]-th write *)
Fixpoint put_specs (runs : nat -> SealRun) (owner_id instance_id : string) (specs : list McpServerSpec) :
  secrets unit :=
  match specs with
  | [] => mret tt
  | spec :: specs =>
      let '(name, entry) := from_spec spec in
      _ ← mcp_put (runs 0%nat) owner_id instance_id name entry;
      put_specs (fun k => runs (S k)) owner_id instance_id specs
  end.
Definition put_all (runs : nat -> SealRun) (owner_id instance_id : string) (specs : list McpServerSpec) :
  secrets unit :=
  _ ← put_specs runs owner_id instance_id specs;
  put_index (runs (length specs)) owner_id instance_id (map ms_name specs).

(** [get] *)
Definition mcp_get (sr : SealRun) (owner_id instance_id server_name : string) :
  secrets (option McpServerEntry) :=
  found ← user_get sr owner_id (entry_key instance_id server_name);
  match found with
  | None => mret None
  | Some bytes =>
      entry ← lift (map_err (serde_err "parse mcp entry") (entry_from_slice bytes));
      mret (Some entry)
  end.

(** [list_names] *)
Definition list_names (sr : SealRun) (owner_id instance_id : string) : secrets (list string) :=
  found ← user_get sr owner_id (index_key instance_id);
  match found with
  | None => mret []
  | Some bytes => lift (map_err (serde_err "parse mcp index") (names_from_slice bytes))
  end.

(** [copy_all]; entry [k] is read and written with [runs (2 * k)] and the next *)
Fixpoint copy_entries (runs : nat -> SealRun) (owner_id src dst : string) (names : list string) :
  secrets nat :=
  match names with
  | [] => mret 0%nat
  | name :: names =>
      entry ← mcp_get (runs 0%nat) owner_id src name;
      match entry with
      | None => copy_entries (fun k => runs (2 + k)%nat) owner_id src dst names
      | Some entry =>
          _ ← mcp_put (runs 1%nat) owner_id dst name entry;
          copied ← copy_entries (fun k => runs (2 + k)%nat) owner_id src dst names;
          mret (S copied)
      end
  end.
Definition copy_all (runs : nat -> SealRun) (owner_id src dst : string) : secrets nat :=
  names ← list_names (runs 0%nat) owner_id src;
  copied ← copy_entries (fun k => runs (S k)) owner_id src dst names;
  _ ← (if bool_decide (names = []) then mret tt
       else put_index (runs (S (2 * length names))) owner_id dst names);
  mret copied.

(** [forget_all]; a failed delete is logged and the loop goes on *)
Fixpoint forget_entries (owner_id instance_id : string) (names : list string) : secrets unit :=
  match names with
  | [] => mret tt
  | name :: names =>
      _ ← best_effort (user_delete owner_id (entry_key instance_id name));
      forget_entries owner_id instance_id names
  end.
Definition forget_all (sr : SealRun) (owner_id instance_id : string) : secrets unit :=
  names ← list_names sr owner_id instance_id;
  _ ← forget_entries owner_id instance_id names;
  best_effort (user_delete owner_id (index_key instance_id)).
End records.

(** [swarm_origin_from_proxy_base] *)
Definition swarm_origin_from_proxy_base (proxy_base : string) : string :=
  let trimmed := trim_end_matches "/" proxy_base in
  default trimmed (strip_suffix "/llm" trimmed).

(** [dyson_json_block] *)
Definition dyson_json_block (instance_id name proxy_base proxy_token : string) : json :=
  JObject [("url", JString (swarm_origin_from_proxy_base proxy_base +:+ "/mcp/" +:+ instance_id
                            +:+ "/" +:+ name));
           ("headers", JObject [("Authorization", JString ("Bearer " +:+ proxy_token))])].

(** ** What the records promise *)

Lemma entry_key_inj i n n' : entry_key i n = entry_key i n' -> n = n'.
Proof. unfold entry_key. intros H. by apply (inj _), (inj _), (inj _) in H. Qed.

Lemma entry_key_index i n : entry_key i n = index_key i <-> n = "_index".
Proof.
  split; [|by intros ->]. change (index_key i) with (entry_key i "_index"). apply entry_key_inj.
Qed.

Section records_ok.
Context {dir : CipherDirectory} {codec : EnvelopeCodec} {mc : McpCodec}.

(** The record of a server is there, sealed under the active key. *)
Definition entry_held (db : SecretDb) (owner instance name : string) (entry : McpServerEntry) : Prop :=
  exists blob, user_holds db owner (entry_key instance name) blob /\ entry_from_slice blob = Ok entry.
Definition index_held (db : SecretDb) (owner instance : string) (names : list string) : Prop :=
  exists blob, user_holds db owner (index_key instance) blob /\ names_from_slice blob = Ok names.

Lemma mcp_get_held sr db owner i name entry :
  entry_held db owner i name entry -> mcp_get sr owner i name db = (db, Ok (Some entry)).
Proof.
  intros (blob & Hh & Hd). unfold mcp_get, mbind, svc_bind. rewrite (user_get_holds sr db _ _ blob Hh).
  unfold lift. by rewrite Hd.
Qed.

Lemma list_names_held sr db owner i names :
  index_held db owner i names -> list_names sr owner i db = (db, Ok names).
Proof.
  intros (blob & Hh & Hd). unfold list_names, mbind, svc_bind. rewrite (user_get_holds sr db _ _ blob Hh).
  unfold lift. by rewrite Hd.
Qed.

Lemma entry_held_frame db db' owner i name entry :
  user_rows db' !! (owner, entry_key i name) = user_rows db !! (owner, entry_key i name) ->
  entry_held db owner i name entry -> entry_held db' owner i name entry.
Proof. intros Hr (blob & Hh & Hd). exists blob. split; [by eapply user_holds_frame|done]. Qed.

(** Reading the index changes at most the ciphertext of the index row. *)
Lemma list_names_frame sr owner i db db' names k :
  list_names sr owner i db = (db', Ok names) -> k <> (owner, index_key i) ->
  user_rows db' !! k = user_rows db !! k.
Proof.
  intros H Hk. unfold list_names in H. inv_svc.
  match goal with H : user_get _ _ _ _ = (?w, Ok ?o) |- _ => rename H into Hg; rename w into w1; rename o into found end.
  assert (db' = w1) as -> by (destruct found; inv_svc; done).
  unfold user_get in Hg. inv_svc. unfold user_row_get in *. inv_svc.
  destruct (user_rows db !! (owner, index_key i)) as [ct|]; [|inv_svc; done]. inv_svc.
  destruct (op_needs_rewrap _); inv_svc; [|done]. unfold user_row_put in *. inv_svc. cbn.
  by rewrite lookup_insert_ne.
Qed.

Lemma forget_entries_rows owner i names db :
  exists db', forget_entries owner i names db = (db', Ok tt) /\
    forall k, user_rows db' !! k =
      if bool_decide (k ∈ map (fun n => (owner, entry_key i n)) names) then None else user_rows db !! k.
Proof.
  revert db. induction names as [|n names IH]; intros db; [by exists db|].
  destruct (IH (user_delete owner (entry_key i n) db).1) as (db' & He & Hr). exists db'.
  split; [exact He|]. intros k. rewrite Hr. cbn [user_delete user_row_delete modify fst user_rows map].
  destruct (decide (k = (owner, entry_key i n))) as [->|Hk].
  - rewrite lookup_delete_eq, (bool_decide_eq_true_2 (_ ∈ _ :: _)) by set_solver. by case_bool_decide.
  - rewrite lookup_delete_ne by done. do 2 case_bool_decide; set_solver.
Qed.

Lemma forget_all_spec sr owner i db :
  match list_names sr owner i db with
  | (_, Ok names) =>
      exists db', forget_all sr owner i db = (db', Ok tt) /\
        forall k, user_rows db' !! k =
          if bool_decide (k ∈ (owner, index_key i) :: map (fun n => (owner, entry_key i n)) names)
          then None else user_rows db !! k
  | (db', Err e) => forget_all sr owner i db = (db', Err e)
  end.
Proof.
  unfold forget_all, mbind, svc_bind. destruct (list_names sr owner i db) as [db1 [names|e]] eqn:Hl; [|done].
  destruct (forget_entries_rows owner i names db1) as (db2 & He & Hr). rewrite He. eexists.
  split; [reflexivity|]. intros k. cbn [user_delete user_row_delete modify fst user_rows].
  destruct (decide (k = (owner, index_key i))) as [->|Hk].
  - by rewrite lookup_delete_eq, bool_decide_eq_true_2 by set_solver.
  - rewrite lookup_delete_ne, Hr, (list_names_frame sr owner i db db1 names k Hl) by done.
    do 2 case_bool_decide; set_solver.
Qed.

Lemma forget_all_removes sr owner i db names n :
  (list_names sr owner i db).2 = Ok names -> n ∈ names ->
  user_rows (forget_all sr owner i db).1 !! (owner, entry_key i n) = None.
Proof.
  intros Hl Hn. pose proof (forget_all_spec sr owner i db) as H.
  destruct (list_names sr owner i db) as [db1 r]. cbn in Hl. subst r. destruct H as (db' & -> & H).
  cbn [fst]. rewrite H, bool_decide_eq_true_2; [done|]. apply elem_of_cons. right.
  by apply (list_elem_of_fmap_2 (fun n => (owner, entry_key i n))).
Qed.

(** At most [owner]'s records of instance [i] differ. *)
Definition spares_other_secrets (owner i : string) (db db' : SecretDb) : Prop :=
  system_rows db' = system_rows db /\
  forall k, (forall n, k <> (owner, entry_key i n)) -> user_rows db' !! k = user_rows db !! k.

#[global] Instance spares_other_secrets_preorder owner i : PreOrder (spares_other_secrets owner i).
Proof.
  split; [done|]. intros a b c [H1 H2] [H3 H4]. split; [congruence|].
  intros k Hk. by rewrite H4, H2.
Qed.

Lemma user_get_spares sr owner i n : framed (spares_other_secrets owner i) (user_get sr owner (entry_key i n)).
Proof.
  unfold user_get, user_row_get, user_row_put. framed. intros db. split; [done|].
  intros k Hk. cbn. by rewrite (lookup_insert_ne _ _ _ _ (not_eq_sym (Hk n))).
Qed.

Lemma user_delete_spares owner i n : framed (spares_other_secrets owner i) (user_delete owner (entry_key i n)).
Proof.
  unfold user_delete, user_row_delete. intros db. split; [done|].
  intros k Hk. cbn. by rewrite (lookup_delete_ne _ _ _ (not_eq_sym (Hk n))).
Qed.

Lemma forget_all_spares sr owner i : framed (spares_other_secrets owner i) (forget_all sr owner i).
Proof.
  unfold forget_all, list_names. apply framed_bind; [apply _| |intros names].
  { apply framed_bind; [apply _| |intros ?; framed]. apply (user_get_spares sr owner i "_index"). }
  apply framed_bind; [apply _| |intros ?].
  - induction names as [|n names IH]; cbn [forget_entries]; [framed|].
    apply framed_bind; [apply _| |intros ?; exact IH]. apply framed_best_effort, user_delete_spares.
  - apply framed_best_effort, (user_delete_spares owner i "_index").
Qed.

(** Forgetting the servers of an instance removes their records and the
    index, and no other secret, whatever the index lists. *)
Theorem forget_all_exact (sr : SealRun) (owner i : string) (db : SecretDb) :
  match list_names sr owner i db with
  | (_, Ok names) =>
      exists db', forget_all sr owner i db = (db', Ok tt) /\
        forall k, user_rows db' !! k =
          if bool_decide (k ∈ (owner, index_key i) :: map (fun n => (owner, entry_key i n)) names)
          then None else user_rows db !! k
  | (db', Err e) => forget_all sr owner i db = (db', Err e)
  end.
Proof. apply forget_all_spec. Qed.

Context `{!CipherDirectoryOk dir, !EnvelopeCodecOk codec, !McpCodecOk mc}.

(** The owner's keys are there. *)
Definition owner_ready (owner : string) : Prop :=
  forall name, exists v, for_context (user_secret owner name) = Ok v.

Lemma mcp_put_held sr owner i name entry db :
  owner_ready owner ->
  exists db', mcp_put sr owner i name entry db = (db', Ok tt) /\ entry_held db' owner i name entry /\
    forall k, k <> (owner, entry_key i name) -> user_rows db' !! k = user_rows db !! k.
Proof.
  intros Hready. destruct (entry_round_trip entry) as (blob & Ht & Hf).
  destruct (Hready (entry_key i name)) as [v Hv].
  destruct (user_put_holds sr db owner (entry_key i name) blob v Hv) as (db' & Hp & Hh & Hfr & _).
  exists db'. unfold mcp_put, mbind, svc_bind, lift. rewrite Ht. cbn [map_err].
  split_and!; [done|by exists blob|done].
Qed.

Lemma put_index_held sr owner i names db :
  owner_ready owner ->
  exists db', put_index sr owner i names db = (db', Ok tt) /\ index_held db' owner i names /\
    forall k, k <> (owner, index_key i) -> user_rows db' !! k = user_rows db !! k.
Proof.
  intros Hready. destruct (names_round_trip names) as (blob & Ht & Hf).
  destruct (Hready (index_key i)) as [v Hv].
  destruct (user_put_holds sr db owner (index_key i) blob v Hv) as (db' & Hp & Hh & Hfr & _).
  exists db'. unfold put_index, mbind, svc_bind, lift. rewrite Ht. cbn [map_err].
  split_and!; [done|by exists blob|done].
Qed.

Lemma put_specs_held runs owner i specs db :
  owner_ready owner -> NoDup (map ms_name specs) ->
  exists db', put_specs runs owner i specs db = (db', Ok tt) /\
    (forall spec, spec ∈ specs -> entry_held db' owner i (ms_name spec) (from_spec spec).2) /\
    forall k, k ∉ map (fun spec => (owner, entry_key i (ms_name spec))) specs ->
      user_rows db' !! k = user_rows db !! k.
Proof.
  intros Hready. revert runs db. induction specs as [|spec specs IH]; intros runs db Hnd.
  { exists db. split_and!; [done|set_solver|done]. }
  cbn [map] in Hnd. apply list.NoDup_cons in Hnd as [Hnin Hnd].
  destruct (mcp_put_held (runs 0%nat) owner i (ms_name spec) (from_spec spec).2 db Hready) as (d1 & Hp & Hh & Hf).
  destruct (IH (fun k => runs (S k)) d1 Hnd) as (d2 & Hs & Hall & Hfr). exists d2.
  cbn [put_specs from_spec]. unfold mbind at 1, svc_bind at 1. unfold from_spec in Hp. cbn [snd] in Hp. rewrite Hp.
  split_and!; [done| |].
  - intros s [->|Hs']%elem_of_cons; [|by apply Hall]. eapply entry_held_frame; [|exact Hh]. apply Hfr.
    intros (s' & He & Hin)%list_elem_of_fmap. apply (f_equal snd) in He. cbn [snd] in He. apply entry_key_inj in He.
    apply Hnin. rewrite He. by apply list_elem_of_fmap_2.
  - intros k Hk. cbn [map] in Hk. rewrite Hfr by set_solver. apply Hf. set_solver.
Qed.

Lemma put_all_held runs owner i specs db :
  owner_ready owner -> NoDup (map ms_name specs) -> "_index" ∉ map ms_name specs ->
  exists db', put_all runs owner i specs db = (db', Ok tt) /\
    index_held db' owner i (map ms_name specs) /\
    (forall spec, spec ∈ specs -> entry_held db' owner i (ms_name spec) (from_spec spec).2) /\
    forall k, k ∉ (owner, index_key i) :: map (fun spec => (owner, entry_key i (ms_name spec))) specs ->
      user_rows db' !! k = user_rows db !! k.
Proof.
  intros Hready Hnd Hidx.
  destruct (put_specs_held runs owner i specs db Hready Hnd) as (d1 & Hs & Hall & Hf).
  destruct (put_index_held (runs (length specs)) owner i (map ms_name specs) d1 Hready) as (d2 & Hp & Hi & Hf').
  exists d2. unfold put_all. unfold mbind at 1, svc_bind at 1. rewrite Hs. split_and!; [done|done| |].
  - intros spec Hin. eapply entry_held_frame; [|by apply Hall]. apply Hf'. intros He.
    apply (f_equal snd) in He. cbn [snd] in He. apply entry_key_index in He. apply Hidx. rewrite <- He. by apply list_elem_of_fmap_2.
  - intros k Hk. rewrite Hf' by set_solver. apply Hf. set_solver.
Qed.
End records_ok.

(** The MCP servers given at creation are kept: all writes succeed, the
    index lists exactly their names, each record reads back as its
    specification, and no other secret of anybody changes. *)
Theorem put_all_reads_back {dir : CipherDirectory} {codec : EnvelopeCodec} {mc : McpCodec}
    `{!CipherDirectoryOk dir, !EnvelopeCodecOk codec, !McpCodecOk mc}
    (runs : nat -> SealRun) (sr : SealRun) (owner i : string) (specs : list McpServerSpec) (db : SecretDb)
    (Hready : owner_ready owner) (Hnd : NoDup (map ms_name specs))
    (Hidx : "_index" ∉ map ms_name specs) :
  exists db', put_all runs owner i specs db = (db', Ok tt) /\
    list_names sr owner i db' = (db', Ok (map ms_name specs)) /\
    (forall spec, spec ∈ specs ->
       mcp_get sr owner i (ms_name spec) db' = (db', Ok (Some (from_spec spec).2))) /\
    forall k, k ∉ (owner, index_key i) :: map (fun spec => (owner, entry_key i (ms_name spec))) specs ->
      user_rows db' !! k = user_rows db !! k.
Proof.
  destruct (put_all_held runs owner i specs db Hready Hnd Hidx) as (db' & Hp & Hi & He & Hf).
  exists db'. split_and!; [done|by apply list_names_held| |done].
  intros spec Hs. by apply mcp_get_held, He.
Qed.

(** ** A concrete codec *)

#[global] Instance McpAuthSpec_eq_dec : EqDecision McpAuthSpec.
Proof. solve_decision. Defined.
#[global] Instance McpAuthSpec_countable : Countable McpAuthSpec.
Proof.
  refine (inj_countable'
    (fun a => match a with
              | AuthNone => inl (inl ())
              | AuthBearer t => inl (inr t)
              | AuthOauth s c k a t r => inr (s, c, k, (a, t, r))
              end)
    (fun x => match x with
              | inl (inl _) => AuthNone
              | inl (inr t) => AuthBearer t
              | inr (s, c, k, (a, t, r)) => AuthOauth s c k a t r
              end) _). by intros [].
Defined.
#[global] Instance McpRuntimeSpec_eq_dec : EqDecision McpRuntimeSpec.
Proof. solve_decision. Defined.
#[global] Instance McpRuntimeSpec_countable : Countable McpRuntimeSpec.
Proof.
  refine (inj_countable'
    (fun r => match r with DockerStdio c a e => inl (c, a, e) | HttpStreamable u h b => inr (u, h, b) end)
    (fun x => match x with inl (c, a, e) => DockerStdio c a e | inr (u, h, b) => HttpStreamable u h b end) _).
  by intros [].
Defined.
#[global] Instance McpDockerCatalogBinding_eq_dec : EqDecision McpDockerCatalogBinding.
Proof. solve_decision. Defined.
#[global] Instance McpDockerCatalogBinding_countable : Countable McpDockerCatalogBinding.
Proof.
  refine (inj_countable' (fun b => (db_id b, db_placeholders b)) (fun '(i, p) => mkBinding i p) _). by intros [].
Defined.
#[global] Instance McpToolSummary_eq_dec : EqDecision McpToolSummary.
Proof. solve_decision. Defined.
#[global] Instance McpToolSummary_countable : Countable McpToolSummary.
Proof.
  refine (inj_countable' (fun b => (ts_name b, ts_description b)) (fun '(i, p) => mkTool i p) _). by intros [].
Defined.
#[global] Instance McpToolsCatalog_eq_dec : EqDecision McpToolsCatalog.
Proof. solve_decision. Defined.
#[global] Instance McpToolsCatalog_countable : Countable McpToolsCatalog.
Proof.
  refine (inj_countable' (fun b => (tc_tools b, tc_last_checked_at b)) (fun '(i, p) => mkCatalog i p) _).
  by intros [].
Defined.
#[global] Instance McpCheckError_eq_dec : EqDecision McpCheckError.
Proof. solve_decision. Defined.
#[global] Instance McpCheckError_countable : Countable McpCheckError.
Proof.
  refine (inj_countable' (fun b => (ce_message b, ce_checked_at b)) (fun '(i, p) => mkCheckError i p) _).
  by intros [].
Defined.
#[global] Instance McpOAuthTokens_eq_dec : EqDecision McpOAuthTokens.
Proof. solve_decision. Defined.
#[global] Instance McpOAuthTokens_countable : Countable McpOAuthTokens.
Proof.
  refine (inj_countable'
    (fun t => (oa_access_token t, oa_refresh_token t, oa_expires_at t,
               (oa_token_url t, oa_client_id t, oa_client_secret t)))
    (fun '(a, r, e, (u, c, s)) => mkOauth a r e u c s) _). by intros [].
Defined.
#[global] Instance McpServerEntry_eq_dec : EqDecision McpServerEntry.
Proof. solve_decision. Defined.
#[global] Instance McpServerEntry_countable : Countable McpServerEntry.
Proof.
  refine (inj_countable'
    (fun e => (me_url e, me_auth e, me_headers e, me_runtime e,
               (me_docker_catalog e, me_raw_vscode_config e, me_oauth_tokens e),
               (me_tools_catalog e, me_last_check_error e, me_enabled_tools e)))
    (fun '(u, a, h, r, (d, v, o), (t, l, n)) => mkMcpEntry u a h r d v o t l n) _). by intros [].
Defined.

Definition toy_mcp : McpCodec := {|
  entry_to_vec e := Ok (to_text e);
  entry_from_slice s := ok_or "entry" (of_text s);
  names_to_vec l := Ok (to_text l);
  names_from_slice s := ok_or "names" (of_text s)
|}.

Lemma toy_mcp_ok : McpCodecOk toy_mcp.
Proof.
  split; cbn [entry_to_vec entry_from_slice names_to_vec names_from_slice toy_mcp]; intros x;
    exists (to_text x); by rewrite of_to_text.
Qed.

Definition example_specs : list McpServerSpec :=
  [mkMcpSpec "github" "https://mcp.example/github" (AuthBearer "t") None;
   mkMcpSpec "notes" "https://mcp.example/notes" AuthNone (Some ["read"])].

Lemma put_all_reads_back_witness :
  exists db', put_all (dir := toy_directory) (codec := toy_codec) (mc := toy_mcp)
      (fun k => mkSealRun (Z.of_nat k) "r") "u1" "i" example_specs (mkSecretDb ∅ ∅) = (db', Ok tt) /\
    list_names (dir := toy_directory) (codec := toy_codec) (mc := toy_mcp) (mkSealRun 9 "r") "u1" "i" db' =
      (db', Ok ["github"; "notes"]).
Proof.
  destruct (put_all_reads_back (dir := toy_directory) (codec := toy_codec) (mc := toy_mcp)
    (CipherDirectoryOk0 := toy_directory_ok) (EnvelopeCodecOk0 := toy_codec_ok) (McpCodecOk0 := toy_mcp_ok)
    (fun k => mkSealRun (Z.of_nat k) "r") (mkSealRun 9 "r") "u1" "i" example_specs (mkSecretDb ∅ ∅))
    as (db' & Hp & Hl & _).
  - intros name. eexists. reflexivity.
  - repeat constructor; set_solver.
  - set_solver.
  - exists db'. split; [exact Hp|exact Hl].
Defined.
