(* ===== verification/Shares.v ===== *)
(** * Signed share links

    Models [crates/core/src/shares/mod.rs] (tokens and signing keys),
    [shares/service.rs] (minting, revoking, verifying) and
    [crates/core/src/db/sqlite/shares.rs] (the share table).  Postcard,
    base64url, hex and HMAC-SHA-256 are the class [ShareCodec]; the artefact
    cache is read through [ShareEnv]; each call takes its clock readings and
    random bytes as a [ShareRun]. *)

From Stdlib Require Import ZArith Ascii Lia.
From stdpp Require Import base list strings gmap option.
From S2P Require Import Prelude RustStr Codec Store NetworkPolicy Traits Envelope InstanceStore Secrets.

Local Open Scope string_scope.
Local Open Scope list_scope.
Local Open Scope Z_scope.

(** [SharePayload]; [pl_jti] is sixteen bytes. *)
Record SharePayload : Type := mkPayload {
  sp_v : Z;
  sp_user_id : string;
  sp_instance_id : string;
  sp_chat_id : string;
  sp_artefact_id : string;
  sp_exp : Z;
  sp_jti : string
}.

(** [ShareTtl] *)
Inductive ShareTtl : Type := Day | Week | Month | Never.

Definition NEVER_DELTA_SECS : Z := 100 * 365 * 24 * 3600.

(** [ShareTtl::parse], [ShareTtl::seconds] *)
Definition ttl_parse (s : string) : option ShareTtl :=
  if (s =? "1d")%string then Some Day
  else if (s =? "7d")%string then Some Week
  else if (s =? "30d")%string then Some Month
  else if (s =? "never")%string then Some Never
  else None.
Definition ttl_seconds (t : ShareTtl) : Z :=
  match t with
  | Day => 24 * 3600
  | Week => 7 * 24 * 3600
  | Month => 30 * 24 * 3600
  | Never => NEVER_DELTA_SECS
  end.

(** [ShareError], [RejectReason] *)
Inductive ShareError : Type :=
| ShMalformed | ShExpired | ShUnknownUser | ShBadSig | ShSecrets (e : SecretsError).
Inductive RejectReason : Type := RParse | RExpired | RUnknownUser | RBadSig.

(** [ShareError::reject_reason] *)
Definition reject_reason (e : ShareError) : RejectReason :=
  match e with
  | ShMalformed => RParse
  | ShExpired => RExpired
  | ShUnknownUser | ShSecrets _ => RUnknownUser
  | ShBadSig => RBadSig
  end.

(** [ShareMetrics]: atomic [u64] counters *)
Record ShareMetrics : Type := mkMetrics {
  reject_parse : Z;
  reject_expired : Z;
  reject_unknown_user : Z;
  reject_bad_sig : Z;
  accept_total : Z
}.

(** [fetch_add(1)] wraps. *)
Definition bump (n : Z) : Z := (n + 1) mod (u64_max + 1).

(** [ShareMetrics::record_reject], [record_accept] *)
Definition record_reject (r : RejectReason) (m : ShareMetrics) : ShareMetrics :=
  let '(mkMetrics p e u b a) := m in
  match r with
  | RParse => mkMetrics (bump p) e u b a
  | RExpired => mkMetrics p (bump e) u b a
  | RUnknownUser => mkMetrics p e (bump u) b a
  | RBadSig => mkMetrics p e u (bump b) a
  end.
Definition record_accept (m : ShareMetrics) : ShareMetrics :=
  let '(mkMetrics p e u b a) := m in mkMetrics p e u b (bump a).

(** [ShareRow], [ShareAccessRow] *)
Record ShareRow : Type := mkShareRow {
  sh_jti : string;
  sh_instance_id : string;
  sh_chat_id : string;
  sh_artefact_id : string;
  sh_artefact_title : option string;
  sh_created_by : string;
  sh_created_at : Z;
  sh_expires_at : Z;
  sh_revoked_at : option Z;
  sh_label : option string
}.
Record ShareAccessRow : Type := mkAccess {
  ac_id : Z;
  ac_jti : string;
  ac_accessed_at : Z;
  ac_remote_addr : option string;
  ac_user_agent : option string;
  ac_status : Z
}.

(** postcard, base64 (URL-safe, no padding), hex and HMAC-SHA-256 *)
Class ShareCodec : Type := {
  postcard_to : SharePayload -> option string;
  postcard_from : string -> option SharePayload;
  b64url_encode : string -> string;
  b64url_decode : string -> option string;
  hex_encode : string -> string;
  hex_decode_16 : string -> option string;
  hmac_sha256 : string -> string -> string
}.

(** Documented behaviour of those crates *)
Class ShareCodecOk (c : ShareCodec) : Prop := {
  postcard_round_trip : forall p, exists s, postcard_to p = Some s /\ postcard_from s = Some p;
  b64url_round_trip : forall s, b64url_decode (b64url_encode s) = Some s;
  b64url_no_dot : forall s, no_char "." (b64url_encode s);
  hex_round_trip : forall j, String.length j = 16%nat -> hex_decode_16 (hex_encode j) = Some j
}.

(** ** Tokens *)

Definition SIGNING_KEY_SECRET_NAME : string := "share_signing_key".
Definition SIGNING_KEY_BYTES : nat := 32.
Definition V1_PATH_PREFIX : string := "/v1/".

(** [share_host], [build_url] *)
Definition share_host (apex : option string) : option string := (fun h => "share." +:+ h) <$> apex.
Definition build_url (apex : option string) (token : string) : string :=
  match share_host apex with
  | Some h => "https://" +:+ h +:+ V1_PATH_PREFIX +:+ token
  | None => V1_PATH_PREFIX +:+ token
  end.

Section tokens.
Context {sc : ShareCodec}.

(** [sign_token] *)
Definition sign_token (payload : SharePayload) (key : string) : result ShareError string :=
  bytes ← ok_or ShMalformed (postcard_to payload);
  Ok (b64url_encode bytes +:+ "." +:+ b64url_encode (hmac_sha256 key bytes)).

(** [decode_token] *)
Definition decode_token (token : string) : result ShareError (SharePayload * string) :=
  if 1024 <? len token then Err ShMalformed
  else
    parts ← ok_or ShMalformed (split_once "." token);
    payload_bytes ← ok_or ShMalformed (b64url_decode parts.1);
    sig_bytes ← ok_or ShMalformed (b64url_decode parts.2);
    payload ← ok_or ShMalformed (postcard_from payload_bytes);
    if negb (sp_v payload =? 1) then Err ShMalformed else Ok (payload, sig_bytes).

(** [verify_with_key] *)
Definition verify_with_key (payload : SharePayload) (sig key : string) : result ShareError unit :=
  bytes ← ok_or ShMalformed (postcard_to payload);
  if (hmac_sha256 key bytes =? sig)%string then Ok tt else Err ShBadSig.

(** [new_payload] *)
Definition new_payload (user instance chat artefact : string) (expires_at : Z) (jti : string) :
  SharePayload := mkPayload 1 user instance chat artefact expires_at jti.
End tokens.

(** ** The share table *)

(** [find_by_jti] *)
Definition find_by_jti (jti : string) (t : list ShareRow) : option ShareRow :=
  select_one (fun r => (sh_jti r =? jti)%string) t.

(** [mint] *)
Definition row_mint (row : ShareRow) (t : list ShareRow) : list ShareRow * result StoreError ShareRow :=
  match find_by_jti (sh_jti row) t with
  | Some _ => (t, Err (Constraint "UNIQUE constraint failed: artefact_shares.jti"))
  | None => (t ++ [row], Ok row)
  end.

(** [revoke] *)
Definition revocable (jti user_id : string) (r : ShareRow) : bool :=
  (sh_jti r =? jti)%string && (sh_created_by r =? user_id)%string
  && bool_decide (sh_revoked_at r = None).
Definition row_revoke (jti user_id : string) (now : Z) (t : list ShareRow) : list ShareRow * bool :=
  (update (revocable jti user_id)
     (fun r => mkShareRow (sh_jti r) (sh_instance_id r) (sh_chat_id r) (sh_artefact_id r)
        (sh_artefact_title r) (sh_created_by r) (sh_created_at r) (sh_expires_at r) (Some now)
        (sh_label r)) t,
   negb (Nat.eqb (affected (revocable jti user_id) t) 0)).

(** [list_for_instance]; [title] is the joined cache column. *)
Definition row_list (title : ShareRow -> option string) (user_id instance_id : string)
    (t : list ShareRow) : list ShareRow :=
  map (fun r => mkShareRow (sh_jti r) (sh_instance_id r) (sh_chat_id r) (sh_artefact_id r)
         (title r) (sh_created_by r) (sh_created_at r) (sh_expires_at r) (sh_revoked_at r) (sh_label r))
    (sort (fun a b => sh_created_at b <=? sh_created_at a)
       (select (fun r => (sh_instance_id r =? instance_id)%string
                         && (sh_created_by r =? user_id)%string) t)).

(** [list_accesses] *)
Definition access_list (jti : string) (limit : nat) (t : list ShareAccessRow) : list ShareAccessRow :=
  take limit (sort (fun a b => (ac_accessed_at b <? ac_accessed_at a)
                               || (ac_accessed_at b =? ac_accessed_at a) && (ac_id b <=? ac_id a))
                (select (fun r => (ac_jti r =? jti)%string) t)).

(** ** The service *)

(** [ShareServiceError] *)
Inductive ShareServiceError : Type :=
| SsNotFound
| SsUpstream (msg : string)
| SsStore (e : StoreError)
| SsSecrets (e : SecretsError).

Record ShareWorld : Type := mkShareWorld {
  sw_secrets : SecretDb;
  sw_shares : list ShareRow;
  sw_accesses : list ShareAccessRow;
  sw_access_next : Z;
  sw_instances : Instances;
  sw_metrics : ShareMetrics
}.

(** The artefact cache: [find] gives the owner of a cached artefact. *)
Record ShareEnv : Type := mkShareEnv {
  env_find : string -> string -> string -> result string (option string);
  env_title : ShareRow -> option string;
  env_apex : option string
}.

(** Clock readings and random bytes of one call *)
Record ShareRun : Type := mkShareRun {
  run_seal : SealRun;
  run_now : Z;
  run_row_now : Z;
  run_key : string;
  run_jti : string
}.

(** [MintedShare], [VerifiedShare] *)
Record MintedShare : Type := mkMinted {
  mi_url : string;
  mi_jti : string;
  mi_expires_at : Z;
  mi_label : option string;
  mi_created_at : Z
}.
Record VerifiedShare : Type := mkVerified { vs_row : ShareRow; vs_instance : InstanceRow }.

Definition with_shares (f : list ShareRow -> list ShareRow) (w : ShareWorld) : ShareWorld :=
  mkShareWorld (sw_secrets w) (f (sw_shares w)) (sw_accesses w) (sw_access_next w) (sw_instances w)
    (sw_metrics w).
Definition with_metrics (f : ShareMetrics -> ShareMetrics) (w : ShareWorld) : ShareWorld :=
  mkShareWorld (sw_secrets w) (sw_shares w) (sw_accesses w) (sw_access_next w) (sw_instances w)
    (f (sw_metrics w)).

(** A call of the secrets service *)
Definition on_secrets {A} (m : secrets A) : svc ShareWorld SecretsError A :=
  fun w => let '(db, r) := m (sw_secrets w) in
           (mkShareWorld db (sw_shares w) (sw_accesses w) (sw_access_next w) (sw_instances w)
              (sw_metrics w), r).

Section service.
Context {dir : CipherDirectory} {codec : EnvelopeCodec} {sc : ShareCodec}.

(** [load_signing_key] *)
Definition load_signing_key (run : ShareRun) (user_id : string) : svc ShareWorld ShareError string :=
  found ← with_err ShSecrets (on_secrets (user_get (run_seal run) user_id SIGNING_KEY_SECRET_NAME));
  match found with
  | Some bytes =>
      if Nat.eqb (String.length bytes) SIGNING_KEY_BYTES then mret bytes else throw ShUnknownUser
  | None => throw ShUnknownUser
  end.

(** [ensure_signing_key] *)
Definition ensure_signing_key (run : ShareRun) (user_id : string) : svc ShareWorld SecretsError string :=
  found ← on_secrets (user_get (run_seal run) user_id SIGNING_KEY_SECRET_NAME);
  let fresh :=
    _ ← on_secrets (user_put (run_seal run) user_id SIGNING_KEY_SECRET_NAME (run_key run));
    mret (run_key run) in
  match found with
  | Some bytes => if Nat.eqb (String.length bytes) SIGNING_KEY_BYTES then mret bytes else fresh
  | None => fresh
  end.

(** [rotate_signing_key] *)
Definition rotate_signing_key (run : ShareRun) (user_id : string) : svc ShareWorld SecretsError string :=
  _ ← best_effort (on_secrets (user_delete user_id SIGNING_KEY_SECRET_NAME));
  _ ← on_secrets (user_put (run_seal run) user_id SIGNING_KEY_SECRET_NAME (run_key run));
  mret (run_key run).

(** [InstanceService::get], [get_unscoped] *)
Definition instances_get (owner_id id : string) : svc ShareWorld ShareServiceError InstanceRow :=
  fun w => (w, ok_or SsNotFound (instance_get_for_owner owner_id id (sw_instances w))).

(** [ShareStore::mint] *)
Definition store_mint (row : ShareRow) : svc ShareWorld ShareServiceError ShareRow :=
  fun w => let '(t, r) := row_mint row (sw_shares w) in
           (with_shares (fun _ => t) w, map_err SsStore r).

(** [ShareService::mint] *)
Definition mint (env : ShareEnv) (run : ShareRun) (caller instance_id chat_id artefact_id : string)
    (ttl : ShareTtl) (label : option string) : svc ShareWorld ShareServiceError MintedShare :=
  _ ← instances_get caller instance_id;
  cached ← lift (map_err SsUpstream (env_find env instance_id chat_id artefact_id));
  _ ← match cached with
      | Some owner => if (owner =? caller)%string then mret tt else throw SsNotFound
      | None => throw SsNotFound
      end;
  key ← with_err SsSecrets (ensure_signing_key run caller);
  let expires_at := run_now run + ttl_seconds ttl in
  let payload := new_payload caller instance_id chat_id artefact_id expires_at (run_jti run) in
  let jti := hex_encode (sp_jti payload) in
  token ← lift (map_err (fun _ => SsUpstream "payload encode failed") (sign_token payload key));
  row ← store_mint (mkShareRow jti instance_id chat_id artefact_id None caller
                      (run_row_now run) expires_at None label);
  mret (mkMinted (build_url (env_apex env) token) (sh_jti row) (sh_expires_at row) (sh_label row)
          (sh_created_at row)).

(** [ShareService::list] *)
Definition list_shares (env : ShareEnv) (caller instance_id : string) :
  svc ShareWorld ShareServiceError (list ShareRow) :=
  _ ← instances_get caller instance_id;
  gets (fun w => row_list (env_title env) caller instance_id (sw_shares w)).

(** [ShareService::revoke] *)
Definition revoke (run : ShareRun) (caller jti : string) : svc ShareWorld ShareServiceError unit :=
  modify (with_shares (fun t => (row_revoke jti caller (run_row_now run) t).1)).

(** The caller's own row, or nothing that says it exists *)
Definition own_row (caller jti : string) : svc ShareWorld ShareServiceError ShareRow :=
  fun w => (w, row ← ok_or SsNotFound (find_by_jti jti (sw_shares w));
               if (sh_created_by row =? caller)%string then Ok row else Err SsNotFound).

(** [ShareService::reissue] *)
Definition reissue (env : ShareEnv) (run : ShareRun) (caller jti : string) (ttl : ShareTtl) :
  svc ShareWorld ShareServiceError MintedShare :=
  row ← own_row caller jti;
  _ ← revoke run caller jti;
  mint env run caller (sh_instance_id row) (sh_chat_id row) (sh_artefact_id row) ttl (sh_label row).

(** [ShareService::rotate_key] *)
Definition rotate_key (run : ShareRun) (caller : string) : svc ShareWorld ShareServiceError unit :=
  _ ← with_err SsSecrets (rotate_signing_key run caller); mret tt.

(** A rejection counts itself. *)
Definition reject {A} (e : ShareError) : svc ShareWorld ShareError A :=
  _ ← modify (with_metrics (record_reject (reject_reason e))); throw e.

(** A call whose error is counted before it is returned *)
Definition or_reject {A} (m : svc ShareWorld ShareError A) : svc ShareWorld ShareError A :=
  r ← attempt m;
  match r with Ok a => mret a | Err e => reject e end.

(** [ShareService::verify] *)
Definition verify (run : ShareRun) (token : string) : svc ShareWorld ShareError VerifiedShare :=
  decoded ← or_reject (lift (decode_token token));
  let '(payload, sig) := decoded in
  _ ← (if sp_exp payload <=? run_now run then reject ShExpired else mret tt);
  key ← or_reject (load_signing_key run (sp_user_id payload));
  _ ← or_reject (lift (verify_with_key payload sig key));
  found ← gets (fun w => find_by_jti (hex_encode (sp_jti payload)) (sw_shares w));
  row ← match found with
        | Some r => if bool_decide (sh_revoked_at r = None) then mret r else reject ShBadSig
        | None => reject ShBadSig
        end;
  inst ← gets (fun w => instance_get (sp_instance_id payload) (sw_instances w));
  match inst with
  | None => reject ShBadSig
  | Some i =>
      if negb (ir_owner_id i =? sp_user_id payload)%string then reject ShBadSig
      else _ ← modify (with_metrics record_accept); mret (mkVerified row i)
  end.

(** [ShareService::record_access] *)
Definition record_access (run : ShareRun) (jti : string) (remote_addr user_agent : option string)
    (status : Z) : svc ShareWorld ShareError unit :=
  modify (fun w => mkShareWorld (sw_secrets w) (sw_shares w)
    (sw_accesses w ++ [mkAccess (sw_access_next w) jti (run_now run) remote_addr user_agent status])
    (sw_access_next w + 1) (sw_instances w) (sw_metrics w)).

(** [ShareService::url_for] *)
Definition url_for (env : ShareEnv) (run : ShareRun) (caller jti : string) :
  svc ShareWorld ShareServiceError (option string) :=
  row ← own_row caller jti;
  if bool_decide (sh_revoked_at row <> None) || (sh_expires_at row <=? run_now run) then mret None
  else
    jti_bytes ← lift (ok_or (SsUpstream "malformed jti") (hex_decode_16 (sh_jti row)));
    key ← with_err SsSecrets (ensure_signing_key run caller);
    let payload := mkPayload 1 (sh_created_by row) (sh_instance_id row) (sh_chat_id row)
                     (sh_artefact_id row) (sh_expires_at row) jti_bytes in
    token ← lift (map_err (fun _ => SsUpstream "payload encode failed") (sign_token payload key));
    mret (Some (build_url (env_apex env) token)).

(** [ShareService::list_accesses] *)
Definition list_accesses (caller jti : string) (limit : nat) :
  svc ShareWorld ShareServiceError (list ShareAccessRow) :=
  _ ← own_row caller jti;
  gets (fun w => access_list jti limit (sw_accesses w)).
End service.

(** ** Lemmas *)

Section inversion.
Context {dir : CipherDirectory} {codec : EnvelopeCodec} {sc : ShareCodec}.

Lemma reject_ok {A} e w w' (a : A) : reject e w = (w', Ok a) <-> False.
Proof. unfold reject, mbind, svc_bind, modify, throw. naive_solver. Qed.

Lemma or_reject_ok {A} (m : svc ShareWorld ShareError A) w w' a :
  or_reject m w = (w', Ok a) <-> m w = (w', Ok a).
Proof.
  unfold or_reject, mbind, svc_bind, attempt.
  destruct (m w) as [w1 [x|e]]; cbn; [unfold mret, svc_ret; naive_solver|].
  rewrite reject_ok. naive_solver.
Qed.

Lemma on_secrets_ok {A} (m : secrets A) w w' a :
  on_secrets m w = (w', Ok a) <->
  exists db, m (sw_secrets w) = (db, Ok a) /\
    w' = mkShareWorld db (sw_shares w) (sw_accesses w) (sw_access_next w) (sw_instances w) (sw_metrics w).
Proof. unfold on_secrets. destruct (m (sw_secrets w)) as [db [x|e]]; naive_solver. Qed.

Lemma load_signing_key_ok run user w w' key :
  load_signing_key run user w = (w', Ok key) <->
  exists db, user_get (run_seal run) user SIGNING_KEY_SECRET_NAME (sw_secrets w) = (db, Ok (Some key)) /\
    String.length key = SIGNING_KEY_BYTES /\
    w' = mkShareWorld db (sw_shares w) (sw_accesses w) (sw_access_next w) (sw_instances w) (sw_metrics w).
Proof.
  unfold load_signing_key. rewrite svc_bind_ok. split.
  - intros (w1 & found & Hf & Hm). apply with_err_ok, on_secrets_ok in Hf as (db & Hg & ->).
    destruct found as [bytes|]; [|by apply throw_ok in Hm].
    case_match; [|by apply throw_ok in Hm]. inv_svc.
    match goal with H : Nat.eqb _ _ = true |- _ => apply Nat.eqb_eq in H end. eauto.
  - intros (db & Hg & Hl & ->). eexists _, (Some key). rewrite with_err_ok, on_secrets_ok.
    split; [eauto|]. rewrite Hl, Nat.eqb_refl. done.
Qed.

Lemma verify_with_key_ok payload sig key :
  verify_with_key payload sig key = Ok tt <->
  exists bytes, postcard_to payload = Some bytes /\ hmac_sha256 key bytes = sig.
Proof.
  unfold verify_with_key. destruct (postcard_to payload) as [b|]; cbn; [|naive_solver].
  destruct (hmac_sha256 key b =? sig)%string eqn:E; to_prop; naive_solver.
Qed.

(** What an accepted token went through *)
Definition accepted (run : ShareRun) (token : string) (w : ShareWorld) (v : VerifiedShare)
    (payload : SharePayload) (key : string) : Prop :=
  (exists sig bytes db, decode_token token = Ok (payload, sig) /\
     postcard_to payload = Some bytes /\ hmac_sha256 key bytes = sig /\
     user_get (run_seal run) (sp_user_id payload) SIGNING_KEY_SECRET_NAME (sw_secrets w) =
       (db, Ok (Some key))) /\
  String.length key = SIGNING_KEY_BYTES /\
  run_now run < sp_exp payload /\
  find_by_jti (hex_encode (sp_jti payload)) (sw_shares w) = Some (vs_row v) /\
  sh_revoked_at (vs_row v) = None /\
  instance_get (sp_instance_id payload) (sw_instances w) = Some (vs_instance v) /\
  ir_owner_id (vs_instance v) = sp_user_id payload.

Lemma verify_ok run token w w' v :
  verify run token w = (w', Ok v) -> exists payload key, accepted run token w v payload key.
Proof.
  unfold verify. intros H. inv_svc.
  match goal with H : or_reject (lift (decode_token _)) _ = (?wx, Ok ?d) |- _ =>
    apply or_reject_ok, lift_ok in H as [? Hdec]; subst wx; destruct d as [payload sig] end.
  inv_svc.
  match goal with H : (if _ then reject _ else _) _ = _ |- _ => rename H into Hexp end.
  destruct (sp_exp payload <=? run_now run) eqn:Eexp; [by apply reject_ok in Hexp|]. inv_svc. to_prop.
  match goal with H : or_reject (load_signing_key _ _) _ = (_, Ok ?k) |- _ =>
    apply or_reject_ok, load_signing_key_ok in H as (db & Hget & Hlen & ->); rename k into key end.
  match goal with H : or_reject (lift (verify_with_key _ _ _)) _ = (_, Ok ?u) |- _ =>
    apply or_reject_ok, lift_ok in H as [-> Hsig]; destruct u end.
  apply verify_with_key_ok in Hsig as (bytes & Hb & Hh). cbn [sw_shares sw_instances] in *.
  destruct (find_by_jti _ _) as [row|] eqn:Hrow;
    [|match goal with H : reject _ _ = _ |- _ => by apply reject_ok in H end].
  match goal with H : (if bool_decide ?P then _ else _) _ = _ |- _ =>
    destruct (bool_decide P) eqn:Hrev; [|by apply reject_ok in H] end.
  inv_svc. to_prop. cbn [sw_shares sw_instances] in *.
  destruct (instance_get _ _) as [i|] eqn:Hi; [|by apply reject_ok in H].
  destruct (ir_owner_id i =? sp_user_id payload)%string eqn:Ho; cbn [negb] in H; [|by apply reject_ok in H].
  inv_svc. to_prop. exists payload, key. unfold accepted. cbn [vs_row vs_instance]. split_and!; eauto 10.
Qed.
End inversion.

(** C6. A share link is accepted only if its payload is a version-1 payload
    that has not expired, its signature is the HMAC of that payload under the
    signing key its user has stored (32 bytes), a share row with its jti exists
    unrevoked, and the instance it names belongs to that user. *)
Theorem verify_sound {dir : CipherDirectory} {codec : EnvelopeCodec} {sc : ShareCodec}
    (run : ShareRun) (token : string) (w w' : ShareWorld) (v : VerifiedShare)
    (Hok : verify run token w = (w', Ok v)) :
  exists payload key, accepted run token w v payload key /\ sp_v payload = 1.
Proof.
  destruct (verify_ok run token w w' v Hok) as (payload & key & Ha). exists payload, key.
  split; [done|]. destruct Ha as ((sig & bytes & db & Hd & _) & _). unfold decode_token in Hd.
  case_match; [done|]. inv_ok. case_match; [done|]. simplify_eq. to_prop. done.
Qed.

Section complete.
Context {dir : CipherDirectory} {codec : EnvelopeCodec} {sc : ShareCodec}.
Context `{!CipherDirectoryOk dir, !EnvelopeCodecOk codec, !ShareCodecOk sc}.

(** A signed token decodes to what was signed. *)
Lemma decode_sign payload key token :
  sp_v payload = 1 -> sign_token payload key = Ok token -> len token <= 1024 ->
  exists bytes, postcard_to payload = Some bytes /\
    decode_token token = Ok (payload, hmac_sha256 key bytes).
Proof.
  intros Hv Hs Hl. unfold sign_token in Hs.
  destruct (postcard_round_trip payload) as (bytes & Hto & Hfrom). rewrite Hto in Hs. cbn in Hs.
  apply Ok_inj in Hs as <-. exists bytes. split; [done|]. unfold decode_token.
  replace (1024 <? _) with false by (symmetry; apply Z.ltb_ge; done).
  assert (split_once "." (b64url_encode bytes +:+ String "." (b64url_encode (hmac_sha256 key bytes))) =
          Some (b64url_encode bytes, b64url_encode (hmac_sha256 key bytes))) as ->.
  { apply split_once_some. split; [done|apply b64url_no_dot]. }
  cbn [ok_or mbind result_bind fst snd]. rewrite !b64url_round_trip.
  cbn [ok_or mbind result_bind]. rewrite Hfrom. cbn [ok_or mbind result_bind].
  by rewrite Hv.
Qed.

(** Verification accepts what meets the conditions of [accepted]. *)
Lemma verify_complete_load run token w w1 payload sig key row inst :
  decode_token token = Ok (payload, sig) -> run_now run < sp_exp payload ->
  load_signing_key run (sp_user_id payload) w = (w1, Ok key) ->
  verify_with_key payload sig key = Ok tt ->
  find_by_jti (hex_encode (sp_jti payload)) (sw_shares w) = Some row -> sh_revoked_at row = None ->
  instance_get (sp_instance_id payload) (sw_instances w) = Some inst ->
  ir_owner_id inst = sp_user_id payload ->
  verify run token w = (with_metrics record_accept w1, Ok (mkVerified row inst)).
Proof.
  intros Hd He Hload Hsig Hrow Hrev Hi Ho.
  assert (sw_shares w1 = sw_shares w /\ sw_instances w1 = sw_instances w) as [Hs1 Hi1].
  { apply load_signing_key_ok in Hload as (db & _ & _ & ->). done. }
  unfold verify, or_reject, mbind, svc_bind, attempt, lift. rewrite Hd.
  unfold mret, svc_ret. replace (sp_exp payload <=? run_now run) with false by (symmetry; lia).
  rewrite Hload, Hsig. unfold gets. rewrite Hs1, Hrow, bool_decide_eq_true_2 by done.
  rewrite Hi1, Hi, Ho. by rewrite String.eqb_refl.
Qed.

Lemma load_signing_key_holds run user w key :
  user_holds (sw_secrets w) user SIGNING_KEY_SECRET_NAME key ->
  String.length key = SIGNING_KEY_BYTES -> load_signing_key run user w = (w, Ok key).
Proof.
  intros Hk Hlen. apply load_signing_key_ok. exists (sw_secrets w).
  split_and!; [by apply user_get_holds|done|by destruct w].
Qed.

Lemma find_by_jti_snoc jti row t :
  sh_jti row = jti -> find_by_jti jti t = None -> find_by_jti jti (t ++ [row]) = Some row.
Proof.
  unfold find_by_jti, select_one. intros <- H. rewrite select_app.
  destruct (select _ t) as [|r l]; [|done].
  cbn [app]. rewrite select_cons, String.eqb_refl. done.
Qed.

(** After [ensure_signing_key] the returned key is the one stored. *)
Lemma ensure_signing_key_ok run user w w' key :
  String.length (run_key run) = SIGNING_KEY_BYTES ->
  ensure_signing_key run user w = (w', Ok key) ->
  user_holds (sw_secrets w') user SIGNING_KEY_SECRET_NAME key /\
  String.length key = SIGNING_KEY_BYTES /\
  sw_shares w' = sw_shares w /\ sw_instances w' = sw_instances w.
Proof.
  intros Hlen H. unfold ensure_signing_key in H. inv_svc.
  match goal with H : on_secrets (user_get _ _ _) _ = (_, Ok ?f) |- _ =>
    apply on_secrets_ok in H as (db & Hg & ->); rename f into found end.
  assert (forall w1, (_ ← on_secrets (user_put (run_seal run) user SIGNING_KEY_SECRET_NAME (run_key run));
            mret (run_key run)) w1 = (w', Ok key) ->
          sw_shares w1 = sw_shares w -> sw_instances w1 = sw_instances w ->
          user_holds (sw_secrets w') user SIGNING_KEY_SECRET_NAME key /\
          String.length key = SIGNING_KEY_BYTES /\
          sw_shares w' = sw_shares w /\ sw_instances w' = sw_instances w) as Hfresh.
  { intros w1 H1 Hs1 Hi1. inv_svc.
    match goal with H : on_secrets (user_put _ _ _ _) _ = _ |- _ =>
      apply on_secrets_ok in H as (db2 & Hp & ->) end.
    cbn [sw_secrets sw_shares sw_instances] in *.
    unfold user_put in Hp. inv_svc.
    match goal with H : map_err _ (seal_context_as_string ?sr ?c ?p) = Ok ?ct |- _ =>
      apply map_err_ok in H; rename H into Hs; rename ct into ct0 end.
    assert (exists v, for_context (user_secret user SIGNING_KEY_SECRET_NAME) = Ok v) as [v Hv].
    { unfold seal_context_as_string, seal_context, seal_context_inner in Hs. inv_ok. eauto. }
    destruct (seal_string_open (run_seal run) _ (run_key run) v Hv) as (s & Hs' & Ho).
    rewrite Hs in Hs'. apply Ok_inj in Hs' as ->. unfold user_row_put in Hp. inv_svc.
    split_and!; [|done..]. exists s. eexists. cbn [user_rows]. rewrite lookup_insert_eq.
    split_and!; [done|exact Ho|done..]. }
  destruct found as [bytes|]; [|by eapply Hfresh].
  case_match eqn:El; [|by eapply Hfresh]. apply Nat.eqb_eq in El. inv_svc.
  apply user_get_then_holds in Hg as [Hh _]. cbn [sw_secrets sw_shares sw_instances]. done.
Qed.
End complete.

(** What a successful mint did *)
Lemma mint_ok {dir : CipherDirectory} {codec : EnvelopeCodec} {sc : ShareCodec}
    `{!CipherDirectoryOk dir, !EnvelopeCodecOk codec} env run caller inst chat art ttl label w w' m :
  String.length (run_key run) = SIGNING_KEY_BYTES ->
  mint env run caller inst chat art ttl label w = (w', Ok m) ->
  exists i key token,
    let payload := new_payload caller inst chat art (run_now run + ttl_seconds ttl) (run_jti run) in
    let row := mkShareRow (hex_encode (run_jti run)) inst chat art None caller (run_row_now run)
                 (run_now run + ttl_seconds ttl) None label in
    instance_get_for_owner caller inst (sw_instances w) = Some i /\
    env_find env inst chat art = Ok (Some caller) /\
    user_holds (sw_secrets w') caller SIGNING_KEY_SECRET_NAME key /\
    String.length key = SIGNING_KEY_BYTES /\
    sign_token payload key = Ok token /\
    sw_instances w' = sw_instances w /\ sw_shares w' = sw_shares w ++ [row] /\
    find_by_jti (hex_encode (run_jti run)) (sw_shares w) = None /\
    m = mkMinted (build_url (env_apex env) token) (hex_encode (run_jti run))
          (run_now run + ttl_seconds ttl) label (run_row_now run).
Proof.
  intros Hlen H. unfold mint in H. inv_svc.
  match goal with H : instances_get _ _ _ = (_, Ok ?i) |- _ => rename H into Hi; rename i into inst_row end.
  unfold instances_get in Hi. apply pair_equal_spec in Hi as [<- Hi]. apply ok_or_ok in Hi.
  match goal with H : map_err _ (env_find _ _ _ _) = Ok ?c |- _ =>
    apply map_err_ok in H; rename H into Hc; rename c into cached end.
  destruct cached as [owner|]; [|inv_svc].
  match goal with H : (if _ then _ else throw _) _ = _ |- _ =>
    destruct (owner =? caller)%string eqn:Eo; [|by apply throw_ok in H] end.
  inv_svc. to_prop. subst owner.
  match goal with H : ensure_signing_key _ _ _ = (?w1, Ok ?k) |- _ =>
    apply ensure_signing_key_ok in H as (Hk & Hkl & Hsh & Hin); [|done]; rename k into key end.
  match goal with H : map_err _ (sign_token _ _) = Ok ?t |- _ =>
    apply map_err_ok in H; rename H into Hsig; rename t into token end.
  match goal with H : store_mint _ _ = (_, Ok ?r) |- _ => rename H into Hm; rename r into row end.
  unfold store_mint, row_mint in Hm. cbn [sh_jti sp_jti new_payload] in Hm.
  rewrite Hsh in Hm. destruct (find_by_jti _ _) eqn:Hnone; [done|]. cbn [map_err] in Hm.
  apply pair_equal_spec in Hm as [<- Hm]. apply Ok_inj in Hm as <-.
  exists inst_row, key, token. cbn [with_shares sw_secrets sw_shares sw_instances]. by split_and!.
Qed.

Section laws.
Context {dir : CipherDirectory} {codec : EnvelopeCodec} {sc : ShareCodec}.
Context `{!CipherDirectoryOk dir, !EnvelopeCodecOk codec, !ShareCodecOk sc}.

Lemma get_for_owner_get caller id t i :
  caller <> "*" -> instances_wf t -> instance_get_for_owner caller id t = Some i ->
  instance_get id t = Some i /\ ir_owner_id i = caller.
Proof.
  intros Hne Hwf Hg. unfold instance_get_for_owner in Hg. apply select_one_some in Hg as [Hin Hp].
  apply andb_true_iff in Hp as [Hb Ho]. apply String.eqb_neq in Hne. rewrite Hne in Ho. cbn in Ho.
  to_prop. split; [by eapply by_id_get|done].
Qed.
End laws.

(** A freshly minted link works: in the state mint leaves behind, the
    token in the returned URL verifies at any time before the expiry, to the
    row of that artefact in the caller's instance. *)
Theorem mint_then_verify {dir : CipherDirectory} {codec : EnvelopeCodec} {sc : ShareCodec}
    `{!CipherDirectoryOk dir, !EnvelopeCodecOk codec, !ShareCodecOk sc}
    (env : ShareEnv) (run run' : ShareRun) (caller inst chat art : string) (ttl : ShareTtl)
    (label : option string) (w w' : ShareWorld) (m : MintedShare)
    (Hcaller : caller <> "*") (Hwf : instances_wf (sw_instances w))
    (Hkey : String.length (run_key run) = SIGNING_KEY_BYTES)
    (Hmint : mint env run caller inst chat art ttl label w = (w', Ok m))
    (Hnow : run_now run' < mi_expires_at m) :
  exists token, mi_url m = build_url (env_apex env) token /\
    (len token <= 1024 ->
     exists v, verify run' token w' = (with_metrics record_accept w', Ok v) /\
       sh_jti (vs_row v) = mi_jti m /\ sh_instance_id (vs_row v) = inst /\
       sh_chat_id (vs_row v) = chat /\ sh_artefact_id (vs_row v) = art /\
       ir_id (vs_instance v) = inst /\ ir_owner_id (vs_instance v) = caller).
Proof.
  destruct (mint_ok env run caller inst chat art ttl label w w' m Hkey Hmint)
    as (i & key & token & Hi & _ & Hk & Hkl & Hsig & Hin & Hsh & Hnone & ->).
  cbn [mi_url mi_expires_at mi_jti] in *. exists token. split; [done|]. intros Hlen.
  destruct (get_for_owner_get caller inst _ i Hcaller Hwf Hi) as [Hg Ho].
  edestruct decode_sign as (bytes & Hb & Hd); [|exact Hsig|exact Hlen|]; [done|].
  eexists. split.
  - eapply verify_complete_load; [exact Hd|exact Hnow|by apply load_signing_key_holds| | | | |].
    + apply verify_with_key_ok. eauto.
    + rewrite Hsh. by apply find_by_jti_snoc.
    + reflexivity.
    + cbn [sp_instance_id new_payload]. rewrite Hin. exact Hg.
    + exact Ho.
  - cbn [vs_row vs_instance sh_jti sh_instance_id sh_chat_id sh_artefact_id]. split_and!; try done.
    apply select_one_some in Hg as [_ Hb']. unfold by_id in Hb'. by to_prop.
Qed.

Lemma find_by_jti_some jti t r : find_by_jti jti t = Some r -> r ∈ t /\ sh_jti r = jti.
Proof. intros H. apply select_one_some in H as [Hr Hj]. by to_prop. Qed.

Lemma find_by_jti_revoke jti jti' user now t :
  find_by_jti jti' (row_revoke jti user now t).1 =
  (fun r => if revocable jti user r
            then mkShareRow (sh_jti r) (sh_instance_id r) (sh_chat_id r) (sh_artefact_id r)
                   (sh_artefact_title r) (sh_created_by r) (sh_created_at r) (sh_expires_at r)
                   (Some now) (sh_label r)
            else r) <$> find_by_jti jti' t.
Proof.
  unfold find_by_jti, select_one, row_revoke. cbn [fst]. rewrite select_update by done.
  by destruct (select _ t).
Qed.

(** Revocation is final and scoped: after the owner of a link revokes it
    no token carrying its jti verifies, whatever its signature, and revoking a
    jti that belongs to someone else changes nothing. *)
Theorem revoke_kills {dir : CipherDirectory} {codec : EnvelopeCodec} {sc : ShareCodec}
    (run run' : ShareRun) (caller jti token : string) (w : ShareWorld) (row : ShareRow)
    (Hrow : find_by_jti jti (sw_shares w) = Some row) :
  if (sh_created_by row =? caller)%string
  then forall payload sig, decode_token token = Ok (payload, sig) ->
         hex_encode (sp_jti payload) = jti ->
         forall w'' v, verify run' token (revoke run caller jti w).1 <> (w'', Ok v)
  else find_by_jti jti (sw_shares (revoke run caller jti w).1) = Some row.
Proof.
  assert (sw_shares (revoke run caller jti w).1 =
          (row_revoke jti caller (run_row_now run) (sw_shares w)).1) as Hs by done.
  pose proof (find_by_jti_revoke jti jti caller (run_row_now run) (sw_shares w)) as Hf.
  rewrite <- Hs, Hrow in Hf. cbn [fmap option_fmap option_map] in Hf.
  destruct (find_by_jti_some _ _ _ Hrow) as [_ Hj]. unfold revocable in Hf.
  rewrite Hj, String.eqb_refl in Hf. cbn [andb] in Hf.
  destruct (sh_created_by row =? caller)%string; cbn [andb] in Hf; [|exact Hf].
  intros payload sig Hd Hjti w'' v Hv.
  apply verify_ok in Hv as (p & k & (s & b & db & Hd' & _) & _ & _ & Hfound & Hrev & _).
  rewrite Hd in Hd'. apply Ok_inj in Hd'. injection Hd' as <- <-. rewrite Hjti, Hf in Hfound.
  apply Some_inj in Hfound. rewrite <- Hfound in Hrev.
  destruct (bool_decide (sh_revoked_at row = None)) eqn:Eb; to_prop; done.
Qed.

(** The panic button works: after a user rotates the signing key, a token
    of theirs verifies only if its signature is the HMAC under the new key, so
    every link signed with another key (one whose tag on that payload differs)
    is dead. *)
Theorem rotate_key_kills {dir : CipherDirectory} {codec : EnvelopeCodec} {sc : ShareCodec}
    `{!CipherDirectoryOk dir, !EnvelopeCodecOk codec}
    (run run' : ShareRun) (user old_key token sig bytes : string) (w w' : ShareWorld) (payload : SharePayload)
    (Hrot : rotate_key run user w = (w', Ok tt))
    (Hd : decode_token token = Ok (payload, sig)) (Huser : sp_user_id payload = user)
    (Hb : postcard_to payload = Some bytes) (Hsig : sig = hmac_sha256 old_key bytes)
    (Hdiff : hmac_sha256 old_key bytes <> hmac_sha256 (run_key run) bytes) :
  forall w'' v, verify run' token w' <> (w'', Ok v).
Proof.
  intros w'' v Hv. apply verify_ok in Hv as (p & k & (s & b & db & Hd' & Hb' & Hh & Hg) & _).
  rewrite Hd in Hd'. apply Ok_inj in Hd'. simplify_eq.
  assert (k = run_key run) as ->; [|congruence].
  unfold rotate_key, rotate_signing_key in Hrot. inv_svc.
  match goal with H : on_secrets (user_put _ _ _ _) _ = _ |- _ =>
    apply on_secrets_ok in H as (db2 & Hp & ->) end.
  cbn [sw_secrets] in Hg. unfold user_put in Hp. inv_svc.
  match goal with H : map_err _ (seal_context_as_string _ ?c _) = Ok ?ct |- _ =>
    apply map_err_ok in H; rename H into Hs; assert (exists v, for_context c = Ok v) as [vk Hvk] end.
  { unfold seal_context_as_string, seal_context, seal_context_inner in Hs. inv_ok. eauto. }
  destruct (seal_string_open (run_seal run) _ (run_key run) vk Hvk) as (s0 & Hs' & Ho).
  rewrite Hs in Hs'. apply Ok_inj in Hs' as ->. unfold user_row_put in Hp. inv_svc.
  erewrite (user_get_holds _ _ _ _ (run_key run)) in Hg; [by simplify_eq|].
  exists s0. eexists. cbn [user_rows]. rewrite lookup_insert_eq. split_and!; [done|exact Ho|done..].
Qed.

Lemma ensure_signing_key_holds {dir : CipherDirectory} {codec : EnvelopeCodec} run user w key :
  user_holds (sw_secrets w) user SIGNING_KEY_SECRET_NAME key ->
  String.length key = SIGNING_KEY_BYTES -> ensure_signing_key run user w = (w, Ok key).
Proof.
  intros Hk Hlen. unfold ensure_signing_key, mbind, svc_bind, on_secrets.
  rewrite (user_get_holds _ _ _ _ _ Hk). rewrite Hlen, Nat.eqb_refl. by destruct w.
Qed.

(** The link of a share can be shown again without being stored: after a
    mint, asking for the URL of the returned jti gives the same URL back. *)
Theorem url_for_minted {dir : CipherDirectory} {codec : EnvelopeCodec} {sc : ShareCodec}
    `{!CipherDirectoryOk dir, !EnvelopeCodecOk codec, !ShareCodecOk sc}
    (env : ShareEnv) (run run' : ShareRun) (caller inst chat art : string) (ttl : ShareTtl)
    (label : option string) (w w' : ShareWorld) (m : MintedShare)
    (Hkey : String.length (run_key run) = SIGNING_KEY_BYTES)
    (Hjti : String.length (run_jti run) = 16%nat)
    (Hmint : mint env run caller inst chat art ttl label w = (w', Ok m))
    (Hnow : run_now run' < mi_expires_at m) :
  url_for env run' caller (mi_jti m) w' = (w', Ok (Some (mi_url m))).
Proof.
  destruct (mint_ok env run caller inst chat art ttl label w w' m Hkey Hmint)
    as (i & key & token & _ & _ & Hk & Hkl & Hsig & _ & Hsh & Hnone & ->).
  cbn [mi_url mi_expires_at mi_jti] in *.
  unfold url_for, own_row, mbind, svc_bind. rewrite Hsh.
  erewrite find_by_jti_snoc; [|reflexivity|exact Hnone].
  cbn [ok_or result_bind sh_created_by sh_revoked_at sh_expires_at sh_jti sh_instance_id sh_chat_id
       sh_artefact_id].
  rewrite String.eqb_refl. rewrite bool_decide_eq_false_2 by auto.
  cbn [sh_created_by sh_expires_at sh_jti sh_instance_id sh_chat_id sh_artefact_id].
  rewrite (proj2 (Z.leb_gt _ _) Hnow). cbn [orb].
  rewrite hex_round_trip by done. unfold lift. cbn [ok_or].
  unfold with_err. rewrite (ensure_signing_key_holds _ _ _ _ Hk Hkl). cbn [map_err].
  unfold new_payload in Hsig. by rewrite Hsig.
Qed.

(** The row a token resolves to is found by jti alone: whoever holds one
    user's signing key and knows the jti of another user's share can sign a
    payload for an instance of the first user that verifies to the second
    user's row, even after that share has expired. *)
Theorem share_row_not_bound {dir : CipherDirectory} {codec : EnvelopeCodec} {sc : ShareCodec}
    `{!CipherDirectoryOk dir, !EnvelopeCodecOk codec, !ShareCodecOk sc}
    (run : ShareRun) (w : ShareWorld) (attacker key jti token : string) (exp : Z)
    (inst : InstanceRow) (row : ShareRow)
    (Hkey : user_holds (sw_secrets w) attacker SIGNING_KEY_SECRET_NAME key)
    (Hlen : String.length key = SIGNING_KEY_BYTES)
    (Hinst : instance_get (ir_id inst) (sw_instances w) = Some inst)
    (Hown : ir_owner_id inst = attacker)
    (Hrow : find_by_jti (hex_encode jti) (sw_shares w) = Some row)
    (Hlive : sh_revoked_at row = None) (Hother : sh_created_by row <> attacker)
    (Hexp : run_now run < exp)
    (Hsig : sign_token (mkPayload 1 attacker (ir_id inst) "" "" exp jti) key = Ok token)
    (Htok : len token <= 1024) :
  (verify run token w).2 = Ok (mkVerified row inst).
Proof.
  edestruct decode_sign as (bytes & Hb & Hd); [|exact Hsig|exact Htok|]; [done|].
  erewrite verify_complete_load; [reflexivity|exact Hd|exact Hexp| | | | | |].
  - by apply load_signing_key_holds.
  - apply verify_with_key_ok. eauto.
  - exact Hrow.
  - exact Hlive.
  - exact Hinst.
  - exact Hown.
Qed.

(** The world with an instance marked destroyed, as [destroy] leaves it *)
Definition with_destroyed (id : string) (now : Z) (w : ShareWorld) : ShareWorld :=
  mkShareWorld (sw_secrets w) (sw_shares w) (sw_accesses w) (sw_access_next w)
    (update_status id Destroyed now (sw_instances w)).1 (sw_metrics w).

Lemma instance_get_update_status id s now t :
  ir_owner_id <$> instance_get id (update_status id s now t).1 = ir_owner_id <$> instance_get id t.
Proof.
  unfold update_status, update_found. case_match; [done|]. cbn [fst].
  unfold instance_get, select_one. rewrite select_update by done.
  by destruct (select (by_id id) t) as [|r l]; cbn; [|destruct (by_id id r)].
Qed.

(** Destroying an instance does not end its share links: a link that
    verifies still verifies, to the same row, after the instance it names is
    marked destroyed. *)
Theorem destroyed_instance_still_shared {dir : CipherDirectory} {codec : EnvelopeCodec} {sc : ShareCodec}
    (run : ShareRun) (token : string) (w w' : ShareWorld) (v : VerifiedShare) (now : Z)
    (Hok : verify run token w = (w', Ok v)) :
  exists w'' v', verify run token (with_destroyed (ir_id (vs_instance v)) now w) = (w'', Ok v') /\
    vs_row v' = vs_row v.
Proof.
  apply verify_ok in Hok as (payload & key & (sig & bytes & db & Hd & Hb & Hh & Hg) & Hl & He & Hr & Hrev & Hi & Ho).
  assert (ir_id (vs_instance v) = sp_instance_id payload) as ->.
  { apply select_one_some in Hi as [_ Hb']. unfold by_id in Hb'. by to_prop. }
  pose proof (instance_get_update_status (sp_instance_id payload) Destroyed now (sw_instances w)) as Hu.
  rewrite Hi in Hu. cbn in Hu.
  destruct (instance_get _ (update_status _ _ _ _).1) as [i'|] eqn:Hi'; [|done]. cbn in Hu. simplify_eq.
  do 2 eexists. split; [|shelve].
  eapply (verify_complete_load run token _ _ payload (hmac_sha256 key bytes) key (vs_row v) i');
    [done|done| | |exact Hr|done|exact Hi'|congruence].
  - apply load_signing_key_ok. exists db. split_and!; [exact Hg|done|reflexivity].
  - apply verify_with_key_ok. eauto.
  Unshelve. reflexivity.
Qed.

(** Extending a link can lose it: when the artefact has left the cache,
    [reissue] revokes the old link and then fails, so the caller is left with
    none. *)
Theorem reissue_can_lose {dir : CipherDirectory} {codec : EnvelopeCodec} {sc : ShareCodec}
    (env : ShareEnv) (run : ShareRun) (caller jti : string) (ttl : ShareTtl) (w : ShareWorld)
    (row : ShareRow) (inst : InstanceRow)
    (Hrow : find_by_jti jti (sw_shares w) = Some row) (Hown : sh_created_by row = caller)
    (Hlive : sh_revoked_at row = None)
    (Hinst : instance_get_for_owner caller (sh_instance_id row) (sw_instances w) = Some inst)
    (Hgone : env_find env (sh_instance_id row) (sh_chat_id row) (sh_artefact_id row) = Ok None) :
  (reissue env run caller jti ttl w).2 = Err SsNotFound /\
  (sh_revoked_at <$> find_by_jti jti (sw_shares (reissue env run caller jti ttl w).1)) =
    Some (Some (run_row_now run)).
Proof.
  assert (reissue env run caller jti ttl w = ((revoke run caller jti w).1, Err SsNotFound)) as ->.
  { unfold reissue, own_row, mbind, svc_bind. rewrite Hrow. cbn [ok_or result_bind].
    rewrite Hown, String.eqb_refl. unfold revoke at 1, modify.
    unfold mint, mbind, svc_bind, instances_get. cbn [with_shares sw_instances]. rewrite Hinst.
    cbn [ok_or]. unfold lift. rewrite Hgone. done. }
  split; [done|]. cbn [fst revoke modify with_shares sw_shares].
  pose proof (find_by_jti_revoke jti jti caller (run_row_now run) (sw_shares w)) as Hf.
  rewrite Hrow in Hf. cbn [fmap option_fmap option_map] in Hf.
  destruct (find_by_jti_some _ _ _ Hrow) as [_ Hj].
  unfold revocable in Hf. rewrite Hj, Hown, Hlive, !String.eqb_refl in Hf. cbn [andb] in Hf.
  rewrite bool_decide_eq_true_2 in Hf by done. unfold revoke, modify. cbn [fst with_shares sw_shares].
  by rewrite Hf.
Qed.

(** ** A concrete world, for witnesses *)

Lemma mint_succeeds {dir : CipherDirectory} {codec : EnvelopeCodec} {sc : ShareCodec}
    env run caller inst chat art ttl label w i key token :
  instance_get_for_owner caller inst (sw_instances w) = Some i ->
  env_find env inst chat art = Ok (Some caller) ->
  user_holds (sw_secrets w) caller SIGNING_KEY_SECRET_NAME key ->
  String.length key = SIGNING_KEY_BYTES ->
  sign_token (new_payload caller inst chat art (run_now run + ttl_seconds ttl) (run_jti run)) key =
    Ok token ->
  find_by_jti (hex_encode (run_jti run)) (sw_shares w) = None ->
  mint env run caller inst chat art ttl label w =
    (with_shares (fun t => t ++ [mkShareRow (hex_encode (run_jti run)) inst chat art None caller
                                   (run_row_now run) (run_now run + ttl_seconds ttl) None label]) w,
     Ok (mkMinted (build_url (env_apex env) token) (hex_encode (run_jti run))
           (run_now run + ttl_seconds ttl) label (run_row_now run))).
Proof.
  intros Hi Hf Hk Hl Hs Hn. unfold mint, mbind, svc_bind, instances_get. rewrite Hi. cbn [ok_or].
  unfold lift. rewrite Hf. cbn [map_err]. rewrite String.eqb_refl. unfold mret, svc_ret, with_err.
  rewrite (ensure_signing_key_holds _ _ _ _ Hk Hl). cbn [map_err]. rewrite Hs. cbn [map_err].
  unfold store_mint, row_mint. cbn [sh_jti sp_jti new_payload]. by rewrite Hn.
Qed.

#[global] Instance SharePayload_eq_dec : EqDecision SharePayload.
Proof. solve_decision. Defined.
#[global] Instance SharePayload_countable : Countable SharePayload.
Proof.
  refine (inj_countable
    (fun p => ([sp_user_id p; sp_instance_id p; sp_chat_id p; sp_artefact_id p; sp_jti p],
               sp_v p, sp_exp p))
    (fun c => match c with
              | ([u; i; ch; a; j], v, e) => Some (mkPayload v u i ch a e j)
              | _ => None
              end) _).
  by intros [].
Defined.

Definition toy_b64 (s : string) : string :=
  if all_bytes is_bit s then String "B" s else String "T" (to_text s).
Definition toy_unb64 (s : string) : option string :=
  match s with
  | String c s => if Ascii.eqb c "B" then Some s else of_text s
  | EmptyString => None
  end.

Definition toy_shares : ShareCodec := {|
  postcard_to p := Some (to_text p);
  postcard_from := of_text;
  b64url_encode := toy_b64;
  b64url_decode := toy_unb64;
  hex_encode s := to_text s;
  hex_decode_16 := of_text;
  hmac_sha256 key data := key
|}.

Lemma toy_shares_ok : ShareCodecOk toy_shares.
Proof.
  split; cbn [postcard_to postcard_from b64url_encode b64url_decode hex_encode hex_decode_16 toy_shares].
  - intros p. exists (to_text p). by rewrite of_to_text.
  - intros s. unfold toy_b64. destruct (all_bytes is_bit s); [done|].
    unfold toy_unb64. rewrite of_to_text. done.
  - intros s. unfold toy_b64. destruct (all_bytes is_bit s) eqn:E; cbn [contains_char];
      rewrite (all_bytes_no_char is_bit); [done|done|done|done|apply to_text_bits|done].
  - intros j _. apply of_to_text.
Qed.

Section examples.
#[local] Existing Instance toy_directory.
#[local] Existing Instance toy_codec.
#[local] Existing Instance toy_shares.
#[local] Existing Instance toy_directory_ok.
#[local] Existing Instance toy_codec_ok.
#[local] Existing Instance toy_shares_ok.

Definition key_a : string := "00000000000000000000000000000000".
Definition key_b : string := "01010101010101010101010101010101".
Definition example_share_run (key : string) : ShareRun :=
  mkShareRun (mkSealRun 5 "r") 1000 1000 key "k".
Definition example_cache : ShareEnv :=
  mkShareEnv (fun i _ _ => Ok (Some (if (i =? "i")%string then "a" else "b"))) (fun _ => None) (Some "x.org").
Definition empty_cache : ShareEnv := mkShareEnv (fun _ _ _ => Ok None) (fun _ => None) None.

Definition example_secrets : SecretDb :=
  (user_put (mkSealRun 5 "r") "a" SIGNING_KEY_SECRET_NAME key_a (mkSecretDb ∅ ∅)).1.
Definition other_share : ShareRow :=
  mkShareRow (to_text "j") "i2" "c" "r" None "b" 0 1 None None.
Definition example_world : ShareWorld :=
  mkShareWorld example_secrets [other_share] [] 1 [example_row "i" "a"; example_row "i2" "b"]
    (mkMetrics 0 0 0 0 0).

Lemma example_holds : user_holds (sw_secrets example_world) "a" SIGNING_KEY_SECRET_NAME key_a.
Proof.
  assert (for_context (user_secret "a" SIGNING_KEY_SECRET_NAME) =
          Ok (mkVersioned "a" 1 (toy_cipher "a"))) as Hv by reflexivity.
  destruct (user_put_holds (mkSealRun 5 "r") (mkSecretDb ∅ ∅) "a" SIGNING_KEY_SECRET_NAME key_a _ Hv)
    as (db' & Hp & Hh & _).
  cbn [sw_secrets example_world]. unfold example_secrets. by rewrite Hp.
Qed.

Definition share_token : string :=
  match sign_token (new_payload "a" "i" "c" "r" (1000 + 24 * 3600) "k") key_a with
  | Ok t => t
  | Err _ => ""
  end.
Definition example_minted : MintedShare :=
  mkMinted (build_url (Some "x.org") share_token) (hex_encode "k") (1000 + 24 * 3600) None 1000.
Definition example_shared : ShareRow :=
  mkShareRow (hex_encode "k") "i" "c" "r" None "a" 1000 (1000 + 24 * 3600) None None.
Definition minted_world : ShareWorld := with_shares (fun t => t ++ [example_shared]) example_world.

Lemma example_mint :
  mint example_cache (example_share_run key_b) "a" "i" "c" "r" Day None example_world =
    (minted_world, Ok example_minted).
Proof.
  erewrite (mint_succeeds _ _ _ _ _ _ _ _ _ (example_row "i" "a") key_a share_token);
    [reflexivity|reflexivity|reflexivity|apply example_holds|reflexivity|reflexivity|].
  vm_compute. reflexivity.
Qed.

Lemma mint_then_verify_witness :
  exists token v, mi_url example_minted = build_url (Some "x.org") token /\
    verify (example_share_run key_a) token minted_world =
      (with_metrics record_accept minted_world, Ok v) /\ sh_artefact_id (vs_row v) = "r".
Proof.
  destruct (mint_then_verify example_cache (example_share_run key_b) (example_share_run key_a)
              "a" "i" "c" "r" Day None example_world minted_world example_minted)
    as (token & Hu & Hv).
  - done.
  - cbn. apply list.NoDup_cons. split; [set_solver|apply NoDup_singleton].
  - reflexivity.
  - apply example_mint.
  - cbn. lia.
  - exists token. assert (token = share_token) as ->.
    { apply (f_equal (RustStr.strip_prefix "https://share.x.org/v1/")) in Hu. vm_compute in Hu.
      apply Some_inj in Hu. by rewrite <- Hu. }
    assert (len share_token <= 1024) as Hl by (apply Z.leb_le; vm_compute; reflexivity).
    destruct (Hv Hl) as (v & Hver & _ & _ & _ & Hart & _).
    exists v. split; [reflexivity|]. split; [exact Hver|exact Hart].
Defined.

Lemma example_verifies :
  exists v, verify (example_share_run key_a) share_token minted_world =
    (with_metrics record_accept minted_world, Ok v) /\ ir_id (vs_instance v) = "i".
Proof.
  eexists. split.
  - destruct (decode_sign (new_payload "a" "i" "c" "r" (1000 + 24 * 3600) "k") key_a share_token)
      as (bytes & Hb & Hd); [reflexivity|reflexivity|apply Z.leb_le; vm_compute; reflexivity|].
    eapply verify_complete_load; [exact Hd| |apply load_signing_key_holds| | | | |].
    + cbn. lia.
    + apply example_holds.
    + reflexivity.
    + apply verify_with_key_ok. eauto.
    + vm_compute. reflexivity.
    + reflexivity.
    + reflexivity.
    + reflexivity.
  - reflexivity.
Qed.

Lemma verify_sound_witness :
  exists v payload key, accepted (example_share_run key_a) share_token minted_world v payload key /\
    sp_v payload = 1.
Proof.
  destruct example_verifies as (v & Hv & _).
  destruct (verify_sound (example_share_run key_a) share_token minted_world _ v Hv) as (p & k & H).
  by exists v, p, k.
Defined.

Definition share_jti : string := hex_encode "k".

Lemma example_found : find_by_jti share_jti (sw_shares minted_world) = Some example_shared.
Proof. vm_compute. reflexivity. Qed.

Lemma example_decodes :
  decode_token share_token = Ok (new_payload "a" "i" "c" "r" (1000 + 24 * 3600) "k", key_a).
Proof. vm_compute. reflexivity. Qed.

Lemma revoke_kills_witness :
  find_by_jti share_jti (sw_shares minted_world) = Some example_shared /\
  forall w'' v, verify (example_share_run key_a) share_token
    (revoke (example_share_run key_a) "a" share_jti minted_world).1 <> (w'', Ok v).
Proof.
  split; [exact example_found|]. exact (revoke_kills (example_share_run key_a) (example_share_run key_a) "a" share_jti share_token
           minted_world example_shared example_found _ _ example_decodes eq_refl).
Defined.

Lemma example_rotate :
  exists w', rotate_key (example_share_run key_b) "a" minted_world = (w', Ok tt).
Proof.
  assert (for_context (user_secret "a" SIGNING_KEY_SECRET_NAME) =
          Ok (mkVersioned "a" 1 (toy_cipher "a"))) as Hv by reflexivity.
  destruct (user_put_holds (mkSealRun 5 "r")
    (user_delete "a" SIGNING_KEY_SECRET_NAME example_secrets).1 "a" SIGNING_KEY_SECRET_NAME key_b _ Hv)
    as (db' & Hp & _).
  eexists. unfold rotate_key, rotate_signing_key, with_err, mbind, svc_bind, best_effort, on_secrets.
  cbn [sw_secrets minted_world with_shares example_world fst]. 
  change (user_delete "a" SIGNING_KEY_SECRET_NAME example_secrets) with
    ((user_delete "a" SIGNING_KEY_SECRET_NAME example_secrets).1, @Ok SecretsError unit tt).
  cbn [fst sw_secrets run_seal run_key example_share_run]. rewrite Hp. reflexivity.
Qed.

Lemma rotate_key_kills_witness :
  exists w', rotate_key (example_share_run key_b) "a" minted_world = (w', Ok tt) /\
    forall w'' v, verify (example_share_run key_a) share_token w' <> (w'', Ok v).
Proof.
  destruct example_rotate as [w' Hw']. exists w'. split; [exact Hw'|].
  apply (rotate_key_kills (example_share_run key_b) (example_share_run key_a) "a" key_a share_token key_a
           (to_text (new_payload "a" "i" "c" "r" (1000 + 24 * 3600) "k")) minted_world w'
           (new_payload "a" "i" "c" "r" (1000 + 24 * 3600) "k") Hw' example_decodes).
  - reflexivity.
  - reflexivity.
  - reflexivity.
  - vm_compute. discriminate.
Defined.

Lemma share_row_not_bound_witness :
  exists token, (verify (example_share_run key_a) token example_world).2 =
    Ok (mkVerified other_share (example_row "i" "a")).
Proof.
  exists (match sign_token (mkPayload 1 "a" "i" "" "" 5000 "j") key_a with Ok t => t | Err _ => "" end).
  apply (share_row_not_bound (example_share_run key_a) example_world "a" key_a "j" _ 5000
           (example_row "i" "a") other_share).
  - apply example_holds.
  - reflexivity.
  - reflexivity.
  - reflexivity.
  - vm_compute. reflexivity.
  - reflexivity.
  - done.
  - cbn. lia.
  - vm_compute. reflexivity.
  - apply Z.leb_le. vm_compute. reflexivity.
Defined.

Lemma destroyed_instance_still_shared_witness :
  exists v w'' v', ir_id (vs_instance v) = "i" /\
    verify (example_share_run key_a) share_token
      (with_destroyed (ir_id (vs_instance v)) 2000 minted_world) = (w'', Ok v') /\
    vs_row v' = vs_row v.
Proof.
  destruct example_verifies as (v & Hv & Hi).
  destruct (destroyed_instance_still_shared (example_share_run key_a) share_token minted_world _ v 2000 Hv)
    as (w'' & v' & H). exists v, w'', v'. split; [exact Hi|exact H].
Defined.

Lemma reissue_can_lose_witness :
  (reissue empty_cache (example_share_run key_a) "a" share_jti Week minted_world).2 = Err SsNotFound.
Proof.
  apply (reissue_can_lose empty_cache (example_share_run key_a) "a" share_jti Week minted_world
           example_shared (example_row "i" "a") example_found); reflexivity.
Defined.

(** A mint whose jti has the sixteen bytes of a real one *)
Definition long_run : ShareRun := mkShareRun (mkSealRun 5 "r") 1000 1000 key_b "0123456789abcdef".

Lemma url_for_minted_witness :
  exists w' m, mint example_cache long_run "a" "i" "c" "r" Day None example_world = (w', Ok m) /\
    url_for example_cache long_run "a" (mi_jti m) w' = (w', Ok (Some (mi_url m))).
Proof.
  assert (exists w' m, mint example_cache long_run "a" "i" "c" "r" Day None example_world = (w', Ok m)
          /\ mi_expires_at m = 1000 + 24 * 3600) as (w' & m & Hm & He).
  { do 2 eexists. split; [eapply mint_succeeds|].
    - reflexivity.
    - reflexivity.
    - apply example_holds.
    - reflexivity.
    - reflexivity.
    - vm_compute. reflexivity.
    - reflexivity. }
  exists w', m. split; [exact Hm|].
  apply (url_for_minted example_cache long_run long_run "a" "i" "c" "r" Day None example_world w' m).
  - reflexivity.
  - reflexivity.
  - exact Hm.
  - rewrite He. cbn. lia.
Defined.
End examples.
