(* ===== verification/LlmAudit.v ===== *)
(** * The audit stores

    Models [crates/core/src/db/sqlite/audit.rs]: [llm_audit] (one row per
    proxied call, read back as the day's token total), [mcp_audit] and
    [llm_tool_call].  Tables are kept in primary-key order, which an
    [AUTOINCREMENT] insert appends to.  Foreign keys are not modelled, and
    neither are the admin and secret-access audits. *)

From Stdlib Require Import ZArith Lia Sorted.
From stdpp Require Import base list strings gmap option.
From S2P Require Import Prelude RustStr Store.
Import list_relations.list.

Local Open Scope string_scope.
Local Open Scope list_scope.
Local Open Scope Z_scope.

(** [AuditEntry] *)
Record AuditEntry : Type := mkAuditEntry {
  ae_owner_id : string;
  ae_instance_id : string;
  ae_provider : string;
  ae_model : option string;
  ae_prompt_tokens : option Z;
  ae_output_tokens : option Z;
  ae_status_code : Z;
  ae_duration_ms : Z;
  ae_occurred_at : Z;
  ae_key_source : string;
  ae_completed : bool
}.

(** [McpAuditEntry] *)
Record McpAuditEntry : Type := mkMcpAuditEntry {
  me_owner_id : string;
  me_instance_id : string;
  me_server_name : string;
  me_tool : option string;
  me_status : Z;
  me_duration_ms : Z;
  me_ts : Z;
  me_completed : bool
}.

(** [LlmToolCallEntry] *)
Record LlmToolCallEntry : Type := mkToolCallEntry {
  te_llm_audit_id : option Z;
  te_owner_id : string;
  te_instance_id : string;
  te_tool_use_id : string;
  te_tool_name : string;
  te_mcp_server : option string;
  te_input_sealed : option string;
  te_called_at : Z
}.

(** A row of [llm_tool_call]: the entry and the columns filled in later. *)
Record ToolCallRow : Type := mkToolCallRow {
  tc_id : Z;
  tc_entry : LlmToolCallEntry;
  tc_result_sealed : option string;
  tc_is_error : option bool;
  tc_resulted_at : option Z;
  tc_mcp_audit_id : option Z
}.

(** [LlmToolCallRow]: the row with the joined [mcp_audit] columns. *)
Record LlmToolCallRow : Type := mkLlmToolCallRow {
  lr_row : ToolCallRow;
  lr_mcp_status : option Z;
  lr_mcp_duration_ms : option Z
}.

(** [LlmToolCallStatusFilter], [LlmToolCallFilters] *)
Inductive LlmToolCallStatusFilter : Type := FilterAll | FilterOk | FilterErr.
Record LlmToolCallFilters : Type := mkFilters {
  f_tool : option string;
  f_status : LlmToolCallStatusFilter;
  f_server : option string
}.

Record AuditDb : Type := mkAuditDb {
  llm_audit : list (Z * AuditEntry);
  llm_audit_next : Z;
  mcp_audit : list (Z * McpAuditEntry);
  mcp_audit_next : Z;
  tool_calls : list ToolCallRow;
  tool_calls_next : Z
}.

(** ** [llm_audit] *)

(** [AuditStore::insert] *)
Definition audit_insert (e : AuditEntry) (db : AuditDb) : AuditDb * Z :=
  (mkAuditDb (llm_audit db ++ [(llm_audit_next db, e)]) (llm_audit_next db + 1)
     (mcp_audit db) (mcp_audit_next db) (tool_calls db) (tool_calls_next db),
   llm_audit_next db).

(** [COALESCE(prompt_tokens,0) + COALESCE(output_tokens,0)] *)
Definition row_tokens (r : Z * AuditEntry) : Z :=
  default 0 (ae_prompt_tokens r.2) + default 0 (ae_output_tokens r.2).

(** The rows of an owner in the day before [now] *)
Definition in_day (owner_id : string) (now : Z) (r : Z * AuditEntry) : bool :=
  (ae_owner_id r.2 =? owner_id)%string && (now - 86400 <=? ae_occurred_at r.2).

(** [SUM] raises an error when a partial sum leaves [i64]. *)
Fixpoint sum_i64 (acc : Z) (l : list Z) : option Z :=
  match l with
  | [] => Some acc
  | x :: l =>
      if (i64_min <=? acc + x) && (acc + x <=? i64_max) then sum_i64 (acc + x) l else None
  end.

(** [AuditStore::daily_tokens] *)
Definition audit_daily_tokens (owner_id : string) (now : Z) (db : AuditDb) :
  result StoreError Z :=
  total ← ok_or (Io "integer overflow")
            (sum_i64 0 (map row_tokens (select (in_day owner_id now) (llm_audit db))));
  Ok (Z.max total 0).

(** [AuditStore::update_completion] *)
Definition audit_update_completion (audit_id : Z) (output_tokens : option Z) (db : AuditDb) :
  AuditDb :=
  mkAuditDb
    (update (fun r => r.1 =? audit_id)
       (fun r => (r.1, mkAuditEntry (ae_owner_id r.2) (ae_instance_id r.2) (ae_provider r.2)
          (ae_model r.2) (ae_prompt_tokens r.2) output_tokens (ae_status_code r.2)
          (ae_duration_ms r.2) (ae_occurred_at r.2) (ae_key_source r.2) true))
       (llm_audit db))
    (llm_audit_next db) (mcp_audit db) (mcp_audit_next db) (tool_calls db)
    (tool_calls_next db).

(** ** [mcp_audit] *)

(** [McpAuditStore::insert] *)
Definition mcp_insert (e : McpAuditEntry) (db : AuditDb) : AuditDb * Z :=
  (mkAuditDb (llm_audit db) (llm_audit_next db)
     (mcp_audit db ++ [(mcp_audit_next db, e)]) (mcp_audit_next db + 1)
     (tool_calls db) (tool_calls_next db),
   mcp_audit_next db).

(** [McpAuditStore::update_status] *)
Definition mcp_update_status (audit_id status duration_ms : Z) (db : AuditDb) : AuditDb :=
  mkAuditDb (llm_audit db) (llm_audit_next db)
    (update (fun r => r.1 =? audit_id)
       (fun r => (r.1, mkMcpAuditEntry (me_owner_id r.2) (me_instance_id r.2)
          (me_server_name r.2) (me_tool r.2) status duration_ms (me_ts r.2) true))
       (mcp_audit db))
    (mcp_audit_next db) (tool_calls db) (tool_calls_next db).

(** ** [llm_tool_call] *)

Definition with_tool_calls (f : list ToolCallRow -> list ToolCallRow) (db : AuditDb) :
  AuditDb :=
  mkAuditDb (llm_audit db) (llm_audit_next db) (mcp_audit db) (mcp_audit_next db)
    (f (tool_calls db)) (tool_calls_next db).

(** [LlmToolCallStore::insert_call] *)
Definition insert_call (e : LlmToolCallEntry) (db : AuditDb) : AuditDb * Z :=
  (mkAuditDb (llm_audit db) (llm_audit_next db) (mcp_audit db) (mcp_audit_next db)
     (tool_calls db ++ [mkToolCallRow (tool_calls_next db) e None None None None])
     (tool_calls_next db + 1),
   tool_calls_next db).

(** The row [attach_result] pairs: the newest one of that use id without a
    result. *)
Definition pending_call (tool_use_id : string) (db : AuditDb) : option ToolCallRow :=
  list.last (select (fun r => (te_tool_use_id (tc_entry r) =? tool_use_id)%string
                              && bool_decide (tc_result_sealed r = None))
               (tool_calls db)).

(** [LlmToolCallStore::attach_result] *)
Definition attach_result (tool_use_id result_sealed : string) (is_error : bool)
    (resulted_at : Z) (db : AuditDb) : AuditDb * bool :=
  match pending_call tool_use_id db with
  | None => (db, false)
  | Some p =>
      (with_tool_calls
         (update (fun r => tc_id r =? tc_id p)
            (fun r => mkToolCallRow (tc_id r) (tc_entry r) (Some result_sealed)
                        (Some is_error) (Some resulted_at) (tc_mcp_audit_id r))) db,
       true)
  end.

(** [filter(|s| !s.is_empty())] *)
Definition non_empty (o : option string) : option string :=
  o ≫= fun s => if is_empty s then None else Some s.

(** [append_tool_call_filters] *)
Definition filter_matches (filters : LlmToolCallFilters) (before : option Z)
    (r : ToolCallRow) : bool :=
  match non_empty (f_tool filters) with
  | Some tool => (te_tool_name (tc_entry r) =? tool)%string
  | None => true
  end &&
  match f_status filters with
  | FilterAll => true
  | FilterOk => bool_decide (tc_is_error r = Some false)
  | FilterErr => bool_decide (tc_is_error r = Some true)
  end &&
  match non_empty (f_server filters) with
  | Some server => bool_decide (te_mcp_server (tc_entry r) = Some server)
  | None => true
  end &&
  match before with Some b => tc_id r <? b | None => true end.

(** [LEFT JOIN mcp_audit m ON m.id = c.mcp_audit_id] and [row_to_tool_call] *)
Definition row_to_tool_call (db : AuditDb) (r : ToolCallRow) : LlmToolCallRow :=
  let m := tc_mcp_audit_id r ≫= fun i => select_one (fun m => m.1 =? i) (mcp_audit db) in
  mkLlmToolCallRow r ((fun m => me_status m.2) <$> m) ((fun m => me_duration_ms m.2) <$> m).

Definition owned_call (owner_id instance_id : string) (r : ToolCallRow) : bool :=
  (te_owner_id (tc_entry r) =? owner_id)%string
  && (te_instance_id (tc_entry r) =? instance_id)%string.

(** [LlmToolCallStore::list] *)
Definition list_calls (owner_id instance_id : string) (filters : LlmToolCallFilters)
    (before : option Z) (limit : nat) (db : AuditDb) : list LlmToolCallRow :=
  map (row_to_tool_call db)
    (take limit (reverse (select (fun r => owned_call owner_id instance_id r
                                           && filter_matches filters before r)
                            (tool_calls db)))).

(** [LlmToolCallStore::stream_after] *)
Definition stream_after (owner_id instance_id : string) (cursor_id : Z) (db : AuditDb) :
  list LlmToolCallRow :=
  map (row_to_tool_call db)
    (take 500 (select (fun r => owned_call owner_id instance_id r && (cursor_id <? tc_id r))
                 (tool_calls db))).

(** [ORDER BY ABS(ts - ?) ASC, id DESC LIMIT 1] *)
Fixpoint nearest (called_at : Z) (rows : list (Z * McpAuditEntry)) : option (Z * McpAuditEntry) :=
  match rows with
  | [] => None
  | r :: rows =>
      match nearest called_at rows with
      | None => Some r
      | Some q =>
          let dr := Z.abs (me_ts r.2 - called_at) in
          let dq := Z.abs (me_ts q.2 - called_at) in
          if (dr <? dq) || (dr =? dq) && (q.1 <? r.1) then Some r else Some q
      end
  end.

(** [LlmToolCallStore::link_mcp_audit] *)
Definition link_mcp_audit (tool_call_id : Z) (owner_id instance_id server_name tool_name : string)
    (called_at : Z) (db : AuditDb) : AuditDb * bool :=
  let mine (m : Z * McpAuditEntry) :=
    (me_owner_id m.2 =? owner_id)%string && (me_instance_id m.2 =? instance_id)%string
    && (me_server_name m.2 =? server_name)%string
    && bool_decide (me_tool m.2 = Some tool_name) in
  let target r := (tc_id r =? tool_call_id) && bool_decide (tc_mcp_audit_id r = None) in
  match nearest called_at (select mine (mcp_audit db)) with
  | None => (db, false)
  | Some m =>
      (with_tool_calls
         (update target (fun r => mkToolCallRow (tc_id r) (tc_entry r) (tc_result_sealed r)
                            (tc_is_error r) (tc_resulted_at r) (Some m.1))) db,
       (0 <? Z.of_nat (affected target (tool_calls db))))
  end.

(** [LlmToolCallStore::rewrap_input]: a compare-and-set. *)
Definition rewrap_input (id : Z) (previous fresh : string) (db : AuditDb) : AuditDb * bool :=
  let target r :=
    (tc_id r =? id) && bool_decide (te_input_sealed (tc_entry r) = Some previous) in
  (with_tool_calls
     (update target (fun r =>
        let e := tc_entry r in
        mkToolCallRow (tc_id r)
          (mkToolCallEntry (te_llm_audit_id e) (te_owner_id e) (te_instance_id e)
             (te_tool_use_id e) (te_tool_name e) (te_mcp_server e) (Some fresh) (te_called_at e))
          (tc_result_sealed r) (tc_is_error r) (tc_resulted_at r) (tc_mcp_audit_id r))) db,
   (0 <? Z.of_nat (affected target (tool_calls db)))).

(** [LlmToolCallStore::rewrap_result] *)
Definition rewrap_result (id : Z) (previous fresh : string) (db : AuditDb) : AuditDb * bool :=
  let target r := (tc_id r =? id) && bool_decide (tc_result_sealed r = Some previous) in
  (with_tool_calls
     (update target (fun r => mkToolCallRow (tc_id r) (tc_entry r) (Some fresh)
        (tc_is_error r) (tc_resulted_at r) (tc_mcp_audit_id r))) db,
   (0 <? Z.of_nat (affected target (tool_calls db)))).

(** ** Well-formed tables *)

(** Keys are increasing and below the next one. *)
Definition keyed {R} (key : R -> Z) (next : Z) (t : list R) : Prop :=
  StronglySorted Z.lt (map key t) /\ Forall (fun r => key r < next) t.

Definition audit_wf (db : AuditDb) : Prop :=
  keyed fst (llm_audit_next db) (llm_audit db) /\
  keyed fst (mcp_audit_next db) (mcp_audit db) /\
  keyed tc_id (tool_calls_next db) (tool_calls db).

(** The operations that change the database. *)
Inductive audit_step : AuditDb -> AuditDb -> Prop :=
| step_insert e db : audit_step db (audit_insert e db).1
| step_completion i n db : audit_step db (audit_update_completion i n db)
| step_mcp_insert e db : audit_step db (mcp_insert e db).1
| step_mcp_status i s d db : audit_step db (mcp_update_status i s d db)
| step_call e db : audit_step db (insert_call e db).1
| step_attach u s b t db : audit_step db (attach_result u s b t db).1
| step_link c o i s n t db : audit_step db (link_mcp_audit c o i s n t db).1
| step_rewrap_input i p f db : audit_step db (rewrap_input i p f db).1
| step_rewrap_result i p f db : audit_step db (rewrap_result i p f db).1.

Definition empty_audit : AuditDb := mkAuditDb [] 1 [] 1 [] 1.

Inductive audit_reachable : AuditDb -> Prop :=
| reach_empty : audit_reachable empty_audit
| reach_step db db' : audit_reachable db -> audit_step db db' -> audit_reachable db'.

Lemma StronglySorted_snoc l x :
  StronglySorted Z.lt l -> Forall (fun y => y < x) l -> StronglySorted Z.lt (l ++ [x]).
Proof.
  induction 1 as [|y l Hs IH Hy]; intros Hx; cbn; [by repeat constructor|].
  apply list.Forall_cons in Hx as [Hyx Hx]. constructor; [auto|].
  apply Forall_app. split; [done|]. by repeat constructor.
Qed.

Lemma keyed_snoc {R} (key : R -> Z) next t r :
  keyed key next t -> key r = next -> keyed key (next + 1) (t ++ [r]).
Proof.
  intros [Hs Hb] Hr. split.
  - rewrite map_app. apply StronglySorted_snoc; [done|]. rewrite Hr.
    apply Forall_map. exact Hb.
  - apply Forall_app. split; [|repeat constructor; lia].
    eapply Forall_impl; [exact Hb|]. cbn. lia.
Qed.

Lemma keyed_update {R} (key : R -> Z) next p f t :
  (forall r, key (f r) = key r) -> keyed key next t -> keyed key next (update p f t).
Proof.
  intros Hf [Hs Hb]. split.
  - assert (map key (update p f t) = map key t) as ->; [|done].
    unfold update. rewrite map_map. apply map_ext. intros r. case_match; auto.
  - apply Forall_forall. intros r Hr. apply elem_of_update in Hr as (r0 & Hr0 & ->).
    rewrite Forall_forall in Hb. specialize (Hb r0 Hr0). case_match; [rewrite Hf|]; done.
Qed.

#[export] Hint Resolve keyed_snoc keyed_update : swarm.

Lemma audit_step_wf db db' : audit_step db db' -> audit_wf db -> audit_wf db'.
Proof.
  intros Hstep (H1 & H2 & H3). destruct Hstep; unfold audit_wf; cbn;
    try (unfold attach_result; destruct (pending_call _ _));
    try (unfold link_mcp_audit; destruct (nearest _ _)); cbn;
    split_and!; auto with swarm.
Qed.

Lemma audit_reachable_keyed db : audit_reachable db -> audit_wf db.
Proof.
  induction 1 as [|db db' _ IH Hs]; [|by eapply audit_step_wf].
  unfold audit_wf, keyed. cbn. split_and!; constructor.
Qed.

(** ** Paging *)

Definition desc_ids (l : list ToolCallRow) : Prop := StronglySorted (fun a b => tc_id b < tc_id a) l.

Lemma StronglySorted_filter {A} (Q : A -> A -> Prop) (p : A -> bool) l :
  StronglySorted Q l -> StronglySorted Q (select p l).
Proof.
  induction 1 as [|x l Hs IH Hx]; [constructor|]. rewrite select_cons. destruct (p x); [|done].
  constructor; [done|]. apply Forall_forall. intros y Hy. apply elem_of_select in Hy as [Hy _].
  rewrite Forall_forall in Hx. auto.
Qed.

Lemma desc_reverse l : StronglySorted Z.lt (map tc_id l) -> desc_ids (reverse l).
Proof.
  induction l as [|x l IH]; intros Hs; [constructor|]. cbn in Hs.
  apply StronglySorted_inv in Hs as [Hs Hx]. rewrite reverse_cons. specialize (IH Hs).
  assert (Forall (fun y => tc_id x < tc_id y) (reverse l)) as Hall.
  { apply Forall_reverse. by rewrite Forall_map in Hx. }
  clear Hx Hs. unfold desc_ids in *. induction IH as [|y k Hk IHk Hy]; cbn; [by repeat constructor|].
  apply list.Forall_cons in Hall as [Hxy Hall]. constructor; [auto|].
  apply Forall_app. split; [done|]. by repeat constructor.
Qed.

Lemma select_reverse {A} (p : A -> bool) l : select p (reverse l) = reverse (select p l).
Proof.
  induction l as [|x l IH]; [done|].
  rewrite reverse_cons, select_app, IH, !select_cons. destruct (p x).
  - by rewrite reverse_cons.
  - apply app_nil_r.
Qed.

Lemma select_all {A} (p : A -> bool) l : (forall x, x ∈ l -> p x = true) -> select p l = l.
Proof.
  induction l as [|x l IH]; intros H; [done|]. rewrite select_cons, (H x) by set_solver.
  f_equal. apply IH. set_solver.
Qed.

(** Below the last key of a prefix of a descending list lies the rest of it. *)
Lemma select_below_last n l r :
  desc_ids l -> list.last (take n l) = Some r ->
  select (fun x => tc_id x <? tc_id r) l = drop n l.
Proof.
  revert l. induction n as [|n IH]; intros l Hl Hr; [done|].
  destruct l as [|x l]; [done|]. apply StronglySorted_inv in Hl as [Hl Hx].
  rewrite select_cons. cbn [take drop] in *. rewrite Forall_forall in Hx.
  destruct (take n l) as [|y k] eqn:E.
  - cbn in Hr. simplify_eq. rewrite Z.ltb_irrefl.
    assert (drop n l = l) as ->.
    { destruct n; [done|]. by destruct l. }
    apply select_all. intros y Hy. apply Z.ltb_lt. auto.
  - rewrite last_cons_cons in Hr. rewrite <- E in Hr.
    assert (r ∈ l) as Hin.
    { apply last_Some_elem_of in Hr. rewrite <- (take_drop n l). set_solver. }
    specialize (Hx r Hin). replace (tc_id x <? tc_id r) with false by (symmetry; lia). auto.
Qed.

(** Every row a listing may return, newest first. *)
Definition all_calls (owner_id instance_id : string) (filters : LlmToolCallFilters)
    (db : AuditDb) : list ToolCallRow :=
  reverse (select (fun r => owned_call owner_id instance_id r && filter_matches filters None r)
             (tool_calls db)).

(** A client that asks for the next page below the last id it saw, as
    [export_tool_calls] and [tool_call_facets] do. *)
Fixpoint walk_pages (owner_id instance_id : string) (filters : LlmToolCallFilters)
    (limit fuel : nat) (before : option Z) (db : AuditDb) : list LlmToolCallRow :=
  match fuel with
  | O => []
  | S fuel =>
      let page := list_calls owner_id instance_id filters before limit db in
      match list.last page with
      | None => []
      | Some r =>
          page ++ walk_pages owner_id instance_id filters limit fuel
                    (Some (tc_id (lr_row r))) db
      end
  end.

Lemma filter_matches_before filters before r :
  filter_matches filters before r =
    filter_matches filters None r && match before with Some b => tc_id r <? b | None => true end.
Proof. unfold filter_matches. by rewrite andb_true_r. Qed.

Lemma select_and {A} (p q : A -> bool) l : select (fun x => p x && q x) l = select q (select p l).
Proof.
  induction l as [|x l IH]; [done|]. rewrite !select_cons, IH.
  destruct (p x); cbn [andb]; [by rewrite select_cons|done].
Qed.

Lemma select_ext {A} (p q : A -> bool) l : (forall x, p x = q x) -> select p l = select q l.
Proof.
  intros H. induction l as [|x l IH]; [done|]. by rewrite !select_cons, H, IH.
Qed.

Lemma list_calls_below owner inst filters before limit db :
  list_calls owner inst filters before limit db =
    map (row_to_tool_call db)
      (take limit (match before with
                   | None => all_calls owner inst filters db
                   | Some b => select (fun x => tc_id x <? b) (all_calls owner inst filters db)
                   end)).
Proof.
  unfold list_calls, all_calls. do 2 f_equal. destruct before as [b|]; [|done].
  rewrite select_reverse. f_equal. rewrite <- select_and. apply select_ext.
  intros r. rewrite filter_matches_before. by rewrite andb_assoc.
Qed.

Lemma all_calls_desc owner inst filters db :
  audit_wf db -> desc_ids (all_calls owner inst filters db).
Proof.
  intros (_ & _ & Hs & _). unfold all_calls. rewrite <- select_reverse.
  apply StronglySorted_filter. by apply desc_reverse.
Qed.

(** The page cursor, read off the rows before the join. *)
Lemma last_page_row db l r :
  list.last (map (row_to_tool_call db) l) = Some r -> list.last l = Some (lr_row r).
Proof.
  rewrite fmap_last. destruct (list.last l) as [x|]; cbn; [|done]. by intros [= <-].
Qed.

(** The walk from a cursor that leaves [l] to list. *)
Lemma walk_pages_from owner inst filters limit fuel before db l :
  audit_wf db -> (0 < limit)%nat -> (length l < fuel)%nat ->
  desc_ids l ->
  match before with
  | None => all_calls owner inst filters db
  | Some b => select (fun x => tc_id x <? b) (all_calls owner inst filters db)
  end = l ->
  (forall b, select (fun x => tc_id x <? b) l =
     match before with
     | None => select (fun x => tc_id x <? b) (all_calls owner inst filters db)
     | Some b' => select (fun x => tc_id x <? Z.min b b') (all_calls owner inst filters db)
     end) ->
  walk_pages owner inst filters limit fuel before db = map (row_to_tool_call db) l.
Proof.
  intros Hwf Hlim. revert before l.
  induction fuel as [|fuel IH]; intros before l Hfuel Hdesc Hl Hsel; [lia|].
  cbn [walk_pages]. rewrite list_calls_below, Hl.
  destruct (list.last (map _ (take limit l))) as [r|] eqn:Hlast.
  - apply last_page_row in Hlast. pose proof (select_below_last _ _ _ Hdesc Hlast) as Hrest.
    assert (r_in : lr_row r ∈ l) by (apply last_Some_elem_of in Hlast;
      rewrite <- (take_drop limit l); set_solver).
    assert (drop limit l = select (fun x => tc_id x <? tc_id (lr_row r))
              (all_calls owner inst filters db)) as Hdrop.
    { rewrite <- Hrest, Hsel. destruct before as [b|]; [|done].
      rewrite <- Hl in r_in. apply elem_of_select in r_in as [_ Hb]. apply Z.ltb_lt in Hb.
      by rewrite Z.min_l by lia. }
    rewrite (IH (Some (tc_id (lr_row r))) (drop limit l)).
    + by rewrite <- map_app, take_drop.
    + assert (l <> []) by (intros ->; by apply elem_of_nil in r_in).
      rewrite length_drop. destruct l; cbn in *; [done|]. lia.
    + rewrite Hdrop. by apply StronglySorted_filter, all_calls_desc.
    + by symmetry.
    + intros b. rewrite Hdrop, <- select_and. apply select_ext. intros x.
      rewrite andb_comm. destruct (_ <? _) eqn:E1, (tc_id x <? Z.min _ _) eqn:E2;
        cbn; to_prop; lia.
  - apply last_None in Hlast. destruct l as [|x l]; [done|]. destruct limit; [lia|done].
Qed.

(** Following the [before] cursor from page to page lists every tool call
    of the instance that the filters admit exactly once, newest first, and
    nothing of another owner or instance, in at most one request more than
    there are rows. *)
Theorem tool_call_pages_exact (owner inst : string) (filters : LlmToolCallFilters)
    (limit fuel : nat) (db : AuditDb)
    (Hdb : audit_reachable db) (Hlim : (0 < limit)%nat)
    (Hfuel : (length (tool_calls db) < fuel)%nat) :
  map lr_row (walk_pages owner inst filters limit fuel None db) =
    reverse (select (fun r => owned_call owner inst r && filter_matches filters None r)
               (tool_calls db)).
Proof.
  apply audit_reachable_keyed in Hdb as Hwf.
  rewrite (walk_pages_from owner inst filters limit fuel None db (all_calls owner inst filters db));
    [|done..| |by apply all_calls_desc|done|done].
  - rewrite map_map. cbn. apply map_id.
  - unfold all_calls. rewrite length_reverse. unfold select.
    pose proof (length_filter (fun r => owned_call owner inst r && filter_matches filters None r = true)
      (tool_calls db)). lia.
Qed.

Definition example_call (owner : string) : LlmToolCallEntry :=
  mkToolCallEntry (Some 1) owner "i1" "toolu_1" "search" None (Some "sealed") 5.
Definition example_calls : AuditDb :=
  (insert_call (example_call "u1") (insert_call (example_call "u2")
    (insert_call (example_call "u1") empty_audit).1).1).1.

Lemma tool_call_pages_exact_witness :
  map (fun r => tc_id (lr_row r))
    (walk_pages "u1" "i1" (mkFilters None FilterAll None) 1 4 None example_calls) = [3; 1].
Proof.
  rewrite <- (map_map lr_row tc_id).
  rewrite (tool_call_pages_exact "u1" "i1" (mkFilters None FilterAll None) 1 4 example_calls).
  - reflexivity.
  - do 3 (eapply reach_step; [|apply step_call]). apply reach_empty.
  - lia.
  - cbn. lia.
Defined.

(** ** The day's tokens *)

Lemma sum_i64_snoc_zero acc l :
  i64_min <= acc <= i64_max -> sum_i64 acc (l ++ [0]) = sum_i64 acc l.
Proof.
  revert acc. induction l as [|x l IH]; intros acc Hacc; cbn [sum_i64 app].
  - rewrite Z.add_0_r. replace (i64_min <=? acc) with true by (symmetry; lia).
    by replace (acc <=? i64_max) with true by (symmetry; lia).
  - case_match; [|done]. to_prop. apply IH. lia.
Qed.

(** A row that carries no token count leaves every owner's total as it was. *)
Lemma daily_tokens_insert_unmetered e owner now db :
  ae_prompt_tokens e = None -> ae_output_tokens e = None ->
  audit_daily_tokens owner now (audit_insert e db).1 = audit_daily_tokens owner now db.
Proof.
  intros Hp Ho. unfold audit_daily_tokens. cbn [audit_insert fst llm_audit].
  rewrite select_app, map_app, select_cons. destruct (in_day owner now _).
  - change (select (in_day owner now) []) with (@nil (Z * AuditEntry)). cbn [map].
    unfold row_tokens at 2. cbn [snd]. rewrite Hp, Ho. cbn [default].
    rewrite sum_i64_snoc_zero by (unfold i64_min, i64_max; lia). done.
  - by rewrite app_nil_r.
Qed.

Lemma sum_i64_nonneg acc l :
  0 <= acc -> Forall (fun x => 0 <= x) l -> acc + sum_of id l <= i64_max ->
  sum_i64 acc l = Some (acc + sum_of id l).
Proof.
  revert acc. induction l as [|x l IH]; intros acc Hacc Hl Hmax.
  - cbn. by rewrite Z.add_0_r.
  - apply list.Forall_cons in Hl as [Hx Hl].
    change (sum_of id (x :: l)) with (x + sum_of id l) in *.
    assert (0 <= sum_of id l).
    { clear -Hl. induction Hl as [|y l Hy _ IH]; [done|].
      change (0 <= y + sum_of id l). cbn in Hy. lia. }
    cbn [sum_i64]. replace (i64_min <=? acc + x) with true by (symmetry; unfold i64_min in *; lia).
    replace (acc + x <=? i64_max) with true by (symmetry; lia). cbn [andb].
    rewrite IH by (done || lia). f_equal. lia.
Qed.

(** No stored token count is negative. *)
Definition tokens_nonneg (db : AuditDb) : Prop :=
  Forall (fun r => 0 <= default 0 (ae_prompt_tokens r.2) /\
                   0 <= default 0 (ae_output_tokens r.2)) (llm_audit db).

(** The tokens of [owner] in the day before [now], with no bound. *)
Definition tokens_used (owner : string) (now : Z) (db : AuditDb) : Z :=
  sum_of row_tokens (select (in_day owner now) (llm_audit db)).

Lemma sum_of_map {A} (f : A -> Z) l : sum_of id (map f l) = sum_of f l.
Proof. induction l as [|x l IH]; [done|]. change (f x + sum_of id (map f l) = f x + sum_of f l). lia. Qed.

Lemma sum_of_nonneg {A} (f : A -> Z) l : (forall x, x ∈ l -> 0 <= f x) -> 0 <= sum_of f l.
Proof.
  induction l as [|x l IH]; intros H; [done|]. change (0 <= f x + sum_of f l).
  pose proof (H x ltac:(set_solver)). assert (0 <= sum_of f l) by (apply IH; set_solver). lia.
Qed.

Lemma tokens_nonneg_rows db r : tokens_nonneg db -> r ∈ llm_audit db -> 0 <= row_tokens r.
Proof.
  unfold tokens_nonneg. rewrite Forall_forall. intros H Hr. specialize (H r Hr).
  unfold row_tokens. lia.
Qed.

(** The store's total is the true one while that fits an [i64]. *)
Lemma daily_tokens_used owner now db :
  tokens_nonneg db -> tokens_used owner now db <= i64_max ->
  audit_daily_tokens owner now db = Ok (tokens_used owner now db).
Proof.
  intros Hn Hmax. unfold audit_daily_tokens, tokens_used in *.
  assert (forall r, r ∈ select (in_day owner now) (llm_audit db) -> 0 <= row_tokens r) as Hrows.
  { intros r Hr. apply elem_of_select in Hr as [Hr _]. by eapply tokens_nonneg_rows. }
  rewrite sum_i64_nonneg, sum_of_map; [|lia| |by rewrite sum_of_map].
  - cbn. pose proof (sum_of_nonneg _ _ Hrows). f_equal. lia.
  - apply Forall_map, Forall_forall. exact Hrows.
Qed.

(** Rewriting the one row with key [i] changes a sum by the difference. *)
Lemma sum_of_update_key (f : Z * AuditEntry -> Z) (g : Z * AuditEntry -> Z * AuditEntry) t i e :
  StronglySorted Z.lt (map fst t) -> (i, e) ∈ t ->
  sum_of f (update (fun r => r.1 =? i) g t) = sum_of f t - f (i, e) + f (g (i, e)).
Proof.
  induction t as [|r t IH]; intros Hs Hin; [by apply elem_of_nil in Hin|].
  cbn [map] in Hs. apply StronglySorted_inv in Hs as [Hs Hr].
  change (sum_of f (r :: t)) with (f r + sum_of f t). unfold update. cbn [map].
  change (map (fun r => if r.1 =? i then g r else r) t) with (update (fun r => r.1 =? i) g t).
  rewrite Forall_map, Forall_forall in Hr.
  apply elem_of_cons in Hin as [<-|Hin].
  - cbn [fst]. rewrite Z.eqb_refl, update_noop.
    + change (sum_of f (g (i, e) :: t)) with (f (g (i, e)) + sum_of f t). lia.
    + intros q Hq. specialize (Hr q Hq). cbn in Hr. apply Z.eqb_neq. lia.
  - specialize (Hr _ Hin). cbn in Hr. replace (r.1 =? i) with false by (symmetry; lia).
    change (sum_of f (r :: update (fun r => r.1 =? i) g t))
      with (f r + sum_of f (update (fun r => r.1 =? i) g t)).
    rewrite IH by done. lia.
Qed.

Lemma sorted_key_unique {A} (t : list (Z * A)) i e f :
  StronglySorted Z.lt (map fst t) -> (i, e) ∈ t -> (i, f) ∈ t -> e = f.
Proof.
  induction t as [|r t IH]; intros Hs H1 H2; [by apply elem_of_nil in H1|].
  cbn [map] in Hs. apply StronglySorted_inv in Hs as [Hs Hr].
  rewrite Forall_map, Forall_forall in Hr.
  apply elem_of_cons in H1 as [<-|H1]; apply elem_of_cons in H2 as [H2|H2]; auto; try congruence.
  - specialize (Hr _ H2). cbn in Hr. lia.
  - subst r. specialize (Hr _ H1). cbn in Hr. lia.
Qed.

Lemma sorted_select {A} (p : Z * A -> bool) (t : list (Z * A)) :
  StronglySorted Z.lt (map fst t) -> StronglySorted Z.lt (map fst (select p t)).
Proof.
  induction t as [|r t IH]; intros Hs; [done|]. cbn [map] in Hs.
  apply StronglySorted_inv in Hs as [Hs Hr]. rewrite select_cons. destruct (p r); [|auto].
  cbn [map]. constructor; [auto|]. rewrite Forall_map, Forall_forall in Hr.
  rewrite Forall_map, Forall_forall. intros q Hq. apply Hr.
  by apply elem_of_select in Hq as [Hq _].
Qed.

Lemma tokens_used_completion db i n e owner now :
  audit_wf db -> (i, e) ∈ llm_audit db -> ae_output_tokens e = None ->
  tokens_used owner now (audit_update_completion i (Some n) db) =
    tokens_used owner now db + if in_day owner now (i, e) then n else 0.
Proof.
  intros ((Hs & _) & _) Hin Hout. unfold tokens_used. cbn [llm_audit audit_update_completion].
  rewrite select_update by done. destruct (in_day owner now (i, e)) eqn:Hday.
  - erewrite sum_of_update_key; [|by apply sorted_select|by apply elem_of_select].
    assert (row_tokens (i, e) = default 0 (ae_prompt_tokens e)) as ->
      by (unfold row_tokens; cbn [snd]; rewrite Hout; apply Z.add_0_r).
    unfold row_tokens at 2. cbn [fst snd ae_prompt_tokens ae_output_tokens default id from_option].
    lia.
  - rewrite update_noop; [lia|]. intros [j f] Hq. apply elem_of_select in Hq as [Hq Hd].
    apply Z.eqb_neq. cbn. intros ->. rewrite (sorted_key_unique _ _ _ _ Hs Hin Hq) in Hday.
    congruence.
Qed.

(** When a proxied call finishes, stamping its row with the reported
    output tokens adds exactly that many tokens to its owner's daily total
    (the row carried none before), as long as the total fits an [i64], and
    leaves every other owner's total alone. *)
Theorem completion_counts (db : AuditDb) (i n : Z) (e : AuditEntry) (owner : string) (now : Z)
    (Hdb : audit_reachable db) (Hn : tokens_nonneg db) (Hin : (i, e) ∈ llm_audit db)
    (Hout : ae_output_tokens e = None) (Hpos : 0 <= n)
    (Hfit : tokens_used owner now db + n <= i64_max) :
  audit_daily_tokens owner now (audit_update_completion i (Some n) db) =
    Ok (tokens_used owner now db + if in_day owner now (i, e) then n else 0).
Proof.
  pose proof (tokens_used_completion db i n e owner now (audit_reachable_keyed _ Hdb) Hin Hout)
    as Hused.
  rewrite <- Hused. apply daily_tokens_used.
  - unfold tokens_nonneg in *. apply Forall_forall. intros r Hr. cbn in Hr.
    apply elem_of_update in Hr as (r0 & Hr0 & ->). rewrite Forall_forall in Hn.
    specialize (Hn r0 Hr0). destruct (r0.1 =? i); [|done]. split; [apply Hn|exact Hpos].
  - rewrite Hused. case_match; lia.
Qed.

Definition example_entry (owner : string) : AuditEntry :=
  mkAuditEntry owner "i1" "openai" (Some "gpt-4o") None None 200 12 1000 "byok" false.
Definition example_audit : AuditDb :=
  audit_update_completion 1 (Some 7)
    (audit_insert (example_entry "u1") (audit_insert (example_entry "u1") empty_audit).1).1.

Lemma completion_counts_witness :
  audit_daily_tokens "u1" 2000 (audit_update_completion 2 (Some 35) example_audit) = Ok 42.
Proof.
  rewrite (completion_counts example_audit 2 35 (example_entry "u1") "u1" 2000).
  - reflexivity.
  - eapply reach_step; [|apply step_completion].
    do 2 (eapply reach_step; [|apply step_insert]). apply reach_empty.
  - unfold tokens_nonneg. do 2 (apply List.Forall_cons; [vm_compute; split; discriminate|]). apply List.Forall_nil.
  - cbn. set_solver.
  - reflexivity.
  - lia.
  - vm_compute. discriminate.
Defined.
