(* ===== verification/LlmProxy.v ===== *)
(** * The LLM proxy

    Models [crates/swarm/src/proxy/http.rs] (the [/llm/<provider>/...]
    handler), [proxy/mod.rs] (rate window and usage snapshot),
    [proxy/byok.rs] (which key a call uses), [proxy/adapters] (how each
    provider is authenticated) and [proxy/upstream_policy.rs].

    One run of [handle] is one transition of the proxy's state: the rate
    window, the audit tables and the list of requests sent upstream.  The
    budget guard makes runs of one owner exclude each other from the policy
    load to the audit insert, so a sequence of transitions is what the
    program does; a call's completion is the separate step
    [audit_update_completion].  Every clock reading and every store failure
    of a run is an input ([Run]). *)

From Stdlib Require Import ZArith Ascii Lia SpecFloat Sorted.
From stdpp Require Import base list strings gmap option.
From S2P Require Import Prelude RustStr RustNet RustHttp Store Json UpstreamPolicy.
From S2P Require Import Traits LlmPolicy LlmAudit.
Import list_relations.list.

Local Open Scope string_scope.
Local Open Scope list_scope.
Local Open Scope Z_scope.

(** ** The rate window *)

Definition NANOS : Z := 1000000000.
(** The earliest [Instant]: [i64::MIN] seconds. *)
Definition instant_min : Z := i64_min * NANOS.

(** [Instant::checked_sub] *)
Definition checked_sub (t d : Z) : option Z :=
  if instant_min <=? t - d then Some (t - d) else None.

Fixpoint pop_before (cutoff : Z) (q : list Z) : list Z :=
  match q with
  | front :: q' => if front <? cutoff then pop_before cutoff q' else q
  | [] => []
  end.

(** [prune] *)
Definition prune (q : list Z) (now : Z) : list Z :=
  pop_before (default now (checked_sub now NANOS)) q.

Abbreviation RateWindow := (gmap string (list Z)).

(** [RateWindow::observe] *)
Definition observe (subject : string) (now : Z) (m : RateWindow) : RateWindow * Z :=
  let q := prune (default [] (m !! subject) ++ [now]) now in
  (<[subject := q]> m, Z.min (Z.of_nat (length q)) u32_max).

(** ** Tool results in a request body *)

(** [CapturedToolResult] *)
Record CapturedToolResult : Type := mkCaptured {
  cr_tool_use_id : string;
  cr_content : json;
  cr_is_error : bool
}.

(** The OpenAI shape: a message with role ["tool"]. *)
Definition tool_message_result (message : json) : list CapturedToolResult :=
  match get_str "role" message, non_empty (get_str "tool_call_id" message) with
  | Some role, Some id =>
      if (role =? "tool")%string
      then [mkCaptured id (default JNull (jget "content" message)) false] else []
  | _, _ => []
  end.

(** The Anthropic shape: a ["tool_result"] block. *)
Definition block_result (block : json) : list CapturedToolResult :=
  match get_str "type" block with
  | Some ty =>
      if (ty =? "tool_result")%string
      then match non_empty (get_str "tool_use_id" block) with
           | Some id =>
               [mkCaptured id (default JNull (jget "content" block))
                  (default false (jget "is_error" block ≫= as_bool))]
           | None => []
           end
      else []
  | None => []
  end.

Definition message_results (message : json) : list CapturedToolResult :=
  tool_message_result message ++
  match jget "content" message ≫= as_array with
  | Some content => mjoin (map block_result content)
  | None => []
  end.

(** [extract_tool_results_from_request] *)
Definition extract_tool_results_from_request (body_json : json) : list CapturedToolResult :=
  match jget "messages" body_json ≫= as_array with
  | None => []
  | Some messages => mjoin (map message_results messages)
  end.

(** [strip_cache_control_in_body] *)
Fixpoint strip_cache_control_in_body (v : json) : json :=
  match v with
  | JObject members =>
      JObject ((fix go (ms : list (string * json)) : list (string * json) :=
                  match ms with
                  | [] => []
                  | (k, child) :: ms =>
                      if (k =? "cache_control")%string then go ms
                      else (k, strip_cache_control_in_body child) :: go ms
                  end) members)
  | JArray items => JArray (map strip_cache_control_in_body items)
  | _ => v
  end.

(** ** Headers *)

(** [is_allowlisted_header] *)
Definition is_allowlisted_header (name provider : string) : bool :=
  let n := to_ascii_lowercase name in
  (n =? "content-type")%string || (n =? "accept")%string || (n =? "user-agent")%string
  || (provider =? "anthropic")%string && (n =? "anthropic-version")%string.

(** [sanitize_request_headers] *)
Definition sanitize_request_headers (hs : headers) (provider : string) : headers :=
  fold_left (fun hs k => header_remove k hs)
    (filter (fun k => is_allowlisted_header k provider = false) (map fst hs)) hs.

(** [strip_anthropic_cache_hints] *)
Definition strip_anthropic_cache_hints (hs : headers) : headers :=
  header_remove "anthropic-beta" hs.

Definition HOP_BY_HOP : list string :=
  ["connection"; "proxy-connection"; "keep-alive"; "te"; "trailer"; "transfer-encoding";
   "upgrade"].

(** [is_hop_by_hop_str] *)
Definition is_hop_by_hop_str (name : string) : bool :=
  existsb (eq_ignore_ascii_case name) HOP_BY_HOP.

(** [is_stream_response_header] *)
Definition is_stream_response_header (name : string) : bool :=
  eq_ignore_ascii_case name "content-length".

(** The response headers copied back; [insert] keeps the last value of a
    repeated name. *)
Definition response_headers (upstream : headers) : headers :=
  fold_left (fun hs h => header_insert (fst h) (snd h) hs)
    (filter (fun h => is_hop_by_hop_str (fst h) || is_stream_response_header (fst h) = false)
       upstream) [].

(** [extract_bearer]; [to_str] is [HeaderValue::to_str]. *)
Definition extract_bearer (to_str : string -> option string) (hs : headers) : option string :=
  h ← header_get "authorization" hs ≫= to_str;
  match RustStr.strip_prefix "Bearer " h with
  | Some t => Some t
  | None => RustStr.strip_prefix "bearer " h
  end.

(** ** The source address of a token *)

(** [ip_octets]: sixteen bytes, as eight segments. *)
Definition ip_octets (ip : IpAddr) : list Z :=
  match ip with
  | V4 a => [0; 0; 0; 0; 0; 0xffff; a / 2 ^ 16; a mod 2 ^ 16]
  | V6 segs => segs
  end.

(** [ct_ip_eq] *)
Definition ct_ip_eq (a b : IpAddr) : bool := bool_decide (ip_octets a = ip_octets b).

(** [source_ip_allowed] *)
Definition source_ip_allowed (peer_ip : IpAddr) (expected_src_ip : option string) : bool :=
  match non_empty (trim <$> expected_src_ip) with
  | None => true
  | Some e => match parse_ip e with None => false | Some ip => ct_ip_eq peer_ip ip end
  end.

(** ** Keys: [proxy/byok.rs] *)

(** [KeySource] *)
Inductive KeySource : Type := Byok | OrMinted | Platform.

#[global] Instance KeySource_eq_dec : EqDecision KeySource.
Proof. solve_decision. Defined.

(** [KeySource::as_str] *)
Definition key_source_str (s : KeySource) : string :=
  match s with Byok => "byok" | OrMinted => "or_minted" | Platform => "platform" end.

(** [ResolvedByoUpstream], [ResolvedKey], [ByoBlob] *)
Record ResolvedByoUpstream : Type := mkByoUpstream {
  bu_upstream : string;
  bu_resolved_addrs : list string
}.
Record ResolvedKey : Type := mkResolvedKey {
  rk_key : string;
  rk_byo_upstream : option ResolvedByoUpstream;
  rk_source : KeySource
}.
Record ByoBlob : Type := mkByoBlob {
  blob_upstream : string;
  blob_resolved_addrs : list string;
  blob_api_key : string
}.

(** [ResolveError] *)
Inductive ResolveError : Type :=
| UserSecretsUnavailable
| NoByoConfigured
| MalformedByo (msg : string)
| NonUtf8Byok
| UnknownProvider (name : string)
| NoKey
| OrMint (msg : string)
| UserSecretStore (msg : string).

(** [ProviderConfig], [ByoConfig] *)
Record ProviderConfig : Type := mkProviderConfig {
  api_key : option string;
  upstream : string;
  anthropic_version : option string
}.
Record ByoConfig : Type := mkByoConfig {
  byo_enabled : bool;
  byo_allow_localhost : bool;
  byo_allow_internal : bool
}.

(** [policy_from_byo] *)
Definition policy_from_byo (p : ByoConfig) : OutboundUrlPolicy :=
  mkOutboundUrlPolicy (byo_enabled p) (byo_allow_localhost p) (byo_allow_internal p).

(** [ProxyService]: the stores behind their traits, and the configuration.
    [ps_seal] is [seal_context] with the tool-call store configured. *)
Record ProxyService : Type := mkProxyService {
  ps_tokens_resolve : string -> result StoreError (option TokenRecord);
  ps_instances_owner : string -> result StoreError (option string);
  ps_policies_get : string -> result StoreError (option PolicyRecord);
  ps_default_policy : PolicyRecord;
  ps_providers : gmap string ProviderConfig;
  ps_user_secrets : option (string -> string -> result string (option string));
  ps_user_or_keys : option (string -> result string string);
  ps_byo : ByoConfig;
  ps_seal : option (string -> string -> string -> string -> result string string)
}.

(** [byok_name] *)
Definition byok_name (provider : string) : string := "byok_" +:+ provider.
Definition BYO_BLOB_NAME : string := "byok_byo".

(** Third-party code the proxy calls: [http::Uri], [HeaderValue],
    [serde_json], [reqwest::Url] and building a pinned client. *)
Class HttpLib : Type := {
  Uri : Type;
  uri_parse : string -> option Uri;
  uri_path : Uri -> string;
  uri_query : Uri -> option string;
  uri_with_path_and_query : Uri -> string -> option Uri;
  uri_to_string : Uri -> string;
  header_value_ok : string -> bool;
  to_str : string -> option string;
  json_from_slice : string -> option json;
  json_to_vec : json -> option string;
  blob_from_slice : string -> result string ByoBlob;
  url_parse : string -> result string Url;
  url_to_string : Url -> string;
  pinned_client : ValidatedOutboundUrl -> bool
}.

Section proxy.
Context {lib : HttpLib}.

(** [byok::resolve] *)
Definition byok_resolve (svc : ProxyService) (provider owner_id : string) :
  result ResolveError ResolvedKey :=
  if (provider =? "byo")%string then
    get ← ok_or UserSecretsUnavailable (ps_user_secrets svc);
    found ← map_err UserSecretStore (get owner_id BYO_BLOB_NAME);
    blob_bytes ← ok_or NoByoConfigured found;
    blob ← map_err MalformedByo (blob_from_slice blob_bytes);
    Ok (mkResolvedKey (blob_api_key blob)
          (Some (mkByoUpstream (blob_upstream blob) (blob_resolved_addrs blob))) Byok)
  else
    found ← match ps_user_secrets svc with
            | Some get => map_err UserSecretStore (get owner_id (byok_name provider))
            | None => Ok None
            end;
    match found with
    | Some bytes =>
        key ← ok_or NonUtf8Byok (from_utf8 bytes);
        Ok (mkResolvedKey key None Byok)
    | None =>
        if (provider =? "openrouter")%string then
          match ps_user_or_keys svc with
          | Some resolve_plaintext =>
              key ← map_err OrMint (resolve_plaintext owner_id);
              Ok (mkResolvedKey key None OrMinted)
          | None => Err NoKey
          end
        else match ps_providers svc !! provider with
             | None => Err (UnknownProvider provider)
             | Some _ => Err NoKey
             end
    end.

(** ** Adapters *)

Inductive Adapter : Type := Bearer | Anthropic | Gemini.

(** [adapters::registry] *)
Definition registry (provider : string) : option Adapter :=
  if existsb (String.eqb provider)
       ["openrouter"; "openai"; "ollama"; "groq"; "deepseek"; "xai"; "byo"] then Some Bearer
  else if (provider =? "anthropic")%string then Some Anthropic
  else if (provider =? "gemini")%string then Some Gemini
  else None.

Definition DEFAULT_ANTHROPIC_VERSION : string := "2023-06-01".

(** The [anthropic-beta] flags [AnthropicAdapter::rewrite_auth] lets through *)
Definition scrub_beta (hs : headers) : headers :=
  match header_get "anthropic-beta" hs ≫= to_str with
  | None => hs
  | Some s =>
      if contains_str "prompt-caching" (to_ascii_lowercase s) then
        let kept := join "," (filter (fun tok => eq_ignore_ascii_case tok "prompt-caching" = false)
                                (map trim (split "," s))) in
        if is_empty kept then header_remove "anthropic-beta" hs
        else if header_value_ok kept then header_insert "anthropic-beta" kept hs else hs
      else hs
  end.

(** [strip_key_param] *)
Definition strip_key_param (query : string) : string :=
  join "&" (filter (fun part =>
    is_empty part || (part =? "key")%string || starts_with "key=" part = false)
    (split "&" query)).

(** [ProviderAdapter::rewrite_auth]; [None] is the panic of an [expect]. *)
Definition rewrite_auth (a : Adapter) (hs : headers) (uri : Uri) (real_key : string) :
  option (headers * Uri) :=
  match a with
  | Bearer =>
      let v := "Bearer " +:+ real_key in
      if header_value_ok v then Some (header_insert "authorization" v hs, uri) else None
  | Anthropic =>
      let hs := header_remove "authorization" hs in
      if header_value_ok real_key then
        let hs := header_insert "x-api-key" real_key hs in
        let hs := header_or_insert "anthropic-version" DEFAULT_ANTHROPIC_VERSION hs in
        Some (scrub_beta hs, uri)
      else None
  | Gemini =>
      let hs := header_remove "authorization" hs in
      let cleaned := strip_key_param (default "" (uri_query uri)) in
      let pq := if is_empty cleaned then uri_path uri
                else uri_path uri +:+ "?" +:+ cleaned in
      let uri := default uri (uri_with_path_and_query uri pq) in
      Some (if header_value_ok real_key then header_insert "x-goog-api-key" real_key hs else hs,
            uri)
  end.

(** [anthropic::apply_version] *)
Definition apply_version (hs : headers) (cfg : ProviderConfig) : headers :=
  let v := default DEFAULT_ANTHROPIC_VERSION (anthropic_version cfg) in
  if header_value_ok v then header_insert "anthropic-version" v hs else hs.

(** ** The handler *)

(** What goes upstream; [ur_pinned] is the validated target of a pinned
    client. *)
Record UpstreamRequest : Type := mkUpstreamRequest {
  ur_pinned : option ValidatedOutboundUrl;
  ur_method : string;
  ur_uri : string;
  ur_headers : headers;
  ur_body : string
}.

Record ProxyState : Type := mkProxyState {
  st_rate : RateWindow;
  st_audit : AuditDb;
  st_sent : list UpstreamRequest
}.

Record LlmRequest : Type := mkLlmRequest {
  rq_peer : IpAddr;
  rq_provider : string;
  rq_rest : string;
  rq_query : option string;
  rq_method : string;
  rq_headers : headers;
  (** [None]: reading the body stream failed. *)
  rq_body : option string
}.

Inductive LlmResponse : Type :=
| ErrorResponse (status : Z) (msg : string)
| DenialResponse (denial : PolicyDenial)
| Streamed (status : Z) (hs : headers) (audit_id : option Z)
| Panicked.

(** Clock readings and store failures of one run, in the order they occur. *)
Record Run : Type := mkRun {
  run_tool_now : Z;
  run_attach_err : string -> option StoreError;
  run_observe : Z;
  run_daily_now : Z;
  run_daily_err : option StoreError;
  run_elapsed_ms : Z;
  run_audit_now : Z;
  run_insert_err : option StoreError
}.

Abbreviation handler := (svc ProxyState LlmResponse).

Definition TOOL_PAYLOAD_CAP : nat := 64 * 1024.
Definition dquote : string := String (RustStr.b 34) EmptyString.

(** [capped_json_bytes] *)
Definition capped_json_bytes (value : json) : string :=
  let bytes := default "null" (json_to_vec value) in
  if Nat.leb (String.length bytes) TOOL_PAYLOAD_CAP then bytes
  else
    let prefix := from_utf8_lossy (String.substring 0 TOOL_PAYLOAD_CAP bytes) in
    default ("{" +:+ dquote +:+ "_truncated" +:+ dquote +:+ ":true}")
      (json_to_vec (JObject [("_truncated", JBool true); ("prefix_utf8", JString prefix)])).

(** One result of [capture_tool_results] *)
Definition capture_one (svc : ProxyService) (run : Run) (owner_id instance_id : string)
    (seal : string -> string -> string -> string -> result string string)
    (db : AuditDb) (r : CapturedToolResult) : AuditDb :=
  match seal owner_id instance_id ("result:" +:+ cr_tool_use_id r)
          (capped_json_bytes (cr_content r)) with
  | Err _ => db
  | Ok sealed =>
      match run_attach_err run (cr_tool_use_id r) with
      | Some _ => db
      | None =>
          (attach_result (cr_tool_use_id r) sealed (cr_is_error r) (run_tool_now run) db).1
      end
  end.

(** [capture_tool_results] *)
Definition capture_tool_results (svc : ProxyService) (run : Run) (owner_id instance_id : string)
    (body_json : json) (st : ProxyState) : ProxyState :=
  match ps_seal svc with
  | None => st
  | Some seal =>
      mkProxyState (st_rate st)
        (fold_left (capture_one svc run owner_id instance_id seal)
           (extract_tool_results_from_request body_json) (st_audit st))
        (st_sent st)
  end.

(** Steps 1 and 1b: the bearer, its source address, the instance's owner *)
Definition authenticate (svc : ProxyService) (req : LlmRequest) :
  result LlmResponse (TokenRecord * string) :=
  token ← ok_or (ErrorResponse 401 "missing bearer") (extract_bearer to_str (rq_headers req));
  record ← match ps_tokens_resolve svc token with
           | Ok (Some r) => Ok r
           | Ok None => Err (ErrorResponse 401 "invalid bearer")
           | Err _ => Err (ErrorResponse 500 "token store error")
           end;
  _ ← if source_ip_allowed (rq_peer req) (tr_expected_src_ip record) then Ok tt
      else Err (ErrorResponse 401 "invalid bearer");
  owner ← match ps_instances_owner svc (tr_instance_id record) with
          | Ok (Some o) => Ok o
          | Ok None => Err (ErrorResponse 401 "instance gone")
          | Err _ => Err (ErrorResponse 500 "instance store error")
          end;
  Ok (record, owner).

Definition BODY_LIMIT : Z := 8 * 1024 * 1024.

(** Step 2: the buffered body and its JSON *)
Definition read_request_body (req : LlmRequest) : result LlmResponse (string * json) :=
  bytes ← ok_or (ErrorResponse 400 "body too large") (rq_body req);
  _ ← if len bytes <=? BODY_LIMIT then Ok tt else Err (ErrorResponse 400 "body too large");
  if is_empty bytes then Ok (bytes, JNull)
  else
    v ← ok_or (ErrorResponse 400 "invalid json body") (json_from_slice bytes);
    Ok (bytes, v).

(** [ProxyService::snapshot] *)
Definition snapshot (run : Run) (subject : string) (st : ProxyState) : ProxyState * UsageSnapshot :=
  let '(rate, rps) := observe subject (run_observe run) (st_rate st) in
  let daily := match run_daily_err run with
               | Some e => Err e
               | None => audit_daily_tokens subject (run_daily_now run) (st_audit st)
               end in
  (mkProxyState rate (st_audit st) (st_sent st),
   mkUsage rps (default 0 (ok daily)) S754_nan).

(** The audit row of a call; denials and failed calls are complete at once. *)
Definition audit_entry (run : Run) (req : LlmRequest) (owner instance_id : string) (body : json)
    (status : Z) (source : KeySource) (completed : bool) : AuditEntry :=
  mkAuditEntry owner instance_id (rq_provider req) (get_str "model" body) None None
    status (run_elapsed_ms run) (run_audit_now run) (key_source_str source) completed.

(** [AuditStore::insert] with its possible failure *)
Definition insert_audit (run : Run) (e : AuditEntry) : svc ProxyState StoreError Z :=
  fun st =>
    match run_insert_err run with
    | Some err => (st, Err err)
    | None =>
        let '(db, id) := audit_insert e (st_audit st) in
        (mkProxyState (st_rate st) db (st_sent st), Ok id)
    end.

(** Step 3: policy, usage, [enforce], and the row of a denial *)
Definition gate (svc : ProxyService) (run : Run) (req : LlmRequest) (owner instance_id : string)
    (body : json) : handler unit :=
  policy ← lift match ps_policies_get svc owner with
                | Ok (Some p) => Ok p
                | Ok None => Ok (ps_default_policy svc)
                | Err _ => Err (ErrorResponse 500 "policy load error")
                end;
  usage ← (fun st => let '(st, u) := snapshot run owner st in (st, Ok u));
  match enforce policy usage (rq_provider req) body with
  | Ok _ => mret tt
  | Err denial =>
      _ ← best_effort (insert_audit run
            (audit_entry run req owner instance_id body 403 Platform true));
      throw (DenialResponse denial)
  end.

(** Step 4b: the upstream base URL, with the pinned target for [byo] *)
Definition upstream_base (svc : ProxyService) (provider : string) (cfg : ProviderConfig)
    (resolved : ResolvedKey) : result LlmResponse (option ValidatedOutboundUrl * string) :=
  base ← match rk_byo_upstream resolved with
         | Some u =>
             if (provider =? "byo")%string then
               match validate_cached_outbound_url url_parse (policy_from_byo (ps_byo svc))
                       (bu_upstream u) (bu_resolved_addrs u) with
               | Ok v =>
                   if pinned_client v then Ok (Some v, url_to_string (v_url v))
                   else Err (ErrorResponse 502 "byo upstream not reachable")
               | Err Disabled => Err (ErrorResponse 403 "byo upstream disabled")
               | Err _ => Err (ErrorResponse 403 "byo upstream not allowed")
               end
             else Err (ErrorResponse 500 "invalid byo upstream state")
         | None => Ok (None, upstream cfg)
         end;
  if is_empty (snd base) then Err (ErrorResponse 503 "provider not configured") else Ok base.

(** Step 4 and the rewriting of step 5: the request to send *)
Definition outbound (svc : ProxyService) (req : LlmRequest) (owner : string)
    (bytes : string) (body : json) : result LlmResponse (UpstreamRequest * KeySource) :=
  let provider := rq_provider req in
  adapter ← ok_or (ErrorResponse 404 "unknown provider") (registry provider);
  let cfg := default (mkProviderConfig None "" None) (ps_providers svc !! provider) in
  resolved ← map_err (fun _ => ErrorResponse 503 "no provider key available")
               (byok_resolve svc provider owner);
  base ← upstream_base svc provider cfg resolved;
  let rest_with_query := match rq_query req with
                         | Some q => "/" +:+ rq_rest req +:+ "?" +:+ q
                         | None => "/" +:+ rq_rest req
                         end in
  uri ← ok_or (ErrorResponse 502 "bad upstream url")
          (uri_parse (trim_end_matches "/" (snd base) +:+ rest_with_query));
  let hs := header_insert "accept-encoding" "identity"
              (sanitize_request_headers (rq_headers req) provider) in
  auth ← ok_or Panicked (rewrite_auth adapter hs uri (rk_key resolved));
  let shared := (provider =? "anthropic")%string && bool_decide (rk_source resolved = Platform) in
  let hs := if (provider =? "anthropic")%string then apply_version (fst auth) cfg else fst auth in
  let hs := if shared then strip_anthropic_cache_hints hs else hs in
  let out := if shared && negb (is_empty bytes)
             then default bytes (json_to_vec (strip_cache_control_in_body body)) else bytes in
  Ok (mkUpstreamRequest (fst base) (rq_method req) (uri_to_string (snd auth))
        (filter (fun h => is_hop_by_hop_str (fst h) = false) hs) out,
      rk_source resolved).

(** Steps 5 to 7: send, write the audit row, stream back *)
Definition forward (run : Run) (send : UpstreamRequest -> option (Z * headers))
    (req : LlmRequest) (owner instance_id : string) (body : json)
    (out : UpstreamRequest) (source : KeySource) : handler LlmResponse :=
  _ ← modify (fun st => mkProxyState (st_rate st) (st_audit st) (st_sent st ++ [out]));
  match send out with
  | None =>
      _ ← best_effort (insert_audit run
            (audit_entry run req owner instance_id body 502 source true));
      throw (ErrorResponse 502 "upstream request failed")
  | Some (status, hs) =>
      row ← attempt (insert_audit run
              (audit_entry run req owner instance_id body status source false));
      mret (Streamed status (response_headers hs) (ok row))
  end.

(** [handle] *)
Definition handle (svc : ProxyService) (run : Run)
    (send : UpstreamRequest -> option (Z * headers)) (req : LlmRequest) : handler LlmResponse :=
  who ← lift (authenticate svc req);
  let '(record, owner) := who in
  input ← lift (read_request_body req);
  let '(bytes, body) := input in
  _ ← modify (capture_tool_results svc run owner (tr_instance_id record) body);
  _ ← gate svc run req owner (tr_instance_id record) body;
  out ← lift (outbound svc req owner bytes body);
  forward run send req owner (tr_instance_id record) body (fst out) (snd out).
End proxy.

(** ** The shape of a run *)

(** The policy that applies to an owner *)
Definition policy_of (svc : ProxyService) (owner : string) : option PolicyRecord :=
  match ps_policies_get svc owner with
  | Ok (Some p) => Some p
  | Ok None => Some (ps_default_policy svc)
  | Err _ => None
  end.

(** The usage a run is judged on, as a function of the state it starts in *)
Definition usage_of (run : Run) (owner : string) (st : ProxyState) : UsageSnapshot :=
  (snapshot run owner st).2.

Section shape.
Context {lib : HttpLib} (svc : ProxyService) (run : Run)
        (send : UpstreamRequest -> option (Z * headers)) (req : LlmRequest).

Lemma snapshot_st owner st :
  snapshot run owner st =
    (mkProxyState (observe owner (run_observe run) (st_rate st)).1 (st_audit st) (st_sent st),
     usage_of run owner st).
Proof. unfold usage_of, snapshot. by destruct (observe _ _ _). Qed.

(** What the gate does, by its outcome *)
Lemma gate_cases owner inst body st :
  match policy_of svc owner with
  | None => gate svc run req owner inst body st = (st, Err (ErrorResponse 500 "policy load error"))
  | Some policy =>
      let st1 := (snapshot run owner st).1 in
      match enforce policy (usage_of run owner st) (rq_provider req) body with
      | Ok _ => gate svc run req owner inst body st = (st1, Ok tt)
      | Err d =>
          gate svc run req owner inst body st =
            ((insert_audit run (audit_entry run req owner inst body 403 Platform true) st1).1,
             Err (DenialResponse d))
      end
  end.
Proof.
  unfold gate, policy_of, usage_of, mbind, svc_bind, lift.
  destruct (ps_policies_get svc owner) as [[p|]|e]; [| |done];
    destruct (snapshot run owner st) as [st1 u]; cbn [fst snd];
    destruct (enforce _ u _ body) as [[]|d]; done.
Qed.

Lemma handle_eq st :
  handle svc run send req st =
    match authenticate svc req with
    | Err e => (st, Err e)
    | Ok (record, owner) =>
        match read_request_body req with
        | Err e => (st, Err e)
        | Ok (bytes, body) =>
            let st1 := capture_tool_results svc run owner (tr_instance_id record) body st in
            match gate svc run req owner (tr_instance_id record) body st1 with
            | (st2, Err e) => (st2, Err e)
            | (st2, Ok _) =>
                match outbound svc req owner bytes body with
                | Err e => (st2, Err e)
                | Ok out =>
                    forward run send req owner (tr_instance_id record) body out.1 out.2 st2
                end
            end
        end
    end.
Proof.
  unfold handle, mbind, svc_bind, lift, modify.
  destruct (authenticate svc req) as [[record owner]|e]; [|done].
  destruct (read_request_body req) as [[bytes body]|e]; [|done]. cbn zeta.
  destruct (gate _ _ _ _ _ _ _) as [st2 [u|e]]; [|done].
  by destruct (outbound _ _ _ _ _) as [out|e].
Qed.

(** Capturing tool results only fills in [llm_tool_call] rows. *)
Lemma capture_keeps owner inst body st :
  let st1 := capture_tool_results svc run owner inst body st in
  st_rate st1 = st_rate st /\ st_sent st1 = st_sent st /\
  llm_audit (st_audit st1) = llm_audit (st_audit st) /\
  llm_audit_next (st_audit st1) = llm_audit_next (st_audit st).
Proof.
  unfold capture_tool_results. destruct (ps_seal svc) as [seal|]; [|done]. cbn [st_rate st_sent st_audit].
  generalize (st_audit st) as db. induction (extract_tool_results_from_request body) as [|r l IH];
    intros db; [done|]. cbn [fold_left].
  destruct (IH (capture_one svc run owner inst seal db r)) as (_ & _ & -> & ->).
  unfold capture_one. destruct (seal _ _ _ _); [|done]. destruct (run_attach_err _ _); [done|].
  unfold attach_result. by destruct (pending_call _ _).
Qed.

Lemma usage_capture owner inst body st :
  usage_of run owner (capture_tool_results svc run owner inst body st) = usage_of run owner st.
Proof.
  destruct (capture_keeps owner inst body st) as (Hr & _ & Ha & _).
  unfold usage_of, snapshot, audit_daily_tokens. by rewrite Hr, Ha.
Qed.

Lemma insert_audit_sent e st : st_sent (insert_audit run e st).1 = st_sent st.
Proof. unfold insert_audit. by destruct (run_insert_err run). Qed.

Lemma forward_sent owner inst body out src st :
  st_sent (forward run send req owner inst body out src st).1 = st_sent st ++ [out].
Proof.
  unfold forward, mbind, svc_bind, modify, best_effort, attempt, throw, mret, svc_ret.
  destruct (send out) as [[s h]|]; unfold insert_audit; destruct (run_insert_err run); done.
Qed.

Lemma gate_sent owner inst body st :
  st_sent (gate svc run req owner inst body st).1 = st_sent st.
Proof.
  pose proof (gate_cases owner inst body st) as Hg. destruct (policy_of svc owner) as [p|].
  - destruct (enforce _ _ _ _) as [|d]; rewrite Hg, ?snapshot_st; cbn [fst]; [done|].
    by rewrite insert_audit_sent.
  - by rewrite Hg.
Qed.

(** A run that passed the gate met the policy. *)
Lemma gate_ok owner inst body st st' u :
  gate svc run req owner inst body st = (st', Ok u) ->
  exists policy, policy_of svc owner = Some policy /\
    enforce policy (usage_of run owner st) (rq_provider req) body = Ok tt.
Proof.
  intros Hg. pose proof (gate_cases owner inst body st) as Hc.
  destruct (policy_of svc owner) as [p|]; [|congruence].
  destruct (enforce _ _ _ _) as [[]|d] eqn:He; [eauto|congruence].
Qed.

(** Either nothing was sent, or one request that passed every check. *)
Lemma handle_sent st :
  st_sent (handle svc run send req st).1 = st_sent st \/
  exists record owner bytes body policy out src,
    authenticate svc req = Ok (record, owner) /\
    read_request_body req = Ok (bytes, body) /\
    policy_of svc owner = Some policy /\
    enforce policy (usage_of run owner st) (rq_provider req) body = Ok tt /\
    outbound svc req owner bytes body = Ok (out, src) /\
    st_sent (handle svc run send req st).1 = st_sent st ++ [out].
Proof.
  rewrite handle_eq. destruct (authenticate svc req) as [[record owner]|e]; [|by left].
  destruct (read_request_body req) as [[bytes body]|e]; [|by left]. cbn zeta.
  pose proof (gate_sent owner (tr_instance_id record) body
    (capture_tool_results svc run owner (tr_instance_id record) body st)) as Hs.
  destruct (capture_keeps owner (tr_instance_id record) body st) as (_ & Hc & _).
  rewrite Hc in Hs.
  destruct (gate _ _ _ _ _ _ _) as [st2 [u|e]] eqn:Hg; [|by left]. cbn [fst] in Hs.
  destruct (outbound _ _ _ _ _) as [[out src]|e] eqn:Ho; [|by left]. right.
  apply gate_ok in Hg as (policy & Hp & He). rewrite usage_capture in He.
  exists record, owner, bytes, body, policy, out, src. split_and!; try done.
  by rewrite forward_sent, Hs.
Qed.
End shape.

(** ** Who may call, and what goes out *)

Lemma authenticate_ok {lib : HttpLib} svc req record owner :
  authenticate svc req = Ok (record, owner) <->
  exists token, extract_bearer to_str (rq_headers req) = Some token /\
    ps_tokens_resolve svc token = Ok (Some record) /\
    source_ip_allowed (rq_peer req) (tr_expected_src_ip record) = true /\
    ps_instances_owner svc (tr_instance_id record) = Ok (Some owner).
Proof.
  unfold authenticate. split.
  - intros H. inv_ok. repeat case_match; simplify_eq; inv_ok; simplify_eq. eauto 10.
  - intros (token & -> & Ht & Hs & Ho). cbn. rewrite Ht. cbn. rewrite Hs. cbn. rewrite Ho. done.
Qed.

(** C2. The proxy forwards a request only for a live bearer presented from
    the address it is bound to, on behalf of the owner of the token's
    instance, when that owner's policy admits the provider, the model and the
    usage so far; it forwards at most one request, to the resolved target. *)
Theorem handle_sends_only_admitted {lib : HttpLib} (svc : ProxyService) (run : Run)
    (send : UpstreamRequest -> option (Z * headers)) (req : LlmRequest) (st : ProxyState) :
  st_sent (handle svc run send req st).1 = st_sent st \/
  exists token record owner bytes body policy out src,
    extract_bearer to_str (rq_headers req) = Some token /\
    ps_tokens_resolve svc token = Ok (Some record) /\
    source_ip_allowed (rq_peer req) (tr_expected_src_ip record) = true /\
    ps_instances_owner svc (tr_instance_id record) = Ok (Some owner) /\
    read_request_body req = Ok (bytes, body) /\
    policy_of svc owner = Some policy /\
    admits policy (usage_of run owner st) (rq_provider req)
      (default "" (get_str "model" body)) /\
    outbound svc req owner bytes body = Ok (out, src) /\
    st_sent (handle svc run send req st).1 = st_sent st ++ [out].
Proof.
  destruct (handle_sent svc run send req st)
    as [?|(record & owner & bytes & body & policy & out & src & Ha & Hb & Hp & He & Ho & Hs)];
    [by left|right].
  apply authenticate_ok in Ha as (token & ? & ? & ? & ?). apply enforce_admits in He.
  by exists token, record, owner, bytes, body, policy, out, src.
Qed.








Lemma registry_gemini provider : registry provider = Some Gemini -> provider = "gemini".
Proof.
  unfold registry. case_match; [done|]. case_match; [done|]. case_match; [by intros; to_prop|done].
Qed.



(** Tenant headers as the adapter gets them *)
Definition base_headers (req : LlmRequest) : headers :=
  header_insert "accept-encoding" "identity"
    (sanitize_request_headers (rq_headers req) (rq_provider req)).








(** The request's bytes and what they parse to *)
Lemma read_request_body_ok {lib : HttpLib} req bytes body :
  read_request_body req = Ok (bytes, body) ->
  rq_body req = Some bytes /\ (bytes = "" /\ body = JNull \/ json_from_slice bytes = Some body).
Proof.
  unfold read_request_body. intros H. inv_ok.
  match goal with H : (if is_empty ?b then _ else _) = _ |- _ => destruct (is_empty b) eqn:E end.
  - simplify_eq. split; [done|]. left. by destruct bytes.
  - inv_ok. simplify_eq. auto.
Qed.

(** Where a resolved key comes from: always from the owner. *)
Definition key_provenance {lib : HttpLib} (svc : ProxyService) (provider owner : string)
    (k : ResolvedKey) : Prop :=
  (provider = "byo" /\ rk_source k = Byok /\
   exists get bytes blob, ps_user_secrets svc = Some get /\
     get owner BYO_BLOB_NAME = Ok (Some bytes) /\ blob_from_slice bytes = Ok blob /\
     rk_key k = blob_api_key blob /\
     rk_byo_upstream k = Some (mkByoUpstream (blob_upstream blob) (blob_resolved_addrs blob))) \/
  (provider <> "byo" /\ rk_source k = Byok /\ rk_byo_upstream k = None /\
   exists get, ps_user_secrets svc = Some get /\
     get owner (byok_name provider) = Ok (Some (rk_key k))) \/
  (provider = "openrouter" /\ rk_source k = OrMinted /\ rk_byo_upstream k = None /\
   (forall get, ps_user_secrets svc = Some get -> get owner "byok_openrouter" = Ok None) /\
   exists mint, ps_user_or_keys svc = Some mint /\ mint owner = Ok (rk_key k)).

Lemma from_utf8_some s t : from_utf8 s = Some t -> t = s.
Proof. unfold from_utf8. case_match; [by intros [= <-]|done]. Qed.

Lemma byok_resolve_ok {lib : HttpLib} svc provider owner k :
  byok_resolve svc provider owner = Ok k -> key_provenance svc provider owner k.
Proof.
  unfold byok_resolve, key_provenance. destruct (provider =? "byo")%string eqn:Ep.
  - to_prop. subst. intros H. inv_ok. left. split_and!; [done..|]. repeat eexists; eauto.
  - to_prop. intros H. inv_ok. right.
    match goal with H : match ?x with Some _ => _ | None => _ end = Ok k |- _ =>
      destruct x as [bytes|] end.
    + inv_ok. match goal with H : from_utf8 _ = Some _ |- _ => apply from_utf8_some in H as -> end.
      left. destruct (ps_user_secrets svc) as [get|]; inv_ok.
      split_and!; [done..|]. eauto.
    + destruct (provider =? "openrouter")%string eqn:Eo; to_prop; [subst|repeat case_match; done].
      destruct (ps_user_or_keys svc) as [mint|]; [|done]. inv_ok. right.
      split_and!; [done..| |eauto]. intros get Hget. rewrite Hget in *. by inv_ok.
Qed.

Lemma outbound_inv {lib : HttpLib} svc req owner bytes body out src :
  outbound svc req owner bytes body = Ok (out, src) ->
  exists adapter k base uri hs uri',
    registry (rq_provider req) = Some adapter /\
    byok_resolve svc (rq_provider req) owner = Ok k /\
    upstream_base svc (rq_provider req)
      (default (mkProviderConfig None "" None) (ps_providers svc !! rq_provider req)) k = Ok base /\
    uri_parse (trim_end_matches "/" (snd base) +:+
      match rq_query req with
      | Some q => "/" +:+ rq_rest req +:+ "?" +:+ q
      | None => "/" +:+ rq_rest req
      end) = Some uri /\
    rewrite_auth adapter (base_headers req) uri (rk_key k) = Some (hs, uri') /\
    src = rk_source k /\ ur_pinned out = base.1 /\ ur_uri out = uri_to_string uri' /\
    ur_method out = rq_method req /\ ur_body out = bytes /\
    ur_headers out = filter (fun h => is_hop_by_hop_str (fst h) = false)
      (if (rq_provider req =? "anthropic")%string
       then apply_version hs (default (mkProviderConfig None "" None)
                                (ps_providers svc !! rq_provider req)) else hs).
Proof.
  unfold outbound. intros H. inv_ok.
  match goal with H : byok_resolve _ _ _ = Ok ?r |- _ => rename H into Hk; rename r into k end.
  match goal with H : rewrite_auth _ _ _ _ = Some ?p |- _ => rename H into Hw; destruct p as [hs uri'] end.
  assert (rk_source k <> Platform) as Hnp.
  { apply byok_resolve_ok in Hk. unfold key_provenance in Hk. naive_solver congruence. }
  rewrite bool_decide_eq_false_2 by done. rewrite !andb_false_r. cbn [andb].
  do 6 eexists. by split_and!.
Qed.



(** A [byo] call goes through a client pinned to a target that passed the
    operator's SSRF policy on this very request; every other call goes
    unpinned to the upstream the operator configured for that provider. *)
Theorem outbound_target {lib : HttpLib} (svc : ProxyService) (req : LlmRequest)
    (owner bytes : string) (body : json) (out : UpstreamRequest) (src : KeySource)
    (Hout : outbound svc req owner bytes body = Ok (out, src)) :
  match ur_pinned out with
  | Some v => rq_provider req = "byo" /\ outbound_safe (policy_from_byo (ps_byo svc)) v
  | None =>
      rq_provider req <> "byo" /\
      exists cfg uri, ps_providers svc !! rq_provider req = Some cfg /\ upstream cfg <> "" /\
        uri_parse (trim_end_matches "/" (upstream cfg) +:+
          match rq_query req with
          | Some q => "/" +:+ rq_rest req +:+ "?" +:+ q
          | None => "/" +:+ rq_rest req
          end) = Some uri /\
        (rq_provider req <> "gemini" -> ur_uri out = uri_to_string uri)
  end.
Proof.
  apply outbound_inv in Hout
    as (a & k & base & uri & hs & uri' & Ha & Hk & Hu & Huri & Hw & _ & Hp & Hu' & _).
  rewrite Hp. unfold upstream_base in Hu. inv_ok.
  match goal with H : (if is_empty ?b then _ else _) = Ok _ |- _ => destruct (is_empty b) eqn:Hne; [done|] end.
  simplify_eq. apply byok_resolve_ok in Hk.
  destruct (rk_byo_upstream k) as [u|] eqn:Hbyo.
  - destruct (rq_provider req =? "byo")%string eqn:Eb; [to_prop|done].
    destruct (validate_cached_outbound_url _ _ _ _) as [v|err] eqn:Hv; [|by destruct err].
    destruct (pinned_client v); [|done]. simplify_eq. cbn. split; [done|].
    unfold validate_cached_outbound_url in Hv. inv_ok.
    match goal with H : validate_resolved_addrs _ _ _ = Ok ?u |- _ => destruct u end.
    by eapply outbound_safe_intro.
  - match goal with H : Ok _ = Ok base |- _ => apply Ok_inj in H; subst base end.
    cbn [fst snd] in *. split.
    { unfold key_provenance in Hk. naive_solver congruence. }
    destruct (ps_providers svc !! rq_provider req) as [cfg|] eqn:Hcfg; [|done]. cbn in *.
    exists cfg, uri. split_and!; try done.
    { intros Hemp. by rewrite Hemp in Hne. }
    intros Hg. rewrite Hu'. f_equal. destruct a; cbn [rewrite_auth] in Hw.
    + destruct (header_value_ok _); [|done]. by simplify_eq.
    + destruct (header_value_ok _); [|done]. by apply Some_inj, (f_equal snd) in Hw.
    + destruct Hg. by apply registry_gemini.
Qed.

(** ** Audit rows *)

(** An early return that is not a policy denial *)
Definition plain_error (r : LlmResponse) : Prop :=
  match r with ErrorResponse _ _ | Panicked => True | _ => False end.

(** Every error of a [result] chain satisfies [P]. *)
Definition errs {E A} (P : E -> Prop) (r : result E A) : Prop :=
  match r with Ok _ => True | Err e => P e end.

Lemma errs_bind {E A B} (P : E -> Prop) (r : result E A) (f : A -> result E B) :
  errs P r -> (forall a, errs P (f a)) -> errs P (r ≫= f).
Proof. destruct r; cbn; auto. Qed.

Lemma errs_ok_or {E A} (P : E -> Prop) (e : E) (o : option A) : P e -> errs P (ok_or e o).
Proof. by destruct o. Qed.

Lemma errs_map_err {E E' A} (P : E' -> Prop) (f : E -> E') (r : result E A) :
  (forall e, P (f e)) -> errs P (map_err f r).
Proof. destruct r; cbn; auto. Qed.

Create HintDb errs discriminated.
#[export] Hint Resolve errs_bind errs_ok_or errs_map_err : errs.

Ltac solve_errs :=
  repeat first
    [ done | intro | apply errs_bind | apply errs_ok_or | apply errs_map_err | case_match ].

Lemma authenticate_errs {lib : HttpLib} svc req : errs plain_error (authenticate svc req).
Proof. unfold authenticate. solve_errs. Qed.

Lemma read_request_body_errs {lib : HttpLib} req : errs plain_error (read_request_body req).
Proof. unfold read_request_body. solve_errs. Qed.

Lemma outbound_errs {lib : HttpLib} svc req owner bytes body :
  errs plain_error (outbound svc req owner bytes body).
Proof. unfold outbound, upstream_base. cbn zeta. solve_errs. Qed.

(** What a run leaves in the audit table and upstream, by its outcome *)
Inductive audited {lib : HttpLib} (svc : ProxyService) (run : Run) (req : LlmRequest)
    (st st' : ProxyState) : result LlmResponse LlmResponse -> Prop :=
| aud_row record owner bytes body src status completed r :
    authenticate svc req = Ok (record, owner) ->
    read_request_body req = Ok (bytes, body) ->
    run_insert_err run = None ->
    llm_audit (st_audit st') = llm_audit (st_audit st) ++
      [(llm_audit_next (st_audit st),
        audit_entry run req owner (tr_instance_id record) body status src completed)] ->
    (exists d, r = Err (DenialResponse d) /\ status = 403 /\ completed = true /\
       st_sent st' = st_sent st) \/
    (exists out, st_sent st' = st_sent st ++ [out] /\
       (r = Err (ErrorResponse 502 "upstream request failed") /\ status = 502 /\ completed = true
        \/ exists hs, r = Ok (Streamed status hs (Some (llm_audit_next (st_audit st)))) /\
             completed = false)) ->
    audited svc run req st st' r
| aud_lost r :
    run_insert_err run <> None ->
    llm_audit (st_audit st') = llm_audit (st_audit st) ->
    audited svc run req st st' r
| aud_none e :
    plain_error e ->
    llm_audit (st_audit st') = llm_audit (st_audit st) ->
    st_sent st' = st_sent st ->
    audited svc run req st st' (Err e).

Lemma insert_audit_rows run e st :
  llm_audit (st_audit (insert_audit run e st).1) =
    match run_insert_err run with
    | Some _ => llm_audit (st_audit st)
    | None => llm_audit (st_audit st) ++ [(llm_audit_next (st_audit st), e)]
    end.
Proof. unfold insert_audit. by destruct (run_insert_err run). Qed.

Lemma handle_audited {lib : HttpLib} svc run send req st :
  let '(st', r) := handle svc run send req st in audited svc run req st st' r.
Proof.
  rewrite handle_eq.
  pose proof (authenticate_errs svc req) as Ea. pose proof (read_request_body_errs req) as Eb.
  destruct (authenticate svc req) as [[record owner]|e] eqn:Ha; [|by apply aud_none].
  destruct (read_request_body req) as [[bytes body]|e] eqn:Hb; [|by apply aud_none]. cbn zeta.
  destruct (capture_keeps svc run owner (tr_instance_id record) body st) as (_ & Hcs & Hca & Hcn).
  set (st1 := capture_tool_results _ _ _ _ _ _) in *.
  pose proof (gate_cases svc run req owner (tr_instance_id record) body st1) as Hg.
  destruct (policy_of svc owner) as [policy|]; [|rewrite Hg; by apply aud_none].
  rewrite snapshot_st in Hg. cbn [fst] in Hg.
  destruct (enforce _ _ _ _) as [u|d]; rewrite Hg.
  - pose proof (outbound_errs svc req owner bytes body) as Eo.
    destruct (outbound _ _ _ _ _) as [[out src]|e]; [|by apply aud_none]. cbn [fst snd].
    unfold forward, mbind, svc_bind, modify, best_effort, attempt, throw, mret, svc_ret, insert_audit.
    destruct (send out) as [[status hs]|]; destruct (run_insert_err run) as [err|] eqn:Hi;
      cbn [fst snd st_audit st_sent st_rate audit_insert llm_audit ok];
      try (apply aud_lost; [by rewrite Hi|by rewrite <- Hca]).
    + eapply aud_row; [done..| |].
      * cbn. by rewrite Hca, Hcn.
      * right. exists out. cbn [st_sent]. rewrite Hcs. split; [done|]. right. eexists.
        split; [by rewrite Hcn|done].
    + eapply aud_row; [done..| |].
      * cbn. by rewrite Hca, Hcn.
      * right. exists out. cbn [st_sent]. rewrite Hcs. auto.
  - destruct (run_insert_err run) as [err|] eqn:Hi.
    + apply aud_lost; [by rewrite Hi|]. rewrite insert_audit_rows, Hi. exact Hca.
    + eapply aud_row; [done..| |].
      * rewrite insert_audit_rows, Hi. cbn [st_audit]. by rewrite Hca, Hcn.
      * left. exists d. rewrite insert_audit_sent. cbn [st_sent]. by rewrite Hcs.
Qed.

(** Every call that reaches an upstream and every policy denial leaves
    one audit row naming the owner, instance, provider, model, status and key
    source (denials and failed calls complete at once, streamed ones still
    open under the id the response carries), unless the insert itself fails;
    any other early return leaves no row and sends nothing. *)
Theorem handle_audit_rows {lib : HttpLib} (svc : ProxyService) (run : Run)
    (send : UpstreamRequest -> option (Z * headers)) (req : LlmRequest) (st : ProxyState) :
  audited svc run req st (handle svc run send req st).1 (handle svc run send req st).2.
Proof.
  pose proof (handle_audited svc run send req st) as H.
  by destruct (handle svc run send req st) as [st' r].
Qed.

Lemma handle_unmetered {lib : HttpLib} svc run send req st owner now :
  audit_daily_tokens owner now (st_audit (handle svc run send req st).1) =
  audit_daily_tokens owner now (st_audit st).
Proof.
  pose proof (handle_audited svc run send req st) as H.
  destruct (handle svc run send req st) as [st' r]. cbn [fst].
  inversion H as [? o ? body ? ? ? ? ? ? ? Hrows|? ? Hrows|? ? Hrows]; subst;
    unfold audit_daily_tokens in *.
  - match type of Hrows with _ = _ ++ [(_, ?e)] =>
      pose proof (daily_tokens_insert_unmetered e owner now (st_audit st) eq_refl eq_refl) as Hd end.
    unfold audit_daily_tokens in Hd. cbn [audit_insert fst llm_audit] in Hd. by rewrite Hrows.
  - by rewrite Hrows.
  - by rewrite Hrows.
Qed.

(** Runs of the handler one after the other *)
Fixpoint handle_all {lib : HttpLib} (svc : ProxyService)
    (calls : list (Run * (UpstreamRequest -> option (Z * headers)) * LlmRequest))
    (st : ProxyState) : ProxyState :=
  match calls with
  | [] => st
  | (run, send, req) :: calls => handle_all svc calls (handle svc run send req st).1
  end.

(** A call counts towards its owner's daily budget only once it has
    finished streaming: any number of calls started in the meantime leave the
    total as it was, so each of them is judged on the same total, although
    the runs exclude each other up to the audit insert. *)
Theorem started_calls_unmetered {lib : HttpLib} (svc : ProxyService)
    (calls : list (Run * (UpstreamRequest -> option (Z * headers)) * LlmRequest))
    (st : ProxyState) (owner : string) (now : Z) :
  audit_daily_tokens owner now (st_audit (handle_all svc calls st)) =
  audit_daily_tokens owner now (st_audit st).
Proof.
  revert st. induction calls as [|[[run send] req] calls IH]; intros st; [done|].
  cbn [handle_all]. by rewrite IH, handle_unmetered.
Qed.

(** ** The operator's keys *)

(** The service with every [api_key] of the configuration removed *)
Definition without_api_keys (svc : ProxyService) : ProxyService :=
  mkProxyService (ps_tokens_resolve svc) (ps_instances_owner svc) (ps_policies_get svc)
    (ps_default_policy svc)
    ((fun c => mkProviderConfig None (upstream c) (anthropic_version c)) <$> ps_providers svc)
    (ps_user_secrets svc) (ps_user_or_keys svc) (ps_byo svc) (ps_seal svc).

Lemma outbound_without_api_keys {lib : HttpLib} svc req owner bytes body :
  outbound (without_api_keys svc) req owner bytes body = outbound svc req owner bytes body.
Proof.
  unfold outbound. cbn [without_api_keys ps_providers]. rewrite lookup_fmap.
  assert (forall p, byok_resolve (without_api_keys svc) p owner = byok_resolve svc p owner) as Hk.
  { intros p. unfold byok_resolve. cbn [without_api_keys ps_providers ps_user_secrets ps_user_or_keys].
    rewrite lookup_fmap. by destruct (ps_providers svc !! p). }
  rewrite Hk. destruct (registry (rq_provider req)) as [a|]; [|done].
  cbn [ok_or mbind result_bind].
  destruct (byok_resolve svc (rq_provider req) owner) as [k|]; [|done].
  by destruct (ps_providers svc !! rq_provider req).
Qed.

(** The [api_key] fields of the operator's configuration have no effect
    on any request: the handler behaves the same with all of them removed. *)
Theorem handle_ignores_api_keys {lib : HttpLib} (svc : ProxyService) (run : Run)
    (send : UpstreamRequest -> option (Z * headers)) (req : LlmRequest) (st : ProxyState) :
  handle (without_api_keys svc) run send req st = handle svc run send req st.
Proof.
  rewrite !handle_eq.
  change (authenticate (without_api_keys svc) req) with (authenticate svc req).
  destruct (authenticate svc req) as [[record owner]|e]; [|done].
  destruct (read_request_body req) as [[bytes body]|e]; [|done]. cbn zeta.
  rewrite outbound_without_api_keys. done.
Qed.

(** ** Rate limiting *)

Lemma pop_before_sorted c q :
  StronglySorted Z.le q -> pop_before c q = select (fun t => c <=? t) q.
Proof.
  induction 1 as [|t q Hs IH Ht]; [done|]. cbn [pop_before]. rewrite select_cons.
  destruct (t <? c) eqn:E; to_prop.
  - replace (c <=? t) with false by (symmetry; lia). done.
  - replace (c <=? t) with true by (symmetry; lia). f_equal. symmetry. apply select_all.
    rewrite Forall_forall in Ht. intros u Hu. specialize (Ht u Hu). lia.
Qed.

(** The observations of a subject among a series of them *)
Definition times (s : string) (evs : list (string * Z)) : list Z :=
  map snd (select (fun e => (e.1 =? s)%string) evs).

Definition observe_all (evs : list (string * Z)) : RateWindow :=
  fold_left (fun m e => (observe e.1 e.2 m).1) evs ∅.

(** A clock that does not go back *)
Definition monotone (evs : list (string * Z)) : Prop :=
  StronglySorted (fun a b => a.2 <= b.2) evs /\ Forall (fun e => 0 <= e.2) evs.

Lemma StronglySorted_snoc_inv {A} (R : A -> A -> Prop) l x :
  StronglySorted R (l ++ [x]) -> StronglySorted R l /\ Forall (fun y => R y x) l.
Proof.
  induction l as [|y l IH]; intros H; [by split; constructor|]. cbn in H.
  apply StronglySorted_inv in H as [H Hy]. apply IH in H as [H1 H2].
  apply Forall_app in Hy as [Hy1 Hy2]. apply Forall_inv in Hy2. split; by constructor.
Qed.

Lemma times_sorted s evs : StronglySorted (fun a b => a.2 <= b.2) evs -> StronglySorted Z.le (times s evs).
Proof.
  unfold times. induction 1 as [|e evs Hs IH He]; [constructor|].
  rewrite select_cons. case_match; [|done]. cbn [map]. constructor; [done|].
  rewrite Forall_map, Forall_forall. intros e' He'. apply elem_of_select in He' as [He' _].
  rewrite Forall_forall in He. by apply He.
Qed.

Lemma times_snoc s evs e :
  times s (evs ++ [e]) = times s evs ++ if (e.1 =? s)%string then [e.2] else [].
Proof. unfold times. rewrite select_app, map_app, select_cons. by case_match. Qed.

Lemma select_select_le c c' q :
  c <= c' -> select (fun t => c' <=? t) (select (fun t => c <=? t) q) = select (fun t => c' <=? t) q.
Proof.
  intros Hc. rewrite <- select_and. apply select_ext. intros t.
  destruct (c <=? t) eqn:E1, (c' <=? t) eqn:E2; to_prop; done || lia.
Qed.

(** What one observation leaves in a window that kept everything from [c] on *)
Lemma prune_window c s evs now :
  monotone (evs ++ [(s, now)]) -> c <= now - NANOS ->
  prune (select (fun t => c <=? t) (times s evs) ++ [now]) now =
    select (fun t => now - NANOS <=? t) (times s (evs ++ [(s, now)])).
Proof.
  intros [Hs Hp] Hc. apply Forall_app in Hp as [_ Hnow]. apply Forall_inv in Hnow. cbn in Hnow.
  unfold prune, checked_sub.
  replace (instant_min <=? now - NANOS) with true
    by (symmetry; unfold instant_min, i64_min, NANOS in *; lia). cbn [default].
  assert (select (fun t => c <=? t) (times s evs) ++ [now] =
          select (fun t => c <=? t) (times s (evs ++ [(s, now)]))) as Heq.
  { rewrite times_snoc, select_app. cbn [fst snd]. rewrite String.eqb_refl, select_cons.
    by replace (c <=? now) with true by (symmetry; unfold NANOS in *; lia). }
  cbn [from_option]. rewrite Heq, pop_before_sorted; [by apply select_select_le|].
  apply StronglySorted_filter. by apply times_sorted.
Qed.

Lemma observe_all_window evs s :
  monotone evs ->
  exists c, (forall now, 0 <= now -> (forall e, e ∈ evs -> e.2 <= now) -> c <= now - NANOS) /\
    default [] (observe_all evs !! s) = select (fun t => c <=? t) (times s evs).
Proof.
  induction evs as [|[s0 t] evs IH] using rev_ind; intros Hm.
  { exists (- NANOS). split; [intros; lia|]. unfold observe_all. cbn. by rewrite lookup_empty. }
  assert (monotone evs) as Hm'.
  { destruct Hm as [Hs Hp]. apply StronglySorted_snoc_inv in Hs as [Hs _].
    apply Forall_app in Hp as [Hp _]. by split. }
  destruct (IH Hm') as (c & Hc & Hq). unfold observe_all in *. rewrite fold_left_app.
  set (m := fold_left _ evs ∅) in *. cbn [fold_left fst snd observe]. destruct (decide (s0 = s)) as [->|Hne].
  - rewrite lookup_insert_eq. cbn [default from_option id]. exists (t - NANOS). split.
    { intros now _ Hnow. specialize (Hnow (s, t) ltac:(set_solver)). cbn in Hnow. lia. }
    rewrite Hq. apply prune_window; [done|]. apply Hc.
    + destruct Hm as [_ Hp]. apply Forall_app in Hp as [_ Hp]. by apply Forall_inv in Hp.
    + destruct Hm as [Hs _]. apply StronglySorted_snoc_inv in Hs as [_ Hs].
      rewrite Forall_forall in Hs. intros e He. by apply Hs.
  - rewrite lookup_insert_ne by done. exists c. split.
    { intros now H0 Hnow. apply Hc; [done|]. intros e He. apply Hnow. set_solver. }
    rewrite times_snoc. cbn [fst]. apply String.eqb_neq in Hne as ->. by rewrite app_nil_r.
Qed.

(** The rate counter is exact: after any interleaving of calls of any
    owners on a clock that does not go back, the number an owner's next call
    sees is the number of that owner's calls in the last second, itself
    included (capped at the largest [u32]). *)
Theorem rate_window_exact (evs : list (string * Z)) (s : string) (now : Z)
    (Hm : monotone (evs ++ [(s, now)])) :
  (observe s now (observe_all evs)).2 =
    Z.min (Z.of_nat (length (select (fun t => now - NANOS <=? t) (times s (evs ++ [(s, now)])))))
      u32_max.
Proof.
  assert (monotone evs) as Hm'.
  { destruct Hm as [Hs Hp]. apply StronglySorted_snoc_inv in Hs as [Hs _].
    apply Forall_app in Hp as [Hp _]. by split. }
  destruct (observe_all_window evs s Hm') as (c & Hc & Hq). unfold observe. cbn [snd].
  rewrite Hq, prune_window; [done..|]. apply Hc.
  - destruct Hm as [_ Hp]. apply Forall_app in Hp as [_ Hp]. by apply Forall_inv in Hp.
  - destruct Hm as [Hs _]. apply StronglySorted_snoc_inv in Hs as [_ Hs].
    rewrite Forall_forall in Hs. intros e He. by apply Hs.
Qed.

Lemma rate_window_exact_witness :
  (observe "u1" 2500000000 (observe_all
     [("u1", 1000000000); ("u1", 2000000000); ("u2", 2000000000)])).2 = 2.
Proof.
  rewrite (rate_window_exact [("u1", 1000000000); ("u1", 2000000000); ("u2", 2000000000)]
             "u1" 2500000000).
  - reflexivity.
  - split; cbn; repeat constructor; cbn; lia.
Defined.

Lemma observe_at_least_one s now m : 1 <= (observe s now m).2.
Proof.
  unfold observe. cbn [snd]. assert (prune (default [] (m !! s) ++ [now]) now <> []) as Hne.
  { unfold prune. set (c := default now (checked_sub now NANOS)).
    assert (c <= now) as Hc.
    { unfold c, checked_sub, NANOS. case_match; cbn; lia. }
    clearbody c. induction (default [] (m !! s)) as [|t q IH]; cbn.
    - replace (now <? c) with false by (symmetry; lia). done.
    - by case_match. }
  unfold u32_max. destruct (prune _ _); [done|]. cbn [length]. lia.
Qed.

(** The counter a call is checked against includes the call itself while
    the limit is strict, so a limit of one request per second (or less)
    refuses every request of the owner, whatever the load. *)
Theorem rps_limit_one_refuses_all {lib : HttpLib} (svc : ProxyService) (run : Run)
    (send : UpstreamRequest -> option (Z * headers)) (req : LlmRequest) (st : ProxyState)
    (record : TokenRecord) (owner : string) (policy : PolicyRecord) (lim : Z)
    (Ha : authenticate svc req = Ok (record, owner)) (Hp : policy_of svc owner = Some policy)
    (Hl : rps_limit policy = Some lim) (Hlim : lim <= 1) :
  st_sent (handle svc run send req st).1 = st_sent st.
Proof.
  destruct (handle_sent svc run send req st)
    as [?|(record' & owner' & bytes & body & policy' & out & src & Ha' & _ & Hp' & He & _)]; [done|].
  rewrite Ha in Ha'. apply Ok_inj in Ha'. injection Ha' as <- <-.
  rewrite Hp in Hp'. apply Some_inj in Hp' as <-.
  apply enforce_admits in He as (_ & _ & Hrps & _). specialize (Hrps lim Hl). unfold usage_of in Hrps. rewrite snapshot_st in Hrps.
  unfold usage_of, snapshot in Hrps.
  pose proof (observe_at_least_one owner (run_observe run) (st_rate st)).
  destruct (observe _ _ _). cbn in *. lia.
Qed.

(** ** Tool results *)

Lemma insert_audit_tool_calls run e st :
  tool_calls (st_audit (insert_audit run e st).1) = tool_calls (st_audit st).
Proof. unfold insert_audit. by destruct (run_insert_err run). Qed.

(** After the capture nothing of a run touches [llm_tool_call]. *)
Lemma handle_tool_calls {lib : HttpLib} svc run send req st record owner bytes body :
  authenticate svc req = Ok (record, owner) -> read_request_body req = Ok (bytes, body) ->
  tool_calls (st_audit (handle svc run send req st).1) =
  tool_calls (st_audit (capture_tool_results svc run owner (tr_instance_id record) body st)).
Proof.
  intros Ha Hb. rewrite handle_eq, Ha, Hb. cbn zeta.
  set (st1 := capture_tool_results _ _ _ _ _ _).
  pose proof (gate_cases svc run req owner (tr_instance_id record) body st1) as Hg.
  destruct (policy_of svc owner) as [policy|]; [|by rewrite Hg].
  rewrite snapshot_st in Hg. cbn [fst] in Hg. destruct (enforce _ _ _ _) as [u|d]; rewrite Hg.
  - destruct (outbound _ _ _ _ _) as [[out src]|e]; [|done].
    unfold forward, mbind, svc_bind, modify, best_effort, attempt, throw, mret, svc_ret, insert_audit.
    destruct (send _) as [[status hs]|]; by destruct (run_insert_err run).
  - cbn [fst]. by rewrite insert_audit_tool_calls.
Qed.

Lemma pending_call_elem id db p : pending_call id db = Some p -> p ∈ tool_calls db.
Proof.
  unfold pending_call. intros H. apply last_Some_elem_of, elem_of_select in H. tauto.
Qed.

(** A tool result in a request body is attached to the newest open
    tool call with that use id whoever it belongs to: a tenant's request
    completes another tenant's audit row, sealed under the sender's context. *)
Theorem tool_result_crosses_owners {lib : HttpLib} (svc : ProxyService) (run : Run)
    (send : UpstreamRequest -> option (Z * headers)) (req : LlmRequest) (st : ProxyState)
    (record : TokenRecord) (owner bytes : string) (body : json) (r : CapturedToolResult)
    (seal : string -> string -> string -> string -> result string string)
    (sealed : string) (p : ToolCallRow)
    (Ha : authenticate svc req = Ok (record, owner)) (Hb : read_request_body req = Ok (bytes, body))
    (Hseal : ps_seal svc = Some seal)
    (Hr : extract_tool_results_from_request body = [r])
    (Hs : seal owner (tr_instance_id record) ("result:" +:+ cr_tool_use_id r)
            (capped_json_bytes (cr_content r)) = Ok sealed)
    (Herr : run_attach_err run (cr_tool_use_id r) = None)
    (Hp : pending_call (cr_tool_use_id r) (st_audit st) = Some p)
    (Hother : te_owner_id (tc_entry p) <> owner) :
  mkToolCallRow (tc_id p) (tc_entry p) (Some sealed) (Some (cr_is_error r))
    (Some (run_tool_now run)) (tc_mcp_audit_id p)
  ∈ tool_calls (st_audit (handle svc run send req st).1).
Proof.
  rewrite (handle_tool_calls svc run send req st record owner bytes body Ha Hb).
  unfold capture_tool_results. rewrite Hseal, Hr. cbn [fold_left st_audit].
  unfold capture_one. rewrite Hs, Herr. unfold attach_result. rewrite Hp. cbn [fst with_tool_calls tool_calls].
  apply elem_of_update. exists p. rewrite Z.eqb_refl. split; [by eapply pending_call_elem|done].
Qed.

(** ** A concrete proxy, for witnesses *)

Definition example_body : json :=
  JObject [("model", JString "gpt-4o");
           ("messages", JArray [JObject [("role", JString "tool");
                                         ("tool_call_id", JString "toolu_1");
                                         ("content", JString "forged")]])].

#[local] Instance example_lib : HttpLib := {|
  Uri := string;
  uri_parse := Some;
  uri_path := id;
  uri_query := fun _ => None;
  uri_with_path_and_query := fun _ pq => Some pq;
  uri_to_string := id;
  header_value_ok := all_bytes (fun c => (32 <=? byte_val c) && (byte_val c <=? 126));
  to_str := Some;
  json_from_slice := fun s => if (s =? "BODY")%string then Some example_body else None;
  json_to_vec := fun v => match v with JString s => Some s | _ => Some "{}" end;
  blob_from_slice := fun s => Ok (mkByoBlob "https://llm.example" ["93.184.216.34:443"] s);
  url_parse := example_parse;
  url_to_string := fun _ => "https://llm.example/";
  pinned_client := fun _ => true
|}.

Definition example_token : TokenRecord := mkTokenRecord "t1" "i1" "*" 0 None (Some "10.0.0.2").

Definition example_service (limit : option Z) : ProxyService :=
  mkProxyService
    (fun t => if (t =? "t1")%string then Ok (Some example_token) else Ok None)
    (fun i => if (i =? "i1")%string then Ok (Some "u1") else Ok None)
    (fun _ => Ok None)
    (mkPolicyRecord ["*"] ["gpt-4o*"] (Some 1000) None limit)
    {["openai" := mkProviderConfig (Some "sk-operator") "https://api.openai.com" None]}
    (Some (fun owner name => if (name =? "byok_openai")%string then Ok (Some ("sk-" +:+ owner)) else Ok None))
    None (mkByoConfig true false false)
    (Some (fun owner inst name bytes => Ok (owner +:+ "/" +:+ name +:+ "/" +:+ bytes))).

Definition example_req : LlmRequest :=
  mkLlmRequest (V4 (10 * 2 ^ 24 + 2)) "openai" "v1/chat/completions" None "POST"
    [("authorization", "Bearer t1"); ("content-type", "application/json"); ("cookie", "c")]
    (Some "BODY").

Definition example_run : Run := mkRun 50 (fun _ => None) 5000000000 2000 None 7 2000 None.

Definition example_send (out : UpstreamRequest) : option (Z * headers) :=
  Some (200, [("content-type", "text/event-stream"); ("content-length", "3")]).

Definition example_state : ProxyState :=
  mkProxyState ∅ (insert_call (example_call "u2") empty_audit).1 [].

(** A whole run: the request that went out and the answer. *)
Example handle_example :
  let '(st, r) := handle (example_service (Some 2)) example_run example_send example_req
                    example_state in
  st_sent st =
    [mkUpstreamRequest None "POST" "https://api.openai.com/v1/chat/completions"
       [("content-type", "application/json"); ("accept-encoding", "identity");
        ("authorization", "Bearer sk-u1")] "BODY"] /\
  r = Ok (Streamed 200 [("content-type", "text/event-stream")] (Some 1)).
Proof. vm_compute. done. Qed.

Lemma tool_result_crosses_owners_witness :
  mkToolCallRow 1 (example_call "u2") (Some "u1/result:toolu_1/forged") (Some false) (Some 50) None
  ∈ tool_calls (st_audit (handle (example_service None) example_run example_send example_req
                            example_state).1).
Proof.
  apply (tool_result_crosses_owners (example_service None) example_run example_send example_req
           example_state example_token "u1" "BODY" example_body
           (mkCaptured "toolu_1" (JString "forged") false)
           (fun owner inst name bytes => Ok (owner +:+ "/" +:+ name +:+ "/" +:+ bytes))
           "u1/result:toolu_1/forged" (mkToolCallRow 1 (example_call "u2") None None None None)).
  all: try (vm_compute; reflexivity).
  vm_compute. discriminate.
Defined.

Lemma rps_limit_one_refuses_all_witness :
  st_sent (handle (example_service (Some 1)) example_run example_send example_req
             example_state).1 = [].
Proof.
  apply (rps_limit_one_refuses_all (example_service (Some 1)) example_run example_send example_req
           example_state example_token "u1" (mkPolicyRecord ["*"] ["gpt-4o*"] (Some 1000) None (Some 1)) 1).
  - vm_compute. reflexivity.
  - reflexivity.
  - reflexivity.
  - lia.
Defined.

Definition example_out : UpstreamRequest :=
  mkUpstreamRequest None "POST" "https://api.openai.com/v1/chat/completions"
    [("content-type", "application/json"); ("accept-encoding", "identity");
     ("authorization", "Bearer sk-u1")] "BODY".


Lemma outbound_target_witness :
  "openai" <> "byo" /\
  exists cfg uri, ps_providers (example_service None) !! "openai" = Some cfg /\ upstream cfg <> "" /\
    uri_parse (trim_end_matches "/" (upstream cfg) +:+ "/" +:+ "v1/chat/completions") = Some uri /\
    ("openai" <> "gemini" -> ur_uri example_out = uri_to_string uri).
Proof.
  apply (outbound_target (example_service None) example_req "u1" "BODY" example_body
           example_out Byok).
  vm_compute. reflexivity.
Defined.
