(* ===== verification/EndToEnd.v ===== *)
(** * Tokens, instances and the LLM proxy together

    The LLM proxy is verified over the records its stores return.  Here its
    token and instance stores are the modelled ones: a bearer is resolved by
    [TokenStore] and its owner read from the instance table, so that minting
    and revoking can be followed up to what the proxy sends. *)

From Stdlib Require Import ZArith Ascii Lia.
From stdpp Require Import base list strings gmap option.
From S2P Require Import Prelude RustStr RustHttp Json Codec Store NetworkPolicy Traits Envelope.
From S2P Require Import LlmPolicy InstanceStore TokenStore LlmAudit LlmProxy.

Local Open Scope string_scope.
Local Open Scope list_scope.
Local Open Scope Z_scope.

Section composed.
Context {lib : HttpLib} {codec : EnvelopeCodec} {th : TokenHash}.
Context (cipher : EnvelopeCipher) (ciphers : option CipherDirectory).

(** The proxy service whose token and instance stores are the tables of [w];
    a rewrap that resolving a token performs touches only ciphertexts. *)
Definition over_tables (svc : ProxyService) (run : TokenRun) (w : TokenWorld) : ProxyService :=
  mkProxyService (fun t => (token_resolve cipher ciphers run t w).2)
    (fun id => Ok (ir_owner_id <$> instance_get id (tw_instances w)))
    (ps_policies_get svc) (ps_default_policy svc) (ps_providers svc) (ps_user_secrets svc)
    (ps_user_or_keys svc) (ps_byo svc) (ps_seal svc).
End composed.

(** C14. Revoking an instance cuts it off: from then on, whatever else the token
    store is asked to do, a request that presents one of its tokens is answered
    401, sends nothing upstream and changes no state of the proxy. *)
Theorem revoked_sandbox_cut_off {lib : HttpLib} {codec : EnvelopeCodec} {th : TokenHash}
    (cipher : EnvelopeCipher) (ciphers : option CipherDirectory) (svc : ProxyService)
    (trun trun' : TokenRun) (token : string) (r : TokenRow) (w : TokenWorld) (ops : list TokenOp)
    (run : Run) (send : UpstreamRequest -> option (Z * headers)) (req : LlmRequest) (st : ProxyState)
    (Hwf : tokens_wf w) (Hr : r ∈ tw_tokens w) (Hl : tk_lookup r = token_lookup_key token)
    (Hfresh : fresh_runs cipher ciphers ops (revoke_for_instance trun (tk_instance_id r) w).1)
    (Hbearer : extract_bearer to_str (rq_headers req) = Some token) :
  let w' := token_runs cipher ciphers ops (revoke_for_instance trun (tk_instance_id r) w).1 in
  handle (over_tables cipher ciphers svc trun' w') run send req st =
    (st, Err (ErrorResponse 401 "invalid bearer")).
Proof.
  intros w'. rewrite handle_eq. unfold authenticate. rewrite Hbearer. cbn [ok_or mbind result_bind].
  cbn [ps_tokens_resolve over_tables].
  assert (spent token w') as Hs.
  { apply token_runs_spent; [done|]. by apply (revoke_instance_spends cipher ciphers). }
  by rewrite (spent_resolves_none cipher ciphers token trun' w' Hs).
Qed.


(** ** Examples *)

Section examples.
#[local] Existing Instance example_lib.
#[local] Existing Instance toy_directory.
#[local] Existing Instance toy_codec.
#[local] Existing Instance toy_directory_ok.
#[local] Existing Instance toy_codec_ok.
#[local] Existing Instance toy_hash.

(** The example request, with the token minted for the example instance *)
Definition token_req : LlmRequest :=
  mkLlmRequest (rq_peer example_req) "openai" "v1/chat/completions" None "POST"
    [("authorization", "Bearer pt_u1"); ("content-type", "application/json")] (Some "BODY").

Lemma revoked_sandbox_cut_off_witness :
  exists w, handle (over_tables (toy_cipher "k") (Some toy_directory) (example_service None)
                      (example_token_run "") w) example_run example_send token_req example_state =
    (example_state, Err (ErrorResponse 401 "invalid bearer")).
Proof.
  destruct minted_row as [s Hs]. eexists.
  apply (revoked_sandbox_cut_off (toy_cipher "k") (Some toy_directory) (example_service None)
           (example_token_run "") (example_token_run "") "pt_u1"
           (mkTokenRow s "#pt_u1" "i" "*" 100 None None) minted_tokens [TkBind "i" "10.0.0.1"]).
  - unfold tokens_wf. rewrite Hs. cbn. apply NoDup_singleton.
  - rewrite Hs. clear. set_solver.
  - reflexivity.
  - split; exact I.
  - reflexivity.
Defined.

End examples.
