(* ===== verification/StateFiles.v ===== *)
(** * Mirrored state files

    Models [crates/core/src/state_files.rs] and
    [crates/core/src/db/sqlite/state_files.rs]: which workspace and chat files
    a sandbox may mirror, sealing of their bodies, upserts and tombstones,
    protection of chats against placeholder overwrites, and reading back with
    a lazy rewrap that runs later as a task of its own. *)

From Stdlib Require Import ZArith Ascii Lia.
From stdpp Require Import base list strings gmap option.
From S2P Require Import Prelude RustStr Codec Store Envelope.

Local Open Scope string_scope.
Local Open Scope list_scope.
Local Open Scope Z_scope.

(** ** [std::path] on Unix *)

(** [Component] *)
Inductive Component : Type := RootDir | CurDir | ParentDir | Normal (part : string).

Definition component_of (part : string) : Component :=
  if (part =? "..")%string then ParentDir else Normal part.

(** [Path::components]: repeated and trailing separators and inner "." vanish;
    a leading "." stays. *)
Definition components (path : string) : list Component :=
  let parts := split "/" path in
  let root := starts_with "/" path in
  (if root then [RootDir] else []) ++
  (if negb root && (default "" (head parts) =? ".")%string then [CurDir] else []) ++
  map component_of (filter (fun p => is_empty p = false /\ p <> ".") parts).

(** [Path::is_absolute] *)
Definition is_absolute (path : string) : bool := starts_with "/" path.

(** [str::rsplit_once] for one character *)
Definition rsplit_once (sep : ascii) (s : string) : option (string * string) :=
  (fun '(x, y) => (rev_str y, rev_str x)) <$> split_once sep (rev_str s).

(** The extension of a file name: after the last dot, unless that dot starts it *)
Definition name_extension (name : string) : option string :=
  match rsplit_once "." name with
  | Some (before, after) => if is_empty before then None else Some after
  | None => None
  end.

(** [Path::extension] *)
Definition extension (path : string) : option string :=
  match head (reverse (components path)) with
  | Some (Normal name) => name_extension name
  | _ => None
  end.

(** ** Which files are durable *)

(** [StateFileError] *)
Inductive StateFileError : Type :=
| SfStore (e : StoreError)
| SfIo (msg : string)
| SfInvalid (msg : string).

(** [validate_namespace] *)
Definition validate_namespace (namespace : string) : result StateFileError unit :=
  if (namespace =? "workspace")%string || (namespace =? "chats")%string then Ok tt
  else Err (SfInvalid "unsupported namespace").

Definition is_normal (c : Component) : bool :=
  match c with Normal part => negb (is_empty part) | _ => false end.

(** [validate_relative_path] *)
Definition validate_relative_path (path : string) : result StateFileError unit :=
  if is_empty path || (2048 <? len path) || contains_char (RustStr.b 0) path
  then Err (SfInvalid "bad path length or nul byte")
  else if is_absolute path then Err (SfInvalid "absolute paths are not accepted")
  else if forallb is_normal (components path) then Ok tt
  else Err (SfInvalid "paths must be clean relative paths").

(** [has_hidden_or_unclean_component] *)
Definition has_hidden_or_unclean_component (path : string) : bool :=
  existsb (fun c => match c with
                    | Normal s => is_empty s || starts_with "." s
                    | _ => true
                    end) (components path).

(** [has_extension] *)
Definition has_extension (file_name expected : string) : bool :=
  match extension file_name with
  | Some ext => eq_ignore_ascii_case ext expected
  | None => false
  end.

Definition extension_is_md (rel : string) : bool :=
  match extension rel with Some e => (e =? "md")%string | None => false end.

(** [should_mirror_channel_workspace] *)
Definition should_mirror_channel_workspace (parts : list string) (rel : string) : bool :=
  match parts with
  | [file] => has_extension file "md" || (file =? "_audit.jsonl")%string
  | p :: _ => if (p =? "memory")%string then extension_is_md rel else false
  | [] => false
  end.

(** [should_mirror_workspace_path] *)
Definition normal_parts (rel : string) : list string :=
  omap (fun c => match c with Normal s => Some s | _ => None end) (components rel).
Definition should_mirror_workspace_path (rel : string) : bool :=
  match normal_parts rel with
  | [file] => has_extension file "md"
  | p :: rest =>
      if (p =? "memory")%string then extension_is_md rel
      else if (p =? "kb")%string || (p =? "skills")%string then true
      else if (p =? "channels")%string
           then match rest with
                | _ :: rest => should_mirror_channel_workspace rest rel
                | [] => false
                end
           else false
  | [] => false
  end.

(** [validate_state_file_path] *)
Definition validate_state_file_path (namespace path : string) : result StateFileError unit :=
  _ ← validate_namespace namespace;
  _ ← validate_relative_path path;
  if has_hidden_or_unclean_component path
  then Err (SfInvalid "paths may not contain hidden or unclean components")
  else if (namespace =? "chats")%string then Ok tt
  else if should_mirror_workspace_path path then Ok tt
  else Err (SfInvalid ("workspace path is not durable state: " +:+ path)).

(** [validate_instance_id] *)
Definition validate_instance_id (instance_id : string) : result StateFileError unit :=
  if is_empty instance_id || contains_char "/" instance_id || contains_char (RustStr.b 92) instance_id
     || contains_str ".." instance_id
  then Err (SfInvalid "bad instance id") else Ok tt.

(** [trim_ascii_whitespace] *)
Fixpoint trim_ascii_start (s : string) : string :=
  match s with
  | String c r => if is_ascii_whitespace c then trim_ascii_start r else s
  | EmptyString => s
  end.
Definition trim_ascii_whitespace (s : string) : string :=
  rev_str (trim_ascii_start (rev_str (trim_ascii_start s))).

(** [is_zero_byte_chat_transcript] and the placeholders *)
Definition is_zero_byte_chat_transcript (namespace path body : string) : bool :=
  (namespace =? "chats")%string && ends_with "/transcript.json" path && is_empty body.
Definition is_empty_chat_transcript (namespace path body : string) : bool :=
  (namespace =? "chats")%string && ends_with "/transcript.json" path
  && (trim_ascii_whitespace body =? "[]")%string.
Definition is_placeholder_chat_title (namespace path body : string) : bool :=
  (namespace =? "chats")%string && ends_with "/title.txt" path
  && (trim_ascii_whitespace body =? "New conversation")%string.
Definition is_placeholder_chat_state (namespace path body : string) : bool :=
  is_empty_chat_transcript namespace path body || is_placeholder_chat_title namespace path body.

(** [validate_body] *)
Definition validate_body (namespace path body : string) : result StateFileError unit :=
  if is_zero_byte_chat_transcript namespace path body
  then Err (SfInvalid "zero-byte chat transcript rejected") else Ok tt.

(** ** The store *)

(** [StateFileRow] *)
Record StateFileRow : Type := mkStateFile {
  sf_id : Z;
  sf_instance_id : string;
  sf_owner_id : string;
  sf_namespace : string;
  sf_path : string;
  sf_mime : option string;
  sf_bytes : Z;
  sf_body : option string;
  sf_updated_at : Z;
  sf_synced_at : Z;
  sf_deleted_at : option Z
}.

(** [instance_state_files] and its [AUTOINCREMENT] counter *)
Record StateDb : Type := mkStateDb { sd_rows : list StateFileRow; sd_next_id : Z }.

Definition has_key (instance_id namespace path : string) (r : StateFileRow) : bool :=
  (sf_instance_id r =? instance_id)%string && (sf_namespace r =? namespace)%string
  && (sf_path r =? path)%string.

(** [find] *)
Definition file_find (instance_id namespace path : string) (db : StateDb) : option StateFileRow :=
  select_one (has_key instance_id namespace path) (sd_rows db).

(** [INSERT ... ON CONFLICT(instance_id, namespace, path) DO UPDATE]: the row
    keeps its id. *)
Definition write_row (r : StateFileRow) (db : StateDb) : StateDb :=
  let p := has_key (sf_instance_id r) (sf_namespace r) (sf_path r) in
  if Nat.eqb (affected p (sd_rows db)) 0
  then mkStateDb (sd_rows db ++ [mkStateFile (sd_next_id db) (sf_instance_id r) (sf_owner_id r)
         (sf_namespace r) (sf_path r) (sf_mime r) (sf_bytes r) (sf_body r) (sf_updated_at r)
         (sf_synced_at r) (sf_deleted_at r)]) (sd_next_id db + 1)
  else mkStateDb (update p (fun old => mkStateFile (sf_id old) (sf_instance_id old) (sf_owner_id r)
         (sf_namespace old) (sf_path old) (sf_mime r) (sf_bytes r) (sf_body r) (sf_updated_at r)
         (sf_synced_at r) (sf_deleted_at r)) (sd_rows db)) (sd_next_id db).

Abbreviation files := (svc StateDb StateFileError).

(** [upsert] and [tombstone], both ending in [find] *)
Definition write_and_find (r : StateFileRow) (gone : string) : files StateFileRow :=
  _ ← modify (write_row r);
  found ← gets (file_find (sf_instance_id r) (sf_namespace r) (sf_path r));
  lift (ok_or (SfStore (Io gone)) found).
Definition row_upsert (instance_id owner_id namespace path : string) (mime : option string)
    (bytes : Z) (body : string) (updated_at synced_at : Z) : files StateFileRow :=
  write_and_find (mkStateFile 0 instance_id owner_id namespace path mime bytes (Some body)
    updated_at synced_at None) "state file row vanished after upsert".
Definition row_tombstone (instance_id owner_id namespace path : string) (updated_at synced_at : Z) :
  files StateFileRow :=
  write_and_find (mkStateFile 0 instance_id owner_id namespace path None 0 None
    updated_at synced_at (Some synced_at)) "state file row vanished after tombstone".

(** [list_for_instance] *)
Definition file_list (instance_id : string) (db : StateDb) : list StateFileRow :=
  sort (fun a b => if (sf_namespace a =? sf_namespace b)%string then str_leb (sf_path a) (sf_path b)
                   else str_leb (sf_namespace a) (sf_namespace b))
    (select (fun r => (sf_instance_id r =? instance_id)%string) (sd_rows db)).

(** [rewrap_body]: compare and swap on the ciphertext *)
Definition rewrap_body (id : Z) (previous next : string) (db : StateDb) : StateDb * bool :=
  let p r := (sf_id r =? id) && bool_decide (sf_body r = Some previous) in
  (mkStateDb (update p (fun r => mkStateFile (sf_id r) (sf_instance_id r) (sf_owner_id r)
      (sf_namespace r) (sf_path r) (sf_mime r) (sf_bytes r) (Some next) (sf_updated_at r)
      (sf_synced_at r) (sf_deleted_at r)) (sd_rows db)) (sd_next_id db),
   negb (Nat.eqb (affected p (sd_rows db)) 0)).

(** ** The service *)

(** [StateFileMeta] *)
Record StateFileMeta : Type := mkMeta {
  sm_instance_id : string;
  sm_owner_id : string;
  sm_namespace : string;
  sm_path : string;
  sm_mime : option string;
  sm_updated_at : Z
}.

(** [AGE_ARMOR_PREFIX] *)
Definition AGE_ARMOR_PREFIX : string := "-----BEGIN AGE ENCRYPTED FILE-----".

(** [state_file_context] *)
Definition state_file_context (owner_id instance_id namespace path : string) : KmsContext :=
  user_scoped StateFile owner_id (Some instance_id) (Some (namespace +:+ ":" +:+ path)).

(** [i64::try_from(body.len()).unwrap_or(i64::MAX)] *)
Definition body_len (body : string) : Z := len_i64 (String.length body).

Section service.
Context {dir : CipherDirectory} {codec : EnvelopeCodec}.

(** [preserve_existing_chat_row] *)
Definition preserve_existing_chat_row (meta : StateFileMeta) (body : string) (db : StateDb) :
  option StateFileRow :=
  if negb (is_placeholder_chat_state (sm_namespace meta) (sm_path meta) body) then None
  else match file_find (sm_instance_id meta) (sm_namespace meta) (sm_path meta) db with
       | None => None
       | Some existing =>
           if bool_decide (sf_deleted_at existing = None) && bool_decide (is_Some (sf_body existing))
              && (body_len body <? sf_bytes existing)
           then Some existing else None
       end.

(** [ingest]; [now] is the receipt time. *)
Definition ingest (sr : SealRun) (now : Z) (meta : StateFileMeta) (body : string) : files StateFileRow :=
  _ ← lift (validate_instance_id (sm_instance_id meta));
  _ ← lift (validate_state_file_path (sm_namespace meta) (sm_path meta));
  _ ← lift (validate_body (sm_namespace meta) (sm_path meta) body);
  existing ← gets (preserve_existing_chat_row meta body);
  match existing with
  | Some existing => mret existing
  | None =>
      sealed_body ← lift (map_err (fun _ => SfIo "seal")
        (seal_context sr (state_file_context (sm_owner_id meta) (sm_instance_id meta)
           (sm_namespace meta) (sm_path meta)) body));
      row_upsert (sm_instance_id meta) (sm_owner_id meta) (sm_namespace meta) (sm_path meta)
        (sm_mime meta) (body_len body) sealed_body (sm_updated_at meta) now
  end.

(** [tombstone] *)
Definition tombstone (now : Z) (meta : StateFileMeta) : files StateFileRow :=
  _ ← lift (validate_instance_id (sm_instance_id meta));
  _ ← lift (validate_state_file_path (sm_namespace meta) (sm_path meta));
  row_tombstone (sm_instance_id meta) (sm_owner_id meta) (sm_namespace meta) (sm_path meta)
    (sm_updated_at meta) now.

(** The rewrap task [read_body] spawns *)
Record RewrapTask : Type := mkRewrap { rw_id : Z; rw_previous : string; rw_next : string }.

(** [read_body]: the plaintext, and the task to run some time later *)
Definition read_body (sr : SealRun) (row : StateFileRow) :
  result StateFileError (option string * option RewrapTask) :=
  match sf_deleted_at row, sf_body row with
  | Some _, _ | None, None => Ok (None, None)
  | None, Some bytes =>
      if negb (starts_with AGE_ARMOR_PREFIX bytes) && negb (is_v2_envelope bytes) then Ok (None, None)
      else
        let context := state_file_context (sf_owner_id row) (sf_instance_id row)
                         (sf_namespace row) (sf_path row) in
        opened ← map_err (fun _ => SfIo "open") (open_context context bytes);
        let task := if op_needs_rewrap opened
                    then match rewrap_context sr context (op_plaintext opened) with
                         | Ok next => Some (mkRewrap (sf_id row) bytes next)
                         | Err _ => None
                         end
                    else None in
        Ok (Some (op_plaintext opened), task)
  end.

Definition run_rewrap (t : RewrapTask) (db : StateDb) : StateDb :=
  (rewrap_body (rw_id t) (rw_previous t) (rw_next t) db).1.
End service.

(** ** Paths *)

Lemma component_dotdot path : ".." ∈ split "/" path -> ParentDir ∈ components path.
Proof.
  intros H. unfold components. rewrite !elem_of_app. right; right.
  apply list_elem_of_fmap. exists "..". split; [done|]. by apply list_elem_of_filter.
Qed.

Lemma component_part part path :
  part ∈ split "/" path -> part <> "" -> part <> "." -> part <> ".." -> Normal part ∈ components path.
Proof.
  intros H He Hd Hdd. unfold components. rewrite !elem_of_app. right; right.
  apply list_elem_of_fmap. exists part. split.
  - unfold component_of. destruct (part =? "..")%string eqn:E; [by to_prop|done].
  - apply list_elem_of_filter. split; [|done]. split; [by destruct part|done].
Qed.

(** A mirrored file stays in its directory: an accepted path is relative
    and short, has no NUL and no ".." segment, and no segment is hidden; inner
    "." and empty segments are the only ones that are not plain names. *)
Theorem mirrored_path_stays_inside (namespace path : string)
    (Hok : validate_state_file_path namespace path = Ok tt) :
  is_absolute path = false /\ 0 < len path <= 2048 /\ no_char (RustStr.b 0) path /\
  forall part, part ∈ split "/" path ->
    part <> ".." /\ (starts_with "." part = true -> part = ".").
Proof.
  unfold validate_state_file_path in Hok. destruct (validate_namespace namespace) as [[]|]; [|done].
  cbn [mbind result_bind] in Hok. unfold validate_relative_path in Hok.
  destruct (_ || _) eqn:Hl in Hok; [done|]. to_prop.
  destruct (is_absolute path) eqn:Ha; [done|]. destruct (forallb _ _) eqn:Hn; [|done].
  cbn [mbind result_bind] in Hok. destruct (has_hidden_or_unclean_component path) eqn:Hh; [done|].
  assert (0 < len path) as Hpos by (destruct path; [done|unfold len; cbn; lia]).
  split; [done|]. split; [lia|]. split; [done|]. intros part Hp. split.
  - intros ->. apply component_dotdot in Hp.
    rewrite forallb_forall' in Hn. by specialize (Hn _ Hp).
  - intros Hs. destruct (decide (part = ".")) as [|Hd]; [done|]. exfalso.
    destruct (decide (part = "..")) as [->|Hdd].
    { apply component_dotdot in Hp. rewrite forallb_forall' in Hn. by specialize (Hn _ Hp). }
    assert (part <> "") as He by by intros ->.
    assert (has_hidden_or_unclean_component path = true) as Ht; [|congruence].
    apply existsb_exists'. exists (Normal part). split; [by apply component_part|].
    by rewrite Hs, orb_true_r.
Qed.

(** ** Rows *)

(** One row per file *)
Definition state_wf (db : StateDb) : Prop :=
  forall r r', r ∈ sd_rows db -> r' ∈ sd_rows db ->
    sf_instance_id r = sf_instance_id r' -> sf_namespace r = sf_namespace r' -> sf_path r = sf_path r' ->
    r = r'.

Lemma has_key_iff i n p r :
  has_key i n p r = true <-> sf_instance_id r = i /\ sf_namespace r = n /\ sf_path r = p.
Proof. unfold has_key. rewrite !andb_true_iff, !String.eqb_eq. tauto. Qed.

Lemma file_find_some i n p db r :
  file_find i n p db = Some r ->
  r ∈ sd_rows db /\ sf_instance_id r = i /\ sf_namespace r = n /\ sf_path r = p.
Proof. intros H. apply select_one_some in H as [Hr Hk]. by apply has_key_iff in Hk. Qed.

(** The row an upsert leaves, and that it touches no other file *)
Lemma write_row_find (r : StateFileRow) (db : StateDb) :
  exists id, file_find (sf_instance_id r) (sf_namespace r) (sf_path r) (write_row r db) =
    Some (mkStateFile id (sf_instance_id r) (sf_owner_id r) (sf_namespace r) (sf_path r) (sf_mime r)
            (sf_bytes r) (sf_body r) (sf_updated_at r) (sf_synced_at r) (sf_deleted_at r)).
Proof.
  set (k := has_key (sf_instance_id r) (sf_namespace r) (sf_path r)).
  unfold write_row. fold k. destruct (Nat.eqb (affected k (sd_rows db)) 0) eqn:E; to_prop.
  - exists (sd_next_id db). unfold file_find, select_one. cbn [sd_rows]. fold k. rewrite select_app.
    unfold affected in E. destruct (select k (sd_rows db)); [|done]. cbn [app].
    rewrite select_cons. assert (k (mkStateFile (sd_next_id db) (sf_instance_id r) (sf_owner_id r)
      (sf_namespace r) (sf_path r) (sf_mime r) (sf_bytes r) (sf_body r) (sf_updated_at r)
      (sf_synced_at r) (sf_deleted_at r)) = true) as -> by by apply has_key_iff. done.
  - unfold file_find, select_one. cbn [sd_rows]. fold k. rewrite select_update by done.
    unfold affected in E. destruct (select k (sd_rows db)) as [|old t] eqn:Es; [done|].
    assert (k old = true) as Hk.
    { apply (elem_of_select k (sd_rows db)). rewrite Es. set_solver. }
    exists (sf_id old). cbn [update map head]. rewrite Hk. apply has_key_iff in Hk as (-> & -> & ->). done.
Qed.

Lemma write_row_other r db i n p :
  (i, n, p) <> (sf_instance_id r, sf_namespace r, sf_path r) ->
  file_find i n p (write_row r db) = file_find i n p db.
Proof.
  intros Hne. unfold write_row, file_find, select_one.
  assert (forall x, has_key (sf_instance_id r) (sf_namespace r) (sf_path r) x = true ->
            has_key i n p x = false) as Hx.
  { intros x Hx. destruct (has_key i n p x) eqn:E; [|done]. apply has_key_iff in Hx as (? & ? & ?), E as (? & ? & ?).
    destruct Hne. congruence. }
  destruct (Nat.eqb _ 0); cbn [sd_rows].
  - rewrite select_app, select_cons, Hx by by apply has_key_iff. cbn. by rewrite app_nil_r.
  - rewrite select_update_other; [done| |]; intros x Hp; [by apply Hx|].
    apply Hx. apply has_key_iff in Hp. by apply has_key_iff.
Qed.

(** ** Theorems *)

Section theorems.
Context {dir : CipherDirectory} {codec : EnvelopeCodec}.
Context `{!CipherDirectoryOk dir, !EnvelopeCodecOk codec}.

(** What a sealing or rewrap stored is recognised as sealed and opens. *)
Lemma sealed_body_opens sr c p rw s :
  seal_context_inner sr c p rw = Ok s ->
  is_v2_envelope s = true /\ exists k n, open_context c s = Ok (mkOpened p k n false false).
Proof.
  intros H. destruct (for_context c) as [v|] eqn:Hv.
  - destruct (seal_inner_envelope sr c p rw v Hv) as (s' & env & Hs & _ & Hf & H2 & _ & Ho).
    rewrite Hs in H. apply Ok_inj in H as <-. unfold is_v2_envelope, open_context. rewrite Hf, H2.
    split; [done|]. cbn [Z.eqb Pos.eqb]. rewrite Ho. eauto.
  - unfold seal_context_inner in H. by rewrite Hv in H.
Qed.

(** The plaintext a reader gets of a file *)
Definition plaintext_of (sr : SealRun) (row : option StateFileRow) : result StateFileError (option string) :=
  match row with
  | Some row => fst <$> read_body sr row
  | None => Ok None
  end.

Lemma read_body_sealed sr row p c s :
  c = state_file_context (sf_owner_id row) (sf_instance_id row) (sf_namespace row) (sf_path row) ->
  sf_deleted_at row = None -> sf_body row = Some s -> is_v2_envelope s = true ->
  (exists k n, open_context c s = Ok (mkOpened p k n false false)) ->
  read_body sr row = Ok (Some p, None).
Proof.
  intros -> Hd Hb Hv (k & n & Ho). unfold read_body. rewrite Hd, Hb, Hv, andb_false_r, Ho. done.
Qed.
End theorems.

(** C20. What a sandbox mirrors is what is replayed: a successful ingest either
    keeps a longer live chat file in place of a placeholder and changes nothing,
    or leaves a row whose sealed body reads back as exactly the bytes sent;
    every other file of every instance is untouched. *)
Theorem ingest_reads_back {dir : CipherDirectory} {codec : EnvelopeCodec}
    `{!CipherDirectoryOk dir, !EnvelopeCodecOk codec}
    (sr sr' : SealRun) (now : Z) (meta : StateFileMeta) (body : string) (db db' : StateDb)
    (row : StateFileRow) (Hok : ingest sr now meta body db = (db', Ok row)) :
  file_find (sm_instance_id meta) (sm_namespace meta) (sm_path meta) db' = Some row /\
  match preserve_existing_chat_row meta body db with
  | Some _ => db' = db /\ is_placeholder_chat_state (sm_namespace meta) (sm_path meta) body = true /\
              sf_deleted_at row = None /\ body_len body < sf_bytes row
  | None => sf_owner_id row = sm_owner_id meta /\ read_body sr' row = Ok (Some body, None)
  end /\
  forall i n p, (i, n, p) <> (sm_instance_id meta, sm_namespace meta, sm_path meta) ->
    file_find i n p db' = file_find i n p db.
Proof.
  unfold ingest, mbind, svc_bind, lift, gets in Hok.
  destruct (validate_instance_id _) as [[]|]; [|done].
  destruct (validate_state_file_path _ _) as [[]|]; [|done].
  destruct (validate_body _ _ _) as [[]|]; [|done].
  destruct (preserve_existing_chat_row meta body db) as [existing|] eqn:Hp.
  - apply pair_equal_spec in Hok as [<- Hr]. apply Ok_inj in Hr as <-.
    unfold preserve_existing_chat_row in Hp. destruct (is_placeholder_chat_state _ _ _); [|done].
    cbn [negb] in Hp. destruct (file_find _ _ _ db) as [e|]; [|done].
    destruct (_ && _) eqn:E; [|done]. apply Some_inj in Hp as <-. to_prop. by split_and!.
  - destruct (map_err _ _) as [s|] eqn:Hs; [|done]. apply map_err_ok in Hs.
    apply (sealed_body_opens _ _ body None) in Hs as [Hv Ho].
    unfold row_upsert, write_and_find, mbind, svc_bind, modify, gets, lift in Hok.
    match type of Hok with context [write_row ?r db] => set (new := r) in * end.
    destruct (write_row_find new db) as [id Hf]. rewrite Hf in Hok. cbn [ok_or] in Hok.
    apply pair_equal_spec in Hok as [<- Hr]. apply Ok_inj in Hr as <-. split; [exact Hf|]. split.
    + split; [done|]. eapply read_body_sealed; [reflexivity|done|reflexivity|done|exact Ho].
    + intros i n p Hne. by apply write_row_other.
Qed.

(** A late rewrap never loses an update: the re-sealing task a read spawns
    may run at any later time; it changes no file's contents, because it swaps
    the ciphertext only where it is still the one that was read. *)
Theorem late_rewrap_harmless {dir : CipherDirectory} {codec : EnvelopeCodec}
    `{!CipherDirectoryOk dir, !EnvelopeCodecOk codec}
    (sr sr' : SealRun) (row : StateFileRow) (p : option string) (task : RewrapTask) (db : StateDb)
    (i n path : string)
    (Hread : read_body sr row = Ok (p, Some task))
    (Hsame : forall r, r ∈ sd_rows db -> sf_id r = sf_id row ->
       sf_owner_id r = sf_owner_id row /\ sf_instance_id r = sf_instance_id row /\
       sf_namespace r = sf_namespace row /\ sf_path r = sf_path row) :
  plaintext_of sr' (file_find i n path (run_rewrap task db)) = plaintext_of sr' (file_find i n path db).
Proof.
  unfold read_body in Hread. destruct (sf_deleted_at row); [done|].
  destruct (sf_body row) as [bytes|]; [|done]. destruct (_ && _) eqn:Hsealed; [done|].
  destruct (open_context _ bytes) as [o|] eqn:Ho; [|done]. cbn [map_err mbind result_bind] in Hread.
  apply Ok_inj in Hread. apply pair_equal_spec in Hread as [_ Htask].
  destruct (op_needs_rewrap o); [|done].
  destruct (rewrap_context _ _ _) as [next|] eqn:Hn; [|done]. apply Some_inj in Htask as <-.
  apply (sealed_body_opens _ _ (op_plaintext o)) in Hn as [Hv Hnext].
  unfold run_rewrap, rewrap_body, file_find, select_one. cbn [fst sd_rows rw_id rw_previous rw_next].
  rewrite select_update by done.
  destruct (select (has_key i n path) (sd_rows db)) as [|r t] eqn:Es; [done|]. cbn [update map head].
  destruct ((sf_id r =? sf_id row) && bool_decide (sf_body r = Some bytes)) eqn:E; [|done]. to_prop.
  assert (r ∈ sd_rows db) as Hr.
  { apply (elem_of_select (has_key i n path)). rewrite Es. set_solver. }
  destruct (Hsame r Hr) as (Ho' & Hi & Hns & Hpa); [done|]. cbn [plaintext_of].
  unfold read_body. cbn [sf_deleted_at sf_body sf_owner_id sf_instance_id sf_namespace sf_path].
  destruct (sf_deleted_at r); [done|].
  match goal with H : sf_body r = Some bytes |- _ => rewrite H end.
  rewrite Hsealed, Hv, andb_false_r, Ho', Hi, Hns, Hpa, Ho.
  destruct Hnext as (k & m & ->). done.
Qed.

(** A tombstone removes the body for good: the file reads as absent and no
    ciphertext of it is left, and no other file is touched. *)
Theorem tombstone_erases {dir : CipherDirectory} {codec : EnvelopeCodec}
    (now : Z) (meta : StateFileMeta) (db db' : StateDb) (row : StateFileRow) (sr : SealRun)
    (Hok : tombstone now meta db = (db', Ok row)) :
  file_find (sm_instance_id meta) (sm_namespace meta) (sm_path meta) db' = Some row /\
  sf_body row = None /\ read_body sr row = Ok (None, None) /\
  forall i n p, (i, n, p) <> (sm_instance_id meta, sm_namespace meta, sm_path meta) ->
    file_find i n p db' = file_find i n p db.
Proof.
  unfold tombstone, mbind, svc_bind, lift in Hok.
  destruct (validate_instance_id _) as [[]|]; [|done].
  destruct (validate_state_file_path _ _) as [[]|]; [|done].
  unfold row_tombstone, write_and_find, mbind, svc_bind, modify, gets, lift in Hok.
  match type of Hok with context [write_row ?r db] => set (new := r) in * end.
  destruct (write_row_find new db) as [id Hf]. rewrite Hf in Hok. cbn [ok_or] in Hok.
  apply pair_equal_spec in Hok as [<- Hr]. apply Ok_inj in Hr as <-.
  split; [exact Hf|]. split_and!; try done. intros i n p Hne. by apply write_row_other.
Qed.

(** An accepted file of an owner with a key is always stored. *)
Lemma ingest_succeeds {dir : CipherDirectory} {codec : EnvelopeCodec}
    `{!CipherDirectoryOk dir, !EnvelopeCodecOk codec} sr now meta body db v :
  validate_instance_id (sm_instance_id meta) = Ok tt ->
  validate_state_file_path (sm_namespace meta) (sm_path meta) = Ok tt ->
  validate_body (sm_namespace meta) (sm_path meta) body = Ok tt ->
  for_context (state_file_context (sm_owner_id meta) (sm_instance_id meta) (sm_namespace meta)
                 (sm_path meta)) = Ok v ->
  exists db' row, ingest sr now meta body db = (db', Ok row).
Proof.
  intros H1 H2 H3 Hv. unfold ingest, mbind, svc_bind, lift, gets. rewrite H1, H2, H3.
  destruct (preserve_existing_chat_row _ _ _); [by eexists _, _|].
  destruct (open_seal_inner sr _ body None v Hv) as (s & Hs & _). unfold seal_context. rewrite Hs.
  cbn [map_err]. unfold row_upsert, write_and_find, mbind, svc_bind, modify, gets, lift.
  match goal with |- context [write_row ?r db] => destruct (write_row_find r db) as [id Hf] end.
  rewrite Hf. by eexists _, _.
Qed.

(** ** Examples *)

Section examples.
#[local] Existing Instance toy_directory.
#[local] Existing Instance toy_codec.
#[local] Existing Instance toy_directory_ok.
#[local] Existing Instance toy_codec_ok.

Definition example_meta (path : string) : StateFileMeta := mkMeta "i" "a" "workspace" path None 7.
Definition empty_files : StateDb := mkStateDb [] 1.

Lemma mirrored_path_stays_inside_witness :
  is_absolute "memory/./x.md" = false /\ validate_state_file_path "workspace" "memory/./x.md" = Ok tt.
Proof.
  destruct (mirrored_path_stays_inside "workspace" "memory/./x.md") as [H _]; [reflexivity|].
  split; [exact H|reflexivity].
Defined.

Lemma example_ingest :
  exists db' row, ingest (mkSealRun 5 "r") 9 (example_meta "MEMORY.md") "hello" empty_files = (db', Ok row).
Proof. eapply ingest_succeeds; reflexivity. Qed.

Lemma ingest_reads_back_witness :
  exists db' row, ingest (mkSealRun 5 "r") 9 (example_meta "MEMORY.md") "hello" empty_files = (db', Ok row) /\
    read_body (mkSealRun 6 "r") row = Ok (Some "hello", None).
Proof.
  destruct example_ingest as (db' & row & H). exists db', row. split; [exact H|].
  destruct (ingest_reads_back (mkSealRun 5 "r") (mkSealRun 6 "r") 9 (example_meta "MEMORY.md") "hello"
              empty_files db' row H) as (_ & [_ Hr] & _).
  exact Hr.
Defined.

Lemma tombstone_erases_witness :
  exists db' row, tombstone 9 (example_meta "MEMORY.md") empty_files = (db', Ok row) /\ sf_body row = None.
Proof.
  assert (exists db' row, tombstone 9 (example_meta "MEMORY.md") empty_files = (db', Ok row))
    as (db' & row & H) by (eexists _, _; reflexivity).
  exists db', row. split; [exact H|].
  destruct (tombstone_erases 9 (example_meta "MEMORY.md") empty_files db' row (mkSealRun 6 "r") H)
    as (_ & Hb & _). exact Hb.
Defined.

(** A body sealed under a retired key *)
Definition old_context : KmsContext := state_file_context "a" "i" "workspace" "MEMORY.md".
Definition old_envelope : KmsEnvelope :=
  mkEnvelope 2 KMS_V2_ALG StateFile (Some "a") (Some "i") (Some "workspace:MEMORY.md") "old" 1 0 None None
    (to_text ("old", to_text (mkPlaintext old_context (to_text "hello")))).
Definition old_row : StateFileRow :=
  mkStateFile 1 "i" "a" "workspace" "MEMORY.md" None 5 (Some (to_text old_envelope)) 0 0 None.

Lemma old_row_read :
  exists task, read_body (mkSealRun 5 "r") old_row = Ok (Some "hello", Some task).
Proof.
  assert (open_context old_context (to_text old_envelope) = Ok (mkOpened "hello" "old" 1 false true)) as Ho.
  { unfold open_context. cbn [env_from_slice toy_codec]. rewrite of_to_text.
    change (ev_version old_envelope =? 2) with true. cbn match. unfold open_v2.
    change (ev_algorithm old_envelope =? KMS_V2_ALG)%string with true. cbn [negb].
    rewrite bool_decide_eq_false_2 by (intros H; by apply H).
    change (for_key_id (ev_key_id old_envelope) (ev_key_version old_envelope)) with
      (@Ok EnvelopeError EnvelopeCipher (toy_cipher "old")).
    cbn [mbind result_bind cipher_open toy_cipher ev_ciphertext old_envelope]. rewrite of_to_text.
    cbn [String.eqb Ascii.eqb Bool.eqb]. cbn [mbind result_bind plain_from_slice toy_codec].
    rewrite of_to_text. cbn [ok_or map_err mbind result_bind pl_context].
    rewrite bool_decide_eq_false_2 by auto. cbn [pl_secret_b64 b64_decode toy_codec].
    rewrite of_to_text. reflexivity. }
  assert (is_v2_envelope (to_text old_envelope) = true) as Hv.
  { unfold is_v2_envelope. cbn [env_from_slice toy_codec]. by rewrite of_to_text. }
  assert (for_context old_context = Ok (mkVersioned "a" 1 (toy_cipher "a"))) as Hc by reflexivity.
  destruct (open_seal_inner (mkSealRun 5 "r") old_context "hello" (Some 5) _ Hc) as (next & Hn & _).
  exists (mkRewrap 1 (to_text old_envelope) next).
  unfold read_body. cbn [sf_deleted_at sf_body old_row sf_owner_id sf_instance_id sf_namespace sf_path].
  change (state_file_context "a" "i" "workspace" "MEMORY.md") with old_context.
  rewrite Hv, andb_false_r, Ho. cbn [map_err mbind result_bind op_needs_rewrap op_plaintext].
  unfold rewrap_context. cbn [sr_now]. rewrite Hn. reflexivity.
Qed.

Lemma late_rewrap_harmless_witness :
  exists task, plaintext_of (mkSealRun 6 "r")
      (file_find "i" "workspace" "MEMORY.md" (run_rewrap task (mkStateDb [old_row] 2))) =
    plaintext_of (mkSealRun 6 "r") (file_find "i" "workspace" "MEMORY.md" (mkStateDb [old_row] 2)).
Proof.
  destruct old_row_read as [task Ht]. exists task.
  apply (late_rewrap_harmless (mkSealRun 5 "r") (mkSealRun 6 "r") old_row (Some "hello")).
  - exact Ht.
  - cbn [sd_rows]. intros r Hr _. apply list_elem_of_singleton in Hr as ->.
    split; [reflexivity|]. split; [reflexivity|]. split; reflexivity.
Defined.
End examples.
