(* ===== verification/StateIngest.v ===== *)
(** * State-file ingest

    Models [ingest_file] of [crates/swarm/src/http/internal_state.rs]: the
    handler a sandbox mirrors its files through, with its token check, the
    fence against sandboxes of an older generation, and the mirroring of
    IDENTITY.md into the instance row.  serde, base64 and header decoding are
    parameters. *)

From Stdlib Require Import ZArith Ascii Lia.
From stdpp Require Import base list strings gmap option.
From S2P Require Import Prelude RustStr RustHttp Codec Store NetworkPolicy Traits Envelope.
From S2P Require Import InstanceStore TokenStore StateFiles.

Local Open Scope string_scope.
Local Open Scope list_scope.
Local Open Scope Z_scope.

(** ** IDENTITY.md *)

Definition cr : ascii := RustStr.b 13.
Definition lf : ascii := RustStr.b 10.

(** [str::lines]: a last empty line and carriage returns before the line feed
    are dropped. *)
Definition strip_cr (s : string) : string :=
  default s (RustStr.strip_suffix (String cr EmptyString) s).
Fixpoint drop_last_empty (l : list string) : list string :=
  match l with
  | [] => []
  | [s] => if is_empty s then [] else [s]
  | s :: l => strip_cr s :: drop_last_empty l
  end.
Definition lines (s : string) : list string := drop_last_empty (split lf s).

Fixpoint find_map {A B} (f : A -> option B) (l : list A) : option B :=
  match l with
  | [] => None
  | x :: l => match f x with Some y => Some y | None => find_map f l end
  end.

(** [identity_name_line] *)
Definition identity_name_line (line : string) : option string :=
  let line := trim line in
  match RustStr.strip_prefix "Name:" line with
  | Some rest => Some rest
  | None => RustStr.strip_prefix "**Name:**" (default line (RustStr.strip_prefix "- " line))
  end.

(** [identity_name] *)
Definition identity_name (body : string) : option string :=
  match find_map identity_name_line (lines body) with
  | Some s => if is_empty (trim s) then None else Some (trim s)
  | None => None
  end.

(** [is_bootstrap_identity] *)
Definition is_bootstrap_identity (body : string) : bool :=
  bool_decide (identity_name body = Some "Dyson")
  && contains_str "Powered by:" body && contains_str "Dyson agent framework" body
  && contains_str "Update this file with your specific identity" body.

(** [has_curated_identity] *)
Definition has_curated_identity (name task : string) : bool :=
  (negb (is_empty (trim name)) && negb (trim name =? "Dyson")%string)
  || (negb (is_empty (trim task)) && negb (is_bootstrap_identity (trim task))).

(** [should_mirror_identity] *)
Definition should_mirror_identity (existing_name existing_task incoming_task : string) : bool :=
  negb (is_bootstrap_identity incoming_task && has_curated_identity existing_name existing_task).

(** [is_workspace_identity] *)
Definition is_workspace_identity (namespace path : string) : bool :=
  (namespace =? "workspace")%string && (path =? "IDENTITY.md")%string.

(** ** The handler *)

(** [StateFileRequest] *)
Record StateFileRequest : Type := mkStateRequest {
  sq_namespace : string;
  sq_path : string;
  sq_mime : option string;
  sq_updated_at : Z;
  sq_deleted : bool;
  sq_body_b64 : option string
}.

(** An HTTP request: its headers, and its body unless reading it failed *)
Record IngestRequest : Type := mkIngest { iq_headers : headers; iq_body : option string }.

Class IngestLib : Type := {
  ingest_to_str : string -> option string;
  request_from_slice : string -> option StateFileRequest
}.

(** The tables the handler works on *)
Record IngestWorld : Type := mkIngestWorld { iw_tokens : TokenWorld; iw_files : StateDb }.

Definition MAX_STATE_BODY : Z := 25 * 1024 * 1024.
Definition STATE_TOKEN_PREFIX : string := "st_".

(** [extract_bearer] *)
Definition state_bearer {lib : IngestLib} (hs : headers) : option string :=
  raw ← header_get "authorization" hs;
  raw ← ingest_to_str raw;
  let raw := trim raw in
  rest ← match RustStr.strip_prefix "Bearer " raw with
         | Some r => Some r
         | None => RustStr.strip_prefix "bearer " raw
         end;
  if is_empty (trim rest) then None else Some (trim rest).

Section handler.
Context {lib : IngestLib} {dir : CipherDirectory} {codec : EnvelopeCodec} {th : TokenHash}.
Context (cipher : EnvelopeCipher).

(** An early return is an [Err] with the status code. *)
Abbreviation handler := (svc IngestWorld Z).

Definition on_tokens {A} (m : svc TokenWorld StoreError A) : svc IngestWorld StoreError A := fun w =>
  let '(t, r) := m (iw_tokens w) in (mkIngestWorld t (iw_files w), r).
Definition on_files {A} (m : svc StateDb StateFileError A) : svc IngestWorld StateFileError A := fun w =>
  let '(f, r) := m (iw_files w) in (mkIngestWorld (iw_tokens w) f, r).

(** [InstanceService::mirror_identity_from_instance] *)
Definition mirror_identity (owner_id id name task : string) : svc IngestWorld StoreError unit := fun w =>
  let tw := iw_tokens w in
  let '(t, r) := update_identity owner_id id name task (tw_instances tw) in
  (mkIngestWorld (mkTokenWorld (tw_tokens tw) t) (iw_files w),
   _ ← r; _ ← ok_or NotFound (instance_get_for_owner owner_id id t); Ok tt).

(** The decision on an incoming IDENTITY.md: [None] to stop with 204, otherwise
    its text when it is one *)
Definition identity_text (is_identity : bool) (inst : InstanceRow) (decoded : string) :
  option (option string) :=
  if negb is_identity then Some None
  else match from_utf8 decoded with
       | Some s => if should_mirror_identity (ir_name inst) (ir_task inst) s then Some (Some s) else None
       | None => Some None
       end.

(** The write, and what it leaves for the identity mirror *)
Definition store_file (sr : SealRun) (now : Z) (inst : InstanceRow) (meta : StateFileMeta)
    (is_identity : bool) (body : StateFileRequest) :
  svc IngestWorld Z (result StateFileError StateFileRow * option string) :=
  if sq_deleted body then
    r ← attempt (on_files (tombstone now meta));
    mret (r, None)
  else
    encoded ← lift (ok_or 400 (sq_body_b64 body));
    decoded ← lift (map_err (fun _ => 400) (b64_decode encoded));
    identity_body ← lift (ok_or 204 (identity_text is_identity inst decoded));
    r ← attempt (on_files (ingest sr now meta decoded));
    mret (r, identity_body).

(** What follows a successful write *)
Definition mirror_after (inst : InstanceRow) (is_identity deleted : bool)
    (identity_body : option string) : handler Z :=
  if negb is_identity then mret 204
  else match (if deleted then Some "" else identity_body) with
       | None => mret 204
       | Some task =>
           if should_mirror_identity (ir_name inst) (ir_task inst) task then
             _ ← with_err (fun _ => 500)
                   (mirror_identity (ir_owner_id inst) (ir_id inst)
                      (default (ir_name inst) (identity_name task)) task);
             mret 204
           else mret 204
       end.

(** The token, its instance and the generation fence *)
Definition ingest_auth (run : TokenRun) (req : IngestRequest) : handler InstanceRow :=
  bearer ← lift (ok_or 401 (state_bearer (iq_headers req)));
  _ ← lift (if starts_with STATE_TOKEN_PREFIX bearer then Ok tt else Err 401);
  token_record ← with_err (fun _ => 500) (on_tokens (token_resolve cipher (Some dir) run bearer));
  token_record ← lift (ok_or 401 token_record);
  inst ← gets (fun w => instance_get (tr_instance_id token_record) (tw_instances (iw_tokens w)));
  inst ← lift (ok_or 404 inst);
  _ ← lift (if state_sync_provider_matches (tr_provider token_record) (ir_state_generation inst)
            then Ok tt else Err 401);
  mret inst.

(** The rest of the handler, for the instance of the token *)
Definition ingest_body (sr : SealRun) (now : Z) (req : IngestRequest) (inst : InstanceRow) : handler Z :=
  bytes ← lift (ok_or 413 (iq_body req));
  _ ← lift (if len bytes <=? MAX_STATE_BODY then Ok tt else Err 413);
  body ← lift (ok_or 400 (request_from_slice bytes));
  let meta := mkMeta (ir_id inst) (ir_owner_id inst) (sq_namespace body) (sq_path body)
                (sq_mime body) (sq_updated_at body) in
  let is_identity := is_workspace_identity (sq_namespace body) (sq_path body) in
  stored ← store_file sr now inst meta is_identity body;
  match stored.1 with
  | Ok _ => mirror_after inst is_identity (sq_deleted body) stored.2
  | Err (SfInvalid _) => throw 400
  | Err _ => throw 500
  end.

(** [ingest_file] *)
Definition ingest_file (run : TokenRun) (sr : SealRun) (now : Z) (req : IngestRequest) : handler Z :=
  inst ← ingest_auth run req;
  ingest_body sr now req inst.
End handler.

(** ** What a call can touch *)

Lemma ingest_other {dir : CipherDirectory} {codec : EnvelopeCodec} sr now meta body db i n p :
  i <> sm_instance_id meta -> file_find i n p (ingest sr now meta body db).1 = file_find i n p db.
Proof.
  intros Hne. unfold ingest, mbind, svc_bind, lift, gets.
  destruct (validate_instance_id _) as [[]|]; [|done].
  destruct (validate_state_file_path _ _) as [[]|]; [|done].
  destruct (validate_body _ _ _) as [[]|]; [|done].
  destruct (preserve_existing_chat_row _ _ _); [done|].
  destruct (map_err _ _) as [s|]; [|done].
  unfold row_upsert, write_and_find, mbind, svc_bind, modify, gets, lift. cbn [fst].
  apply write_row_other. cbn. congruence.
Qed.

Lemma tombstone_other now meta db i n p :
  i <> sm_instance_id meta -> file_find i n p (tombstone now meta db).1 = file_find i n p db.
Proof.
  intros Hne. unfold tombstone, mbind, svc_bind, lift.
  destruct (validate_instance_id _) as [[]|]; [|done].
  destruct (validate_state_file_path _ _) as [[]|]; [|done].
  unfold row_tombstone, write_and_find, mbind, svc_bind, modify, gets, lift. cbn [fst].
  apply write_row_other. cbn. congruence.
Qed.

Lemma update_identity_other o id n t tbl id' :
  id' <> id -> instance_get id' (update_identity o id n t tbl).1 = instance_get id' tbl.
Proof.
  intros Hne. unfold update_identity, update_found. destruct (Nat.eqb _ 0); [done|]. cbn [fst].
  unfold instance_get, select_one. f_equal. apply select_update_other; intros r Hr; unfold by_id in *;
    cbn [ir_id]; to_prop; apply String.eqb_neq; congruence.
Qed.

(** The two tables a write of one instance may change *)
Definition confined (id : string) (w w' : IngestWorld) : Prop :=
  (forall i n p, i <> id -> file_find i n p (iw_files w') = file_find i n p (iw_files w)) /\
  (forall i, i <> id -> instance_get i (tw_instances (iw_tokens w')) =
                        instance_get i (tw_instances (iw_tokens w))).

Lemma confined_refl id w : confined id w w.
Proof. by split. Qed.

Lemma confined_trans id w1 w2 w3 : confined id w1 w2 -> confined id w2 w3 -> confined id w1 w3.
Proof. intros [F1 I1] [F2 I2]. split; intros; [rewrite F2, F1|rewrite I2, I1]; done. Qed.

Section confinement.
Context {lib : IngestLib} {dir : CipherDirectory} {codec : EnvelopeCodec} {th : TokenHash}.
Context (cipher : EnvelopeCipher).

Lemma store_file_confined sr now inst meta is_id body w :
  sm_instance_id meta = ir_id inst ->
  confined (ir_id inst) w (store_file sr now inst meta is_id body w).1.
Proof.
  intros Hm. unfold store_file, mbind, svc_bind, lift, attempt, on_files.
  destruct (sq_deleted body).
  - pose proof (tombstone_other now meta (iw_files w)) as Ht. rewrite Hm in Ht.
    destruct (tombstone now meta (iw_files w)) as [f r]. split; cbn; auto.
  - destruct (sq_body_b64 body) as [e|]; [|apply confined_refl]. cbn [ok_or].
    destruct (b64_decode e) as [d|]; [|apply confined_refl]. cbn [map_err].
    destruct (identity_text is_id inst d) as [ib|]; [|apply confined_refl]. cbn [ok_or].
    pose proof (ingest_other sr now meta d (iw_files w)) as Ht. rewrite Hm in Ht.
    destruct (ingest sr now meta d (iw_files w)) as [f r]. split; cbn; auto.
Qed.

Lemma mirror_after_confined inst is_id del ib w :
  confined (ir_id inst) w (mirror_after inst is_id del ib w).1.
Proof.
  unfold mirror_after. destruct (negb is_id); [apply confined_refl|].
  destruct (if del then _ else _) as [task|]; [|apply confined_refl].
  destruct (should_mirror_identity _ _ _); [|apply confined_refl].
  unfold mbind, svc_bind, with_err, mirror_identity.
  pose proof (update_identity_other (ir_owner_id inst) (ir_id inst)
    (default (ir_name inst) (identity_name task)) task (tw_instances (iw_tokens w))) as Hu.
  destruct (update_identity _ _ _ _ _) as [t r]. cbn [fst] in Hu.
  match goal with |- context [map_err _ ?m] => destruct m end; (split; [done|]); cbn; exact Hu.
Qed.

Lemma ingest_body_confined sr now req inst w :
  confined (ir_id inst) w (ingest_body sr now req inst w).1.
Proof.
  unfold ingest_body, mbind, svc_bind, lift.
  destruct (iq_body req) as [bytes|]; [|apply confined_refl]. cbn [ok_or].
  destruct (len bytes <=? _); [|apply confined_refl].
  destruct (request_from_slice bytes) as [body|]; [|apply confined_refl]. cbn [ok_or].
  match goal with |- context [store_file ?sr ?now ?i ?m ?b ?q ?w] =>
    pose proof (store_file_confined sr now i m b q w eq_refl) as Hs;
    destruct (store_file sr now i m b q w) as [w2 [[r ib]|e]] end; [|exact Hs].
  cbn [fst snd] in *. destruct r as [row|[]]; [|exact Hs..].
  eapply confined_trans; [exact Hs|]. apply mirror_after_confined.
Qed.

Lemma token_resolve_instances run t tw :
  tw_instances (token_resolve cipher (Some dir) run t tw).1 = tw_instances tw.
Proof. by destruct (resolve_quiet cipher (Some dir) (TkResolve run t) run t tw). Qed.

(** The outcome of the token check *)
Lemma ingest_auth_spec run req w :
  let '(w', r) := ingest_auth cipher run req w in
  iw_files w' = iw_files w /\ tw_instances (iw_tokens w') = tw_instances (iw_tokens w) /\
  forall inst, r = Ok inst ->
    exists bearer rec, state_bearer (iq_headers req) = Some bearer /\
      starts_with STATE_TOKEN_PREFIX bearer = true /\
      (token_resolve cipher (Some dir) run bearer (iw_tokens w)).2 = Ok (Some rec) /\
      instance_get (tr_instance_id rec) (tw_instances (iw_tokens w)) = Some inst /\
      state_sync_provider_matches (tr_provider rec) (ir_state_generation inst) = true.
Proof.
  unfold ingest_auth, mbind, svc_bind, lift, with_err, on_tokens, gets.
  destruct (state_bearer _) as [bearer|]; [|done]. cbn [ok_or].
  destruct (starts_with _ bearer) eqn:Hp; [|done].
  pose proof (token_resolve_instances run bearer (iw_tokens w)) as Hi.
  destruct (token_resolve _ _ run bearer (iw_tokens w)) as [tw r] eqn:Hr. cbn [fst] in Hi.
  destruct r as [[rec|]|]; cbn [map_err ok_or]; [|done..]. cbn [iw_tokens].
  rewrite Hi. destruct (instance_get _ _) as [i|] eqn:Hg; cbn [ok_or]; [|done].
  destruct (state_sync_provider_matches _ _) eqn:Hs; [|done].
  split; [done|]. split; [done|]. intros inst Heq. apply Ok_inj in Heq as <-.
  exists bearer, rec. by rewrite Hr.
Qed.
End confinement.

(** C19. A sandbox writes only its own state: a call of the ingest route either
    changes no file and no instance, or it presented a live state token whose
    provider names the current generation of its instance, and then no file of
    any other instance and no other instance row changes. *)
Theorem ingest_file_confined {lib : IngestLib} {dir : CipherDirectory} {codec : EnvelopeCodec}
    {th : TokenHash} (cipher : EnvelopeCipher) (run : TokenRun) (sr : SealRun) (now : Z)
    (req : IngestRequest) (w : IngestWorld) :
  let w' := (ingest_file cipher run sr now req w).1 in
  (iw_files w' = iw_files w /\ tw_instances (iw_tokens w') = tw_instances (iw_tokens w)) \/
  exists bearer rec inst,
    state_bearer (iq_headers req) = Some bearer /\ starts_with STATE_TOKEN_PREFIX bearer = true /\
    (token_resolve cipher (Some dir) run bearer (iw_tokens w)).2 = Ok (Some rec) /\
    instance_get (tr_instance_id rec) (tw_instances (iw_tokens w)) = Some inst /\
    state_sync_provider_matches (tr_provider rec) (ir_state_generation inst) = true /\
    confined (ir_id inst) w w'.
Proof.
  cbn zeta. pose proof (ingest_auth_spec cipher run req w) as Ha. unfold ingest_file, mbind, svc_bind.
  destruct (ingest_auth cipher run req w) as [w1 [inst|e]] eqn:E;
    [|left; destruct Ha as (Hf & Hi & _); split; [exact Hf|exact Hi]].
  destruct Ha as (Hf & Hi & Hok). destruct (Hok inst eq_refl) as (bearer & rec & H1 & H2 & H3 & H4 & H5).
  right. exists bearer, rec, inst. split_and!; [done..|].
  eapply confined_trans; [|apply ingest_body_confined]. split; intros; by rewrite ?Hf, ?Hi.
Qed.

Lemma instance_owner_replace id s g k pol cidrs now tw i :
  instance_owner_id i (mkTokenWorld (tw_tokens tw)
    (replace_cube_sandbox id s g k pol cidrs now (tw_instances tw)).1) = instance_owner_id i tw.
Proof.
  unfold instance_owner_id, replace_cube_sandbox, update_found. cbn [tw_instances].
  destruct (Nat.eqb _ 0); [done|]. cbn [fst]. unfold instance_get, select_one.
  rewrite select_update by done. destruct (select _ (tw_instances tw)) as [|r t]; [done|].
  cbn. by destruct (by_id id r).
Qed.

Lemma generation_replace id s g k pol cidrs now t inst :
  instance_get id (replace_cube_sandbox id s g k pol cidrs now t).1 = Some inst ->
  ir_state_generation inst = g.
Proof.
  unfold replace_cube_sandbox, update_found. destruct (Nat.eqb _ 0) eqn:E; cbn [fst]; intros H.
  - apply Nat.eqb_eq in E. rewrite affected_zero in E. apply select_one_some in H as [Hi Hb].
    by rewrite E in Hb.
  - apply select_one_some in H as [Hi Hb]. apply elem_of_update in Hi as (r & _ & ->).
    destruct (by_id id r) eqn:Er; [done|]. by rewrite Er in Hb.
Qed.

(** C18. Rotation fences off the old sandbox: once an instance has been moved to
    a new generation, the state token of the old one is refused with 401 and
    nothing changes, even though the token itself was never revoked. *)
Theorem rotation_fences_old_sandbox {lib : IngestLib} {dir : CipherDirectory} {codec : EnvelopeCodec}
    {th : TokenHash} `{!CipherDirectoryOk dir, !EnvelopeCodecOk codec} (cipher : EnvelopeCipher)
    (trun trun' : TokenRun) (sr : SealRun) (now : Z) (req : IngestRequest) (files : StateDb)
    (id g g' sandbox template token : string) (pol : NetworkPolicy) (cidrs : list string) (now' : Z)
    (tw tw1 : TokenWorld) (ops : list TokenOp)
    (Hmint : mint_state_sync_for_generation cipher (Some dir) trun id g tw = (tw1, Ok token))
    (Hutf : from_utf8 token = Some token)
    (Hnew : token_lookup_key token ∉ map tk_lookup (tw_tokens tw)) (Hwf : tokens_wf tw)
    (Hfresh : fresh_runs cipher (Some dir) ops tw1) (Hspares : Forall (spares token id) ops)
    (Hinst : is_Some (instance_get id (tw_instances tw)))
    (Hgen : state_sync_provider g <> state_sync_provider (trim g'))
    (Hbearer : state_bearer (iq_headers req) = Some token) :
  let tw2 := token_runs cipher (Some dir) ops tw1 in
  let rotated := (replace_cube_sandbox id sandbox g' template pol cidrs now' (tw_instances tw2)).1 in
  let w := mkIngestWorld (mkTokenWorld (tw_tokens tw2) rotated) files in
  ingest_file cipher trun' sr now req w = (w, Err 401).
Proof.
  intros tw2 rotated w.
  assert (held cipher (Some dir) token id (state_sync_provider g) (iw_tokens w)) as Hheld.
  { apply (held_same_owner cipher (Some dir) token id _ tw2 (iw_tokens w));
      [reflexivity|apply instance_owner_replace|].
    apply token_runs_held; [done..|]. by eapply mint_held. }
  destruct (held_resolves cipher (Some dir) token id (state_sync_provider g) trun' (iw_tokens w) Hheld)
    as (rec & Hres & _ & Hid & Hprov & _).
  assert (starts_with STATE_TOKEN_PREFIX token = true) as Hpre.
  { apply mint_token in Hmint as ->. apply starts_with_app. by eexists. }
  assert (exists inst, instance_get id rotated = Some inst) as [inst Hi].
  { pose proof (instance_owner_replace id sandbox g' template pol cidrs now' tw2 id) as Ho.
    unfold instance_owner_id in Ho. cbn [tw_instances] in Ho. fold rotated in Ho.
    assert (tw_instances tw2 = tw_instances tw) as Hs.
    { unfold tw2. rewrite token_runs_instances. by eapply mint_instances. }
    rewrite Hs in Ho. destruct Hinst as [i0 Hi0]. rewrite Hi0 in Ho.
    destruct (instance_get id rotated) as [inst|]; [eauto|done]. }
  unfold ingest_file, ingest_auth, mbind, svc_bind, lift, with_err, on_tokens, gets.
  rewrite Hbearer. cbn [ok_or]. rewrite Hpre, Hres. cbn [map_err ok_or iw_tokens iw_files w tw_instances].
  rewrite Hid, Hi. cbn [ok_or]. rewrite (generation_replace _ _ _ _ _ _ _ _ _ Hi), Hprov.
  assert (state_sync_provider_matches (state_sync_provider g) g' = false) as ->; [|done].
  unfold state_sync_provider_matches. destruct (is_empty _); [done|]. by apply String.eqb_neq.
Qed.

(** ** Examples *)

Section examples.
#[local] Existing Instance toy_directory.
#[local] Existing Instance toy_codec.
#[local] Existing Instance toy_directory_ok.
#[local] Existing Instance toy_codec_ok.
#[local] Existing Instance toy_hash.

Definition toy_ingest : IngestLib := {|
  ingest_to_str := Some;
  request_from_slice s := Some (mkStateRequest "workspace" "MEMORY.md" None 7 false (Some s))
|}.
#[local] Existing Instance toy_ingest.

Definition identity_md : string :=
  "# Identity" +:+ String lf "- **Name:** TARS " +:+ String lf EmptyString.

Example identity_name_example : identity_name identity_md = Some "TARS".
Proof. reflexivity. Qed.

Lemma rotation_fences_old_sandbox_witness :
  exists w, ingest_file (toy_cipher "k") (example_token_run "") (mkSealRun 6 "r") 9
      (mkIngest [("authorization", "Bearer st_u9")] (Some "x")) w = (w, Err 401) /\
    tw_tokens (iw_tokens w) <> [].
Proof.
  assert (exists s, mint_state_sync_for_generation (toy_cipher "k") (Some toy_directory)
      (example_token_run "u9") "i" "g1" example_tokens =
    (mkTokenWorld [mkTokenRow s "#st_u9" "i" "state_sync:g1" 100 None None] (tw_instances example_tokens),
     Ok "st_u9")) as [s Hs].
  { assert (for_context (token_context "i" (Some "a") "state_sync:g1") =
            Ok (mkVersioned "system" 1 (toy_cipher "system"))) as Hv by reflexivity.
    destruct (open_seal_inner (mkSealRun 5 "r") _ "st_u9" None _ Hv) as (s & Hs & Hu & _).
    exists s. unfold mint_state_sync_for_generation, mint_with_prefix, mbind, svc_bind, gets, lift,
      seal_token, seal_context_as_string, seal_context. cbn [tn_seal tn_uuid example_token_run].
    change (instance_owner_id "i" example_tokens) with (Some "a").
    change ("st_" +:+ "u9") with "st_u9". change (state_sync_provider "g1") with "state_sync:g1".
    rewrite Hs. cbn [mbind result_bind]. rewrite Hu. reflexivity. }
  eexists. split.
  - apply (rotation_fences_old_sandbox (toy_cipher "k") (example_token_run "u9") (example_token_run "")
             (mkSealRun 6 "r") 9 (mkIngest [("authorization", "Bearer st_u9")] (Some "x")) empty_files
             "i" "g1" "g2" "sb2" "tpl" "st_u9" Open [] 50 example_tokens
             (mkTokenWorld [mkTokenRow s "#st_u9" "i" "state_sync:g1" 100 None None]
                (tw_instances example_tokens)) []); [exact Hs|..].
    + reflexivity.
    + cbn. clear. set_solver.
    + cbn. constructor.
    + exact I.
    + constructor.
    + exists (example_row "i" "a"). reflexivity.
    + discriminate.
    + reflexivity.
  - discriminate.
Defined.
End examples.
