(* ===== verification/InstanceService.v ===== *)
(** * The instance service: data, collaborators, create, destroy, restore

    Models [crates/core/src/instance.rs] with [instance/types.rs]: the service
    that gives a user a sandbox, keeps its row, tokens and MCP records in step
    with it, and takes all of it down again; and the sweep of [ttl.rs] that
    destroys expired instances.

    The sandbox backend and the reconfigurer are remote: the class [FleetEnv]
    answers the [n]-th call made to them.  Every call is logged together with
    the instance table it was made in, so that theorems can speak about what a
    sandbox, an observer outside, sees in which order.  The stores are the
    modelled ones.  Texts of errors are abbreviated where they quote values. *)

From Stdlib Require Import ZArith Ascii Lia.
From stdpp Require Import base list strings gmap option.
From S2P Require Import Prelude RustStr RustNet Json Codec Store Envelope NetworkPolicy SandboxEnv Traits.
From S2P Require Import UpstreamPolicy InstanceStore TokenStore Secrets McpRecords StateFiles.

Local Open Scope string_scope.
Local Open Scope list_scope.
Local Open Scope Z_scope.

(** ** Data *)

Definition MAX_ACTIVE_INSTANCES_PER_OWNER : Z := 20.
Definition SYSTEM_OWNER : string := "*".
Definition TELEGRAM_KIND : string := "telegram".

Record TelegramProxyReconfigure : Type := mkTelegram {
  tp_base_url : string;
  tp_file_base_url : string;
  tp_bearer : string;
  tp_enabled : bool
}.

Record ReconfigureBody : Type := mkBody {
  rb_name : option string;
  rb_task : option string;
  rb_identity_doc : option string;
  rb_models : list string;
  rb_instance_id : option string;
  rb_proxy_token : option string;
  rb_proxy_base : option string;
  rb_image_provider_name : option string;
  rb_image_provider_block : option json;
  rb_image_generation_provider : option string;
  rb_image_generation_model : option string;
  rb_reset_skills : bool;
  rb_tools : option (list string);
  rb_mcp_servers : option (gmap string json);
  rb_ingest_url : option string;
  rb_ingest_token : option string;
  rb_state_sync_url : option string;
  rb_state_sync_token : option string;
  rb_telegram_proxy : option TelegramProxyReconfigure
}.

(** [ReconfigureBody::default] *)
Definition body_default : ReconfigureBody :=
  mkBody None None None [] None None None None None None None false None None None None None None None.

Record RestoreStateFileBody : Type := mkRestoreFile {
  rf_namespace : string;
  rf_path : string;
  rf_mime : option string;
  rf_deleted : bool;
  rf_body_b64 : option string
}.

Record ImageGenDefaults : Type := mkImageGen {
  ig_provider_name : string;
  ig_provider_type : string;
  ig_model : string
}.

(** [ImageGenDefaults::provider_block] *)
Definition provider_block (d : ImageGenDefaults) (proxy_base api_key : string) : json :=
  JObject [("type", JString (ig_provider_type d)); ("base_url", JString proxy_base);
           ("api_key", JString api_key); ("models", JArray [JString (ig_model d)])].

Record CreateRequest : Type := mkCreate {
  cr_template_id : string;
  cr_name : option string;
  cr_task : option string;
  cr_env : env_map;
  cr_ttl_seconds : option Z;
  cr_network_policy : NetworkPolicy;
  cr_mcp_servers : list McpServerSpec
}.

Record RestoreRequest : Type := mkRestore {
  rr_template_id : string;
  rr_snapshot_path : string;
  rr_source_instance_id : option string;
  rr_name : option string;
  rr_task : option string;
  rr_env : env_map;
  rr_ttl_seconds : option Z;
  rr_network_policy : NetworkPolicy;
  rr_models : list string;
  rr_tools : list string
}.

Record CreatedInstance : Type := mkCreated {
  ci_id : string;
  ci_url : string;
  ci_bearer_token : string;
  ci_proxy_token : string
}.

Record RuntimeTokens : Type := mkRuntimeTokens {
  rt_proxy : string;
  rt_ingest : string;
  rt_state_sync : string;
  rt_state_generation : string
}.

Record SandboxInfo : Type := mkSandbox { sb_id : string; sb_host_ip : string; sb_url : string }.
Record CreateSandboxArgs : Type := mkSandboxArgs {
  sa_template_id : string;
  sa_env : env_map;
  sa_from_snapshot_path : option string;
  sa_resolved_policy : ResolvedPolicy
}.

(** [InstanceChannelRow] *)
Record InstanceChannelRow : Type := mkChannel {
  ch_id : Z;
  ch_instance_id : string;
  ch_kind : string;
  ch_handle : string;
  ch_secret_name : string;
  ch_webhook_secret_name : string;
  ch_enabled : bool;
  ch_allowed_senders : list string;
  ch_last_inbound_at : option Z;
  ch_created_at : Z
}.

(** [AgentSecretRow], as far as destroying an instance reads it *)
Record AgentSecretRow : Type := mkAgentSecret {
  as_owner : string;
  as_instance_id : string;
  as_name : string;
  as_ciphertext : string
}.

(** [InstanceService], its collaborators left out: which optional ones are
    wired in, and the settings. *)
Record ServiceConfig : Type := mkService {
  sv_proxy_base : string;
  sv_reconfigurer : bool;
  sv_image_gen_defaults : option ImageGenDefaults;
  sv_llm_cidr : option string;
  sv_mcp_upstream_policy : OutboundUrlPolicy;
  sv_mcp_secrets : bool;
  sv_channels : bool;
  sv_agent_secrets : bool;
  sv_state_files : bool;
  sv_allow_internal_network_policy : bool
}.

(** A call to the sandbox backend, the reconfigurer or the policy refresh *)
Inductive FleetCall : Type :=
| CubeCreate (args : CreateSandboxArgs)
| CubeDestroy (sandbox_id : string)
| Push (instance_id sandbox_id : string) (body : ReconfigureBody)
| RestoreFile (instance_id sandbox_id : string) (body : RestoreStateFileBody)
| RefreshEgress
| CubeSnapshot (sandbox_id name : string)
| IsIdle (instance_id sandbox_id : string)
| Quiesce (instance_id sandbox_id : string)
| Unquiesce (instance_id sandbox_id : string)
| SinkPromote (row : SnapshotRow)
| SinkPull (row : SnapshotRow)
| SinkDelete (row : SnapshotRow).

(** What the service works on; [fw_log] is newest last, [fw_pending] are the
    rewraps spawned and not yet run. *)
Record FleetWorld : Type := mkFleet {
  fw_tokens : TokenWorld;
  fw_secrets : SecretDb;
  fw_agent_secrets : list AgentSecretRow;
  fw_channels : list InstanceChannelRow;
  fw_files : StateDb;
  fw_log : list (FleetCall * Instances);
  fw_snapshots : list SnapshotRow;
  fw_pending : list RewrapTask
}.
Definition fw_instances (w : FleetWorld) : Instances := tw_instances (fw_tokens w).

(** [SnapshotInfo] *)
Record SnapshotInfo : Type := mkSnapInfo { si_snapshot_id : string; si_path : string; si_host_ip : string }.

(** A file system object under a bundle directory; [Other] is anything that is
    neither a directory nor a regular file. *)
Inductive Node : Type :=
| File (bytes : string)
| Dir (entries : list (string * Node))
| Other.

(** The answer to the [n]-th logged call; URL parsing and DNS for MCP URLs;
    what is on disk at a path once [n] calls are made, an error if it cannot be
    read *)
Class FleetEnv : Type := {
  fe_create : nat -> CreateSandboxArgs -> result CubeError SandboxInfo;
  fe_destroy : nat -> string -> result CubeError unit;
  fe_push : nat -> string -> string -> ReconfigureBody -> result string unit;
  fe_restore_file : nat -> string -> string -> RestoreStateFileBody -> result string unit;
  fe_snapshot : nat -> string -> string -> result CubeError SnapshotInfo;
  fe_is_idle : nat -> string -> string -> result string (bool * Z);
  fe_quiesce : nat -> string -> string -> result string bool;
  fe_unquiesce : nat -> string -> string -> result string unit;
  fe_promote : nat -> SnapshotRow -> result BackupError (option string);
  fe_pull : nat -> SnapshotRow -> result BackupError string;
  fe_sink_delete : nat -> SnapshotRow -> result BackupError unit;
  fe_disk : nat -> string -> result string Node;
  fe_url_parse : string -> result string Url;
  fe_lookup_host : string -> Z -> result string (list SocketAddr)
}.

(** Clock readings and random values of one call of the service: [fr_now] is
    the service's reading, [fr_stamp] the one of the stores it writes to, and
    [fr_elapsed k] the seconds that have passed at the [k]-th idle check. *)
Record FleetRun : Type := mkFleetRun {
  fr_now : Z;
  fr_stamp : Z;
  fr_candidate : nat -> string;
  fr_bearer : string;
  fr_generation : string;
  fr_token : nat -> TokenRun;
  fr_seal : nat -> SealRun;
  fr_snapshot : string;
  fr_elapsed : nat -> Z
}.

Abbreviation fleet := (svc FleetWorld SwarmError).

(** ** Access to the stores and collaborators *)

Section access.
Context {env : FleetEnv}.

Definition with_tokens_world (t : TokenWorld) (w : FleetWorld) : FleetWorld :=
  mkFleet t (fw_secrets w) (fw_agent_secrets w) (fw_channels w) (fw_files w) (fw_log w) (fw_snapshots w)
    (fw_pending w).

Definition on_tokens {A} (m : svc TokenWorld StoreError A) : fleet A := fun w =>
  let '(t, r) := m (fw_tokens w) in (with_tokens_world t w, map_err SwStore r).

Definition on_instances {A} (m : Instances -> Instances * result StoreError A) : fleet A := fun w =>
  let '(i, r) := m (fw_instances w) in
  (with_tokens_world (mkTokenWorld (tw_tokens (fw_tokens w)) i) w, map_err SwStore r).

Definition on_secrets {A} (m : svc SecretDb SecretsError A) : svc FleetWorld SecretsError A := fun w =>
  let '(s, r) := m (fw_secrets w) in
  (mkFleet (fw_tokens w) s (fw_agent_secrets w) (fw_channels w) (fw_files w) (fw_log w) (fw_snapshots w)
     (fw_pending w), r).

(** Perform a remote call and take its answer. *)
Definition remote {E A} (call : FleetCall) (answer : nat -> result E A) : svc FleetWorld E A := fun w =>
  (mkFleet (fw_tokens w) (fw_secrets w) (fw_agent_secrets w) (fw_channels w) (fw_files w)
     (fw_log w ++ [(call, fw_instances w)]) (fw_snapshots w) (fw_pending w), answer (length (fw_log w))).

Definition create_sandbox (args : CreateSandboxArgs) : svc FleetWorld CubeError SandboxInfo :=
  remote (CubeCreate args) (fun n => fe_create n args).
Definition destroy_sandbox (sandbox_id : string) : svc FleetWorld CubeError unit :=
  remote (CubeDestroy sandbox_id) (fun n => fe_destroy n sandbox_id).

(** [refresh_egress_policy_best_effort]: its outcome is only logged *)
Definition refresh_egress_policy_best_effort : fleet unit :=
  remote RefreshEgress (fun _ => Ok tt).

(** [is_non_retryable_reconfigure_error]: [error.contains(...)] *)
Definition is_non_retryable_reconfigure_error (error : string) : bool :=
  contains_str "configure secret mismatch" error || contains_str "did not apply requested" error
  || contains_str "configure response had ok=false" error
  || contains_str "/api/admin/configure response parse" error.

(** [push_with_retry]: at most 12 attempts; the waits between them are left out *)
Fixpoint push_attempts (attempts : nat) (last_err instance_id sandbox_id : string)
    (body : ReconfigureBody) : svc FleetWorld string unit :=
  match attempts with
  | O => throw last_err
  | S attempts =>
      r ← attempt (remote (Push instance_id sandbox_id body)
                     (fun n => fe_push n instance_id sandbox_id body));
      match r with
      | Ok _ => mret tt
      | Err e => if is_non_retryable_reconfigure_error e then throw e
                 else push_attempts attempts e instance_id sandbox_id body
      end
  end.
Definition push_with_retry : string -> string -> ReconfigureBody -> svc FleetWorld string unit :=
  push_attempts 12 "".

(** [restore_state_file_with_retry] *)
Fixpoint restore_attempts (attempts : nat) (last_err instance_id sandbox_id : string)
    (body : RestoreStateFileBody) : svc FleetWorld string unit :=
  match attempts with
  | O => throw last_err
  | S attempts =>
      r ← attempt (remote (RestoreFile instance_id sandbox_id body)
                     (fun n => fe_restore_file n instance_id sandbox_id body));
      match r with
      | Ok _ => mret tt
      | Err e => restore_attempts attempts e instance_id sandbox_id body
      end
  end.
Definition restore_state_file_with_retry :
  string -> string -> RestoreStateFileBody -> svc FleetWorld string unit := restore_attempts 12 "".
End access.

(** ** Small helpers of the service *)

(** [configure_secret_name] *)
Definition configure_secret_name (instance_id : string) : string :=
  "instance." +:+ instance_id +:+ ".configure".

(** [looks_like_full_identity_doc], [reconfigure_task_fields] *)
Definition looks_like_full_identity_doc (body : string) : bool :=
  let trimmed := trim_start body in
  starts_with "# IDENTITY.md" trimmed || starts_with "# Identity" trimmed.
Definition reconfigure_task_fields (task : option string) : option string * option string :=
  match task with
  | Some t => if looks_like_full_identity_doc t then (None, Some t) else (Some t, None)
  | None => (None, None)
  end.

(** [Some(s).filter(|s| !s.is_empty())] *)
Definition non_empty (s : string) : option string := if is_empty s then None else Some s.

(** [assert_allowed_by_config] *)
Definition assert_allowed_by_config (p : NetworkPolicy) (allow_internal : bool) : result SwarmError unit :=
  if is_internal_network p && negb allow_internal
  then Err (BadRequest "internal-network policies are disabled on this swarm")
  else Ok tt.

(** [From<PolicyError> for SwarmError] *)
Definition policy_error (e : PolicyError) : SwarmError :=
  BadRequest match e with
             | InvalidEntry s => "invalid network entry " +:+ s
             | HostUnresolvable h => "hostname " +:+ h +:+ " resolved to no IPv4 addresses"
             | EmptyAllowlist => "Allowlist requires at least one entry"
             | LlmCidrRequired => "Airgap and Allowlist require an LLM-proxy CIDR"
             end.

(** [s.split(',').map(trim).filter(non-empty)] *)
Definition csv_items (s : string) : list string :=
  filter (fun m => is_empty m = false) (map trim (split "," s)).

(** The model list of a create request *)
Definition requested_models (env : env_map) : list string :=
  let models := match env !! ENV_MODELS with Some s => csv_items s | None => [] end in
  if bool_decide (models = []) then
    match env !! ENV_MODEL with
    | Some s => if is_empty (trim s) then [] else [trim s]
    | None => []
    end
  else models.
Definition requested_tools (env : env_map) : list string :=
  match env !! ENV_TOOLS with Some s => csv_items s | None => [] end.

(** ** Operations *)

Section service.
Context {R : HostResolver} {env : FleetEnv} {dir : CipherDirectory} {codec : EnvelopeCodec}.
Context {mc : McpCodec} {th : TokenHash} (cipher : EnvelopeCipher) (sv : ServiceConfig).

(** [image_proxy_base], [public_proxy_origin] *)
Definition image_proxy_base : string := trim_end_matches "/" (sv_proxy_base sv) +:+ "/openrouter".
Definition public_proxy_origin : string := swarm_origin_from_proxy_base (sv_proxy_base sv).

(** [validate_mcp_url], [validate_mcp_auth_urls], [validate_mcp_server_spec] *)
Definition validate_mcp_url (url : string) : result SwarmError unit :=
  _ ← map_err (fun _ => BadRequest "mcp upstream URL rejected")
        (validate_outbound_url fe_url_parse fe_lookup_host (sv_mcp_upstream_policy sv) url);
  Ok tt.
Definition validate_mcp_auth_urls (auth : McpAuthSpec) : result SwarmError unit :=
  match auth with
  | AuthOauth _ _ _ authorization_url token_url registration_url =>
      _ ← traverse validate_mcp_url
            (filter (fun u => is_empty (trim u) = false)
               (omap id [authorization_url; token_url; registration_url]));
      Ok tt
  | _ => Ok tt
  end.
Definition validate_mcp_server_spec (spec : McpServerSpec) : result SwarmError unit :=
  _ ← validate_mcp_url (ms_url spec);
  validate_mcp_auth_urls (ms_auth spec).

(** [mint_unique_instance_id]: eight candidates *)
Fixpoint mint_attempts (attempts k : nat) (run : FleetRun) : fleet string :=
  match attempts with
  | O => throw (Internal "instance id mint exhausted attempts")
  | S attempts =>
      let candidate := fr_candidate run k in
      found ← gets (fun w => instance_get candidate (fw_instances w));
      match found with
      | None => mret candidate
      | Some _ => mint_attempts attempts (S k) run
      end
  end.
Definition mint_unique_instance_id : FleetRun -> fleet string := mint_attempts 8 0.

(** [self.instances.get_for_owner(owner_id, id).await?.ok_or(NotFound)?] *)
Definition require_row (owner_id id : string) : fleet InstanceRow :=
  found ← gets (fun w => instance_get_for_owner owner_id id (fw_instances w));
  lift (ok_or SwNotFound found).

(** [bind_runtime_tokens_to_sandbox_source] *)
Definition bind_runtime_tokens_to_sandbox_source (instance_id : string) (info : SandboxInfo) : fleet unit :=
  let source_ip := trim (sb_host_ip info) in
  if is_empty source_ip then mret tt
  else on_tokens (bind_expected_src_ip instance_id source_ip).

(** [channels.get] and [telegram_proxy_block_for_instance] *)
Definition channel_get (instance_id kind : string) (w : FleetWorld) : option InstanceChannelRow :=
  select_one (fun c => (ch_instance_id c =? instance_id)%string && (ch_kind c =? kind)%string) (fw_channels w).
Definition telegram_proxy_block_for_instance (instance_id proxy_token : string) (w : FleetWorld) :
  option TelegramProxyReconfigure :=
  if negb (sv_channels sv) then None
  else match channel_get instance_id TELEGRAM_KIND w with
       | None => None
       | Some row =>
           let origin := public_proxy_origin in
           if is_empty (trim origin) then None
           else
             let origin := trim_end_matches "/" origin in
             let base := origin +:+ "/v1/proxy/telegram/" +:+ instance_id in
             Some (mkTelegram base (base +:+ "/file") proxy_token (ch_enabled row))
       end.

(** [mcp_servers_block_for_instance]: a failed listing is logged and skipped *)
Definition mcp_block (instance_id proxy_token : string) (names : list string) : gmap string json :=
  list_to_map (map (fun n => (n, dyson_json_block instance_id n (sv_proxy_base sv) proxy_token)) names).
Definition mcp_servers_block_for_instance (sr : SealRun) (owner_id instance_id proxy_token : string)
    (clear_when_empty : bool) : fleet (option (gmap string json)) :=
  if negb (sv_mcp_secrets sv) then mret None
  else
    names ← attempt (on_secrets (list_names sr owner_id instance_id));
    mret match names with
         | Ok [] => if clear_when_empty then Some ∅ else None
         | Ok names => Some (mcp_block instance_id proxy_token names)
         | Err _ => None
         end.

(** [configure_body_from_parts] *)
Definition configure_body_from_parts (source : InstanceRow) (proxy_token ingest_token state_sync_token : string)
    (image_gen_defaults : option ImageGenDefaults) (mcp_servers : option (gmap string json)) :
  ReconfigureBody :=
  let '(task, identity_doc) := reconfigure_task_fields (non_empty (ir_task source)) in
  mkBody (non_empty (ir_name source)) task identity_doc (ir_models source) (Some (ir_id source))
    (Some proxy_token) (Some (trim_end_matches "/" (sv_proxy_base sv) +:+ "/openrouter"))
    (ig_provider_name <$> image_gen_defaults)
    ((fun d => provider_block d image_proxy_base proxy_token) <$> image_gen_defaults)
    (ig_provider_name <$> image_gen_defaults) (ig_model <$> image_gen_defaults)
    (bool_decide (ir_tools source = []))
    (if bool_decide (ir_tools source = []) then None else Some (ir_tools source))
    mcp_servers (non_empty (build_ingest_url (sv_proxy_base sv))) (Some ingest_token)
    (non_empty (build_state_sync_url (sv_proxy_base sv))) (Some state_sync_token) None.

Definition with_telegram (t : option TelegramProxyReconfigure) (b : ReconfigureBody) : ReconfigureBody :=
  mkBody (rb_name b) (rb_task b) (rb_identity_doc b) (rb_models b) (rb_instance_id b) (rb_proxy_token b)
    (rb_proxy_base b) (rb_image_provider_name b) (rb_image_provider_block b)
    (rb_image_generation_provider b) (rb_image_generation_model b) (rb_reset_skills b) (rb_tools b)
    (rb_mcp_servers b) (rb_ingest_url b) (rb_ingest_token b) (rb_state_sync_url b)
    (rb_state_sync_token b) t.

(** [configure_body_for_existing_row] *)
Definition configure_body_for_existing_row (sr : SealRun) (owner_id : string) (source : InstanceRow)
    (proxy_token ingest_token state_sync_token : string) : fleet ReconfigureBody :=
  mcp_servers ← mcp_servers_block_for_instance sr owner_id (ir_id source) proxy_token true;
  telegram ← gets (telegram_proxy_block_for_instance (ir_id source) proxy_token);
  mret (with_telegram telegram
    (configure_body_from_parts source proxy_token ingest_token state_sync_token
       (sv_image_gen_defaults sv) mcp_servers)).

(** The image defaults of a create request *)
Definition image_defaults_for (env : env_map) : option ImageGenDefaults :=
  (fun d => match env !! ENV_IMAGE_GENERATION_MODEL with
            | Some m => if is_empty (trim m) then d
                        else mkImageGen (ig_provider_name d) (ig_provider_type d) (trim m)
            | None => d
            end) <$> sv_image_gen_defaults sv.

(** The body [create] pushes *)
Definition create_body (req : CreateRequest) (id proxy_token ingest_token state_sync_token : string)
    (models tools : list string) : ReconfigureBody :=
  let '(task, identity_doc) := reconfigure_task_fields (cr_task req ≫= non_empty) in
  let image := image_defaults_for (cr_env req) in
  mkBody (cr_name req ≫= non_empty) task identity_doc models (Some id) (Some proxy_token)
    (Some (trim_end_matches "/" (sv_proxy_base sv) +:+ "/openrouter"))
    (ig_provider_name <$> image) ((fun d => provider_block d image_proxy_base proxy_token) <$> image)
    (ig_provider_name <$> image) (ig_model <$> image)
    (bool_decide (tools = [])) (if bool_decide (tools = []) then None else Some tools)
    (if bool_decide (cr_mcp_servers req = []) then None
     else Some (list_to_map (map (fun s => (ms_name s, dyson_json_block id (ms_name s) (sv_proxy_base sv) proxy_token))
                               (rev (cr_mcp_servers req)))))
    (non_empty (build_ingest_url (sv_proxy_base sv))) (Some ingest_token)
    (non_empty (build_state_sync_url (sv_proxy_base sv))) (Some state_sync_token) None.

(** The row a new instance starts with *)
Definition new_row (run : FleetRun) (id owner_id : string) (name task : string) (template : string)
    (ttl : option Z) (policy : NetworkPolicy) (resolved : ResolvedPolicy) (models tools : list string) :
  InstanceRow :=
  mkInstanceRow id owner_id name task None (fr_generation run) template Cold (fr_bearer run) false
    ((fun ttl => wrap_i64 (fr_now run + ttl)) <$> ttl) (fr_now run) None None (fr_now run) None None
    policy (row_policy_cidrs policy resolved) models tools.

(** The three tokens of a new instance *)
Definition mint_runtime_tokens (run : FleetRun) (id : string) : fleet RuntimeTokens :=
  proxy_token ← on_tokens (token_mint cipher (Some dir) (fr_token run 0) id SHARED_PROVIDER);
  ingest_token ← on_tokens (mint_ingest cipher (Some dir) (fr_token run 1) id);
  state_sync_token ← on_tokens (mint_state_sync_for_generation cipher (Some dir) (fr_token run 2) id
                                  (fr_generation run));
  mret (mkRuntimeTokens proxy_token ingest_token state_sync_token (fr_generation run)).

(** Undo of a failed start: revoke the tokens, mark the row; failures ignored *)
Definition abandon (run : FleetRun) (id : string) : fleet unit :=
  _ ← best_effort (on_tokens (revoke_for_instance (fr_token run 3) id));
  best_effort (on_instances (update_status id Destroyed (fr_stamp run))).

(** [create_sandbox] of a new instance, with its cleanup *)
Definition start_sandbox (run : FleetRun) (id : string) (args : CreateSandboxArgs) : fleet SandboxInfo :=
  info ← attempt (create_sandbox args);
  match info with
  | Ok info => mret info
  | Err e => _ ← abandon run id; throw (SwCube e)
  end.

(** From a running sandbox to a row that names it *)
Definition attach_sandbox (run : FleetRun) (id : string) (info : SandboxInfo) : fleet unit :=
  _ ← bind_runtime_tokens_to_sandbox_source id info;
  _ ← on_instances (set_cube_sandbox_id id (sb_id info));
  _ ← on_instances (update_status id (if sv_reconfigurer sv then Configuring else Live) (fr_stamp run));
  if sv_reconfigurer sv then mret tt else refresh_egress_policy_best_effort.

(** The end of both: the row goes live. *)
Definition go_live (run : FleetRun) (id : string) : fleet unit :=
  _ ← on_instances (update_status id Live (fr_stamp run));
  refresh_egress_policy_best_effort.

(** [mcp_servers::put_all] of [create] *)
Definition persist_mcp (run : FleetRun) (owner_id id : string) (specs : list McpServerSpec) : fleet unit :=
  if bool_decide (specs = []) || negb (sv_mcp_secrets sv) then mret tt
  else with_err (fun _ => Internal "mcp persist failed") (on_secrets (put_all (fr_seal run) owner_id id specs)).

(** The push of [create]: a sandbox that cannot be configured is taken down. *)
Definition configure_new (run : FleetRun) (id sandbox : string) (body : ReconfigureBody) : fleet unit :=
  pushed ← attempt (push_with_retry id sandbox body);
  match pushed with
  | Ok _ => go_live run id
  | Err err =>
      _ ← best_effort (on_tokens (revoke_for_instance (fr_token run 3) id));
      _ ← best_effort (destroy_sandbox sandbox);
      _ ← best_effort (on_instances (update_status id Destroyed (fr_stamp run)));
      throw (Internal ("configure-push failed: " +:+ err))
  end.

(** [create] *)
Definition create (run : FleetRun) (owner_id : string) (req : CreateRequest) : fleet CreatedInstance :=
  _ ← lift (assert_allowed_by_config (cr_network_policy req) (sv_allow_internal_network_policy sv));
  _ ← lift match cr_env req !! ENV_MODEL with
           | Some s => if is_empty (trim s) then Err (PolicyDenied "SWARM_MODEL is required") else Ok tt
           | None => Err (PolicyDenied "SWARM_MODEL is required")
           end;
  id ← mint_unique_instance_id run;
  let name := default "" (cr_name req) in
  let task := default "" (cr_task req) in
  resolved ← lift (map_err policy_error (resolve (cr_network_policy req) (sv_llm_cidr sv)));
  _ ← lift (traverse validate_mcp_server_spec (cr_mcp_servers req));
  let models := requested_models (cr_env req) in
  let tools := requested_tools (cr_env req) in
  let row := new_row run id owner_id name task (cr_template_id req) (cr_ttl_seconds req)
               (cr_network_policy req) resolved models tools in
  admitted ← on_instances (create_with_owner_limit row MAX_ACTIVE_INSTANCES_PER_OWNER);
  _ ← lift (if admitted : bool then Ok tt
            else Err (InstanceQuotaExceeded MAX_ACTIVE_INSTANCES_PER_OWNER));
  tokens ← mint_runtime_tokens run id;
  _ ← persist_mcp run owner_id id (cr_mcp_servers req);
  let managed := managed_env (sv_proxy_base sv) (rt_proxy tokens) (rt_ingest tokens) (rt_state_sync tokens)
                   id (fr_bearer run) name task (cr_network_policy req) in
  env ← lift (compose_sandbox_env managed (cr_env req));
  info ← start_sandbox run id (mkSandboxArgs (cr_template_id req) env None resolved);
  _ ← attach_sandbox run id info;
  _ ← (if sv_reconfigurer sv
       then configure_new run id (sb_id info)
              (create_body req id (rt_proxy tokens) (rt_ingest tokens) (rt_state_sync tokens) models tools)
       else mret tt);
  mret (mkCreated id (sb_url info) (fr_bearer run) (rt_proxy tokens)).

(** The push of [restore]: a failed push is reported and nothing undone. *)
Definition configure_restored (run : FleetRun) (owner_id id sandbox : string) (tokens : RuntimeTokens) :
  fleet unit :=
  row ← require_row owner_id id;
  body ← configure_body_for_existing_row (fr_seal run 0) owner_id row (rt_proxy tokens) (rt_ingest tokens)
           (rt_state_sync tokens);
  _ ← with_err (fun e => Internal ("restore configure-push failed: " +:+ e)) (push_with_retry id sandbox body);
  go_live run id.

(** [restore] *)
Definition restore (run : FleetRun) (owner_id : string) (req : RestoreRequest) : fleet CreatedInstance :=
  _ ← lift (assert_allowed_by_config (rr_network_policy req) (sv_allow_internal_network_policy sv));
  id ← mint_unique_instance_id run;
  _ ← match rr_source_instance_id req with
      | Some src => _ ← require_row owner_id src; mret tt
      | None => mret tt
      end;
  resolved ← lift (map_err policy_error (resolve (rr_network_policy req) (sv_llm_cidr sv)));
  let name := default "" (rr_name req) in
  let task := default "" (rr_task req) in
  let row := new_row run id owner_id name task (rr_template_id req) (rr_ttl_seconds req)
               (rr_network_policy req) resolved (rr_models req) (rr_tools req) in
  _ ← on_instances (instance_create row);
  tokens ← mint_runtime_tokens run id;
  let managed := managed_env (sv_proxy_base sv) (rt_proxy tokens) (rt_ingest tokens) (rt_state_sync tokens)
                   id (fr_bearer run) name task (rr_network_policy req) in
  env ← lift (compose_sandbox_env managed (rr_env req));
  info ← start_sandbox run id (mkSandboxArgs (rr_template_id req) env (Some (rr_snapshot_path req)) resolved);
  _ ← attach_sandbox run id info;
  _ ← (if sv_reconfigurer sv then configure_restored run owner_id id (sb_id info) tokens else mret tt);
  mret (mkCreated id (sb_url info) (fr_bearer run) (rt_proxy tokens)).

(** [agent_secrets.delete_for_instance] *)
Definition delete_agent_secrets (instance_id : string) : fleet unit := modify (fun w =>
  mkFleet (fw_tokens w) (fw_secrets w)
    (delete_where (fun s => (as_instance_id s =? instance_id)%string) (fw_agent_secrets w))
    (fw_channels w) (fw_files w) (fw_log w) (fw_snapshots w) (fw_pending w)).

(** [destroy] *)
Definition destroy (run : FleetRun) (owner_id id : string) (force : bool) : fleet unit :=
  row ← require_row owner_id id;
  _ ← match ir_cube_sandbox_id row with
      | None => mret tt
      | Some sb =>
          r ← attempt (destroy_sandbox sb);
          match r with
          | Ok _ => mret tt
          | Err e => if force then mret tt else throw (SwCube e)
          end
      end;
  _ ← on_tokens (revoke_for_instance (fr_token run 0) id);
  _ ← (if sv_mcp_secrets sv then best_effort (on_secrets (forget_all (fr_seal run 0) owner_id id)) else mret tt);
  _ ← (if sv_agent_secrets sv then delete_agent_secrets id else mret tt);
  on_instances (update_status id Destroyed (fr_stamp run)).

(** [ttl::run_once]; [runs k] is the [k]-th destroy of the sweep *)
Fixpoint destroy_expired (runs : nat -> FleetRun) (rows : list InstanceRow) : fleet unit :=
  match rows with
  | [] => mret tt
  | row :: rows =>
      _ ← best_effort (destroy (runs 0%nat) SYSTEM_OWNER (ir_id row) false);
      destroy_expired (fun k => runs (S k)) rows
  end.
Definition run_once (now : Z) (runs : nat -> FleetRun) : fleet unit :=
  expired ← gets (fun w => instance_expired now (fw_instances w));
  destroy_expired runs expired.
End service.
