(* ===== verification/InstanceLifecycle.v ===== *)
(** * The life of an instance

    What destroying and expiring an instance, and failing to create one, does
    to its row, its tokens, its secrets and its sandbox: theorems about
    [InstanceService]. *)

From Stdlib Require Import ZArith Ascii Lia.
From stdpp Require Import base list strings gmap option.
From S2P Require Import Prelude RustStr RustNet Json Codec Store Envelope NetworkPolicy SandboxEnv Traits.
From S2P Require Import UpstreamPolicy InstanceStore TokenStore Secrets McpRecords StateFiles InstanceService.

Local Open Scope string_scope.
Local Open Scope list_scope.
Local Open Scope Z_scope.

(** ** Effects of the steps *)

Section steps.
Context {env : FleetEnv}.

Lemma on_tokens_ok {A} (m : svc TokenWorld StoreError A) w w' a :
  on_tokens m w = (w', Ok a) <-> exists t, m (fw_tokens w) = (t, Ok a) /\ w' = with_tokens_world t w.
Proof. unfold on_tokens. destruct (m (fw_tokens w)) as [t [x|e]]; naive_solver. Qed.

Lemma on_tokens_err {A} (m : svc TokenWorld StoreError A) w w' e :
  on_tokens m w = (w', Err e) <->
  exists t e', m (fw_tokens w) = (t, Err e') /\ w' = with_tokens_world t w /\ e = SwStore e'.
Proof. unfold on_tokens. destruct (m (fw_tokens w)) as [t [x|e']]; naive_solver. Qed.

Definition with_instances (i : Instances) (w : FleetWorld) : FleetWorld :=
  with_tokens_world (mkTokenWorld (tw_tokens (fw_tokens w)) i) w.

Lemma on_instances_ok {A} (m : Instances -> Instances * result StoreError A) w w' a :
  on_instances m w = (w', Ok a) <-> exists i, m (fw_instances w) = (i, Ok a) /\ w' = with_instances i w.
Proof. unfold on_instances. destruct (m (fw_instances w)) as [t [x|e]]; naive_solver. Qed.

Lemma on_instances_err {A} (m : Instances -> Instances * result StoreError A) w w' e :
  on_instances m w = (w', Err e) <->
  exists i e', m (fw_instances w) = (i, Err e') /\ w' = with_instances i w /\ e = SwStore e'.
Proof. unfold on_instances. destruct (m (fw_instances w)) as [t [x|e']]; naive_solver. Qed.

Lemma attempt_ok {E E' A} (m : svc FleetWorld E' A) w w' (r : result E' A) :
  attempt (E := E) m w = (w', Ok r) -> m w = (w', r).
Proof. unfold attempt. destruct (m w) as [w1 x]. by intros [= -> ->]. Qed.

Lemma require_row_ok owner id w w' r :
  require_row owner id w = (w', Ok r) <->
  w' = w /\ instance_get_for_owner owner id (fw_instances w) = Some r.
Proof.
  unfold require_row, mbind, svc_bind, gets, lift.
  destruct (instance_get_for_owner owner id (fw_instances w)); naive_solver.
Qed.

Lemma require_row_err owner id w w' e :
  require_row owner id w = (w', Err e) <->
  w' = w /\ e = SwNotFound /\ instance_get_for_owner owner id (fw_instances w) = None.
Proof.
  unfold require_row, mbind, svc_bind, gets, lift.
  destruct (instance_get_for_owner owner id (fw_instances w)); naive_solver.
Qed.
End steps.

Lemma get_for_owner_some owner id t r :
  instance_get_for_owner owner id t = Some r ->
  r ∈ t /\ ir_id r = id /\ (owner = SYSTEM_OWNER \/ ir_owner_id r = owner).
Proof.
  unfold instance_get_for_owner. intros [Hin Hp]%select_one_some. to_prop.
  match goal with H : _ || _ = true |- _ => apply orb_true_iff in H as [H|H] end; to_prop;
    unfold by_id in *; to_prop; naive_solver.
Qed.

(** Rows other than the one named keep their place and contents. *)
Lemma update_found_other p f t t' r :
  update_found p f t = (t', Ok tt) -> p r = false -> (forall s, p s = true -> p (f s) = true) ->
  r ∈ t' <-> r ∈ t.
Proof.
  unfold update_found. destruct (Nat.eqb _ _); [done|]. intros [= <-] Hp Hf.
  rewrite elem_of_update. split.
  - intros (s & Hs & ->). destruct (p s) eqn:E; [|done]. rewrite (Hf s E) in Hp. done.
  - intros Hr. exists r. by rewrite Hp.
Qed.

Lemma update_status_some id s now t r :
  r ∈ t -> ir_id r = id -> exists t', update_status id s now t = (t', Ok tt) /\
    (forall r', r' ∈ t' -> ir_id r' = id -> ir_status r' = s) /\
    (forall r', ir_id r' <> id -> r' ∈ t' <-> r' ∈ t) /\
    exists r', r' ∈ t' /\ ir_id r' = id.
Proof.
  intros Hin Hid. unfold update_status, update_found.
  destruct (Nat.eqb (affected (by_id id) t) 0) eqn:E.
  { apply Nat.eqb_eq, affected_zero with (r := r) in E; [|done]. unfold by_id in E. to_prop. done. }
  eexists. split; [reflexivity|]. split_and!.
  - intros r' (s' & Hs & ->)%elem_of_update Hid'. destruct (by_id id s') eqn:Eb; [done|].
    unfold by_id in Eb. to_prop. done.
  - intros r' Hne. rewrite elem_of_update. split.
    + intros (s' & Hs & ->). destruct (by_id id s') eqn:Eb; [|done]. unfold by_id in Eb. to_prop. done.
    + intros Hr. exists r'. unfold by_id. rewrite (proj2 (String.eqb_neq _ _) Hne). done.
  - eexists. rewrite elem_of_update. split; [exists r; split; [done|reflexivity]|].
    unfold by_id. rewrite Hid, String.eqb_refl. done.
Qed.

(** ** Destroying *)

(** Nothing of an instance can be used any more. *)
Record instance_gone (id : string) (w w' : FleetWorld) : Prop := mkGone {
  ig_row : exists r, r ∈ fw_instances w' /\ ir_id r = id;
  ig_status : forall r, r ∈ fw_instances w' -> ir_id r = id -> ir_status r = Destroyed;
  ig_tokens : forall t, t ∈ tw_tokens (fw_tokens w') -> tk_instance_id t = id -> token_live t = false;
  ig_other_rows : forall r, ir_id r <> id -> r ∈ fw_instances w' <-> r ∈ fw_instances w;
  ig_other_tokens : forall t, tk_instance_id t <> id ->
    t ∈ tw_tokens (fw_tokens w') <-> t ∈ tw_tokens (fw_tokens w)
}.

Definition tables_same (w w' : FleetWorld) : Prop :=
  fw_tokens w' = fw_tokens w /\ fw_secrets w' = fw_secrets w /\
  fw_agent_secrets w' = fw_agent_secrets w /\ fw_channels w' = fw_channels w /\
  fw_files w' = fw_files w /\ fw_snapshots w' = fw_snapshots w /\ fw_pending w' = fw_pending w.

(** What [destroy] leaves alone besides the rows and tokens of other
    instances: their agent secrets; every user secret but the MCP records kept
    under [owner] for this instance; channels, files, snapshots. *)
Record others_kept (sv : ServiceConfig) (owner id : string) (w w' : FleetWorld) : Prop := mkKept {
  ok_agent_secrets : forall s, s ∈ fw_agent_secrets w' <->
    s ∈ fw_agent_secrets w /\ (sv_agent_secrets sv = true -> as_instance_id s <> id);
  ok_secrets : spares_other_secrets owner id (fw_secrets w) (fw_secrets w');
  ok_channels : fw_channels w' = fw_channels w;
  ok_files : fw_files w' = fw_files w;
  ok_snapshots : fw_snapshots w' = fw_snapshots w;
  ok_pending : fw_pending w' = fw_pending w
}.

Lemma revoked_tokens run id t :
  let p := fun r => (tk_instance_id r =? id)%string && token_live r in
  let t' := update p (revoke_row (tn_now run)) t in
  (forall r, r ∈ t' -> tk_instance_id r = id -> token_live r = false) /\
  (forall r, tk_instance_id r <> id -> r ∈ t' <-> r ∈ t).
Proof.
  cbn zeta. split.
  - intros r (s & Hs & ->)%elem_of_update Hid.
    destruct ((tk_instance_id s =? id)%string && token_live s) eqn:E; [done|].
    rewrite Hid, String.eqb_refl in E. done.
  - intros r Hne. rewrite elem_of_update. split.
    + intros (s & Hs & ->). destruct (_ && _) eqn:E; [|done]. to_prop. done.
    + intros Hr. exists r. rewrite (proj2 (String.eqb_neq _ _) Hne). done.
Qed.

(** The cube call of [destroy] and its log entry *)
Definition destroy_log (row : InstanceRow) (w : FleetWorld) : list (FleetCall * Instances) :=
  match ir_cube_sandbox_id row with
  | Some sb => [(CubeDestroy sb, fw_instances w)]
  | None => []
  end.

Section destroy.
Context {env : FleetEnv} {dir : CipherDirectory} {codec : EnvelopeCodec} {mc : McpCodec} (sv : ServiceConfig).

(** The secrets a destroy on behalf of [owner] leaves *)
Definition secrets_after (run : FleetRun) (owner id : string) (w : FleetWorld) : SecretDb :=
  if sv_mcp_secrets sv then (forget_all (fr_seal run 0) owner id (fw_secrets w)).1 else fw_secrets w.

Definition agent_secrets_after (id : string) (w : FleetWorld) : list AgentSecretRow :=
  if sv_agent_secrets sv
  then delete_where (fun s => (as_instance_id s =? id)%string) (fw_agent_secrets w)
  else fw_agent_secrets w.

Lemma secrets_after_spares run owner id w :
  spares_other_secrets owner id (fw_secrets w) (secrets_after run owner id w).
Proof. unfold secrets_after. destruct (sv_mcp_secrets sv); [apply forget_all_spares|done]. Qed.

Lemma agent_secrets_after_elem id w s :
  s ∈ agent_secrets_after id w <->
  s ∈ fw_agent_secrets w /\ (sv_agent_secrets sv = true -> as_instance_id s <> id).
Proof.
  unfold agent_secrets_after. destruct (sv_agent_secrets sv); [|naive_solver].
  rewrite elem_of_delete_where, String.eqb_neq. naive_solver.
Qed.

(** The database half of [destroy] *)
Lemma destroy_tail run owner id w r :
  r ∈ fw_instances w -> ir_id r = id ->
  exists w', (_ ← on_tokens (revoke_for_instance (fr_token run 0) id);
    _ ← (if sv_mcp_secrets sv then best_effort (on_secrets (forget_all (fr_seal run 0) owner id)) else mret tt);
    _ ← (if sv_agent_secrets sv then delete_agent_secrets id else mret tt);
    on_instances (update_status id Destroyed (fr_stamp run))) w = (w', Ok tt) /\
  instance_gone id w w' /\ fw_log w' = fw_log w /\
  fw_instances w' = (update_status id Destroyed (fr_stamp run) (fw_instances w)).1 /\
  fw_secrets w' = secrets_after run owner id w /\ others_kept sv owner id w w'.
Proof.
  intros Hr Hid.
  destruct (update_status_some id Destroyed (fr_stamp run) (fw_instances w) r Hr Hid)
    as (t' & Ht & Hst & Hoth & Hex).
  destruct (revoked_tokens (fr_token run 0) id (tw_tokens (fw_tokens w))) as [Hdead Hkeep].
  unfold mbind at 1, svc_bind at 1, on_tokens, revoke_for_instance, modify. cbn [map_err].
  set (w1 := with_tokens_world _ w).
  unfold mbind at 1, svc_bind at 1.
  set (w2 := mkFleet (fw_tokens w1) (secrets_after run owner id w) (fw_agent_secrets w)
               (fw_channels w) (fw_files w) (fw_log w) (fw_snapshots w) (fw_pending w)).
  assert ((if sv_mcp_secrets sv
    then best_effort (E := SwarmError) (on_secrets (forget_all (fr_seal run 0) owner id)) else mret tt) w1
    = (w2, Ok tt)) as ->.
  { unfold w2, secrets_after. destruct (sv_mcp_secrets sv); [|done].
    unfold best_effort, on_secrets. change (fw_secrets w1) with (fw_secrets w).
    by destruct (forget_all (fr_seal run 0) owner id (fw_secrets w)). }
  unfold mbind at 1, svc_bind at 1.
  set (w3 := mkFleet (fw_tokens w1) (secrets_after run owner id w) (agent_secrets_after id w)
               (fw_channels w) (fw_files w) (fw_log w) (fw_snapshots w) (fw_pending w)).
  assert ((if sv_agent_secrets sv then delete_agent_secrets id else mret tt) w2 = (w3, Ok tt)) as ->.
  { unfold w3, agent_secrets_after. by destruct (sv_agent_secrets sv). }
  unfold on_instances. change (fw_instances w3) with (fw_instances w). rewrite Ht. cbn [map_err fst].
  eexists. split; [reflexivity|]. split_and!; try done.
  split; cbn; try done; [apply agent_secrets_after_elem|apply secrets_after_spares].
Qed.

Lemma destroy_spec run owner id force w :
  match destroy sv run owner id force w with
  | (w', Ok _) =>
      exists row, instance_get_for_owner owner id (fw_instances w) = Some row /\
        instance_gone id w w' /\ fw_log w' = fw_log w ++ destroy_log row w /\
        fw_instances w' = (update_status id Destroyed (fr_stamp run) (fw_instances w)).1 /\
        fw_secrets w' = secrets_after run owner id w /\ others_kept sv owner id w w'
  | (w', Err e) =>
      tables_same w w' /\
      (e = SwNotFound /\ instance_get_for_owner owner id (fw_instances w) = None \/
       force = false /\ exists sb n ce, fe_destroy n sb = Err ce /\ e = SwCube ce)
  end.
Proof.
  unfold destroy. unfold mbind at 1, svc_bind at 1.
  destruct (require_row owner id w) as [w0 [row|e]] eqn:Hreq.
  2: { apply require_row_err in Hreq as (-> & -> & Hn). split; [done|by left]. }
  apply require_row_ok in Hreq as [-> Hrow]. pose proof (get_for_owner_some _ _ _ _ Hrow) as (Hin & Hid & _).
  unfold destroy_log. destruct (ir_cube_sandbox_id row) as [sb|] eqn:Hsb.
  - unfold mbind at 1, svc_bind at 1. unfold attempt, destroy_sandbox, remote, mbind at 1, svc_bind at 1.
    set (w1 := mkFleet _ _ _ _ _ (fw_log w ++ _) _ _).
    destruct (destroy_tail run owner id w1 row Hin Hid) as (w' & Ht & Hg & Hlog & Hi & Hs & Hk).
    destruct (fe_destroy (length (fw_log w)) sb) as [[]|ce] eqn:Hd; cbn [mret svc_ret];
      [|destruct force; cbn [mret svc_ret]]; rewrite ?Ht.
    1,2: exists row; rewrite Hsb; split_and!; [done|by destruct Hg; split|done..|by destruct Hk; split].
    cbn [throw]. split; [done|]. right. split; [done|]. by eexists _, _, _.
  - unfold mbind at 1, svc_bind at 1. cbn [mret svc_ret].
    destruct (destroy_tail run owner id w row Hin Hid) as (w' & -> & Hg & Hlog & Hrest).
    exists row. rewrite Hsb, Hlog, app_nil_r. done.
Qed.
End destroy.

(** C9. Destroying an instance is all or nothing for its tables.  On success
    only the owner or the system asked for it; its sandbox, if it had one, was
    told to stop and no other call was made; its row is marked destroyed and
    otherwise as it was, none of its tokens is live and its agent secrets are
    gone.  The MCP records that go are those listed under the id of the caller:
    the owner's when the owner asks, while a destroy by the system leaves every
    secret of the owner where it was.  Rows, tokens and agent secrets of every
    other instance, all other user and system secrets, channels, files and
    snapshots are untouched.  On failure, which is an unknown instance or a
    refusal of the backend without [force], no table changed. *)
Theorem destroy_ends_instance {env : FleetEnv} {dir : CipherDirectory} {codec : EnvelopeCodec} {mc : McpCodec}
    (sv : ServiceConfig) (run : FleetRun) (owner id : string) (force : bool) (w : FleetWorld) :
  match destroy sv run owner id force w with
  | (w', Ok _) =>
      exists row, row ∈ fw_instances w /\ ir_id row = id /\
        (owner = SYSTEM_OWNER \/ ir_owner_id row = owner) /\
        instance_gone id w w' /\ fw_log w' = fw_log w ++ destroy_log row w /\
        fw_instances w' = (update_status id Destroyed (fr_stamp run) (fw_instances w)).1 /\
        (sv_agent_secrets sv = true -> forall s, s ∈ fw_agent_secrets w' -> as_instance_id s <> id) /\
        (sv_mcp_secrets sv = true -> forall names,
           (list_names (fr_seal run 0) owner id (fw_secrets w)).2 = Ok names -> forall n, n ∈ names ->
             user_rows (fw_secrets w') !! (owner, entry_key id n) = None) /\
        (owner <> ir_owner_id row -> forall n,
           user_rows (fw_secrets w') !! (ir_owner_id row, n) =
           user_rows (fw_secrets w) !! (ir_owner_id row, n)) /\
        others_kept sv owner id w w'
  | (w', Err e) =>
      tables_same w w' /\
      (e = SwNotFound \/ force = false /\ exists sb n ce, fe_destroy n sb = Err ce /\ e = SwCube ce)
  end.
Proof.
  pose proof (destroy_spec sv run owner id force w) as H.
  destruct (destroy sv run owner id force w) as [w' [u|e]].
  - destruct H as (row & Hrow & Hg & Hlog & Hi & Hmcp & Hk).
    apply get_for_owner_some in Hrow as (Hin & Hid & Hown). exists row. split_and!; try done.
    + intros Hs s Hin'. by apply (ok_agent_secrets _ _ _ _ _ Hk) in Hin' as [_ ?]; auto.
    + intros Hs names Hn n Hin'. rewrite Hmcp. unfold secrets_after. rewrite Hs.
      by eapply forget_all_removes.
    + intros Hne n. apply (ok_secrets _ _ _ _ _ Hk). intros m [= Ho _]. done.
  - destruct H as (Hs & He). split; [done|]. naive_solver.
Qed.

(** ** The sweep *)

Section sweep.
Context {env : FleetEnv} {dir : CipherDirectory} {codec : EnvelopeCodec} {mc : McpCodec} (sv : ServiceConfig).

(** The rows with these ids are gone, the others as they were. *)
Definition swept (ids : list string) (w w' : FleetWorld) : Prop :=
  (forall r, r ∈ fw_instances w' -> ir_id r ∈ ids -> ir_status r = Destroyed) /\
  (forall t, t ∈ tw_tokens (fw_tokens w') -> tk_instance_id t ∈ ids -> token_live t = false) /\
  (forall r, ir_id r ∉ ids -> r ∈ fw_instances w' <-> r ∈ fw_instances w) /\
  (forall t, tk_instance_id t ∉ ids -> t ∈ tw_tokens (fw_tokens w') <-> t ∈ tw_tokens (fw_tokens w)).

Lemma swept_cons id ids w w1 w' :
  instance_gone id w w1 -> swept ids w1 w' -> swept (id :: ids) w w'.
Proof.
  intros [_ Hs Ht Hor Hot] (Hs' & Ht' & Hor' & Hot'). split_and!.
  - intros r Hr Hin. destruct (decide (ir_id r ∈ ids)) as [Hd|Hd]; [by apply Hs'|].
    apply Hs; [by apply Hor'|set_solver].
  - intros t Hr Hin. destruct (decide (tk_instance_id t ∈ ids)) as [Hd|Hd]; [by apply Ht'|].
    apply Ht; [by apply Hot'|set_solver].
  - intros r Hn. rewrite Hor' by set_solver. apply Hor. set_solver.
  - intros t Hn. rewrite Hot' by set_solver. apply Hot. set_solver.
Qed.

Lemma get_system_some id t r :
  r ∈ t -> ir_id r = id -> is_Some (instance_get_for_owner SYSTEM_OWNER id t).
Proof.
  intros Hr Hid. unfold instance_get_for_owner.
  destruct (select_one _ t) eqn:E; [by eexists|]. rewrite select_one_none in E.
  specialize (E r Hr). unfold by_id in E. rewrite Hid, String.eqb_refl in E. done.
Qed.

Lemma destroy_expired_spec runs rows w :
  (forall n sb, fe_destroy n sb = Ok tt) ->
  (forall id, id ∈ map ir_id rows -> exists r, r ∈ fw_instances w /\ ir_id r = id) ->
  exists w', destroy_expired sv runs rows w = (w', Ok tt) /\ swept (map ir_id rows) w w'.
Proof.
  intros Hok. revert runs w. induction rows as [|row rows IH]; intros runs w Hrows.
  { exists w. split; [done|]. split_and!; intros; set_solver. }
  cbn [destroy_expired map]. pose proof (destroy_spec sv (runs 0%nat) SYSTEM_OWNER (ir_id row) false w) as H.
  unfold mbind at 1, svc_bind at 1, best_effort.
  destruct (destroy sv (runs 0%nat) SYSTEM_OWNER (ir_id row) false w) as [w1 [u|e]]; cbn [fst].
  - destruct H as (row' & _ & Hg & _).
    destruct (IH (fun k => runs (S k)) w1) as (w' & -> & Hsw).
    + intros id Hid. destruct (decide (id = ir_id row)) as [->|Hne]; [apply Hg|].
      destruct (Hrows id) as (r & Hr & Hrid); [cbn; set_solver|]. exists r. split; [|done].
      apply Hg; congruence.
    + exists w'. split; [done|]. by eapply swept_cons.
  - exfalso. destruct H as (_ & [[_ Hn]|(_ & sb & n & ce & Hd & _)]); [|by rewrite Hok in Hd].
    destruct (Hrows (ir_id row)) as (r & Hr & Hrid); [cbn; set_solver|].
    destruct (get_system_some (ir_id row) (fw_instances w) r Hr Hrid) as [x Hx]. congruence.
Qed.

Lemma destroy_expired_secrets runs rows w k :
  k.1 <> SYSTEM_OWNER ->
  user_rows (fw_secrets (destroy_expired sv runs rows w).1) !! k = user_rows (fw_secrets w) !! k.
Proof.
  intros Hk'. revert runs w. induction rows as [|row rows IH]; intros runs w; [done|].
  cbn [destroy_expired]. unfold mbind at 1, svc_bind at 1, best_effort. rewrite IH.
  pose proof (destroy_spec sv (runs 0%nat) SYSTEM_OWNER (ir_id row) false w) as H.
  destruct (destroy sv (runs 0%nat) SYSTEM_OWNER (ir_id row) false w) as [w1 [u|e]]; cbn [fst].
  - destruct H as (row' & _ & _ & _ & _ & _ & Hk). apply (ok_secrets _ _ _ _ _ Hk).
    intros n ->. by apply Hk'.
  - destruct H as ((_ & -> & _) & _). done.
Qed.
End sweep.

(** C23. Expiry takes effect: when the backend stops what it is told to stop,
    one sweep leaves no expired instance, ends the tokens of every instance it
    destroyed, and touches no instance that was pinned, unexpired or already
    destroyed. *)
Theorem sweep_destroys_expired {env : FleetEnv} {dir : CipherDirectory} {codec : EnvelopeCodec}
    {mc : McpCodec} (sv : ServiceConfig) (now : Z) (runs : nat -> FleetRun) (w : FleetWorld)
    (Hok : forall n sb, fe_destroy n sb = Ok tt) (Hwf : instances_wf (fw_instances w)) :
  exists w', run_once sv now runs w = (w', Ok tt) /\
    instance_expired now (fw_instances w') = [] /\
    (forall r, r ∈ fw_instances w -> is_expired now r = true ->
       forall t, t ∈ tw_tokens (fw_tokens w') -> tk_instance_id t = ir_id r -> token_live t = false) /\
    (forall r, r ∈ fw_instances w -> is_expired now r = false -> r ∈ fw_instances w').
Proof.
  set (rows := instance_expired now (fw_instances w)).
  destruct (destroy_expired_spec sv runs rows w Hok) as (w' & He & Hs & Ht & Hor & Hot).
  { intros id (r & -> & [Hr _]%elem_of_select)%list_elem_of_fmap. by exists r. }
  assert (forall r, r ∈ fw_instances w -> ir_id r ∈ map ir_id rows -> is_expired now r = true) as Hin.
  { intros r Hr (s & Hid & [Hs' Hx]%elem_of_select)%list_elem_of_fmap.
    assert (r = s) as -> by by apply (NoDup_map_inj ir_id (fw_instances w)). done. }
  exists w'. split_and!; [exact He| | |].
  - apply select_nil_iff. intros r Hr. destruct (is_expired now r) eqn:Hx; [|done].
    destruct (decide (ir_id r ∈ map ir_id rows)) as [Hd|Hd].
    + unfold is_expired, not_destroyed in Hx. rewrite (Hs r Hr Hd) in Hx. to_prop. done.
    + exfalso. apply Hd. apply list_elem_of_fmap_2. apply elem_of_select. split; [by apply Hor|done].
  - intros r Hr Hx t Ht' Hid. apply Ht; [done|]. rewrite Hid.
    apply list_elem_of_fmap_2, elem_of_select. done.
  - intros r Hr Hx. apply Hor; [|done]. intros Hd. rewrite (Hin r Hr Hd) in Hx. done.
Qed.

(** Expiry does not reach the MCP credentials: a sweep destroys instances
    in the name of the system owner and looks for their MCP records there, so
    every sealed credential of every user is still stored afterwards. *)
Theorem sweep_keeps_mcp_credentials {env : FleetEnv} {dir : CipherDirectory} {codec : EnvelopeCodec}
    {mc : McpCodec} (sv : ServiceConfig) (now : Z) (runs : nat -> FleetRun) (w : FleetWorld)
    (owner name : string) (Hown : owner <> SYSTEM_OWNER) :
  user_rows (fw_secrets (run_once sv now runs w).1) !! (owner, name) =
  user_rows (fw_secrets w) !! (owner, name).
Proof. unfold run_once, mbind, svc_bind, gets. by apply destroy_expired_secrets. Qed.

(** ** Steps confined to one instance *)

Definition present (id : string) (w : FleetWorld) : Prop := exists r, r ∈ fw_instances w /\ ir_id r = id.

(** Rows and tokens of other instances are as they were, and the row of this
    one does not vanish. *)
Definition only (id : string) (w w' : FleetWorld) : Prop :=
  (forall r, ir_id r <> id -> r ∈ fw_instances w' <-> r ∈ fw_instances w) /\
  (forall t, tk_instance_id t <> id -> t ∈ tw_tokens (fw_tokens w') <-> t ∈ tw_tokens (fw_tokens w)) /\
  (present id w -> present id w').

Lemma only_refl id w : only id w w.
Proof. done. Qed.
Lemma only_trans id w1 w2 w3 : only id w1 w2 -> only id w2 w3 -> only id w1 w3.
Proof.
  intros (A & B & P) (C & D & Q). split_and!; [intros x Hx; by rewrite C, A|intros x Hx; by rewrite D, B|auto].
Qed.
Lemma only_tables id w w' : fw_tokens w' = fw_tokens w -> only id w w'.
Proof. intros H. unfold only, present, fw_instances. by rewrite H. Qed.

#[export] Instance only_preorder id : PreOrder (only id).
Proof. split; [exact (only_refl id)|exact (only_trans id)]. Qed.

Lemma confined_remote {E A} id call (answer : nat -> result E A) : framed (only id) (remote call answer).
Proof. intros w. by apply only_tables. Qed.
Lemma confined_secrets {A} id (m : svc SecretDb SecretsError A) : framed (only id) (on_secrets m).
Proof. intros w. unfold on_secrets. destruct (m _). by apply only_tables. Qed.

#[export] Hint Resolve confined_remote confined_secrets : framed.

Lemma confined_update id f :
  (forall r, ir_id (f r) = ir_id r) ->
  framed (only id) (on_instances (update_found (by_id id) f)).
Proof.
  intros Hf w. unfold on_instances, update_found.
  destruct (Nat.eqb _ _); [by apply only_tables; destruct w as [[] ? ? ? ? ?]|].
  split_and!; [|done|].
  - intros r Hne. cbn. rewrite elem_of_update. split.
    + intros (s & Hs & ->). destruct (by_id id s) eqn:Eb; [|done]. unfold by_id in Eb. to_prop.
      by rewrite Hf in Hne.
    + intros Hr. exists r. unfold by_id. by rewrite (proj2 (String.eqb_neq _ _) Hne).
  - intros (r & Hr & Hid). exists (f r). cbn. rewrite Hf, elem_of_update. split; [|done].
    exists r. unfold by_id. by rewrite Hid, String.eqb_refl.
Qed.

Lemma confined_status id s now : framed (only id) (on_instances (update_status id s now)).
Proof. by apply confined_update. Qed.
Lemma confined_set_sandbox id sb : framed (only id) (on_instances (set_cube_sandbox_id id sb)).
Proof. by apply confined_update. Qed.
Lemma confined_replace id sb g k p c now :
  framed (only id) (on_instances (replace_cube_sandbox id sb g k p c now)).
Proof. by apply confined_update. Qed.

Lemma confined_create id row limit :
  ir_id row = id -> framed (only id) (on_instances (create_with_owner_limit row limit)).
Proof.
  intros Hid w. unfold on_instances, create_with_owner_limit, instance_create.
  destruct (_ <=? _); [by apply only_tables; destruct w as [[] ? ? ? ? ?]|].
  destruct (instance_get _ _); [by apply only_tables; destruct w as [[] ? ? ? ? ?]|].
  split_and!; [|done|].
  - intros r Hne. cbn. rewrite elem_of_app, list_elem_of_singleton.
    split; [intros [?| ->]; [done|congruence]|by left].
  - intros _. exists row. cbn. rewrite elem_of_app, list_elem_of_singleton. auto.
Qed.

Lemma confined_insert id row : ir_id row = id -> framed (only id) (on_instances (instance_create row)).
Proof.
  intros Hid w. unfold on_instances, instance_create.
  destruct (instance_get _ _); [by apply only_tables; destruct w as [[] ? ? ? ? ?]|].
  split_and!; [|done|].
  - intros r Hne. cbn. rewrite elem_of_app, list_elem_of_singleton.
    split; [intros [?| ->]; [done|congruence]|by left].
  - intros _. exists row. cbn. rewrite elem_of_app, list_elem_of_singleton. auto.
Qed.

Lemma tokens_only id w t' :
  tw_instances t' = fw_instances w ->
  (forall t, tk_instance_id t <> id -> t ∈ tw_tokens t' <-> t ∈ tw_tokens (fw_tokens w)) ->
  only id w (with_tokens_world t' w).
Proof.
  intros Hi Ht. assert (fw_instances (with_tokens_world t' w) = fw_instances w) as He by exact Hi.
  unfold only, present. by rewrite He.
Qed.

Lemma confined_revoke id run : framed (only id) (on_tokens (revoke_for_instance run id)).
Proof. intros w. apply tokens_only; [done|]. apply (revoked_tokens run id). Qed.

Lemma confined_bind_ip id ip : framed (only id) (on_tokens (bind_expected_src_ip id ip)).
Proof.
  intros w. unfold on_tokens, bind_expected_src_ip. destruct (is_empty _).
  { by apply only_tables. }
  apply tokens_only; [done|]. intros t Hne. cbn. rewrite elem_of_update. split.
  - intros (s & Hs & ->). destruct (_ && _) eqn:E; [|done]. to_prop. done.
  - intros Hr. exists t. by rewrite (proj2 (String.eqb_neq _ _) Hne).
Qed.

Lemma mint_exact {codec : EnvelopeCodec} {th : TokenHash} cipher ciphers run prefix id p w :
  (exists e, mint_with_prefix cipher ciphers run prefix id p w = (w, Err e)) \/
  exists s, mint_with_prefix cipher ciphers run prefix id p w =
    (with_tokens (fun t => t ++ [mkTokenRow s (token_lookup_key (prefix +:+ tn_uuid run)) id p
                                   (tn_now run) None None]) w, Ok (prefix +:+ tn_uuid run)).
Proof.
  unfold mint_with_prefix, mbind, svc_bind, gets, lift.
  destruct (seal_token _ _ _ _ _ _ _) as [s|e]; [|left; by eexists].
  unfold insert_token. destruct (existsb _ _); [left; by eexists|].
  destruct (instance_get _ _); [right|left]; by eexists.
Qed.

Lemma confined_mint {codec : EnvelopeCodec} {th : TokenHash} cipher ciphers id run prefix p :
  framed (only id) (on_tokens (mint_with_prefix cipher ciphers run prefix id p)).
Proof.
  intros w. unfold on_tokens.
  destruct (mint_exact cipher ciphers run prefix id p (fw_tokens w)) as [[e ->]|[s ->]].
  { by apply only_tables. }
  apply tokens_only; [done|]. intros t Hne. cbn. rewrite elem_of_app, list_elem_of_singleton.
  split; [intros [?| ->]; [done|by cbn in Hne]|by left].
Qed.

#[export] Hint Resolve confined_status confined_set_sandbox confined_replace confined_create confined_insert
  confined_revoke confined_bind_ip confined_mint : framed.

Section confined_service.
Context {R : HostResolver} {env : FleetEnv} {dir : CipherDirectory} {codec : EnvelopeCodec}.
Context {mc : McpCodec} {th : TokenHash} (cipher : EnvelopeCipher) (sv : ServiceConfig).

Lemma confined_push id i sb b : framed (only id) (push_with_retry i sb b).
Proof.
  unfold push_with_retry. generalize 12%nat as n, EmptyString as e.
  induction n as [|n IH]; intros e; cbn [push_attempts]; framed.
Qed.
Lemma confined_mint_runtime id run : framed (only id) (mint_runtime_tokens cipher run id).
Proof. unfold mint_runtime_tokens, token_mint, mint_ingest, mint_state_sync_for_generation. framed. Qed.
Lemma confined_abandon id run : framed (only id) (abandon run id).
Proof. unfold abandon. framed. Qed.
Lemma confined_refresh id : framed (only id) (refresh_egress_policy_best_effort).
Proof. apply confined_remote. Qed.
Lemma confined_bind_sandbox id info : framed (only id) (bind_runtime_tokens_to_sandbox_source id info).
Proof. unfold bind_runtime_tokens_to_sandbox_source. cbn zeta. framed. Qed.
Lemma confined_require id owner i : framed (only id) (require_row owner i).
Proof. unfold require_row. framed. Qed.
#[local] Hint Resolve confined_push confined_mint_runtime confined_abandon confined_refresh
  confined_bind_sandbox confined_require : framed.

Lemma confined_start id run args : framed (only id) (start_sandbox run id args).
Proof. unfold start_sandbox, create_sandbox. framed. Qed.
Lemma confined_attach id run info : framed (only id) (attach_sandbox sv run id info).
Proof. unfold attach_sandbox. framed. Qed.
Lemma confined_live id run : framed (only id) (go_live run id).
Proof. unfold go_live. framed. Qed.
Lemma confined_persist id run owner specs : framed (only id) (persist_mcp sv run owner id specs).
Proof. unfold persist_mcp. framed. Qed.
#[local] Hint Resolve confined_start confined_attach confined_live confined_persist : framed.
Lemma confined_configure_new id run sb b : framed (only id) (configure_new run id sb b).
Proof. unfold configure_new, destroy_sandbox. framed. Qed.
Lemma confined_body id sr owner row p i s : framed (only id) (configure_body_for_existing_row sv sr owner row p i s).
Proof. unfold configure_body_for_existing_row, mcp_servers_block_for_instance. framed. Qed.
#[local] Hint Resolve confined_configure_new confined_body : framed.
Lemma confined_configure_restored id run owner sb tk : framed (only id) (configure_restored sv run owner id sb tk).
Proof. unfold configure_restored. framed. Qed.
End confined_service.

#[export] Hint Resolve confined_push confined_mint_runtime confined_abandon confined_refresh
  confined_bind_sandbox confined_require confined_start confined_attach confined_live confined_persist
  confined_configure_new confined_body confined_configure_restored : framed.

(** ** Creating *)

(** What the sandbox backend and the reconfigurer can make fail *)
Definition backend_error (e : SwarmError) : Prop :=
  (exists ce, e = SwCube ce) \/ exists m, e = Internal ("configure-push failed: " +:+ m).

Definition quiet_errs {A} (m : fleet A) : Prop := forall w w' e, m w = (w', Err e) -> ~ backend_error e.

Lemma quiet_bind {A B} (m : fleet A) (f : A -> fleet B) :
  quiet_errs m -> (forall a, quiet_errs (f a)) -> quiet_errs (m ≫= f).
Proof. intros Hm Hf w w' e [H|(w1 & a & _ & H)]%svc_bind_err; [by eapply Hm|by eapply Hf]. Qed.
Lemma quiet_tokens {A} (m : svc TokenWorld StoreError A) : quiet_errs (on_tokens m).
Proof. intros w w' e (t & e' & _ & _ & ->)%on_tokens_err [[? [=]]|[? [=]]]. Qed.
Lemma quiet_instances {A} (m : Instances -> Instances * result StoreError A) : quiet_errs (on_instances m).
Proof. intros w w' e (t & e' & _ & _ & ->)%on_instances_err [[? [=]]|[? [=]]]. Qed.
Lemma quiet_ok {A} (m : fleet A) : (forall w, exists a, (m w).2 = Ok a) -> quiet_errs m.
Proof. intros Hm w w' e H. destruct (Hm w) as [a Ha]. by rewrite H in Ha. Qed.

Lemma not_backend e : match e with SwCube _ | Internal _ => False | _ => True end -> ~ backend_error e.
Proof. by intros H [[ce ->]|[m ->]]. Qed.

Lemma quiet_lift {A} (r : result SwarmError A) :
  (forall e, r = Err e -> ~ backend_error e) -> quiet_errs (lift r).
Proof. intros Hr w w' e [= _ H]. by apply Hr. Qed.

Section create.
Context {R : HostResolver} {env : FleetEnv} {dir : CipherDirectory} {codec : EnvelopeCodec}.
Context {mc : McpCodec} {th : TokenHash} (cipher : EnvelopeCipher) (sv : ServiceConfig).

Lemma mint_attempts_spec run w n k :
  exists r, mint_attempts n k run w = (w, r) /\
    match r with
    | Ok id => instance_get id (fw_instances w) = None
    | Err e => ~ backend_error e
    end.
Proof.
  revert k. induction n as [|n IH]; intros k; cbn [mint_attempts].
  - eexists. split; [reflexivity|]. intros [[? [=]]|[? [=]]].
  - unfold mbind, svc_bind, gets. destruct (instance_get (fr_candidate run k) (fw_instances w)) eqn:E.
    + apply IH.
    + by eexists.
Qed.

Lemma quiet_mint_runtime run id : quiet_errs (mint_runtime_tokens cipher run id).
Proof.
  unfold mint_runtime_tokens. do 3 (apply quiet_bind; [apply quiet_tokens|intros ?]). by apply quiet_ok; eauto.
Qed.

Lemma quiet_persist run owner id specs : quiet_errs (persist_mcp sv run owner id specs).
Proof.
  unfold persist_mcp. destruct (_ || _); [by apply quiet_ok; eauto|].
  intros w w' e H. unfold with_err in H. destruct (on_secrets _ w) as [w1 [?|?]]; [done|].
  injection H as _ <-. intros [[? [=]]|[? [=]]].
Qed.

Lemma quiet_attach run id info : quiet_errs (attach_sandbox sv run id info).
Proof.
  unfold attach_sandbox, bind_runtime_tokens_to_sandbox_source. cbn zeta.
  apply quiet_bind; [destruct (is_empty _); [by apply quiet_ok; eauto|apply quiet_tokens]|intros _].
  do 2 (apply quiet_bind; [apply quiet_instances|intros _]).
  destruct (sv_reconfigurer sv); by apply quiet_ok; eauto.
Qed.

Lemma compose_error managed caller e : compose_sandbox_env managed caller = Err e -> ~ backend_error e.
Proof.
  unfold compose_sandbox_env, validate_caller_env. case_bool_decide; [done|]. cbn.
  intros [= <-] [[? [=]]|[? [=]]].
Qed.


Lemma mcp_spec_error spec e : validate_mcp_server_spec sv spec = Err e -> ~ backend_error e.
Proof.
  assert (forall u e, validate_mcp_url sv u = Err e -> ~ backend_error e) as Hu.
  { unfold validate_mcp_url. intros u e' [H|(a & _ & H)]%result_bind_err; [|done].
    destruct (validate_outbound_url _ _ _ _); [done|]. cbn in H. simplify_eq. by apply not_backend. }
  unfold validate_mcp_server_spec. intros [H|(a & _ & H)]%result_bind_err; [by eapply Hu|].
  unfold validate_mcp_auth_urls in H. destruct (ms_auth spec); try done.
  apply result_bind_err in H as [H|(b & _ & H)]; [|done].
  apply traverse_err in H as (u & _ & H). by eapply Hu.
Qed.

(** The checks [create] makes before it writes anything *)
Lemma create_checks_quiet (req : CreateRequest) :
  quiet_errs (lift (assert_allowed_by_config (cr_network_policy req) (sv_allow_internal_network_policy sv))) /\
  quiet_errs (lift match cr_env req !! ENV_MODEL with
    | Some s => if is_empty (trim s) then Err (PolicyDenied "SWARM_MODEL is required") else Ok tt
    | None => Err (PolicyDenied "SWARM_MODEL is required") end) /\
  quiet_errs (lift (map_err policy_error (resolve (cr_network_policy req) (sv_llm_cidr sv)))) /\
  quiet_errs (lift (traverse (validate_mcp_server_spec sv) (cr_mcp_servers req))).
Proof.
  split_and!; apply quiet_lift; intros e H.
  - unfold assert_allowed_by_config in H. destruct (_ && _); simplify_eq. by apply not_backend.
  - destruct (cr_env req !! ENV_MODEL) as [s|]; [destruct (is_empty (trim s))|]; simplify_eq; by apply not_backend.
  - destruct (resolve _ _) as [|p]; [done|]. cbn in H. simplify_eq. by apply not_backend.
  - apply traverse_err in H as (s & _ & H). by eapply mcp_spec_error.
Qed.

Lemma mint_unique_quiet run : quiet_errs (mint_unique_instance_id run).
Proof.
  intros w w' e H. destruct (mint_attempts_spec run w 8 0) as (r & Hr & Hspec).
  unfold mint_unique_instance_id in H. rewrite Hr in H. by simplify_eq.
Qed.

Lemma admit_present row limit w w' :
  on_instances (create_with_owner_limit row limit) w = (w', Ok true) -> present (ir_id row) w'.
Proof.
  intros (i & H & ->)%on_instances_ok. unfold create_with_owner_limit, instance_create in H.
  destruct (_ <=? _); [done|]. destruct (instance_get _ _); [done|]. simplify_eq.
  exists row. cbn. rewrite elem_of_app, list_elem_of_singleton. auto.
Qed.

(** Up to the cube call: the new row is there and only it and its tokens are new. *)
Lemma start_sandbox_started run id args w w' info :
  start_sandbox run id args w = (w', Ok info) -> fe_create (length (fw_log w)) args = Ok info.
Proof.
  unfold start_sandbox. intros (w1 & r & Ha%attempt_ok & H)%svc_bind_ok.
  unfold create_sandbox, remote in Ha. injection Ha as _ <-.
  destruct (fe_create _ _) as [i|ce]; [by injection H as _ <-|].
  unfold abandon, best_effort, mbind, svc_bind, throw in H. by simplify_eq.
Qed.

Lemma create_reaches run owner req w w' e :
  create cipher sv run owner req w = (w', Err e) -> backend_error e ->
  exists id w1, instance_get id (fw_instances w) = None /\ only id w w1 /\ present id w1 /\
    ((exists args, start_sandbox run id args w1 = (w', Err e)) \/
     exists n args info body, fe_create n args = Ok info /\
       configure_new run id (sb_id info) body w1 = (w', Err e)).
Proof.
  intros H Hb. destruct (create_checks_quiet req) as (Q1 & Q2 & Q3 & Q4). unfold create in H.
  apply svc_bind_err in H as [H|(? & [] & [-> _]%lift_ok & H)]; [by apply Q1 in H|].
  apply svc_bind_err in H as [H|(? & [] & [-> _]%lift_ok & H)]; [by apply Q2 in H|].
  apply svc_bind_err in H as [H|(w0 & id & Hid & H)]; [by apply mint_unique_quiet in H|].
  destruct (mint_attempts_spec run w 8 0) as (r & Hr & Hspec). unfold mint_unique_instance_id in Hid.
  rewrite Hr in Hid. injection Hid as <- ->. cbn zeta in H.
  apply svc_bind_err in H as [H|(? & resolved & [-> _]%lift_ok & H)]; [by apply Q3 in H|].
  apply svc_bind_err in H as [H|(? & specs & [-> _]%lift_ok & H)]; [by apply Q4 in H|].
  set (row := new_row _ _ _ _ _ _ _ _ _ _ _) in H.
  apply svc_bind_err in H as [H|(w2 & admitted & Ha & H)]; [by apply quiet_instances in H|].
  apply svc_bind_err in H as [H|(? & [] & [-> Ht]%lift_ok & H)].
  { injection H as _ H. destruct admitted; [done|]. simplify_eq. by apply not_backend in Hb. }
  destruct admitted; [|done]. pose proof (admit_present row _ _ _ Ha) as Hp.
  pose proof (confined_create id row MAX_ACTIVE_INSTANCES_PER_OWNER eq_refl w) as C1. rewrite Ha in C1. cbn [fst] in C1.
  exists id. apply svc_bind_err in H as [H|(w3 & tokens & Hm & H)]; [by apply quiet_mint_runtime in H|].
  pose proof (confined_mint_runtime cipher id run w2) as C2. rewrite Hm in C2. cbn [fst] in C2.
  apply svc_bind_err in H as [H|(w4 & [] & Hpm & H)]; [by apply quiet_persist in H|].
  pose proof (confined_persist sv id run owner (cr_mcp_servers req) w3) as C3. rewrite Hpm in C3. cbn [fst] in C3.
  apply svc_bind_err in H as [H|(? & envm & [-> _]%lift_ok & H)].
  { injection H as _ H. by apply compose_error in H. }
  assert (only id w w4) as C by (eapply only_trans; [exact C1|by eapply only_trans]).
  assert (present id w4) as P by (apply C3, C2, Hp).
  apply svc_bind_err in H as [H|(w5 & info & Hs & H)]; [by exists w4; eauto 10|].
  pose proof (confined_start id run (mkSandboxArgs (cr_template_id req) envm None resolved) w4) as C4.
  rewrite Hs in C4. cbn [fst] in C4.
  apply svc_bind_err in H as [H|(w6 & [] & Hat & H)]; [by apply quiet_attach in H|].
  pose proof (confined_attach sv id run info w5) as C5. rewrite Hat in C5. cbn [fst] in C5.
  apply svc_bind_err in H as [H|(? & ? & _ & H)]; [|done].
  destruct (sv_reconfigurer sv); [|done]. apply start_sandbox_started in Hs.
  exists w6. split_and!; [done| | |by eauto 10].
  - eapply only_trans; [exact C|]. by eapply only_trans.
  - by apply C5, C4.
Qed.
End create.

Lemma gone_same id w w1 w' : fw_tokens w = fw_tokens w1 -> instance_gone id w w' -> instance_gone id w1 w'.
Proof. intros Ht [H1 H2 H3 H4 H5]. split; try done; unfold fw_instances in *; by rewrite <- Ht. Qed.

Section undo.
Context {env : FleetEnv}.

(** Revoking and marking, in either order with other calls in between *)
Lemma undo_gone id run w w1 :
  present id w -> fw_instances w1 = fw_instances w ->
  tw_tokens (fw_tokens w1) = tw_tokens (fw_tokens (on_tokens (revoke_for_instance (fr_token run 3) id) w).1) ->
  instance_gone id w (on_instances (update_status id Destroyed (fr_stamp run)) w1).1.
Proof.
  intros (r & Hr & Hid) Hi Ht.
  destruct (update_status_some id Destroyed (fr_stamp run) (fw_instances w) r Hr Hid)
    as (t' & Hu & Hst & Hoth & Hex).
  destruct (revoked_tokens (fr_token run 3) id (tw_tokens (fw_tokens w))) as [Hdead Hkeep].
  unfold on_instances. rewrite Hi, Hu. split; cbn; try done; by rewrite Ht.
Qed.

Lemma start_sandbox_failure run id args w w' e :
  present id w -> start_sandbox run id args w = (w', Err e) ->
  instance_gone id w w' /\ fw_log w' = fw_log w ++ [(CubeCreate args, fw_instances w)].
Proof.
  intros Hp H. unfold start_sandbox in H. apply svc_bind_err in H as [H|(w1 & r & Ha & H)].
  { unfold attempt in H. by destruct (create_sandbox args w). }
  apply (attempt_ok (E := SwarmError)) in Ha. destruct r as [info|ce]; [done|].
  unfold create_sandbox, remote in Ha. injection Ha as <- _.
  unfold abandon, best_effort, mbind, svc_bind, throw in H. injection H as <- _. split.
  - apply (undo_gone id run w); [exact Hp|reflexivity|reflexivity].
  - unfold on_instances. by destruct (update_status _ _ _ _).
Qed.

Lemma push_attempts_tables n e i sb b w :
  fw_tokens (push_attempts n e i sb b w).1 = fw_tokens w /\
  exists calls, fw_log (push_attempts n e i sb b w).1 = fw_log w ++ calls /\ (length calls <= n)%nat /\
    Forall (fun c => c = (Push i sb b, fw_instances w)) calls.
Proof.
  revert e w. induction n as [|n IH]; intros e w; cbn [push_attempts].
  { split; [done|]. exists []. by rewrite app_nil_r. }
  unfold mbind, svc_bind, attempt, remote.
  set (w1 := mkFleet _ _ _ _ _ _ _ _). destruct (fe_push (length (fw_log w)) i sb b) as [[]|e'].
  - split; [done|]. exists [(Push i sb b, fw_instances w)]. cbn. split_and!; [done|lia|by repeat constructor].
  - destruct (is_non_retryable_reconfigure_error e').
    + split; [done|]. exists [(Push i sb b, fw_instances w)]. cbn. split_and!; [done|lia|by repeat constructor].
    + destruct (IH e' w1) as (Ht & calls & Hl & Hn & Hf). split; [done|].
      exists ((Push i sb b, fw_instances w) :: calls). rewrite Hl. cbn. rewrite <- app_assoc.
      split_and!; [done|lia|by constructor].
Qed.

Lemma configure_new_failure run id sb body w w' e :
  present id w -> configure_new run id sb body w = (w', Err e) ->
  backend_error e -> instance_gone id w w' /\ exists calls t,
    fw_log w' = fw_log w ++ calls ++ [(CubeDestroy sb, t)].
Proof.
  intros Hp H Hb. unfold configure_new in H. apply svc_bind_err in H as [H|(w1 & r & Ha & H)].
  { unfold attempt in H. by destruct (push_with_retry id sb body w). }
  apply (attempt_ok (E := SwarmError)) in Ha.
  destruct (push_attempts_tables 12 "" id sb body w) as (Ht & calls & Hl & _).
  unfold push_with_retry in Ha. rewrite Ha in Ht, Hl. cbn [fst] in Ht, Hl.
  destruct r as [[]|err].
  { exfalso. unfold go_live in H. apply svc_bind_err in H as [H|(w2 & [] & _ & H)]; [|done].
    by apply quiet_instances in H. }
  unfold best_effort, destroy_sandbox, remote, mbind, svc_bind, throw in H. injection H as <- _.
  assert (present id w1) as Hp1 by (unfold present, fw_instances; by rewrite Ht). split.
  - apply (gone_same id w1); [done|]. apply (undo_gone id run w1); [exact Hp1|reflexivity|reflexivity].
  - exists calls. eexists. unfold on_instances. destruct (update_status _ _ _ _). cbn. rewrite Hl, <- app_assoc. done.
Qed.

Lemma start_sandbox_error run id args w w' e :
  start_sandbox run id args w = (w', Err e) -> exists ce, e = SwCube ce.
Proof.
  unfold start_sandbox. intros [H|(w1 & r & _ & H)]%svc_bind_err.
  - unfold attempt in H. by destruct (create_sandbox args w).
  - destruct r as [info|ce]; [done|]. exists ce. unfold abandon, best_effort, mbind, svc_bind, throw in H.
    by simplify_eq.
Qed.

Lemma configure_new_error run id sb body w w' e :
  configure_new run id sb body w = (w', Err e) -> backend_error e ->
  exists m, e = Internal ("configure-push failed: " +:+ m).
Proof.
  intros [H|(w1 & r & _ & H)]%svc_bind_err Hb.
  - unfold attempt in H. by destruct (push_with_retry id sb body w).
  - destruct r as [[]|err].
    + exfalso. unfold go_live in H. apply svc_bind_err in H as [H|(w2 & [] & _ & H)]; [|done].
      by apply quiet_instances in H.
    + exists err. unfold best_effort, mbind, svc_bind, throw in H. by simplify_eq.
Qed.
End undo.

Lemma gone_only id w w1 w' : only id w w1 -> instance_gone id w1 w' -> instance_gone id w w'.
Proof.
  intros (Hr & Ht & _) [H1 H2 H3 H4 H5]. split; [done|done|done| |].
  - intros r Hne. by rewrite H4, Hr.
  - intros t Hne. by rewrite H5, Ht.
Qed.

(** C11. A create that the backend fails leaves nothing usable behind: whether
    the sandbox could not be started or not be configured, the row that was
    inserted is marked destroyed, none of the tokens minted for it is live, a
    sandbox that was started is told to stop, and no other instance changed. *)
Theorem create_failure_cleans_up {R : HostResolver} {env : FleetEnv} {dir : CipherDirectory}
    {codec : EnvelopeCodec} {mc : McpCodec} {th : TokenHash} (cipher : EnvelopeCipher) (sv : ServiceConfig)
    (run : FleetRun) (owner : string) (req : CreateRequest) (w w' : FleetWorld) (e : SwarmError)
    (Hc : create cipher sv run owner req w = (w', Err e)) (Hb : backend_error e) :
  exists id, instance_get id (fw_instances w) = None /\ instance_gone id w w' /\
    match e with
    | SwCube _ => exists args before t, fw_log w' = before ++ [(CubeCreate args, t)]
    | _ => exists n args info before t, fe_create n args = Ok info /\
             fw_log w' = before ++ [(CubeDestroy (sb_id info), t)]
    end.
Proof.
  destruct (create_reaches cipher sv run owner req w w' e Hc Hb) as (id & w1 & Hnew & Ho & Hp & H).
  exists id. split; [done|]. destruct H as [(args & H)|(n & args & info & body & Hi & H)].
  - destruct (start_sandbox_failure run id args w1 w' e Hp H) as [Hg Hl].
    split; [by eapply gone_only|]. destruct (start_sandbox_error run id args w1 w' e H) as [ce ->]. eauto.
  - destruct (configure_new_failure run id (sb_id info) body w1 w' e Hp H Hb) as [Hg (calls & t & Hl)].
    split; [by eapply gone_only|]. destruct (configure_new_error run id (sb_id info) body w1 w' e H Hb) as [m ->].
    eexists n, args, info, _, t. split; [done|]. rewrite Hl, app_assoc. done.
Qed.

(** ** A concrete fleet *)

(** Ciphers that leave texts as they are, so that examples compute *)
Definition plain_cipher : EnvelopeCipher := mkCipher (fun _ p => Ok p) Ok.
#[export] Instance plain_directory : CipherDirectory := {|
  for_user _ := Ok plain_cipher;
  for_context c := Ok (mkVersioned (legacy_key_user c) 1 plain_cipher);
  active_key_meta c := Ok (legacy_key_user c, 1);
  for_key_id _ _ := Ok plain_cipher
|}.
#[export] Instance plain_codec : EnvelopeCodec := {|
  env_to_vec e := Ok (ev_ciphertext e);
  env_from_slice _ := None;
  plain_to_vec p := Ok (pl_secret_b64 p);
  plain_from_slice s := Err "plaintext";
  b64_encode s := s;
  b64_decode s := Ok s
|}.
#[export] Existing Instance toy_mcp.
#[export] Existing Instance toy_hash.
#[export] Instance no_hosts : HostResolver := {| resolve_ipv4 _ := Ok [] |}.

(** A backend whose sandboxes start at 10.0.0.7 and whose agents refuse a push
    with [refusal] *)
Definition example_fleet (start : result CubeError SandboxInfo) (refusal : option string) : FleetEnv := {|
  fe_create _ _ := start;
  fe_destroy _ _ := Ok tt;
  fe_push _ _ _ _ := match refusal with None => Ok tt | Some e => Err e end;
  fe_restore_file _ _ _ _ := Ok tt;
  fe_snapshot _ _ _ := Ok (mkSnapInfo "s1" "/snap" "10.0.0.2");
  fe_is_idle _ _ _ := Ok (true, 0);
  fe_quiesce _ _ _ := Ok true;
  fe_unquiesce _ _ _ := Ok tt;
  fe_promote _ _ := Ok None;
  fe_pull _ row := Ok (sn_path row);
  fe_sink_delete _ _ := Ok tt;
  fe_disk _ _ := Ok (Dir [("disk.img", File "bytes")]);
  fe_url_parse _ := Err "no urls";
  fe_lookup_host _ _ := Ok []
|}.
Definition example_sandbox : SandboxInfo := mkSandbox "sb1" " 10.0.0.7 " "https://sb1.example".
Definition example_sv : ServiceConfig :=
  mkService "https://swarm.example/llm" true None None (mkOutboundUrlPolicy true false false)
    true false true true false.
Definition example_run : FleetRun :=
  mkFleetRun 1000 1001 (fun k => match k with O => "i" | _ => "fresh" end) "bearer" "gen"
    (fun k => example_token_run (match k with O => "u0" | 1%nat => "u1" | _ => "u2" end))
    (fun _ => mkSealRun 1000 "r") "snap" (fun k => 30 * Z.of_nat k).
Definition example_world (rows : Instances) : FleetWorld :=
  mkFleet (mkTokenWorld [] rows) (mkSecretDb ∅ ∅) [] [] (mkStateDb [] 1) [] [] [].
Definition example_create (env : env_map) : CreateRequest :=
  mkCreate "tpl" (Some "n") None env (Some 60) NoLocalNet [].

Lemma sweep_destroys_expired_witness :
  exists w', run_once (env := example_fleet (Ok example_sandbox) None) example_sv 500 (fun _ => example_run)
      (example_world [example_row "i" "a"]) = (w', Ok tt) /\
    instance_expired 500 (fw_instances w') = [] /\
    instance_expired 500 (fw_instances (example_world [example_row "i" "a"])) <> [].
Proof.
  destruct (sweep_destroys_expired (env := example_fleet (Ok example_sandbox) None) example_sv 500
    (fun _ => example_run) (example_world [example_row "i" "a"])) as (w' & H & He & _).
  - reflexivity.
  - repeat constructor; set_solver.
  - exists w'. split; [exact H|]. split; [exact He|done].
Defined.

Lemma sweep_keeps_mcp_credentials_witness :
  let w := mkFleet (mkTokenWorld [] [example_row "i" "a"])
             (mkSecretDb {[("a", entry_key "i" "github") := "sealed"]} ∅) [] [] (mkStateDb [] 1) [] [] [] in
  user_rows (fw_secrets (run_once (env := example_fleet (Ok example_sandbox) None) example_sv 500
    (fun _ => example_run) w).1) !! ("a", entry_key "i" "github") = Some "sealed".
Proof.
  intros w. rewrite (sweep_keeps_mcp_credentials (env := example_fleet (Ok example_sandbox) None) example_sv 500
    (fun _ => example_run) w "a" (entry_key "i" "github")); [reflexivity|done].
Defined.

Definition failed_create : FleetWorld :=
  (create (env := example_fleet (Ok example_sandbox) (Some "did not apply requested models")) plain_cipher
     example_sv example_run "a" (example_create {["SWARM_MODEL" := "m1"]}) (example_world [example_row "i2" "a"])).1.

Lemma create_failure_cleans_up_witness :
  exists id, instance_gone id (example_world [example_row "i2" "a"]) failed_create /\
    exists n args info before t, fe_create (FleetEnv := example_fleet (Ok example_sandbox)
      (Some "did not apply requested models")) n args = Ok info /\
      fw_log failed_create = before ++ [(CubeDestroy (sb_id info), t)].
Proof.
  destruct (create_failure_cleans_up (env := example_fleet (Ok example_sandbox)
    (Some "did not apply requested models")) plain_cipher example_sv example_run "a"
    (example_create {["SWARM_MODEL" := "m1"]}) (example_world [example_row "i2" "a"]) failed_create
    (Internal "configure-push failed: did not apply requested models")) as (id & Hnew & Hg & Hl).
  - vm_compute. reflexivity.
  - right. exists "did not apply requested models". reflexivity.
  - exists id. split; [exact Hg|exact Hl].
Defined.
