(* ===== verification/InstanceCreation.v ===== *)
(** * Creating and restoring instances

    What a successful [create] and [restore] of [InstanceService] leave in the
    tables and ask of the sandbox backend, what an error in between leaves
    behind, and the bound on the retries of a configure push. *)

From Stdlib Require Import ZArith Ascii Lia.
From stdpp Require Import base list strings gmap option.
From S2P Require Import Prelude RustStr RustNet Json Codec Store Envelope NetworkPolicy SandboxEnv Traits.
From S2P Require Import UpstreamPolicy InstanceStore TokenStore Secrets McpRecords StateFiles InstanceService.
From S2P Require Import InstanceLifecycle.

Local Open Scope string_scope.
Local Open Scope list_scope.
Local Open Scope Z_scope.

(** ** A successful create *)

(** The row once its sandbox runs *)
Definition live_row (r : InstanceRow) (sandbox : string) : InstanceRow :=
  mkInstanceRow (ir_id r) (ir_owner_id r) (ir_name r) (ir_task r) (Some sandbox) (ir_state_generation r)
    (ir_template_id r) Live (ir_bearer_token r) (ir_pinned r) (ir_expires_at r) (ir_last_active_at r)
    (ir_last_probe_at r) (ir_last_probe_status r) (ir_created_at r) (ir_destroyed_at r) (ir_rotated_to r)
    (ir_network_policy r) (ir_network_policy_cidrs r) (ir_models r) (ir_tools r).


Lemma update_last id f t row :
  instance_get id t = None -> ir_id row = id ->
  update_found (by_id id) f (t ++ [row]) = (t ++ [f row], Ok tt).
Proof.
  intros Hn Hid. unfold instance_get in Hn. rewrite select_one_none in Hn. unfold update_found.
  destruct (Nat.eqb _ _) eqn:E.
  { apply Nat.eqb_eq, affected_zero with (r := row) in E; [|set_solver]. unfold by_id in E. to_prop. done. }
  f_equal. unfold update. rewrite map_app. cbn. unfold by_id at 2. rewrite Hid, String.eqb_refl. f_equal.
  rewrite <- (map_id t) at 2. apply map_ext_in. intros r Hr. rewrite Hn; [done|by apply list_elem_of_In].
Qed.

Lemma admit_exact row limit w w' :
  on_instances (create_with_owner_limit row limit) w = (w', Ok true) ->
  Z.of_nat (length (active_rows (ir_owner_id row) (fw_instances w))) < limit /\
  w' = with_instances (fw_instances w ++ [row]) w.
Proof.
  intros (i & H & ->)%on_instances_ok. unfold create_with_owner_limit, instance_create in H.
  destruct (_ <=? _) eqn:E; [done|]. destruct (instance_get _ _); [done|]. simplify_eq.
  to_prop. done.
Qed.

(** The address the tokens of a new sandbox are bound to *)
Definition bound_ip (host_ip : string) : option string :=
  if is_empty (trim host_ip) || is_empty (trim (trim host_ip)) then None else Some (trim (trim host_ip)).

(** Binding the three tokens of a new instance, which has no others *)
Lemma bind_last id info toks a b c w w' :
  (forall t, t ∈ toks -> tk_instance_id t <> id) ->
  Forall (fun t => tk_instance_id t = id /\ tk_revoked_at t = None /\ tk_expected_src_ip t = None) [a; b; c] ->
  tw_tokens (fw_tokens w) = toks ++ [a; b; c] ->
  bind_runtime_tokens_to_sandbox_source id info w = (w', Ok tt) ->
  let bind t := mkTokenRow (tk_token t) (tk_lookup t) (tk_instance_id t) (tk_provider t) (tk_created_at t)
                  (tk_revoked_at t) (bound_ip (sb_host_ip info)) in
  w' = with_tokens_world (mkTokenWorld (toks ++ map bind [a; b; c]) (fw_instances w)) w.
Proof.
  intros Hno Hall Ht H. cbn zeta. unfold bind_runtime_tokens_to_sandbox_source in H. cbn zeta in H.
  unfold bound_ip. apply Forall_cons_iff in Hall as [(Ia & Ra & Sa) Hall].
  apply Forall_cons_iff in Hall as [(Ib & Rb & Sb) Hall]. apply Forall_cons_iff in Hall as [(Ic & Rc & Sc) _].
  destruct (is_empty (trim (sb_host_ip info))) eqn:E1; cbn [orb].
  { injection H as <-. cbn [map]. rewrite <- Sa at 1. rewrite <- Sb at 1. rewrite <- Sc at 1.
    destruct w as [[toks' ins] ? ? ? ? ?], a, b, c. cbn in *. by rewrite <- Ht. }
  apply on_tokens_ok in H as (t' & H & ->). unfold bind_expected_src_ip in H. cbn zeta in H.
  destruct (is_empty (trim (trim (sb_host_ip info)))) eqn:E2.
  { injection H as <-. cbn [map]. rewrite <- Sa at 1. rewrite <- Sb at 1. rewrite <- Sc at 1.
    destruct w as [[toks' ins] ? ? ? ? ?], a, b, c. cbn in *. by rewrite <- Ht. }
  injection H as <-. unfold with_tokens. rewrite Ht. do 2 f_equal. unfold update. rewrite map_app. f_equal.
  - rewrite <- (map_id toks) at 2. apply map_ext_in. intros t Hin.
    rewrite (proj2 (String.eqb_neq _ _)); [done|]. apply Hno. by apply list_elem_of_In.
  - cbn [map]. unfold token_live. by rewrite Ia, Ib, Ic, Ra, Rb, Rc, String.eqb_refl.
Qed.

(** Every token belongs to a row: the foreign key of [proxy_tokens]. *)
Definition tokens_owned (w : FleetWorld) : Prop :=
  forall t, t ∈ tw_tokens (fw_tokens w) -> is_Some (instance_get (tk_instance_id t) (fw_instances w)).

(** The answers to [k] pushes from position [n] on, the last being [last] *)
Definition pushes_answered {env : FleetEnv} (i sb : string) (body : ReconfigureBody) (n k : nat)
    (last : result string unit) : Prop :=
  (forall j, (S j < k)%nat -> exists e, fe_push (n + j) i sb body = Err e /\
     is_non_retryable_reconfigure_error e = false) /\
  fe_push (n + (k - 1)) i sb body = last.

Lemma push_attempts_spec {env : FleetEnv} attempts e i sb body w :
  (0 < attempts)%nat ->
  exists k r, (1 <= k <= attempts)%nat /\ (push_attempts attempts e i sb body w).2 = r /\
    pushes_answered i sb body (length (fw_log w)) k r /\
    fw_log (push_attempts attempts e i sb body w).1 =
      fw_log w ++ repeat (Push i sb body, fw_instances w) k /\
    match r with
    | Ok _ => True
    | Err e' => is_non_retryable_reconfigure_error e' = true \/ k = attempts
    end.
Proof.
  revert e w. induction attempts as [|n IH]; intros e w Hpos; [lia|].
  cbn [push_attempts]. unfold mbind, svc_bind, attempt, remote.
  set (w1 := mkFleet _ _ _ _ _ _ _ _).
  destruct (fe_push (length (fw_log w)) i sb body) as [[]|e1] eqn:Ha.
  { exists 1%nat, (Ok tt). unfold pushes_answered. cbn. rewrite Nat.add_0_r. split_and!; try done; lia. }
  destruct (is_non_retryable_reconfigure_error e1) eqn:Hn.
  { exists 1%nat, (Err e1). unfold pushes_answered. cbn. rewrite Nat.add_0_r. split_and!; try done; [lia..|by left]. }
  destruct n as [|n].
  { exists 1%nat, (Err e1). unfold pushes_answered. cbn. rewrite Nat.add_0_r. split_and!; try done; [lia..|by right]. }
  destruct (IH e1 w1) as (k & r & Hk & Hr & (Hearly & Hlast) & Hlog & Hres); [lia|].
  exists (S k), r. cbn [w1 fw_log fw_instances fw_tokens] in *. rewrite length_app in Hearly, Hlast. cbn [length] in *.
  split_and!; [lia|lia|done|split| |].
  - intros [|j] Hj; [rewrite Nat.add_0_r; eauto|].
    destruct (Hearly j) as (e2 & He2 & Hn2); [lia|]. exists e2.
    replace (length (fw_log w) + S j)%nat with (length (fw_log w) + 1 + j)%nat by lia. done.
  - rewrite <- Hlast. f_equal. lia.
  - rewrite Hlog, <- app_assoc. done.
  - destruct r; [done|]. destruct Hres as [He| ->]; auto.
Qed.

Section create_ok.
Context {R : HostResolver} {env : FleetEnv} {dir : CipherDirectory} {codec : EnvelopeCodec}.
Context {mc : McpCodec} {th : TokenHash} (cipher : EnvelopeCipher) (sv : ServiceConfig).

Lemma mint_ok_exact run prefix id p w w' token :
  on_tokens (mint_with_prefix cipher (Some dir) run prefix id p) w = (w', Ok token) ->
  token = prefix +:+ tn_uuid run /\ exists s,
    w' = with_tokens_world (with_tokens (fun t => t ++ [mkTokenRow s (token_lookup_key token) id p
           (tn_now run) None None]) (fw_tokens w)) w.
Proof.
  intros (t & H & ->)%on_tokens_ok.
  destruct (mint_exact cipher (Some dir) run prefix id p (fw_tokens w)) as [[e He]|[s He]];
    rewrite He in H; [done|]. injection H as <- <-. split; [done|]. by exists s.
Qed.

Lemma mint_runtime_exact run id w w' tk :
  mint_runtime_tokens cipher run id w = (w', Ok tk) ->
  rt_proxy tk = "pt_" +:+ tn_uuid (fr_token run 0) /\ rt_ingest tk = "it_" +:+ tn_uuid (fr_token run 1) /\
  rt_state_sync tk = "st_" +:+ tn_uuid (fr_token run 2) /\ rt_state_generation tk = fr_generation run /\
  exists a b c, Forall (fun t => tk_instance_id t = id /\ tk_revoked_at t = None /\ tk_expected_src_ip t = None)
      [a; b; c] /\
    tk_provider a = SHARED_PROVIDER /\ tk_lookup a = token_lookup_key (rt_proxy tk) /\
    tk_provider b = INGEST_PROVIDER /\ tk_lookup b = token_lookup_key (rt_ingest tk) /\
    tk_provider c = state_sync_provider (fr_generation run) /\ tk_lookup c = token_lookup_key (rt_state_sync tk) /\
    w' = with_tokens_world (with_tokens (fun t => t ++ [a; b; c]) (fw_tokens w)) w.
Proof.
  unfold mint_runtime_tokens, token_mint, mint_ingest, mint_state_sync_for_generation. intros H. inv_svc.
  repeat match goal with H : on_tokens (mint_with_prefix _ _ _ _ _ _) _ = _ |- _ =>
    apply mint_ok_exact in H as [-> [? ->]] end. cbn [rt_proxy rt_ingest rt_state_sync rt_state_generation].
  split_and!; try done. eexists _, _, _. split_and!; cycle 7.
  - unfold with_tokens_world, with_tokens. cbn. by rewrite <- !app_assoc.
  - repeat constructor.
  - done.
  - done.
  - done.
  - done.
  - done.
  - done.
Qed.

Lemma push_ok_tables i sb b w w' :
  push_with_retry i sb b w = (w', Ok tt) ->
  fw_tokens w' = fw_tokens w /\
  exists k, (1 <= k <= 12)%nat /\ fw_log w' = fw_log w ++ repeat (Push i sb b, fw_instances w) k.
Proof.
  intros H. destruct (push_attempts_tables 12 "" i sb b w) as (Ht & _).
  destruct (push_attempts_spec 12 "" i sb b w) as (k & r & Hk & _ & _ & Hl & _); [lia|].
  unfold push_with_retry in H. rewrite H in Ht, Hl. eauto.
Qed.

(** From the started sandbox to the live row *)
Lemma finish_exact run id t row info toks ta tb tc w w1 w' l :
  instance_get id t = None -> ir_id row = id -> fw_instances w = t ++ [row] ->
  (forall t, t ∈ toks -> tk_instance_id t <> id) ->
  Forall (fun t => tk_instance_id t = id /\ tk_revoked_at t = None /\ tk_expected_src_ip t = None) [ta; tb; tc] ->
  tw_tokens (fw_tokens w) = toks ++ [ta; tb; tc] ->
  attach_sandbox sv run id info w = (w1, Ok tt) ->
  (if sv_reconfigurer sv
   then exists w2, fw_tokens w2 = fw_tokens w1 /\ fw_log w2 = fw_log w1 ++ l /\ go_live run id w2 = (w', Ok tt)
   else w' = w1 /\ l = []) ->
  let bind t := mkTokenRow (tk_token t) (tk_lookup t) (tk_instance_id t) (tk_provider t) (tk_created_at t)
                  (tk_revoked_at t) (bound_ip (sb_host_ip info)) in
  fw_instances w' = t ++ [live_row row (sb_id info)] /\
  tw_tokens (fw_tokens w') = toks ++ map bind [ta; tb; tc] /\
  exists tbl, fw_log w' = fw_log w ++ l ++ [(RefreshEgress, tbl)].
Proof.
  intros Hn Hid Ht Hno Hall Htk0 Hat H. cbn zeta. unfold attach_sandbox in Hat.
  apply svc_bind_ok in Hat as (wb & [] & Hb & Hat).
  apply (bind_last id info toks ta tb tc w wb Hno Hall Htk0) in Hb. cbn zeta in Hb.
  rewrite Ht in Hb. set (bound := toks ++ _) in Hb |- *. clearbody bound. subst wb. inv_svc.
  repeat match goal with H : on_instances _ _ = (_, Ok _) |- _ => apply on_instances_ok in H as (? & H & ->) end.
  cbn in *. unfold set_cube_sandbox_id in *. rewrite (update_last id _ t row) in * by done. simplify_eq.
  unfold update_status in *. cbn in *. rewrite update_last in * by done. simplify_eq.
  destruct (sv_reconfigurer sv) eqn:Hrc.
  - inv_svc. destruct H as (w2 & Htk & Hl & H). unfold go_live in H. inv_svc.
    match goal with H : on_instances _ _ = (_, Ok _) |- _ => apply on_instances_ok in H as (? & H & ->) end.
    unfold fw_instances in *. rewrite Htk in *. cbn in *. unfold update_status in *.
    rewrite update_last in * by done. simplify_eq.
    unfold refresh_egress_policy_best_effort, remote in H. injection H as <-. cbn. rewrite Hl. cbn.
    split_and!; [done|by rewrite Htk|]. eexists. by rewrite <- app_assoc.
  - unfold refresh_egress_policy_best_effort, remote in Hat. injection Hat as <-. destruct H as [-> ->]. cbn.
    split_and!; [done|done|by eexists].
Qed.

Lemma persist_tables run owner id specs w w' :
  persist_mcp sv run owner id specs w = (w', Ok tt) -> fw_tokens w' = fw_tokens w /\ fw_log w' = fw_log w.
Proof.
  unfold persist_mcp. destruct (_ || _); intros H; inv_svc; [done|].
  unfold on_secrets in H. destruct (put_all _ _ _ _ _) as [s r]. by simplify_eq.
Qed.

Lemma start_ok_exact run id args w w' info :
  start_sandbox run id args w = (w', Ok info) ->
  fe_create (length (fw_log w)) args = Ok info /\ fw_tokens w' = fw_tokens w /\
  fw_log w' = fw_log w ++ [(CubeCreate args, fw_instances w)].
Proof.
  unfold start_sandbox. intros H. inv_svc.
  match goal with H : attempt _ _ = _ |- _ => apply (attempt_ok (E := SwarmError)) in H; rename H into Hc end.
  unfold create_sandbox, remote in Hc. injection Hc as <- Hr.
  match goal with H : match ?r with _ => _ end _ = _ |- _ => destruct r; [|inv_svc; done] end.
  inv_svc. done.
Qed.


Lemma secrets_tables {A} (m : svc SecretDb SecretsError A) w :
  fw_tokens (on_secrets m w).1 = fw_tokens w /\ fw_log (on_secrets m w).1 = fw_log w.
Proof. unfold on_secrets. by destruct (m _). Qed.

Lemma body_tables sr owner row p i s w w' b :
  configure_body_for_existing_row sv sr owner row p i s w = (w', Ok b) ->
  fw_tokens w' = fw_tokens w /\ fw_log w' = fw_log w.
Proof.
  unfold configure_body_for_existing_row, mcp_servers_block_for_instance. intros H. inv_svc.
  destruct (negb (sv_mcp_secrets sv)); inv_svc; [done|].
  match goal with H : attempt _ _ = _ |- _ => apply (attempt_ok (E := SwarmError)) in H; rename H into Ha end.
  match type of Ha with on_secrets ?m ?v = _ => pose proof (secrets_tables m v) as [H1 H2]; rewrite Ha in H1, H2 end.
  done.
Qed.

Lemma configure_restored_live run owner id sb tk w w' :
  configure_restored sv run owner id sb tk w = (w', Ok tt) ->
  exists l w2, fw_tokens w2 = fw_tokens w /\ fw_log w2 = fw_log w ++ l /\ go_live run id w2 = (w', Ok tt).
Proof.
  unfold configure_restored. intros H. apply svc_bind_ok in H as (w1 & row & [-> _]%require_row_ok & H).
  apply svc_bind_ok in H as (w2 & b & [Hb1 Hb2]%body_tables & H).
  apply svc_bind_ok in H as (w3 & [] & Hp & H). apply with_err_ok in Hp.
  apply push_ok_tables in Hp as (Htk & k & _ & Hl). eexists _, w3. by rewrite Htk, Hl, Hb1, Hb2.
Qed.


End create_ok.



(** ** Restoring, and what the errors in between leave behind *)

Lemma active_rows_snoc t row :
  not_destroyed row = true ->
  length (active_rows (ir_owner_id row) (t ++ [row])) = S (length (active_rows (ir_owner_id row) t)).
Proof.
  intros H. unfold active_rows. rewrite select_app, select_cons, length_app, H, String.eqb_refl. cbn. lia.
Qed.

Section restore_ok.
Context {R : HostResolver} {env : FleetEnv} {dir : CipherDirectory} {codec : EnvelopeCodec}.
Context {mc : McpCodec} {th : TokenHash} (cipher : EnvelopeCipher) (sv : ServiceConfig).

Lemma insert_exact row w w' :
  on_instances (instance_create row) w = (w', Ok tt) -> w' = with_instances (fw_instances w ++ [row]) w.
Proof.
  intros (i & H & ->)%on_instances_ok. unfold instance_create in H. destruct (instance_get _ _); by simplify_eq.
Qed.

Lemma mint_runtime_errs run id w w' e :
  mint_runtime_tokens cipher run id w = (w', Err e) -> exists s, e = SwStore s.
Proof.
  unfold mint_runtime_tokens. intros H.
  do 3 (apply svc_bind_err in H as [H|(? & ? & _ & H)];
    [apply on_tokens_err in H as (? & ? & _ & _ & ->); by eexists|]). done.
Qed.

Lemma persist_errs run owner id specs w w' e :
  persist_mcp sv run owner id specs w = (w', Err e) -> exists m, e = Internal m.
Proof.
  unfold persist_mcp. destruct (_ || _); [done|]. intros H. unfold with_err in H.
  destruct (on_secrets _ w) as [w1 [?|?]]; [done|]. injection H as _ <-. by eexists.
Qed.

Lemma restore_exact run owner req w w' c :
  restore cipher sv run owner req w = (w', Ok c) -> tokens_owned w ->
  exists row info, instance_get (ci_id c) (fw_instances w) = None /\ ir_id row = ci_id c /\
    ir_owner_id row = owner /\ fw_instances w' = fw_instances w ++ [live_row row (sb_id info)].
Proof.
  intros H Hfk. unfold restore in H. inv_svc.
  match goal with H : mint_unique_instance_id _ _ = _ |- _ => rename H into Hid end.
  destruct (mint_attempts_spec run w 8 0) as (r & Hr & Hnew). unfold mint_unique_instance_id in Hid.
  rewrite Hr in Hid. injection Hid as <- ->. cbn zeta in *. inv_svc.
  match goal with H : match rr_source_instance_id req with _ => _ end _ = (?v, _) |- _ =>
    assert (v = w) as -> by (destruct (rr_source_instance_id req); inv_svc;
      [match goal with H : require_row _ _ _ = _ |- _ => by apply require_row_ok in H as [-> _] end|done]) end.
  match goal with H : on_instances _ _ = (_, Ok ?b) |- _ => destruct b; rename H into Hadm end.
  match goal with H : mint_runtime_tokens _ _ _ _ = (?w, Ok ?t) |- _ => rename H into Hm; rename w into wm; rename t into tk end.
  match goal with H : start_sandbox _ _ _ _ = (?w, Ok ?i) |- _ => rename H into Hs; rename w into ws; rename i into info end.
  match goal with H : attach_sandbox _ _ _ _ _ = (?w, Ok ?t) |- _ => rename H into Hat; rename w into wa; destruct t end.
  match goal with H : (if sv_reconfigurer sv then _ else _) _ = (?v, Ok ?t) |- _ =>
    rename H into Hcf; rename v into wf; destruct t end.
  match goal with H : instance_get ?x _ = None |- _ => rename x into id end.
  apply insert_exact in Hadm as ->.
  apply mint_runtime_exact in Hm as (_ & _ & _ & _ & ta & tb & tc & Hall & _ & _ & _ & _ & _ & _ & ->).
  apply start_ok_exact in Hs as (_ & Hts & _). set (row := new_row _ _ _ _ _ _ _ _ _ _ _) in *.
  assert (fw_instances ws = fw_instances w ++ [row]) as Hi by (unfold fw_instances; by rewrite Hts).
  assert (exists l, if sv_reconfigurer sv
          then exists w2, fw_tokens w2 = fw_tokens wa /\ fw_log w2 = fw_log wa ++ l /\ go_live run id w2 = (wf, Ok tt)
          else wf = wa /\ l = []) as [l Hlive].
  { destruct (sv_reconfigurer sv); [by eapply configure_restored_live|]. exists []. by injection Hcf as <-. }
  eapply (finish_exact sv run id (fw_instances w) row info (tw_tokens (fw_tokens w)) ta tb tc ws wa) in Hlive
    as (Hrows & _); [|done|done|done| |done| |done].
  - by exists row, info.
  - intros t Ht Hid. destruct (Hfk t Ht) as [x Hx]. rewrite Hid in Hx. congruence.
  - by rewrite Hts.
Qed.
End restore_ok.

(** Restoring ignores the quota: a successful restore adds one live
    instance to its owner, however many there were. *)
Theorem restore_ignores_quota {R : HostResolver} {env : FleetEnv} {dir : CipherDirectory}
    {codec : EnvelopeCodec} {mc : McpCodec} {th : TokenHash} (cipher : EnvelopeCipher) (sv : ServiceConfig)
    (run : FleetRun) (owner : string) (req : RestoreRequest) (w w' : FleetWorld) (c : CreatedInstance)
    (Hr : restore cipher sv run owner req w = (w', Ok c)) (Hfk : tokens_owned w) :
  length (active_rows owner (fw_instances w')) = S (length (active_rows owner (fw_instances w))).
Proof.
  destruct (restore_exact cipher sv run owner req w w' c Hr Hfk) as (row & info & _ & _ & <- & ->).
  by apply (active_rows_snoc _ (live_row row (sb_id info))).
Qed.

(** A create that is refused for a reserved variable leaves its row and
    its tokens behind: if it got as far as inserting the row, then no sandbox
    was started, yet the row stays, counts against the owner's quota, and the
    three tokens minted for it are live. *)
Theorem reserved_env_leaks_instance {R : HostResolver} {env : FleetEnv} {dir : CipherDirectory}
    {codec : EnvelopeCodec} {mc : McpCodec} {th : TokenHash} (cipher : EnvelopeCipher) (sv : ServiceConfig)
    (run : FleetRun) (owner : string) (req : CreateRequest) (w w' : FleetWorld) (e : SwarmError)
    (Hc : create cipher sv run owner req w = (w', Err e))
    (Henv : validate_caller_env (cr_env req) = Err e)
    (Hins : fw_instances w' <> fw_instances w) :
  exists row a b d, fw_instances w' = fw_instances w ++ [row] /\ ir_status row = Cold /\
    length (active_rows owner (fw_instances w')) = S (length (active_rows owner (fw_instances w))) /\
    tw_tokens (fw_tokens w') = tw_tokens (fw_tokens w) ++ [a; b; d] /\
    Forall (fun t => tk_instance_id t = ir_id row /\ token_live t = true) [a; b; d] /\
    fw_log w' = fw_log w.
Proof.
  assert (exists m, e = BadRequest m) as [m ->].
  { unfold validate_caller_env in Henv. case_bool_decide; [done|]. simplify_eq. eauto. }
  unfold create in Hc.
  do 2 (apply svc_bind_err in Hc as [Hc|(? & [] & [-> _]%lift_ok & Hc)]; [by injection Hc as <- _|]).
  destruct (mint_attempts_spec run w 8 0) as (r & Hr & Hnew).
  apply svc_bind_err in Hc as [Hc|(w0 & id & Hid & Hc)];
    [unfold mint_unique_instance_id in Hc; rewrite Hr in Hc; by injection Hc as <- _|].
  unfold mint_unique_instance_id in Hid. rewrite Hr in Hid. injection Hid as <- ->. cbn zeta in Hc.
  apply svc_bind_err in Hc as [Hc|(? & resolved & [-> _]%lift_ok & Hc)]; [by injection Hc as <- _|].
  apply svc_bind_err in Hc as [Hc|(? & specs & [-> _]%lift_ok & Hc)]; [by injection Hc as <- _|].
  apply svc_bind_err in Hc as [Hc|(w2 & admitted & Ha & Hc)];
    [by apply on_instances_err in Hc as (? & ? & _ & _ & [=])|].
  apply svc_bind_err in Hc as [Hc|(? & [] & [-> Ht]%lift_ok & Hc)];
    [injection Hc as _ Hc; by destruct admitted|].
  destruct admitted; [|done]. apply admit_exact in Ha as [_ ->]. set (row := new_row _ _ _ _ _ _ _ _ _ _ _) in *.
  apply svc_bind_err in Hc as [Hc|(w3 & tokens & Hm & Hc)].
  { exfalso. by apply mint_runtime_errs in Hc as [? [=]]. }
  apply mint_runtime_exact in Hm as (_ & _ & _ & _ & a & b & d & Hall & _ & _ & _ & _ & _ & _ & ->).
  apply svc_bind_err in Hc as [Hc|(w4 & [] & [Htp Hlp]%persist_tables & Hc)].
  { exfalso. by apply persist_errs in Hc as [? [=]]. }
  apply svc_bind_err in Hc as [Hc|(? & envm & [_ Hcomp]%lift_ok & _)].
  2: { unfold compose_sandbox_env in Hcomp. by rewrite Henv in Hcomp. }
  injection Hc as <- _. exists row, a, b, d.
  assert (fw_instances w4 = fw_instances w ++ [row]) as Hi by (unfold fw_instances; by rewrite Htp).
  split_and!; [done|done| |by rewrite Htp| |by rewrite Hlp].
  - rewrite Hi. by apply (active_rows_snoc _ row).
  - eapply List.Forall_impl; [|exact Hall]. intros t (Hid & Hrev & _). split; [done|].
    unfold token_live. by rewrite Hrev.
Qed.

(** ** Retries *)

(** C31. The retry loop ends: it makes between one and twelve pushes, stops at
    the first success or the first error it must not retry, returns the answer
    of its last push, and changes nothing of its own. *)
Theorem push_with_retry_bounded {env : FleetEnv} (i sb : string) (body : ReconfigureBody) (w : FleetWorld) :
  exists k r, (1 <= k <= 12)%nat /\ (push_with_retry i sb body w).2 = r /\
    pushes_answered i sb body (length (fw_log w)) k r /\
    fw_log (push_with_retry i sb body w).1 = fw_log w ++ repeat (Push i sb body, fw_instances w) k /\
    fw_tokens (push_with_retry i sb body w).1 = fw_tokens w /\
    match r with
    | Ok _ => True
    | Err e => is_non_retryable_reconfigure_error e = true \/ k = 12%nat
    end.
Proof.
  destruct (push_attempts_spec 12 "" i sb body w) as (k & r & Hk & Hr & Ha & Hl & He); [lia|].
  exists k, r. split_and!; try done; [lia..|]. apply push_attempts_tables.
Qed.

(** ** The concrete fleet *)

#[local] Instance ready_fleet : FleetEnv := example_fleet (Ok example_sandbox) None.
Definition reserved_request : CreateRequest :=
  example_create {["SWARM_MODEL" := "m1"; "SWARM_BEARER_TOKEN" := "x"]}.
Definition example_restore : RestoreRequest :=
  mkRestore "tpl" "/snap" None (Some "n") None ∅ None NoLocalNet ["m1"] [].
Definition crowded : FleetWorld :=
  example_world (map (fun k => example_row (dec (Z.of_nat k)) "a") (seq 0 20)).

Definition reserved_create : FleetWorld :=
  (create plain_cipher example_sv example_run "a" reserved_request (example_world [])).1.
Definition overfull : FleetWorld :=
  (restore plain_cipher example_sv example_run "a" example_restore crowded).1.

Lemma no_tokens_owned rows : tokens_owned (example_world rows).
Proof. intros t Ht. by apply not_elem_of_nil in Ht. Qed.


Lemma restore_ignores_quota_witness :
  length (active_rows "a" (fw_instances overfull)) = 21%nat.
Proof.
  rewrite (restore_ignores_quota plain_cipher example_sv example_run "a" example_restore crowded overfull
    (mkCreated "i" "https://sb1.example" "bearer" "pt_u0")).
  - vm_compute. reflexivity.
  - vm_compute. reflexivity.
  - apply no_tokens_owned.
Defined.

Lemma reserved_env_leaks_instance_witness :
  exists row, fw_instances reserved_create = [row] /\
    length (active_rows "a" (fw_instances reserved_create)) = 1%nat.
Proof.
  destruct (reserved_env_leaks_instance plain_cipher example_sv example_run "a" reserved_request
    (example_world []) reserved_create (BadRequest "reserved sandbox env keys may not be supplied by callers: SWARM_BEARER_TOKEN"))
    as (row & a & b & d & Hi & _ & Hl & _).
  - vm_compute. reflexivity.
  - vm_compute. reflexivity.
  - vm_compute. discriminate.
  - exists row. split; [exact Hi|exact Hl].
Defined.
