(* ===== verification/Snapshots.v ===== *)
(** * Snapshots and backups

    Models [crates/core/src/snapshot.rs] up to restoring (which is in
    [SnapshotRestore]), its table [crates/core/src/db/sqlite/snapshots.rs], the
    quota of [crates/swarm/src/http/snapshots.rs] and what the S3 sink of
    [crates/core/src/backup/s3.rs] uploads.  A bundle is a directory on the host, read
    through [fe_disk]; its hash covers every regular file below it. *)

From Stdlib Require Import ZArith Ascii Lia.
From stdpp Require Import base list strings gmap option.
From S2P Require Import Prelude RustStr Store SandboxEnv Traits InstanceStore TokenStore StateFiles InstanceService.

Local Open Scope string_scope.
Local Open Scope list_scope.
Local Open Scope Z_scope.

(** ** Bundles *)

(** A path relative to the bundle, by its components *)
Abbreviation rel_path := (list string).

(** [collect_files]: the regular files below a directory *)
Fixpoint collect_files (base : rel_path) (n : Node) : list rel_path :=
  match n with
  | File _ => [base]
  | Dir entries =>
      (fix walk (entries : list (string * Node)) : list rel_path :=
         match entries with
         | [] => []
         | (name, n) :: entries => collect_files (base ++ [name]) n ++ walk entries
         end) entries
  | Other => []
  end.

(** [Path]'s order: component by component *)
Fixpoint path_leb (a b : rel_path) : bool :=
  match a, b with
  | [], _ => true
  | _ :: _, [] => false
  | x :: a, y :: b => if (x =? y)%string then path_leb a b else str_leb x y
  end.

(** [tokio::fs::read] of a path below the bundle *)
Fixpoint read_file (n : Node) (path : rel_path) : result string string :=
  match path, n with
  | [], File bytes => Ok bytes
  | name :: path, Dir entries =>
      match select_one (fun e => (e.1 =? name)%string) entries with
      | Some (_, n) => read_file n path
      | None => Err "No such file or directory"
      end
  | _, _ => Err "not a regular file"
  end.

(** [(n as u64).to_le_bytes()] *)
Fixpoint le_bytes (k : nat) (n : Z) : string :=
  match k with
  | O => EmptyString
  | S k => String (ascii_of_N (Z.to_N (n mod 256))) (le_bytes k (n / 256))
  end.
Definition u64_le (n : nat) : string := le_bytes 8 (Z.of_nat n).

(** One file as the hasher is fed it: both lengths, path and bytes *)
Definition file_frame (path bytes : string) : string :=
  u64_le (String.length path) +:+ path +:+ u64_le (String.length bytes) +:+ bytes.
Definition bundle_preimage (files : list (string * string)) : string :=
  foldr (fun f rest => file_frame f.1 f.2 +:+ rest) "" files.

(** [rel.to_string_lossy()] *)
Definition rel_text (path : rel_path) : string := from_utf8_lossy (join "/" path).

(** The files in hashing order, with their bytes *)
Definition bundle_files (n : Node) : result string (list (string * string)) :=
  traverse (fun path => bytes ← read_file n path; Ok (rel_text path, bytes))
    (sort path_leb (collect_files [] n)).

(** [hex_lower] *)
Definition hex_digit (n : N) : ascii :=
  if (n <? 10)%N then ascii_of_N (48 + n) else ascii_of_N (87 + n).
Fixpoint hex_lower (s : string) : string :=
  match s with
  | EmptyString => EmptyString
  | String c s =>
      String (hex_digit (N_of_ascii c / 16)) (String (hex_digit (N_of_ascii c mod 16)) (hex_lower s))
  end.

Section service.
Context {env : FleetEnv} {th : TokenHash}.

(** [hash_bundle] *)
Definition hash_node (n : Node) : result string string :=
  match n with
  | Dir _ => files ← bundle_files n; Ok (hex_lower (sha256_digest (bundle_preimage files)))
  | _ => Err "snapshot path is not a directory"
  end.
Definition hash_bundle (dir : string) (w : FleetWorld) : result string string :=
  n ← fe_disk (length (fw_log w)) dir; hash_node n.

(** ** The table *)

Definition with_snapshots (s : list SnapshotRow) (w : FleetWorld) : FleetWorld :=
  mkFleet (fw_tokens w) (fw_secrets w) (fw_agent_secrets w) (fw_channels w) (fw_files w) (fw_log w) s
    (fw_pending w).

Definition snap_by_id (id : string) (r : SnapshotRow) : bool := (sn_id r =? id)%string.

(** [SqliteSnapshotStore::insert], [get] *)
Definition snapshot_insert (row : SnapshotRow) : fleet unit := fun w =>
  match select_one (snap_by_id (sn_id row)) (fw_snapshots w) with
  | Some _ => (w, Err (SwStore (Constraint "UNIQUE constraint failed: snapshots.id")))
  | None => (with_snapshots (fw_snapshots w ++ [row]) w, Ok tt)
  end.
Definition snapshot_get (id : string) (w : FleetWorld) : option SnapshotRow :=
  select_one (snap_by_id id) (fw_snapshots w).

(** [list_for_instance], [count_for_instance] *)
Definition snap_live (r : SnapshotRow) : bool := bool_decide (sn_deleted_at r = None).
Definition snapshots_of_instance (instance_id : string) (w : FleetWorld) : list SnapshotRow :=
  sort (fun a b => sn_created_at b <=? sn_created_at a)
    (select (fun r => (sn_source_instance_id r =? instance_id)%string && snap_live r) (fw_snapshots w)).
Definition snapshot_count (owner_id instance_id : string) (w : FleetWorld) : Z :=
  Z.of_nat (affected (fun r => (sn_owner_id r =? owner_id)%string
                               && (sn_source_instance_id r =? instance_id)%string && snap_live r)
              (fw_snapshots w)).

(** [update_remote_uri], [update_path], [mark_deleted] *)
Definition snapshot_update (id : string) (f : SnapshotRow -> SnapshotRow) : fleet unit := fun w =>
  if Nat.eqb (affected (snap_by_id id) (fw_snapshots w)) 0 then (w, Err (SwStore NotFound))
  else (with_snapshots (update (snap_by_id id) f (fw_snapshots w)) w, Ok tt).
Definition set_remote_uri (uri : option string) (r : SnapshotRow) : SnapshotRow :=
  mkSnapshot (sn_id r) (sn_owner_id r) (sn_source_instance_id r) (sn_parent_snapshot_id r) (sn_kind r)
    (sn_path r) (sn_host_ip r) uri (sn_size_bytes r) (sn_created_at r) (sn_deleted_at r)
    (sn_content_hash r).
Definition set_path (path : string) (r : SnapshotRow) : SnapshotRow :=
  mkSnapshot (sn_id r) (sn_owner_id r) (sn_source_instance_id r) (sn_parent_snapshot_id r) (sn_kind r)
    path (sn_host_ip r) (sn_remote_uri r) (sn_size_bytes r) (sn_created_at r) (sn_deleted_at r)
    (sn_content_hash r).
Definition set_deleted_at (now : Z) (r : SnapshotRow) : SnapshotRow :=
  mkSnapshot (sn_id r) (sn_owner_id r) (sn_source_instance_id r) (sn_parent_snapshot_id r) (sn_kind r)
    (sn_path r) (sn_host_ip r) (sn_remote_uri r) (sn_size_bytes r) (sn_created_at r) (Some now)
    (sn_content_hash r).
Definition update_remote_uri (id uri : string) : fleet unit := snapshot_update id (set_remote_uri (Some uri)).
Definition update_path (id path : string) : fleet unit := snapshot_update id (set_path path).
Definition mark_deleted (id : string) (now : Z) : fleet unit := snapshot_update id (set_deleted_at now).

(** ** The service *)

(** [require_owner] *)
Definition require_owner (row_owner caller_owner : string) : result SwarmError unit :=
  if (caller_owner =? "*")%string || (row_owner =? caller_owner)%string then Ok tt else Err SwNotFound.

(** [self.snapshots.get(id).await?.ok_or(NotFound)?] and the ownership test *)
Definition require_snapshot (owner_id snapshot_id : string) : fleet SnapshotRow :=
  found ← gets (snapshot_get snapshot_id);
  row ← lift (ok_or SwNotFound found);
  _ ← lift (require_owner (sn_owner_id row) owner_id);
  mret row.

(** [snapshot_with_kind] *)
Definition snapshot_with_kind (run : FleetRun) (owner_id instance_id : string) (kind : SnapshotKind)
    (parent : option string) : fleet SnapshotRow :=
  inst ← require_row owner_id instance_id;
  sandbox ← lift (ok_or SwNotFound (ir_cube_sandbox_id inst));
  let snap_name := "ckpt-" +:+ fr_snapshot run in
  info ← with_err SwCube (remote (CubeSnapshot sandbox snap_name) (fun n => fe_snapshot n sandbox snap_name));
  content_hash ← gets (fun w => ok (hash_bundle (si_path info) w));
  let row := mkSnapshot (si_snapshot_id info) (ir_owner_id inst) instance_id parent kind (si_path info)
               (si_host_ip info) None None (fr_now run) None content_hash in
  _ ← snapshot_insert row;
  mret row.

(** [snapshot], [backup] *)
Definition snapshot (run : FleetRun) (owner_id instance_id : string) : fleet SnapshotRow :=
  snapshot_with_kind run owner_id instance_id Manual None.
Definition backup (run : FleetRun) (owner_id instance_id : string) : fleet SnapshotRow :=
  row ← snapshot_with_kind run owner_id instance_id Backup None;
  promoted ← with_err SwBackup (remote (SinkPromote row) (fun n => fe_promote n row));
  match promoted with
  | Some uri => _ ← update_remote_uri (sn_id row) uri; mret (set_remote_uri (Some uri) row)
  | None => mret row
  end.

(** [list_for_instance] *)
Definition list_snapshots (owner_id instance_id : string) : fleet (list SnapshotRow) :=
  _ ← require_row owner_id instance_id;
  rows ← gets (snapshots_of_instance instance_id);
  mret (select (fun r => (owner_id =? "*")%string || (sn_owner_id r =? owner_id)%string) rows).

(** [pull] *)
Definition pull (owner_id snapshot_id : string) : fleet SnapshotRow :=
  row ← require_snapshot owner_id snapshot_id;
  new_path ← with_err SwBackup (remote (SinkPull row) (fun n => fe_pull n row));
  if (new_path =? sn_path row)%string then mret row
  else _ ← update_path (sn_id row) new_path; mret (set_path new_path row).

(** [delete] *)
Definition snapshot_delete (run : FleetRun) (owner_id snapshot_id : string) : fleet unit :=
  found ← gets (snapshot_get snapshot_id);
  match found with
  | None => mret tt
  | Some row =>
      _ ← lift (require_owner (sn_owner_id row) owner_id);
      if negb (snap_live row) then mret tt
      else
        _ ← (if is_empty (sn_host_ip row) then mret tt
             else with_err SwBackup (remote (SinkDelete row) (fun n => fe_sink_delete n row)));
        mark_deleted (sn_id row) (fr_now run)
  end.

(** ** The routes *)

(** [MAX_SNAPSHOTS_PER_INSTANCE], [check_quota] and the two routes that take a
    snapshot; [None] is the 429 *)
Definition MAX_SNAPSHOTS_PER_INSTANCE : Z := 50.
Definition check_quota (owner_id instance_id : string) (w : FleetWorld) : bool :=
  negb (MAX_SNAPSHOTS_PER_INSTANCE <=? snapshot_count owner_id instance_id w).
Definition snapshot_route (take : FleetRun -> string -> string -> fleet SnapshotRow) (run : FleetRun)
    (user_id id : string) : fleet (option SnapshotRow) :=
  within ← gets (check_quota user_id id);
  if within : bool then row ← take run user_id id; mret (Some row) else mret None.
End service.

(** ** The S3 sink *)

(** The bucket's answer to an upload of a key: a status or a transport error *)
Class S3Api : Type := { s3_put : string -> string -> result string Z }.

Section s3.
Context {s3 : S3Api} (prefix : string).

(** [key] *)
Definition s3_key (snapshot_id name : string) : string := prefix +:+ snapshot_id +:+ "/" +:+ name.

(** The loop of [promote] over [read_dir]: the objects stored, by name *)
Fixpoint upload_entries (snapshot_id : string) (entries : list (string * Node)) :
  result BackupError (list (string * string)) :=
  match entries with
  | [] => Ok []
  | (name, File bytes) :: entries =>
      name ← ok_or (Sink "non-utf8 filename") (from_utf8 name);
      status ← map_err Sink (s3_put (s3_key snapshot_id name) bytes);
      if (200 <=? status) && (status <? 300)
      then rest ← upload_entries snapshot_id entries; Ok ((name, bytes) :: rest)
      else Err (Sink "put_object_stream")
  | _ :: entries => upload_entries snapshot_id entries
  end.

(** [promote]: what it stored; its answer is the URI *)
Definition s3_promote (snapshot_id : string) (local : result string Node) :
  result BackupError (list (string * string)) :=
  n ← map_err BackupIo local;
  match n with
  | Dir entries =>
      uploaded ← upload_entries snapshot_id entries;
      if bool_decide (uploaded = []) then Err (Sink "snapshot path contains no files") else Ok uploaded
  | _ => Err (Sink "snapshot path is not a directory")
  end.
End s3.
