(* ===== verification/InPlaceSwap.v ===== *)
(** * Replacing the sandbox of an instance

    Models the in-place operations of [crates/core/src/instance.rs]: an
    instance keeps its id, bearer, tokens and records while a new sandbox takes
    the place of the old one ([rotate_in_place], [recreate_in_place],
    [reset_in_place_from_state], [restore_snapshot_in_place]), the replay of the
    mirrored state files into it, and the policy change and the fleet-wide
    sweep built on them.

    Waits between polls and retries are left out; [fr_elapsed] is the clock the
    idle loop reads.  Row [r] is opened for a rewrap with [fr_seal run] at an
    index of its own. *)

From Stdlib Require Import ZArith Ascii Lia.
From stdpp Require Import base list strings gmap option.
From S2P Require Import Prelude RustStr RustNet Json Codec Store Envelope NetworkPolicy SandboxEnv Traits.
From S2P Require Import UpstreamPolicy InstanceStore TokenStore Secrets McpRecords StateFiles InstanceService.
From S2P Require Import Snapshots.

Local Open Scope string_scope.
Local Open Scope list_scope.
Local Open Scope Z_scope.

(** [InPlaceSwapPlan] *)
Record InPlaceSwapPlan : Type := mkPlan {
  pn_source : InstanceRow;
  pn_old_sandbox_id : string;
  pn_target_template_id : string;
  pn_target_policy : NetworkPolicy;
  pn_resolved_policy : ResolvedPolicy;
  pn_target_state_generation : string
}.

(** [RotateReport] *)
Record RotateReport : Type := mkReport {
  rp_visited : Z;
  rp_rotated : Z;
  rp_failed : list (string * SwarmError)
}.

(** [is_snapshot_endpoint_unavailable] *)
Definition is_snapshot_endpoint_unavailable (e : SwarmError) : bool :=
  match e with
  | SwCube (CubeStatus status body) =>
      (status =? 404) || contains_str "CubeMaster returned error code 404" body
      || contains_str "404 page not found" body || contains_str "snapshot unavailable" body
  | _ => false
  end.

(** [body.name = None; body.task = None] *)
Definition without_identity (b : ReconfigureBody) : ReconfigureBody :=
  mkBody None None (rb_identity_doc b) (rb_models b) (rb_instance_id b) (rb_proxy_token b)
    (rb_proxy_base b) (rb_image_provider_name b) (rb_image_provider_block b)
    (rb_image_generation_provider b) (rb_image_generation_model b) (rb_reset_skills b) (rb_tools b)
    (rb_mcp_servers b) (rb_ingest_url b) (rb_ingest_token b) (rb_state_sync_url b)
    (rb_state_sync_token b) (rb_telegram_proxy b).
(** [body.state_sync_url = None; body.state_sync_token = None] *)
Definition without_state_sync (b : ReconfigureBody) : ReconfigureBody :=
  mkBody (rb_name b) (rb_task b) (rb_identity_doc b) (rb_models b) (rb_instance_id b) (rb_proxy_token b)
    (rb_proxy_base b) (rb_image_provider_name b) (rb_image_provider_block b)
    (rb_image_generation_provider b) (rb_image_generation_model b) (rb_reset_skills b) (rb_tools b)
    (rb_mcp_servers b) (rb_ingest_url b) (rb_ingest_token b) None None (rb_telegram_proxy b).

(** Run [undo] when [m] fails, then fail as [m] did. *)
Definition or_undo {A} (m : fleet A) (undo : fleet unit) : fleet A :=
  r ← attempt m;
  match r with
  | Ok a => mret a
  | Err e => _ ← undo; throw e
  end.

(** [is_durable_state_file_path] *)
Definition is_durable_state_file_path (namespace path : string) : bool :=
  is_ok (validate_state_file_path namespace path).

Section swap.
Context {R : HostResolver} {env : FleetEnv} {dir : CipherDirectory} {codec : EnvelopeCodec}.
Context {mc : McpCodec} {th : TokenHash} (cipher : EnvelopeCipher) (sv : ServiceConfig).

Definition row_seal (run : FleetRun) (k : nat) (row : StateFileRow) : SealRun :=
  fr_seal run (k + 8 * Z.to_nat (sf_id row)).

(** [read_body_for_replay]: the rewrap it spawns runs later *)
Definition read_body_for_replay (sr : SealRun) (row : StateFileRow) :
  fleet (result StateFileError (option string)) := fun w =>
  match read_body sr row with
  | Ok (plain, task) =>
      (mkFleet (fw_tokens w) (fw_secrets w) (fw_agent_secrets w) (fw_channels w) (fw_files w) (fw_log w)
         (fw_snapshots w) (fw_pending w ++ match task with Some t => [t] | None => [] end), Ok (Ok plain))
  | Err e => (w, Ok (Err e))
  end.

(** ** Tokens and the plan *)

Definition or_mint (found : option string) (mint : fleet string) : fleet string :=
  match found with Some t => mret t | None => mint end.

(** [runtime_tokens_for_instance] *)
Definition runtime_tokens_for_instance (run : FleetRun) (instance_id state_generation : string) :
  fleet RuntimeTokens :=
  let state_generation := trim state_generation in
  if is_empty state_generation then throw (Internal "instance is missing a state generation")
  else
    proxy ← on_tokens (lookup_by_instance cipher (Some dir) (fr_token run 4) instance_id);
    proxy ← or_mint proxy (on_tokens (token_mint cipher (Some dir) (fr_token run 5) instance_id SHARED_PROVIDER));
    ingest ← on_tokens (lookup_by_instance_for_provider cipher (Some dir) (fr_token run 6) instance_id
                          INGEST_PROVIDER);
    ingest ← or_mint ingest (on_tokens (mint_ingest cipher (Some dir) (fr_token run 7) instance_id));
    state_sync ← on_tokens (lookup_by_instance_for_provider cipher (Some dir) (fr_token run 8) instance_id
                              (state_sync_provider state_generation));
    state_sync ← or_mint state_sync (on_tokens (mint_state_sync_for_generation cipher (Some dir)
                   (fr_token run 9) instance_id state_generation));
    mret (mkRuntimeTokens proxy ingest state_sync state_generation).

(** [row.cube_sandbox_id.filter(|s| !s.is_empty())] *)
Definition live_sandbox (row : InstanceRow) : option string := ir_cube_sandbox_id row ≫= non_empty.

(** [build_in_place_swap_plan] *)
Definition build_in_place_swap_plan (run : FleetRun) (owner_id instance_id new_template_id : string)
    (new_network_policy : option NetworkPolicy) (destroyed_error missing_sandbox_error : string) :
  fleet InPlaceSwapPlan :=
  let target_template_id := trim new_template_id in
  if is_empty target_template_id then throw (BadRequest "template_id is required")
  else
    source ← require_row owner_id instance_id;
    _ ← lift (if bool_decide (ir_status source = Destroyed) then Err (BadRequest destroyed_error) else Ok tt);
    old_sandbox_id ← lift (ok_or (BadRequest missing_sandbox_error) (live_sandbox source));
    _ ← lift match new_network_policy with
             | Some p => assert_allowed_by_config p (sv_allow_internal_network_policy sv)
             | None => Ok tt
             end;
    let target_policy := default (ir_network_policy source) new_network_policy in
    resolved ← lift (map_err policy_error (resolve target_policy (sv_llm_cidr sv)));
    mret (mkPlan source old_sandbox_id target_template_id target_policy resolved (fr_generation run)).

(** The managed variables of a replacement, without state sync when it must
    not start on its own *)
Definition swap_env (source : InstanceRow) (tokens : RuntimeTokens) (policy : NetworkPolicy)
    (disable_state_sync : bool) : env_map :=
  let managed := managed_env (sv_proxy_base sv) (rt_proxy tokens) (rt_ingest tokens) (rt_state_sync tokens)
                   (ir_id source) (ir_bearer_token source) (ir_name source) (ir_task source) policy in
  if disable_state_sync then delete ENV_STATE_SYNC_TOKEN (delete ENV_STATE_SYNC_URL managed) else managed.

(** Start the replacement and bind the instance's tokens to its address. *)
Definition start_replacement (source : InstanceRow) (template : string) (policy : NetworkPolicy)
    (resolved : ResolvedPolicy) (tokens : RuntimeTokens) (from_snapshot_path : option string)
    (disable_state_sync : bool) : fleet SandboxInfo :=
  env ← lift (compose_sandbox_env (swap_env source tokens policy disable_state_sync) ∅);
  info ← with_err SwCube (create_sandbox (mkSandboxArgs template env from_snapshot_path resolved));
  _ ← bind_runtime_tokens_to_sandbox_source (ir_id source) info;
  mret info.

(** [create_in_place_swap_sandbox] *)
Definition create_in_place_swap_sandbox (plan : InPlaceSwapPlan) (tokens : RuntimeTokens)
    (from_snapshot_path : option string) (disable_state_sync_until_configure : bool) : fleet SandboxInfo :=
  start_replacement (pn_source plan) (pn_target_template_id plan) (pn_target_policy plan)
    (pn_resolved_policy plan) tokens from_snapshot_path disable_state_sync_until_configure.

(** ** The state mirror *)

(** [clear_identity_fields_when_mirror_is_authoritative] *)
Definition clear_identity_fields_when_mirror_is_authoritative (run : FleetRun) (k : nat)
    (body : ReconfigureBody) (owner_id instance_id : string) : fleet ReconfigureBody :=
  found ← gets (fun w => file_find instance_id "workspace" "IDENTITY.md" (fw_files w));
  match found with
  | None => mret body
  | Some row =>
      if negb (sf_owner_id row =? owner_id)%string then throw (Internal "state row owner mismatch")
      else if bool_decide (sf_deleted_at row <> None) || bool_decide (sf_body row = None) then mret body
      else
        plain ← read_body_for_replay (row_seal run k row) row;
        match plain with
        | Ok (Some _) => mret (without_identity body)
        | Ok None | Err _ => mret body
        end
  end.

(** [has_durable_mirrored_state_files] *)
Fixpoint any_replayable (run : FleetRun) (rows : list StateFileRow) : fleet bool :=
  match rows with
  | [] => mret false
  | row :: rows =>
      if negb (is_durable_state_file_path (sf_namespace row) (sf_path row)) then any_replayable run rows
      else if bool_decide (sf_deleted_at row <> None) then mret true
      else if bool_decide (sf_body row = None) then any_replayable run rows
      else
        plain ← read_body_for_replay (row_seal run 1 row) row;
        match plain with
        | Ok (Some body) =>
            if is_zero_byte_chat_transcript (sf_namespace row) (sf_path row) body
            then any_replayable run rows else mret true
        | Ok None | Err _ => any_replayable run rows
        end
  end.
Definition has_durable_mirrored_state_files (run : FleetRun) (instance_id : string) : fleet bool :=
  rows ← gets (fun w => file_list instance_id (fw_files w));
  any_replayable run rows.

(** What is replayed of a row: [None] is a row that is skipped *)
Definition replay_of (run : FleetRun) (row : StateFileRow) (allow_unreadable_rows : bool) :
  fleet (option RestoreStateFileBody) :=
  let restore deleted body_b64 :=
    Some (mkRestoreFile (sf_namespace row) (sf_path row) (sf_mime row) deleted body_b64) in
  let unreadable (e : SwarmError) : fleet (option RestoreStateFileBody) :=
    if allow_unreadable_rows then mret None else throw e in
  if bool_decide (sf_deleted_at row <> None) then mret (restore true None)
  else if bool_decide (sf_body row = None) then unreadable (Internal "state file body missing")
  else
    plain ← read_body_for_replay (row_seal run 2 row) row;
    match plain with
    | Ok (Some plain) =>
        if is_zero_byte_chat_transcript (sf_namespace row) (sf_path row) plain then mret None
        else mret (restore false (Some (b64_encode plain)))
    | Ok None => unreadable (Internal "state file body missing or unsealed")
    | Err _ => unreadable (Internal "open state file")
    end.

Fixpoint replay_rows (run : FleetRun) (owner_id instance_id sandbox_id : string)
    (allow_unreadable_rows : bool) (rows : list StateFileRow) (replayed : Z) : fleet Z :=
  match rows with
  | [] => mret replayed
  | row :: rows =>
      if negb (sf_owner_id row =? owner_id)%string then throw (Internal "state row owner mismatch")
      else if negb (is_durable_state_file_path (sf_namespace row) (sf_path row))
      then replay_rows run owner_id instance_id sandbox_id allow_unreadable_rows rows replayed
      else
        body ← replay_of run row allow_unreadable_rows;
        match body with
        | None => replay_rows run owner_id instance_id sandbox_id allow_unreadable_rows rows replayed
        | Some body =>
            _ ← with_err (fun e => Internal ("restore state file: " +:+ e))
                  (restore_state_file_with_retry instance_id sandbox_id body);
            replay_rows run owner_id instance_id sandbox_id allow_unreadable_rows rows (replayed + 1)
        end
  end.

(** [replay_state_files_to_sandbox] *)
Definition replay_state_files_to_sandbox (run : FleetRun) (owner_id instance_id sandbox_id : string)
    (allow_unreadable_rows : bool) : fleet Z :=
  rows ← gets (fun w => file_list instance_id (fw_files w));
  if bool_decide (rows = []) then mret 0
  else if negb (sv_reconfigurer sv) then throw (PolicyDenied "dyson reconfigurer not configured")
  else replay_rows run owner_id instance_id sandbox_id allow_unreadable_rows rows 0.

(** [configure_existing_sandbox_for_state_replay] *)
Definition configure_existing_sandbox_for_state_replay (run : FleetRun) (k : nat) (owner_id : string)
    (source : InstanceRow) (tokens : RuntimeTokens) (sandbox_id : string) (enable_state_sync : bool)
    (operation phase : string) : fleet unit :=
  if negb (sv_reconfigurer sv) then throw (PolicyDenied "dyson reconfigurer not configured")
  else
    body ← configure_body_for_existing_row sv (fr_seal run k) owner_id source (rt_proxy tokens)
             (rt_ingest tokens) (rt_state_sync tokens);
    body ← clear_identity_fields_when_mirror_is_authoritative run k body owner_id (ir_id source);
    let body := if enable_state_sync then body else without_state_sync body in
    with_err (fun err => Internal (operation +:+ " configure-push failed " +:+ phase +:+ ": " +:+ err))
      (push_with_retry (ir_id source) sandbox_id body).

(** [replay_state_files_and_configure] *)
Definition replay_state_files_and_configure (run : FleetRun) (owner_id : string) (source : InstanceRow)
    (tokens : RuntimeTokens) (sandbox_id : string) (allow_unreadable_rows configure_before_replay : bool)
    (operation : string) : fleet unit :=
  _ ← (if configure_before_replay
       then configure_existing_sandbox_for_state_replay run 3 owner_id source tokens sandbox_id false
              operation "before state replay"
       else mret tt);
  _ ← replay_state_files_to_sandbox run owner_id (ir_id source) sandbox_id allow_unreadable_rows;
  configure_existing_sandbox_for_state_replay run 4 owner_id source tokens sandbox_id true operation
    "after state replay".

(** [push_configure_after_swap] *)
Definition push_configure_after_swap (run : FleetRun) (owner_id : string) (source : InstanceRow)
    (tokens : RuntimeTokens) (sandbox_id operation : string) : fleet unit :=
  if negb (sv_reconfigurer sv) then throw (PolicyDenied "dyson reconfigurer not configured")
  else
    body ← configure_body_for_existing_row sv (fr_seal run 5) owner_id source (rt_proxy tokens)
             (rt_ingest tokens) (rt_state_sync tokens);
    with_err (fun err => Internal (operation +:+ " configure-push failed after swap: " +:+ err))
      (push_with_retry (ir_id source) sandbox_id body).

(** ** The swaps *)

(** [replace_cube_sandbox] with the data of a plan *)
Definition swap_row (run : FleetRun) (plan : InPlaceSwapPlan) (tokens : RuntimeTokens) (sandbox : string) :
  fleet unit :=
  on_instances (replace_cube_sandbox (ir_id (pn_source plan)) sandbox (rt_state_generation tokens)
    (pn_target_template_id plan) (pn_target_policy plan)
    (row_policy_cidrs (pn_target_policy plan) (pn_resolved_policy plan)) (fr_now run)).

(** The end every swap has in common: live, the old sandbox gone, the row read *)
Definition finish_swap (run : FleetRun) (owner_id id : string) (old : option string) : fleet InstanceRow :=
  _ ← on_instances (update_status id Live (fr_stamp run));
  _ ← refresh_egress_policy_best_effort;
  _ ← match old with
      | Some old => best_effort (destroy_sandbox old)
      | None => mret tt
      end;
  require_row owner_id id.

(** [recreate_in_place] *)
Definition recreate_in_place (run : FleetRun) (owner_id instance_id new_template_id : string)
    (new_network_policy : option NetworkPolicy) : fleet InstanceRow :=
  plan ← build_in_place_swap_plan run owner_id instance_id new_template_id new_network_policy
           "cannot recreate a destroyed instance"
           "instance has no live cube sandbox; recreate requires a Live row";
  let source := pn_source plan in
  tokens ← runtime_tokens_for_instance run (ir_id source) (pn_target_state_generation plan);
  info ← create_in_place_swap_sandbox plan tokens None (sv_state_files sv);
  _ ← (if sv_state_files sv
       then or_undo (replay_state_files_and_configure run owner_id source tokens (sb_id info) false true "recreate")
              (best_effort (destroy_sandbox (sb_id info)))
       else mret tt);
  _ ← swap_row run plan tokens (sb_id info);
  _ ← (if sv_state_files sv then mret tt
       else push_configure_after_swap run owner_id source tokens (sb_id info) "recreate");
  finish_swap run owner_id (ir_id source) (Some (pn_old_sandbox_id plan)).

(** [reset_in_place_from_state] *)
Definition reset_in_place_from_state (run : FleetRun) (owner_id instance_id new_template_id : string) :
  fleet InstanceRow :=
  plan ← build_in_place_swap_plan run owner_id instance_id new_template_id None
           "cannot reset a destroyed instance"
           "instance has no live cube sandbox; reset requires a Live row";
  let source := pn_source plan in
  tokens ← runtime_tokens_for_instance run (ir_id source) (pn_target_state_generation plan);
  info ← create_in_place_swap_sandbox plan tokens None true;
  _ ← or_undo (replay_state_files_and_configure run owner_id source tokens (sb_id info) true true "reset")
        (best_effort (destroy_sandbox (sb_id info)));
  _ ← or_undo (swap_row run plan tokens (sb_id info)) (best_effort (destroy_sandbox (sb_id info)));
  finish_swap run owner_id (ir_id source) (Some (pn_old_sandbox_id plan)).

(** [restore_snapshot_in_place] *)
Definition restore_snapshot_in_place (run : FleetRun) (owner_id instance_id snapshot_path : string)
    (target_template_id : option string) : fleet InstanceRow :=
  source ← require_row owner_id instance_id;
  _ ← lift (if bool_decide (ir_status source = Destroyed)
            then Err (BadRequest "cannot recover a destroyed instance") else Ok tt);
  let old_sandbox_id := live_sandbox source in
  let target_template :=
    match target_template_id with
    | Some t => if is_empty (trim t) then ir_template_id source else t
    | None => ir_template_id source
    end in
  _ ← lift (if is_empty (trim target_template) then Err (BadRequest "template_id is required") else Ok tt);
  resolved ← lift (map_err policy_error (resolve (ir_network_policy source) (sv_llm_cidr sv)));
  use_state_mirror ← (if sv_state_files sv then has_durable_mirrored_state_files run (ir_id source) else mret false);
  tokens ← runtime_tokens_for_instance run (ir_id source) (fr_generation run);
  info ← start_replacement source target_template (ir_network_policy source) resolved tokens
           (Some snapshot_path) use_state_mirror;
  _ ← (if (use_state_mirror : bool)
       then or_undo (replay_state_files_and_configure run owner_id source tokens (sb_id info) true true
                       "restore-snapshot")
              (best_effort (destroy_sandbox (sb_id info)))
       else mret tt);
  _ ← or_undo (on_instances (replace_cube_sandbox (ir_id source) (sb_id info) (rt_state_generation tokens)
                 target_template (ir_network_policy source)
                 (row_policy_cidrs (ir_network_policy source) resolved) (fr_now run)))
        (best_effort (destroy_sandbox (sb_id info)));
  _ ← (if (use_state_mirror : bool) then mret tt
       else push_configure_after_swap run owner_id source tokens (sb_id info) "restore-snapshot");
  finish_swap run owner_id (ir_id source)
    (match old_sandbox_id with
     | Some old => if (old =? sb_id info)%string then None else Some old
     | None => None
     end).

(** ** Rotation *)

Definition POLL_INTERVAL_SECS : Z := 30.
Definition MAX_WAIT_SECS : Z := 300.

(** The idle loop of [rotate_in_place]; [k] polls are done *)
Fixpoint await_idle (fuel k : nat) (run : FleetRun) (id sandbox : string) : fleet bool :=
  match fuel with
  | O => throw (Internal "idle loop out of fuel")
  | S fuel =>
      let again : fleet bool :=
        if MAX_WAIT_SECS <=? fr_elapsed run k
        then throw (BadRequest ("instance " +:+ id +:+ " did not go idle within " +:+ dec MAX_WAIT_SECS
                                +:+ "s; will retry next sweep"))
        else await_idle fuel (S k) run id sandbox in
      idle ← attempt (remote (IsIdle id sandbox) (fun n => fe_is_idle n id sandbox));
      match idle with
      | Ok (true, _) =>
          latched ← attempt (remote (Quiesce id sandbox) (fun n => fe_quiesce n id sandbox));
          match latched with
          | Ok true => mret true
          | Ok false => again
          | Err _ => mret false
          end
      | Ok (false, _) => again
      | Err _ => mret false
      end
  end.

Definition unquiesce_if (quiesced : bool) (id sandbox : string) : fleet unit :=
  if quiesced then best_effort (remote (Unquiesce id sandbox) (fun n => fe_unquiesce n id sandbox)) else mret tt.

(** [rotate_in_place]; eleven polls are enough *)
Definition rotate_in_place (run : FleetRun) (owner_id instance_id new_template_id : string)
    (new_network_policy : option NetworkPolicy) : fleet InstanceRow :=
  plan ← build_in_place_swap_plan run owner_id instance_id new_template_id new_network_policy
           "cannot rotate a destroyed instance"
           "instance has no live cube sandbox; rotation requires a Live row";
  let source := pn_source plan in
  let id := ir_id source in
  let old := pn_old_sandbox_id plan in
  _ ← lift (if (ir_template_id source =? pn_target_template_id plan)%string
               && bool_decide (ir_network_policy source = pn_target_policy plan)
            then Err (BadRequest "rotation is a no-op (same template, same network policy)") else Ok tt);
  quiesced ← (if sv_reconfigurer sv then await_idle 11 0 run id old else mret false);
  let undo := unquiesce_if quiesced id old in
  use_state_mirror ← (if sv_state_files sv
                      then or_undo (has_durable_mirrored_state_files run id) undo else mret false);
  snap ← or_undo (snapshot run SYSTEM_OWNER id) undo;
  tokens ← runtime_tokens_for_instance run id (pn_target_state_generation plan);
  info ← or_undo (create_in_place_swap_sandbox plan tokens (Some (sn_path snap)) use_state_mirror) undo;
  let drop_new : fleet unit := _ ← undo; best_effort (destroy_sandbox (sb_id info)) in
  _ ← (if (use_state_mirror : bool)
       then or_undo (replay_state_files_and_configure run owner_id source tokens (sb_id info) true false "rotate")
              drop_new
       else mret tt);
  _ ← or_undo (swap_row run plan tokens (sb_id info)) drop_new;
  _ ← (if (use_state_mirror : bool) then mret tt
       else push_configure_after_swap run owner_id source tokens (sb_id info) "rotate");
  finish_swap run owner_id id (Some old).

(** [change_network_policy]; [run'] is what the fallback draws *)
Definition change_network_policy (run run' : FleetRun) (owner_id instance_id : string)
    (new_policy : NetworkPolicy) : fleet InstanceRow :=
  _ ← lift (assert_allowed_by_config new_policy (sv_allow_internal_network_policy sv));
  source ← require_row owner_id instance_id;
  _ ← lift (if bool_decide (ir_network_policy source = new_policy)
            then Err (BadRequest "instance already has this network policy") else Ok tt);
  rotated ← attempt (rotate_in_place run owner_id instance_id (ir_template_id source) (Some new_policy));
  match rotated with
  | Ok row => mret row
  | Err err =>
      if is_snapshot_endpoint_unavailable err
      then recreate_in_place run' owner_id instance_id (ir_template_id source) (Some new_policy)
      else throw err
  end.

(** [rotate_binary_all]; [runs k] is the [k]-th rotation of the sweep *)
Fixpoint rotate_rows (runs : nat -> FleetRun) (target : string) (rows : list InstanceRow)
    (report : RotateReport) : fleet RotateReport :=
  match rows with
  | [] => mret report
  | row :: rows =>
      if (ir_template_id row =? target)%string then rotate_rows runs target rows report
      else match live_sandbox row with
           | None => rotate_rows runs target rows report
           | Some _ =>
               r ← attempt (rotate_in_place (runs 0%nat) (ir_owner_id row) (ir_id row) target None);
               let report := match r with
                             | Ok _ => mkReport (rp_visited report + 1) (rp_rotated report + 1) (rp_failed report)
                             | Err e => mkReport (rp_visited report + 1) (rp_rotated report)
                                          (rp_failed report ++ [(ir_id row, e)])
                             end in
               rotate_rows (fun k => runs (S k)) target rows report
           end
  end.
Definition rotate_binary_all (runs : nat -> FleetRun) (target_template_id : string) : fleet RotateReport :=
  if is_empty (trim target_template_id)
  then throw (PolicyDenied "rotate-binary: target_template_id must be non-empty")
  else
    live ← gets (fun w => instance_list SYSTEM_OWNER (mkListFilter (Some Live) false) (fw_instances w));
    rotate_rows runs target_template_id live (mkReport 0 0 []).
End swap.
