(* ===== verification/SnapshotRestore.v ===== *)
(** * Restoring snapshots

    Models [restore] and [restore_in_place] of [crates/core/src/snapshot.rs]
    and shows that a bundle is only restored if it is the one that was taken,
    what the bundle hash covers, and which backups the S3 sink makes that can
    not be restored. *)

From Stdlib Require Import ZArith Ascii Lia.
From stdpp Require Import base list strings gmap option.
From S2P Require Import Prelude RustStr RustNet Json Codec Store Envelope NetworkPolicy SandboxEnv Traits.
From S2P Require Import UpstreamPolicy InstanceStore TokenStore Secrets McpRecords StateFiles InstanceService.
From S2P Require Import InstanceLifecycle Snapshots InPlaceSwap.

Local Open Scope string_scope.
Local Open Scope list_scope.
Local Open Scope Z_scope.

Section restore.
Context {R : HostResolver} {env : FleetEnv} {dir : CipherDirectory} {codec : EnvelopeCodec}.
Context {mc : McpCodec} {th : TokenHash} (cipher : EnvelopeCipher) (sv : ServiceConfig).

(** [!Path::new(&row.path).exists() && row.remote_uri.is_some()], and the pull *)
Definition rehydrate (row : SnapshotRow) : fleet SnapshotRow :=
  exists_ ← gets (fun w => is_ok (fe_disk (length (fw_log w)) (sn_path row)));
  if negb exists_ && bool_decide (sn_remote_uri row <> None)
  then
    new_path ← with_err SwBackup (remote (SinkPull row) (fun n => fe_pull n row));
    _ ← update_path (sn_id row) new_path;
    mret (set_path new_path row)
  else mret row.

(** The check of the recorded hash; a row without one is let through *)
Definition verify_bundle (row : SnapshotRow) : fleet unit :=
  match sn_content_hash row with
  | None => mret tt
  | Some expected =>
      actual ← gets (hash_bundle (sn_path row));
      match actual with
      | Ok actual => if (actual =? expected)%string then mret tt else throw (SnapshotCorrupt (sn_id row))
      | Err _ => throw (SnapshotCorrupt (sn_id row))
      end
  end.

(** [SnapshotService::restore] *)
Definition snapshot_restore (run : FleetRun) (owner_id snapshot_id : string) (ttl_seconds : option Z)
    (env : env_map) : fleet CreatedInstance :=
  row ← require_snapshot owner_id snapshot_id;
  row ← rehydrate row;
  _ ← verify_bundle row;
  source ← require_row owner_id (sn_source_instance_id row);
  restore cipher sv run owner_id
    (mkRestore (ir_template_id source) (sn_path row) (Some (sn_source_instance_id row))
       (Some (ir_name source)) (Some (ir_task source)) env ttl_seconds (ir_network_policy source)
       (ir_models source) (ir_tools source)).

(** [restore_in_place] *)
Definition snapshot_restore_in_place (run : FleetRun) (owner_id instance_id snapshot_id : string)
    (target_template_id : option string) : fleet InstanceRow :=
  row ← require_snapshot owner_id snapshot_id;
  _ ← lift (if (sn_source_instance_id row =? instance_id)%string then Ok tt
            else Err (BadRequest "snapshot belongs to another instance"));
  row ← rehydrate row;
  _ ← verify_bundle row;
  restore_snapshot_in_place cipher sv run owner_id instance_id (sn_path row) target_template_id.
End restore.

(** ** What the hash covers *)

Lemma app_inj_len (a b x y : string) :
  String.length a = String.length b -> a +:+ x = b +:+ y -> a = b /\ x = y.
Proof.
  revert b. induction a as [|c a IH]; intros [|d b] Hl H; try done. cbn in *.
  injection H as -> H. injection Hl as Hl. by destruct (IH b Hl H) as [-> ->].
Qed.

Lemma length_le_bytes k n : String.length (le_bytes k n) = k.
Proof. revert n. induction k as [|k IH]; intros n; cbn; [done|]. by rewrite IH. Qed.

Lemma le_bytes_inj k a b :
  0 <= a < 256 ^ Z.of_nat k -> 0 <= b < 256 ^ Z.of_nat k -> le_bytes k a = le_bytes k b -> a = b.
Proof.
  revert a b. induction k as [|k IH]; intros a b Ha Hb H; [cbn in *; lia|].
  cbn [le_bytes] in H. rewrite Nat2Z.inj_succ, Z.pow_succ_r in Ha, Hb by lia.
  assert (a mod 256 = b mod 256) as Hm.
  { assert (forall z, 0 <= z mod 256 < 256) as Hr by (intros; apply Z.mod_pos_bound; lia).
    assert (N_of_ascii (ascii_of_N (Z.to_N (a mod 256))) = N_of_ascii (ascii_of_N (Z.to_N (b mod 256)))) as He
      by congruence.
    pose proof (Hr a). pose proof (Hr b). rewrite !N_ascii_embedding in He by lia. lia. }
  assert (a / 256 = b / 256) as Hd.
  { apply IH; [| |congruence]; (split; [apply Z.div_pos; lia|apply Z.div_lt_upper_bound; lia]). }
  rewrite (Z.div_mod a 256), (Z.div_mod b 256) by lia. lia.
Qed.

Lemma u64_le_inj a b : Z.of_nat a <= u64_max -> Z.of_nat b <= u64_max -> u64_le a = u64_le b -> a = b.
Proof.
  intros Ha Hb H. apply Nat2Z.inj. apply (le_bytes_inj 8); [| |exact H];
    unfold u64_max in *; change (256 ^ Z.of_nat 8) with 18446744073709551616; lia.
Qed.

(** Sizes a [usize] can hold *)
Definition sized (f : string * string) : Prop :=
  Z.of_nat (String.length f.1) <= u64_max /\ Z.of_nat (String.length f.2) <= u64_max.

Lemma frame_inj f g x y :
  sized f -> sized g -> file_frame f.1 f.2 +:+ x = file_frame g.1 g.2 +:+ y -> f = g /\ x = y.
Proof.
  destruct f as [p b], g as [q c]. unfold file_frame, sized. cbn [fst snd]. intros [Hp Hb] [Hq Hc] H.
  rewrite <- !append_assoc in H.
  apply app_inj_len in H as [Hl H]; [|unfold u64_le; by rewrite !length_le_bytes].
  apply u64_le_inj in Hl; [|done|done].
  apply app_inj_len in H as [-> H]; [|done].
  apply app_inj_len in H as [Hl' H]; [|unfold u64_le; by rewrite !length_le_bytes].
  apply u64_le_inj in Hl'; [|done|done].
  by apply app_inj_len in H as [-> ->].
Qed.

Lemma frame_not_empty f x : file_frame f.1 f.2 +:+ x <> "".
Proof. done. Qed.

Lemma preimage_inj fs gs :
  Forall sized fs -> Forall sized gs -> bundle_preimage fs = bundle_preimage gs -> fs = gs.
Proof.
  revert gs. induction fs as [|f fs IH]; intros [|g gs] Hf Hg H; [done..|].
  apply Forall_cons_iff in Hf as [Hf1 Hf], Hg as [Hg1 Hg]. cbn [bundle_preimage foldr] in H.
  apply frame_inj in H as [-> H]; [|done|done]. f_equal. by apply IH.
Qed.

Lemma hex_digit_inj m n : (m < 16)%N -> (n < 16)%N -> hex_digit m = hex_digit n -> m = n.
Proof.
  intros Hm Hn H. unfold hex_digit in H. apply (f_equal N_of_ascii) in H.
  destruct (N.ltb_spec m 10), (N.ltb_spec n 10); rewrite !N_ascii_embedding in H by lia; lia.
Qed.

Lemma hex_lower_inj a b : hex_lower a = hex_lower b -> a = b.
Proof.
  revert b. induction a as [|c a IH]; intros [|d b] H; [done..|]. cbn [hex_lower] in H.
  injection H as H1 H2 H3. f_equal; [|by apply IH].
  pose proof (N_ascii_bounded c). pose proof (N_ascii_bounded d).
  apply hex_digit_inj in H1; [|by apply N.Div0.div_lt_upper_bound; lia..].
  apply hex_digit_inj in H2; [|by apply N.mod_lt..].
  rewrite <- (ascii_N_embedding c), <- (ascii_N_embedding d). f_equal.
  rewrite (N.div_mod (N_of_ascii c) 16), (N.div_mod (N_of_ascii d) 16) by done. by rewrite H1, H2.
Qed.

(** Two different byte strings with one digest *)
Definition collision {th : TokenHash} : Prop := exists x y, x <> y /\ sha256_digest x = sha256_digest y.

Lemma hash_node_inj {th : TokenHash} n m h fs gs :
  hash_node n = Ok h -> hash_node m = Ok h -> bundle_files n = Ok fs -> bundle_files m = Ok gs ->
  Forall sized fs -> Forall sized gs -> fs = gs \/ collision.
Proof.
  intros Hn Hm Hf Hg Sf Sg. unfold hash_node in *. destruct n; try done. destruct m; try done.
  rewrite Hf in Hn. rewrite Hg in Hm. cbn in Hn, Hm. injection Hn as <-. injection Hm as Hh.
  apply hex_lower_inj in Hh. destruct (decide (bundle_preimage fs = bundle_preimage gs)) as [He|He].
  - left. by apply preimage_inj.
  - right. exists (bundle_preimage fs), (bundle_preimage gs). by split.
Qed.

(** ** Restoring *)

(** Calls that start a sandbox from [path] or not at all *)
Definition starts_from (path : option string) (c : FleetCall) : Prop :=
  match c with CubeCreate a => path <> None /\ sa_from_snapshot_path a = path | _ => True end.
(** The log grows by calls satisfying [P]. *)
Definition logs (P : FleetCall -> Prop) (w w' : FleetWorld) : Prop :=
  exists l, fw_log w' = fw_log w ++ l /\ Forall (fun c => P c.1) l.

#[export] Instance logs_preorder P : PreOrder (logs P).
Proof.
  split; [intros w; exists []; by rewrite app_nil_r|].
  intros w1 w2 w3 (l & Hl & Hp) (l' & Hl' & Hp'). exists (l ++ l'). rewrite Hl', Hl, app_assoc.
  split; [done|]. by apply Forall_app.
Qed.

Lemma logs_still {E A} P (m : svc FleetWorld E A) :
  (forall w, fw_log (m w).1 = fw_log w) -> framed (logs P) m.
Proof. intros H w. exists []. by rewrite app_nil_r, H. Qed.
Lemma logs_remote {E A} (P : FleetCall -> Prop) call (answer : nat -> result E A) :
  P call -> framed (logs P) (remote call answer).
Proof. intros Hp w. eexists. split; [reflexivity|]. by repeat constructor. Qed.
Lemma logs_tokens {A} P (m : svc TokenWorld StoreError A) : framed (logs P) (on_tokens m).
Proof. apply logs_still. intros w. unfold on_tokens. by destruct (m _). Qed.
Lemma logs_instances {A} P (m : Instances -> Instances * result StoreError A) : framed (logs P) (on_instances m).
Proof. apply logs_still. intros w. unfold on_instances. by destruct (m _). Qed.
Lemma logs_secrets {A} P (m : svc SecretDb SecretsError A) : framed (logs P) (on_secrets m).
Proof. apply logs_still. intros w. unfold on_secrets. by destruct (m _). Qed.

#[export] Hint Resolve logs_tokens logs_instances logs_secrets : framed.
#[export] Hint Extern 2 (framed (logs (starts_from _)) (remote _ _)) => apply logs_remote; done : framed.

Section verified.
Context {R : HostResolver} {env : FleetEnv} {dir : CipherDirectory} {codec : EnvelopeCodec}.
Context {mc : McpCodec} {th : TokenHash} (cipher : EnvelopeCipher) (sv : ServiceConfig).

Abbreviation starts_none := (logs (starts_from None)).

Lemma logs_require P owner id : framed (logs P) (require_row owner id).
Proof. unfold require_row. framed. Qed.
#[local] Hint Resolve logs_require : framed.

(** The restored sandbox starts from the bundle of the request. *)
Lemma logs_restore run owner req :
  framed (logs (starts_from (Some (rr_snapshot_path req)))) (restore cipher sv run owner req).
Proof.
  remember (Some (rr_snapshot_path req)) as path eqn:Hp.
  assert (forall n k, framed (logs (starts_from path)) (mint_attempts n k run)) as Hid
    by (induction n as [|n IH]; intros k; cbn [mint_attempts]; framed).
  assert (forall i sb b, framed (logs (starts_from path)) (push_with_retry i sb b)) as Hpush.
  { intros i sb b. unfold push_with_retry. generalize 12%nat as n, EmptyString as e.
    induction n as [|n IH]; intros e; cbn [push_attempts]; framed. }
  unfold restore, mint_unique_instance_id, mint_runtime_tokens, attach_sandbox, configure_restored, go_live,
    configure_body_for_existing_row, mcp_servers_block_for_instance, refresh_egress_policy_best_effort,
    bind_runtime_tokens_to_sandbox_source. cbn zeta. rewrite <- Hp.
  assert (forall run i t e rs, framed (logs (starts_from path))
    (start_sandbox run i (mkSandboxArgs t e path rs))) as Hstart.
  { intros. unfold start_sandbox, abandon, create_sandbox.
    assert (framed (logs (starts_from path)) (remote (CubeCreate (mkSandboxArgs t e path rs))
      (fun n => fe_create n (mkSandboxArgs t e path rs)))) as Hr
      by (apply logs_remote; by rewrite Hp).
    framed. }
  framed.
Qed.

Lemma require_snapshot_same owner id w w' r :
  require_snapshot owner id w = (w', r) -> w' = w /\
    forall row, r = Ok row -> snapshot_get id w = Some row /\ require_owner (sn_owner_id row) owner = Ok tt.
Proof.
  unfold require_snapshot, mbind, svc_bind, gets, lift. destruct (snapshot_get id w) as [row|]; cbn.
  - destruct (require_owner _ _) as [[]|e] eqn:E; intros [= <- <-]; (split; [done|]); [|done].
    by intros ? [= <-].
  - by intros [= <- <-].
Qed.

Lemma rehydrate_steps row w w' r :
  rehydrate row w = (w', r) -> starts_none w w' /\
    forall row', r = Ok row' -> sn_content_hash row' = sn_content_hash row.
Proof.
  intros H. split.
  - assert (framed starts_none (rehydrate row)) as Hf.
    { unfold rehydrate.
      assert (forall i p, framed starts_none (update_path i p)) as Hu
        by (intros; apply logs_still; intros v; unfold update_path, snapshot_update; by destruct (Nat.eqb _ _)).
      framed. }
    specialize (Hf w). by rewrite H in Hf.
  - intros row' ->. unfold rehydrate in H. apply svc_bind_ok in H as (? & x & _ & H).
    destruct (_ && _); [|by injection H as _ <-].
    apply svc_bind_ok in H as (? & path & _ & H). apply svc_bind_ok in H as (? & [] & _ & H).
    by injection H as _ <-.
Qed.

Lemma verify_bundle_spec row w w' r :
  verify_bundle row w = (w', r) -> w' = w /\
    (r = Ok tt -> forall h, sn_content_hash row = Some h -> hash_bundle (sn_path row) w = Ok h) /\
    forall e, r = Err e -> e = SnapshotCorrupt (sn_id row).
Proof.
  unfold verify_bundle. destruct (sn_content_hash row) as [h|]; [|by intros [= <- <-]].
  unfold mbind, svc_bind, gets. destruct (hash_bundle _ w) as [a|e].
  - destruct (a =? h)%string eqn:E; intros [= <- <-]; (split_and!; [done| |]); try done; [|by intros ? [= <-]].
    intros _ h' [= <-]. to_prop. by subst.
  - intros [= <- <-]. split_and!; [done|done|]. by intros ? [= <-].
Qed.

(** A restore starts no sandbox, or it starts one from the directory whose
    hash it has compared with the recorded one. *)
Lemma snapshot_restore_verified run owner id ttl envm w w' r row0 h :
  snapshot_restore cipher sv run owner id ttl envm w = (w', r) -> snapshot_get id w = Some row0 ->
  sn_content_hash row0 = Some h ->
  starts_none w w' \/ exists path w1, starts_none w w1 /\ hash_bundle path w1 = Ok h /\
    logs (starts_from (Some path)) w1 w'.
Proof.
  intros H Hg Hh. unfold snapshot_restore in H. unfold mbind, svc_bind in H.
  destruct (require_snapshot owner id w) as [w0 [row|e]] eqn:E0; apply require_snapshot_same in E0 as [-> Hr];
    [|left; injection H as <- _; reflexivity].
  destruct (Hr row eq_refl) as [Hrow _]. assert (row = row0) as -> by congruence.
  destruct (rehydrate row0 w) as [w1 [row|e]] eqn:E1; apply rehydrate_steps in E1 as [Hn Hk];
    [|left; by injection H as <- _].
  specialize (Hk row eq_refl). rewrite Hh in Hk.
  destruct (verify_bundle row w1) as [w2 [[]|e]] eqn:E2; apply verify_bundle_spec in E2 as (-> & Hok & _);
    [|left; by injection H as <- _].
  right. exists (sn_path row), w1. split_and!; [done|by apply Hok|].
  pose proof (logs_require (starts_from (Some (sn_path row))) owner (sn_source_instance_id row) w1) as Hreq.
  destruct (require_row owner (sn_source_instance_id row) w1) as [w2 [source|e]]; [|by injection H as <- _].
  transitivity w2; [exact Hreq|].
  match type of H with restore _ _ _ _ ?req _ = _ => pose proof (logs_restore run owner req w2) as Hl end.
  by rewrite H in Hl.
Qed.

Lemma snapshot_hash run owner id kind parent w w1 row n :
  snapshot_with_kind run owner id kind parent w = (w1, Ok row) ->
  fe_disk (S (length (fw_log w))) (sn_path row) = Ok n -> sn_content_hash row = ok (hash_node n).
Proof.
  intros H Hd. unfold snapshot_with_kind in H.
  apply svc_bind_ok in H as (w0 & inst & [-> _]%require_row_ok & H).
  apply svc_bind_ok in H as (? & sandbox & [-> _]%lift_ok & H). cbn zeta in H.
  apply svc_bind_ok in H as (w2 & info & Hi%with_err_ok & H). unfold remote in Hi. injection Hi as <- _.
  apply svc_bind_ok in H as (? & ch & [-> ->]%gets_ok & H).
  apply svc_bind_ok in H as (w3 & [] & _ & H). injection H as _ <-. cbn in Hd |- *.
  unfold hash_bundle. cbn. rewrite length_app, Nat.add_1_r, Hd. done.
Qed.
End verified.

(** C12. A hashed snapshot is restored only from the bundle that was taken.  The
    condition is that a hash was computed when the snapshot was made (its
    directory was on the local disk and could be read) and that the row still
    carries it; then, if a restore of it starts a sandbox, the directory it is
    started from was read during this restore, before the start, and its regular
    files had exactly the paths and bytes of the bundle at snapshot time, or
    SHA-256 has a collision.  A row without a hash, such as one from before the
    column existed, is restored unverified and is not covered. *)
Theorem restore_only_taken_bundle {R : HostResolver} {env : FleetEnv} {dir : CipherDirectory}
    {codec : EnvelopeCodec} {mc : McpCodec} {th : TokenHash} (cipher : EnvelopeCipher) (sv : ServiceConfig)
    (run0 : FleetRun) (owner0 instance_id : string) (kind : SnapshotKind) (w0 w1 : FleetWorld)
    (taken : SnapshotRow) (entries : list (string * Node)) (files : list (string * string))
    (run : FleetRun) (owner : string) (ttl : option Z) (envm : env_map) (w w' : FleetWorld)
    (r : result SwarmError CreatedInstance) (now : SnapshotRow) (args : CreateSandboxArgs) (t : Instances)
    (calls : list (FleetCall * Instances))
    (Htake : snapshot_with_kind run0 owner0 instance_id kind None w0 = (w1, Ok taken))
    (Hdisk : fe_disk (S (length (fw_log w0))) (sn_path taken) = Ok (Dir entries))
    (Hfiles : bundle_files (Dir entries) = Ok files) (Hsized : Forall sized files)
    (Hrow : snapshot_get (sn_id taken) w = Some now) (Hkept : sn_content_hash now = sn_content_hash taken)
    (Hrestore : snapshot_restore cipher sv run owner (sn_id taken) ttl envm w = (w', r))
    (Hcalls : fw_log w' = fw_log w ++ calls) (Hstart : (CubeCreate args, t) ∈ calls) :
  exists path before after node files',
    sa_from_snapshot_path args = Some path /\ calls = before ++ after /\ (CubeCreate args, t) ∈ after /\
    fe_disk (length (fw_log w ++ before)) path = Ok node /\ bundle_files node = Ok files' /\
    (Forall sized files' -> files = files' \/ collision).
Proof.
  assert (exists h, sn_content_hash taken = Some h /\ hash_node (Dir entries) = Ok h) as (h & Hh & Hn).
  { rewrite (snapshot_hash _ _ _ _ _ _ _ _ _ Htake Hdisk). cbn [hash_node]. rewrite Hfiles. cbn. by eexists. }
  rewrite Hh in Hkept.
  assert (forall c : FleetCall * Instances, c ∈ calls -> c.1 = CubeCreate args -> forall l, c ∈ l ->
    forall p, Forall (fun c => starts_from p c.1) l -> p <> None /\ sa_from_snapshot_path args = p) as Hfrom.
  { intros c _ Hc l Hin p Hl. rewrite Forall_forall in Hl. specialize (Hl c).
    rewrite <- list_elem_of_In in Hl. specialize (Hl Hin). by rewrite Hc in Hl. }
  destruct (snapshot_restore_verified cipher sv run owner (sn_id taken) ttl envm w w' r now h Hrestore Hrow Hkept)
    as [(l & Hl & Hnone)|(path & w2 & (before & Hb & Hnone) & Hv & after & Ha & Hpath)].
  { rewrite Hl in Hcalls. apply app_inv_head in Hcalls as ->.
    by destruct (Hfrom _ Hstart eq_refl _ Hstart _ Hnone). }
  assert (calls = before ++ after) as -> by (rewrite Ha, Hb, <- app_assoc in Hcalls; by apply app_inv_head in Hcalls).
  assert ((CubeCreate args, t) ∈ after) as Hin.
  { apply elem_of_app in Hstart as Hs. destruct Hs as [Hs|Hs]; [|done].
    by destruct (Hfrom _ Hstart eq_refl _ Hs _ Hnone). }
  unfold hash_bundle in Hv. apply result_bind_ok in Hv as (node & Hnode & Hv).
  assert (exists fs, bundle_files node = Ok fs) as [fs Hfs].
  { unfold hash_node in Hv. destruct node; try done. apply result_bind_ok in Hv as (fs & Hfs & _). eauto. }
  exists path, before, after, node, fs. rewrite Hb in Hnode. split_and!; try done.
  - by destruct (Hfrom _ Hstart eq_refl _ Hin _ Hpath).
  - intros Hs. by eapply (hash_node_inj (Dir entries) node).
Qed.

(** ** Backups *)

Lemma length_sort {A} (le : A -> A -> bool) l : length (sort le l) = length l.
Proof.
  assert (forall x k, length (insert_sorted le x k) = S (length k)) as Hi.
  { intros x k. induction k as [|y k IH]; cbn; [done|]. destruct (le x y); cbn; [done|]. by rewrite IH. }
  induction l as [|x l IH]; cbn; [done|]. by rewrite Hi, IH.
Qed.

Lemma length_bundle_files n files : bundle_files n = Ok files -> length files = length (collect_files [] n).
Proof.
  intros H%traverse_ok_Forall2%Forall2_length. by rewrite <- H, length_sort.
Qed.

Lemma collect_cons base name n entries :
  collect_files base (Dir ((name, n) :: entries)) =
  collect_files (base ++ [name]) n ++ collect_files base (Dir entries).
Proof. done. Qed.

Lemma upload_count {s3 : S3Api} prefix id entries up :
  upload_entries prefix id entries = Ok up ->
  (length up <= length (collect_files [] (Dir entries)))%nat /\
  ((exists name n, (name, n) ∈ entries /\ collect_files [name] n <> [] /\ forall b, n <> File b) ->
   (length up < length (collect_files [] (Dir entries)))%nat).
Proof.
  revert up. induction entries as [|[name n] entries IH]; intros up H.
  { injection H as <-. split; [done|]. intros (? & ? & ?%elem_of_nil & _). done. }
  rewrite collect_cons, length_app. cbn [upload_entries] in H. destruct n as [b|sub|].
  - apply result_bind_ok in H as (nm & _ & H). apply result_bind_ok in H as (st & _ & H).
    destruct (_ && _); [|done]. apply result_bind_ok in H as (rest & Hr & H). injection H as <-.
    destruct (IH rest Hr) as [Hle Hlt]. change (length (collect_files ([] ++ [name]) (File b))) with 1%nat.
    cbn [length]. split; [lia|]. intros (m & n & Hin & Hc & Hb).
    apply elem_of_cons in Hin as [[= -> ->]|Hin]; [by destruct (Hb b)|].
    assert (length rest < length (collect_files [] (Dir entries)))%nat by (apply Hlt; eauto). lia.
  - destruct (IH up H) as [Hle Hlt]. split; [lia|]. intros (m & n & Hin & Hc & Hb).
    apply elem_of_cons in Hin as [[= -> ->]|Hin].
    + change ([] ++ [name]) with [name]. destruct (collect_files [name] (Dir sub)); [done|]. cbn [length]. lia.
    + assert (length up < length (collect_files [] (Dir entries)))%nat by (apply Hlt; eauto). lia.
  - destruct (IH up H) as [Hle Hlt]. change (length (collect_files ([] ++ [name]) Other)) with 0%nat. split; [lia|]. intros (m & n & Hin & Hc & Hb).
    apply elem_of_cons in Hin as [[= -> ->]|Hin]; [done|].
    assert (length up < length (collect_files [] (Dir entries)))%nat by (apply Hlt; eauto). lia.
Qed.

Lemma length_flat (up : list (string * string)) :
  length (collect_files [] (Dir (map (fun f => (f.1, File f.2)) up))) = length up.
Proof. induction up as [|[n b] up IH]; [done|]. cbn [map]. rewrite collect_cons, length_app, IH. done. Qed.

(** The S3 sink stores the files at the top of a bundle only, while the hash
    covers all of them: a backup of a bundle with a file in a subdirectory can
    never be verified again from the stored objects, whose directory hashes
    differently unless SHA-256 has a collision. *)
Theorem nested_backup_unrestorable {th : TokenHash} {s3 : S3Api} (prefix id : string)
    (entries : list (string * Node)) (up files files' : list (string * string)) (name : string)
    (sub : list (string * Node)) (h h' : string)
    (Hup : s3_promote prefix id (Ok (Dir entries)) = Ok up)
    (Hin : (name, Dir sub) ∈ entries) (Hsub : collect_files [name] (Dir sub) <> [])
    (Hfiles : bundle_files (Dir entries) = Ok files) (Hsized : Forall sized files)
    (Hfiles' : bundle_files (Dir (map (fun f => (f.1, File f.2)) up)) = Ok files') (Hsized' : Forall sized files')
    (Hh : hash_node (Dir entries) = Ok h)
    (Hh' : hash_node (Dir (map (fun f => (f.1, File f.2)) up)) = Ok h') :
  h' <> h \/ collision.
Proof.
  unfold s3_promote in Hup. apply result_bind_ok in Hup as (n & [= <-] & Hup).
  apply result_bind_ok in Hup as (u & Hu & Hup). case_bool_decide; [done|]. injection Hup as ->.
  apply upload_count in Hu as [_ Hlt]. specialize (Hlt ltac:(by exists name, (Dir sub))).
  apply length_bundle_files in Hfiles as Hl, Hfiles' as Hl'. rewrite length_flat in Hl'.
  destruct (decide (h' = h)) as [->|Hne]; [|by left].
  destruct (hash_node_inj _ _ h files files' Hh Hh' Hfiles Hfiles' Hsized Hsized') as [->|Hc]; [lia|by right].
Qed.

(** ** A concrete backup *)

#[local] Instance accepting_bucket : S3Api := {| s3_put _ _ := Ok 200 |}.
Definition nested : list (string * Node) := [("disk.img", File "bytes"); ("meta", Dir [("vm.json", File "{}")])].

Definition hash_or_empty (n : Node) : string := default "" (ok (hash_node n)).

Lemma nested_backup_unrestorable_witness :
  hash_or_empty (Dir [("disk.img", File "bytes")]) <> hash_or_empty (Dir nested) \/ collision.
Proof.
  refine (nested_backup_unrestorable "p/" "s" nested [("disk.img", "bytes")]
    [("disk.img", "bytes"); ("meta/vm.json", "{}")] [("disk.img", "bytes")] "meta" [("vm.json", File "{}")]
    (hash_or_empty (Dir nested)) (hash_or_empty (Dir [("disk.img", File "bytes")])) _ _ _ _ _ _ _ _ _).
  - vm_compute. reflexivity.
  - right. left.
  - discriminate.
  - vm_compute. reflexivity.
  - repeat constructor; vm_compute; discriminate.
  - vm_compute. reflexivity.
  - repeat constructor; vm_compute; discriminate.
  - vm_compute. reflexivity.
  - vm_compute. reflexivity.
Defined.

#[local] Instance ready : FleetEnv := example_fleet (Ok example_sandbox) None.
Definition sandboxed_row : InstanceRow :=
  mkInstanceRow "i0" "a" "n" "t" (Some "old") "g1" "tpl" Live "tok" false None 0 None None 0 None None NoLocalNet
    [] ["m1"] [].
Definition snapshotted : FleetWorld * result SwarmError SnapshotRow :=
  snapshot_with_kind example_run "a" "i0" Manual None (example_world [sandboxed_row]).
Definition taken_row : SnapshotRow :=
  mkSnapshot "s1" "a" "i0" None Manual "/snap" "10.0.0.2" None None 1000 None
    (ok (hash_node (Dir [("disk.img", File "bytes")]))).
Definition restored : FleetWorld * result SwarmError CreatedInstance :=
  snapshot_restore plain_cipher example_sv example_run "a" "s1" None ∅ snapshotted.1.

Lemma restore_only_taken_bundle_witness :
  exists args calls t path before after node files',
    sa_from_snapshot_path args = Some path /\ calls = before ++ after /\ (CubeCreate args, t) ∈ after /\
    fe_disk (length (fw_log snapshotted.1 ++ before)) path = Ok node /\ bundle_files node = Ok files' /\
    (Forall sized files' -> [("disk.img", "bytes")] = files' \/ collision).
Proof.
  do 3 eexists. eapply (restore_only_taken_bundle plain_cipher example_sv example_run "a" "i0" Manual
    (example_world [sandboxed_row]) snapshotted.1 taken_row [("disk.img", File "bytes")] [("disk.img", "bytes")]
    example_run "a" None ∅ snapshotted.1 restored.1 restored.2 taken_row).
  - vm_compute. reflexivity.
  - reflexivity.
  - vm_compute. reflexivity.
  - repeat constructor; vm_compute; discriminate.
  - vm_compute. reflexivity.
  - reflexivity.
  - apply surjective_pairing.
  - vm_compute. reflexivity.
  - left.
Defined.
