(* ===== verification/SwapSafety.v ===== *)
(** * Replacing a sandbox is safe

    Theorems about [InPlaceSwap]: a swap never destroys the sandbox its
    instance is served by, changes nothing of the instance's identity, and
    waits for a bounded time. *)

From Stdlib Require Import ZArith Ascii Lia.
From stdpp Require Import base list strings gmap option.
From S2P Require Import Prelude RustStr RustNet Json Codec Store Envelope NetworkPolicy SandboxEnv Traits.
From S2P Require Import UpstreamPolicy InstanceStore TokenStore Secrets McpRecords StateFiles InstanceService.
From S2P Require Import InstanceLifecycle InstanceCreation Snapshots InPlaceSwap.

Local Open Scope string_scope.
Local Open Scope list_scope.
Local Open Scope Z_scope.

(** ** Steps that leave the rows alone *)

(** No row changes, and only calls in [P] are made. *)
Definition steady (P : FleetCall -> Prop) (w w' : FleetWorld) : Prop :=
  fw_instances w' = fw_instances w /\
  exists l, fw_log w' = fw_log w ++ l /\ Forall (fun c => P c.1 /\ c.2 = fw_instances w) l.

#[export] Instance steady_preorder P : PreOrder (steady P).
Proof.
  split.
  - intros w. split; [done|]. exists []. by rewrite app_nil_r.
  - intros w1 w2 w3 (Hi & l & Hl & Hp) (Hi' & l' & Hl' & Hp'). split; [congruence|].
    exists (l ++ l'). rewrite Hl', Hl, app_assoc. split; [done|]. rewrite Hi in Hp'. by apply Forall_app.
Qed.

Definition no_destroy (c : FleetCall) : Prop := match c with CubeDestroy _ => False | _ => True end.
(** Calls that destroy nothing but the new sandbox [sb] *)
Definition destroys_only (sb : string) (c : FleetCall) : Prop :=
  match c with CubeDestroy s => s = sb | _ => True end.

Lemma steady_still {E A} P (m : svc FleetWorld E A) :
  (forall w, fw_instances (m w).1 = fw_instances w /\ fw_log (m w).1 = fw_log w) -> framed (steady P) m.
Proof. intros H w. destruct (H w) as [? Hl]. split; [done|]. exists []. by rewrite app_nil_r. Qed.
Lemma steady_remote {E A} (P : FleetCall -> Prop) call (answer : nat -> result E A) :
  P call -> framed (steady P) (remote call answer).
Proof. intros Hp w. split; [done|]. eexists. split; [reflexivity|]. repeat constructor. done. Qed.
Lemma steady_secrets {A} P (m : svc SecretDb SecretsError A) : framed (steady P) (on_secrets m).
Proof. apply steady_still. intros w. unfold on_secrets. by destruct (m _). Qed.
Lemma steady_tokens {A} P (m : svc TokenWorld StoreError A) :
  (forall t, tw_instances (m t).1 = tw_instances t) -> framed (steady P) (on_tokens m).
Proof.
  intros Hm. apply steady_still. intros w. specialize (Hm (fw_tokens w)). unfold on_tokens. by destruct (m _).
Qed.
Lemma framed_or_undo {A} rel `{PreOrder FleetWorld rel} (m : fleet A) (undo : fleet unit) :
  framed rel m -> framed rel undo -> framed rel (or_undo m undo).
Proof. intros Hm Hu. unfold or_undo. framed. Qed.
Lemma steady_weaken {E A} (P Q : FleetCall -> Prop) (m : svc FleetWorld E A) :
  (forall c, P c -> Q c) -> framed (steady P) m -> framed (steady Q) m.
Proof.
  intros HPQ Hm w. destruct (Hm w) as (Hi & l & Hl & Hp). split; [done|]. exists l. split; [done|].
  eapply List.Forall_impl; [|exact Hp]. cbn. intros c [? ?]. auto.
Qed.

#[export] Hint Resolve steady_secrets framed_or_undo : framed.
#[export] Hint Extern 2 (framed (steady _) (remote _ _)) => apply steady_remote; done : framed.

Lemma steady_any {E A} sb (m : svc FleetWorld E A) : framed (steady no_destroy) m -> framed (steady (destroys_only sb)) m.
Proof. apply steady_weaken. by intros []. Qed.

(** Token operations that touch tokens only *)
Lemma mint_keeps_instances {codec : EnvelopeCodec} {th : TokenHash} cipher ciphers run prefix id p w :
  tw_instances (mint_with_prefix cipher ciphers run prefix id p w).1 = tw_instances w.
Proof. by destruct (mint_exact cipher ciphers run prefix id p w) as [[e ->]|[s ->]]. Qed.
Lemma lookup_instances {codec : EnvelopeCodec} cipher ciphers run id p w :
  tw_instances (lookup_by_instance_for_provider cipher ciphers run id p w).1 = tw_instances w.
Proof.
  unfold lookup_by_instance_for_provider, mbind, svc_bind, gets.
  destruct (head _) as [row|]; [|done]. destruct (open_token _ _ _ _ _ _) as [o|e]; [|done].
  assert (tw_instances (rewrap_token_if_needed ciphers (tn_seal run) id p (tk_token row) o w).1 = tw_instances w)
    as Hr.
  { unfold rewrap_token_if_needed. destruct (ot_opened o); [|done]. destruct (_ && _); [done|].
    destruct ciphers; [|done]. unfold mbind, svc_bind, lift. destruct (map_err _ _); [|done].
    unfold set_ciphertext. by destruct (_ || _). }
  by destruct (rewrap_token_if_needed _ _ _ _ _ _ _) as [w1 [[]|e]].
Qed.
Lemma bind_instances id ip w : tw_instances (bind_expected_src_ip id ip w).1 = tw_instances w.
Proof. unfold bind_expected_src_ip. by destruct (is_empty _). Qed.

Section steps.
Context {R : HostResolver} {env : FleetEnv} {dir : CipherDirectory} {codec : EnvelopeCodec}.
Context {mc : McpCodec} {th : TokenHash} (cipher : EnvelopeCipher) (sv : ServiceConfig).

Lemma steady_require P owner id : framed (steady P) (require_row owner id).
Proof. unfold require_row. framed. Qed.
Lemma steady_push i sb b : framed (steady no_destroy) (push_with_retry i sb b).
Proof.
  unfold push_with_retry. generalize 12%nat as n, EmptyString as e.
  induction n as [|n IH]; intros e; cbn [push_attempts]; framed.
Qed.
Lemma steady_restore_file i sb b : framed (steady no_destroy) (restore_state_file_with_retry i sb b).
Proof.
  unfold restore_state_file_with_retry. generalize 12%nat as n, EmptyString as e.
  induction n as [|n IH]; intros e; cbn [restore_attempts]; framed.
Qed.
Lemma steady_read P sr row : framed (steady P) (read_body_for_replay sr row).
Proof. apply steady_still. intros w. unfold read_body_for_replay. by destruct (read_body sr row) as [[]|]. Qed.
Lemma steady_bind_ip P id info : framed (steady P) (bind_runtime_tokens_to_sandbox_source id info).
Proof.
  unfold bind_runtime_tokens_to_sandbox_source. cbn zeta. destruct (is_empty _); [framed|].
  apply steady_tokens, bind_instances.
Qed.
Lemma steady_or_mint P o m : framed (steady P) m -> framed (steady P) (or_mint o m).
Proof. intros H. unfold or_mint. framed. Qed.
#[local] Hint Resolve steady_require steady_push steady_restore_file steady_read steady_bind_ip steady_or_mint : framed.

Lemma steady_runtime_tokens P run id g : framed (steady P) (runtime_tokens_for_instance cipher run id g).
Proof.
  unfold runtime_tokens_for_instance, lookup_by_instance, token_mint, mint_ingest, mint_state_sync_for_generation.
  cbn zeta.
  assert (forall r i p, framed (steady P) (on_tokens (lookup_by_instance_for_provider cipher (Some dir) r i p))) as Hl
    by (intros; apply steady_tokens, lookup_instances).
  assert (forall r x i p, framed (steady P) (on_tokens (mint_with_prefix cipher (Some dir) r x i p))) as Hm
    by (intros; apply steady_tokens, mint_keeps_instances).
  framed.
Qed.
Lemma steady_plan P run owner id t p a b : framed (steady P) (build_in_place_swap_plan sv run owner id t p a b).
Proof. unfold build_in_place_swap_plan. cbn zeta. framed. Qed.
Lemma steady_body P sr owner row p i s : framed (steady P) (configure_body_for_existing_row sv sr owner row p i s).
Proof. unfold configure_body_for_existing_row, mcp_servers_block_for_instance. framed. Qed.
Lemma steady_clear P run k b owner id : framed (steady P) (clear_identity_fields_when_mirror_is_authoritative run k b owner id).
Proof. unfold clear_identity_fields_when_mirror_is_authoritative. framed. Qed.
Lemma steady_durable P run id : framed (steady P) (has_durable_mirrored_state_files run id).
Proof.
  unfold has_durable_mirrored_state_files. apply framed_bind; [apply _|framed|]. intros rows.
  induction rows as [|row rows IH]; cbn [any_replayable]; framed.
Qed.
Lemma steady_replay_of P run row allow : framed (steady P) (replay_of run row allow).
Proof. unfold replay_of. cbn zeta. framed. Qed.
#[local] Hint Resolve steady_runtime_tokens steady_plan steady_body steady_clear steady_durable steady_replay_of : framed.

Lemma steady_replay_rows run owner id sb allow rows n :
  framed (steady no_destroy) (replay_rows run owner id sb allow rows n).
Proof. revert n. induction rows as [|row rows IH]; intros n; cbn [replay_rows]; framed. Qed.
#[local] Hint Resolve steady_replay_rows : framed.
Lemma steady_replay run owner id sb allow : framed (steady no_destroy) (replay_state_files_to_sandbox sv run owner id sb allow).
Proof. unfold replay_state_files_to_sandbox. framed. Qed.
Lemma steady_configure run k owner row tk sb on op ph :
  framed (steady no_destroy) (configure_existing_sandbox_for_state_replay sv run k owner row tk sb on op ph).
Proof. unfold configure_existing_sandbox_for_state_replay. framed. Qed.
#[local] Hint Resolve steady_replay steady_configure : framed.
Lemma steady_replay_configure run owner row tk sb allow before op :
  framed (steady no_destroy) (replay_state_files_and_configure sv run owner row tk sb allow before op).
Proof. unfold replay_state_files_and_configure. framed. Qed.
Lemma steady_push_after run owner row tk sb op :
  framed (steady no_destroy) (push_configure_after_swap sv run owner row tk sb op).
Proof. unfold push_configure_after_swap. framed. Qed.
Lemma steady_start source t p r tk path off : framed (steady no_destroy) (start_replacement sv source t p r tk path off).
Proof. unfold start_replacement, create_sandbox. framed. Qed.
Lemma steady_idle fuel k run id sb : framed (steady no_destroy) (await_idle fuel k run id sb).
Proof. revert k. induction fuel as [|n IH]; intros k; cbn [await_idle]; cbn zeta; framed. Qed.
Lemma steady_unquiesce q id sb : framed (steady no_destroy) (unquiesce_if q id sb).
Proof. unfold unquiesce_if. framed. Qed.
Lemma steady_snapshot run owner id : framed (steady no_destroy) (snapshot run owner id).
Proof.
  unfold snapshot, snapshot_with_kind. cbn zeta.
  assert (forall row, framed (steady no_destroy) (snapshot_insert row)) as Hi
    by (intros row; apply steady_still; intros w; unfold snapshot_insert; by destruct (select_one _ _)).
  framed.
Qed.
End steps.

#[export] Hint Resolve steady_require steady_read steady_bind_ip steady_runtime_tokens steady_plan steady_body
  steady_durable steady_replay_configure steady_push_after steady_start steady_idle steady_unquiesce
  steady_snapshot : framed.

(** ** Triples over the instance table *)

(** The call does not destroy a sandbox that the instance's row names. *)
Definition spares (id : string) (c : FleetCall * Instances) : Prop :=
  match c.1 with
  | CubeDestroy sb => forall r, r ∈ c.2 -> ir_id r = id -> ir_cube_sandbox_id r <> Some sb
  | _ => True
  end.
Definition spared (id : string) (w w' : FleetWorld) : Prop :=
  exists l, fw_log w' = fw_log w ++ l /\ Forall (spares id) l.

(** Run in a table satisfying [I], [m] spares the instance's sandbox and ends
    in a result and a table related by [Q]. *)
Definition safe {A} (id : string) (I : Instances -> Prop) (m : fleet A)
    (Q : result SwarmError A -> Instances -> Prop) : Prop :=
  forall w, I (fw_instances w) -> spared id w (m w).1 /\ Q (m w).2 (fw_instances (m w).1).

Lemma safe_bind {A B} id I (m : fleet A) (f : A -> fleet B) Q S :
  safe id I m Q -> (forall a, safe id (Q (Ok a)) (f a) S) -> (forall e t, Q (Err e) t -> S (Err e) t) ->
  safe id I (m ≫= f) S.
Proof.
  intros Hm Hf He w Hw. unfold mbind, svc_bind. destruct (Hm w Hw) as [(l & Hl & Hs) HQ].
  destruct (m w) as [w1 [a|e]]; cbn [fst snd] in *; [|by split; [exists l|auto]].
  destruct (Hf a w1 HQ) as [(l' & Hl' & Hs') HS]. split; [|done].
  exists (l ++ l'). rewrite Hl', Hl, app_assoc. split; [done|]. by apply Forall_app.
Qed.

Lemma safe_steady {A} id (I : Instances -> Prop) P (m : fleet A) (S : result SwarmError A -> Instances -> Prop) :
  framed (steady P) m -> (forall c t, I t -> P c -> spares id (c, t)) ->
  (forall w r, I (fw_instances w) -> (m w).2 = r -> S r (fw_instances w)) ->
  safe id I m S.
Proof.
  intros Hm Hc HS w Hw. destruct (Hm w) as (Hi & l & Hl & Hp). split.
  - exists l. split; [done|]. eapply List.Forall_impl; [|exact Hp]. intros [c t] [Hc' Ht]. cbn in *. subst t. auto.
  - rewrite Hi. by eapply HS.
Qed.

Lemma no_destroy_spares id c t : no_destroy c -> spares id (c, t).
Proof. by destruct c. Qed.

(** A step that destroys nothing keeps the table. *)
Lemma safe_quiet {A} id t0 (m : fleet A) : framed (steady no_destroy) m -> safe id (eq t0) m (fun _ => eq t0).
Proof.
  intros Hm. eapply safe_steady; [exact Hm| |by intros]. intros c t _. apply no_destroy_spares.
Qed.

(** A step that may destroy the new sandbox [sb], which no row names yet *)
Lemma safe_undoing {A} id t0 sb (m : fleet A) :
  framed (steady (destroys_only sb)) m -> (forall r, r ∈ t0 -> ir_cube_sandbox_id r <> Some sb) ->
  safe id (eq t0) m (fun _ => eq t0).
Proof.
  intros Hm Hn. eapply safe_steady; [exact Hm| |by intros]. intros c t <- Hc. destruct c; try done.
  cbn in Hc. subst. intros r Hr _. by apply Hn.
Qed.

Lemma safe_post {A} id I (m : fleet A) (Q S : result SwarmError A -> Instances -> Prop) :
  safe id I m Q -> (forall r t, Q r t -> S r t) -> safe id I m S.
Proof. intros Hm HQ w Hw. destruct (Hm w Hw). auto. Qed.

(** ** The row after a swap *)

Definition replaced_row (sandbox generation template : string) (policy : NetworkPolicy) (cidrs : list string)
    (now : Z) (status : InstanceStatus) (r : InstanceRow) : InstanceRow :=
  mkInstanceRow (ir_id r) (ir_owner_id r) (ir_name r) (ir_task r) (Some sandbox) generation template status
    (ir_bearer_token r) (ir_pinned r) (ir_expires_at r) now None None (ir_created_at r) (ir_destroyed_at r)
    None policy cidrs (ir_models r) (ir_tools r).

Lemma safe_replace id t0 sb g k p c now :
  safe id (eq t0) (on_instances (replace_cube_sandbox id sb g k p c now))
    (fun r t => match r with
                | Ok _ => t = update (by_id id) (replaced_row sb g k p c now Configuring) t0
                | Err _ => t = t0
                end).
Proof.
  intros w ->. unfold on_instances, replace_cube_sandbox, update_found.
  destruct (Nat.eqb _ _); (split; [exists []; by rewrite app_nil_r|done]).
Qed.

Lemma safe_or_undo {A} id t0 (m : fleet A) undo (Q : result SwarmError A -> Instances -> Prop) :
  safe id (eq t0) m Q -> (forall e t, Q (Err e) t -> t = t0) ->
  safe id (eq t0) undo (fun _ => eq t0) ->
  safe id (eq t0) (or_undo m undo) (fun r t => match r with Ok a => Q (Ok a) t | Err _ => t = t0 end).
Proof.
  intros Hm He Hu. unfold or_undo. eapply safe_bind with
    (Q := fun r t => match r with Ok (Ok a) => Q (Ok a) t | Ok (Err e) => t = t0 | Err _ => t = t0 end).
  - intros w Hw. unfold attempt. specialize (Hm w Hw). destruct (m w) as [w1 [a|e]]; cbn in *; [done|].
    destruct Hm as [? HQ]. split; [done|]. by eapply He.
  - intros [a|e].
    + intros w Hw. split; [exists []; by rewrite app_nil_r|exact Hw].
    + eapply safe_bind with (Q := fun _ => eq t0); [|intros _|by intros].
      * intros w Hw. by apply Hu.
      * intros w Hw. split; [exists []; by rewrite app_nil_r|by symmetry].
  - by intros.
Qed.

Lemma get_for_owner_update owner id f t :
  (forall r, ir_id (f r) = ir_id r /\ ir_owner_id (f r) = ir_owner_id r) ->
  instance_get_for_owner owner id (update (by_id id) f t) = f <$> instance_get_for_owner owner id t.
Proof.
  intros Hf. unfold instance_get_for_owner, select_one. induction t as [|r t IH]; [done|].
  cbn [update map]. rewrite !select_cons. destruct (by_id id r) eqn:Hb.
  - destruct (Hf r) as [Hi Ho]. unfold by_id. rewrite Hi, Ho. unfold by_id in Hb. rewrite Hb. cbn [andb].
    destruct (_ || _); [done|]. exact IH.
  - unfold by_id in Hb. unfold by_id at 1. rewrite Hb. cbn [andb]. exact IH.
Qed.

Lemma replaced_twice id sb g k p c now t :
  update (by_id id) (fun r => mkInstanceRow (ir_id r) (ir_owner_id r) (ir_name r) (ir_task r)
    (ir_cube_sandbox_id r) (ir_state_generation r) (ir_template_id r) Live (ir_bearer_token r)
    (ir_pinned r) (ir_expires_at r) (ir_last_active_at r) (ir_last_probe_at r) (ir_last_probe_status r)
    (ir_created_at r) (ir_destroyed_at r) (ir_rotated_to r) (ir_network_policy r)
    (ir_network_policy_cidrs r) (ir_models r) (ir_tools r))
    (update (by_id id) (replaced_row sb g k p c now Configuring) t) =
  update (by_id id) (replaced_row sb g k p c now Live) t.
Proof.
  unfold update. rewrite map_map. apply map_ext. intros r. destruct (by_id id r) eqn:E; [|by rewrite E].
  unfold by_id in *. cbn. by rewrite E.
Qed.

(** The operations of this file, to state theorems about all of them *)
Inductive SwapOp : Type :=
| Rotate (template : string) (policy : option NetworkPolicy)
| Recreate (template : string) (policy : option NetworkPolicy)
| Reset (template : string)
| RestoreSnapshot (path : string) (template : option string).

(** The template and the policy the instance is to have *)
Definition swap_target (op : SwapOp) (source : InstanceRow) : string * NetworkPolicy :=
  match op with
  | Rotate t p | Recreate t p => (trim t, default (ir_network_policy source) p)
  | Reset t => (trim t, ir_network_policy source)
  | RestoreSnapshot _ (Some t) =>
      (if is_empty (trim t) then ir_template_id source else t, ir_network_policy source)
  | RestoreSnapshot _ None => (ir_template_id source, ir_network_policy source)
  end.

Section swaps.
Context {R : HostResolver} {env : FleetEnv} {dir : CipherDirectory} {codec : EnvelopeCodec}.
Context {mc : McpCodec} {th : TokenHash} (cipher : EnvelopeCipher) (sv : ServiceConfig).

Definition run_swap (op : SwapOp) (run : FleetRun) (owner id : string) : fleet InstanceRow :=
  match op with
  | Rotate t p => rotate_in_place cipher sv run owner id t p
  | Recreate t p => recreate_in_place cipher sv run owner id t p
  | Reset t => reset_in_place_from_state cipher sv run owner id t
  | RestoreSnapshot path t => restore_snapshot_in_place cipher sv run owner id path t
  end.

(** Every row of the instance now names a sandbox started for the target. *)
Definition swapped (op : SwapOp) (run : FleetRun) (owner id : string) (t0 : Instances) (row : InstanceRow)
    (t : Instances) : Prop :=
  exists source n args info resolved,
    let '(template, policy) := swap_target op source in
    let f := replaced_row (sb_id info) (trim (fr_generation run)) template policy
               (row_policy_cidrs policy resolved) (fr_now run) Live in
    instance_get_for_owner owner id t0 = Some source /\ ir_status source <> Destroyed /\
    resolve policy (sv_llm_cidr sv) = Ok resolved /\
    fe_create n args = Ok info /\ sa_template_id args = template /\ sa_resolved_policy args = resolved /\
    t = update (by_id id) f t0 /\ row = f source.

Lemma safe_finish run owner id old t0 sb g k p c now :
  old <> Some sb ->
  safe id (eq (update (by_id id) (replaced_row sb g k p c now Configuring) t0)) (finish_swap run owner id old)
    (fun r t => match r with
                | Ok row => t = update (by_id id) (replaced_row sb g k p c now Live) t0 /\
                            instance_get_for_owner owner id t = Some row
                | Err _ => True
                end).
Proof.
  intros Hold. unfold finish_swap. set (t2 := update (by_id id) (replaced_row sb g k p c now Live) t0).
  assert (forall r, r ∈ t2 -> ir_id r = id -> ir_cube_sandbox_id r = Some sb) as Hnew.
  { intros r (s & Hs & ->)%elem_of_update Hid. unfold by_id in *. destruct (_ =? _)%string eqn:E; [done|].
    to_prop. done. }
  eapply safe_bind with (Q := fun r t => match r with Ok _ => t = t2 | Err _ => True end); [|intros []|done].
  { intros w Hw. unfold on_instances, update_status, update_found. rewrite <- Hw.
    destruct (Nat.eqb _ _); (split; [exists []; by rewrite app_nil_r|]); [done|]. apply replaced_twice. }
  eapply safe_bind with (Q := fun _ => eq t2); [|intros []|done].
  { intros w Hw. apply (safe_quiet id t2 refresh_egress_policy_best_effort); [|done].
    by apply steady_remote. }
  eapply safe_bind with (Q := fun _ => eq t2); [|intros []|done].
  { eapply safe_steady with (P := fun c => match c with CubeDestroy s => Some s = old | _ => True end).
    - destruct old; [|framed]. apply framed_best_effort, steady_remote. done.
    - intros call t <- Hc. destruct call; try done. intros r Hr Hid. cbn in Hc. rewrite (Hnew r Hr Hid). congruence.
    - done. }
  intros w Hw. unfold require_row, mbind, svc_bind, gets, lift.
  split; [exists []; by rewrite app_nil_r|]. cbn [fst snd]. destruct (instance_get_for_owner _ _ _) eqn:E; [|done].
  by split.
Qed.

Lemma start_ok source template policy resolved tk path off w w' info :
  start_replacement sv source template policy resolved tk path off w = (w', Ok info) ->
  exists n args, fe_create n args = Ok info /\ sa_template_id args = template /\
    sa_resolved_policy args = resolved.
Proof.
  intros H. unfold start_replacement in H. inv_svc.
  match goal with H : create_sandbox _ _ = _ |- _ => unfold create_sandbox, remote in H; injection H as _ H end.
  by eexists _, _.
Qed.

Lemma runtime_tokens_generation run id g w w' tk :
  runtime_tokens_for_instance cipher run id g w = (w', Ok tk) -> rt_state_generation tk = trim g.
Proof. unfold runtime_tokens_for_instance. cbn zeta. destruct (is_empty _); [done|]. intros H. by inv_svc. Qed.

Lemma plan_ok run owner id t p a b w w' plan :
  build_in_place_swap_plan sv run owner id t p a b w = (w', Ok plan) ->
  instance_get_for_owner owner id (fw_instances w) = Some (pn_source plan) /\
  ir_status (pn_source plan) <> Destroyed /\ ir_cube_sandbox_id (pn_source plan) = Some (pn_old_sandbox_id plan) /\
  pn_target_template_id plan = trim t /\
  pn_target_policy plan = default (ir_network_policy (pn_source plan)) p /\
  resolve (pn_target_policy plan) (sv_llm_cidr sv) = Ok (pn_resolved_policy plan) /\
  pn_target_state_generation plan = fr_generation run.
Proof.
  unfold build_in_place_swap_plan. cbn zeta. destruct (is_empty _); [done|]. intros H. inv_svc.
  repeat match goal with
  | H : require_row _ _ _ = _ |- _ => apply require_row_ok in H as [-> ?]
  | H : ok_or _ _ = Ok _ |- _ => apply ok_or_ok in H
  | H : map_err _ _ = Ok _ |- _ => apply map_err_ok in H
  | H : (if bool_decide _ then Err _ else Ok _) = Ok _ |- _ => case_bool_decide; [done|]
  | H : live_sandbox _ = Some _ |- _ => unfold live_sandbox in H; apply bind_Some in H as (? & ? & ?)
  | H : non_empty _ = Some _ |- _ => unfold non_empty in H; destruct (is_empty _); [done|]; simplify_eq
  end; cbn; by split_and!.
Qed.

(** What remains once the replacement runs: [pre] may take it down again,
    [cut] moves the row, [push] configures it afterwards. *)
Definition cutover (pre cut push : fleet unit) (run : FleetRun) (owner id : string) (old : option string) :
  fleet InstanceRow :=
  _ ← pre; _ ← cut; _ ← push; finish_swap run owner id old.

Lemma safe_cutover op run owner id t0 source tk info n args template policy resolved pre cut push old :
  instance_get_for_owner owner id t0 = Some source -> ir_status source <> Destroyed ->
  (template, policy) = swap_target op source -> resolve policy (sv_llm_cidr sv) = Ok resolved ->
  fe_create n args = Ok info -> sa_template_id args = template -> sa_resolved_policy args = resolved ->
  rt_state_generation tk = trim (fr_generation run) ->
  old <> Some (sb_id info) ->
  (forall r, r ∈ t0 -> ir_cube_sandbox_id r <> Some (sb_id info)) ->
  framed (steady (destroys_only (sb_id info))) pre -> framed (steady no_destroy) push ->
  (cut = on_instances (replace_cube_sandbox id (sb_id info) (rt_state_generation tk) template policy
           (row_policy_cidrs policy resolved) (fr_now run)) \/
   exists undo, framed (steady (destroys_only (sb_id info))) undo /\
     cut = or_undo (on_instances (replace_cube_sandbox id (sb_id info) (rt_state_generation tk) template policy
           (row_policy_cidrs policy resolved) (fr_now run))) undo) ->
  safe id (eq t0) (cutover pre cut push run owner id old)
    (fun r t => match r with Ok row => swapped op run owner id t0 row t | Err _ => True end).
Proof.
  intros Hrow Hst Htgt Hres Hcr Hat Har Hg Hold Hfresh Hpre Hpush Hcut. unfold cutover.
  eapply safe_bind with (Q := fun _ => eq t0); [by eapply safe_undoing|intros ?|done].
  eapply safe_bind with (Q := fun r t => match r with
      | Ok _ => eq (update (by_id id) (replaced_row (sb_id info) (rt_state_generation tk) template policy
                  (row_policy_cidrs policy resolved) (fr_now run) Configuring) t0) t
      | Err _ => t = t0 end); [|intros ?|done].
  { destruct Hcut as [-> | (undo & Hundo & ->)].
    - eapply safe_post; [apply safe_replace|]. by intros [].
    - eapply safe_post; [apply safe_or_undo; [apply safe_replace|done|by eapply safe_undoing]|]. by intros []. }
  eapply safe_bind; [by apply safe_quiet|intros ?|by intros; exact I].
  eapply safe_post; [by apply safe_finish|]. intros [row|e] t; [|done]. intros [-> Hget].
  rewrite get_for_owner_update in Hget by done. rewrite Hrow in Hget. injection Hget as <-.
  exists source, n, args, info, resolved. rewrite <- Htgt. rewrite Hg. by split_and!.
Qed.

(** How the plans of the first three operations are made, and what follows *)
Lemma safe_planned op run owner id t p a b (k : InPlaceSwapPlan -> fleet InstanceRow) t0 :
  (forall source, swap_target op source = (trim t, default (ir_network_policy source) p)) ->
  (forall plan, instance_get_for_owner owner id t0 = Some (pn_source plan) ->
     ir_id (pn_source plan) = id -> pn_source plan ∈ t0 ->
     ir_status (pn_source plan) <> Destroyed -> ir_cube_sandbox_id (pn_source plan) = Some (pn_old_sandbox_id plan) ->
     swap_target op (pn_source plan) = (pn_target_template_id plan, pn_target_policy plan) ->
     resolve (pn_target_policy plan) (sv_llm_cidr sv) = Ok (pn_resolved_policy plan) ->
     pn_target_state_generation plan = fr_generation run ->
     safe id (eq t0) (k plan)
       (fun r t => match r with Ok row => swapped op run owner id t0 row t | Err _ => True end)) ->
  safe id (eq t0) (plan ← build_in_place_swap_plan sv run owner id t p a b; k plan)
    (fun r t => match r with Ok row => swapped op run owner id t0 row t | Err _ => True end).
Proof.
  intros Htgt Hk. eapply safe_bind with (Q := fun r u => u = t0 /\ match r with
    | Ok plan => instance_get_for_owner owner id t0 = Some (pn_source plan) /\
        ir_status (pn_source plan) <> Destroyed /\
        ir_cube_sandbox_id (pn_source plan) = Some (pn_old_sandbox_id plan) /\
        pn_target_template_id plan = trim t /\
        pn_target_policy plan = default (ir_network_policy (pn_source plan)) p /\
        resolve (pn_target_policy plan) (sv_llm_cidr sv) = Ok (pn_resolved_policy plan) /\
        pn_target_state_generation plan = fr_generation run
    | Err _ => True end); [| |done].
  - eapply safe_steady; [apply steady_plan|intros c t' _ Hc; exact (no_destroy_spares id c t' Hc)|].
    intros w r -> Hr. split; [done|]. destruct r as [plan|]; [|done].
    destruct (build_in_place_swap_plan _ _ _ _ _ _ _ _ w) as [w1 r1] eqn:E. cbn in Hr. subst r1.
    by eapply plan_ok.
  - intros plan w (Hw & Hrow & Hst & Hold & Ht & Hp & Hres & Hg).
    destruct (get_for_owner_some _ _ _ _ Hrow) as (Hin & Hid & _).
    apply Hk; try done. by rewrite Htgt, Ht, Hp.
Qed.

(** Tokens, then the replacement: what is known of both afterwards *)
Lemma safe_tokens {A} run id i g t0 (k : RuntimeTokens -> fleet A) (S : result SwarmError A -> Instances -> Prop) :
  (forall e, S (Err e) t0) ->
  (forall tk, rt_state_generation tk = trim g -> safe id (eq t0) (k tk) S) ->
  safe id (eq t0) (tk ← runtime_tokens_for_instance cipher run i g; k tk) S.
Proof.
  intros He Hk. eapply safe_bind with (Q := fun r u => u = t0 /\ match r with
    | Ok tk => rt_state_generation tk = trim g | Err _ => True end).
  - eapply safe_steady; [apply steady_runtime_tokens|intros c t' _ Hc; exact (no_destroy_spares id c t' Hc)|].
    intros w r -> Hr. split; [done|]. destruct r as [tk|]; [|done].
    destruct (runtime_tokens_for_instance _ _ _ _ w) as [w1 r1] eqn:E. cbn in Hr. subst r1.
    by eapply runtime_tokens_generation.
  - intros tk w [Hw Hg]. by apply Hk.
  - intros e t [-> _]. apply He.
Qed.

Lemma or_undo_ok {A} (m : fleet A) undo w w' a : or_undo m undo w = (w', Ok a) -> m w = (w', Ok a).
Proof.
  unfold or_undo, mbind, svc_bind, attempt. destruct (m w) as [w1 [x|e]]; [done|].
  by destruct (undo w1) as [w2 [[]|]].
Qed.

Lemma safe_start {A} id (m : fleet SandboxInfo) template resolved t0 (k : SandboxInfo -> fleet A)
    (S : result SwarmError A -> Instances -> Prop) :
  framed (steady no_destroy) m ->
  (forall w w' info, m w = (w', Ok info) -> exists n args, fe_create n args = Ok info /\
     sa_template_id args = template /\ sa_resolved_policy args = resolved) ->
  (forall e, S (Err e) t0) ->
  (forall n args info, fe_create n args = Ok info -> sa_template_id args = template ->
     sa_resolved_policy args = resolved -> safe id (eq t0) (k info) S) ->
  safe id (eq t0) (info ← m; k info) S.
Proof.
  intros Hm Hok He Hk. eapply safe_bind with (Q := fun r u => u = t0 /\ match r with
    | Ok info => exists n args, fe_create n args = Ok info /\ sa_template_id args = template /\
        sa_resolved_policy args = resolved
    | Err _ => True end).
  - eapply safe_steady; [exact Hm|intros c t' _ Hc; exact (no_destroy_spares id c t' Hc)|].
    intros w r -> Hr. split; [done|]. destruct r as [info|]; [|done].
    destruct (m w) as [w1 r1] eqn:E. cbn in Hr. subst r1. by eapply Hok.
  - intros info w [Hw (n & args & H1 & H2 & H3)]. by eapply Hk.
  - intros e t [-> _]. apply He.
Qed.

Lemma safe_step {A B} id t0 (m : fleet A) (k : A -> fleet B) (S : result SwarmError B -> Instances -> Prop) :
  framed (steady no_destroy) m -> (forall e, S (Err e) t0) -> (forall a, safe id (eq t0) (k a) S) ->
  safe id (eq t0) (a ← m; k a) S.
Proof.
  intros Hm He Hk. eapply safe_bind; [by apply safe_quiet|intros a; apply Hk|]. intros e t <-. apply He.
Qed.

Lemma safe_lift {A B} id t0 (r : result SwarmError A) (k : A -> fleet B) (S : result SwarmError B -> Instances -> Prop) :
  (forall e, S (Err e) t0) -> (forall a, r = Ok a -> safe id (eq t0) (k a) S) ->
  safe id (eq t0) (a ← lift r; k a) S.
Proof.
  intros He Hk w Hw. unfold mbind, svc_bind, lift. destruct r as [a|e]; [by apply Hk|].
  split; [exists []; by rewrite app_nil_r|]. cbn. rewrite <- Hw. apply He.
Qed.

Lemma steady_drop sb : framed (steady (destroys_only sb)) (best_effort (E := SwarmError) (destroy_sandbox sb)).
Proof. by apply framed_best_effort, steady_remote. Qed.
#[local] Hint Resolve steady_drop steady_any : framed.

(** The backend hands out sandbox ids that no row names yet. *)
Definition fresh_sandboxes (t0 : Instances) : Prop := forall n args info,
  fe_create n args = Ok info -> forall r, r ∈ t0 -> ir_cube_sandbox_id r <> Some (sb_id info).

Abbreviation swap_post op run owner id t0 :=
  (fun r t => match r with Ok row => swapped op run owner id t0 row t | Err _ => True end).

Lemma safe_recreate run owner id t p t0 :
  fresh_sandboxes t0 ->
  safe id (eq t0) (recreate_in_place cipher sv run owner id t p) (swap_post (Recreate t p) run owner id t0).
Proof.
  intros Hf. unfold recreate_in_place. apply safe_planned; [done|].
  intros plan Hrow Hid Hin Hst Hold Htgt Hres Hg. cbn zeta. rewrite Hid.
  apply safe_tokens; [done|]. intros tk Htk. rewrite Hg in Htk.
  eapply safe_start; [apply steady_start|by intros * ?%start_ok|done|].
  intros n args info Hcr Hat Har.
  eapply (safe_cutover (Recreate t p) run owner id t0 (pn_source plan) tk info n args); try done.
  - pose proof (Hf _ _ _ Hcr _ Hin). congruence.
  - by eapply Hf.
  - destruct (sv_state_files sv); framed.
  - destruct (sv_state_files sv); framed.
  - left. unfold swap_row. by rewrite Hid.
Qed.

Lemma safe_reset run owner id t t0 :
  fresh_sandboxes t0 ->
  safe id (eq t0) (reset_in_place_from_state cipher sv run owner id t) (swap_post (Reset t) run owner id t0).
Proof.
  intros Hf. unfold reset_in_place_from_state. apply safe_planned; [done|].
  intros plan Hrow Hid Hin Hst Hold Htgt Hres Hg. cbn zeta. rewrite Hid.
  apply safe_tokens; [done|]. intros tk Htk. rewrite Hg in Htk.
  eapply safe_start; [apply steady_start|by intros * ?%start_ok|done|].
  intros n args info Hcr Hat Har.
  change (safe id (eq t0) (cutover
    (or_undo (replay_state_files_and_configure sv run owner (pn_source plan) tk (sb_id info) true true "reset")
       (best_effort (destroy_sandbox (sb_id info))))
    (or_undo (swap_row run plan tk (sb_id info)) (best_effort (destroy_sandbox (sb_id info)))) (mret tt)
    run owner id (Some (pn_old_sandbox_id plan))) (swap_post (Reset t) run owner id t0)).
  eapply (safe_cutover (Reset t) run owner id t0 (pn_source plan) tk info n args); try done.
  - pose proof (Hf _ _ _ Hcr _ Hin). congruence.
  - by eapply Hf.
  - framed.
  - framed.
  - right. eexists. split; [apply steady_drop|]. unfold swap_row. by rewrite Hid.
Qed.

Lemma safe_rotate run owner id t p t0 :
  fresh_sandboxes t0 ->
  safe id (eq t0) (rotate_in_place cipher sv run owner id t p) (swap_post (Rotate t p) run owner id t0).
Proof.
  intros Hf. unfold rotate_in_place. apply safe_planned; [done|].
  intros plan Hrow Hid Hin Hst Hold Htgt Hres Hg. cbn zeta. rewrite Hid.
  apply safe_step; [framed|done|intros _].
  apply safe_step; [framed|done|intros quiesced].
  apply safe_step; [framed|done|intros mirror].
  apply safe_step; [framed|done|intros snap].
  apply safe_tokens; [done|]. intros tk Htk. rewrite Hg in Htk.
  eapply safe_start; [apply framed_or_undo; [apply _|apply steady_start|framed]|
    by intros * ?%or_undo_ok%start_ok|done|].
  intros n args info Hcr Hat Har.
  eapply (safe_cutover (Rotate t p) run owner id t0 (pn_source plan) tk info n args); try done.
  - pose proof (Hf _ _ _ Hcr _ Hin). congruence.
  - by eapply Hf.
  - destruct mirror; framed.
  - destruct mirror; framed.
  - right. eexists. split; [|unfold swap_row; by rewrite Hid]. framed.
Qed.

Lemma safe_restore_snapshot run owner id path t t0 :
  fresh_sandboxes t0 ->
  safe id (eq t0) (restore_snapshot_in_place cipher sv run owner id path t)
    (swap_post (RestoreSnapshot path t) run owner id t0).
Proof.
  intros Hf. unfold restore_snapshot_in_place.
  eapply safe_bind with (Q := fun r u => u = t0 /\ match r with
    | Ok source => instance_get_for_owner owner id t0 = Some source | Err _ => True end); [| |done].
  { eapply safe_steady; [apply (steady_require no_destroy)|intros c u _ Hc; exact (no_destroy_spares id c u Hc)|].
    intros w r -> Hr. split; [done|]. destruct r as [source|]; [|done].
    destruct (require_row owner id w) as [w1 r1] eqn:E. cbn in Hr. subst r1. by apply require_row_ok in E as [_ ?]. }
  intros source w [Hw Hrow]. symmetry in Hw. revert w Hw.
  destruct (get_for_owner_some _ _ _ _ Hrow) as (Hin & Hid & _). rewrite Hid.
  match goal with |- forall w, _ -> spared _ _ (?m w).1 /\ _ =>
    change (safe id (eq t0) m (swap_post (RestoreSnapshot path t) run owner id t0)) end.
  apply safe_lift; [done|]. intros ? Hst. case_bool_decide as Hd; [done|]. cbn zeta.
  apply safe_lift; [done|]. intros ? _.
  apply safe_lift; [done|]. intros resolved Hres%map_err_ok.
  apply safe_step; [framed|done|intros mirror].
  apply safe_tokens; [done|]. intros tk Htk.
  eapply safe_start; [apply steady_start|by intros * ?%start_ok|done|].
  intros n args info Hcr Hat Har.
  eapply (safe_cutover (RestoreSnapshot path t) run owner id t0 source tk info n args); try done.
  - by destruct t.
  - unfold live_sandbox. destruct (ir_cube_sandbox_id source ≫= non_empty); [|done].
    destruct (_ =? _)%string eqn:E; [done|]. to_prop. congruence.
  - by eapply Hf.
  - destruct mirror; framed.
  - destruct mirror; framed.
  - right. eexists. split; [apply steady_drop|]. done.
Qed.

Lemma safe_swap op run owner id t0 :
  fresh_sandboxes t0 -> safe id (eq t0) (run_swap op run owner id) (swap_post op run owner id t0).
Proof.
  intros Hf. destruct op; cbn [run_swap];
    [by apply safe_rotate|by apply safe_recreate|by apply safe_reset|by apply safe_restore_snapshot].
Qed.
End swaps.

(** ** The calls of a successful swap *)

Section swap_calls.
Context {R : HostResolver} {env : FleetEnv} {dir : CipherDirectory} {codec : EnvelopeCodec}.
Context {mc : McpCodec} {th : TokenHash} (cipher : EnvelopeCipher) (sv : ServiceConfig).

(** The log grows by calls that destroy nothing. *)
Definition mild (w w' : FleetWorld) : Prop :=
  exists l, fw_log w' = fw_log w ++ l /\ Forall (fun c => no_destroy c.1) l.

#[local] Instance mild_preorder : PreOrder mild.
Proof.
  split; [intros w; exists []; by rewrite app_nil_r|]. intros a b c (l & Hl & Hf) (l' & Hl' & Hf').
  exists (l ++ l'). rewrite Hl', Hl, app_assoc. split; [done|]. by apply Forall_app.
Qed.

(** When it succeeds, [m] makes only such calls. *)
Definition mildly {A} (m : fleet A) : Prop := forall w w' a, m w = (w', Ok a) -> mild w w'.

Lemma mildly_steady {A} (m : fleet A) : framed (steady no_destroy) m -> mildly m.
Proof.
  intros Hm w w' a H. destruct (Hm w) as (_ & l & Hl & Hf). rewrite H in Hl. exists l. split; [done|].
  eapply List.Forall_impl; [|exact Hf]. by intros c [? _].
Qed.

Lemma mildly_undo {A} (m : fleet A) undo : mildly m -> mildly (or_undo m undo).
Proof. intros Hm w w' a H%or_undo_ok. by eapply Hm. Qed.

(** The rows of the instance name [sb]. *)
Definition named (id sb : string) (t : Instances) : Prop :=
  forall r, r ∈ t -> ir_id r = id -> ir_cube_sandbox_id r = Some sb.

Lemma replace_named id sb g k p c now w w' :
  on_instances (replace_cube_sandbox id sb g k p c now) w = (w', Ok tt) ->
  fw_log w' = fw_log w /\ named id sb (fw_instances w').
Proof.
  intros (i & H & ->)%on_instances_ok. unfold replace_cube_sandbox, update_found in H.
  destruct (Nat.eqb _ _); [done|]. injection H as <-. split; [done|].
  intros r (s & Hs & ->)%elem_of_update Hid. unfold by_id in *. destruct (_ =? _)%string eqn:E; [done|].
  to_prop. done.
Qed.

Lemma finish_swap_calls run owner id old sb w w' row :
  finish_swap run owner id old w = (w', Ok row) -> named id sb (fw_instances w) ->
  ir_cube_sandbox_id row = Some sb /\
  fw_log w' = fw_log w ++ (RefreshEgress, fw_instances w') ::
    match old with Some old => [(CubeDestroy old, fw_instances w')] | None => [] end.
Proof.
  intros H Hn. unfold finish_swap in H. apply svc_bind_ok in H as (w1 & [] & (i & Hu & ->)%on_instances_ok & H).
  unfold update_status, update_found in Hu. destruct (Nat.eqb _ _); [done|]. injection Hu as <-.
  apply svc_bind_ok in H as (w2 & [] & Hr & H). unfold refresh_egress_policy_best_effort, remote in Hr.
  injection Hr as <-. set (t := update _ _ _) in *.
  assert (named id sb t) as Ht.
  { intros r (s & Hs & ->)%elem_of_update Hid. unfold by_id in *.
    destruct (_ =? _)%string eqn:E; cbn in *; [|by apply Hn]. apply Hn; [done|by to_prop]. }
  apply svc_bind_ok in H as (w3 & [] & Hd & H). apply require_row_ok in H as [-> Hrow].
  assert (fw_instances w3 = t /\ fw_log w3 = fw_log w ++ (RefreshEgress, t) ::
    match old with Some old => [(CubeDestroy old, t)] | None => [] end) as [Hi Hl].
  { destruct old as [old|]; [|by injection Hd as <-].
    unfold best_effort, destroy_sandbox, remote in Hd. injection Hd as <-. cbn. by rewrite <- app_assoc. }
  rewrite Hi in *. split; [|done]. apply get_for_owner_some in Hrow as (Hin & Hid & _). by apply Ht.
Qed.

Lemma cutover_calls pre cut push run owner id old sb w w' row :
  mildly pre -> framed (steady no_destroy) push ->
  (forall v v', cut v = (v', Ok tt) -> fw_log v' = fw_log v /\ named id sb (fw_instances v')) ->
  cutover pre cut push run owner id old w = (w', Ok row) ->
  ir_cube_sandbox_id row = Some sb /\ exists after, Forall (fun c => no_destroy c.1) after /\
    fw_log w' = fw_log w ++ after ++ (RefreshEgress, fw_instances w') ::
      match old with Some old => [(CubeDestroy old, fw_instances w')] | None => [] end.
Proof.
  intros Hpre Hpush Hcut H. unfold cutover in H.
  apply svc_bind_ok in H as (w1 & [] & (l1 & Hl1 & Hf1)%Hpre & H).
  apply svc_bind_ok in H as (w2 & [] & [Hl2 Hn]%Hcut & H).
  apply svc_bind_ok in H as (w3 & [] & Hp & H). destruct (Hpush w2) as (Hi & _). rewrite Hp in Hi. cbn in Hi.
  apply (mildly_steady _ Hpush) in Hp as (l3 & Hl3 & Hf3).
  apply (finish_swap_calls _ _ _ _ sb) in H as [Hrow Hl]; [|by rewrite Hi]. split; [done|].
  exists (l1 ++ l3). split; [by apply Forall_app|]. by rewrite Hl, Hl3, Hl2, Hl1, <- !app_assoc.
Qed.

Lemma start_calls source template policy resolved tk path off w w' info :
  start_replacement sv source template policy resolved tk path off w = (w', Ok info) ->
  exists args, fe_create (length (fw_log w)) args = Ok info /\ sa_template_id args = template /\
    sa_resolved_policy args = resolved /\ sa_from_snapshot_path args = path /\
    fw_log w' = fw_log w ++ [(CubeCreate args, fw_instances w)].
Proof.
  unfold start_replacement. intros H. apply svc_bind_ok in H as (? & envm & [-> _]%lift_ok & H).
  apply svc_bind_ok in H as (w1 & i & Hc%with_err_ok & H). unfold create_sandbox, remote in Hc. injection Hc as <- Hc.
  apply svc_bind_ok in H as (w2 & [] & Hb & H). injection H as <- <-. eexists. split_and!; [exact Hc|done..|].
  unfold bind_runtime_tokens_to_sandbox_source in Hb. cbn zeta in Hb.
  destruct (is_empty _); [by injection Hb as <-|]. by apply on_tokens_ok in Hb as (? & _ & ->).
Qed.

(** What a successful swap asked of the backend: the replacement is started,
    and at the very end, with the table as it then is, the sandbox the row named
    before is destroyed, and no other. *)
Definition swap_asked (source : InstanceRow) (args : CreateSandboxArgs) (info : SandboxInfo)
    (w w' : FleetWorld) : Prop :=
  exists before after,
    fe_create (length (fw_log w ++ before)) args = Ok info /\
    fw_log w' = fw_log w ++ before ++ (CubeCreate args, fw_instances w) :: after ++
      (RefreshEgress, fw_instances w') ::
      match live_sandbox source with Some old => [(CubeDestroy old, fw_instances w')] | None => [] end /\
    Forall (fun c => no_destroy c.1) (before ++ after).

(** From the steps before the start to the whole *)
Lemma asked_intro source args info old w w1 w2 w' after :
  mild w w1 -> fw_instances w1 = fw_instances w -> old = live_sandbox source ->
  fe_create (length (fw_log w1)) args = Ok info -> fw_log w2 = fw_log w1 ++ [(CubeCreate args, fw_instances w1)] ->
  Forall (fun c => no_destroy c.1) after ->
  fw_log w' = fw_log w2 ++ after ++ (RefreshEgress, fw_instances w') ::
    match old with Some old => [(CubeDestroy old, fw_instances w')] | None => [] end ->
  swap_asked source args info w w'.
Proof.
  intros (l & Hl & Hf) Hi -> Hc H2 Hfa H. exists l, after. rewrite <- Hl. split_and!; [done| |by apply Forall_app].
  by rewrite H, H2, Hi, Hl, <- !app_assoc.
Qed.

(** The steps before the start change no row and destroy nothing. *)
Lemma step_quiet {A} (m : fleet A) w0 w w' a :
  framed (steady no_destroy) m -> steady no_destroy w0 w -> m w = (w', Ok a) -> steady no_destroy w0 w'.
Proof. intros Hm H0 H. transitivity w; [done|]. specialize (Hm w). by rewrite H in Hm. Qed.

Lemma steady_mild w w' : steady no_destroy w w' -> mild w w'.
Proof.
  intros (_ & l & Hl & Hf). exists l. split; [done|]. eapply List.Forall_impl; [|exact Hf]. by intros c [? _].
Qed.

(** The calls of a successful swap of [source] *)
Definition asked_for (op : SwapOp) (owner id : string) (w w' : FleetWorld) (row : InstanceRow) : Prop :=
  exists source args info,
    instance_get_for_owner owner id (fw_instances w) = Some source /\
    sa_template_id args = (swap_target op source).1 /\
    resolve (swap_target op source).2 (sv_llm_cidr sv) = Ok (sa_resolved_policy args) /\
    ir_cube_sandbox_id row = Some (sb_id info) /\ swap_asked source args info w w'.

(** From the start of the replacement on *)
Lemma start_cutover_calls op source template policy resolved tk path off pre cut push run owner id old w w1 w2 w' row info :
  instance_get_for_owner owner id (fw_instances w) = Some source ->
  swap_target op source = (template, policy) -> resolve policy (sv_llm_cidr sv) = Ok resolved ->
  steady no_destroy w w1 ->
  start_replacement sv source template policy resolved tk path off w1 = (w2, Ok info) ->
  (forall n args, fe_create n args = Ok info -> old = live_sandbox source) ->
  mildly pre -> framed (steady no_destroy) push ->
  (forall v v', cut v = (v', Ok tt) -> fw_log v' = fw_log v /\ named id (sb_id info) (fw_instances v')) ->
  cutover pre cut push run owner id old w2 = (w', Ok row) -> asked_for op owner id w w' row.
Proof.
  intros Hrow Htgt Hres Hq Hs Hold Hpre Hpush Hcut H.
  destruct (start_calls _ _ _ _ _ _ _ _ _ _ Hs) as (args & Hc & Ht & Hr & _ & Hl).
  destruct (cutover_calls _ _ _ _ _ _ _ _ _ _ _ Hpre Hpush Hcut H) as (Hn & after & Hf & Hlog).
  exists source, args, info. rewrite Htgt. cbn [fst snd]. rewrite Hr. split_and!; try done.
  eapply asked_intro; [by apply steady_mild|apply Hq|by eapply Hold|done..].
Qed.

Lemma plan_live run owner id t p a b w w' plan :
  build_in_place_swap_plan sv run owner id t p a b w = (w', Ok plan) ->
  Some (pn_old_sandbox_id plan) = live_sandbox (pn_source plan).
Proof.
  unfold build_in_place_swap_plan. cbn zeta. destruct (is_empty _); [done|]. intros H. inv_svc.
  match goal with H : ok_or _ (live_sandbox _) = Ok _ |- _ => apply ok_or_ok in H; rename H into Hlive end.
  cbn. by rewrite Hlive.
Qed.

(** What the plan of the first three operations fixes *)
Lemma plan_calls op run owner id t p a b w w1 plan :
  (forall source, swap_target op source = (trim t, default (ir_network_policy source) p)) ->
  build_in_place_swap_plan sv run owner id t p a b w = (w1, Ok plan) ->
  instance_get_for_owner owner id (fw_instances w) = Some (pn_source plan) /\ ir_id (pn_source plan) = id /\
  swap_target op (pn_source plan) = (pn_target_template_id plan, pn_target_policy plan) /\
  resolve (pn_target_policy plan) (sv_llm_cidr sv) = Ok (pn_resolved_policy plan) /\
  steady no_destroy w w1 /\ Some (pn_old_sandbox_id plan) = live_sandbox (pn_source plan).
Proof.
  intros Htgt H. pose proof (plan_live _ _ _ _ _ _ _ _ _ _ H) as Hlive.
  pose proof (plan_ok _ _ _ _ _ _ _ _ _ _ _ H) as (Hrow & _ & _ & Ht & Hp & Hres & _).
  pose proof (get_for_owner_some _ _ _ _ Hrow) as (_ & Hid & _). split_and!; try done.
  - by rewrite Htgt, Ht, Hp.
  - pose proof (steady_plan sv no_destroy run owner id t p a b w) as Hs. by rewrite H in Hs.
Qed.

Lemma swap_row_named run plan tk sb v v' :
  swap_row run plan tk sb v = (v', Ok tt) ->
  fw_log v' = fw_log v /\ named (ir_id (pn_source plan)) sb (fw_instances v').
Proof. apply replace_named. Qed.

Lemma recreate_calls run owner id t p w w' row :
  recreate_in_place cipher sv run owner id t p w = (w', Ok row) -> asked_for (Recreate t p) owner id w w' row.
Proof.
  unfold recreate_in_place. intros H. apply svc_bind_ok in H as (w1 & plan & Hp & H). cbn zeta in H.
  destruct (plan_calls (Recreate t p) _ _ _ _ _ _ _ _ _ _ ltac:(done) Hp) as (Hrow & <- & Htgt & Hres & Hq & Hlive).
  apply svc_bind_ok in H as (w2 & tk & Htk & H). apply (step_quiet _ w) in Htk; [|framed|done].
  apply svc_bind_ok in H as (w3 & info & Hs & H).
  eapply start_cutover_calls; [done|exact Htgt|exact Hres|exact Htk|exact Hs| | | | |exact H].
  - done.
  - destruct (sv_state_files sv); [apply mildly_undo|]; apply mildly_steady; framed.
  - destruct (sv_state_files sv); framed.
  - intros v v'. apply swap_row_named.
Qed.

Lemma reset_calls run owner id t w w' row :
  reset_in_place_from_state cipher sv run owner id t w = (w', Ok row) -> asked_for (Reset t) owner id w w' row.
Proof.
  unfold reset_in_place_from_state. intros H. apply svc_bind_ok in H as (w1 & plan & Hp & H). cbn zeta in H.
  destruct (plan_calls (Reset t) _ _ _ t None _ _ _ _ _ ltac:(done) Hp) as (Hrow & <- & Htgt & Hres & Hq & Hlive).
  apply svc_bind_ok in H as (w2 & tk & Htk & H). apply (step_quiet _ w) in Htk; [|framed|done].
  apply svc_bind_ok in H as (w3 & info & Hs & H).
  eapply (start_cutover_calls _ _ _ _ _ _ _ _ _ _ (mret tt)); [done|done|done|exact Htk|exact Hs| | |framed| |exact H].
  - done.
  - apply mildly_undo, mildly_steady. framed.
  - intros v v' Hc%or_undo_ok. by apply swap_row_named in Hc.
Qed.

Lemma rotate_calls run owner id t p w w' row :
  rotate_in_place cipher sv run owner id t p w = (w', Ok row) -> asked_for (Rotate t p) owner id w w' row.
Proof.
  unfold rotate_in_place. intros H. apply svc_bind_ok in H as (w1 & plan & Hp & H). cbn zeta in H.
  destruct (plan_calls (Rotate t p) _ _ _ _ _ _ _ _ _ _ ltac:(done) Hp) as (Hrow & <- & Htgt & Hres & Hq & Hlive).
  apply svc_bind_ok in H as (? & [] & [-> _]%lift_ok & H).
  apply svc_bind_ok in H as (w2 & quiesced & H2 & H). apply (step_quiet _ w) in H2; [|framed|done].
  apply svc_bind_ok in H as (w3 & mirror & H3 & H). apply (step_quiet _ w) in H3; [|framed|done].
  apply svc_bind_ok in H as (w4 & snap & H4 & H). apply (step_quiet _ w) in H4; [|framed|done].
  apply svc_bind_ok in H as (w5 & tk & H5 & H). apply (step_quiet _ w) in H5; [|framed|done].
  apply svc_bind_ok in H as (w6 & info & Hs%or_undo_ok & H).
  eapply start_cutover_calls; [done|exact Htgt|exact Hres|exact H5|exact Hs| | | | |exact H].
  - done.
  - destruct mirror; [apply mildly_undo|]; apply mildly_steady; framed.
  - destruct mirror; framed.
  - intros v v' Hc%or_undo_ok. by apply swap_row_named in Hc.
Qed.

Lemma restore_snapshot_calls run owner id path t w w' row :
  fresh_sandboxes (fw_instances w) ->
  restore_snapshot_in_place cipher sv run owner id path t w = (w', Ok row) ->
  asked_for (RestoreSnapshot path t) owner id w w' row.
Proof.
  intros Hf. unfold restore_snapshot_in_place. intros H.
  apply svc_bind_ok in H as (? & source & [-> Hrow]%require_row_ok & H).
  destruct (get_for_owner_some _ _ _ _ Hrow) as (Hin & Hid & _). subst id.
  apply svc_bind_ok in H as (? & [] & [-> _]%lift_ok & H). cbn zeta in H.
  apply svc_bind_ok in H as (? & [] & [-> _]%lift_ok & H).
  apply svc_bind_ok in H as (? & resolved & [-> Hres%map_err_ok]%lift_ok & H).
  apply svc_bind_ok in H as (w2 & mirror & H2 & H). apply (step_quiet _ w) in H2; [|framed|done].
  apply svc_bind_ok in H as (w3 & tk & H3 & H). apply (step_quiet _ w) in H3; [|framed|done].
  apply svc_bind_ok in H as (w4 & info & Hs & H).
  match type of Hs with start_replacement _ _ ?tpl _ _ _ _ _ _ = _ =>
    assert (swap_target (RestoreSnapshot path t) source = (tpl, ir_network_policy source)) as Htgt by (by destruct t) end.
  eapply start_cutover_calls; [done|exact Htgt|exact Hres|exact H3|exact Hs| | | | |exact H].
  - intros n args Hc. pose proof (Hf _ _ _ Hc _ Hin) as Hne. unfold live_sandbox in *.
    destruct (ir_cube_sandbox_id source) as [o|]; [|done]. cbn in *. unfold non_empty.
    destruct (is_empty o); [done|]. rewrite (proj2 (String.eqb_neq _ _)); [done|]. congruence.
  - destruct mirror; [apply mildly_undo|]; apply mildly_steady; framed.
  - destruct mirror; framed.
  - intros v v' Hc%or_undo_ok. by apply replace_named in Hc.
Qed.

Lemma swap_calls op run owner id w w' row :
  fresh_sandboxes (fw_instances w) -> run_swap cipher sv op run owner id w = (w', Ok row) ->
  asked_for op owner id w w' row.
Proof.
  intros Hf H. destruct op; cbn [run_swap] in H;
    [by eapply rotate_calls|by eapply recreate_calls|by eapply reset_calls|by eapply restore_snapshot_calls].
Qed.
End swap_calls.

(** C4. No swap destroys the sandbox that serves its instance: at every call
    that destroys a sandbox, whether the swap succeeds or fails, no row of the
    instance names that sandbox.  Assumes that the backend does not hand out an
    id that a row already names. *)
Theorem swap_spares_serving_sandbox {R : HostResolver} {env : FleetEnv} {dir : CipherDirectory}
    {codec : EnvelopeCodec} {mc : McpCodec} {th : TokenHash} (cipher : EnvelopeCipher) (sv : ServiceConfig)
    (op : SwapOp) (run : FleetRun) (owner id : string) (w : FleetWorld)
    (Hfresh : fresh_sandboxes (fw_instances w)) :
  exists calls, fw_log (run_swap cipher sv op run owner id w).1 = fw_log w ++ calls /\
    forall sb t, (CubeDestroy sb, t) ∈ calls ->
      forall r, r ∈ t -> ir_id r = id -> ir_cube_sandbox_id r <> Some sb.
Proof.
  destruct (safe_swap cipher sv op run owner id (fw_instances w) Hfresh w eq_refl) as [(l & Hl & Hs) _].
  exists l. split; [done|]. intros sb t Hin%list_elem_of_In. rewrite Forall_forall in Hs. exact (Hs _ Hin).
Qed.

(** C21. A successful swap moves the instance onto a sandbox started during the
    swap from the target template under the resolved target policy, fences the
    old one off with a new state generation, marks the row live and touches no
    other row; the row keeps its id, owner, name, task, bearer, pin, expiry,
    creation time, models and tools.  Its last call, made when the row already
    names the new sandbox, asks for the sandbox the row named before to be
    destroyed, and no other call of the swap destroys anything. *)
Theorem swap_success_exact {R : HostResolver} {env : FleetEnv} {dir : CipherDirectory}
    {codec : EnvelopeCodec} {mc : McpCodec} {th : TokenHash} (cipher : EnvelopeCipher) (sv : ServiceConfig)
    (op : SwapOp) (run : FleetRun) (owner id : string) (w w' : FleetWorld) (row : InstanceRow)
    (Hs : run_swap cipher sv op run owner id w = (w', Ok row)) (Hfresh : fresh_sandboxes (fw_instances w)) :
  exists source args info resolved,
    let '(template, policy) := swap_target op source in
    let f := replaced_row (sb_id info) (trim (fr_generation run)) template policy
               (row_policy_cidrs policy resolved) (fr_now run) Live in
    instance_get_for_owner owner id (fw_instances w) = Some source /\ ir_status source <> Destroyed /\
    resolve policy (sv_llm_cidr sv) = Ok resolved /\
    sa_template_id args = template /\ sa_resolved_policy args = resolved /\
    fw_instances w' = update (by_id id) f (fw_instances w) /\ row = f source /\
    exists before after, fe_create (length (fw_log w ++ before)) args = Ok info /\
      fw_log w' = fw_log w ++ before ++ (CubeCreate args, fw_instances w) :: after ++
        (RefreshEgress, fw_instances w') ::
        match live_sandbox source with Some old => [(CubeDestroy old, fw_instances w')] | None => [] end /\
      Forall (fun c => no_destroy c.1) (before ++ after).
Proof.
  destruct (safe_swap cipher sv op run owner id (fw_instances w) Hfresh w eq_refl) as [_ H].
  rewrite Hs in H. destruct H as (source & n & args0 & info0 & resolved & H).
  destruct (swap_calls cipher sv op run owner id w w' row Hfresh Hs)
    as (source' & args & info & Hrow & Ht & Hr & Hsb & Hasked).
  destruct (swap_target op source) as [template policy] eqn:Htgt.
  destruct H as (Hrow0 & Hst & Hres & _ & _ & _ & Hi & Hf). cbn [fst snd] in Hi, Hf. rewrite Hrow0 in Hrow.
  injection Hrow as <-. rewrite Htgt in Ht, Hr. cbn [fst snd] in Ht, Hr. rewrite Hres in Hr. injection Hr as Hr.
  exists source, args, info, resolved. rewrite Htgt.
  rewrite Hf in Hsb. cbn in Hsb. injection Hsb as Hsb. rewrite <- Hsb. by split_and!.
Qed.

(** ** Waiting for an idle agent *)

(** The idle checks among some calls *)
Definition idle_checks (calls : list (FleetCall * Instances)) : nat :=
  length (select (fun c => match c.1 with IsIdle _ _ => true | _ => false end) calls).

Lemma idle_checks_app a b : idle_checks (a ++ b) = (idle_checks a + idle_checks b)%nat.
Proof. unfold idle_checks. by rewrite select_app, length_app. Qed.

(** How the wait ends, from the calls it made when the log was [log] *)
Definition wait_outcome {env : FleetEnv} (run : FleetRun) (id sb : string) (k : nat)
    (log calls : list (FleetCall * Instances)) (r : result SwarmError bool) : Prop :=
  match r with
  | Ok true => exists before t, calls = before ++ [(Quiesce id sb, t)] /\
      fe_quiesce (length (log ++ before)) id sb = Ok true
  | Ok false => exists before c t e, calls = before ++ [(c, t)] /\
      (c = IsIdle id sb /\ fe_is_idle (length (log ++ before)) id sb = Err e \/
       c = Quiesce id sb /\ fe_quiesce (length (log ++ before)) id sb = Err e)
  | Err e => 300 <= fr_elapsed run (k + idle_checks calls - 1) /\
      e = BadRequest ("instance " +:+ id +:+ " did not go idle within 300s; will retry next sweep")
  end.

(** After [k] rounds, with fuel for the rounds the deadline leaves *)
Lemma await_idle_spec {env : FleetEnv} run id sb fuel k w :
  (k <= 10)%nat -> (11 <= fuel + k)%nat -> (forall j, POLL_INTERVAL_SECS * Z.of_nat j <= fr_elapsed run j) ->
  exists calls, fw_log (await_idle fuel k run id sb w).1 = fw_log w ++ calls /\
    (1 <= idle_checks calls <= 11 - k)%nat /\ (length calls <= 2 * idle_checks calls)%nat /\
    wait_outcome run id sb k (fw_log w) calls (await_idle fuel k run id sb w).2.
Proof.
  intros Hk10 Hf Hclock. revert k w Hk10 Hf. induction fuel as [|fuel IH]; intros k w Hk10 Hf; [lia|].
  cbn [await_idle]. cbn zeta. set (again := if MAX_WAIT_SECS <=? fr_elapsed run k then _ else _).
  assert (forall w1 pre, fw_log w1 = fw_log w ++ pre -> idle_checks pre = 1%nat -> (length pre <= 2)%nat ->
    exists calls, fw_log (again w1).1 = fw_log w ++ calls /\ (1 <= idle_checks calls <= 11 - k)%nat /\
      (length calls <= 2 * idle_checks calls)%nat /\
      wait_outcome run id sb k (fw_log w) calls (again w1).2) as Hagain.
  { intros w1 pre Hl Hn Hlen. unfold again. destruct (MAX_WAIT_SECS <=? fr_elapsed run k) eqn:Et.
    { exists pre. split_and!; [done|lia..|]. cbn. rewrite Hn. replace (k + 1 - 1)%nat with k by lia.
      unfold MAX_WAIT_SECS in Et. to_prop. done. }
    assert (k <> 10)%nat.
    { intros ->. specialize (Hclock 10%nat). unfold MAX_WAIT_SECS, POLL_INTERVAL_SECS in *. to_prop. lia. }
    destruct (IH (S k) w1) as (calls & Hc & Hr & Hlen' & Ho); [lia|lia|].
    exists (pre ++ calls). rewrite Hc, Hl, app_assoc, length_app, idle_checks_app, Hn. split_and!; [done|lia..|].
    destruct (await_idle fuel (S k) run id sb w1).2 as [[]|e]; cbn in *.
    - destruct Ho as (before & t & -> & Hq). exists (pre ++ before), t. by rewrite Hl, <- !app_assoc in *.
    - destruct Ho as (before & c & t & e & -> & Hq). exists (pre ++ before), c, t, e.
      by rewrite Hl, <- !app_assoc in *.
    - destruct Ho as [He ->]. split; [|done]. rewrite idle_checks_app, Hn.
      by replace (k + (1 + idle_checks calls) - 1)%nat with (S k + idle_checks calls - 1)%nat by lia. }
  unfold mbind, svc_bind, attempt, remote.
  destruct (fe_is_idle (length (fw_log w)) id sb) as [[[] fl]|e] eqn:Ei.
  - set (w1 := mkFleet _ _ _ _ _ (fw_log w ++ _) _ _).
    destruct (fe_quiesce (length (fw_log w1)) id sb) as [[]|e] eqn:Eq.
    + eexists. cbn. rewrite <- app_assoc. split; [done|].
      match goal with |- context [idle_checks ?l] => change (idle_checks l) with 1%nat end.
      split_and!; [cbn; lia..|]. by eexists [_], _.
    + eapply Hagain; [cbn; by rewrite <- app_assoc|done|cbn; lia].
    + eexists. cbn. rewrite <- app_assoc. split; [done|].
      match goal with |- context [idle_checks ?l] => change (idle_checks l) with 1%nat end.
      split_and!; [cbn; lia..|]. eexists [_], _, _, e. auto.
  - eapply Hagain; [done|done|cbn; lia].
  - eexists. cbn. split; [done|].
    match goal with |- context [idle_checks ?l] => change (idle_checks l) with 1%nat end.
    split_and!; [cbn; lia..|]. eexists [], _, _, e. rewrite app_nil_r. auto.
Qed.

(** More fuel than the deadline leaves rounds changes nothing. *)
Lemma await_idle_fuel {env : FleetEnv} run id sb f f' k w :
  (k <= 10)%nat -> (11 <= f + k)%nat -> (11 <= f' + k)%nat -> (forall j, POLL_INTERVAL_SECS * Z.of_nat j <= fr_elapsed run j) ->
  await_idle f k run id sb w = await_idle f' k run id sb w.
Proof.
  intros Hk H1 H2 Hclock. revert f' k w Hk H1 H2. induction f as [|f IH]; intros f' k w Hk H1 H2; [lia|].
  destruct f' as [|f']; [lia|]. cbn [await_idle]. cbn zeta.
  set (a1 := if MAX_WAIT_SECS <=? fr_elapsed run k then _ else await_idle f _ _ _ _).
  set (a2 := if MAX_WAIT_SECS <=? fr_elapsed run k then _ else await_idle f' _ _ _ _).
  assert (forall v, a1 v = a2 v) as Ha.
  { intros v. unfold a1, a2. destruct (MAX_WAIT_SECS <=? fr_elapsed run k) eqn:Et; [done|].
    destruct (decide (k = 10%nat)) as [->|]; [|apply IH; lia].
    exfalso. specialize (Hclock 10%nat). unfold MAX_WAIT_SECS, POLL_INTERVAL_SECS in *. to_prop. lia. }
  unfold mbind, svc_bind, attempt, remote. destruct (fe_is_idle _ id sb) as [[[] fl]|]; [|apply Ha|done].
  destruct (fe_quiesce _ id sb) as [[]|]; [done|apply Ha|done].
Qed.

(** C32. The wait for an idle agent ends because of its deadline: when thirty
    seconds pass between two checks, the loop, given any fuel from eleven on,
    behaves the same and makes between one and eleven idle checks and at most
    twice as many calls.  It ends in one of three ways: the agent latched by the
    last call; an error answering the last call, after which the rotation goes
    on ungated; or its time-out error, at a check made 300 seconds or more after
    the start.  (A comment in the source counts five checks.) *)
Theorem idle_wait_bounded {env : FleetEnv} (run : FleetRun) (id sb : string) (w : FleetWorld) (fuel : nat)
    (Hfuel : (11 <= fuel)%nat) (Hclock : forall j, POLL_INTERVAL_SECS * Z.of_nat j <= fr_elapsed run j) :
  await_idle fuel 0 run id sb w = await_idle 11 0 run id sb w /\
  exists calls, fw_log (await_idle fuel 0 run id sb w).1 = fw_log w ++ calls /\
    (1 <= idle_checks calls <= 11)%nat /\ (length calls <= 2 * idle_checks calls)%nat /\
    wait_outcome run id sb 0 (fw_log w) calls (await_idle fuel 0 run id sb w).2.
Proof. split; [apply await_idle_fuel; done || lia|]. apply await_idle_spec; done || lia. Qed.

(** An agent that stays busy is asked eleven times, not five, before the
    rotation gives up. *)
Theorem busy_agent_asked_eleven_times {env : FleetEnv} (run : FleetRun) (id sb : string) (w : FleetWorld)
    (Hclock : forall j, fr_elapsed run j = POLL_INTERVAL_SECS * Z.of_nat j)
    (Hbusy : forall n, exists k, fe_is_idle n id sb = Ok (false, k)) :
  fw_log (await_idle 11 0 run id sb w).1 = fw_log w ++ repeat (IsIdle id sb, fw_instances w) 11 /\
  exists e, (await_idle 11 0 run id sb w).2 = Err e.
Proof.
  cut (forall fuel k v, (fuel + k = 11)%nat -> (0 < fuel)%nat ->
    fw_log (await_idle fuel k run id sb v).1 = fw_log v ++ repeat (IsIdle id sb, fw_instances v) fuel /\
    exists e, (await_idle fuel k run id sb v).2 = Err e); [intros H; apply H; lia|].
  intros fuel. induction fuel as [|fuel IH]; intros k v Hk Hpos; [lia|].
  cbn [await_idle]. unfold mbind, svc_bind, attempt, remote.
  destruct (Hbusy (length (fw_log v))) as [b ->]. cbn zeta. rewrite Hclock. unfold MAX_WAIT_SECS, POLL_INTERVAL_SECS.
  destruct (300 <=? 30 * Z.of_nat k) eqn:Et; to_prop.
  - replace fuel with 0%nat by lia. cbn. eauto.
  - set (v1 := mkFleet _ _ _ _ _ _ _ _). destruct (IH (S k) v1) as [Hl He]; [lia|lia|].
    split; [|done]. rewrite Hl. cbn. by rewrite <- app_assoc.
Qed.

(** ** A swap that fails half way *)

(** The tokens stay as they are. *)
Definition token_still (w w' : FleetWorld) : Prop := fw_tokens w' = fw_tokens w.
#[export] Instance token_still_preorder : PreOrder token_still.
Proof. split; [done|]. intros w1 w2 w3 H1 H2. unfold token_still in *. congruence. Qed.

Lemma still_remote {E A} call (answer : nat -> result E A) : framed token_still (remote call answer).
Proof. done. Qed.
Lemma still_secrets {A} (m : svc SecretDb SecretsError A) : framed token_still (on_secrets m).
Proof. intros w. unfold on_secrets. by destruct (m _). Qed.
Lemma still_read {dir : CipherDirectory} {codec : EnvelopeCodec} sr row :
  framed token_still (read_body_for_replay sr row).
Proof. intros w. unfold read_body_for_replay. by destruct (read_body sr row) as [[]|]. Qed.
#[export] Hint Resolve still_remote still_secrets still_read : framed.

Section failed.
Context {R : HostResolver} {env : FleetEnv} {dir : CipherDirectory} {codec : EnvelopeCodec}.
Context {mc : McpCodec} {th : TokenHash} (cipher : EnvelopeCipher) (sv : ServiceConfig).

Lemma still_push i sb b : framed token_still (push_with_retry i sb b).
Proof.
  unfold push_with_retry. generalize 12%nat as n, EmptyString as e.
  induction n as [|n IH]; intros e; cbn [push_attempts]; framed.
Qed.
Lemma still_restore_file i sb b : framed token_still (restore_state_file_with_retry i sb b).
Proof.
  unfold restore_state_file_with_retry. generalize 12%nat as n, EmptyString as e.
  induction n as [|n IH]; intros e; cbn [restore_attempts]; framed.
Qed.
#[local] Hint Resolve still_push still_restore_file : framed.
Lemma still_configure run k owner row tk sb on op ph :
  framed token_still (configure_existing_sandbox_for_state_replay sv run k owner row tk sb on op ph).
Proof.
  unfold configure_existing_sandbox_for_state_replay, configure_body_for_existing_row,
    mcp_servers_block_for_instance, clear_identity_fields_when_mirror_is_authoritative. framed.
Qed.
Lemma still_replay_rows run owner id sb allow rows n : framed token_still (replay_rows run owner id sb allow rows n).
Proof.
  revert n. induction rows as [|row rows IH]; intros n; cbn [replay_rows]; unfold replay_of; cbn zeta; framed.
Qed.
#[local] Hint Resolve still_configure still_replay_rows : framed.
Lemma still_replay_configure run owner row tk sb allow before op :
  framed token_still (replay_state_files_and_configure sv run owner row tk sb allow before op).
Proof. unfold replay_state_files_and_configure, replay_state_files_to_sandbox. framed. Qed.

Lemma start_binds source template policy resolved tk path off w w' info ip :
  start_replacement sv source template policy resolved tk path off w = (w', Ok info) ->
  bound_ip (sb_host_ip info) = Some ip ->
  forall t, t ∈ tw_tokens (fw_tokens w') -> tk_instance_id t = ir_id source -> token_live t = true ->
    tk_expected_src_ip t = Some ip.
Proof.
  intros H Hip t Ht Hid Hl. unfold start_replacement in H.
  apply svc_bind_ok in H as (w1 & e1 & _ & H). apply svc_bind_ok in H as (w2 & i & _ & H).
  apply svc_bind_ok in H as (w3 & [] & Hb & H). injection H as -> ->.
  unfold bind_runtime_tokens_to_sandbox_source in Hb. cbn zeta in Hb. unfold bound_ip in Hip.
  destruct (is_empty (trim (sb_host_ip info))); [done|]. cbn [orb] in Hip.
  apply on_tokens_ok in Hb as (t' & Hb & ->). unfold bind_expected_src_ip in Hb. cbn zeta in Hb.
  destruct (is_empty (trim (trim (sb_host_ip info)))); [done|]. injection Hip as <-.
  injection Hb as <-. cbn in Ht. apply elem_of_update in Ht as (s & Hs & ->).
  destruct (_ && _) eqn:E; [done|]. by rewrite Hid, String.eqb_refl, Hl in E.
Qed.

(** A step that makes no call at all *)
Lemma steady_none {E A} (m : svc FleetWorld E A) w w' r :
  framed (steady (fun _ => False)) m -> m w = (w', r) -> fw_log w' = fw_log w /\ fw_instances w' = fw_instances w.
Proof.
  intros Hm H. destruct (Hm w) as (Hi & l & Hl & Hf). rewrite H in Hi, Hl. split; [|done].
  destruct l as [|c l]; [by rewrite app_nil_r in Hl|]. apply Forall_cons_iff in Hf as [[[] _] _].
Qed.

Definition internal (e : SwarmError) : bool := match e with Internal _ => true | _ => false end.

Lemma start_not_internal source template policy resolved tk path off w w' e :
  start_replacement sv source template policy resolved tk path off w = (w', Err e) -> internal e = false.
Proof.
  unfold start_replacement. intros [H|(w1 & envm & _ & H)]%svc_bind_err.
  { injection H as _ H. unfold compose_sandbox_env, validate_caller_env in H.
    case_bool_decide; [done|]. cbn in H. injection H as <-. done. }
  apply svc_bind_err in H as [H|(w2 & info & _ & H)].
  { unfold with_err in H. destruct (create_sandbox _ _) as [? []]; [done|]. injection H as _ <-. done. }
  apply svc_bind_err in H as [H|(w3 & [] & _ & H)]; [|done].
  unfold bind_runtime_tokens_to_sandbox_source in H. cbn zeta in H. destruct (is_empty _); [done|].
  by apply on_tokens_err in H as (? & ? & _ & _ & ->).
Qed.

Lemma finish_not_internal run owner id old w w' e :
  finish_swap run owner id old w = (w', Err e) -> internal e = false.
Proof.
  unfold finish_swap. intros [H|(w1 & [] & _ & H)]%svc_bind_err.
  { by apply on_instances_err in H as (? & ? & _ & _ & ->). }
  apply svc_bind_err in H as [H|(w2 & [] & _ & H)]; [done|].
  apply svc_bind_err in H as [H|(w3 & [] & _ & H)]; [by destruct old|].
  by apply require_row_err in H as (_ & -> & _).
Qed.
End failed.

(** C40. A reset that fails while the state is replayed leaves the instance on
    its old sandbox, which it takes its tokens away from: the new sandbox is
    destroyed and the row unchanged, yet every live token of the instance is
    now accepted from the address of the destroyed sandbox only. *)
Theorem failed_reset_strands_tokens {R : HostResolver} {env : FleetEnv} {dir : CipherDirectory}
    {codec : EnvelopeCodec} {mc : McpCodec} {th : TokenHash} (cipher : EnvelopeCipher) (sv : ServiceConfig)
    (run : FleetRun) (owner id template msg : string) (w w' : FleetWorld)
    (Hr : reset_in_place_from_state cipher sv run owner id template w = (w', Err (Internal msg)))
    (Hcalls : fw_log w' <> fw_log w) :
  fw_instances w' = fw_instances w /\
  exists n args info before, fe_create n args = Ok info /\
    fw_log w' = before ++ [(CubeDestroy (sb_id info), fw_instances w)] /\
    forall ip, bound_ip (sb_host_ip info) = Some ip ->
      forall t, t ∈ tw_tokens (fw_tokens w') -> tk_instance_id t = id -> token_live t = true ->
        tk_expected_src_ip t = Some ip.
Proof.
  unfold reset_in_place_from_state in Hr.
  apply svc_bind_err in Hr as [Hr|(w1 & plan & Hp & Hr)];
    [by apply steady_none in Hr as [? _]; [|apply steady_plan]|].
  pose proof (plan_ok sv _ _ _ _ _ _ _ _ _ _ Hp) as (Hrow & _).
  apply get_for_owner_some in Hrow as (_ & Hid & _).
  apply steady_none in Hp as [Hl1 Hi1]; [|apply steady_plan]. cbn zeta in Hr. rewrite Hid in Hr.
  apply svc_bind_err in Hr as [Hr|(w2 & tk & Ht & Hr)];
    [apply steady_none in Hr as [? _]; [congruence|apply steady_runtime_tokens]|].
  apply steady_none in Ht as [Hl2 Hi2]; [|apply steady_runtime_tokens].
  apply svc_bind_err in Hr as [Hr|(w3 & info & Hs & Hr)]; [by apply start_not_internal in Hr|].
  pose proof (start_ok sv _ _ _ _ _ _ _ _ _ _ Hs) as (n & args & Hcr & _).
  pose proof (fun ip => start_binds sv _ _ _ _ _ _ _ _ _ _ ip Hs) as Hb. rewrite Hid in Hb.
  pose proof (steady_start sv (pn_source plan) (pn_target_template_id plan) (pn_target_policy plan)
    (pn_resolved_policy plan) tk None true w2) as [Hi3 _].
  unfold create_in_place_swap_sandbox in Hs. rewrite Hs in Hi3. cbn in Hi3.
  apply svc_bind_err in Hr as [Hr|(w4 & [] & _ & Hr)].
  - unfold or_undo in Hr. apply svc_bind_err in Hr as [Hr|(w4 & r & Hr4%attempt_ok & Hr)].
    { unfold attempt in Hr. by destruct (replay_state_files_and_configure _ _ _ _ _ _ _ _ _ w3). }
    destruct r as [[]|e]; [done|]. injection Hr as <- ->.
    pose proof (still_replay_configure sv run owner (pn_source plan) tk (sb_id info) true true "reset" w3) as Hk.
    pose proof (steady_replay_configure sv run owner (pn_source plan) tk (sb_id info) true true "reset" w3) as [Hi4 _].
    rewrite Hr4 in Hk, Hi4. cbn in Hk, Hi4 |- *.
    assert (fw_instances w4 = fw_instances w) as Hi by congruence.
    split; [exact Hi|]. exists n, args, info, (fw_log w4). rewrite Hk, Hi. by split_and!.
  - exfalso. apply svc_bind_err in Hr as [Hr|(w5 & [] & _ & Hr)]; [|by apply finish_not_internal in Hr].
    unfold or_undo in Hr. apply svc_bind_err in Hr as [Hr|(w5 & r & Hr5%attempt_ok & Hr)].
    { unfold attempt in Hr. by destruct (swap_row _ _ _ _ w4). }
    destruct r as [[]|e]; [done|]. injection Hr as _ ->.
    by apply on_instances_err in Hr5 as (? & ? & _ & _ & ?).
Qed.

(** ** A concrete instance *)

Definition served_row : InstanceRow :=
  mkInstanceRow "i" "a" "n" "t" (Some "old") "g1" "tpl" Live "tok" false None 0 None None 0 None None NoLocalNet
    [] ["m1"] [].
#[local] Instance ready : FleetEnv := example_fleet (Ok example_sandbox) None.

Lemma example_fresh refusal :
  fresh_sandboxes (env := example_fleet (Ok example_sandbox) refusal) (fw_instances (example_world [served_row])).
Proof. intros n args info [= <-] r ->%list_elem_of_singleton. done. Qed.

Definition reset_world : FleetWorld :=
  (run_swap plain_cipher example_sv (Reset "tpl2") example_run "a" "i" (example_world [served_row])).1.

Lemma swap_spares_serving_sandbox_witness :
  exists calls, fw_log reset_world = calls /\
    forall sb t, (CubeDestroy sb, t) ∈ calls -> forall r, r ∈ t -> ir_id r = "i" -> ir_cube_sandbox_id r <> Some sb.
Proof.
  apply (swap_spares_serving_sandbox plain_cipher example_sv (Reset "tpl2") example_run "a" "i"
    (example_world [served_row])). apply example_fresh.
Defined.

Lemma swap_success_exact_witness :
  ir_cube_sandbox_id <$> head (fw_instances reset_world) = Some (Some "sb1") /\
  exists source args before after, instance_get_for_owner "a" "i" [served_row] = Some source /\
    fw_log reset_world = fw_log (example_world [served_row]) ++ before ++
      (CubeCreate args, fw_instances (example_world [served_row])) :: after ++
      (RefreshEgress, fw_instances reset_world) ::
      match live_sandbox source with
      | Some old => [(CubeDestroy old, fw_instances reset_world)] | None => [] end.
Proof.
  destruct (swap_success_exact plain_cipher example_sv (Reset "tpl2") example_run "a" "i"
    (example_world [served_row]) reset_world
    (replaced_row "sb1" "gen" "tpl2" NoLocalNet (row_policy_cidrs NoLocalNet (mkResolved true [] [] None)) 1000 Live
       served_row)) as (source & args & info & resolved & Hs & _ & _ & _ & _ & _ & _ & before & after & _ & Hl & _).
  - vm_compute. reflexivity.
  - apply example_fresh.
  - split; [vm_compute; reflexivity|]. exists source, args, before, after.
    split; [exact Hs|exact Hl].
Defined.

Lemma idle_wait_bounded_witness :
  exists calls, fw_log (await_idle 20 0 example_run "i" "old" (example_world [served_row])).1 = calls /\
    (1 <= idle_checks calls <= 11)%nat.
Proof.
  destruct (idle_wait_bounded example_run "i" "old" (example_world [served_row]) 20) as (_ & calls & Hl & Hn & _).
  - lia.
  - intros j. unfold POLL_INTERVAL_SECS. cbn. lia.
  - exists calls. split; [exact Hl|exact Hn].
Defined.

Definition stranded : FleetWorld :=
  (reset_in_place_from_state (env := example_fleet (Ok example_sandbox) (Some "did not apply requested models"))
     plain_cipher example_sv example_run "a" "i" "tpl2" (example_world [served_row])).1.

Lemma failed_reset_strands_tokens_witness :
  fw_instances stranded = [served_row] /\
  exists t, t ∈ tw_tokens (fw_tokens stranded) /\ tk_instance_id t = "i" /\ token_live t = true.
Proof.
  destruct (failed_reset_strands_tokens (env := example_fleet (Ok example_sandbox)
    (Some "did not apply requested models")) plain_cipher example_sv example_run "a" "i" "tpl2"
    "reset configure-push failed before state replay: did not apply requested models"
    (example_world [served_row]) stranded) as [Hi _].
  - vm_compute. reflexivity.
  - vm_compute. discriminate.
  - split; [exact Hi|]. eexists. split; [left|split; reflexivity].
Defined.
