(* ===== verification/McpManagement.v ===== *)
(** * Managing the MCP servers of an instance

    Models the MCP part of [crates/core/src/instance.rs] and
    [crates/core/src/instance/mcp_reconcile.rs]: adding, editing and removing a
    server, disconnecting its OAuth session, removing what came from a catalog
    template, and the push of the resulting block (and of the channel block) to
    the running agent. *)

From Stdlib Require Import ZArith Ascii Lia.
From stdpp Require Import base list strings gmap option.
From S2P Require Import Prelude RustStr RustNet Json Codec Store Envelope NetworkPolicy SandboxEnv Traits.
From S2P Require Import UpstreamPolicy InstanceStore TokenStore Secrets McpRecords StateFiles InstanceService.
From S2P Require Import InstanceLifecycle InPlaceSwap.

Local Open Scope string_scope.
Local Open Scope list_scope.
Local Open Scope Z_scope.

(** ** Reconciling an edit with the sealed entry *)

(** [auth_shape_matches] *)
Definition auth_shape_matches (prev next : McpAuthSpec) : bool :=
  match prev, next with
  | AuthNone, AuthNone => true
  | AuthBearer _, AuthBearer _ => true
  | AuthOauth a_s _ _ a_a a_t _, AuthOauth b_s _ _ b_a b_t _ =>
      bool_decide (a_s = b_s) && bool_decide (a_a = b_a) && bool_decide (a_t = b_t)
  | _, _ => false
  end.

(** [MCP_KEEP_TOKEN]: eight bullets (U+2022) in UTF-8 *)
Definition bullet : string :=
  String (ascii_of_nat 226) (String (ascii_of_nat 128) (String (ascii_of_nat 162) EmptyString)).
Definition MCP_KEEP_TOKEN : string :=
  bullet +:+ bullet +:+ bullet +:+ bullet +:+ bullet +:+ bullet +:+ bullet +:+ bullet.

(** [keep_existing_secrets]: [next] afterwards *)
Definition keep_existing_secrets (prev next : McpAuthSpec) : McpAuthSpec :=
  match prev, next with
  | AuthBearer prev_token, AuthBearer next_token =>
      AuthBearer (if (next_token =? MCP_KEEP_TOKEN)%string then prev_token else next_token)
  | AuthOauth _ _ (Some prev_cs) _ _ _, AuthOauth s c (Some next_cs) a t r =>
      AuthOauth s c (Some (if (next_cs =? MCP_KEEP_TOKEN)%string then prev_cs else next_cs)) a t r
  | _, _ => next
  end.

(** The entry [put_mcp_server] writes, from the stored one or a new one *)
Definition reconcile_entry (entry : McpServerEntry) (url : string) (auth : McpAuthSpec)
    (enabled_tools : option (list string)) : McpServerEntry :=
  let auth := if auth_shape_matches (me_auth entry) auth then keep_existing_secrets (me_auth entry) auth
              else auth in
  let oauth_tokens := if auth_shape_matches (me_auth entry) auth then me_oauth_tokens entry else None in
  mkMcpEntry url auth ∅ None None None oauth_tokens (me_tools_catalog entry) (me_last_check_error entry)
    enabled_tools.

(** [DeletedMcpServer] *)
Record DeletedMcpServer : Type := mkDeleted {
  dm_owner_id : string;
  dm_instance_id : string;
  dm_name : string;
  dm_runtime : option McpRuntimeSpec
}.

Section manage.
Context {R : HostResolver} {env : FleetEnv} {dir : CipherDirectory} {codec : EnvelopeCodec}.
Context {mc : McpCodec} {th : TokenHash} (cipher : EnvelopeCipher) (sv : ServiceConfig).

(** [.map_err(|e| SwarmError::Internal(format!("{what}: {e}")))] *)
Definition internal_secrets {A} (what : string) (m : secrets A) : fleet A :=
  with_err (fun _ => Internal what) (on_secrets m).

(** [self.mcp_secrets.as_ref().ok_or_else(PolicyDenied)?] *)
Definition require_mcp_secrets : fleet unit :=
  lift (if sv_mcp_secrets sv then Ok tt else Err (PolicyDenied "mcp secrets store not configured")).

(** The running agent: its sandbox and its proxy token *)
Definition require_agent (run : FleetRun) (owner_id id : string) (secrets_too : bool) :
  fleet (string * string) :=
  row ← require_row owner_id id;
  sandbox_id ← lift (ok_or (PolicyDenied "instance has no live sandbox to reconfigure") (live_sandbox row));
  _ ← lift (if sv_reconfigurer sv then Ok tt else Err (PolicyDenied "dyson reconfigurer not configured"));
  _ ← (if secrets_too then require_mcp_secrets else mret tt);
  found ← on_tokens (lookup_by_instance cipher (Some dir) (fr_token run 4) id);
  proxy_token ← lift (ok_or (PolicyDenied "instance has no active proxy_token (pre-Stage-8 row)") found);
  mret (sandbox_id, proxy_token).

Definition mcp_only_body (id : string) (block : gmap string json) : ReconfigureBody :=
  mkBody None None None [] (Some id) None None None None None None false None (Some block) None None None None None.
Definition channel_only_body (id : string) (t : option TelegramProxyReconfigure) : ReconfigureBody :=
  mkBody None None None [] (Some id) None None None None None None false None None None None None None t.

(** [sync_mcp_to_dyson] *)
Definition sync_mcp_to_dyson (run : FleetRun) (owner_id id : string) : fleet unit :=
  agent ← require_agent run owner_id id true;
  names ← internal_secrets "mcp list" (list_names (fr_seal run 6) owner_id id);
  with_err PolicyDenied (push_with_retry id agent.1 (mcp_only_body id (mcp_block sv id agent.2 names))).

(** [sync_channels_to_dyson] *)
Definition sync_channels_to_dyson (run : FleetRun) (owner_id id : string) : fleet unit :=
  agent ← require_agent run owner_id id false;
  telegram ← gets (telegram_proxy_block_for_instance sv id agent.2);
  with_err PolicyDenied (push_with_retry id agent.1 (channel_only_body id telegram)).

(** Add the name to the index unless it is there *)
Definition index_add (run : FleetRun) (owner_id id name : string) : fleet unit :=
  names ← internal_secrets "mcp list" (list_names (fr_seal run 2) owner_id id);
  if bool_decide (name ∈ names) then mret tt
  else internal_secrets "mcp index put" (put_index (fr_seal run 3) owner_id id (names ++ [name])).

(** [put_mcp_server] *)
Definition put_mcp_server (run : FleetRun) (owner_id id : string) (spec : McpServerSpec) : fleet unit :=
  _ ← require_row owner_id id;
  _ ← require_mcp_secrets;
  let name := ms_name spec in
  let url := ms_url spec in
  let auth := ms_auth spec in
  _ ← lift (if is_empty (trim name) then Err (BadRequest "server name is required") else Ok tt);
  _ ← lift (if is_empty (trim url) then Err (BadRequest "server url is required") else Ok tt);
  _ ← lift (validate_mcp_url sv url);
  _ ← lift (validate_mcp_auth_urls sv auth);
  found ← internal_secrets "mcp get" (mcp_get (fr_seal run 0) owner_id id name);
  let entry := default (mkMcpEntry url auth ∅ None None None None None None (ms_enabled_tools spec)) found in
  _ ← internal_secrets "mcp put" (mcp_put (fr_seal run 1) owner_id id name
                                     (reconcile_entry entry url auth (ms_enabled_tools spec)));
  _ ← index_add run owner_id id name;
  best_effort (sync_mcp_to_dyson run owner_id id).

(** Write the index back, or drop it when nothing is left *)
Definition index_write_or_drop (run : FleetRun) (owner_id id : string) (names : list string) : fleet unit :=
  if bool_decide (names = []) then best_effort (on_secrets (user_delete owner_id (index_key id)))
  else internal_secrets "mcp index put" (put_index (fr_seal run 3) owner_id id names).

Definition without_name (name : string) (names : list string) : list string :=
  filter (fun n => n <> name) names.

(** [delete_mcp_server] *)
Definition delete_mcp_server (run : FleetRun) (owner_id id name : string) : fleet (option DeletedMcpServer) :=
  _ ← require_row owner_id id;
  _ ← require_mcp_secrets;
  deleted ← internal_secrets "mcp get" (mcp_get (fr_seal run 0) owner_id id name);
  _ ← best_effort (on_secrets (user_delete owner_id (entry_key id name)));
  names ← internal_secrets "mcp list" (list_names (fr_seal run 2) owner_id id);
  _ ← index_write_or_drop run owner_id id (without_name name names);
  _ ← best_effort (sync_mcp_to_dyson run owner_id id);
  mret ((fun e => mkDeleted owner_id id name (me_runtime e)) <$> deleted).

(** The first entry of the list that satisfies [p]; entry [k] is read with [seals k] *)
Fixpoint find_entry (seals : nat -> SealRun) (owner_id id : string) (p : McpServerEntry -> bool)
    (names : list string) : fleet (option (string * McpServerEntry)) :=
  match names with
  | [] => mret None
  | name :: names =>
      found ← internal_secrets "mcp get" (mcp_get (seals 0%nat) owner_id id name);
      match found with
      | Some e => if p e then mret (Some (name, e)) else find_entry (fun k => seals (S k)) owner_id id p names
      | None => find_entry (fun k => seals (S k)) owner_id id p names
      end
  end.

Definition has_raw_config (e : McpServerEntry) : bool := bool_decide (me_raw_vscode_config e <> None).
Definition from_catalog (catalog_id : string) (e : McpServerEntry) : bool :=
  match me_docker_catalog e with Some b => (db_id b =? catalog_id)%string | None => false end.

(** [get_vscode_mcp_config] *)
Definition get_vscode_mcp_config (run : FleetRun) (owner_id id : string) (server_name : option string) :
  fleet (option json) :=
  _ ← require_row owner_id id;
  _ ← require_mcp_secrets;
  match server_name with
  | Some name =>
      entry ← internal_secrets "mcp get" (mcp_get (fr_seal run 0) owner_id id name);
      mret (entry ≫= me_raw_vscode_config)
  | None =>
      names ← internal_secrets "mcp list" (list_names (fr_seal run 2) owner_id id);
      found ← find_entry (fun k => fr_seal run (10 + k)) owner_id id has_raw_config names;
      mret (found ≫= fun f => me_raw_vscode_config f.2)
  end.

(** [delete_vscode_mcp_config] *)
Definition delete_vscode_mcp_config (run : FleetRun) (owner_id id : string) : fleet (option DeletedMcpServer) :=
  _ ← require_row owner_id id;
  _ ← require_mcp_secrets;
  names ← internal_secrets "mcp list" (list_names (fr_seal run 2) owner_id id);
  found ← find_entry (fun k => fr_seal run (10 + k)) owner_id id has_raw_config names;
  match found with
  | None => mret None
  | Some (name, entry) =>
      _ ← best_effort (on_secrets (user_delete owner_id (entry_key id name)));
      _ ← index_write_or_drop run owner_id id (without_name name names);
      _ ← best_effort (sync_mcp_to_dyson run owner_id id);
      mret (Some (mkDeleted owner_id id name (me_runtime entry)))
  end.

(** [disconnect_mcp_oauth] *)
Definition without_oauth (e : McpServerEntry) : McpServerEntry :=
  mkMcpEntry (me_url e) (me_auth e) (me_headers e) (me_runtime e) (me_docker_catalog e)
    (me_raw_vscode_config e) None (me_tools_catalog e) (me_last_check_error e) (me_enabled_tools e).
Definition disconnect_mcp_oauth (run : FleetRun) (owner_id id name : string) : fleet unit :=
  _ ← require_row owner_id id;
  _ ← require_mcp_secrets;
  found ← internal_secrets "mcp get" (mcp_get (fr_seal run 0) owner_id id name);
  entry ← lift (ok_or SwNotFound found);
  if bool_decide (me_oauth_tokens entry <> None)
  then internal_secrets "mcp put" (mcp_put (fr_seal run 1) owner_id id name (without_oauth entry))
  else mret tt.

(** The loop of [delete_mcp_servers_for_docker_catalog] over one instance:
    what stays in the index and what was removed *)
Fixpoint drop_catalog_entries (seals : nat -> SealRun) (row : InstanceRow) (catalog_id : string)
    (names : list string) : fleet (list string * list DeletedMcpServer) :=
  match names with
  | [] => mret ([], [])
  | name :: names =>
      found ← attempt (on_secrets (mcp_get (seals 0%nat) (ir_owner_id row) (ir_id row) name));
      match found with
      | Ok (Some e) =>
          if from_catalog catalog_id e then
            _ ← best_effort (on_secrets (user_delete (ir_owner_id row) (entry_key (ir_id row) name)));
            rest ← drop_catalog_entries (fun k => seals (S k)) row catalog_id names;
            mret (rest.1, mkDeleted (ir_owner_id row) (ir_id row) name (me_runtime e) :: rest.2)
          else
            rest ← drop_catalog_entries (fun k => seals (S k)) row catalog_id names;
            mret (name :: rest.1, rest.2)
      | _ =>
          rest ← drop_catalog_entries (fun k => seals (S k)) row catalog_id names;
          mret (name :: rest.1, rest.2)
      end
  end.

(** [delete_mcp_servers_for_docker_catalog]; [runs k] is the [k]-th instance *)
Fixpoint drop_catalog_rows (runs : nat -> FleetRun) (catalog_id : string) (rows : list InstanceRow) :
  fleet (list DeletedMcpServer) :=
  match rows with
  | [] => mret []
  | row :: rows =>
      let run := runs 0%nat in
      names ← attempt (on_secrets (list_names (fr_seal run 2) (ir_owner_id row) (ir_id row)));
      match names with
      | Err _ | Ok [] => drop_catalog_rows (fun k => runs (S k)) catalog_id rows
      | Ok names =>
          parts ← drop_catalog_entries (fun k => fr_seal run (10 + k)) row catalog_id names;
          _ ← (if bool_decide (parts.2 = []) then mret tt
               else
                 _ ← index_write_or_drop run (ir_owner_id row) (ir_id row) parts.1;
                 if bool_decide (ir_status row = Destroyed) then mret tt
                 else best_effort (sync_mcp_to_dyson run (ir_owner_id row) (ir_id row)));
          rest ← drop_catalog_rows (fun k => runs (S k)) catalog_id rows;
          mret (parts.2 ++ rest)
      end
  end.
Definition delete_mcp_servers_for_docker_catalog (runs : nat -> FleetRun) (catalog_id : string) :
  fleet (list DeletedMcpServer) :=
  _ ← require_mcp_secrets;
  rows ← gets (fun w => instance_list SYSTEM_OWNER (mkListFilter None true) (fw_instances w));
  drop_catalog_rows runs catalog_id rows.
End manage.

(** ** Theorems *)

Section proofs.
Context {R : HostResolver} {env : FleetEnv} {dir : CipherDirectory} {codec : EnvelopeCodec}.
Context {mc : McpCodec} {th : TokenHash} (cipher : EnvelopeCipher) (sv : ServiceConfig).

Definition with_secrets (db : SecretDb) (w : FleetWorld) : FleetWorld :=
  mkFleet (fw_tokens w) db (fw_agent_secrets w) (fw_channels w) (fw_files w) (fw_log w) (fw_snapshots w)
    (fw_pending w).

Lemma internal_secrets_run {A} what (m : secrets A) w db r :
  m (fw_secrets w) = (db, r) ->
  internal_secrets what m w = (with_secrets db w, map_err (fun _ => Internal what) r).
Proof. intros H. unfold internal_secrets, with_err, on_secrets. by rewrite H. Qed.

Lemma with_secrets_id w : with_secrets (fw_secrets w) w = w.
Proof. by destruct w. Qed.

Definition same_secrets (w w' : FleetWorld) : Prop := fw_secrets w' = fw_secrets w.
#[local] Instance same_secrets_preorder : PreOrder same_secrets.
Proof. split; [done|]. intros w1 w2 w3 H1 H2. unfold same_secrets in *. congruence. Qed.

Lemma push_secrets i sb b : framed same_secrets (push_with_retry i sb b).
Proof.
  assert (forall E A call (answer : nat -> result E A), framed same_secrets (remote call answer)) as Hr by done.
  unfold push_with_retry. generalize 12%nat as n, EmptyString as e.
  induction n as [|n IH]; intros e; cbn [push_attempts]; framed.
Qed.

(** A synchronisation of a readable index leaves the secrets as they are. *)
Lemma sync_secrets run owner id names w :
  index_held (fw_secrets w) owner id names -> fw_secrets (sync_mcp_to_dyson cipher sv run owner id w).1 = fw_secrets w.
Proof.
  intros Hi. unfold sync_mcp_to_dyson.
  assert (framed same_secrets (require_agent cipher sv run owner id true)) as Ha.
  { assert (forall A (m : svc TokenWorld StoreError A), framed same_secrets (on_tokens m)) as Ht.
    { intros A m w0. unfold on_tokens. by destruct (m _). }
    unfold require_agent, require_row, require_mcp_secrets. framed. }
  unfold mbind at 1, svc_bind at 1. specialize (Ha w).
  destruct (require_agent cipher sv run owner id true w) as [w1 [[sb tok]|e]]; [|exact Ha]. cbn [fst] in Ha.
  unfold same_secrets in Ha. rewrite <- Ha in Hi |- *.
  unfold mbind, svc_bind. rewrite (internal_secrets_run _ _ w1 _ _ (list_names_held (fr_seal run 6) _ _ _ _ Hi)).
  cbn [map_err]. unfold with_err.
  pose proof (push_secrets id sb (mcp_only_body id (mcp_block sv id tok names)) (with_secrets (fw_secrets w1) w1)) as Hp.
  cbn [fst snd]. destruct (push_with_retry _ _ _ _) as [w2 r]. exact Hp.
Qed.

Context `{!CipherDirectoryOk dir, !EnvelopeCodecOk codec, !McpCodecOk mc}.

(** The record of a server, or none *)
Definition entry_is (db : SecretDb) (owner id name : string) (o : option McpServerEntry) : Prop :=
  match o with
  | Some e => entry_held db owner id name e
  | None => user_rows db !! (owner, entry_key id name) = None
  end.
Definition index_is (db : SecretDb) (owner id : string) (o : option (list string)) : Prop :=
  match o with
  | Some names => index_held db owner id names
  | None => user_rows db !! (owner, index_key id) = None
  end.

Lemma mcp_get_is sr db owner id name o :
  entry_is db owner id name o -> mcp_get sr owner id name db = (db, Ok o).
Proof.
  destruct o; intros H; [by apply mcp_get_held|]. unfold mcp_get, mbind, svc_bind. by rewrite user_get_absent.
Qed.
Lemma list_names_is sr db owner id o :
  index_is db owner id o -> list_names sr owner id db = (db, Ok (default [] o)).
Proof.
  destruct o; intros H; [by apply list_names_held|]. unfold list_names, mbind, svc_bind. by rewrite user_get_absent.
Qed.
Lemma index_is_frame db db' owner id o :
  user_rows db' !! (owner, index_key id) = user_rows db !! (owner, index_key id) ->
  index_is db owner id o -> index_is db' owner id o.
Proof.
  intros H. unfold index_is. destruct o; [|by rewrite H]. intros (b & Hb & Hn). exists b. split; [|done].
  by eapply user_holds_frame.
Qed.

Lemma index_add_run run owner id name o w :
  owner_ready owner -> index_is (fw_secrets w) owner id o -> index_is (fw_secrets w) owner id None \/ is_Some o ->
  exists db' names, index_add run owner id name w = (with_secrets db' w, Ok tt) /\
    index_held db' owner id names /\
    names = (if bool_decide (name ∈ default [] o) then default [] o else default [] o ++ [name]) /\
    forall k, k <> (owner, index_key id) -> user_rows db' !! k = user_rows (fw_secrets w) !! k.
Proof.
  intros Hr Hi Ho. unfold index_add. unfold mbind at 1, svc_bind at 1.
  rewrite (internal_secrets_run _ _ w _ _ (list_names_is (fr_seal run 2) _ _ _ _ Hi)). cbn [map_err].
  case_bool_decide as Hin.
  - exists (fw_secrets w), (default [] o). split_and!; [by rewrite with_secrets_id| |done|done].
    destruct o; [exact Hi|]. cbn in Hin. by apply not_elem_of_nil in Hin.
  - destruct (put_index_held (fr_seal run 3) owner id (default [] o ++ [name]) (fw_secrets w) Hr)
      as (db' & Hp & Hh & Hf).
    exists db', (default [] o ++ [name]). split_and!; [|done|done|done].
    rewrite with_secrets_id. by rewrite (internal_secrets_run _ _ w _ _ Hp).
Qed.
End proofs.

(** ** What an edit means *)

(** The kind of authentication is the same and, for OAuth, so are the scopes
    and the two endpoints; client and registration may differ. *)
Inductive same_shape : McpAuthSpec -> McpAuthSpec -> Prop :=
| same_none : same_shape AuthNone AuthNone
| same_bearer t t' : same_shape (AuthBearer t) (AuthBearer t')
| same_oauth s c c' cs cs' a t r r' : same_shape (AuthOauth s c cs a t r) (AuthOauth s c' cs' a t r').

Lemma auth_shape_matches_iff p n : auth_shape_matches p n = true <-> same_shape p n.
Proof.
  split.
  - destruct p, n; cbn; try done; intros H; [constructor..|]. to_prop. subst. constructor.
  - destruct 1; cbn; [done|done|]. by rewrite !bool_decide_eq_true_2.
Qed.

(** The secret an edit leaves: the placeholder stands for the sealed one. *)
Definition kept_secret (sealed submitted : option string) : option string :=
  match sealed with
  | Some s => if decide (submitted = Some MCP_KEEP_TOKEN) then Some s else submitted
  | None => submitted
  end.

(** The record after an edit, field by field, from the one that was there *)
Record edited (old : option McpServerEntry) (spec : McpServerSpec) (entry : McpServerEntry) : Prop := mkEdited {
  ed_url : me_url entry = ms_url spec;
  ed_tools : me_enabled_tools entry = ms_enabled_tools spec;
  ed_new : old = None -> me_auth entry = ms_auth spec /\ me_oauth_tokens entry = None /\
    me_tools_catalog entry = None /\ me_last_check_error entry = None;
  ed_bearer : forall prev t t', old = Some prev -> me_auth prev = AuthBearer t -> ms_auth spec = AuthBearer t' ->
    me_auth entry = AuthBearer (if decide (t' = MCP_KEEP_TOKEN) then t else t');
  ed_oauth : forall prev s c c' cs cs' a t r r', old = Some prev ->
    me_auth prev = AuthOauth s c cs a t r -> ms_auth spec = AuthOauth s c' cs' a t r' ->
    me_auth entry = AuthOauth s c' (kept_secret cs cs') a t r';
  ed_tokens : forall prev, old = Some prev -> same_shape (me_auth prev) (ms_auth spec) ->
    me_oauth_tokens entry = me_oauth_tokens prev;
  ed_reshaped : forall prev, old = Some prev -> ~ same_shape (me_auth prev) (ms_auth spec) ->
    me_auth entry = ms_auth spec /\ me_oauth_tokens entry = None;
  ed_none : ms_auth spec = AuthNone -> me_auth entry = AuthNone;
  ed_checks : forall prev, old = Some prev ->
    me_tools_catalog entry = me_tools_catalog prev /\ me_last_check_error entry = me_last_check_error prev;
  ed_reset : me_headers entry = ∅ /\ me_runtime entry = None /\ me_docker_catalog entry = None /\
    me_raw_vscode_config entry = None
}.

Lemma keep_shape p n : auth_shape_matches p (keep_existing_secrets p n) = auth_shape_matches p n.
Proof. destruct p as [| |? ? [?|]], n as [| |? ? [?|]]; done. Qed.

Lemma keep_self a : keep_existing_secrets a a = a.
Proof. destruct a as [|t|? ? [cs|]]; cbn; try done; by destruct (_ =? _)%string. Qed.

Lemma reconcile_edited old spec :
  edited old spec (reconcile_entry
    (default (mkMcpEntry (ms_url spec) (ms_auth spec) ∅ None None None None None None (ms_enabled_tools spec)) old)
    (ms_url spec) (ms_auth spec) (ms_enabled_tools spec)).
Proof.
  destruct spec as [name url auth tools]. cbn [ms_url ms_auth ms_enabled_tools].
  split; cbn [me_url me_auth me_headers me_runtime me_docker_catalog me_raw_vscode_config me_oauth_tokens
    me_tools_catalog me_last_check_error me_enabled_tools reconcile_entry ms_url ms_auth ms_enabled_tools]; try done.
  - intros ->. cbn. rewrite keep_self. by repeat case_match.
  - intros prev t t' -> Hp ->. cbn [default from_option id]. rewrite Hp. cbn [auth_shape_matches keep_existing_secrets].
    destruct (t' =? MCP_KEEP_TOKEN)%string eqn:E; to_prop; by case_decide.
  - intros prev s c c' cs cs' a t r r' -> Hp ->. cbn [default from_option id]. rewrite Hp.
    rewrite (proj2 (auth_shape_matches_iff _ _)) by constructor. unfold kept_secret.
    destruct cs as [x|], cs' as [y|]; cbn [keep_existing_secrets]; try done.
    destruct (y =? MCP_KEEP_TOKEN)%string eqn:E; to_prop; case_decide; by simplify_eq.
  - intros prev -> Hs%auth_shape_matches_iff. cbn [default from_option id]. by rewrite Hs, keep_shape, Hs.
  - intros prev -> Hs. cbn [default from_option id]. destruct (auth_shape_matches (me_auth prev) auth) eqn:E.
    + by apply auth_shape_matches_iff in E.
    + by rewrite E.
  - intros ->. destruct (auth_shape_matches _ AuthNone); [|done].
    by destruct (me_auth _) as [| |? ? [?|]].
  - by intros prev ->.
Qed.

(** C24. A server that is added or edited is the one that is read back: the
    write succeeds, and the record read back is the submitted one, reconciled
    with the sealed one field by field.  A new server is stored as submitted.
    In an edit that keeps the kind of authentication and, for OAuth, scopes and
    endpoints, the placeholder keeps the sealed bearer or client secret, any
    other value replaces it, and the OAuth tokens stay; any other edit stores
    the submitted authentication and drops the tokens.  Results of the last
    check stay, runtime, headers and catalog origin are cleared.  The index
    lists the name once and the others in order, and no other secret changes. *)
Theorem put_mcp_server_reads_back {R : HostResolver} {env : FleetEnv} {dir : CipherDirectory}
    {codec : EnvelopeCodec} {mc : McpCodec} {th : TokenHash}
    `{!CipherDirectoryOk dir, !EnvelopeCodecOk codec, !McpCodecOk mc}
    (cipher : EnvelopeCipher) (sv : ServiceConfig) (run : FleetRun) (sr : SealRun) (owner id : string)
    (spec : McpServerSpec) (w : FleetWorld) (row : InstanceRow) (old : option McpServerEntry)
    (names : option (list string))
    (Hrow : instance_get_for_owner owner id (fw_instances w) = Some row) (Hsv : sv_mcp_secrets sv = true)
    (Hready : owner_ready owner) (Hname : is_empty (trim (ms_name spec)) = false)
    (Hurl : is_empty (trim (ms_url spec)) = false) (Hidx : ms_name spec <> "_index")
    (Hv : validate_mcp_server_spec sv spec = Ok tt)
    (Hold : entry_is (fw_secrets w) owner id (ms_name spec) old)
    (Hnames : index_is (fw_secrets w) owner id names) :
  exists w' entry, put_mcp_server cipher sv run owner id spec w = (w', Ok tt) /\
    (mcp_get sr owner id (ms_name spec) (fw_secrets w')).2 = Ok (Some entry) /\
    edited old spec entry /\
    (list_names sr owner id (fw_secrets w')).2 =
      Ok (let l := default [] names in if bool_decide (ms_name spec ∈ l) then l else l ++ [ms_name spec]) /\
    forall k, k <> (owner, index_key id) -> k <> (owner, entry_key id (ms_name spec)) ->
      user_rows (fw_secrets w') !! k = user_rows (fw_secrets w) !! k.
Proof.
  pose proof (reconcile_edited old spec) as Hed.
  destruct spec as [name url auth tools]. cbn [ms_name ms_url ms_auth ms_enabled_tools] in *.
  unfold validate_mcp_server_spec in Hv. cbn [ms_url ms_auth] in Hv. apply result_bind_ok in Hv as ([] & Hvu & Hva).
  set (base := default (mkMcpEntry url auth ∅ None None None None None None tools) old).
  set (entry := reconcile_entry base url auth tools).
  destruct (mcp_put_held (fr_seal run 1) owner id name entry (fw_secrets w) Hready) as (db1 & Hp & Hh & Hf).
  set (w1 := with_secrets db1 w).
  assert (index_is (fw_secrets w1) owner id names) as Hn1.
  { eapply index_is_frame; [|exact Hnames]. apply Hf. intros He. apply (f_equal snd) in He. cbn [snd] in He.
    symmetry in He. by apply entry_key_index in He. }
  destruct (index_add_run run owner id name names w1 Hready Hn1) as (db2 & l & Ha & Hl & Hle & Hf2).
  { destruct names; [right; by eexists|left; exact Hn1]. }
  assert (entry_held db2 owner id name entry) as Hh2.
  { eapply entry_held_frame; [|exact Hh]. apply Hf2. intros He. apply (f_equal snd) in He. cbn [snd] in He.
    by apply entry_key_index in He. }
  pose proof (sync_secrets cipher sv run owner id l (with_secrets db2 w1) Hl) as Hs.
  eexists _, entry. split.
  { unfold put_mcp_server, mbind, svc_bind. unfold require_row, mbind, svc_bind, gets, lift. rewrite Hrow.
    cbn [ok_or]. unfold require_mcp_secrets, lift. rewrite Hsv. cbn [ms_name ms_url ms_auth ms_enabled_tools].
    rewrite Hname, Hurl, Hvu, Hva.
    rewrite (internal_secrets_run _ _ w _ _ (mcp_get_is (fr_seal run 0) _ _ _ _ _ Hold)). cbn [map_err].
    rewrite with_secrets_id. fold base. change (reconcile_entry base url auth tools) with entry.
    rewrite (internal_secrets_run _ _ w _ _ Hp). cbn [map_err]. fold w1. rewrite Ha. reflexivity. }
  cbn [fst]. rewrite Hs. cbn [with_secrets fw_secrets].
  rewrite (mcp_get_held sr db2 owner id name entry Hh2), (list_names_held sr db2 owner id l Hl), Hle.
  split_and!; try done. intros k H1 H2. rewrite Hf2 by done. by apply Hf.
Qed.

(** A server named like the index row breaks the index: adding it to an
    instance that has none is reported as a failure and still leaves its record
    where the index belongs, after which the servers of the instance can no
    longer be listed.  Assumes that the JSON of a record is not a list of
    names. *)
Theorem index_named_server_breaks_listing {R : HostResolver} {env : FleetEnv} {dir : CipherDirectory}
    {codec : EnvelopeCodec} {mc : McpCodec} {th : TokenHash}
    `{!CipherDirectoryOk dir, !EnvelopeCodecOk codec, !McpCodecOk mc}
    (cipher : EnvelopeCipher) (sv : ServiceConfig) (run : FleetRun) (owner id : string)
    (spec : McpServerSpec) (w : FleetWorld) (row : InstanceRow)
    (Hjson : forall s e, entry_from_slice s = Ok e -> exists m, names_from_slice s = Err m)
    (Hrow : instance_get_for_owner owner id (fw_instances w) = Some row) (Hsv : sv_mcp_secrets sv = true)
    (Hready : owner_ready owner) (Hname : ms_name spec = "_index")
    (Hurl : is_empty (trim (ms_url spec)) = false) (Hv : validate_mcp_server_spec sv spec = Ok tt)
    (Hnone : user_rows (fw_secrets w) !! (owner, index_key id) = None) :
  exists w', put_mcp_server cipher sv run owner id spec w = (w', Err (Internal "mcp list")) /\
    forall sr, exists e, list_names sr owner id (fw_secrets w') = (fw_secrets w', Err e).
Proof.
  destruct spec as [name url auth tools]. cbn [ms_name ms_url ms_auth ms_enabled_tools] in *. subst name.
  unfold validate_mcp_server_spec in Hv. cbn [ms_url ms_auth] in Hv. apply result_bind_ok in Hv as ([] & Hvu & Hva).
  set (entry := reconcile_entry (mkMcpEntry url auth ∅ None None None None None None tools) url auth tools).
  destruct (mcp_put_held (fr_seal run 1) owner id "_index" entry (fw_secrets w) Hready) as (db1 & Hp & Hh & Hf).
  assert (forall sr, exists e, list_names sr owner id db1 = (db1, Err e)) as Hbad.
  { intros sr. destruct Hh as (blob & Hb & He). destruct (Hjson _ _ He) as [m Hm]. eexists.
    unfold list_names, mbind, svc_bind. change (index_key id) with (entry_key id "_index").
    rewrite (user_get_holds sr db1 owner _ blob Hb). unfold lift. by rewrite Hm. }
  exists (with_secrets db1 w). split; [|exact Hbad]. destruct (Hbad (fr_seal run 2)) as [e He].
  unfold put_mcp_server, mbind, svc_bind. unfold require_row, mbind, svc_bind, gets, lift. rewrite Hrow.
  cbn [ok_or]. unfold require_mcp_secrets, lift. rewrite Hsv. cbn [ms_name ms_url ms_auth ms_enabled_tools].
  rewrite Hurl, Hvu, Hva. change (is_empty (trim "_index")) with false. cbn iota.
  rewrite (internal_secrets_run _ _ w _ _ (mcp_get_is (fr_seal run 0) _ _ _ _ None Hnone)). cbn [map_err].
  rewrite with_secrets_id. change (reconcile_entry (default _ None) url auth tools) with entry.
  rewrite (internal_secrets_run _ _ w _ _ Hp). cbn [map_err]. unfold index_add, mbind, svc_bind.
  by rewrite (internal_secrets_run _ _ (with_secrets db1 w) _ _ He).
Qed.

(** ** A concrete edit *)

(** Records and name lists told apart by a tag, as JSON objects and arrays are *)
Definition tagged_mcp : McpCodec := {|
  entry_to_vec e := Ok ("{" +:+ to_text e);
  entry_from_slice s := match s with String "{" s => ok_or "entry" (of_text s) | _ => Err "entry" end;
  names_to_vec l := Ok ("[" +:+ to_text l);
  names_from_slice s := match s with String "[" s => ok_or "names" (of_text s) | _ => Err "names" end
|}.

Lemma tagged_mcp_ok : McpCodecOk tagged_mcp.
Proof.
  split; intros x; eexists; (split; [reflexivity|]);
    cbn [entry_from_slice names_from_slice tagged_mcp String.append]; by rewrite of_to_text.
Qed.

Lemma tagged_apart s e : entry_from_slice (McpCodec := tagged_mcp) s = Ok e ->
  exists m, names_from_slice (McpCodec := tagged_mcp) s = Err m.
Proof.
  cbn. destruct s as [|c s]; [done|]. destruct c as [[] [] [] [] [] [] [] []]; try done. by eexists.
Qed.

Definition url_fleet : FleetEnv := {|
  fe_create _ _ := Ok example_sandbox;
  fe_destroy _ _ := Ok tt;
  fe_push _ _ _ _ := Ok tt;
  fe_restore_file _ _ _ _ := Ok tt;
  fe_snapshot _ _ _ := Ok (mkSnapInfo "s1" "/snap" "10.0.0.2");
  fe_is_idle _ _ _ := Ok (true, 0);
  fe_quiesce _ _ _ := Ok true;
  fe_unquiesce _ _ _ := Ok tt;
  fe_promote _ _ := Ok None;
  fe_pull _ row := Ok (sn_path row);
  fe_sink_delete _ _ := Ok tt;
  fe_disk _ _ := Err "no disk";
  fe_url_parse := example_parse;
  fe_lookup_host _ _ := Ok []
|}.
Definition example_mcp (name : string) : McpServerSpec :=
  mkMcpSpec name "https://8.8.8.8/v1" (AuthBearer "t") None.
Definition mcp_world : FleetWorld := example_world [example_row "i" "a"].

Lemma put_mcp_server_reads_back_witness :
  exists w', put_mcp_server (env := url_fleet) (dir := toy_directory) (codec := toy_codec) (mc := tagged_mcp)
      plain_cipher example_sv example_run "a" "i" (example_mcp "notes") mcp_world = (w', Ok tt) /\
    (list_names (dir := toy_directory) (codec := toy_codec) (mc := tagged_mcp) (mkSealRun 1 "r") "a" "i"
       (fw_secrets w')).2 = Ok ["notes"].
Proof.
  destruct (put_mcp_server_reads_back (env := url_fleet) (dir := toy_directory) (codec := toy_codec)
    (mc := tagged_mcp) (CipherDirectoryOk0 := toy_directory_ok) (EnvelopeCodecOk0 := toy_codec_ok)
    (McpCodecOk0 := tagged_mcp_ok) plain_cipher example_sv example_run (mkSealRun 1 "r") "a" "i"
    (example_mcp "notes") mcp_world (example_row "i" "a") None None) as (w' & e & Hp & _ & _ & Hl & _).
  - reflexivity.
  - reflexivity.
  - intros name. eexists. reflexivity.
  - reflexivity.
  - reflexivity.
  - discriminate.
  - reflexivity.
  - reflexivity.
  - reflexivity.
  - exists w'. split; [exact Hp|exact Hl].
Defined.

Lemma index_named_server_breaks_listing_witness :
  exists w', put_mcp_server (env := url_fleet) (dir := toy_directory) (codec := toy_codec) (mc := tagged_mcp)
      plain_cipher example_sv example_run "a" "i" (example_mcp "_index") mcp_world =
        (w', Err (Internal "mcp list")).
Proof.
  destruct (index_named_server_breaks_listing (env := url_fleet) (dir := toy_directory) (codec := toy_codec)
    (mc := tagged_mcp) (CipherDirectoryOk0 := toy_directory_ok) (EnvelopeCodecOk0 := toy_codec_ok)
    (McpCodecOk0 := tagged_mcp_ok) plain_cipher example_sv example_run "a" "i"
    (example_mcp "_index") mcp_world (example_row "i" "a")) as (w' & Hp & _).
  - exact tagged_apart.
  - reflexivity.
  - reflexivity.
  - intros name. eexists. reflexivity.
  - reflexivity.
  - reflexivity.
  - reflexivity.
  - reflexivity.
  - exists w'. exact Hp.
Defined.
