(* ===== verification/InstanceUpdates.v ===== *)
(** * Editing, cloning and resynchronising instances

    Models the rest of [crates/core/src/instance.rs] that changes state: the
    edits of identity, models and tools, the synchronous probe, the two clones
    and the sweep that pushes the desired configuration to every running
    instance. *)

From Stdlib Require Import ZArith Ascii Lia.
From stdpp Require Import base list strings gmap option.
From S2P Require Import Prelude RustStr RustNet Json Codec Store Envelope NetworkPolicy SandboxEnv Traits.
From S2P Require Import UpstreamPolicy InstanceStore TokenStore Secrets McpRecords StateFiles InstanceService.
From S2P Require Import InstanceLifecycle Snapshots InPlaceSwap SwapSafety McpManagement.

Local Open Scope string_scope.
Local Open Scope list_scope.
Local Open Scope Z_scope.

Section updates.
Context {R : HostResolver} {env : FleetEnv} {dir : CipherDirectory} {codec : EnvelopeCodec}.
Context {mc : McpCodec} {th : TokenHash} (cipher : EnvelopeCipher) (sv : ServiceConfig).

(** The sandbox of the instance and a reconfigurer *)
Definition require_live_sandbox (owner_id id : string) : fleet string :=
  row ← require_row owner_id id;
  sandbox_id ← lift (ok_or (PolicyDenied "instance has no live sandbox to reconfigure") (live_sandbox row));
  _ ← lift (if sv_reconfigurer sv then Ok tt else Err (PolicyDenied "dyson reconfigurer not configured"));
  mret sandbox_id.

(** ** Identity *)

Definition identity_body (id name task : string) : ReconfigureBody :=
  let '(task, identity_doc) := reconfigure_task_fields (non_empty task) in
  mkBody (non_empty name) task identity_doc [] (Some id) None None None None None None false None None None None
    None None None.

(** [rename] *)
Definition rename (owner_id id name task : string) : fleet InstanceRow :=
  _ ← on_instances (update_identity owner_id id name task);
  row ← require_row owner_id id;
  _ ← match live_sandbox row with
      | Some sb =>
          if sv_reconfigurer sv
          then with_err (fun err => Internal ("identity configure-push failed: " +:+ err))
                 (push_with_retry id sb (identity_body id name task))
          else mret tt
      | None => mret tt
      end;
  mret row.

(** [mirror_identity_from_instance] *)
Definition mirror_identity_from_instance (owner_id id name task : string) : fleet InstanceRow :=
  _ ← on_instances (update_identity owner_id id name task);
  require_row owner_id id.

(** ** Models and tools *)

Definition models_body (id : string) (models : list string) : ReconfigureBody :=
  mkBody None None None models (Some id) None None None None None None false None None None None None None None.
Definition tools_body (id : string) (tools : list string) : ReconfigureBody :=
  mkBody None None None [] (Some id) None None None None None None (bool_decide (tools = []))
    (if bool_decide (tools = []) then None else Some tools) None None None None None None.

(** [update_models]: the agent first, then the row *)
Definition update_models (owner_id id : string) (models : list string) : fleet unit :=
  if bool_decide (models = []) then throw (PolicyDenied "models list must contain at least one entry")
  else
    sandbox_id ← require_live_sandbox owner_id id;
    _ ← with_err PolicyDenied (push_with_retry id sandbox_id (models_body id models));
    on_instances (set_models id models).

(** [record_runtime_model_selection] *)
Definition record_runtime_model_selection (owner_id id model : string) : fleet unit :=
  let selected := trim model in
  if is_empty selected then throw (BadRequest "model must be non-empty")
  else
    row ← require_row owner_id id;
    on_instances (set_models id (models_with_primary (ir_models row) selected)).

(** [update_tools] *)
Definition update_tools (owner_id id : string) (tools : list string) : fleet unit :=
  sandbox_id ← require_live_sandbox owner_id id;
  _ ← with_err PolicyDenied (push_with_retry id sandbox_id (tools_body id tools));
  on_instances (set_tools id tools).

(** [probe]; [result] is the prober's answer *)
Definition probe (run : FleetRun) (result : InstanceRow -> ProbeResult) (owner_id id : string) :
  fleet ProbeResult :=
  row ← require_row owner_id id;
  _ ← on_instances (record_probe id (result row) (fr_stamp run));
  mret (result row).

(** ** Clones *)

Definition clone_name (name_override : option string) (source : InstanceRow) : option string :=
  non_empty (default (ir_name source) name_override).

(** Copy the MCP records and push them, as far as it goes *)
Definition carry_mcp (run : FleetRun) (owner_id source_id clone_id : string) : fleet unit :=
  if negb (sv_mcp_secrets sv) then mret tt
  else
    copied ← attempt (on_secrets (copy_all (fun k => fr_seal run (10 + k)) owner_id source_id clone_id));
    match copied with
    | Ok (S _) => best_effort (sync_mcp_to_dyson cipher sv run owner_id clone_id)
    | _ => mret tt
    end.

(** [clone_empty] *)
Definition clone_env (source : InstanceRow) : env_map :=
  let e : env_map := match ir_models source with m0 :: _ => {[ENV_MODEL := m0]} | [] => ∅ end in
  let e := if bool_decide (ir_models source = []) then e else <[ENV_MODELS := join "," (ir_models source)]> e in
  if bool_decide (ir_tools source = []) then e else <[ENV_TOOLS := join "," (ir_tools source)]> e.
Definition clone_empty (run : FleetRun) (owner_id source_id new_template_id : string)
    (name_override : option string) : fleet CreatedInstance :=
  _ ← lift (if is_empty (trim new_template_id) then Err (BadRequest "template_id is required") else Ok tt);
  source ← require_row owner_id source_id;
  _ ← lift (if bool_decide (ir_status source = Destroyed)
            then Err (BadRequest "cannot clone a destroyed instance") else Ok tt);
  created ← create cipher sv run owner_id
    (mkCreate new_template_id (clone_name name_override source) (non_empty (ir_task source)) (clone_env source)
       None (ir_network_policy source) []);
  _ ← carry_mcp run owner_id (ir_id source) (ci_id created);
  mret created.

(** [clone_instance] *)
Definition clone_instance (run : FleetRun) (owner_id source_id new_template_id : string)
    (name_override : option string) : fleet CreatedInstance :=
  _ ← lift (if is_empty (trim new_template_id) then Err (BadRequest "template_id is required") else Ok tt);
  source ← require_row owner_id source_id;
  _ ← lift (if bool_decide (ir_status source = Destroyed)
            then Err (BadRequest "cannot clone a destroyed instance") else Ok tt);
  _ ← lift (ok_or (BadRequest "instance has no live cube sandbox; clone requires a Live row") (live_sandbox source));
  snap ← snapshot run SYSTEM_OWNER (ir_id source);
  created ← restore cipher sv run owner_id
    (mkRestore new_template_id (sn_path snap) (Some (ir_id source)) (clone_name name_override source)
       (non_empty (ir_task source)) ∅ None (ir_network_policy source) (ir_models source) (ir_tools source));
  _ ← carry_mcp run owner_id (ir_id source) (ci_id created);
  mret created.

(** ** The resynchronisation sweep *)

(** The push to one row *)
Definition sync_row (run : FleetRun) (row : InstanceRow) (tokens : RuntimeTokens) (sandbox_id : string) : fleet unit :=
  replay ← (if bool_decide (ir_status row = Configuring) && sv_state_files sv
            then has_durable_mirrored_state_files run (ir_id row) else mret false);
  if (replay : bool)
  then replay_state_files_and_configure sv run (ir_owner_id row) row tokens sandbox_id true true "runtime-config-sync"
  else
    body ← configure_body_for_existing_row sv (fr_seal run 5) (ir_owner_id row) row (rt_proxy tokens)
             (rt_ingest tokens) (rt_state_sync tokens);
    body ← (if sv_state_files sv
            then clear_identity_fields_when_mirror_is_authoritative run 6 body (ir_owner_id row) (ir_id row)
            else mret body);
    with_err Internal (push_with_retry (ir_id row) sandbox_id body).

(** One round: whether the row counts as succeeded *)
Definition sync_one (run : FleetRun) (row : InstanceRow) : fleet bool :=
  let degrade : fleet bool :=
    _ ← best_effort (on_instances (record_probe (ir_id row) (Degraded "runtime-config") (fr_stamp run)));
    mret false in
  match ir_cube_sandbox_id row with
  | None => mret false
  | Some sandbox_id =>
      tokens ← attempt (runtime_tokens_for_instance cipher run (ir_id row) (ir_state_generation row));
      match tokens with
      | Err _ => degrade
      | Ok tokens =>
          pushed ← attempt (sync_row run row tokens sandbox_id);
          match pushed with
          | Ok _ =>
              _ ← (if bool_decide (ir_status row = Configuring)
                   then _ ← on_instances (update_status (ir_id row) Live (fr_stamp run));
                        refresh_egress_policy_best_effort
                   else mret tt);
              mret true
          | Err _ =>
              if bool_decide (ir_status row = Configuring) then
                _ ← best_effort (on_tokens (revoke_for_instance (fr_token run 3) (ir_id row)));
                _ ← best_effort (destroy_sandbox sandbox_id);
                _ ← on_instances (update_status (ir_id row) Destroyed (fr_stamp run));
                mret false
              else degrade
          end
      end
  end.

Fixpoint sync_rows (runs : nat -> FleetRun) (rows : list InstanceRow) (succeeded : Z) : fleet Z :=
  match rows with
  | [] => mret succeeded
  | row :: rows =>
      ok ← sync_one (runs 0%nat) row;
      sync_rows (fun k => runs (S k)) rows (if (ok : bool) then succeeded + 1 else succeeded)
  end.

(** [sync_runtime_config_all] *)
Definition sync_runtime_config_all (runs : nat -> FleetRun) : fleet (Z * Z) :=
  if negb (sv_reconfigurer sv) then mret (0, 0)
  else
    live ← gets (fun w => instance_list SYSTEM_OWNER (mkListFilter (Some Live) false) (fw_instances w));
    configuring ← gets (fun w => instance_list SYSTEM_OWNER (mkListFilter (Some Configuring) false) (fw_instances w));
    let rows := live ++ configuring in
    succeeded ← sync_rows runs rows 0;
    mret (Z.of_nat (length rows), succeeded).
End updates.

(** ** The sweep spares what is live *)

Section sweep.
Context {R : HostResolver} {env : FleetEnv} {dir : CipherDirectory} {codec : EnvelopeCodec}.
Context {mc : McpCodec} {th : TokenHash} (cipher : EnvelopeCipher) (sv : ServiceConfig).

(** Rows other than the half-configured [rows] keep their status and sandbox,
    and only sandboxes of [rows] are destroyed. *)
Definition spares_others (rows : list InstanceRow) (w w' : FleetWorld) : Prop :=
  (forall r, r ∈ fw_instances w -> ir_id r ∉ map ir_id rows ->
     exists r', r' ∈ fw_instances w' /\ ir_id r' = ir_id r /\ ir_status r' = ir_status r /\
       ir_cube_sandbox_id r' = ir_cube_sandbox_id r) /\
  exists l, fw_log w' = fw_log w ++ l /\
    forall sb t, (CubeDestroy sb, t) ∈ l -> exists r, r ∈ rows /\ ir_cube_sandbox_id r = Some sb.

#[local] Instance spares_others_preorder rows : PreOrder (spares_others rows).
Proof.
  split.
  - intros w. split; [by eauto|]. exists []. rewrite app_nil_r. split; [done|]. set_solver.
  - intros w1 w2 w3 (H1 & l & Hl & Hd) (H2 & l' & Hl' & Hd'). split.
    + intros r Hr Hn. destruct (H1 r Hr Hn) as (s & Hs & Hi & Hst & Hc).
      destruct (H2 s Hs) as (u & Hu & Hi' & Hst' & Hc'); [by rewrite Hi|]. exists u. by split_and!; [|congruence..].
    + exists (l ++ l'). rewrite Hl', Hl, app_assoc. split; [done|]. intros sb t [H|H]%elem_of_app; eauto.
Qed.

Lemma steady_spares {E A} rows (m : svc FleetWorld E A) :
  framed (steady no_destroy) m -> framed (spares_others rows) m.
Proof.
  intros Hm w. destruct (Hm w) as (Hi & l & Hl & Hp). split.
  - intros r Hr _. exists r. by rewrite Hi.
  - exists l. split; [done|]. intros sb t Hin%list_elem_of_In. rewrite Forall_forall in Hp.
    destruct (Hp _ Hin) as [[] _].
Qed.

Lemma tokens_spare {A} rows (m : svc TokenWorld StoreError A) :
  (forall t, tw_instances (m t).1 = tw_instances t) -> framed (spares_others rows) (on_tokens m).
Proof. intros H. by apply steady_spares, steady_tokens. Qed.

Lemma update_spares rows p f :
  (forall r, p r = true -> ir_id r ∉ map ir_id rows -> ir_id (f r) = ir_id r /\ ir_status (f r) = ir_status r /\
     ir_cube_sandbox_id (f r) = ir_cube_sandbox_id r) ->
  framed (spares_others rows) (on_instances (update_found p f)).
Proof.
  intros Hf w. unfold on_instances, update_found. split.
  2: { exists []. rewrite app_nil_r. split; [by destruct (Nat.eqb _ _)|set_solver]. }
  intros r Hr Hn. destruct (Nat.eqb _ _); [by exists r|]. exists (if p r then f r else r). cbn.
  split; [apply elem_of_update; eauto|]. destruct (p r) eqn:E; [|done]. by apply Hf.
Qed.

Lemma sync_one_spares rows run row :
  row ∈ rows \/ ir_status row <> Configuring -> framed (spares_others rows) (sync_one cipher sv run row).
Proof.
  intros Hrow. unfold sync_one. cbn zeta.
  assert (framed (spares_others rows) (on_instances (record_probe (ir_id row) (Degraded "runtime-config") (fr_stamp run))))
    as Hprobe by by apply update_spares.
  assert (framed (spares_others rows) (runtime_tokens_for_instance cipher run (ir_id row) (ir_state_generation row)))
    as Htok by by apply steady_spares, steady_runtime_tokens.
  assert (forall tk sb, framed (spares_others rows) (sync_row sv run row tk sb)) as Hsync.
  { intros tk sb. apply steady_spares. unfold sync_row. pose proof steady_clear. pose proof steady_push. framed. }
  destruct (ir_cube_sandbox_id row) as [sb|] eqn:Hsb; [|framed].
  apply framed_bind; [apply _|by framed|]. intros [tk|e]; [|framed].
  apply framed_bind; [apply _|by framed|]. intros [u|e].
  - case_bool_decide as Hc; [|framed]. destruct Hrow as [Hrow|Hrow]; [|done].
    assert (framed (spares_others rows) (on_instances (update_status (ir_id row) Live (fr_stamp run)))).
    { apply update_spares. unfold by_id. intros r Hid Hn. to_prop. exfalso. apply Hn. subst. rewrite Hid.
      by apply list_elem_of_fmap_2. }
    assert (framed (spares_others rows) refresh_egress_policy_best_effort) by by apply steady_spares, steady_remote.
    framed.
  - case_bool_decide as Hc; [|framed]. destruct Hrow as [Hrow|Hrow]; [|done].
    assert (framed (spares_others rows) (on_instances (update_status (ir_id row) Destroyed (fr_stamp run)))).
    { apply update_spares. unfold by_id. intros r Hid Hn. to_prop. exfalso. apply Hn. subst. rewrite Hid.
      by apply list_elem_of_fmap_2. }
    assert (framed (spares_others rows) (destroy_sandbox sb)).
    { intros w. split; [by eauto|]. eexists. split; [reflexivity|]. intros s t [= ->]%list_elem_of_singleton. eauto. }
    assert (framed (spares_others rows) (on_tokens (revoke_for_instance (fr_token run 3) (ir_id row))))
      by by apply tokens_spare.
    framed.
Qed.

Lemma sync_rows_spare rows runs l n :
  (forall row, row ∈ l -> row ∈ rows \/ ir_status row <> Configuring) ->
  framed (spares_others rows) (sync_rows cipher sv runs l n).
Proof.
  revert runs n. induction l as [|row l IH]; intros runs n Hl; cbn [sync_rows]; [framed|].
  apply framed_bind; [apply _|apply sync_one_spares, Hl; left|]. intros ok. apply IH. set_solver.
Qed.
End sweep.

(** *** The sweep stays with its rows *)

(** A call for one of the [rows]: to its agent, or to stop its sandbox *)
Definition call_for (rows : list InstanceRow) (c : FleetCall) : Prop :=
  match c with
  | Push i sb _ | RestoreFile i sb _ => exists r, r ∈ rows /\ ir_id r = i /\ ir_cube_sandbox_id r = Some sb
  | CubeDestroy sb => exists r, r ∈ rows /\ ir_cube_sandbox_id r = Some sb
  | RefreshEgress => True
  | _ => False
  end.

(** Rows and tokens of instances that are not among [rows] are untouched, and
    every call is for one of [rows]. *)
Definition stays_with (rows : list InstanceRow) (w w' : FleetWorld) : Prop :=
  (forall r, ir_id r ∉ map ir_id rows -> r ∈ fw_instances w' <-> r ∈ fw_instances w) /\
  (forall t, tk_instance_id t ∉ map ir_id rows -> t ∈ tw_tokens (fw_tokens w') <-> t ∈ tw_tokens (fw_tokens w)) /\
  exists l, fw_log w' = fw_log w ++ l /\ Forall (fun c => call_for rows c.1) l.

#[local] Instance stays_with_preorder rows : PreOrder (stays_with rows).
Proof.
  split.
  - intros w. split_and!; [done|done|]. exists []. by rewrite app_nil_r.
  - intros a b c (R1 & T1 & l & Hl & Hf) (R2 & T2 & l' & Hl' & Hf'). split_and!.
    + intros r Hr. by rewrite R2, R1.
    + intros t Ht. by rewrite T2, T1.
    + exists (l ++ l'). rewrite Hl', Hl, app_assoc. split; [done|]. by apply Forall_app.
Qed.

Section stays.
Context {dir : CipherDirectory} {codec : EnvelopeCodec} (rows : list InstanceRow).

Lemma stays_still {E A} (m : svc FleetWorld E A) :
  (forall w, fw_tokens (m w).1 = fw_tokens w /\ fw_log (m w).1 = fw_log w) -> framed (stays_with rows) m.
Proof.
  intros H w. destruct (H w) as [Ht Hl]. unfold stays_with, fw_instances. rewrite Ht, Hl.
  split_and!; [done|done|]. exists []. by rewrite app_nil_r.
Qed.
Lemma stays_remote {E A} call (answer : nat -> result E A) :
  call_for rows call -> framed (stays_with rows) (remote call answer).
Proof. intros Hc w. split_and!; [done|done|]. eexists. split; [reflexivity|]. by repeat constructor. Qed.
Lemma stays_secrets {A} (m : svc SecretDb SecretsError A) : framed (stays_with rows) (on_secrets m).
Proof. apply stays_still. intros w. unfold on_secrets. by destruct (m _). Qed.
Lemma stays_read sr row : framed (stays_with rows) (read_body_for_replay sr row).
Proof. apply stays_still. intros w. unfold read_body_for_replay. by destruct (read_body sr row) as [[]|]. Qed.
Lemma stays_tokens {A} (m : svc TokenWorld StoreError A) :
  (forall t, tw_instances (m t).1 = tw_instances t) ->
  (forall t r, tk_instance_id r ∉ map ir_id rows -> r ∈ tw_tokens (m t).1 <-> r ∈ tw_tokens t) ->
  framed (stays_with rows) (on_tokens m).
Proof.
  intros Hi Ht w. specialize (Hi (fw_tokens w)). specialize (Ht (fw_tokens w)). unfold on_tokens.
  destruct (m (fw_tokens w)) as [t x]. unfold stays_with, fw_instances. cbn in *. rewrite Hi.
  split_and!; [done|done|]. exists []. by rewrite app_nil_r.
Qed.
Lemma stays_update p f :
  (forall r, p r = true -> ir_id r ∈ map ir_id rows) -> (forall r, ir_id (f r) = ir_id r) ->
  framed (stays_with rows) (on_instances (update_found p f)).
Proof.
  intros Hp Hf w. unfold on_instances, update_found. destruct (Nat.eqb _ _).
  { split_and!; [done|done|]. exists []. by rewrite app_nil_r. }
  split_and!; [|done|exists []; by rewrite app_nil_r]. intros r Hr. cbn. rewrite elem_of_update. split.
  - intros (s & Hs & ->). destruct (p s) eqn:E; [|done]. exfalso. apply Hr. rewrite Hf. by apply Hp.
  - intros Hin. exists r. destruct (p r) eqn:E; [|done]. by apply Hp in E.
Qed.
End stays.

Section sweep_rows.
Context {R : HostResolver} {env : FleetEnv} {dir : CipherDirectory} {codec : EnvelopeCodec}.
Context {mc : McpCodec} {th : TokenHash} (cipher : EnvelopeCipher) (sv : ServiceConfig).
Context (rows : list InstanceRow).
#[local] Hint Resolve stays_secrets stays_read : framed.

(** Minting and looking up tokens of [id] leaves those of other instances. *)
Lemma mint_other run prefix id p t r :
  tk_instance_id r <> id -> r ∈ tw_tokens (mint_with_prefix cipher (Some dir) run prefix id p t).1 <-> r ∈ tw_tokens t.
Proof.
  intros Hr. destruct (mint_exact cipher (Some dir) run prefix id p t) as [[e ->]|[s ->]]; [done|].
  cbn. rewrite elem_of_app, list_elem_of_singleton. split; [|by left]. intros [?| ->]; [done|]. by cbn in Hr.
Qed.
Lemma rewrap_other sr id p stored o t r :
  tk_instance_id r <> id ->
  r ∈ tw_tokens (rewrap_token_if_needed (Some dir) sr id p stored o t).1 <-> r ∈ tw_tokens t.
Proof.
  intros Hr. unfold rewrap_token_if_needed. destruct (ot_opened o); [|done]. destruct (_ && _); [done|].
  unfold mbind, svc_bind, lift. destruct (map_err _ _); [|done]. unfold set_ciphertext. destruct (_ || _); [done|].
  cbn. rewrite elem_of_update. split.
  - intros (s & Hs & ->). destruct (_ && _) eqn:E; [|done]. to_prop. cbn in Hr. congruence.
  - intros Hin. exists r. by rewrite (proj2 (String.eqb_neq _ _)).
Qed.
Lemma lookup_other run id p t r :
  tk_instance_id r <> id ->
  r ∈ tw_tokens (lookup_by_instance_for_provider cipher (Some dir) run id p t).1 <-> r ∈ tw_tokens t.
Proof.
  intros Hr. unfold lookup_by_instance_for_provider, mbind, svc_bind, gets.
  destruct (head _) as [row|]; [|done]. destruct (open_token _ _ _ _ _ _) as [o|e]; [|done].
  pose proof (rewrap_other (tn_seal run) id p (tk_token row) o t r Hr) as H.
  by destruct (rewrap_token_if_needed _ _ _ _ _ _ _) as [w1 [[]|e]].
Qed.
Lemma revoke_other run id t r :
  tk_instance_id r <> id -> r ∈ tw_tokens (revoke_for_instance run id t).1 <-> r ∈ tw_tokens t.
Proof. intros Hr. by apply (revoked_tokens run id (tw_tokens t)). Qed.

Context (row : InstanceRow) (sb : string) (Hrow : row ∈ rows) (Hsb : ir_cube_sandbox_id row = Some sb).

Lemma row_id_in : ir_id row ∈ map ir_id rows.
Proof. by apply list_elem_of_fmap_2. Qed.
Lemma other_id i : i ∉ map ir_id rows -> i <> ir_id row.
Proof. intros Hi ->. apply Hi, row_id_in. Qed.

Lemma stays_runtime_tokens run g : framed (stays_with rows) (runtime_tokens_for_instance cipher run (ir_id row) g).
Proof.
  unfold runtime_tokens_for_instance, lookup_by_instance, token_mint, mint_ingest, mint_state_sync_for_generation.
  cbn zeta.
  assert (forall r p, framed (stays_with rows) (on_tokens (lookup_by_instance_for_provider cipher (Some dir) r (ir_id row) p)))
    by (intros; apply stays_tokens; [intros; apply lookup_instances|intros; by apply lookup_other, other_id]).
  assert (forall r x p, framed (stays_with rows) (on_tokens (mint_with_prefix cipher (Some dir) r x (ir_id row) p)))
    by (intros; apply stays_tokens; [intros; apply mint_keeps_instances|intros; by apply mint_other, other_id]).
  assert (forall o m, framed (stays_with rows) m -> framed (stays_with rows) (or_mint o m)) by (intros o m Hm; unfold or_mint; framed).
  framed.
Qed.

Lemma stays_push b : framed (stays_with rows) (push_with_retry (ir_id row) sb b).
Proof.
  assert (forall E A ans, framed (stays_with rows) (remote (E := E) (A := A) (Push (ir_id row) sb b) ans))
    by (intros; apply stays_remote; by exists row).
  unfold push_with_retry. generalize 12%nat as n, EmptyString as e.
  induction n as [|n IH]; intros e; cbn [push_attempts]; framed.
Qed.
Lemma stays_restore_file b : framed (stays_with rows) (restore_state_file_with_retry (ir_id row) sb b).
Proof.
  assert (forall E A ans, framed (stays_with rows) (remote (E := E) (A := A) (RestoreFile (ir_id row) sb b) ans))
    by (intros; apply stays_remote; by exists row).
  unfold restore_state_file_with_retry. generalize 12%nat as n, EmptyString as e.
  induction n as [|n IH]; intros e; cbn [restore_attempts]; framed.
Qed.
#[local] Hint Resolve stays_push stays_restore_file : framed.

Lemma stays_sync_row run tk : framed (stays_with rows) (sync_row sv run row tk sb).
Proof.
  assert (forall l, framed (stays_with rows) (any_replayable run l)) as Hany.
  { induction l as [|x l IH]; cbn [any_replayable]; framed. }
  assert (forall sr p i s, framed (stays_with rows) (configure_body_for_existing_row sv sr (ir_owner_id row) row p i s))
    by (intros; unfold configure_body_for_existing_row, mcp_servers_block_for_instance; framed).
  assert (forall k b, framed (stays_with rows)
    (clear_identity_fields_when_mirror_is_authoritative run k b (ir_owner_id row) (ir_id row)))
    by (intros; unfold clear_identity_fields_when_mirror_is_authoritative; framed).
  assert (forall x allow, framed (stays_with rows) (replay_of run x allow)) by (intros; unfold replay_of; cbn zeta; framed).
  assert (forall l n, framed (stays_with rows) (replay_rows run (ir_owner_id row) (ir_id row) sb true l n)) as Hrep.
  { induction l as [|x l IH]; intros n; cbn [replay_rows]; framed. }
  unfold sync_row, has_durable_mirrored_state_files, replay_state_files_and_configure, replay_state_files_to_sandbox,
    configure_existing_sandbox_for_state_replay. framed.
Qed.

Lemma sync_one_stays run : framed (stays_with rows) (sync_one cipher sv run row).
Proof.
  unfold sync_one. cbn zeta. rewrite Hsb. pose proof stays_sync_row. pose proof stays_runtime_tokens.
  assert (forall p, framed (stays_with rows) (on_instances (record_probe (ir_id row) p (fr_stamp run))))
    by (intros p; apply stays_update; [|done]; intros r; unfold by_live_id, by_id; intros [E%String.eqb_eq _]%andb_true_iff;
        rewrite E; apply row_id_in).
  assert (forall st, framed (stays_with rows) (on_instances (update_status (ir_id row) st (fr_stamp run))))
    by (intros st; apply stays_update; [|done]; intros r; unfold by_id; intros E; to_prop; rewrite E; apply row_id_in).
  assert (framed (stays_with rows) (on_tokens (revoke_for_instance (fr_token run 3) (ir_id row))))
    by (apply stays_tokens; [done|intros; by apply revoke_other, other_id]).
  assert (framed (stays_with rows) (destroy_sandbox sb)) by (apply stays_remote; by exists row).
  assert (framed (stays_with rows) refresh_egress_policy_best_effort) by by apply stays_remote.
  framed.
Qed.
End sweep_rows.

Lemma sync_rows_stay {R : HostResolver} {env : FleetEnv} {dir : CipherDirectory} {codec : EnvelopeCodec}
    {mc : McpCodec} {th : TokenHash} cipher sv rows runs l n :
  l ⊆ rows -> framed (stays_with rows) (sync_rows cipher sv runs l n).
Proof.
  revert runs n. induction l as [|row l IH]; intros runs n Hl; cbn [sync_rows]; [framed|].
  apply framed_bind; [apply _| |intros ok; apply IH; set_solver].
  destruct (ir_cube_sandbox_id row) as [sb|] eqn:Hsb.
  - apply (sync_one_stays cipher sv rows row sb); [set_solver|done].
  - unfold sync_one. rewrite Hsb. framed.
Qed.

Lemma list_by_status owner s d t r :
  r ∈ instance_list owner (mkListFilter (Some s) d) t -> r ∈ t /\ ir_status r = s.
Proof.
  unfold instance_list, newest_first. rewrite elem_of_sort, elem_of_select. cbn [lf_status lf_include_destroyed].
  intros [Hr Hp]. split; [done|]. apply andb_prop in Hp as [Hp _]. apply andb_prop in Hp as [_ Hp].
  by apply bool_decide_eq_true_1 in Hp.
Qed.

(** C29. The resynchronisation sweep takes no live instance down and stays with
    the live and configuring rows: whatever the agents answer, a row that was
    live keeps its status and sandbox, and every sandbox destroyed is that of a
    row that was still being configured; a row in any other state (cold, paused,
    destroyed) is exactly as it was, as are the tokens of its instance, and
    every push, file or stop goes to the sandbox of a live or configuring row. *)
Theorem sync_sweep_spares_live {R : HostResolver} {env : FleetEnv} {dir : CipherDirectory}
    {codec : EnvelopeCodec} {mc : McpCodec} {th : TokenHash} (cipher : EnvelopeCipher) (sv : ServiceConfig)
    (runs : nat -> FleetRun) (w : FleetWorld) (Hwf : instances_wf (fw_instances w)) :
  let w' := (sync_runtime_config_all cipher sv runs w).1 in
  let swept r := r ∈ fw_instances w /\ (ir_status r = Live \/ ir_status r = Configuring) in
  (forall r, r ∈ fw_instances w -> ir_status r = Live ->
     exists r', r' ∈ fw_instances w' /\ ir_id r' = ir_id r /\ ir_status r' = Live /\
       ir_cube_sandbox_id r' = ir_cube_sandbox_id r) /\
  (forall r, (forall s, swept s -> ir_id s <> ir_id r) -> r ∈ fw_instances w' <-> r ∈ fw_instances w) /\
  (forall t, (forall s, swept s -> ir_id s <> tk_instance_id t) ->
     t ∈ tw_tokens (fw_tokens w') <-> t ∈ tw_tokens (fw_tokens w)) /\
  exists calls, fw_log w' = fw_log w ++ calls /\
    (forall sb t, (CubeDestroy sb, t) ∈ calls ->
      exists r, r ∈ fw_instances w /\ ir_status r = Configuring /\ ir_cube_sandbox_id r = Some sb) /\
    forall c t, (c, t) ∈ calls -> c = RefreshEgress \/
      exists r sb, swept r /\ ir_cube_sandbox_id r = Some sb /\
        (c = CubeDestroy sb \/ (exists b, c = Push (ir_id r) sb b) \/ exists b, c = RestoreFile (ir_id r) sb b).
Proof.
  cbn zeta. unfold sync_runtime_config_all. destruct (sv_reconfigurer sv); cbn [negb].
  2: { split_and!; [by eauto|done|done|]. exists []. rewrite app_nil_r. split_and!; [done|set_solver|set_solver]. }
  unfold mbind, svc_bind, gets. cbn zeta.
  set (rows := instance_list SYSTEM_OWNER (mkListFilter (Some Configuring) false) (fw_instances w)).
  set (live := instance_list SYSTEM_OWNER (mkListFilter (Some Live) false) (fw_instances w)).
  assert (forall r, r ∈ rows -> r ∈ fw_instances w /\ ir_status r = Configuring) as Hrows.
  { intros r. apply list_by_status. }
  assert (forall r, r ∈ live ++ rows -> r ∈ fw_instances w /\ (ir_status r = Live \/ ir_status r = Configuring)) as Hall.
  { intros r [Hr|Hr]%elem_of_app; [apply list_by_status in Hr as [? ?]|apply Hrows in Hr as [? ?]]; auto. }
  pose proof (sync_rows_stay cipher sv (live ++ rows) runs (live ++ rows) 0 ltac:(done) w) as (Hr1 & Ht1 & l1 & Hl1 & Hc1).
  pose proof (sync_rows_spare cipher sv rows runs (live ++ rows) 0) as Hspare.
  destruct (Hspare) with (w := w) as (Hkeep & l & Hl & Hd).
  { intros row [Hr|Hr]%elem_of_app; [right|by left]. apply list_by_status in Hr as [_ ->]. done. }
  destruct (sync_rows _ _ _ _ _ w) as [w' r0] eqn:E. cbn [fst] in Hkeep, Hl, Hr1, Ht1, Hl1.
  match goal with |- context [fw_instances ?x.1] => assert (x.1 = w') as -> by by destruct r0 end.
  rewrite Hl in Hl1. apply app_inv_head in Hl1 as <-. split_and!.
  - intros r Hr Hs. destruct (Hkeep r Hr) as (r' & Hr' & Hi & Hst & Hc).
    + intros (s & Hid & Hs')%list_elem_of_fmap. apply Hrows in Hs' as [Hin Hcf].
      assert (r = s) as -> by by apply (NoDup_map_inj ir_id (fw_instances w)). congruence.
    + exists r'. by split_and!; [|congruence..].
  - intros r Hr. apply Hr1. intros (s & Hid & Hs)%list_elem_of_fmap. by apply (Hr s); [apply Hall|].
  - intros t Ht. apply Ht1. intros (s & Hid & Hs)%list_elem_of_fmap. by apply (Ht s); [apply Hall|].
  - exists l. split_and!; [done| |].
    + intros sb t Hin. destruct (Hd sb t Hin) as (r & Hr & Hc). apply Hrows in Hr as [? ?]. eauto.
    + intros c t Hin%list_elem_of_In. rewrite Forall_forall in Hc1. specialize (Hc1 _ Hin). cbn in Hc1.
      destruct c; try done; [..|by left].
      all: right; first [destruct Hc1 as (r & Hr%Hall & <- & Hs)|destruct Hc1 as (r & Hr%Hall & Hs)];
        eexists r, _; split; [exact Hr|]; split; [exact Hs|]; naive_solver.
Qed.

(** ** A concrete sweep *)

Lemma sync_sweep_spares_live_witness :
  let w := example_world [served_row; example_row "i2" "a"] in
  let w' := (sync_runtime_config_all (env := example_fleet (Ok example_sandbox) (Some "refused")) plain_cipher
    example_sv (fun _ => example_run) w).1 in
  exists r', r' ∈ fw_instances w' /\ ir_id r' = "i" /\ ir_status r' = Live.
Proof.
  intros w w'. destruct (sync_sweep_spares_live (env := example_fleet (Ok example_sandbox) (Some "refused"))
    plain_cipher example_sv (fun _ => example_run) w) as [H _].
  - repeat constructor; set_solver.
  - destruct (H served_row) as (r' & Hr & Hi & Hs & _); [by left|reflexivity|]. exists r'. by split_and!.
Defined.
