(* ===== verification/DockerArgs.v ===== *)
(** * Docker arguments of MCP servers

    Models how the arguments a user gives for a Docker MCP server are checked
    and turned into a command line: the validator and the runtime-flag filter
    of [crates/core/src/mcp_servers.rs], and the launcher of
    [crates/mcp-runtime/src/main.rs], which parses the same arguments with a
    table of its own.  A loop over indices is a recursion on the rest of the
    list; a step by two drops the option's value. *)

From Stdlib Require Import ZArith Ascii Lia.
From stdpp Require Import base list strings gmap option.
From S2P Require Import Prelude RustStr.

Local Open Scope string_scope.
Local Open Scope list_scope.

(** ** The validator *)

(** [option_takes_value]: [arg.split('=').next()] is in the table *)
Definition value_options : list string :=
  ["--add-host"; "--annotation"; "--attach"; "--blkio-weight"; "--cidfile"; "--cpus"; "--cpu-quota";
   "--cpu-shares"; "--dns"; "--dns-option"; "--dns-search"; "--entrypoint"; "--env"; "--env-file"; "--expose";
   "--group-add"; "--hostname"; "--label"; "--label-file"; "--log-driver"; "--log-opt"; "--memory";
   "--memory-reservation"; "--memory-swap"; "--name"; "--net"; "--network"; "--network-alias"; "--platform";
   "--pull"; "--restart"; "--runtime"; "--shm-size"; "--stop-signal"; "--user"; "--workdir"; "-a"; "-e"; "-h";
   "-l"; "-m"; "-u"; "-w"].
Definition option_takes_value (arg : string) : bool :=
  let long := match split_once "=" arg with Some (name, _) => name | None => arg end in
  bool_decide (long ∈ value_options).

(** The step past an option and, if it is a separate argument, its value *)
Definition steps_two (arg : string) : bool := option_takes_value arg && negb (contains_char "=" arg).

(** [docker_run_image] *)
Fixpoint scan_image (args : list string) : option string :=
  match args with
  | [] => None
  | arg :: rest =>
      if (arg =? "--")%string then head rest
      else if negb (starts_with "-" arg) then Some arg
      else if steps_two arg then match rest with [] => None | _ :: rest => scan_image rest end
      else scan_image rest
  end.
Definition docker_run_image (args : list string) : option string :=
  match args with
  | first :: rest => if (first =? "run")%string then scan_image rest else None
  | [] => None
  end.
Definition docker_display_url (args : list string) : string :=
  "docker://" +:+ default "unknown" (docker_run_image args).

(** [docker_flag_value] of an option and the arguments after it *)
Definition docker_flag_value (arg : string) (rest : list string) (flag : string) : option string :=
  match split_once "=" arg with
  | Some (_, value) => Some value
  | None => if (arg =? flag)%string then head rest else None
  end.

Definition forbidden_with_value : list string :=
  ["--volume"; "--mount"; "--device"; "--cap-add"; "--detach"; "--privileged"; "--publish"; "--publish-all";
   "--pid"; "--ipc"; "--uts"; "--userns"; "--cgroupns"; "--cgroup-parent"; "--network"; "--net";
   "--security-opt"; "--env-file"; "--label-file"; "--cidfile"; "--restart"; "--volumes-from";
   "--device-cgroup-rule"; "--memory"; "--memory-reservation"; "--memory-swap"; "--cpus"; "--cpu-quota";
   "--cpu-shares"; "--blkio-weight"; "--pids-limit"; "--ulimit"; "--shm-size"; "--oom-score-adj"].

(** [arg == flag || arg.starts_with("{flag}=")] *)
Definition is_flag (arg flag : string) : bool :=
  (arg =? flag)%string || starts_with (flag +:+ "=") arg.

(** The inner loop over the forbidden flags *)
Fixpoint check_forbidden (flags : list string) (arg : string) (rest : list string) : result string unit :=
  match flags with
  | [] => Ok tt
  | flag :: flags =>
      if is_flag arg flag then
        if ((flag =? "--network")%string || (flag =? "--net")%string)
           && bool_decide (default "" (docker_flag_value arg rest flag) ∈ ["none"; "bridge"])
        then Ok tt
        else Err ("Docker flag `" +:+ flag +:+ "` is not allowed")
      else check_forbidden flags arg rest
  end.

(** What one option may look like; [rest] are the arguments after it *)
Definition check_option (arg : string) (rest : list string) : result string unit :=
  if (arg =? "--detach")%string || (arg =? "-d")%string then Err "detached Docker MCP servers are not supported"
  else if starts_with "--rm=" arg && negb (arg =? "--rm=true")%string
  then Err "Docker flag `--rm=false` is not allowed"
  else if (arg =? "--privileged")%string then Err "privileged containers are not allowed"
  else if (arg =? "--runtime")%string || starts_with "--runtime=" arg
  then Err "Docker flag `--runtime` is not allowed"
  else if starts_with "-v" arg || starts_with "-p" arg || starts_with "-P" arg || starts_with "-m" arg
  then Err ("Docker flag `" +:+ arg +:+ "` is not allowed")
  else if negb (starts_with "--" arg) && starts_with "-" arg
          && match arg with String _ tail => contains_char "d" tail | EmptyString => false end
  then Err "detached Docker MCP servers are not supported"
  else check_forbidden forbidden_with_value arg rest.

(** The loop of [validate_docker_stdio_args]: whether an image was seen *)
Fixpoint validate_loop (args : list string) : result string bool :=
  match args with
  | [] => Ok false
  | arg :: rest =>
      if contains_str "/var/run/docker.sock" arg || contains_str "docker.sock" arg
      then Err "Docker socket mounts are not allowed"
      else if (arg =? "--")%string then Ok (bool_decide (head rest <> None))
      else if negb (starts_with "-" arg) then Ok true
      else
        match check_option arg rest with
        | Err e => Err e
        | Ok _ => if steps_two arg then match rest with [] => Ok false | _ :: rest => validate_loop rest end
                  else validate_loop rest
        end
  end.

Definition must_start_with_run : string :=
  let quote := String "034" EmptyString in
  "stdio Docker MCP config must start with `args: [" +:+ quote +:+ "run" +:+ quote +:+ ", ...]`".

(** [validate_docker_stdio_args] *)
Definition validate_docker_stdio_args (args : list string) : result string unit :=
  match args with
  | first :: rest =>
      if negb (first =? "run")%string
      then Err must_start_with_run
      else if bool_decide (rest = []) then Err "docker run config must include an image"
      else
        image_seen ← validate_loop rest;
        if (image_seen : bool) then Ok tt else Err "docker run config must include an image"
  | [] => Err must_start_with_run
  end.

(** [strip_docker_runtime_args] *)
Fixpoint strip_loop (args : list string) : list string :=
  match args with
  | [] => []
  | arg :: rest =>
      if (arg =? "--")%string || negb (starts_with "-" arg) then arg :: rest
      else if (arg =? "--runtime")%string then match rest with [] => [] | _ :: rest => strip_loop rest end
      else if starts_with "--runtime=" arg then strip_loop rest
      else if steps_two arg then
        match rest with
        | [] => [arg]
        | value :: rest => arg :: value :: strip_loop rest
        end
      else arg :: strip_loop rest
  end.
Definition strip_docker_runtime_args (args : list string) : list string :=
  match args with [] => [] | first :: rest => first :: strip_loop rest end.

(** ** The launcher *)

(** [validate_docker_runtime] *)
Definition validate_docker_runtime (runtime : string) : result string unit :=
  if (runtime =? "runsc")%string then Ok tt else Err ("unsupported Docker MCP runtime `" +:+ runtime +:+ "`").

(** [is_env_name] *)
Definition is_env_name (name : string) : bool :=
  match name with
  | EmptyString => false
  | String first rest =>
      (Ascii.eqb first "_" || is_ascii_alphabetic first)
      && all_bytes (fun c => Ascii.eqb c "_" || is_ascii_alphanumeric c) rest
  end.

Abbreviation secret_map := (gmap string string).

(** [capture_secret_env_arg] *)
Definition capture_secret_env_arg (arg : string) (secrets : secret_map) : secret_map * option string :=
  match split_once "=" arg with
  | None => (secrets, if is_env_name arg then Some arg else None)
  | Some (name, value) =>
      if is_env_name name then (<[name := value]> secrets, Some name) else (secrets, None)
  end.

(** Whether an environment argument stays on the command line *)
Definition keep_env_arg (value : string) (secrets : secret_map) : secret_map * bool :=
  let '(secrets, name) := capture_secret_env_arg value secrets in
  (secrets, match name with Some n => bool_decide (secrets !! n = None) | None => true end).

(** [sanitized_docker_user_args] after the first argument *)
Fixpoint sanitize (args : list string) (secrets : secret_map) : list string * secret_map :=
  match args with
  | [] => ([], secrets)
  | arg :: rest =>
      if (arg =? "--network")%string || (arg =? "--net")%string then
        match rest with [] => ([], secrets) | _ :: rest => sanitize rest secrets end
      else if starts_with "--network=" arg || starts_with "--net=" arg then sanitize rest secrets
      else if (arg =? "-e")%string || (arg =? "--env")%string then
        match rest with
        | [] => ([], secrets)
        | value :: rest =>
            let '(secrets, keep) := keep_env_arg value secrets in
            let '(out, secrets) := sanitize rest secrets in
            (if keep : bool then arg :: value :: out else out, secrets)
        end
      else match strip_prefix "--env=" arg with
           | Some value =>
               let '(secrets, keep) := keep_env_arg value secrets in
               let '(out, secrets) := sanitize rest secrets in
               (if keep : bool then ("--env=" +:+ value) :: out else out, secrets)
           | None =>
               match strip_prefix "-e" arg with
               | Some (String c value) =>
                   let '(secrets, keep) := keep_env_arg (String c value) secrets in
                   let '(out, secrets) := sanitize rest secrets in
                   (if keep : bool then ("-e" +:+ String c value) :: out else out, secrets)
               | _ => let '(out, secrets) := sanitize rest secrets in (arg :: out, secrets)
               end
           end
  end.
Definition sanitized_docker_user_args (user_args : list string) (secrets : secret_map) :
  list string * secret_map := sanitize (tail user_args) secrets.

(** [docker_run_option_takes_value] *)
Definition run_value_options : list string :=
  ["-a"; "--add-host"; "--annotation"; "--attach"; "--blkio-weight"; "-c"; "--cap-add"; "--cap-drop";
   "--cgroup-parent"; "--cidfile"; "--cpu-period"; "--cpu-quota"; "--cpu-rt-period"; "--cpu-rt-runtime";
   "--cpu-shares"; "--cpus"; "--cpuset-cpus"; "--cpuset-mems"; "--device"; "--device-cgroup-rule";
   "--device-read-bps"; "--device-read-iops"; "--device-write-bps"; "--device-write-iops"; "--dns";
   "--dns-option"; "--dns-search"; "--domainname"; "-e"; "--env"; "--env-file"; "--expose"; "--group-add";
   "--health-cmd"; "--health-interval"; "--health-retries"; "--health-start-interval"; "--health-start-period";
   "--health-timeout"; "-h"; "--hostname"; "--ip"; "--ip6"; "--isolation"; "-l"; "--label"; "--link";
   "--link-local-ip"; "--log-driver"; "--log-opt"; "-m"; "--memory"; "--memory-reservation"; "--memory-swap";
   "--memory-swappiness"; "--mount"; "--name"; "--network"; "--network-alias"; "--oom-score-adj"; "-p"; "--pid";
   "--pids-limit"; "--platform"; "--publish"; "--pull"; "--restart"; "--runtime"; "--security-opt"; "--shm-size";
   "--stop-signal"; "--stop-timeout"; "--storage-opt"; "--sysctl"; "--tmpfs"; "--ulimit"; "-u"; "--user";
   "--userns"; "-v"; "--volume"; "--volumes-from"; "-w"; "--workdir"].
Definition docker_run_option_takes_value (arg : string) : bool := bool_decide (arg ∈ run_value_options).

(** [DockerUserArgs] *)
Record DockerUserArgs : Type := mkUserArgs {
  ua_options : list string;
  ua_entrypoint : option string;
  ua_image : string;
  ua_command : list string
}.

(** [split_docker_user_args]; [options] and [entrypoint] are read so far *)
Fixpoint split_args (args options : list string) (entrypoint : option string) : result string DockerUserArgs :=
  match args with
  | [] => Err "docker run args must include an image"
  | arg :: rest =>
      if (arg =? "--")%string then
        match rest with
        | [] => Err "docker run args must include an image"
        | image :: command => Ok (mkUserArgs options entrypoint image command)
        end
      else if (arg =? "--entrypoint")%string then
        match rest with
        | [] => Err "docker run --entrypoint requires a value"
        | value :: rest => split_args rest options (Some value)
        end
      else match strip_prefix "--entrypoint=" arg with
           | Some value => split_args rest options (Some value)
           | None =>
               if negb (starts_with "-" arg) then Ok (mkUserArgs options entrypoint arg rest)
               else if docker_run_option_takes_value arg && negb (contains_char "=" arg) then
                 match rest with
                 | [] => split_args rest (options ++ [arg]) entrypoint
                 | value :: rest => split_args rest (options ++ [arg; value]) entrypoint
                 end
               else split_args rest (options ++ [arg]) entrypoint
           end
  end.
Definition split_docker_user_args (args : list string) : result string DockerUserArgs := split_args args [] None.

(** The head of every command line [docker_run_launch] builds *)
Definition launch_prefix (runtime instance_id server_name : string) : list string :=
  ["run"; "--rm"; "-i"; "--runtime"; runtime; "--cap-drop=ALL"; "--security-opt"; "no-new-privileges";
   "--network"; "bridge"; "--memory=512m"; "--cpus=1"; "--pids-limit=256";
   "--label"; "dyson.mcp.instance=" +:+ instance_id; "--label"; "dyson.mcp.server=" +:+ server_name].

Section launch.
(** The directory made for the secrets, what writing into it answers, and the
    image's own entry point and command as [docker image inspect] reports them *)
Variables (secret_dir : string) (write_files : result string unit)
  (image_defaults : string -> result string (option (list string * list string))).

Definition CONTAINER_SECRET_DIR : string := "/run/secrets".
Definition SECRET_ENTRYPOINT_CONTAINER_PATH : string := "/run/dyson-mcp-runtime-secret-entrypoint".
Definition SECRET_ENTRYPOINT_SHELL : string := "/bin/sh".

(** [wrapped_image_command] *)
Definition wrapped_image_command (image : string) (entrypoint_override : option string) (command : list string) :
  result string (list string) :=
  defaults ← (if bool_decide (entrypoint_override = None) || bool_decide (command = [])
              then image_defaults image else Ok None);
  let '(entrypoint, cmd) := default ([], []) defaults in
  let or_cmd := if bool_decide (command = []) then cmd else command in
  let out := match entrypoint_override with
             | Some e => e :: or_cmd
             | None => if bool_decide (entrypoint = []) then or_cmd else entrypoint ++ or_cmd
             end in
  if bool_decide (out = []) then
    Err ("docker secret wrapper could not determine startup command for image `" +:+ image +:+ "`") else Ok out.

(** The options that mount one secret *)
Definition secret_options (name : string) : list string :=
  let container_path := CONTAINER_SECRET_DIR +:+ "/" +:+ name in
  ["--mount"; "type=bind,src=" +:+ secret_dir +:+ "/" +:+ name +:+ ",dst=" +:+ container_path +:+ ",readonly";
   "--env"; name +:+ "_FILE=" +:+ container_path].

(** [inject_secret_wrapper]; [secrets.keys()] in byte order *)
Definition inject_secret_wrapper (user_args : list string) (secrets : secret_map) : result string (list string) :=
  parts ← split_docker_user_args user_args;
  _ ← write_files;
  wrapped ← wrapped_image_command (ua_image parts) (ua_entrypoint parts) (ua_command parts);
  Ok (ua_options parts
      ++ ["--mount"; "type=bind,src=" +:+ secret_dir +:+ "/entrypoint.sh,dst="
                     +:+ SECRET_ENTRYPOINT_CONTAINER_PATH +:+ ",readonly"]
      ++ mjoin (map secret_options (sort_strs (map_to_list secrets).*1))
      ++ ["--entrypoint"; SECRET_ENTRYPOINT_SHELL; ua_image parts; SECRET_ENTRYPOINT_CONTAINER_PATH] ++ wrapped).

(** [docker_run_launch]: the command line and the secrets written to files *)
Definition docker_run_launch (user_args : list string) (env : secret_map) (instance_id server_name runtime : string) :
  result string (list string * secret_map) :=
  _ ← validate_docker_runtime runtime;
  let secrets := filter (fun kv => is_env_name kv.1 = true) env in
  let '(user_args, secrets) := sanitized_docker_user_args (strip_docker_runtime_args user_args) secrets in
  user_args ← (if bool_decide (secrets = ∅) then Ok user_args
               else _ ← write_files; inject_secret_wrapper user_args secrets);
  Ok (launch_prefix runtime instance_id server_name ++ user_args, secrets).
End launch.

(** ** What the two parsers agree on *)

Lemma prefix_not_dash v : starts_with "-" v = false -> (v =? "--")%string = false.
Proof. intros H. destruct (v =? "--")%string eqn:E; [|done]. apply String.eqb_eq in E as ->. done. Qed.

(** Options that Docker reads with a value and the validator without *)
Definition unlisted_value_option (o : string) : bool :=
  docker_run_option_takes_value o && starts_with "-" o && negb (contains_char "=" o)
  && negb (contains_str "docker.sock" o) && negb (contains_str "/var/run/docker.sock" o)
  && negb (steps_two o) && is_ok (check_option o []) && negb (o =? "--entrypoint")%string.

Example unlisted_link : filter (fun o => unlisted_value_option o = true) run_value_options =
  ["-c"; "--cap-drop"; "--cpu-period"; "--cpu-rt-period"; "--cpu-rt-runtime"; "--cpuset-cpus"; "--cpuset-mems";
   "--device-read-bps"; "--device-read-iops"; "--device-write-bps"; "--device-write-iops"; "--domainname";
   "--health-cmd"; "--health-interval"; "--health-retries"; "--health-start-interval"; "--health-start-period";
   "--health-timeout"; "--ip"; "--ip6"; "--isolation"; "--link"; "--link-local-ip"; "--memory-swappiness";
   "--stop-timeout"; "--storage-opt"; "--sysctl"; "--tmpfs"].
Proof. vm_compute. reflexivity. Qed.

Lemma check_forbidden_rest flags o rest :
  contains_char "=" o = false -> check_forbidden flags o [] = Ok tt -> check_forbidden flags o rest = Ok tt.
Proof.
  intros Heq. induction flags as [|f flags IH]; [done|]. cbn [check_forbidden].
  destruct (is_flag o f) eqn:Ef; [|done].
  assert (split_once "=" o = None) as Hs.
  { clear -Heq. induction o as [|c o IH]; [done|]. cbn [split_once contains_char] in *.
    apply orb_false_iff in Heq as [Hc Ho]. rewrite Ascii.eqb_sym, Hc, (IH Ho). done. }
  unfold docker_flag_value. rewrite Hs. assert (bool_decide (default "" (if (o =? f)%string then head (@nil string) else None)
    ∈ ["none"; "bridge"]) = false) as -> by by destruct (o =? f)%string.
  by rewrite andb_false_r.
Qed.

Lemma strip_prefix_eq p o : contains_char "=" o = false -> contains_char "=" p = true -> strip_prefix p o = None.
Proof.
  revert o. induction p as [|c p IH]; intros [|d o] Ho Hp; try done. cbn [strip_prefix contains_char] in *.
  apply orb_false_iff in Ho as [Hd Ho]. destruct (Ascii.eqb c d) eqn:E; [|done].
  apply Ascii.eqb_eq in E as ->. rewrite Hd in Hp. by apply IH.
Qed.

Lemma strip_loop_validated args b : validate_loop args = Ok b -> strip_loop args = args.
Proof.
  induction args as [args IH] using (induction_ltof1 _ (@length string)). unfold ltof in IH.
  destruct args as [|arg rest]; [done|]. cbn [validate_loop strip_loop].
  destruct (_ || _); [done|]. destruct (arg =? "--")%string; [done|].
  destruct (starts_with "-" arg); cbn [negb orb]; [|done].
  destruct (check_option arg rest) as [[]|] eqn:Hc; [|done].
  assert ((arg =? "--runtime")%string = false /\ starts_with "--runtime=" arg = false) as [-> ->].
  { clear -Hc. unfold check_option in Hc. do 3 (destruct (_ : bool); [done|]).
    by destruct (arg =? "--runtime")%string, (starts_with "--runtime=" arg). }
  destruct (steps_two arg); [destruct rest as [|v rest]; [done|]|];
    intros H; rewrite (IH rest) by (cbn; lia || done); done.
Qed.

(** An argument that is no option stays. *)
Lemma sanitize_plain arg rest secrets :
  starts_with "-" arg = false ->
  sanitize (arg :: rest) secrets = (arg :: (sanitize rest secrets).1, (sanitize rest secrets).2).
Proof.
  intros Hd. cbn [sanitize].
  assert (forall p, arg = String "-" p -> False) as Hne.
  { intros p ->. assert (starts_with "-" (String "-" p) = true) by (apply starts_with_app; by exists p). congruence. }
  assert (forall f, starts_with "-" f = true -> (arg =? f)%string = false) as Heq.
  { intros f Hf. destruct (arg =? f)%string eqn:E; [|done]. apply String.eqb_eq in E as ->. congruence. }
  assert (forall p, strip_prefix (String "-" p) arg = None) as Hsp.
  { intros p. destruct arg as [|c arg]; [done|]. cbn [strip_prefix]. destruct (Ascii.eqb "-" c) eqn:E; [|done].
    apply Ascii.eqb_eq in E as <-. by destruct (Hne arg). }
  assert (forall p, starts_with (String "-" p) arg = false) as Hsw.
  { intros p. apply not_true_is_false. intros [t Ht]%starts_with_app. by apply (Hne (p +:+ t)). }
  rewrite !Heq, !Hsw, !Hsp by done. by destruct (sanitize rest secrets).
Qed.

(** Nor does the launcher drop the unlisted options. *)
Lemma sanitize_unlisted o rest secrets :
  unlisted_value_option o = true ->
  sanitize (o :: rest) secrets = (o :: (sanitize rest secrets).1, (sanitize rest secrets).2).
Proof.
  intros Ho.
  assert (o ∈ filter (fun o => unlisted_value_option o = true) run_value_options) as Hin.
  { apply list_elem_of_filter. split; [done|]. unfold unlisted_value_option, docker_run_option_takes_value in Ho.
    rewrite !andb_true_iff, bool_decide_eq_true in Ho. tauto. }
  rewrite unlisted_link in Hin. clear Ho. cbn [sanitize]. destruct (sanitize rest secrets) as [out secrets'].
  repeat (apply elem_of_cons in Hin as [->|Hin]; [reflexivity|]). by apply not_elem_of_nil in Hin.
Qed.

Section misses.
Context (o v image : string).
Hypothesis (Ho : unlisted_value_option o = true) (Hv : starts_with "-" v = false).
Hypothesis (Hsock : contains_str "docker.sock" v = false) (Hsock' : contains_str "/var/run/docker.sock" v = false).
Hypothesis (Himage : starts_with "-" image = false).

Definition mount_args (command : list string) : list string := o :: v :: "-v" :: "/:/host" :: image :: command.

Lemma mount_accepted command : validate_docker_stdio_args ("run" :: mount_args command) = Ok tt.
Proof.
  unfold unlisted_value_option in Ho. repeat rewrite andb_true_iff in Ho. rewrite ?negb_true_iff in Ho.
  destruct Ho as (((((((Hval & Hdash) & Heq) & Hs1) & Hs2) & Htwo) & Hck) & Hent).
  assert ((o =? "--")%string = false) as Hdd.
  { destruct (o =? "--")%string eqn:E; [|done]. apply String.eqb_eq in E as ->. done. }
  assert (check_option o (v :: "-v" :: "/:/host" :: image :: command) = Ok tt) as Hc.
  { destruct (check_option o []) as [[]|] eqn:E; [|done]. clear Hck. unfold check_option in *.
    repeat match goal with |- context [if ?b then _ else _] => destruct b; [done|] end.
    by apply check_forbidden_rest. }
  unfold validate_docker_stdio_args, mount_args. change ("run" =? "run")%string with true. cbn [negb].
  cbn [bool_decide decide_rel]. rewrite bool_decide_eq_false_2 by done.
  cbn [validate_loop]. rewrite Hs1, Hs2, Hdd, Hdash, Hc, Htwo, Hsock, Hsock', (prefix_not_dash v Hv), Hv. done.
Qed.

Lemma mount_split command :
  split_docker_user_args (mount_args command) = Ok (mkUserArgs [o; v; "-v"; "/:/host"] None image command).
Proof.
  unfold unlisted_value_option in Ho. repeat rewrite andb_true_iff in Ho. rewrite ?negb_true_iff in Ho.
  destruct Ho as (((((((Hval & Hdash) & Heq) & Hs1) & Hs2) & Htwo) & Hck) & Hent).
  assert ((o =? "--")%string = false) as Hdd.
  { destruct (o =? "--")%string eqn:E; [|done]. apply String.eqb_eq in E as ->. done. }
  unfold split_docker_user_args, mount_args. cbn [split_args].
  rewrite Hdd, Hent, (strip_prefix_eq "--entrypoint=" o Heq eq_refl).
  rewrite Hdash, Hval, Heq. cbn [negb andb app]. change ("-v" =? "--")%string with false.
  change ("-v" =? "--entrypoint")%string with false. change (strip_prefix "--entrypoint=" "-v") with (@None string).
  cbn iota.
  change (starts_with "-" "-v") with true. rewrite (prefix_not_dash image Himage).
  destruct (image =? "--entrypoint")%string eqn:E; [apply String.eqb_eq in E; by subst|].
  assert (strip_prefix "--entrypoint=" image = None) as ->.
  { destruct image as [|c s]; [done|]. cbn [starts_with strip_prefix] in *. by rewrite andb_true_r in Himage; rewrite Himage. }
  rewrite Himage. reflexivity.
Qed.

(** The launcher's filters keep the mount. *)
Lemma mount_sanitized command secrets :
  sanitized_docker_user_args (strip_docker_runtime_args ("run" :: mount_args command)) secrets =
  (mount_args (sanitize command secrets).1, (sanitize command secrets).2).
Proof.
  pose proof (mount_accepted command) as Ha. unfold validate_docker_stdio_args in Ha.
  change ("run" =? "run")%string with true in Ha. cbn [negb] in Ha. case_bool_decide; [done|].
  apply result_bind_ok in Ha as (b & Hl & _). unfold strip_docker_runtime_args, sanitized_docker_user_args. cbn [tail].
  rewrite (strip_loop_validated _ _ Hl). unfold mount_args. rewrite sanitize_unlisted, sanitize_plain by done.
  change (sanitize ("-v" :: "/:/host" :: image :: command) secrets) with
    (let '(out, secrets) := sanitize ("/:/host" :: image :: command) secrets in ("-v" :: out, secrets)).
  by rewrite (sanitize_plain "/:/host"), (sanitize_plain image) by done.
Qed.
End misses.

(** C36. The validator and the launcher read options differently: after any of
    the 28 options that take a value for the launcher but not for the
    validator, the validator takes that value for the image and accepts
    whatever follows.  So the arguments that mount the host's root are accepted
    and, whatever the environment and the secrets, every command line the
    launcher builds from them gives Docker that mount as an option; without
    secrets it builds one. *)
Theorem validator_misses_host_mount (o v image : string) (command : list string)
    (secret_dir : string) (write_files : result string unit)
    (image_defaults : string -> result string (option (list string * list string)))
    (instance_id server_name : string)
    (Ho : unlisted_value_option o = true) (Hv : starts_with "-" v = false)
    (Hsock : contains_str "docker.sock" v = false) (Hsock' : contains_str "/var/run/docker.sock" v = false)
    (Himage : starts_with "-" image = false) :
  let args := "run" :: o :: v :: "-v" :: "/:/host" :: image :: command in
  let launch env := docker_run_launch secret_dir write_files image_defaults args env instance_id server_name "runsc" in
  validate_docker_stdio_args args = Ok tt /\
  (forall env line secrets, launch env = Ok (line, secrets) ->
     exists rest, line = launch_prefix "runsc" instance_id server_name ++ [o; v; "-v"; "/:/host"] ++ rest) /\
  ((sanitize command ∅).2 = ∅ -> exists rest,
     launch ∅ = Ok (launch_prefix "runsc" instance_id server_name ++ [o; v; "-v"; "/:/host"; image] ++ rest, ∅)).
Proof.
  cbn zeta. change (o :: v :: "-v" :: "/:/host" :: image :: command) with (mount_args o v image command).
  split_and!; [by apply mount_accepted| |].
  - intros env line secrets. unfold docker_run_launch. rewrite mount_sanitized by done. cbn [mbind result_bind validate_docker_runtime].
    change (validate_docker_runtime "runsc") with (Ok (E := string) tt). cbn [mbind result_bind].
    intros H. apply result_bind_ok in H as (args & Ha & [= <- <-]). case_bool_decide.
    + injection Ha as <-. by eexists.
    + apply result_bind_ok in Ha as (? & _ & Ha). unfold inject_secret_wrapper in Ha. rewrite mount_split in Ha by done.
      cbn [mbind result_bind] in Ha. apply result_bind_ok in Ha as (? & _ & Ha).
      apply result_bind_ok in Ha as (wrapped & _ & [= <-]). by eexists.
  - intros Hs. unfold docker_run_launch. rewrite mount_sanitized by done.
    change (validate_docker_runtime "runsc") with (Ok (E := string) tt). cbn [mbind result_bind].
    rewrite map_filter_empty, Hs, bool_decide_eq_true_2 by done. cbn [mbind result_bind]. by eexists.
Qed.

Lemma validator_misses_host_mount_witness :
  validate_docker_stdio_args ["run"; "--link"; "db"; "-v"; "/:/host"; "alpine"] = Ok tt /\
  exists rest, docker_run_launch "/tmp/s" (Ok tt) (fun _ => Ok None)
      ["run"; "--link"; "db"; "-v"; "/:/host"; "alpine"] ∅ "i" "db" "runsc" =
    Ok (launch_prefix "runsc" "i" "db" ++ ["--link"; "db"; "-v"; "/:/host"; "alpine"] ++ rest, ∅).
Proof.
  destruct (validator_misses_host_mount "--link" "db" "alpine" [] "/tmp/s" (Ok tt) (fun _ => Ok None) "i" "db")
    as (Hv & _ & Hl).
  1-5: vm_compute; reflexivity.
  split; [exact Hv|]. destruct Hl as [rest Hl]; [reflexivity|]. exists rest. exact Hl.
Defined.

(** What the validator accepts, the runtime filter leaves as it is: the two
    loops step over options alike. *)
Theorem strip_validated_noop (args : list string) (Hok : validate_docker_stdio_args args = Ok tt) :
  strip_docker_runtime_args args = args.
Proof.
  destruct args as [|first rest]; [done|]. cbn [strip_docker_runtime_args]. f_equal.
  unfold validate_docker_stdio_args in Hok. destruct (negb _); [done|]. destruct (bool_decide _); [done|].
  destruct (validate_loop rest) as [b|] eqn:E; [|done]. by eapply strip_loop_validated.
Qed.

Lemma strip_validated_noop_witness :
  strip_docker_runtime_args ["run"; "--rm"; "--name"; "m"; "alpine"; "--runtime"; "x"] =
    ["run"; "--rm"; "--name"; "m"; "alpine"; "--runtime"; "x"].
Proof. apply strip_validated_noop. vm_compute. reflexivity. Defined.

(** The environment and network filter does not stop at the image: it also
    takes arguments of the container's own command away. *)
Example container_command_filtered :
  sanitized_docker_user_args ["run"; "alpine"; "serve"; "--network"; "mainnet"; "-e"; "KEY=v"] ∅ =
    (["alpine"; "serve"], {["KEY" := "v"]}).
Proof. vm_compute. reflexivity. Qed.
