(* ===== verification/WebhookVerify.v ===== *)
(** * Verification of inbound webhooks

    Models the verifier of [crates/core/src/webhooks.rs]: modes, algorithms
    and encodings, the presets of the vendors, payload templates and
    [verify_inbound_request].  HMAC, [hex] and [base64] are the class
    [WebhookLib].  The loop over a template consumes at least four bytes per
    placeholder, so the length of the template is enough fuel
    ([render_fuel]).

    What the vendors document is stated apart from the code:
    [vendor_requests] are the headers they send and [documented_key] the key
    they sign with. *)

From Stdlib Require Import ZArith Ascii Lia.
From stdpp Require Import base list strings gmap option.
From S2P Require Import Prelude RustStr RustHttp Codec.

Local Open Scope string_scope.
Local Open Scope list_scope.
Local Open Scope Z_scope.

(** ** Data *)

(** [WebhookVerifierMode] *)
Inductive WebhookVerifierMode : Type := LegacyHmac | LegacyBearer | ModeNone | HmacV2 | BearerV2.
#[export] Instance mode_eq_dec : EqDecision WebhookVerifierMode.
Proof. solve_decision. Defined.
Definition mode_str (m : WebhookVerifierMode) : string :=
  match m with
  | LegacyHmac => "legacy_hmac"
  | LegacyBearer => "legacy_bearer"
  | ModeNone => "none"
  | HmacV2 => "hmac_v2"
  | BearerV2 => "bearer_v2"
  end.
Definition mode_parse (raw : string) : option WebhookVerifierMode :=
  if (raw =? "legacy_hmac")%string then Some LegacyHmac
  else if (raw =? "legacy_bearer")%string then Some LegacyBearer
  else if (raw =? "none")%string then Some ModeNone
  else if (raw =? "hmac_v2")%string then Some HmacV2
  else if (raw =? "bearer_v2")%string then Some BearerV2
  else None.

(** [SignatureAlgorithm] *)
Inductive SignatureAlgorithm : Type := Sha256 | Sha1 | Sha512.
#[export] Instance algo_eq_dec : EqDecision SignatureAlgorithm.
Proof. solve_decision. Defined.
Definition algo_str (a : SignatureAlgorithm) : string :=
  match a with Sha256 => "sha256" | Sha1 => "sha1" | Sha512 => "sha512" end.
Definition algo_parse (raw : string) : option SignatureAlgorithm :=
  if (raw =? "sha256")%string then Some Sha256
  else if (raw =? "sha1")%string then Some Sha1
  else if (raw =? "sha512")%string then Some Sha512
  else None.

(** [SignatureEncoding] *)
Inductive SignatureEncoding : Type := Hex | Base64.
#[export] Instance encoding_eq_dec : EqDecision SignatureEncoding.
Proof. solve_decision. Defined.
Definition encoding_str (e : SignatureEncoding) : string := match e with Hex => "hex" | Base64 => "base64" end.
Definition encoding_parse (raw : string) : option SignatureEncoding :=
  if (raw =? "hex")%string then Some Hex else if (raw =? "base64")%string then Some Base64 else None.

(** [WebhookVerifierConfig] *)
Record WebhookVerifierConfig : Type := mkVerifier {
  vc_mode : WebhookVerifierMode;
  vc_signature_header : string;
  vc_signature_algo : option SignatureAlgorithm;
  vc_signature_encoding : option SignatureEncoding;
  vc_signature_prefix : option string;
  vc_signature_separator : option string;
  vc_signature_value_split : option string;
  vc_timestamp_header : option string;
  vc_timestamp_skew_secs : option Z;
  vc_payload_template : option string;
  vc_idempotency_header : option string;
  vc_bearer_path_token : option string
}.
#[export] Instance verifier_eq_dec : EqDecision WebhookVerifierConfig.
Proof. solve_decision. Defined.

(** [VerifyOutcome] *)
Record VerifyOutcome : Type := mkOutcome {
  vo_rendered_payload : option string;
  vo_matched_version : option string
}.

(** [VerifyError] *)
Inductive VerifyError : Type :=
| MissingHeader (name : string)
| MissingTimestamp
| TimestampOutOfSkew (now ts skew_secs : Z)
| MissingSignature
| MalformedSignature (reason : string)
| UnknownVersion (version : string) (known : list string)
| AllSignaturesMismatched
| UnknownPlaceholder (name : string)
| VerifyReplayDeduped (key : string).
Definition verify_code (e : VerifyError) : string :=
  match e with
  | MissingHeader _ => "MissingHeader"
  | MissingTimestamp => "MissingTimestamp"
  | TimestampOutOfSkew _ _ _ => "TimestampOutOfSkew"
  | MissingSignature => "MissingSignature"
  | MalformedSignature _ => "MalformedSignature"
  | UnknownVersion _ _ => "UnknownVersion"
  | AllSignaturesMismatched => "AllSignaturesMismatched"
  | UnknownPlaceholder _ => "UnknownPlaceholder"
  | VerifyReplayDeduped _ => "ReplayDeduped"
  end.

(** ** Presets *)

(** [WebhookVerifierPreset] *)
Record WebhookVerifierPreset : Type := mkPreset {
  wp_id : string;
  wp_label : string;
  wp_docs_url : string;
  wp_verifier : WebhookVerifierConfig
}.

(** [hmac_preset] *)
Definition hmac_preset (id label docs_url signature_header : string) (encoding : SignatureEncoding)
    (signature_prefix signature_separator signature_value_split timestamp_header : option string)
    (payload_template : string) (idempotency_header : option string) : WebhookVerifierPreset :=
  mkPreset id label docs_url
    (mkVerifier HmacV2 signature_header (Some Sha256) (Some encoding) signature_prefix signature_separator
       signature_value_split timestamp_header (Some 300) (Some payload_template) idempotency_header None).

(** [svix_preset] *)
Definition svix_preset : WebhookVerifierPreset :=
  hmac_preset "svix" "Svix" "https://docs.svix.com/receiving/verifying-payloads/how-manual" "svix-signature"
    Base64 (Some "v1,") (Some " ") (Some ",") (Some "svix-timestamp") "{{id}}.{{timestamp}}.{{body}}"
    (Some "svix-id").

(** [webhook_presets] *)
Definition standard_preset : WebhookVerifierPreset :=
  hmac_preset "standard-webhooks" "Standard Webhooks"
    "https://github.com/standard-webhooks/standard-webhooks/blob/main/spec/standard-webhooks.md"
    "webhook-signature" Base64 (Some "v1,") (Some " ") (Some ",") (Some "webhook-timestamp")
    "{{id}}.{{timestamp}}.{{body}}" (Some "webhook-id").
Definition github_preset : WebhookVerifierPreset :=
  hmac_preset "github" "GitHub" "https://docs.github.com/en/webhooks/using-webhooks/validating-webhook-deliveries"
    "x-hub-signature-256" Hex (Some "sha256=") None (Some "=") None "{{body}}" (Some "x-github-delivery").
Definition stripe_preset : WebhookVerifierPreset :=
  hmac_preset "stripe" "Stripe" "https://docs.stripe.com/webhooks/signature" "stripe-signature" Hex (Some "v1=")
    (Some ",") (Some "=") (Some "stripe-signature") "{{timestamp}}.{{body}}" None.
Definition slack_preset : WebhookVerifierPreset :=
  hmac_preset "slack" "Slack" "https://api.slack.com/authentication/verifying-requests-from-slack"
    "x-slack-signature" Hex (Some "v0=") None (Some "=") (Some "x-slack-request-timestamp")
    "v0:{{timestamp}}:{{body}}" None.
Definition shopify_preset : WebhookVerifierPreset :=
  hmac_preset "shopify" "Shopify"
    "https://shopify.dev/docs/apps/build/webhooks/subscribe/https#step-2-validate-the-origin-of-your-webhook-to-ensure-its-coming-from-shopify"
    "x-shopify-hmac-sha256" Base64 None None None None "{{body}}" (Some "x-shopify-webhook-id").
Definition webhook_presets : list WebhookVerifierPreset :=
  [standard_preset; github_preset; stripe_preset; slack_preset; shopify_preset; svix_preset].
Definition webhook_preset (id : string) : option WebhookVerifierPreset :=
  head (filter (fun p => wp_id p = id) webhook_presets).

(** ** Payload templates *)

(** [validate_payload_template] *)
Definition known_placeholder (name : string) : bool :=
  bool_decide (name ∈ ["body"; "timestamp"; "id"; "version"]).
Fixpoint validate_template_loop (fuel : nat) (rest : string) : result VerifyError unit :=
  match split_once_str "{{" rest with
  | None => Ok tt
  | Some (_, after_start) =>
      match split_once_str "}}" after_start with
      | None => Err (UnknownPlaceholder after_start)
      | Some (name, rest) =>
          if known_placeholder name then
            match fuel with O => Ok tt | S fuel => validate_template_loop fuel rest end
          else Err (UnknownPlaceholder name)
      end
  end.
Definition validate_payload_template (template : string) : result VerifyError unit :=
  validate_template_loop (String.length template) template.

(** What a placeholder stands for *)
Definition placeholder_value (name body : string) (timestamp id version : option string) :
  result VerifyError string :=
  if (name =? "body")%string then Ok body
  else if (name =? "timestamp")%string then ok_or MissingTimestamp timestamp
  else if (name =? "id")%string then ok_or (MissingHeader "idempotency header") id
  else if (name =? "version")%string
  then ok_or (MalformedSignature "signature version required by payload template") version
  else Err (UnknownPlaceholder name).

(** The loop of [render_payload_template]; [out] is what has been rendered *)
Fixpoint render_loop (fuel : nat) (value : string -> result VerifyError string) (out rest : string) :
  result VerifyError string :=
  match split_once_str "{{" rest with
  | None => Ok (out +:+ rest)
  | Some (before, after_start) =>
      match split_once_str "}}" after_start with
      | None => Err (UnknownPlaceholder after_start)
      | Some (name, rest) =>
          v ← value name;
          let out := out +:+ before +:+ v in
          match fuel with O => Ok out | S fuel => render_loop fuel value out rest end
      end
  end.
Definition render_payload_template (template body : string) (timestamp id version : option string) :
  result VerifyError string :=
  _ ← validate_payload_template template;
  render_loop (String.length template) (fun name => placeholder_value name body timestamp id version) "" template.

(** ** Headers *)

(** [strip_bearer] *)
Definition strip_bearer (h : string) : option string :=
  let trimmed := trim h in
  trim <$> match strip_prefix "Bearer " trimmed with
           | Some t => Some t
           | None => strip_prefix "bearer " trimmed
           end.

(** [signature_header_value], [header_value_from_pairs] *)
Definition signature_header_value (hs : headers) (wanted : string) : option string :=
  snd <$> head (filter (fun h => eq_ignore_ascii_case h.1 wanted = true) hs).

(** [extract_timestamp] *)
Definition non_empty_or (d : string) (o : option string) : string :=
  match o with Some s => if is_empty s then d else s | None => d end.
Fixpoint find_timestamp (parts : list string) : result VerifyError string :=
  match parts with
  | [] => Err MissingTimestamp
  | part :: parts =>
      match strip_prefix "t=" (trim part) with
      | Some ts => if is_empty ts then find_timestamp parts else Ok ts
      | None => find_timestamp parts
      end
  end.
Definition extract_timestamp (raw : string) (config : WebhookVerifierConfig) : result VerifyError string :=
  let trimmed := trim raw in
  if negb (is_empty trimmed) && all_bytes is_ascii_digit trimmed then Ok trimmed
  else find_timestamp (split_str (non_empty_or "," (vc_signature_separator config)) trimmed).

(** ** Signatures *)

(** [split_signature_candidates] *)
Definition split_signature_candidates (header : string) (config : WebhookVerifierConfig) : list string :=
  let sep := non_empty_or "" (vc_signature_separator config) in
  if is_empty sep then
    let trimmed := trim header in if is_empty trimmed then [] else [trimmed]
  else filter (fun s => is_empty s = false) (map trim (split_str sep header)).

(** [candidate_version] *)
Definition candidate_version (candidate : string) (config : WebhookVerifierConfig) : option string :=
  split ← vc_signature_value_split config;
  if is_empty split then None
  else
    '(version, _) ← split_once_str split candidate;
    let version := trim version in
    if is_empty version then None else Some version.

Record ParsedSignature : Type := mkParsed { ps_version : option string; ps_encoded : string }.

(** [parse_signature_candidate] *)
Definition parse_signature_candidate (candidate : string) (config : WebhookVerifierConfig) :
  result VerifyError (option ParsedSignature) :=
  let prefix := default "" (vc_signature_prefix config) in
  if negb (is_empty prefix) && negb (starts_with prefix candidate) then Ok None
  else
    let version := candidate_version candidate config in
    let split := non_empty_or "" (vc_signature_value_split config) in
    encoded ← (if negb (is_empty split) then
                 match split_once_str split candidate with
                 | Some (_, encoded) => Ok encoded
                 | None => Err (MalformedSignature "signature missing value split")
                 end
               else if is_empty prefix then Ok candidate
               else Ok (default "" (strip_prefix prefix candidate)));
    Ok (Some (mkParsed version encoded)).

(** [version_from_prefix]: [prefix.find([',', '='])] *)
Fixpoint before_comma_or_equals (s : string) : option string :=
  match s with
  | EmptyString => None
  | String c s =>
      if Ascii.eqb c "," || Ascii.eqb c "=" then Some EmptyString else String c <$> before_comma_or_equals s
  end.
Definition version_from_prefix (prefix : string) : option string :=
  version ← before_comma_or_equals prefix;
  let version := trim version in
  if is_empty version then None else Some version.

(** The crates the verifier calls *)
Class WebhookLib : Type := {
  hmac_digest : SignatureAlgorithm -> string -> string -> string;
  hex_decode : string -> result string string;
  hex_encode_sig : string -> string;
  std_b64_decode : string -> result string string;
  std_b64_encode : string -> string
}.

(** Decoding inverts encoding, and encodings are text without separators. *)
Class WebhookLibOk (lib : WebhookLib) : Prop := {
  hex_decode_encode x : hex_decode (hex_encode_sig x) = Ok x;
  b64_decode_encode x : std_b64_decode (std_b64_encode x) = Ok x;
  hex_alnum x : all_bytes is_ascii_alphanumeric (hex_encode_sig x) = true;
  b64_text x : all_bytes (fun c => is_ascii_alphanumeric c || Ascii.eqb c "+" || Ascii.eqb c "/"
                                   || Ascii.eqb c "=") (std_b64_encode x) = true;
  hex_not_empty x : x <> "" -> hex_encode_sig x <> "";
  b64_not_empty x : x <> "" -> std_b64_encode x <> "";
  hmac_not_empty a k x : hmac_digest a k x <> ""
}.

Section verifier.
Context {lib : WebhookLib}.

(** [decode_signature] *)
Definition decode_signature (raw : string) (encoding : SignatureEncoding) : result VerifyError string :=
  map_err MalformedSignature match encoding with Hex => hex_decode raw | Base64 => std_b64_decode raw end.

(** [verifier_secret_key] *)
Definition verifier_secret_key (secret : string) : result VerifyError string :=
  match strip_prefix "whsec_" secret with
  | Some rest => map_err (fun e => MalformedSignature ("invalid whsec secret: " +:+ e)) (std_b64_decode rest)
  | None => Ok secret
  end.

(** What [verify_hmac_v2] has read of the request before the signatures *)
Record SignedRequest : Type := mkSigned {
  sq_config : WebhookVerifierConfig;
  sq_key : string;
  sq_body : string;
  sq_timestamp : option string;
  sq_id : option string
}.
Definition sq_template (q : SignedRequest) : string := default "{{body}}" (vc_payload_template (sq_config q)).

(** The loop over the candidates and its end *)
Fixpoint try_candidates (q : SignedRequest) (candidates : list string) (saw_known : bool)
    (unknown_versions : list string) (first_malformed : option VerifyError) : result VerifyError VerifyOutcome :=
  let config := sq_config q in
  match candidates with
  | [] =>
      match saw_known, unknown_versions, first_malformed with
      | false, version :: _, _ =>
          Err (UnknownVersion version
                 (option_list (version_from_prefix (default "" (vc_signature_prefix config)))))
      | false, [], Some e => Err e
      | _, _, _ => Err AllSignaturesMismatched
      end
  | candidate :: candidates =>
      let or_first e := match first_malformed with Some m => Some m | None => Some e end in
      match parse_signature_candidate candidate config with
      | Ok None =>
          try_candidates q candidates saw_known
            (unknown_versions ++ option_list (candidate_version candidate config)) first_malformed
      | Err e => try_candidates q candidates saw_known unknown_versions (or_first e)
      | Ok (Some parsed) =>
          rendered ← render_payload_template (sq_template q) (sq_body q) (sq_timestamp q) (sq_id q)
                       (ps_version parsed);
          let expected := hmac_digest (default Sha256 (vc_signature_algo config)) (sq_key q) rendered in
          match decode_signature (trim (ps_encoded parsed)) (default Hex (vc_signature_encoding config)) with
          | Err e => try_candidates q candidates true unknown_versions (or_first e)
          | Ok provided =>
              if (expected =? provided)%string then Ok (mkOutcome (Some rendered) (ps_version parsed))
              else try_candidates q candidates true unknown_versions first_malformed
          end
      end
  end.

(** [now_secs.abs_diff(ts) > skew], after the parse of the timestamp *)
Definition check_skew (config : WebhookVerifierConfig) (timestamp : option string) (now : Z) :
  result VerifyError unit :=
  match timestamp with
  | None => Ok tt
  | Some raw =>
      ts ← ok_or MissingTimestamp (parse_i64 raw);
      let skew := default 300 (vc_timestamp_skew_secs config) in
      if skew <? Z.abs (now - ts) then Err (TimestampOutOfSkew now ts skew) else Ok tt
  end.

(** [verify_hmac_v2] *)
Definition verify_hmac_v2 (config : WebhookVerifierConfig) (secret : option string) (hs : headers) (body : string)
    (now : Z) : result VerifyError VerifyOutcome :=
  _ ← validate_payload_template (default "{{body}}" (vc_payload_template config));
  secret ← ok_or AllSignaturesMismatched secret;
  key ← verifier_secret_key secret;
  signature_header ← ok_or MissingSignature (signature_header_value hs (vc_signature_header config));
  timestamp ← match vc_timestamp_header config with
              | None => Ok None
              | Some name =>
                  raw ← ok_or MissingTimestamp (signature_header_value hs name);
                  ts ← extract_timestamp raw config;
                  Ok (Some ts)
              end;
  _ ← check_skew config timestamp now;
  id ← match vc_idempotency_header config with
       | None => Ok None
       | Some name =>
           id ← ok_or (MissingHeader name) (signature_header_value hs name);
           Ok (Some id)
       end;
  let candidates := split_signature_candidates signature_header config in
  if bool_decide (candidates = []) then Err MissingSignature
  else try_candidates (mkSigned config key body timestamp id) candidates false [] None.

(** [ct_eq] of two strings, as a check *)
Definition check_secret (expected provided : string) : result VerifyError VerifyOutcome :=
  if (expected =? provided)%string then Ok (mkOutcome None None) else Err AllSignaturesMismatched.

(** [verify_inbound_request] *)
Definition verify_inbound_request (config : WebhookVerifierConfig) (secret : option string) (hs : headers)
    (bearer_header bearer_path_token : option string) (body : string) (now : Z) :
  result VerifyError VerifyOutcome :=
  match vc_mode config with
  | ModeNone => Ok (mkOutcome None None)
  | LegacyBearer =>
      provided ← ok_or AllSignaturesMismatched (bearer_header ≫= strip_bearer);
      expected ← ok_or AllSignaturesMismatched secret;
      check_secret expected provided
  | BearerV2 =>
      expected ← ok_or AllSignaturesMismatched (vc_bearer_path_token config);
      provided ← ok_or AllSignaturesMismatched bearer_path_token;
      check_secret expected provided
  | LegacyHmac =>
      header ← ok_or MissingSignature (signature_header_value hs (vc_signature_header config));
      let provided_hex := trim (default header (strip_prefix "sha256=" header)) in
      provided ← map_err MalformedSignature (hex_decode provided_hex);
      key ← ok_or AllSignaturesMismatched secret;
      check_secret (hmac_digest Sha256 key body) provided
  | HmacV2 => verify_hmac_v2 config secret hs body now
  end.
End verifier.

(** ** What an accepted request proves *)

Section sound.
Context {lib : WebhookLib}.

(** Some signature of the header is the MAC of the rendered payload. *)
Definition signed_by (q : SignedRequest) (header : string) (out : VerifyOutcome) : Prop :=
  exists candidate parsed rendered,
    candidate ∈ split_signature_candidates header (sq_config q) /\
    parse_signature_candidate candidate (sq_config q) = Ok (Some parsed) /\
    render_payload_template (sq_template q) (sq_body q) (sq_timestamp q) (sq_id q) (ps_version parsed) = Ok rendered /\
    decode_signature (trim (ps_encoded parsed)) (default Hex (vc_signature_encoding (sq_config q))) =
      Ok (hmac_digest (default Sha256 (vc_signature_algo (sq_config q))) (sq_key q) rendered) /\
    out = mkOutcome (Some rendered) (ps_version parsed).

(** The timestamp is one the header names, within the configured skew. *)
Definition fresh (config : WebhookVerifierConfig) (hs : headers) (timestamp : option string) (now : Z) : Prop :=
  match vc_timestamp_header config with
  | None => timestamp = None
  | Some name => exists raw text ts, signature_header_value hs name = Some raw /\
      extract_timestamp raw config = Ok text /\ timestamp = Some text /\ parse_i64 text = Some ts /\
      Z.abs (now - ts) <= default 300 (vc_timestamp_skew_secs config)
  end.

(** What the mode asks of a request *)
Definition authentic (config : WebhookVerifierConfig) (secret : option string) (hs : headers)
    (bearer_header bearer_path_token : option string) (body : string) (now : Z) (out : VerifyOutcome) : Prop :=
  match vc_mode config with
  | ModeNone => out = mkOutcome None None
  | LegacyBearer => exists h t, bearer_header = Some h /\ strip_bearer h = Some t /\ secret = Some t
  | BearerV2 => exists t, vc_bearer_path_token config = Some t /\ bearer_path_token = Some t
  | LegacyHmac => exists h key, signature_header_value hs (vc_signature_header config) = Some h /\
      secret = Some key /\ hex_decode (trim (default h (strip_prefix "sha256=" h))) = Ok (hmac_digest Sha256 key body)
  | HmacV2 => exists s key h timestamp id, secret = Some s /\ verifier_secret_key s = Ok key /\
      signature_header_value hs (vc_signature_header config) = Some h /\ fresh config hs timestamp now /\
      match vc_idempotency_header config with
      | None => id = None
      | Some name => is_Some id /\ signature_header_value hs name = id
      end /\ signed_by (mkSigned config key body timestamp id) h out
  end.

Lemma try_candidates_sound q all cs saw unknown malformed out :
  (forall c, c ∈ cs -> c ∈ split_signature_candidates all (sq_config q)) ->
  try_candidates q cs saw unknown malformed = Ok out -> signed_by q all out.
Proof.
  revert saw unknown malformed. induction cs as [|c cs IH]; intros saw unknown malformed Hin H.
  - cbn in H. by destruct saw, unknown, malformed.
  - assert (forall c, c ∈ cs -> c ∈ split_signature_candidates all (sq_config q)) as Hcs by set_solver.
    cbn [try_candidates] in H. destruct (parse_signature_candidate c _) as [[parsed|]|e] eqn:Ep; [|by eapply IH..].
    apply result_bind_ok in H as (rendered & Er & H).
    destruct (decode_signature _ _) as [provided|e] eqn:Ed; [|by eapply IH].
    destruct (_ =? _)%string eqn:Eq; [|by eapply IH]. to_prop. subst provided. injection H as <-.
    exists c, parsed, rendered. split_and!; try done. apply Hin. left.
Qed.

Lemma check_secret_ok a b out : check_secret a b = Ok out -> a = b.
Proof. unfold check_secret. destruct (a =? b)%string eqn:E; [|done]. by to_prop. Qed.

Lemma check_skew_ok config text now :
  check_skew config (Some text) now = Ok tt -> exists ts, parse_i64 text = Some ts /\
    Z.abs (now - ts) <= default 300 (vc_timestamp_skew_secs config).
Proof.
  intros (ts & Hp%ok_or_ok & H)%result_bind_ok. exists ts. split; [done|].
  cbn zeta in H. revert H. destruct (_ <? _) eqn:E; [done|]. intros _. by apply Z.ltb_ge in E.
Qed.

Lemma verify_hmac_v2_sound config secret hs bh bp body now out :
  vc_mode config = HmacV2 -> verify_hmac_v2 config secret hs body now = Ok out ->
  authentic config secret hs bh bp body now out.
Proof.
  intros Hm H. unfold authentic. rewrite Hm. unfold verify_hmac_v2 in H.
  apply result_bind_ok in H as ([] & _ & H). apply result_bind_ok in H as (s & ->%ok_or_ok & H).
  apply result_bind_ok in H as (key & Hk & H). apply result_bind_ok in H as (h & Hh%ok_or_ok & H).
  apply result_bind_ok in H as (timestamp & Ht & H). apply result_bind_ok in H as ([] & Hs & H).
  apply result_bind_ok in H as (id & Hid & H). case_bool_decide as Hc; [done|].
  exists s, key, h, timestamp, id. split_and!; try done.
  - unfold fresh. destruct (vc_timestamp_header config) as [name|]; [|by injection Ht as <-].
    apply result_bind_ok in Ht as (raw & Hraw%ok_or_ok & Ht). apply result_bind_ok in Ht as (text & Hx & Ht).
    injection Ht as <-. apply check_skew_ok in Hs as (ts & Hp & Hle). by exists raw, text, ts.
  - destruct (vc_idempotency_header config) as [name|]; [|by injection Hid as <-].
    apply result_bind_ok in Hid as (i & Hi%ok_or_ok & Hid). injection Hid as <-. split; [done|exact Hi].
  - by eapply try_candidates_sound in H.
Qed.
End sound.

(** A request is accepted only if it is authentic for the webhook's mode: a
    bearer equal to the stored secret or path token; a hex MAC of the body; or,
    for the configurable verifier, a signature listed in the configured header
    that is the MAC, under the stored key, of the payload template filled with
    this request's body, timestamp and id, the timestamp being within the
    configured skew of the clock. *)
Theorem verify_inbound_sound {lib : WebhookLib} (config : WebhookVerifierConfig) (secret : option string)
    (hs : headers) (bearer_header bearer_path_token : option string) (body : string) (now : Z) (out : VerifyOutcome)
    (H : verify_inbound_request config secret hs bearer_header bearer_path_token body now = Ok out) :
  authentic config secret hs bearer_header bearer_path_token body now out.
Proof.
  unfold verify_inbound_request in H. destruct (vc_mode config) eqn:Hm.
  - unfold authentic. rewrite Hm. apply result_bind_ok in H as (h & Hh%ok_or_ok & H).
    apply result_bind_ok in H as (provided & Hp%map_err_ok & H). apply result_bind_ok in H as (key & ->%ok_or_ok & H).
    apply check_secret_ok in H as <-. by exists h, key.
  - unfold authentic. rewrite Hm. apply result_bind_ok in H as (t & Ht%ok_or_ok & H).
    apply result_bind_ok in H as (e & ->%ok_or_ok & H). apply check_secret_ok in H as ->.
    destruct bearer_header as [h|]; [|done]. by exists h, t.
  - unfold authentic. rewrite Hm. by injection H as <-.
  - by eapply verify_hmac_v2_sound.
  - unfold authentic. rewrite Hm. apply result_bind_ok in H as (t & Ht%ok_or_ok & H).
    apply result_bind_ok in H as (e & ->%ok_or_ok & H). apply check_secret_ok in H as ->. by exists e.
Qed.

(** ** Templates *)

Lemma length_append (a b : string) : String.length (a +:+ b) = (String.length a + String.length b)%nat.
Proof. induction a; cbn; lia. Qed.

Lemma placeholder_shrinks rest before after name rest' :
  split_once_str "{{" rest = Some (before, after) -> split_once_str "}}" after = Some (name, rest') ->
  rest = before +:+ "{{" +:+ name +:+ "}}" +:+ rest' /\ (String.length rest' + 4 <= String.length rest)%nat.
Proof.
  intros ->%split_once_str_some ->%split_once_str_some. split; [done|].
  rewrite !length_append. cbn. lia.
Qed.

(** The length of the template is enough fuel. *)
Lemma render_fuel value n m out rest :
  (String.length rest <= n)%nat -> (String.length rest <= m)%nat ->
  render_loop n value out rest = render_loop m value out rest.
Proof.
  revert m out rest. induction n as [|n IH]; intros m out rest Hn Hm.
  - destruct rest; [|cbn in Hn; lia]. by destruct m.
  - destruct m as [|m]; [destruct rest; [done|cbn in Hm; lia]|]. cbn [render_loop].
    destruct (split_once_str "{{" rest) as [[before after]|] eqn:E1; [|done].
    destruct (split_once_str "}}" after) as [[name rest']|] eqn:E2; [|done].
    destruct (placeholder_shrinks _ _ _ _ _ E1 E2) as [_ Hlt].
    destruct (value name) as [v|e]; [|done]. cbn [mbind result_bind]. apply IH; lia.
Qed.

Lemma starts_with_self p s : starts_with p (p +:+ s) = true.
Proof. apply starts_with_app. by exists s. Qed.
Lemma contains_str_app p x y : contains_str p (x +:+ p +:+ y) = true.
Proof.
  induction x as [|c x IH].
  - cbn [String.append]. destruct (p +:+ y) eqn:E; cbn [contains_str]; rewrite <- E, starts_with_self; by try rewrite orb_true_l.
  - cbn [String.append contains_str]. rewrite IH. apply orb_true_r.
Qed.
Lemma contains_str_suffix p x y : contains_str p y = true -> contains_str p (x +:+ y) = true.
Proof. intros H. induction x as [|c x IH]; [done|]. cbn [String.append contains_str]. rewrite IH. apply orb_true_r. Qed.

(** A template without the body renders the same for every body. *)
Lemma render_body_free n body body' ts id version out rest :
  contains_str "{{body}}" rest = false ->
  render_loop n (fun name => placeholder_value name body ts id version) out rest =
  render_loop n (fun name => placeholder_value name body' ts id version) out rest.
Proof.
  revert out rest. induction n as [|n IH]; intros out rest Hfree; cbn [render_loop];
    destruct (split_once_str "{{" rest) as [[before after]|] eqn:E1; try done;
    destruct (split_once_str "}}" after) as [[name rest']|] eqn:E2; try done;
    destruct (placeholder_shrinks _ _ _ _ _ E1 E2) as [-> _];
    (assert (placeholder_value name body ts id version = placeholder_value name body' ts id version) as ->
      by (unfold placeholder_value; destruct (name =? "body")%string eqn:Eb; [|done]; apply String.eqb_eq in Eb as ->;
          change ("{{" +:+ "body" +:+ "}}" +:+ rest') with ("{{body}}" +:+ rest') in Hfree;
          by rewrite contains_str_app in Hfree));
    destruct (placeholder_value name body' ts id version) as [v|e]; try done.
  cbn [mbind result_bind]. apply IH. destruct (contains_str "{{body}}" rest') eqn:Ec; [|done].
  rewrite <- Hfree. symmetry. by do 4 apply contains_str_suffix.
Qed.

Lemma try_candidates_body {lib : WebhookLib} config key body body' ts id cs saw unknown malformed :
  contains_str "{{body}}" (default "{{body}}" (vc_payload_template config)) = false ->
  is_ok (try_candidates (mkSigned config key body ts id) cs saw unknown malformed) =
  is_ok (try_candidates (mkSigned config key body' ts id) cs saw unknown malformed).
Proof.
  intros Hfree. revert saw unknown malformed.
  induction cs as [|c cs IH]; intros saw unknown malformed; [by destruct saw, unknown, malformed|].
  cbn [try_candidates sq_config]. destruct (parse_signature_candidate c config) as [[parsed|]|e]; [|apply IH..].
  assert (render_payload_template (default "{{body}}" (vc_payload_template config)) body ts id (ps_version parsed) =
    render_payload_template (default "{{body}}" (vc_payload_template config)) body' ts id (ps_version parsed)) as Hr.
  { unfold render_payload_template. destruct (validate_payload_template _); [|done]. cbn [mbind result_bind].
    by apply render_body_free. }
  unfold sq_template. cbn [sq_config sq_body sq_timestamp sq_id sq_key]. rewrite Hr.
  destruct (render_payload_template _ body' _ _ _) as [rendered|e]; [|done]. cbn [mbind result_bind].
  destruct (decode_signature _ _) as [provided|e]; [|apply IH]. destruct (_ =? _)%string; [done|apply IH].
Qed.

(** A payload template that leaves out the body is accepted by the
    validator and makes the signature say nothing about the body: whether a
    request is accepted does not depend on it. *)
Theorem template_without_body_signs_nothing {lib : WebhookLib} (config : WebhookVerifierConfig) (template : string)
    (secret : option string) (hs : headers) (bh bp : option string) (body body' : string) (now : Z)
    (Hmode : vc_mode config = HmacV2) (Ht : vc_payload_template config = Some template)
    (Hfree : contains_str "{{body}}" template = false) :
  is_ok (verify_inbound_request config secret hs bh bp body now) =
  is_ok (verify_inbound_request config secret hs bh bp body' now).
Proof.
  unfold verify_inbound_request. rewrite Hmode. unfold verify_hmac_v2.
  repeat match goal with |- is_ok (?m ≫= _) = is_ok (?m ≫= _) => destruct m as [?|?]; cbn [mbind result_bind]; [|done] end.
  cbn zeta. case_bool_decide; [done|]. apply try_candidates_body. by rewrite Ht.
Qed.

(** ** What the vendors send *)

(** A vendor's request: the preset a user picks for it and the headers the
    vendor's documentation prescribes for [body], under the MAC key [key]. *)
Definition vendor_requests {lib : WebhookLib} (key id : string) (ts : Z) (body : string) :
  list (WebhookVerifierPreset * headers) :=
  let mac x := hmac_digest Sha256 key x in
  let t := dec ts in
  let v1 := "v1," +:+ std_b64_encode (mac (id +:+ "." +:+ t +:+ "." +:+ body)) in
  [(standard_preset, [("webhook-id", id); ("webhook-timestamp", t); ("webhook-signature", v1)]);
   (svix_preset, [("svix-id", id); ("svix-timestamp", t); ("svix-signature", v1)]);
   (github_preset, [("x-github-delivery", id); ("x-hub-signature-256", "sha256=" +:+ hex_encode_sig (mac body))]);
   (stripe_preset, [("stripe-signature",
      "t=" +:+ t +:+ ",v1=" +:+ hex_encode_sig (mac (t +:+ "." +:+ body)))]);
   (slack_preset, [("x-slack-request-timestamp", t);
      ("x-slack-signature", "v0=" +:+ hex_encode_sig (mac ("v0:" +:+ t +:+ ":" +:+ body)))]);
   (shopify_preset, [("x-shopify-webhook-id", id); ("x-shopify-hmac-sha256", std_b64_encode (mac body))])].

(** The presets whose vendors document a secret of the form [whsec_] and
    base64, of which the decoded bytes are the key *)
Definition decodes_secret (p : WebhookVerifierPreset) : bool :=
  bool_decide (wp_id p ∈ ["standard-webhooks"; "svix"]).

(** The MAC key each vendor documents for the secret it shows the user.
    Standard Webhooks and Svix decode it; GitHub, Slack, Shopify and Stripe key
    the MAC with the text as shown, Stripe's [whsec_] included. *)
Definition documented_key {lib : WebhookLib} (p : WebhookVerifierPreset) (secret : string) : option string :=
  if decodes_secret p then ok (std_b64_decode (default secret (strip_prefix "whsec_" secret)))
  else Some secret.

(** Where the code keys the MAC as the vendor does *)
Lemma documented_key_used {lib : WebhookLib} p secret key :
  documented_key p secret = Some key -> starts_with "whsec_" secret = decodes_secret p ->
  verifier_secret_key secret = Ok key.
Proof.
  unfold documented_key, verifier_secret_key. intros Hk Hf.
  destruct (strip_prefix "whsec_" secret) as [rest|] eqn:E.
  - apply strip_prefix_some in E as ->. rewrite (proj2 (starts_with_app _ _)) in Hf by eauto. rewrite <- Hf in Hk.
    cbn [default from_option id] in Hk. destruct (std_b64_decode rest); [|done]. by injection Hk as ->.
  - destruct (decodes_secret p); [|by injection Hk as ->].
    apply starts_with_app in Hf as [t ->].
    assert (strip_prefix "whsec_" ("whsec_" +:+ t) = Some t) as Ht by by apply strip_prefix_some. congruence.
Qed.

(** What the spec of each vendor signs, with the version it names *)
Definition vendor_payload (p : string) (id : string) (ts : Z) (body : string) : string :=
  let t := dec ts in
  if bool_decide (p ∈ ["standard-webhooks"; "svix"]) then id +:+ "." +:+ t +:+ "." +:+ body
  else if (p =? "stripe")%string then t +:+ "." +:+ body
  else if (p =? "slack")%string then "v0:" +:+ t +:+ ":" +:+ body
  else body.

Section vendors.
Context {lib : WebhookLib} `{!WebhookLibOk lib}.

Lemma digits_graphic s : all_bytes is_ascii_digit s = true -> all_bytes is_graphic s = true.
Proof. apply all_bytes_impl. intros c. unfold is_ascii_digit, is_graphic, in_range. rewrite !andb_true_iff, !Z.leb_le. lia. Qed.

Lemma dec_not_empty n : dec n <> "".
Proof.
  intros H. assert (parse_digits 0 (dec (Z.max 0 n)) = Some (Z.max 0 n)) as Hp by (apply parse_digits_dec; lia).
  assert (dec (Z.max 0 n) = dec n) as He by (unfold dec; f_equal; lia).
  rewrite He, H in Hp. cbn in Hp. injection Hp as Hp. rewrite <- Hp in He. rewrite H in He. discriminate.
Qed.

Lemma extract_timestamp_dec n config : extract_timestamp (dec n) config = Ok (dec n).
Proof.
  unfold extract_timestamp. rewrite trim_graphic by apply digits_graphic, dec_digits. rewrite dec_digits.
  pose proof (dec_not_empty n). by destruct (dec n).
Qed.

Lemma check_skew_dec config n now :
  vc_timestamp_skew_secs config = Some 300 -> 0 <= n <= i64_max -> Z.abs (now - n) <= 300 ->
  check_skew config (Some (dec n)) now = Ok tt.
Proof.
  intros Hs Hn Hd. unfold check_skew. rewrite parse_i64_dec by done. cbn. rewrite Hs. cbn.
  destruct (300 <? Z.abs (now - n)) eqn:E; [|done]. apply Z.ltb_lt in E. lia.
Qed.

Lemma hex_graphic x : all_bytes is_graphic (hex_encode_sig x) = true.
Proof.
  eapply all_bytes_impl, hex_alnum. intros [[] [] [] [] [] [] [] []]; by vm_compute.
Qed.
Lemma b64_graphic x : all_bytes is_graphic (std_b64_encode x) = true.
Proof.
  eapply all_bytes_impl, b64_text. intros [[] [] [] [] [] [] [] []]; by vm_compute.
Qed.
Lemma hex_no_char c x : is_ascii_alphanumeric c = false -> no_char c (hex_encode_sig x).
Proof. apply all_bytes_no_char, hex_alnum. Qed.
Lemma b64_no_char c x :
  is_ascii_alphanumeric c || Ascii.eqb c "+" || Ascii.eqb c "/" || Ascii.eqb c "=" = false -> no_char c (std_b64_encode x).
Proof. apply (all_bytes_no_char _ _ _ (b64_text x)). Qed.

(** The candidate a vendor sends: the prefix, then the encoded MAC *)
Lemma parse_candidate_split config c p version encoded :
  vc_signature_prefix config = Some (version +:+ String c "") -> p = version +:+ String c "" ->
  vc_signature_value_split config = Some (String c "") -> no_char c version -> all_bytes is_graphic version = true ->
  version <> "" ->
  parse_signature_candidate (p +:+ encoded) config = Ok (Some (mkParsed (Some version) encoded)).
Proof.
  intros Hp -> Hs Hc Hg Hne. unfold parse_signature_candidate, candidate_version. rewrite Hp, Hs. cbn [default from_option id].
  rewrite starts_with_self, andb_false_r. cbn [mbind option_bind is_empty non_empty_or negb].
  rewrite <- append_assoc, (split_once_str_app c "" version encoded) by done. cbn.
  rewrite trim_graphic by done. by destruct version.
Qed.

(** One candidate that carries the MAC of the rendered template is accepted. *)
Lemma try_candidates_hit q c cs saw unknown malformed parsed rendered :
  parse_signature_candidate c (sq_config q) = Ok (Some parsed) ->
  render_payload_template (sq_template q) (sq_body q) (sq_timestamp q) (sq_id q) (ps_version parsed) = Ok rendered ->
  decode_signature (trim (ps_encoded parsed)) (default Hex (vc_signature_encoding (sq_config q))) =
    Ok (hmac_digest (default Sha256 (vc_signature_algo (sq_config q))) (sq_key q) rendered) ->
  try_candidates q (c :: cs) saw unknown malformed = Ok (mkOutcome (Some rendered) (ps_version parsed)).
Proof. intros Hp Hr Hd. cbn [try_candidates]. rewrite Hp, Hr. cbn [mbind result_bind]. rewrite Hd. by rewrite String.eqb_refl. Qed.

(** Candidates of other schemes are passed over. *)
Lemma try_candidates_skip q cs c saw unknown malformed :
  (forall d, d ∈ cs -> parse_signature_candidate d (sq_config q) = Ok None) ->
  exists unknown', try_candidates q (cs ++ c) saw unknown malformed = try_candidates q c saw unknown' malformed.
Proof.
  revert unknown. induction cs as [|d cs IH]; intros unknown Hskip; [by exists unknown|].
  cbn [app try_candidates]. rewrite Hskip by left. apply IH. intros e He. apply Hskip. by right.
Qed.

Lemma decode_hex x : decode_signature (trim (hex_encode_sig x)) Hex = Ok x.
Proof. rewrite trim_graphic by apply hex_graphic. unfold decode_signature. by rewrite hex_decode_encode. Qed.
Lemma decode_b64 x : decode_signature (trim (std_b64_encode x)) Base64 = Ok x.
Proof. rewrite trim_graphic by apply b64_graphic. unfold decode_signature. by rewrite b64_decode_encode. Qed.

(** A header that holds one candidate *)
Lemma split_signature_one header config :
  all_bytes is_graphic header = true -> header <> "" ->
  (vc_signature_separator config = None \/ vc_signature_separator config = Some " ") ->
  split_signature_candidates header config = [header].
Proof.
  intros Hg Hne Hs. unfold split_signature_candidates. destruct Hs as [-> | ->]; cbn [non_empty_or is_empty].
  - rewrite trim_graphic by done. by destruct header.
  - rewrite split_str_one by by apply (all_bytes_no_char _ _ _ Hg). cbn [map]. rewrite trim_graphic by done.
    by destruct header.
Qed.

(** A request with one signature, over everything but its headers' names *)
Lemma verify_one_reduces config secret key hs body now ts id header c cs :
  vc_mode config = HmacV2 -> is_ok (validate_payload_template (default "{{body}}" (vc_payload_template config))) = true ->
  verifier_secret_key secret = Ok key -> signature_header_value hs (vc_signature_header config) = Some header ->
  match vc_timestamp_header config with
  | None => ts = None
  | Some name => exists raw text, signature_header_value hs name = Some raw /\ extract_timestamp raw config = Ok text /\
      ts = Some text
  end ->
  check_skew config ts now = Ok tt ->
  match vc_idempotency_header config with
  | None => id = None
  | Some name => signature_header_value hs name = id /\ is_Some id
  end ->
  split_signature_candidates header config = cs ++ [c] ->
  (forall d, d ∈ cs -> parse_signature_candidate d config = Ok None) ->
  exists unknown, verify_inbound_request config (Some secret) hs None None body now =
    try_candidates (mkSigned config key body ts id) [c] false unknown None.
Proof.
  intros Hm Ht Hk Hh Hts Hskew Hid Hcs Hskip. unfold verify_inbound_request. rewrite Hm. unfold verify_hmac_v2.
  destruct (validate_payload_template _) as [[]|]; [|done]. cbn [mbind result_bind ok_or]. rewrite Hk.
  cbn [mbind result_bind]. rewrite Hh. cbn [mbind result_bind ok_or].
  replace (match vc_timestamp_header config with Some _ => _ | None => _ end) with (Ok (E := VerifyError) ts).
  2: { destruct (vc_timestamp_header config); [|by subst]. destruct Hts as (raw & text & -> & He & ->). cbn. by rewrite He. }
  cbn [mbind result_bind]. rewrite Hskew. cbn [mbind result_bind].
  replace (match vc_idempotency_header config with Some _ => _ | None => _ end) with (Ok (E := VerifyError) id).
  2: { destruct (vc_idempotency_header config); [|by subst]. destruct Hid as (-> & i & ->). done. }
  cbn [mbind result_bind]. rewrite Hcs. rewrite bool_decide_eq_false_2 by by destruct cs.
  by apply try_candidates_skip.
Qed.

Lemma verify_one_signature config secret key hs body now ts id header c cs parsed rendered :
  vc_mode config = HmacV2 -> is_ok (validate_payload_template (default "{{body}}" (vc_payload_template config))) = true ->
  verifier_secret_key secret = Ok key -> signature_header_value hs (vc_signature_header config) = Some header ->
  match vc_timestamp_header config with
  | None => ts = None
  | Some name => exists raw text, signature_header_value hs name = Some raw /\ extract_timestamp raw config = Ok text /\
      ts = Some text
  end ->
  check_skew config ts now = Ok tt ->
  match vc_idempotency_header config with
  | None => id = None
  | Some name => signature_header_value hs name = id /\ is_Some id
  end ->
  split_signature_candidates header config = cs ++ [c] ->
  (forall d, d ∈ cs -> parse_signature_candidate d config = Ok None) ->
  parse_signature_candidate c config = Ok (Some parsed) ->
  render_payload_template (default "{{body}}" (vc_payload_template config)) body ts id (ps_version parsed) = Ok rendered ->
  decode_signature (trim (ps_encoded parsed)) (default Hex (vc_signature_encoding config)) =
    Ok (hmac_digest (default Sha256 (vc_signature_algo config)) key rendered) ->
  verify_inbound_request config (Some secret) hs None None body now = Ok (mkOutcome (Some rendered) (ps_version parsed)).
Proof.
  intros Hm Ht Hk Hh Hts Hskew Hid Hcs Hskip Hp Hr Hd.
  destruct (verify_one_reduces _ _ _ _ body _ _ _ _ _ _ Hm Ht Hk Hh Hts Hskew Hid Hcs Hskip) as [unknown ->].
  by apply try_candidates_hit.
Qed.

Ltac vendor Hk := first [reflexivity | exact Hk | done | cbn; eauto].

Lemma whole_body_accepts secret key id body now p version :
  (version = Some "sha256" /\ p = (wp_verifier github_preset,
     [("x-github-delivery", id); ("x-hub-signature-256", "sha256=" +:+ hex_encode_sig (hmac_digest Sha256 key body))])) \/
  (version = None /\ p = (wp_verifier shopify_preset,
     [("x-shopify-webhook-id", id); ("x-shopify-hmac-sha256", std_b64_encode (hmac_digest Sha256 key body))])) ->
  verifier_secret_key secret = Ok key ->
  verify_inbound_request p.1 (Some secret) p.2 None None body now = Ok (mkOutcome (Some body) version).
Proof.
  intros [[-> ->]|[-> ->]] Hk.
  - eapply (verify_one_signature _ _ key _ _ _ None (Some id) _ _ [] (mkParsed (Some "sha256") _) body); [vendor Hk..| | | | |].
    + apply split_signature_one; [|done|by left]. apply hex_graphic.
    + set_solver.
    + by apply (parse_candidate_split _ "=" _ "sha256").
    + unfold render_payload_template. cbn. by rewrite append_nil_r.
    + apply decode_hex.
  - eapply (verify_one_signature _ _ key _ _ _ None (Some id) _ _ [] (mkParsed None _) body); [vendor Hk..| | | | |].
    + apply split_signature_one; [apply b64_graphic|apply b64_not_empty, hmac_not_empty|by left].
    + set_solver.
    + reflexivity.
    + unfold render_payload_template. cbn. by rewrite append_nil_r.
    + apply decode_b64.
Qed.

Lemma id_timestamp_accepts secret key id ts body now p :
  let payload := id +:+ "." +:+ dec ts +:+ "." +:+ body in
  let v1 := "v1," +:+ std_b64_encode (hmac_digest Sha256 key payload) in
  p = (wp_verifier standard_preset, [("webhook-id", id); ("webhook-timestamp", dec ts); ("webhook-signature", v1)]) \/
  p = (wp_verifier svix_preset, [("svix-id", id); ("svix-timestamp", dec ts); ("svix-signature", v1)]) ->
  verifier_secret_key secret = Ok key -> 0 <= ts <= i64_max -> Z.abs (now - ts) <= 300 ->
  verify_inbound_request p.1 (Some secret) p.2 None None body now = Ok (mkOutcome (Some payload) (Some "v1")).
Proof.
  intros payload v1 [->| ->] Hk Hts Hnow;
  (eapply (verify_one_signature _ _ key _ _ _ (Some (dec ts)) (Some id) _ _ [] (mkParsed (Some "v1") _) payload);
    [reflexivity|reflexivity|exact Hk|reflexivity
    |exists (dec ts), (dec ts); by rewrite extract_timestamp_dec|by apply check_skew_dec|by split
    |apply split_signature_one; [apply b64_graphic|done|by right]|set_solver
    |by apply (parse_candidate_split _ "," _ "v1")
    |unfold render_payload_template; cbn; by rewrite ?append_nil_r, <- ?append_assoc|apply decode_b64]).
Qed.

Lemma slack_accepts secret key ts body now :
  let payload := "v0:" +:+ dec ts +:+ ":" +:+ body in
  verifier_secret_key secret = Ok key -> 0 <= ts <= i64_max -> Z.abs (now - ts) <= 300 ->
  verify_inbound_request (wp_verifier slack_preset) (Some secret)
    [("x-slack-request-timestamp", dec ts);
     ("x-slack-signature", "v0=" +:+ hex_encode_sig (hmac_digest Sha256 key payload))] None None body now =
  Ok (mkOutcome (Some payload) (Some "v0")).
Proof.
  intros payload Hk Hts Hnow.
  eapply (verify_one_signature _ _ key _ _ _ (Some (dec ts)) None _ _ [] (mkParsed (Some "v0") _) payload);
    [reflexivity|reflexivity|exact Hk|reflexivity
    |exists (dec ts), (dec ts); by rewrite extract_timestamp_dec|by apply check_skew_dec|reflexivity
    |apply split_signature_one; [apply hex_graphic|done|by left]|set_solver
    |by apply (parse_candidate_split _ "=" _ "v0")
    |unfold render_payload_template; cbn; by rewrite ?append_nil_r, <- ?append_assoc|apply decode_hex].
Qed.

Lemma stripe_header ts x :
  trim ("t=" +:+ dec ts +:+ ",v1=" +:+ hex_encode_sig x) = "t=" +:+ dec ts +:+ ",v1=" +:+ hex_encode_sig x /\
  split_str "," ("t=" +:+ dec ts +:+ ",v1=" +:+ hex_encode_sig x) = ["t=" +:+ dec ts; "v1=" +:+ hex_encode_sig x].
Proof.
  split.
  - apply trim_graphic. rewrite !all_bytes_app, hex_graphic. by rewrite (digits_graphic (dec ts)) by apply dec_digits.
  - rewrite append_assoc. apply (split_str_two ","); [|by apply hex_no_char].
    by apply (all_bytes_no_char _ _ _ (dec_digits ts)).
Qed.

Lemma trim_t ts : trim ("t=" +:+ dec ts) = "t=" +:+ dec ts.
Proof. apply trim_graphic. cbn. apply digits_graphic, dec_digits. Qed.

(** What is left of the check of a Stripe request signed under [mac_key] *)
Lemma stripe_reduces secret key mac_key ts body now :
  let payload := dec ts +:+ "." +:+ body in
  verifier_secret_key secret = Ok key -> 0 <= ts <= i64_max -> Z.abs (now - ts) <= 300 ->
  verify_inbound_request (wp_verifier stripe_preset) (Some secret)
    [("stripe-signature", "t=" +:+ dec ts +:+ ",v1=" +:+ hex_encode_sig (hmac_digest Sha256 mac_key payload))] None None
    body now =
  if (hmac_digest Sha256 key payload =? hmac_digest Sha256 mac_key payload)%string
  then Ok (mkOutcome (Some payload) (Some "v1")) else Err AllSignaturesMismatched.
Proof.
  intros payload Hk Hts Hnow. destruct (stripe_header ts (hmac_digest Sha256 mac_key payload)) as [Ht Hs].
  set (sig := hex_encode_sig (hmac_digest Sha256 mac_key payload)) in *.
  destruct (verify_one_reduces (wp_verifier stripe_preset) secret key
    [("stripe-signature", "t=" +:+ dec ts +:+ ",v1=" +:+ sig)] body now (Some (dec ts)) None
    ("t=" +:+ dec ts +:+ ",v1=" +:+ sig) ("v1=" +:+ sig) ["t=" +:+ dec ts]) as [unknown ->];
    [reflexivity|reflexivity|exact Hk|reflexivity| |by apply check_skew_dec|reflexivity| | |].
  - exists ("t=" +:+ dec ts +:+ ",v1=" +:+ sig), (dec ts).
    split_and!; [reflexivity| |reflexivity]. unfold extract_timestamp. rewrite Ht. cbn [non_empty_or].
    change (vc_signature_separator (wp_verifier stripe_preset)) with (Some ","). cbn [non_empty_or is_empty]. rewrite Hs.
    cbn [find_timestamp]. rewrite trim_t. cbn. pose proof (dec_not_empty ts). by destruct (dec ts).
  - unfold split_signature_candidates. cbn [vc_signature_separator wp_verifier stripe_preset hmac_preset non_empty_or is_empty].
    rewrite Hs. cbn [map]. rewrite trim_t. rewrite trim_graphic by (cbn; apply hex_graphic). reflexivity.
  - intros d ->%list_elem_of_singleton. reflexivity.
  - cbn [try_candidates sq_config]. rewrite (parse_candidate_split _ "=" _ "v1") by done.
    assert (render_payload_template (sq_template (mkSigned (wp_verifier stripe_preset) key body (Some (dec ts)) None)) body
      (Some (dec ts)) None (Some "v1") = Ok payload) as Hr
      by (unfold render_payload_template; cbn; by rewrite ?append_nil_r, <- ?append_assoc).
    cbn [sq_body sq_timestamp sq_id sq_key ps_version ps_encoded]. rewrite Hr. cbn [mbind result_bind].
    change (default Hex (vc_signature_encoding (wp_verifier stripe_preset))) with Hex. unfold sig. rewrite decode_hex.
    by destruct (_ =? _)%string.
Qed.

Lemma stripe_accepts secret key ts body now :
  let payload := dec ts +:+ "." +:+ body in
  verifier_secret_key secret = Ok key -> 0 <= ts <= i64_max -> Z.abs (now - ts) <= 300 ->
  verify_inbound_request (wp_verifier stripe_preset) (Some secret)
    [("stripe-signature", "t=" +:+ dec ts +:+ ",v1=" +:+ hex_encode_sig (hmac_digest Sha256 key payload))] None None
    body now = Ok (mkOutcome (Some payload) (Some "v1")).
Proof.
  intros payload Hk Hts Hnow. etransitivity; [by apply (stripe_reduces secret key key)|]. cbn zeta.
  by rewrite String.eqb_refl.
Qed.

(** A Stripe request under a secret Stripe hands out, signed as Stripe does *)
Lemma stripe_refuses rest ts body now :
  let secret := "whsec_" +:+ rest in
  let payload := dec ts +:+ "." +:+ body in
  0 <= ts <= i64_max -> Z.abs (now - ts) <= 300 ->
  (forall key, std_b64_decode rest = Ok key -> hmac_digest Sha256 key payload <> hmac_digest Sha256 secret payload) ->
  exists e, verify_inbound_request (wp_verifier stripe_preset) (Some secret)
    [("stripe-signature", "t=" +:+ dec ts +:+ ",v1=" +:+ hex_encode_sig (hmac_digest Sha256 secret payload))] None None
    body now = Err e.
Proof.
  intros secret payload Hts Hnow Hne.
  assert (verifier_secret_key secret = map_err (fun e => MalformedSignature ("invalid whsec secret: " +:+ e))
    (std_b64_decode rest)) as Hk.
  { unfold verifier_secret_key, secret.
    assert (strip_prefix "whsec_" ("whsec_" +:+ rest) = Some rest) as -> by by apply strip_prefix_some. done. }
  destruct (std_b64_decode rest) as [key|e].
  - eexists. etransitivity; [by apply (stripe_reduces secret key secret)|]. cbn zeta.
    by rewrite (proj2 (String.eqb_neq _ _)) by by apply Hne.
  - exists (MalformedSignature ("invalid whsec secret: " +:+ e)). unfold verify_inbound_request, verify_hmac_v2.
    cbn [wp_verifier stripe_preset hmac_preset vc_mode vc_payload_template default from_option id].
    destruct (validate_payload_template _) as [[]|] eqn:Ev; [|by vm_compute in Ev]. cbn [mbind result_bind ok_or].
    by rewrite Hk.
Qed.
End vendors.

(** Every preset accepts what its vendor sends: for a secret, a clock at
    most 300 seconds from the signing time and any body, the request signed
    the way the vendor documents is accepted, and the payload that was checked
    is the one the vendor signed. *)
Theorem preset_accepts_signed {lib : WebhookLib} `{!WebhookLibOk lib} (p : WebhookVerifierPreset) (hs : headers)
    (secret key id body : string) (ts now : Z)
    (Hp : (p, hs) ∈ vendor_requests key id ts body) (Hk : verifier_secret_key secret = Ok key)
    (Hts : 0 <= ts <= i64_max) (Hnow : Z.abs (now - ts) <= 300) :
  exists version, verify_inbound_request (wp_verifier p) (Some secret) hs None None body now =
    Ok (mkOutcome (Some (vendor_payload (wp_id p) id ts body)) version).
Proof.
  unfold vendor_requests in Hp. repeat (apply elem_of_cons in Hp as [[= -> ->]|Hp]); [..|by apply not_elem_of_nil in Hp].
  - eexists. eapply (id_timestamp_accepts secret key id ts body now (_, _)); eauto.
  - eexists. eapply (id_timestamp_accepts secret key id ts body now (_, _)); eauto.
  - eexists. eapply (whole_body_accepts secret key id body now (_, _)); eauto.
  - eexists. by apply stripe_accepts.
  - eexists. by apply slack_accepts.
  - eexists. eapply (whole_body_accepts secret key id body now (_, _)); eauto.
Qed.

(** ** A concrete library: text of bits, and a keyed copy for the MAC *)

Definition toy_decode (s : string) : result string string := ok_or "bits" (Codec.of_text s).
#[local] Instance toy_webhook_lib : WebhookLib := {|
  hmac_digest _ k x := String "m" (k +:+ x);
  hex_decode := toy_decode;
  hex_encode_sig := Codec.to_text;
  std_b64_decode := toy_decode;
  std_b64_encode := Codec.to_text
|}.
Lemma toy_webhook_ok : WebhookLibOk toy_webhook_lib.
Proof.
  split; cbn; try (intros x; unfold toy_decode; by rewrite Codec.of_to_text); try done.
  - intros x. eapply all_bytes_impl, Codec.to_text_bits. intros [[] [] [] [] [] [] [] []]; by vm_compute.
  - intros x. eapply all_bytes_impl, Codec.to_text_bits. intros [[] [] [] [] [] [] [] []]; by vm_compute.
  - intros x Hne H. apply Hne. pose proof (Codec.of_to_text x) as Hx. rewrite H in Hx. by injection Hx as <-.
  - intros x Hne H. apply Hne. pose proof (Codec.of_to_text x) as Hx. rewrite H in Hx. by injection Hx as <-.
Qed.

(** The witnesses: a Stripe delivery, and a template of the timestamp only. *)
Definition stripe_delivery : headers :=
  [("stripe-signature", "t=1000,v1=" +:+ hex_encode_sig (hmac_digest Sha256 "k" ("1000." +:+ "{}")))].

Lemma verify_inbound_sound_witness :
  exists out, authentic (wp_verifier stripe_preset) (Some "k") stripe_delivery None None "{}" 1200 out.
Proof. eexists. apply verify_inbound_sound. vm_compute. reflexivity. Defined.

Lemma preset_accepts_signed_witness :
  exists version, verify_inbound_request (wp_verifier stripe_preset) (Some "k") stripe_delivery None None "{}" 1200 =
    Ok (mkOutcome (Some "1000.{}") version).
Proof.
  apply (preset_accepts_signed (WebhookLibOk0 := toy_webhook_ok) stripe_preset stripe_delivery "k" "k" "id" "{}" 1000 1200);
    [|done|done|done].
  apply list_elem_of_In. cbn. do 3 right. left. reflexivity.
Defined.

(** A configuration that signs the timestamp only *)
Definition timestamp_only : WebhookVerifierConfig :=
  mkVerifier HmacV2 "x-sig" (Some Sha256) (Some Hex) None None None (Some "x-ts") (Some 300) (Some "{{timestamp}}") None None.

Lemma template_without_body_signs_nothing_witness :
  validate_payload_template "{{timestamp}}" = Ok tt /\
  is_ok (verify_inbound_request timestamp_only (Some "k")
           [("x-ts", "1000"); ("x-sig", hex_encode_sig (hmac_digest Sha256 "k" "1000"))] None None "pay alice" 1000) = true /\
  is_ok (verify_inbound_request timestamp_only (Some "k")
           [("x-ts", "1000"); ("x-sig", hex_encode_sig (hmac_digest Sha256 "k" "1000"))] None None "pay mallory" 1000) = true.
Proof.
  split; [vm_compute; reflexivity|]. split; [vm_compute; reflexivity|].
  rewrite <- (template_without_body_signs_nothing timestamp_only "{{timestamp}}" (Some "k")
    [("x-ts", "1000"); ("x-sig", hex_encode_sig (hmac_digest Sha256 "k" "1000"))] None None "pay alice" "pay mallory" 1000
    eq_refl eq_refl eq_refl).
  vm_compute. reflexivity.
Defined.
