(* ===== verification/WebhookStore.v ===== *)
(** * Webhook rows and delivery log

    Models [WebhookRow], [WebhookAuthScheme] and [DeliveryRow] of
    [crates/core/src/traits.rs] and the two stores of
    [crates/core/src/db/sqlite/webhooks.rs] over their three tables.  The
    primary keys, and the foreign key by which deleting a webhook deletes its
    deliveries, are those of the migrations 0018 and 0045; instance rows are
    never deleted, so the key into [instances] cannot fail.  SQL leaves the
    order of rows of the same second open; here it is that of insertion. *)

From Stdlib Require Import ZArith Ascii Lia.
From stdpp Require Import base list strings gmap option.
From S2P Require Import Prelude RustStr Store.

Local Open Scope string_scope.
Local Open Scope list_scope.
Local Open Scope Z_scope.

(** [WebhookAuthScheme] *)
Inductive WebhookAuthScheme : Type := HmacSha256 | Bearer | SchemeNone.
#[export] Instance scheme_eq_dec : EqDecision WebhookAuthScheme.
Proof. solve_decision. Defined.
Definition scheme_str (s : WebhookAuthScheme) : string :=
  match s with HmacSha256 => "hmac_sha256" | Bearer => "bearer" | SchemeNone => "none" end.
Definition scheme_parse (s : string) : option WebhookAuthScheme :=
  if (s =? "hmac_sha256")%string then Some HmacSha256
  else if (s =? "bearer")%string then Some Bearer
  else if (s =? "none")%string then Some SchemeNone
  else None.
Definition needs_secret (s : WebhookAuthScheme) : bool := match s with SchemeNone => false | _ => true end.

(** [WebhookRow] *)
Record WebhookRow : Type := mkWebhook {
  wh_instance_id : string;
  wh_name : string;
  wh_description : string;
  wh_auth_scheme : WebhookAuthScheme;
  wh_signature_header : string;
  wh_verifier_mode : string;
  wh_signature_algo : option string;
  wh_signature_encoding : option string;
  wh_signature_prefix : option string;
  wh_signature_separator : option string;
  wh_signature_value_split : option string;
  wh_timestamp_header : option string;
  wh_timestamp_skew_secs : option Z;
  wh_payload_template : option string;
  wh_idempotency_header : option string;
  wh_bearer_path_token : option string;
  wh_preset_id : option string;
  wh_secret_name : option string;
  wh_enabled : bool;
  wh_created_at : Z;
  wh_updated_at : Z
}.

(** [DeliveryRow] *)
Record DeliveryRow : Type := mkDelivery {
  dl_id : string;
  dl_instance_id : string;
  dl_webhook_name : string;
  dl_fired_at : Z;
  dl_status_code : Z;
  dl_latency_ms : Z;
  dl_request_id : option string;
  dl_signature_ok : bool;
  dl_error : option string;
  dl_verify_error : option string;
  dl_request_headers : option string;
  dl_replayed_from_delivery_id : option string;
  dl_replayed_by_user_id : option string;
  dl_body : option string;
  dl_content_type : option string;
  dl_body_size : option Z
}.

(** A row of [webhook_deliveries_seen] *)
Record SeenRow : Type := mkSeen { se_webhook_row_id : string; se_idempotency_key : string; se_first_seen_at : Z }.

(** The three tables *)
Record WebhookDb : Type := mkWebhookDb {
  wd_webhooks : list WebhookRow;
  wd_deliveries : list DeliveryRow;
  wd_seen : list SeenRow
}.
Abbreviation wstore := (svc WebhookDb StoreError).

(** ** [SqlxWebhookStore] *)

Definition is_webhook (instance_id name : string) (r : WebhookRow) : bool :=
  (wh_instance_id r =? instance_id)%string && (wh_name r =? name)%string.
Definition of_webhook (instance_id name : string) (d : DeliveryRow) : bool :=
  (dl_instance_id d =? instance_id)%string && (dl_webhook_name d =? name)%string.

(** The columns a conflicting [INSERT] leaves alone: the key and [created_at] *)
Definition keep_created (created_at : Z) (r : WebhookRow) : WebhookRow :=
  mkWebhook (wh_instance_id r) (wh_name r) (wh_description r) (wh_auth_scheme r) (wh_signature_header r)
    (wh_verifier_mode r) (wh_signature_algo r) (wh_signature_encoding r) (wh_signature_prefix r)
    (wh_signature_separator r) (wh_signature_value_split r) (wh_timestamp_header r) (wh_timestamp_skew_secs r)
    (wh_payload_template r) (wh_idempotency_header r) (wh_bearer_path_token r) (wh_preset_id r) (wh_secret_name r)
    (wh_enabled r) created_at (wh_updated_at r).

(** [get] *)
Definition webhook_row_get (instance_id name : string) : wstore (option WebhookRow) :=
  gets (fun db => select_one (is_webhook instance_id name) (wd_webhooks db)).

(** [put]: [INSERT ... ON CONFLICT(instance_id, name) DO UPDATE] *)
Definition webhook_row_put (row : WebhookRow) : wstore unit :=
  let mine := is_webhook (wh_instance_id row) (wh_name row) in
  modify (fun db => mkWebhookDb
    (match select_one mine (wd_webhooks db) with
     | Some _ => update mine (fun old => keep_created (wh_created_at old) row) (wd_webhooks db)
     | None => wd_webhooks db ++ [row]
     end) (wd_deliveries db) (wd_seen db)).

(** [list_for_instance] *)
Definition webhook_list_for_instance (instance_id : string) : wstore (list WebhookRow) :=
  gets (fun db => sort (fun a b => str_leb (wh_name a) (wh_name b))
                    (select (fun r => (wh_instance_id r =? instance_id)%string) (wd_webhooks db))).

(** [delete]: the foreign key cascades to the deliveries. *)
Definition webhook_row_delete (instance_id name : string) : wstore unit :=
  modify (fun db => mkWebhookDb (delete_where (is_webhook instance_id name) (wd_webhooks db))
                      (delete_where (of_webhook instance_id name) (wd_deliveries db)) (wd_seen db)).

(** [set_enabled] *)
Definition enabled_row (enabled : bool) (now : Z) (r : WebhookRow) : WebhookRow :=
  mkWebhook (wh_instance_id r) (wh_name r) (wh_description r) (wh_auth_scheme r) (wh_signature_header r)
    (wh_verifier_mode r) (wh_signature_algo r) (wh_signature_encoding r) (wh_signature_prefix r)
    (wh_signature_separator r) (wh_signature_value_split r) (wh_timestamp_header r) (wh_timestamp_skew_secs r)
    (wh_payload_template r) (wh_idempotency_header r) (wh_bearer_path_token r) (wh_preset_id r) (wh_secret_name r)
    enabled (wh_created_at r) now.
Definition webhook_row_set_enabled (instance_id name : string) (enabled : bool) (now : Z) : wstore unit := fun db =>
  let mine := is_webhook instance_id name in
  let db' := mkWebhookDb (update mine (enabled_row enabled now) (wd_webhooks db)) (wd_deliveries db) (wd_seen db) in
  if Nat.eqb (affected mine (wd_webhooks db)) 0 then (db', Err NotFound) else (db', Ok tt).

(** [update_fields]: read, modify, write *)
Definition updated_row (description : option string) (auth_scheme : option WebhookAuthScheme)
    (secret_name : option (option string)) (enabled : option bool) (now : Z) (r : WebhookRow) : WebhookRow :=
  mkWebhook (wh_instance_id r) (wh_name r) (default (wh_description r) description)
    (default (wh_auth_scheme r) auth_scheme) (wh_signature_header r)
    (wh_verifier_mode r) (wh_signature_algo r) (wh_signature_encoding r) (wh_signature_prefix r)
    (wh_signature_separator r) (wh_signature_value_split r) (wh_timestamp_header r) (wh_timestamp_skew_secs r)
    (wh_payload_template r) (wh_idempotency_header r) (wh_bearer_path_token r) (wh_preset_id r)
    (default (wh_secret_name r) secret_name) (default (wh_enabled r) enabled) (wh_created_at r) now.
Definition update_fields (instance_id name : string) (description : option string)
    (auth_scheme : option WebhookAuthScheme) (secret_name : option (option string)) (enabled : option bool)
    (now : Z) : wstore unit :=
  existing ← webhook_row_get instance_id name;
  match existing with
  | None => throw NotFound
  | Some existing => webhook_row_put (updated_row description auth_scheme secret_name enabled now existing)
  end.

(** ** [SqlxDeliveryStore] *)

(** [insert]: the primary key and the foreign key into the webhooks *)
Definition delivery_insert (row : DeliveryRow) : wstore unit := fun db =>
  if Nat.eqb (affected (fun d => (dl_id d =? dl_id row)%string) (wd_deliveries db)) 0 then
    match select_one (is_webhook (dl_instance_id row) (dl_webhook_name row)) (wd_webhooks db) with
    | Some _ => (mkWebhookDb (wd_webhooks db) (wd_deliveries db ++ [row]) (wd_seen db), Ok tt)
    | None => (db, Err (Constraint "FOREIGN KEY constraint failed"))
    end
  else (db, Err (Constraint "UNIQUE constraint failed: webhook_deliveries.id")).

(** [try_mark_delivery_seen]: [INSERT OR IGNORE] *)
Definition is_seen (webhook_row_id idempotency_key : string) (s : SeenRow) : bool :=
  (se_webhook_row_id s =? webhook_row_id)%string && (se_idempotency_key s =? idempotency_key)%string.
Definition try_mark_delivery_seen (webhook_row_id idempotency_key : string) (first_seen_at : Z) : wstore bool :=
  fun db =>
    if Nat.eqb (affected (is_seen webhook_row_id idempotency_key) (wd_seen db)) 0
    then (mkWebhookDb (wd_webhooks db) (wd_deliveries db)
            (wd_seen db ++ [mkSeen webhook_row_id idempotency_key first_seen_at]), Ok true)
    else (db, Ok false).

(** [try_mark_delivery_seen_if_configured] *)
Definition try_mark_delivery_seen_if_configured (webhook_row_id : string) (idempotency_key : option string)
    (first_seen_at : Z) : wstore bool :=
  match idempotency_key with
  | Some key => if is_empty key then mret true else try_mark_delivery_seen webhook_row_id key first_seen_at
  | None => mret true
  end.

(** [sweep_seen_deliveries_before] *)
Definition sweep_seen_deliveries_before (cutoff : Z) : wstore Z := fun db =>
  let old s := se_first_seen_at s <? cutoff in
  (mkWebhookDb (wd_webhooks db) (wd_deliveries db) (delete_where old (wd_seen db)),
   Ok (Z.of_nat (affected old (wd_seen db)))).

(** [metadata_row]: the listings leave the body out. *)
Definition metadata_row (d : DeliveryRow) : DeliveryRow :=
  mkDelivery (dl_id d) (dl_instance_id d) (dl_webhook_name d) (dl_fired_at d) (dl_status_code d) (dl_latency_ms d)
    (dl_request_id d) (dl_signature_ok d) (dl_error d) (dl_verify_error d) (dl_request_headers d)
    (dl_replayed_from_delivery_id d) (dl_replayed_by_user_id d) None (dl_content_type d) (dl_body_size d).

(** [ORDER BY fired_at DESC LIMIT ?] *)
Definition newest (limit : Z) (l : list DeliveryRow) : list DeliveryRow :=
  take (Z.to_nat limit) (sort (fun a b => dl_fired_at b <=? dl_fired_at a) l).

(** [list_for_webhook] *)
Definition list_for_webhook (instance_id webhook_name : string) (limit : Z) : wstore (list DeliveryRow) :=
  gets (fun db => map metadata_row (newest limit (select (of_webhook instance_id webhook_name) (wd_deliveries db)))).

(** [SQLITE_SKIP_UTF8]: one character of text *)
Fixpoint skip_conts (s : string) : string :=
  match s with
  | String c s' => if is_cont c then skip_conts s' else s
  | EmptyString => s
  end.
Definition skip_char (s : string) : option string :=
  match s with
  | EmptyString => None
  | String c s => Some (if 192 <=? byte_val c then skip_conts s else s)
  end.

(** [LIKE]: case-insensitive in ASCII, ["%"] any text, ["_"] one character *)
Fixpoint like (p s : string) : bool :=
  match p with
  | EmptyString => is_empty s
  | String c p =>
      if Ascii.eqb c "%" then
        (fix any (fuel : nat) (s : string) : bool :=
           like p s || match fuel, skip_char s with S fuel, Some s => any fuel s | _, _ => false end)
          (String.length s) s
      else if Ascii.eqb c "_" then match skip_char s with Some s => like p s | None => false end
      else match s with
           | String d s => Ascii.eqb (to_lower c) (to_lower d) && like p s
           | EmptyString => false
           end
  end.

(** [list_for_instance]; [str_to_lowercase] is the Unicode mapping of
    [str::to_lowercase], SQLite's [LOWER] is that of ASCII. *)
Definition delivery_matches (str_to_lowercase : string -> string) (instance_id : string)
    (webhook_name q : option string) (before : option Z) (d : DeliveryRow) : bool :=
  (dl_instance_id d =? instance_id)%string
  && match webhook_name with Some n => (dl_webhook_name d =? n)%string | None => true end
  && match before with Some t => dl_fired_at d <? t | None => true end
  && match q with
     | Some needle => like ("%" +:+ str_to_lowercase needle +:+ "%") (to_ascii_lowercase (default "" (dl_error d)))
     | None => true
     end.
Definition delivery_list_for_instance (str_to_lowercase : string -> string) (instance_id : string)
    (webhook_name q : option string) (before : option Z) (limit : Z) : wstore (list DeliveryRow) :=
  gets (fun db => map metadata_row (newest limit
    (select (delivery_matches str_to_lowercase instance_id webhook_name q before) (wd_deliveries db)))).

(** [get_by_id] *)
Definition delivery_get_by_id (instance_id delivery_id : string) : wstore (option DeliveryRow) :=
  gets (fun db => select_one (fun d => (dl_instance_id d =? instance_id)%string && (dl_id d =? delivery_id)%string)
                    (wd_deliveries db)).

(** [rewrap_body] *)
Definition delivery_rewrap_body (id previous_body body : string) : wstore bool := fun db =>
  let mine d := (dl_id d =? id)%string && bool_decide (dl_body d = Some previous_body) in
  let set d := mkDelivery (dl_id d) (dl_instance_id d) (dl_webhook_name d) (dl_fired_at d) (dl_status_code d)
    (dl_latency_ms d) (dl_request_id d) (dl_signature_ok d) (dl_error d) (dl_verify_error d) (dl_request_headers d)
    (dl_replayed_from_delivery_id d) (dl_replayed_by_user_id d) (Some body) (dl_content_type d) (dl_body_size d) in
  (mkWebhookDb (wd_webhooks db) (update mine set (wd_deliveries db)) (wd_seen db),
   Ok (negb (Nat.eqb (affected mine (wd_deliveries db)) 0))).
