(* ===== verification/WebhookService.v ===== *)
(** * The webhook service

    Models [WebhookService] of [crates/core/src/webhooks.rs] over the stores
    of [WebhookStore], the sealed secrets and the instance rows: saving and
    deleting webhooks, the public entry point that verifies, de-duplicates,
    dispatches and logs a request, the delivery log with sealed bodies, and
    replay.  The dispatcher is a trait object: each call is logged in the
    world and answered by the run.  One call reads the clock several times;
    each read is a field of the run. *)

From Stdlib Require Import ZArith Ascii Lia.
From stdpp Require Import base list strings gmap option.
From S2P Require Import Prelude RustStr RustHttp Json Store Envelope StateFiles Secrets Traits InstanceStore.
From S2P Require Import WebhookStore WebhookVerify.

Local Open Scope string_scope.
Local Open Scope list_scope.
Local Open Scope Z_scope.

Definition MAX_WEBHOOK_BODY : Z := 4 * 1024 * 1024.
Definition DEFAULT_DELIVERY_LIMIT : Z := 50.
Definition MAX_DELIVERY_LIMIT : Z := 200.
Definition DEFAULT_SIGNATURE_HEADER : string := "x-swarm-signature".
Definition WEBHOOK_SECRET_PREFIX : string := "webhook:".

(** [webhook_secret_name], [webhook_row_key], [webhook_delivery_context] *)
Definition webhook_secret_name (instance_id webhook_name : string) : string :=
  WEBHOOK_SECRET_PREFIX +:+ instance_id +:+ ":" +:+ webhook_name.
Definition webhook_row_key (instance_id webhook_name : string) : string := instance_id +:+ ":" +:+ webhook_name.
Definition webhook_delivery_context (owner_id instance_id webhook_name : string) : KmsContext :=
  user_scoped WebhookDelivery owner_id (Some instance_id) (Some webhook_name).

(** [clamp_delivery_limit] *)
Definition clamp_delivery_limit (limit : Z) : Z := Z.max 1 (Z.min limit MAX_DELIVERY_LIMIT).

(** [validate_webhook_name] *)
Definition name_char (c : ascii) : bool :=
  in_range 97 122 c || is_ascii_digit c || Ascii.eqb c "-" || Ascii.eqb c "_".
Definition validate_webhook_name (name : string) : result string unit :=
  if is_empty name then Err "webhook name must not be empty"
  else if 64 <? len name then Err "webhook name too long (max 64 chars)"
  else if negb (all_bytes name_char name)
  then Err "webhook name must be lowercase ascii alphanumerics, hyphens or underscores"
  else Ok tt.

(** [WebhookError] *)
Inductive WebhookError : Type :=
| WStore (e : StoreError)
| WSecrets (e : SecretsError)
| WBadRequest (msg : string)
| WNotFound
| WSignatureMismatch
| WVerify (e : VerifyError)
| WReplayDeduped (key : string)
| WNotReady
| WDispatch (msg : string).

(** The [Display] of the errors a delivery row records *)
Definition dec_i64 (n : Z) : string := if n <? 0 then "-" +:+ dec (- n) else dec n.
Definition verify_text (e : VerifyError) : string :=
  match e with
  | MissingHeader name => "missing header " +:+ name
  | MissingTimestamp => "missing timestamp"
  | TimestampOutOfSkew now ts skew =>
      "timestamp outside skew: now=" +:+ dec_i64 now +:+ " ts=" +:+ dec_i64 ts +:+ " skew_secs=" +:+ dec skew
  | MissingSignature => "missing signature"
  | MalformedSignature reason => "malformed signature: " +:+ reason
  | UnknownVersion version _ => "unknown signature version " +:+ version
  | AllSignaturesMismatched => "all signatures mismatched"
  | UnknownPlaceholder name => "unknown template placeholder " +:+ name
  | VerifyReplayDeduped key => "replay deduped: " +:+ key
  end.
Definition store_text (e : StoreError) : string :=
  match e with
  | Io msg => "store i/o: " +:+ msg
  | NotFound => "not found"
  | Constraint msg => "constraint violation: " +:+ msg
  | Malformed msg => "malformed row: " +:+ msg
  end.
Definition envelope_text (e : EnvelopeError) : string :=
  match e with
  | EnvIo msg => "envelope: key file i/o: " +:+ msg
  | KeyParse msg => "envelope: key file parse: " +:+ msg
  | Corrupt => "envelope: ciphertext corrupt or wrong key"
  | Age msg => "envelope: age operation failed: " +:+ msg
  | BadUserId => "envelope: invalid user id (must be hex or `" +:+ SYSTEM_KEY_ID +:+ "`)"
  | BadKeyId => "envelope: invalid key id"
  | Sealed => "envelope: sealed mode; local KMS decrypt/encrypt unavailable"
  | ContextMismatch => "envelope: v2 context mismatch"
  | BadEnvelope msg => "envelope: invalid v2 envelope: " +:+ msg
  end.
Definition secrets_text (e : SecretsError) : string :=
  match e with SecretsStore e => store_text e | SecretsEnvelope e => envelope_text e end.

(** [WebhookSpec] *)
Record WebhookSpec : Type := mkSpec {
  ws_instance_id : string;
  ws_name : string;
  ws_description : string;
  ws_auth_scheme : WebhookAuthScheme;
  ws_preset_id : option string;
  ws_verifier : option WebhookVerifierConfig;
  ws_signature_header : option string;
  ws_secret_plaintext : option string;
  ws_enabled : bool
}.

(** [DispatchCtx] *)
Record DispatchCtx : Type := mkDispatchCtx {
  dc_instance_id : string;
  dc_name : string;
  dc_signature_headers : headers;
  dc_bearer_header : option string;
  dc_bearer_path_token : option string;
  dc_request_id : option string;
  dc_forward_headers : headers;
  dc_content_type : option string;
  dc_body : string
}.

(** A call of [WebhookDispatcher::dispatch] *)
Record Dispatched : Type := mkDispatched {
  di_instance : InstanceRow;
  di_webhook_name : string;
  di_description : string;
  di_headers : headers;
  di_body : string
}.

(** What the service reads and writes *)
Record WebhookWorld : Type := mkWebhookWorld {
  ww_instances : Instances;
  ww_db : WebhookDb;
  ww_secrets : SecretDb;
  ww_dispatched : list Dispatched
}.
Abbreviation wsvc := (svc WebhookWorld WebhookError).

(** What one call draws from outside: the reads of the clock, identifiers and
    random tokens, the sealing of the secret and of the body, the time the
    dispatch took and the dispatcher's answer *)
Record WebhookRun : Type := mkWebhookRun {
  wr_now : Z;
  wr_seen_at : Z;
  wr_fired_at : Z;
  wr_latency_ms : Z;
  wr_delivery_id : string;
  wr_uuid : string;
  wr_secret_seal : SealRun;
  wr_body_seal : SealRun;
  wr_answer : result string Z
}.

(** The crates the service calls: [serde_json] and [HeaderName::from_bytes] *)
Class WebhookText : Type := {
  headers_to_string : headers -> option string;
  json_from_str : string -> option json;
  header_name_from_bytes : string -> option string
}.

Definition on_db {A} (m : wstore A) : wsvc A := fun w =>
  let '(db, r) := m (ww_db w) in (mkWebhookWorld (ww_instances w) db (ww_secrets w) (ww_dispatched w), map_err WStore r).
Definition on_user_secrets {A} (m : svc SecretDb SecretsError A) : wsvc A := fun w =>
  let '(s, r) := m (ww_secrets w) in (mkWebhookWorld (ww_instances w) (ww_db w) s (ww_dispatched w), map_err WSecrets r).

(** [dispatcher.dispatch(...).await.map_err(WebhookError::Dispatch)?] *)
Definition dispatch (run : WebhookRun) (d : Dispatched) : wsvc Z := fun w =>
  (mkWebhookWorld (ww_instances w) (ww_db w) (ww_secrets w) (ww_dispatched w ++ [d]), map_err WDispatch (wr_answer run)).

(** [v as u64] of an [i64], and back *)
Definition as_u64 (v : Z) : Z := v mod (u64_max + 1).
Definition as_i64 (v : Z) : Z := wrap_i64 v.

(** ** Configurations *)

(** [legacy_verifier_config] *)
Definition bare_verifier (mode : WebhookVerifierMode) (signature_header : string) : WebhookVerifierConfig :=
  mkVerifier mode signature_header None None None None None None None None None None.
Definition legacy_verifier_config (auth_scheme : WebhookAuthScheme) (signature_header : string) :
  WebhookVerifierConfig :=
  match auth_scheme with
  | HmacSha256 => bare_verifier LegacyHmac signature_header
  | Bearer => bare_verifier LegacyBearer ""
  | SchemeNone => bare_verifier ModeNone ""
  end.

(** [row_verifier_config] *)
Definition parse_column {A} (parse : string -> option A) (what : string) (column : option string) :
  result WebhookError (option A) :=
  match column with
  | Some raw => v ← ok_or (WBadRequest what) (parse raw); Ok (Some v)
  | None => Ok None
  end.
Definition row_verifier_config (row : WebhookRow) : result WebhookError WebhookVerifierConfig :=
  let mode := match mode_parse (wh_verifier_mode row) with
              | Some mode => mode
              | None => match wh_auth_scheme row with
                        | HmacSha256 => LegacyHmac
                        | Bearer => LegacyBearer
                        | SchemeNone => ModeNone
                        end
              end in
  signature_algo ← parse_column algo_parse "unknown signature algorithm" (wh_signature_algo row);
  signature_encoding ← parse_column encoding_parse "unknown signature encoding" (wh_signature_encoding row);
  Ok (mkVerifier mode (wh_signature_header row) signature_algo signature_encoding (wh_signature_prefix row)
        (wh_signature_separator row) (wh_signature_value_split row) (wh_timestamp_header row)
        (as_u64 <$> wh_timestamp_skew_secs row) (wh_payload_template row) (wh_idempotency_header row)
        (wh_bearer_path_token row)).

(** [validate_verifier_config], [verifier_needs_user_secret], [random_path_token] *)
Definition validate_verifier_config (config : WebhookVerifierConfig) : result VerifyError unit :=
  match vc_payload_template config with Some template => validate_payload_template template | None => Ok tt end.
Definition verifier_needs_user_secret (config : WebhookVerifierConfig) : bool :=
  match vc_mode config with LegacyHmac | LegacyBearer | HmacV2 => true | ModeNone | BearerV2 => false end.
Definition random_path_token (run : WebhookRun) : string := "whp_" +:+ wr_uuid run.

Section service.
Context {dir : CipherDirectory} {codec : EnvelopeCodec} {lib : WebhookLib} {txt : WebhookText}.

(** [validate_signature_header] *)
Definition validate_signature_header (raw : string) : result string string :=
  let trimmed := trim raw in
  if is_empty trimmed then Err "signature header is required"
  else
    name ← ok_or "signature header is not a valid HTTP header name" (header_name_from_bytes trimmed);
    Ok (to_ascii_lowercase name).

(** [ensure_owner] *)
Definition ensure_owner (owner_id instance_id : string) : wsvc unit :=
  found ← gets (fun w => instance_get_for_owner owner_id instance_id (ww_instances w));
  match found with Some _ => mret tt | None => throw WNotFound end.

(** [list], [get] *)
Definition list_webhooks (owner_id instance_id : string) : wsvc (list WebhookRow) :=
  _ ← ensure_owner owner_id instance_id;
  on_db (webhook_list_for_instance instance_id).
Definition get_webhook (owner_id instance_id name : string) : wsvc WebhookRow :=
  _ ← ensure_owner owner_id instance_id;
  found ← on_db (webhook_row_get instance_id name);
  lift (ok_or WNotFound found).

(** The signature header, the verifier and the secret [put] saves *)
Definition put_signature_header (spec : WebhookSpec) (existing : option WebhookRow) : result WebhookError string :=
  match ws_signature_header spec with
  | Some raw => map_err WBadRequest (validate_signature_header raw)
  | None => Ok (match existing with Some r => wh_signature_header r | None => DEFAULT_SIGNATURE_HEADER end)
  end.
Definition put_verifier (spec : WebhookSpec) (existing : option WebhookRow) (signature_header : string) :
  result WebhookError WebhookVerifierConfig :=
  match ws_verifier spec with
  | Some verifier => Ok verifier
  | None =>
      match existing with
      | Some r => row_verifier_config r
      | None => Ok (legacy_verifier_config (ws_auth_scheme spec) signature_header)
      end
  end.
Definition check_preset (preset_id : option string) (verifier : WebhookVerifierConfig) : result WebhookError unit :=
  match preset_id with
  | None => Ok tt
  | Some id =>
      preset ← ok_or (WBadRequest ("unknown preset_id " +:+ id)) (webhook_preset id);
      if bool_decide (verifier = wp_verifier preset) then Ok tt
      else Err (WBadRequest ("preset_id " +:+ id +:+ " verifier config does not match the " +:+ wp_label preset
                             +:+ " preset"))
  end.
Definition put_secret (run : WebhookRun) (owner_id : string) (spec : WebhookSpec) (existing : option WebhookRow)
    (verifier : WebhookVerifierConfig) : wsvc (option string) :=
  if verifier_needs_user_secret verifier then
    match ws_secret_plaintext spec, existing ≫= wh_secret_name with
    | Some plain, _ =>
        let target := webhook_secret_name (ws_instance_id spec) (ws_name spec) in
        _ ← on_user_secrets (user_put (wr_secret_seal run) owner_id target plain);
        mret (Some target)
    | None, Some prev => mret (Some prev)
    | None, None => throw (WBadRequest "auth scheme requires a signing secret on first save")
    end
  else mret None.
Definition put_row (run : WebhookRun) (spec : WebhookSpec) (existing : option WebhookRow)
    (verifier : WebhookVerifierConfig) (secret_name : option string) : WebhookRow :=
  mkWebhook (ws_instance_id spec) (ws_name spec) (ws_description spec) (ws_auth_scheme spec)
    (vc_signature_header verifier) (mode_str (vc_mode verifier)) (algo_str <$> vc_signature_algo verifier)
    (encoding_str <$> vc_signature_encoding verifier) (vc_signature_prefix verifier)
    (vc_signature_separator verifier) (vc_signature_value_split verifier) (vc_timestamp_header verifier)
    (as_i64 <$> vc_timestamp_skew_secs verifier) (vc_payload_template verifier) (vc_idempotency_header verifier)
    (match vc_bearer_path_token verifier with
     | Some t => Some t
     | None => if bool_decide (vc_mode verifier = BearerV2) then Some (random_path_token run) else None
     end)
    (ws_preset_id spec) secret_name (ws_enabled spec)
    (match existing with Some r => wh_created_at r | None => wr_now run end) (wr_now run).

(** [put] *)
Definition put_webhook (run : WebhookRun) (owner_id : string) (spec : WebhookSpec) : wsvc WebhookRow :=
  _ ← lift (map_err WBadRequest (validate_webhook_name (ws_name spec)));
  _ ← ensure_owner owner_id (ws_instance_id spec);
  existing ← on_db (webhook_row_get (ws_instance_id spec) (ws_name spec));
  signature_header ← lift (put_signature_header spec existing);
  verifier ← lift (put_verifier spec existing signature_header);
  _ ← lift (map_err (fun e => WBadRequest (verify_text e)) (validate_verifier_config verifier));
  _ ← lift (check_preset (ws_preset_id spec) verifier);
  secret_name ← put_secret run owner_id spec existing verifier;
  let row := put_row run spec existing verifier secret_name in
  _ ← on_db (webhook_row_put row);
  mret row.

(** [delete]: the signing key goes too, best effort. *)
Definition delete_webhook (owner_id instance_id name : string) : wsvc unit :=
  _ ← ensure_owner owner_id instance_id;
  found ← attempt (on_db (webhook_row_get instance_id name));
  _ ← match found with
      | Ok (Some row) =>
          match wh_secret_name row with
          | Some secret_name => best_effort (on_user_secrets (user_delete owner_id secret_name))
          | None => mret tt
          end
      | _ => mret tt
      end;
  on_db (webhook_row_delete instance_id name).

(** [set_enabled] *)
Definition set_enabled (run : WebhookRun) (owner_id instance_id name : string) (enabled : bool) : wsvc WebhookRow :=
  _ ← ensure_owner owner_id instance_id;
  _ ← on_db (webhook_row_set_enabled instance_id name enabled (wr_now run));
  found ← on_db (webhook_row_get instance_id name);
  lift (ok_or WNotFound found).

(** [load_secret] *)
Definition load_secret (run : WebhookRun) (owner_id : string) (row : WebhookRow) : wsvc string :=
  secret_name ← lift (ok_or WSignatureMismatch (wh_secret_name row));
  found ← on_user_secrets (user_get (wr_secret_seal run) owner_id secret_name);
  bytes ← lift (ok_or WSignatureMismatch found);
  lift (ok_or WSignatureMismatch (from_utf8 bytes)).

(** The secret a verifier needs *)
Definition verifier_secret (run : WebhookRun) (owner_id : string) (row : WebhookRow)
    (verifier : WebhookVerifierConfig) : wsvc (option string) :=
  if verifier_needs_user_secret verifier then secret ← load_secret run owner_id row; mret (Some secret)
  else mret None.

(** [list_deliveries], [list_instance_deliveries] *)
Definition list_deliveries (owner_id instance_id name : string) (limit : Z) : wsvc (list DeliveryRow) :=
  _ ← ensure_owner owner_id instance_id;
  on_db (list_for_webhook instance_id name (clamp_delivery_limit limit)).
Definition list_instance_deliveries (str_to_lowercase : string -> string) (owner_id instance_id : string)
    (webhook_name q : option string) (before : option Z) (limit : Z) : wsvc (list DeliveryRow) :=
  _ ← ensure_owner owner_id instance_id;
  on_db (delivery_list_for_instance str_to_lowercase instance_id webhook_name q before (clamp_delivery_limit limit)).

(** [open_audit_body]: text that is not sealed passes as it is. *)
Definition open_audit_body (owner_id instance_id webhook_name stored : string) : option string :=
  if negb (starts_with AGE_ARMOR_PREFIX stored) && negb (is_v2_envelope stored) then Some stored
  else
    match open_context (webhook_delivery_context owner_id instance_id webhook_name) stored with
    | Ok opened => Some (op_plaintext opened)
    | Err _ => None
    end.

(** [get_delivery] *)
Definition with_body (body : option string) (d : DeliveryRow) : DeliveryRow :=
  mkDelivery (dl_id d) (dl_instance_id d) (dl_webhook_name d) (dl_fired_at d) (dl_status_code d) (dl_latency_ms d)
    (dl_request_id d) (dl_signature_ok d) (dl_error d) (dl_verify_error d) (dl_request_headers d)
    (dl_replayed_from_delivery_id d) (dl_replayed_by_user_id d) body (dl_content_type d) (dl_body_size d).
Definition get_delivery (owner_id instance_id delivery_id : string) : wsvc DeliveryRow :=
  _ ← ensure_owner owner_id instance_id;
  found ← on_db (delivery_get_by_id instance_id delivery_id);
  row ← lift (ok_or WNotFound found);
  mret (with_body (dl_body row ≫= open_audit_body owner_id instance_id (dl_webhook_name row)) row).

(** [verify_only] *)
Definition verify_only (run : WebhookRun) (owner_id instance_id name : string) (hs : headers)
    (bearer_header bearer_path_token : option string) (body : string) : wsvc VerifyOutcome :=
  _ ← ensure_owner owner_id instance_id;
  found ← on_db (webhook_row_get instance_id name);
  row ← lift (ok_or WNotFound found);
  verifier ← lift (row_verifier_config row);
  secret ← verifier_secret run owner_id row verifier;
  lift (map_err WVerify (verify_inbound_request verifier secret hs bearer_header bearer_path_token body (wr_now run))).

(** [delivery_request_headers] *)
Definition header_pair (row : json) : option (string * string) :=
  pair ← as_array row;
  name ← head pair ≫= as_str;
  value ← pair !! 1%nat ≫= as_str;
  Some (name, value).
Definition delivery_request_headers (raw : option string) : headers :=
  match raw ≫= json_from_str with
  | Some (JArray rows) => omap header_pair rows
  | Some (JObject members) => omap (fun '(k, v) => (fun s => (k, s)) <$> as_str v) members
  | _ => []
  end.

(** [verify_only_last_failed] *)
Definition delivery_failed (d : DeliveryRow) : bool :=
  negb (dl_signature_ok d) || (400 <=? dl_status_code d) || bool_decide (is_Some (dl_verify_error d)).
Definition verify_only_last_failed (run : WebhookRun) (owner_id instance_id name : string) : wsvc VerifyOutcome :=
  _ ← ensure_owner owner_id instance_id;
  rows ← on_db (list_for_webhook instance_id name DEFAULT_DELIVERY_LIMIT);
  failed ← lift (ok_or WNotFound (head (filter (fun d => delivery_failed d = true) rows)));
  detail ← get_delivery owner_id instance_id (dl_id failed);
  let hs := delivery_request_headers (dl_request_headers detail) in
  verify_only run owner_id instance_id name hs (signature_header_value hs "authorization") None
    (default "" (dl_body detail)).

(** [seal_body_for_audit] *)
Definition seal_body_for_audit (run : WebhookRun) (instance_id webhook_name body : string) (w : WebhookWorld) :
  result string (option string) :=
  if is_empty body then Ok None
  else
    instance ← ok_or "owner lookup: not found" (instance_get instance_id (ww_instances w));
    ct ← map_err (fun e => "seal: " +:+ envelope_text e)
           (seal_context (wr_body_seal run) (webhook_delivery_context (ir_owner_id instance) instance_id webhook_name)
              body);
    Ok (Some ct).

(** [cube_sandbox_id.as_deref().unwrap_or("").is_empty()] *)
Definition has_no_sandbox (instance : InstanceRow) : bool := is_empty (default "" (ir_cube_sandbox_id instance)).

(** The step that marks the idempotency key as seen *)
Definition mark_seen (run : WebhookRun) (row : WebhookRow) (verifier : WebhookVerifierConfig) (hs : headers) :
  wsvc unit :=
  match vc_idempotency_header verifier with
  | None => mret tt
  | Some header_name =>
      key ← lift (ok_or (WVerify (MissingHeader header_name)) (signature_header_value hs header_name));
      first ← on_db (try_mark_delivery_seen (webhook_row_key (wh_instance_id row) (wh_name row)) key (wr_seen_at run));
      if first : bool then mret tt else throw (WReplayDeduped key)
  end.

(** How [verify_and_dispatch_inner] reports a refused request *)
Definition verify_refusal (mode : WebhookVerifierMode) (e : VerifyError) : WebhookError :=
  match mode with LegacyHmac | LegacyBearer => WSignatureMismatch | _ => WVerify e end.

(** [verify_and_dispatch_inner] *)
Definition verify_and_dispatch_inner (run : WebhookRun) (ctx : DispatchCtx) : wsvc Z :=
  found ← on_db (webhook_row_get (dc_instance_id ctx) (dc_name ctx));
  row ← lift (ok_or WNotFound (found ≫= fun r => if wh_enabled r then Some r else None));
  found ← gets (fun w => instance_get (dc_instance_id ctx) (ww_instances w));
  instance ← lift (ok_or WNotFound found);
  if has_no_sandbox instance then throw WNotReady
  else
    verifier ← lift (row_verifier_config row);
    secret ← verifier_secret run (ir_owner_id instance) row verifier;
    _ ← lift (map_err (verify_refusal (vc_mode verifier))
                (verify_inbound_request verifier secret (dc_signature_headers ctx) (dc_bearer_header ctx)
                   (dc_bearer_path_token ctx) (dc_body ctx) (wr_now run)));
    _ ← mark_seen run row verifier (dc_signature_headers ctx);
    dispatch run (mkDispatched instance (wh_name row) (wh_description row) (dc_forward_headers ctx) (dc_body ctx)).

(** Status, verdict and error text of the delivery row *)
Definition delivery_outcome (res : result WebhookError Z) : Z * bool * option string :=
  match res with
  | Ok s => (s, true, None)
  | Err WSignatureMismatch => (401, false, Some "signature mismatch")
  | Err (WVerify e) => (401, false, Some (verify_text e))
  | Err (WReplayDeduped key) => (200, true, Some ("replay deduped: " +:+ key))
  | Err WNotFound => (404, false, Some "not found")
  | Err WNotReady => (503, true, Some "instance warming up")
  | Err (WDispatch e) => (502, true, Some e)
  | Err (WBadRequest m) => (400, false, Some m)
  | Err (WStore e) => (500, false, Some (store_text e))
  | Err (WSecrets e) => (500, false, Some (secrets_text e))
  end.
Definition delivery_row (run : WebhookRun) (ctx : DispatchCtx) (res : result WebhookError Z) (body : option string) :
  DeliveryRow :=
  let '(status_code, signature_ok, error) := delivery_outcome res in
  mkDelivery (wr_delivery_id run) (dc_instance_id ctx) (dc_name ctx) (wr_fired_at run) status_code (wr_latency_ms run)
    (dc_request_id ctx) signature_ok error
    (match res with Err (WVerify e) => Some (verify_code e) | _ => None end)
    (headers_to_string (dc_signature_headers ctx)) None None body (dc_content_type ctx)
    (Some (len_i64 (String.length (dc_body ctx)))).

(** [verify_and_dispatch]: every outcome but "not found" is logged. *)
Definition log_delivery (run : WebhookRun) (ctx : DispatchCtx) (res : result WebhookError Z) : wsvc unit :=
  match res with
  | Err WNotFound => mret tt
  | _ =>
      sealed ← gets (seal_body_for_audit run (dc_instance_id ctx) (dc_name ctx) (dc_body ctx));
      let body := match sealed with Ok b => b | Err _ => None end in
      best_effort (on_db (delivery_insert (delivery_row run ctx res body)))
  end.
Definition verify_and_dispatch (run : WebhookRun) (ctx : DispatchCtx) : wsvc Z :=
  res ← attempt (verify_and_dispatch_inner run ctx);
  _ ← log_delivery run ctx res;
  lift res.

(** [replay_delivery] *)
Definition replay_delivery (run : WebhookRun) (owner_id instance_id delivery_id replayed_by_user_id : string) : wsvc Z :=
  row ← get_delivery owner_id instance_id delivery_id;
  let body := default "" (dl_body row) in
  found ← gets (fun w => instance_get_for_owner owner_id instance_id (ww_instances w));
  instance ← lift (ok_or WNotFound found);
  if has_no_sandbox instance then throw WNotReady
  else
    found ← on_db (webhook_row_get instance_id (dl_webhook_name row));
    webhook ← lift (ok_or WNotFound found);
    status ← dispatch run (mkDispatched instance (wh_name webhook) (wh_description webhook) [] body);
    sealed ← gets (seal_body_for_audit run instance_id (dl_webhook_name row) body);
    let sealed_body := match sealed with Ok b => b | Err _ => None end in
    _ ← on_db (delivery_insert (mkDelivery (wr_delivery_id run) instance_id (dl_webhook_name row) (wr_fired_at run)
          status (wr_latency_ms run)
          (Some ("replay:" +:+ delivery_id +:+ ":" +:+ replayed_by_user_id)) true None None (dl_request_headers row)
          (Some delivery_id) (Some replayed_by_user_id) sealed_body (dl_content_type row)
          (Some (len_i64 (String.length body)))));
    mret status.
End service.
