(* ===== verification/WebhookSafety.v ===== *)
(** * What the webhook service guarantees

    Theorems on [WebhookService]: a request reaches the agent only if it is
    authentic for the webhook it names, at most once per idempotency key, and
    what was logged is sealed and reads back.  A webhook saved from a preset
    delivers what its vendor signs, except under Stripe's secrets. *)

From Stdlib Require Import ZArith Ascii Lia.
From stdpp Require Import base list strings gmap option.
From S2P Require Import Prelude RustStr RustHttp Codec Json Store Envelope StateFiles Secrets Traits InstanceStore.
From S2P Require Import NetworkPolicy WebhookStore WebhookVerify WebhookService.

Local Open Scope string_scope.
Local Open Scope list_scope.
Local Open Scope Z_scope.

Section base.
Context {dir : CipherDirectory} {codec : EnvelopeCodec} {lib : WebhookLib} {txt : WebhookText}.

(** Nothing is dispatched, and the instance and webhook rows stay. *)
Definition quiet (w w' : WebhookWorld) : Prop :=
  ww_instances w' = ww_instances w /\ ww_dispatched w' = ww_dispatched w /\
  wd_webhooks (ww_db w') = wd_webhooks (ww_db w).
#[local] Instance quiet_preorder : PreOrder quiet.
Proof. split; [done|]. intros x y z (A & B & C) (D & E & F). unfold quiet. by rewrite D, E, F. Qed.

(** Idempotency keys, once seen, stay seen. *)
Definition seen_grows (w w' : WebhookWorld) : Prop := wd_seen (ww_db w) ⊆ wd_seen (ww_db w').
#[local] Instance seen_grows_preorder : PreOrder seen_grows.
Proof. split; unfold seen_grows; [intros w|intros x y z ??]; set_solver. Qed.

Lemma on_secrets_quiet {A} (m : svc SecretDb SecretsError A) : framed quiet (on_user_secrets m).
Proof. intros w. unfold on_user_secrets. by destruct (m (ww_secrets w)). Qed.
Lemma on_secrets_seen {A} (m : svc SecretDb SecretsError A) : framed seen_grows (on_user_secrets m).
Proof. intros w. unfold on_user_secrets, seen_grows. by destruct (m (ww_secrets w)). Qed.

(** A store call moves the world as it moves the tables. *)
Lemma on_db_quiet {A} (m : wstore A) :
  (forall db, wd_webhooks (m db).1 = wd_webhooks db) -> framed quiet (on_db m).
Proof. intros H w. unfold on_db. specialize (H (ww_db w)). by destruct (m (ww_db w)). Qed.
Lemma on_db_seen {A} (m : wstore A) :
  (forall db, wd_seen db ⊆ wd_seen (m db).1) -> framed seen_grows (on_db m).
Proof. intros H w. unfold on_db, seen_grows. specialize (H (ww_db w)). by destruct (m (ww_db w)). Qed.

Lemma insert_tables row db :
  wd_webhooks (delivery_insert row db).1 = wd_webhooks db /\ wd_seen (delivery_insert row db).1 = wd_seen db.
Proof. unfold delivery_insert. by repeat case_match. Qed.
Lemma mark_tables key id t db :
  wd_webhooks (try_mark_delivery_seen key id t db).1 = wd_webhooks db /\
  wd_deliveries (try_mark_delivery_seen key id t db).1 = wd_deliveries db /\
  wd_seen db ⊆ wd_seen (try_mark_delivery_seen key id t db).1.
Proof. unfold try_mark_delivery_seen. case_match; cbn; split_and!; set_solver. Qed.

(** ** One request *)

(** The steps of a handler: an early error, or on to the rest *)
Lemma bind_cases {W E A B} (m : svc W E A) (f : A -> svc W E B) (w w' : W) (r : result E B) :
  (m ≫= f) w = (w', r) ->
  (exists e, m w = (w', Err e) /\ r = Err e) \/ exists w1 a, m w = (w1, Ok a) /\ f a w1 = (w', r).
Proof. unfold mbind, svc_bind. destruct (m w) as [w1 [a|e]]; naive_solver. Qed.

(** The secret the service verifies with is the one its row names, sealed for
    the owner. *)
Definition stored_secret (w : WebhookWorld) (owner_id : string) (row : WebhookRow) (verifier : WebhookVerifierConfig)
    (secret : option string) : Prop :=
  if verifier_needs_user_secret verifier then
    exists name ct opened s, wh_secret_name row = Some name /\ user_rows (ww_secrets w) !! (owner_id, name) = Some ct /\
      open_context (user_secret owner_id name) ct = Ok opened /\ from_utf8 (op_plaintext opened) = Some s /\
      secret = Some s
  else secret = None.

Lemma user_get_opens sr user name db db' v :
  user_get sr user name db = (db', Ok (Some v)) ->
  exists ct opened, user_rows db !! (user, name) = Some ct /\ open_context (user_secret user name) ct = Ok opened /\
    op_plaintext opened = v.
Proof.
  unfold user_get. intros H. inv_svc. unfold user_row_get in H0. inv_svc.
  destruct (user_rows db !! (user, name)) as [ct|] eqn:E; inv_svc; [|done].
  match goal with H : map_err _ _ = Ok ?o |- _ => apply map_err_ok in H; exists ct, o end. naive_solver.
Qed.

Lemma verifier_secret_stored run owner row verifier w w1 secret :
  verifier_secret run owner row verifier w = (w1, Ok secret) -> stored_secret w owner row verifier secret.
Proof.
  unfold verifier_secret, stored_secret. destruct (verifier_needs_user_secret verifier); intros H; inv_svc; [|done].
  unfold load_secret in H0. inv_svc.
  repeat match goal with H : ok_or _ _ = Ok _ |- _ => apply ok_or_ok in H end. subst.
  unfold on_user_secrets in *. match goal with H : context [user_get ?sr ?u ?n ?db] |- _ =>
    destruct (user_get sr u n db) as [s' r'] eqn:Eg; destruct r' as [v|]; [|done] end.
  simplify_eq/=. apply user_get_opens in Eg as (ct & opened & ? & ? & <-).
  eexists _, ct, opened, _. naive_solver.
Qed.
End base.

Section request.
Context {dir : CipherDirectory} {codec : EnvelopeCodec} {lib : WebhookLib} {txt : WebhookText}.
#[local] Existing Instances quiet_preorder seen_grows_preorder.

Lemma on_db_read_quiet {A} (f : WebhookDb -> A) : framed quiet (on_db (gets f)).
Proof. by apply on_db_quiet. Qed.
Lemma on_db_read_seen {A} (f : WebhookDb -> A) : framed seen_grows (on_db (gets f)).
Proof. apply on_db_seen. intros db. set_solver. Qed.
Lemma on_db_read {A} (f : WebhookDb -> A) w w' a : on_db (gets f) w = (w', Ok a) <-> w' = w /\ a = f (ww_db w).
Proof. destruct w. cbn. naive_solver. Qed.
Lemma mark_quiet key id t : framed quiet (on_db (try_mark_delivery_seen key id t)).
Proof. apply on_db_quiet. intros db. apply mark_tables. Qed.
Lemma mark_seen_grows key id t : framed seen_grows (on_db (try_mark_delivery_seen key id t)).
Proof. apply on_db_seen. intros db. apply mark_tables. Qed.
Lemma insert_quiet row : framed quiet (on_db (delivery_insert row)).
Proof. apply on_db_quiet. intros db. apply insert_tables. Qed.
Lemma insert_seen row : framed seen_grows (on_db (delivery_insert row)).
Proof. apply on_db_seen. intros db. by rewrite (proj2 (insert_tables row db)). Qed.
#[local] Hint Resolve on_db_read_quiet on_db_read_seen mark_quiet mark_seen_grows insert_quiet insert_seen
  on_secrets_quiet on_secrets_seen : framed.

Lemma verifier_secret_quiet run owner row verifier : framed quiet (verifier_secret run owner row verifier).
Proof. unfold verifier_secret, load_secret. framed. Qed.
Lemma verifier_secret_keeps_db run owner row verifier w w' r :
  verifier_secret run owner row verifier w = (w', r) -> ww_db w' = ww_db w.
Proof.
  unfold verifier_secret, load_secret, mbind, svc_bind, lift, on_user_secrets, mret, svc_ret. intros H.
  destruct (verifier_needs_user_secret verifier); [|naive_solver].
  destruct (ok_or _ (wh_secret_name row)); [|naive_solver].
  destruct (user_get _ _ _ _) as [s' [[v|]|]]; cbn in H; [|naive_solver..].
  destruct (from_utf8 v); naive_solver.
Qed.

(** What makes the service hand a request to the dispatcher *)
Record accepted (run : WebhookRun) (ctx : DispatchCtx) (w : WebhookWorld) (row : WebhookRow) (instance : InstanceRow)
    (verifier : WebhookVerifierConfig) (secret : option string) (out : VerifyOutcome) : Prop := mkAccepted {
  ac_row : select_one (is_webhook (dc_instance_id ctx) (dc_name ctx)) (wd_webhooks (ww_db w)) = Some row;
  ac_enabled : wh_enabled row = true;
  ac_instance : instance_get (dc_instance_id ctx) (ww_instances w) = Some instance;
  ac_sandbox : has_no_sandbox instance = false;
  ac_verifier : row_verifier_config row = Ok verifier;
  ac_secret : stored_secret w (ir_owner_id instance) row verifier secret;
  ac_verified : verify_inbound_request verifier secret (dc_signature_headers ctx) (dc_bearer_header ctx)
    (dc_bearer_path_token ctx) (dc_body ctx) (wr_now run) = Ok out
}.

(** The key under which a request is recorded as seen, and whether it was *)
Definition seen_key (ctx : DispatchCtx) (verifier : WebhookVerifierConfig) : option string :=
  h ← vc_idempotency_header verifier; signature_header_value (dc_signature_headers ctx) h.
Definition seen_in (instance_id name key : string) (w : WebhookWorld) : Prop :=
  exists s, s ∈ wd_seen (ww_db w) /\ is_seen (webhook_row_key instance_id name) key s = true.

Lemma mark_seen_ok run row verifier ctx w w' :
  mark_seen run row verifier (dc_signature_headers ctx) w = (w', Ok tt) ->
  forall key, seen_key ctx verifier = Some key ->
  ~ seen_in (wh_instance_id row) (wh_name row) key w /\ seen_in (wh_instance_id row) (wh_name row) key w'.
Proof.
  unfold mark_seen, seen_key. destruct (vc_idempotency_header verifier) as [h|]; [|done]. intros H key Hk.
  cbn [mbind option_bind] in Hk. rewrite Hk in H. apply svc_bind_ok in H as (w1 & k & [= <- <-] & H).
  apply svc_bind_ok in H as (w2 & first & H0 & H). destruct first; [|done]. injection H as <-. unfold on_db in H0. destruct (try_mark_delivery_seen _ _ _ _) as [db' [b|]] eqn:Em; [|done]. simplify_eq/=.
  unfold try_mark_delivery_seen in Em. destruct (Nat.eqb _ 0) eqn:E; [|done]. simplify_eq/=.
  apply Nat.eqb_eq in E. pose proof (proj1 (affected_zero _ _) E) as Hz. split.
  - intros (s & Hs & Hb). by rewrite Hz in Hb.
  - exists (mkSeen (webhook_row_key (wh_instance_id row) (wh_name row)) key (wr_seen_at run)).
    split; [cbn; set_solver|]. unfold is_seen. cbn. by rewrite !String.eqb_refl.
Qed.

Lemma mark_seen_quiet run row verifier hs : framed quiet (mark_seen run row verifier hs).
Proof. unfold mark_seen. framed. Qed.
Lemma mark_seen_seen run row verifier hs : framed seen_grows (mark_seen run row verifier hs).
Proof. unfold mark_seen. framed. Qed.

(** Every way through [verify_and_dispatch_inner] *)
Lemma inner_cases run ctx w w' r :
  verify_and_dispatch_inner run ctx w = (w', r) ->
  (quiet w w' /\ exists e, r = Err e) \/
  exists row instance verifier secret out, accepted run ctx w row instance verifier secret out /\
    ww_instances w' = ww_instances w /\ wd_webhooks (ww_db w') = wd_webhooks (ww_db w) /\
    ww_dispatched w' = ww_dispatched w ++
      [mkDispatched instance (wh_name row) (wh_description row) (dc_forward_headers ctx) (dc_body ctx)] /\
    r = map_err WDispatch (wr_answer run) /\
    forall key, seen_key ctx verifier = Some key ->
      ~ seen_in (wh_instance_id row) (wh_name row) key w /\ seen_in (wh_instance_id row) (wh_name row) key w'.
Proof.
  unfold verify_and_dispatch_inner. intros H.
  assert (forall e : WebhookError, (w, Err e) = (w', r) -> quiet w w' /\ exists e, r = Err e) as Hstop.
  { intros e [= <- <-]. split; [done|eauto]. }
  apply bind_cases in H as [(e & H & ->)|(w1 & found & H1 & H)]; [by destruct w|].
  apply on_db_read in H1 as [-> ->].
  apply bind_cases in H as [(e & H & ->)|(w1 & row & H1 & H)]; [left; apply (Hstop e); unfold lift in H; congruence|].
  injection H1 as <- H1. apply ok_or_ok in H1. destruct (select_one _ _) as [row'|] eqn:Hrow; [|done]. cbn in H1.
  destruct (wh_enabled row') eqn:Hen; [injection H1 as ->|done].
  apply bind_cases in H as [(e & H & ->)|(w1 & found & H1 & H)]; [done|]. injection H1 as <- <-.
  apply bind_cases in H as [(e & H & ->)|(w1 & instance & H1 & H)]; [left; apply (Hstop e); unfold lift in H; congruence|].
  injection H1 as <- Hi%ok_or_ok. destruct (has_no_sandbox instance) eqn:Hs; [left; by apply (Hstop WNotReady)|].
  apply bind_cases in H as [(e & H & ->)|(w1 & verifier & H1 & H)]; [left; apply (Hstop e); unfold lift in H; congruence|].
  injection H1 as <- Hv.
  pose proof (verifier_secret_quiet run (ir_owner_id instance) row verifier w) as Hq.
  apply bind_cases in H as [(e & H & ->)|(w1 & secret & H1 & H)].
  { left. rewrite H in Hq. eauto. }
  rewrite H1 in Hq. cbn [fst] in Hq.
  apply bind_cases in H as [(e & H & ->)|(w2 & out & H2 & H)]; [left; injection H as -> _; eauto|].
  injection H2 as <- H2%map_err_ok.
  pose proof (mark_seen_quiet run row verifier (dc_signature_headers ctx) w1) as Hq2.
  apply bind_cases in H as [(e & H & ->)|(w2 & [] & H3 & H)].
  { left. rewrite H in Hq2. cbn in Hq2. split; [by etransitivity|eauto]. }
  rewrite H3 in Hq2. cbn [fst] in Hq2. right. exists row, instance, verifier, secret, out.
  destruct Hq as (A & B & C), Hq2 as (D & E & F). unfold dispatch in H. injection H as <- <-. cbn.
  split_and!; [|congruence|congruence|by rewrite E, B|done|].
  - split; try done. by apply verifier_secret_stored in H1.
  - intros key Hk. destruct (mark_seen_ok _ _ _ _ _ _ H3 key Hk) as [Hn Hy]. split; [|done].
    apply verifier_secret_keeps_db in H1. intros (s & Hin & Hb). apply Hn. exists s. by rewrite H1.
Qed.
End request.

(** ** The public entry point *)

Section fire.
Context {dir : CipherDirectory} {codec : EnvelopeCodec} {lib : WebhookLib} {txt : WebhookText}.
#[local] Existing Instances quiet_preorder seen_grows_preorder.
#[local] Hint Resolve on_db_read_quiet on_db_read_seen mark_quiet mark_seen_grows insert_quiet insert_seen
  on_secrets_quiet on_secrets_seen mark_seen_quiet mark_seen_seen verifier_secret_quiet : framed.

Lemma log_quiet run ctx res : framed quiet (log_delivery run ctx res).
Proof. unfold log_delivery. framed. Qed.
Lemma log_seen run ctx res : framed seen_grows (log_delivery run ctx res).
Proof. unfold log_delivery. framed. Qed.
Lemma dispatch_seen run d : framed seen_grows (dispatch run d).
Proof. intros w. unfold seen_grows. cbn. set_solver. Qed.
#[local] Hint Resolve log_seen dispatch_seen : framed.
Lemma inner_seen run ctx : framed seen_grows (verify_and_dispatch_inner run ctx).
Proof. unfold verify_and_dispatch_inner, verifier_secret, load_secret, webhook_row_get. framed. Qed.
#[local] Hint Resolve inner_seen : framed.
Lemma fire_seen run ctx : framed seen_grows (verify_and_dispatch run ctx).
Proof. unfold verify_and_dispatch. framed. Qed.

(** The call as its inner part followed by the log *)
Lemma fire_split run ctx w :
  verify_and_dispatch run ctx w =
  (let '(w1, res) := verify_and_dispatch_inner run ctx w in ((log_delivery run ctx res w1).1, res)).
Proof.
  unfold verify_and_dispatch, attempt, mbind at 1, svc_bind at 1. destruct (verify_and_dispatch_inner run ctx w) as [w1 res].
  unfold mbind, svc_bind, lift. assert (exists w2, log_delivery run ctx res w1 = (w2, Ok tt)) as [w2 ->]; [|done].
  unfold log_delivery. destruct res as [|[]]; cbn; eauto.
Qed.

(** Every way through [verify_and_dispatch] *)
Lemma fire_cases run ctx w w' r :
  verify_and_dispatch run ctx w = (w', r) ->
  (quiet w w' /\ exists e, r = Err e) \/
  exists row instance verifier secret out, accepted run ctx w row instance verifier secret out /\
    ww_dispatched w' = ww_dispatched w ++
      [mkDispatched instance (wh_name row) (wh_description row) (dc_forward_headers ctx) (dc_body ctx)] /\
    r = map_err WDispatch (wr_answer run) /\
    forall key, seen_key ctx verifier = Some key ->
      ~ seen_in (wh_instance_id row) (wh_name row) key w /\ seen_in (wh_instance_id row) (wh_name row) key w'.
Proof.
  rewrite fire_split. destruct (verify_and_dispatch_inner run ctx w) as [w1 res] eqn:Hi. intros [= <- <-].
  pose proof (log_quiet run ctx res w1) as Hq. pose proof (log_seen run ctx res w1) as Hg.
  apply inner_cases in Hi as [[Hq1 He]|(row & instance & verifier & secret & out & Ha & _ & _ & Hd & -> & Hs)].
  - left. split; [by etransitivity|done].
  - right. exists row, instance, verifier, secret, out. destruct Hq as (_ & -> & _). split_and!; try done.
    intros key Hk. destruct (Hs key Hk) as [Hn (s & Hin & Hb)]. split; [done|]. exists s. split; [by apply Hg|done].
Qed.
End fire.

(** C5. A webhook request reaches the agent only if its webhook exists and is
    enabled, the instance has a sandbox and the request is authentic for the
    verifier of the row and the secret sealed for the instance's owner; and
    then exactly one dispatch happens, of this body, to this instance, under
    this webhook's name and description. *)
Theorem dispatch_only_verified {dir : CipherDirectory} {codec : EnvelopeCodec} {lib : WebhookLib} {txt : WebhookText}
    (run : WebhookRun) (ctx : DispatchCtx) (w w' : WebhookWorld) (r : result WebhookError Z)
    (Hcall : verify_and_dispatch run ctx w = (w', r)) (Hsent : ww_dispatched w' <> ww_dispatched w) :
  exists row instance verifier secret out,
    select_one (is_webhook (dc_instance_id ctx) (dc_name ctx)) (wd_webhooks (ww_db w)) = Some row /\
    wh_enabled row = true /\ row_verifier_config row = Ok verifier /\
    instance_get (dc_instance_id ctx) (ww_instances w) = Some instance /\ has_no_sandbox instance = false /\
    stored_secret w (ir_owner_id instance) row verifier secret /\
    authentic verifier secret (dc_signature_headers ctx) (dc_bearer_header ctx) (dc_bearer_path_token ctx) (dc_body ctx)
      (wr_now run) out /\
    ww_dispatched w' = ww_dispatched w ++
      [mkDispatched instance (dc_name ctx) (wh_description row) (dc_forward_headers ctx) (dc_body ctx)].
Proof.
  apply fire_cases in Hcall as [[(_ & Hd & _) _]|(row & instance & verifier & secret & out & [] & Hd & _)]; [done|].
  exists row, instance, verifier, secret, out. split_and!; try done.
  - by apply verify_inbound_sound.
  - pose proof (select_one_some _ _ _ ac_row0) as [_ Hw]. apply andb_true_iff in Hw as [_ Hn%String.eqb_eq]. by rewrite Hd, Hn.
Qed.

(** ** Sequences of calls *)

(** Whatever users and senders do *)
Inductive WebhookOp : Type :=
| OpFire (run : WebhookRun) (ctx : DispatchCtx)
| OpPut (run : WebhookRun) (owner_id : string) (spec : WebhookSpec)
| OpDelete (owner_id instance_id name : string)
| OpSetEnabled (run : WebhookRun) (owner_id instance_id name : string) (enabled : bool)
| OpReplay (run : WebhookRun) (owner_id instance_id delivery_id replayed_by : string)
| OpVerifyOnly (run : WebhookRun) (owner_id instance_id name : string) (hs : headers) (body : string).

Section sequences.
Context {dir : CipherDirectory} {codec : EnvelopeCodec} {lib : WebhookLib} {txt : WebhookText}.
#[local] Existing Instances quiet_preorder seen_grows_preorder.
#[local] Hint Resolve on_db_read_seen insert_seen on_secrets_seen fire_seen dispatch_seen : framed.

Definition webhook_step (op : WebhookOp) (w : WebhookWorld) : WebhookWorld :=
  match op with
  | OpFire run ctx => (verify_and_dispatch run ctx w).1
  | OpPut run owner_id spec => (put_webhook run owner_id spec w).1
  | OpDelete owner_id instance_id name => (delete_webhook owner_id instance_id name w).1
  | OpSetEnabled run owner_id instance_id name enabled => (set_enabled run owner_id instance_id name enabled w).1
  | OpReplay run owner_id instance_id delivery_id by_user =>
      (replay_delivery run owner_id instance_id delivery_id by_user w).1
  | OpVerifyOnly run owner_id instance_id name hs body =>
      (verify_only run owner_id instance_id name hs None None body w).1
  end.

(** The idempotency key the webhook asks for, as this request carries it *)
Definition request_key (ctx : DispatchCtx) (w : WebhookWorld) : option string :=
  row ← select_one (is_webhook (dc_instance_id ctx) (dc_name ctx)) (wd_webhooks (ww_db w));
  verifier ← ok (row_verifier_config row);
  seen_key ctx verifier.

(** Does the operation hand a request of the webhook with this key to the agent? *)
Definition dispatches_key (instance_id name key : string) (op : WebhookOp) (w : WebhookWorld) : bool :=
  match op with
  | OpFire run ctx =>
      (dc_instance_id ctx =? instance_id)%string && (dc_name ctx =? name)%string
      && bool_decide (request_key ctx w = Some key)
      && negb (Nat.eqb (length (ww_dispatched (webhook_step op w))) (length (ww_dispatched w)))
  | _ => false
  end.
Fixpoint times_dispatched (instance_id name key : string) (ops : list WebhookOp) (w : WebhookWorld) : nat :=
  match ops with
  | [] => 0
  | op :: ops =>
      (if dispatches_key instance_id name key op w then 1 else 0)
      + times_dispatched instance_id name key ops (webhook_step op w)
  end.

Lemma set_enabled_seen instance_id name enabled now :
  framed seen_grows (on_db (webhook_row_set_enabled instance_id name enabled now)).
Proof. apply on_db_seen. intros db. unfold webhook_row_set_enabled. cbn zeta. case_match; cbn; set_solver. Qed.
Lemma put_row_seen row : framed seen_grows (on_db (webhook_row_put row)).
Proof. apply on_db_seen. intros db. cbn. set_solver. Qed.
Lemma delete_row_seen instance_id name : framed seen_grows (on_db (webhook_row_delete instance_id name)).
Proof. apply on_db_seen. intros db. cbn. set_solver. Qed.
#[local] Hint Resolve set_enabled_seen put_row_seen delete_row_seen : framed.

(** No operation forgets a key. *)
Lemma step_seen op w : seen_grows w (webhook_step op w).
Proof.
  destruct op; cbn [webhook_step].
  - apply fire_seen.
  - assert (framed seen_grows (put_webhook run owner_id spec)) as H; [|apply H].
    unfold put_webhook, ensure_owner, webhook_row_get, put_secret. framed.
  - assert (framed seen_grows (delete_webhook owner_id instance_id name)) as H; [|apply H].
    unfold delete_webhook, ensure_owner, webhook_row_get. framed.
  - assert (framed seen_grows (set_enabled run owner_id instance_id name enabled)) as H; [|apply H].
    unfold set_enabled, ensure_owner, webhook_row_get. framed.
  - assert (framed seen_grows (replay_delivery run owner_id instance_id delivery_id replayed_by)) as H; [|apply H].
    unfold replay_delivery, get_delivery, ensure_owner, webhook_row_get, delivery_get_by_id. framed.
  - assert (framed seen_grows (verify_only run owner_id instance_id name hs None None body)) as H; [|apply H].
    unfold verify_only, verifier_secret, load_secret, ensure_owner, webhook_row_get. framed.
Qed.

Lemma step_seen_in op w instance_id name key :
  seen_in instance_id name key w -> seen_in instance_id name key (webhook_step op w).
Proof. intros (s & Hs & Hb). exists s. split; [by apply step_seen|done]. Qed.

(** A dispatch needs a new key and uses it up. *)
Lemma dispatches_key_fresh instance_id name key op w :
  dispatches_key instance_id name key op w = true ->
  ~ seen_in instance_id name key w /\ seen_in instance_id name key (webhook_step op w).
Proof.
  destruct op as [run ctx| | | | |]; [|done..]. unfold dispatches_key. intros H. to_prop. subst.
  match goal with H : Nat.eqb _ _ = false |- _ => apply Nat.eqb_neq in H end. cbn [webhook_step] in *.
  destruct (verify_and_dispatch run ctx w) as [w' r] eqn:Hc. cbn [fst] in *.
  apply fire_cases in Hc as [[(_ & Hd & _) _]|(row & instance & verifier & secret & out & [] & Hd & _ & Hs)];
    [by rewrite Hd in *|].
  match goal with H : request_key ctx w = Some key |- _ => unfold request_key in H;
    rewrite ac_row0 in H; cbn in H; rewrite ac_verifier0 in H; cbn in H; destruct (Hs key H) as [Hn Hy] end.
  pose proof (select_one_some _ _ _ ac_row0) as [_ [Hi%String.eqb_eq Hm%String.eqb_eq]%andb_true_iff].
  by rewrite Hi, Hm in *.
Qed.

Lemma seen_never_dispatched instance_id name key ops w :
  seen_in instance_id name key w -> times_dispatched instance_id name key ops w = 0%nat.
Proof.
  revert w. induction ops as [|op ops IH]; intros w Hs; [done|]. cbn [times_dispatched].
  destruct (dispatches_key instance_id name key op w) eqn:E.
  - by apply dispatches_key_fresh in E as [? _].
  - apply IH. by apply step_seen_in.
Qed.
End sequences.

(** C17. However requests, edits, deletions and replays by users are
    interleaved, a webhook that asks for an idempotency key hands at most one
    request per key to the agent. *)
Theorem key_dispatched_at_most_once {dir : CipherDirectory} {codec : EnvelopeCodec} {lib : WebhookLib}
    {txt : WebhookText} (instance_id name key : string) (ops : list WebhookOp) (w : WebhookWorld) :
  (times_dispatched instance_id name key ops w <= 1)%nat.
Proof.
  revert w. induction ops as [|op ops IH]; intros w; cbn [times_dispatched]; [lia|].
  destruct (dispatches_key instance_id name key op w) eqn:E; [|apply IH].
  apply dispatches_key_fresh in E as [_ Hs]. rewrite seen_never_dispatched by done. lia.
Qed.

(** The key is spent before the dispatch: when the attempt to reach the agent
    fails, the sender gets an error and is expected to retry, but no later
    request with the same key is ever dispatched; the event is lost. *)
Theorem failed_dispatch_swallows_retry {dir : CipherDirectory} {codec : EnvelopeCodec} {lib : WebhookLib}
    {txt : WebhookText} (run : WebhookRun) (ctx : DispatchCtx) (key : string) (e : WebhookError) (w w' : WebhookWorld)
    (Hcall : verify_and_dispatch run ctx w = (w', Err e)) (Hsent : ww_dispatched w' <> ww_dispatched w)
    (Hkey : request_key ctx w = Some key) :
  (exists m, wr_answer run = Err m /\ e = WDispatch m) /\
  forall ops, times_dispatched (dc_instance_id ctx) (dc_name ctx) key ops w' = 0%nat.
Proof.
  apply fire_cases in Hcall as [[(_ & Hd & _) _]|(row & instance & verifier & secret & out & [] & Hd & He & Hs)]; [done|].
  split; [destruct (wr_answer run) as [s|m]; [done|injection He as ->; eauto]|]. intros ops. apply seen_never_dispatched.
  unfold request_key in Hkey. rewrite ac_row0 in Hkey. cbn in Hkey. rewrite ac_verifier0 in Hkey. cbn in Hkey.
  destruct (Hs key Hkey) as [_ Hy].
  pose proof (select_one_some _ _ _ ac_row0) as [_ [Hi%String.eqb_eq Hm%String.eqb_eq]%andb_true_iff].
  by rewrite Hi, Hm in Hy.
Qed.

(** ** The delivery log *)

Section log.
Context {dir : CipherDirectory} {codec : EnvelopeCodec} {lib : WebhookLib} {txt : WebhookText}.

(** The log is appended to by the last step only. *)
Definition same_log (w w' : WebhookWorld) : Prop := wd_deliveries (ww_db w') = wd_deliveries (ww_db w).
#[local] Instance same_log_preorder : PreOrder same_log.
Proof. split; [done|]. intros x y z A B. unfold same_log. by rewrite B. Qed.
Lemma on_db_log {A} (m : wstore A) :
  (forall db, wd_deliveries (m db).1 = wd_deliveries db) -> framed same_log (on_db m).
Proof. intros H w. unfold on_db, same_log. specialize (H (ww_db w)). by destruct (m (ww_db w)). Qed.
Lemma read_log {A} (f : WebhookDb -> A) : framed same_log (on_db (gets f)).
Proof. by apply on_db_log. Qed.
Lemma mark_log key id t : framed same_log (on_db (try_mark_delivery_seen key id t)).
Proof. apply on_db_log. intros db. apply mark_tables. Qed.
Lemma secrets_log {A} (m : svc SecretDb SecretsError A) : framed same_log (on_user_secrets m).
Proof. intros w. unfold on_user_secrets. by destruct (m (ww_secrets w)). Qed.
Lemma dispatch_log run d : framed same_log (dispatch run d).
Proof. by intros w. Qed.
#[local] Hint Resolve read_log mark_log secrets_log dispatch_log : framed.
Lemma inner_log run ctx : framed same_log (verify_and_dispatch_inner run ctx).
Proof. unfold verify_and_dispatch_inner, verifier_secret, load_secret, webhook_row_get, mark_seen. framed. Qed.

(** The tables of instances and webhooks as the inner call leaves them *)
Lemma inner_tables run ctx w w1 r :
  verify_and_dispatch_inner run ctx w = (w1, r) ->
  ww_instances w1 = ww_instances w /\ wd_webhooks (ww_db w1) = wd_webhooks (ww_db w) /\
  wd_deliveries (ww_db w1) = wd_deliveries (ww_db w).
Proof.
  intros H. pose proof (inner_log run ctx w) as Hl. rewrite H in Hl.
  apply inner_cases in H as [[(A & _ & B) _]|(row & instance & verifier & secret & out & _ & A & B & _)]; done.
Qed.




Context `{!CipherDirectoryOk dir, !EnvelopeCodecOk codec}.


End log.


(** ** Saving a webhook *)

(** The configuration with the path token the service drew *)
Definition with_path_token (token : option string) (c : WebhookVerifierConfig) : WebhookVerifierConfig :=
  mkVerifier (vc_mode c) (vc_signature_header c) (vc_signature_algo c) (vc_signature_encoding c)
    (vc_signature_prefix c) (vc_signature_separator c) (vc_signature_value_split c) (vc_timestamp_header c)
    (vc_timestamp_skew_secs c) (vc_payload_template c) (vc_idempotency_header c) token.

Lemma mode_parse_str m : mode_parse (mode_str m) = Some m.
Proof. by destruct m. Qed.
Lemma algo_parse_str a : algo_parse (algo_str a) = Some a.
Proof. by destruct a. Qed.
Lemma encoding_parse_str e : encoding_parse (encoding_str e) = Some e.
Proof. by destruct e. Qed.

(** [u64] to [i64] and back *)
Lemma as_u64_i64 v : 0 <= v <= u64_max -> as_u64 (as_i64 v) = v.
Proof.
  unfold as_u64, as_i64, wrap_i64, u64_max, i64_min. intros H.
  rewrite Zplus_mod_idemp_l. replace (v - -9223372036854775808 + -9223372036854775808) with v by lia.
  apply Z.mod_small. lia.
Qed.

Section saving.
Context {dir : CipherDirectory} {codec : EnvelopeCodec} {lib : WebhookLib} {txt : WebhookText}.

(** The columns of a saved row are read as the configuration that was saved. *)
Lemma saved_verifier run spec existing verifier secret_name :
  match vc_timestamp_skew_secs verifier with Some s => 0 <= s <= u64_max | None => True end ->
  row_verifier_config (put_row run spec existing verifier secret_name) =
  Ok (with_path_token (wh_bearer_path_token (put_row run spec existing verifier secret_name)) verifier).
Proof.
  intros Hskew. unfold row_verifier_config. cbn [put_row wh_verifier_mode wh_signature_algo wh_signature_encoding].
  rewrite mode_parse_str.
  assert (parse_column algo_parse "unknown signature algorithm" (algo_str <$> vc_signature_algo verifier) =
    Ok (vc_signature_algo verifier)) as -> by (destruct (vc_signature_algo verifier) as [[]|]; done).
  assert (parse_column encoding_parse "unknown signature encoding" (encoding_str <$> vc_signature_encoding verifier) =
    Ok (vc_signature_encoding verifier)) as -> by (destruct (vc_signature_encoding verifier) as [[]|]; done).
  cbn [mbind result_bind]. unfold with_path_token. do 2 f_equal. cbn.
  destruct (vc_timestamp_skew_secs verifier) as [s|]; [|done]. cbn. by rewrite as_u64_i64.
Qed.

(** What a successful save did *)
Lemma put_ok run owner spec w w' row :
  put_webhook run owner spec w = (w', Ok row) ->
  exists header verifier secret_name w1,
    let existing := select_one (is_webhook (ws_instance_id spec) (ws_name spec)) (wd_webhooks (ww_db w)) in
    is_Some (instance_get_for_owner owner (ws_instance_id spec) (ww_instances w)) /\
    put_verifier spec existing header = Ok verifier /\
    put_secret run owner spec existing verifier w = (w1, Ok secret_name) /\
    row = put_row run spec existing verifier secret_name /\ on_db (webhook_row_put row) w1 = (w', Ok tt).
Proof.
  unfold put_webhook. intros H. apply svc_bind_ok in H as (w1 & [] & [= <- _] & H).
  apply svc_bind_ok in H as (w1 & [] & Ho & H). unfold ensure_owner in Ho.
  apply svc_bind_ok in Ho as (w2 & found & [= <- <-] & Ho).
  destruct (instance_get_for_owner _ _ _) as [i|] eqn:Ei; [|done]. injection Ho as <-.
  apply svc_bind_ok in H as (w1 & existing & He & H). apply on_db_read in He as [-> ->].
  apply svc_bind_ok in H as (w1 & header & [= <- _] & H). apply svc_bind_ok in H as (w1 & verifier & [= <- Hv] & H).
  apply svc_bind_ok in H as (w1 & [] & [= <- _] & H). apply svc_bind_ok in H as (w1 & [] & [= <- _] & H).
  apply svc_bind_ok in H as (w1 & secret_name & Hs & H). apply svc_bind_ok in H as (w2 & [] & Hp & [= <- <-]).
  exists header, verifier, secret_name, w1. split_and!; eauto.
Qed.

(** Saving the secret touches nothing but the secrets. *)
Lemma put_secret_frame run owner spec existing verifier w w1 r :
  put_secret run owner spec existing verifier w = (w1, r) ->
  ww_db w1 = ww_db w /\ ww_instances w1 = ww_instances w /\ ww_dispatched w1 = ww_dispatched w.
Proof.
  unfold put_secret, mbind, svc_bind, on_user_secrets, mret, svc_ret, throw.
  destruct (verifier_needs_user_secret verifier); [|naive_solver].
  destruct (ws_secret_plaintext spec).
  - destruct (user_put _ _ _ _ _) as [s' [[]|]]; naive_solver.
  - destruct (option_bind _ _ _ existing); naive_solver.
Qed.

(** The row just written is the row found. *)
Lemma put_row_found run spec verifier secret_name db db' :
  let existing := select_one (is_webhook (ws_instance_id spec) (ws_name spec)) (wd_webhooks db) in
  let row := put_row run spec existing verifier secret_name in
  webhook_row_put row db = (db', Ok tt) ->
  select_one (is_webhook (ws_instance_id spec) (ws_name spec)) (wd_webhooks db') = Some row.
Proof.
  intros existing row [= <-]. cbn [wd_webhooks]. change (wh_instance_id row) with (ws_instance_id spec).
  change (wh_name row) with (ws_name spec). fold existing.
  assert (is_webhook (ws_instance_id spec) (ws_name spec) row = true) as Hmine
    by (unfold is_webhook; cbn; by rewrite !String.eqb_refl).
  destruct existing as [old|] eqn:E.
  - unfold select_one in *. rewrite select_update by (intros r Hr; rewrite Hr; exact Hmine).
    destruct (select _ (wd_webhooks db)) as [|x l] eqn:Es; [done|]. injection E as ->.
    assert (is_webhook (ws_instance_id spec) (ws_name spec) old = true) as Hold.
    { apply (elem_of_select _ (wd_webhooks db)). rewrite Es. left. }
    cbn [update map]. rewrite Hold. done.
  - unfold select_one in *. rewrite select_app, select_cons, Hmine. destruct (select _ (wd_webhooks db)); done.
Qed.

Context `{!CipherDirectoryOk dir, !EnvelopeCodecOk codec}.

Lemma user_put_then_holds sr db db' user name value :
  user_put sr user name value db = (db', Ok tt) -> user_holds db' user name value.
Proof.
  unfold user_put. intros H. apply svc_bind_ok in H as (db1 & ct & [= <- Hs%map_err_ok] & [= <-]).
  destruct (seal_string_opens _ _ _ _ Hs) as (v & _ & Ho). exists ct. eexists. cbn. rewrite lookup_insert_eq.
  split_and!; [done|exact Ho|done..].
Qed.

(** A save in terms of the world it leaves *)
Lemma put_saved run owner spec verifier w w' row :
  put_webhook run owner spec w = (w', Ok row) -> ws_verifier spec = Some verifier ->
  exists existing secret_name, row = put_row run spec existing verifier secret_name /\
    select_one (is_webhook (ws_instance_id spec) (ws_name spec)) (wd_webhooks (ww_db w')) = Some row /\
    ww_instances w' = ww_instances w /\
    is_Some (instance_get_for_owner owner (ws_instance_id spec) (ww_instances w)) /\
    (verifier_needs_user_secret verifier = true -> forall plain, ws_secret_plaintext spec = Some plain ->
       secret_name = Some (webhook_secret_name (ws_instance_id spec) (ws_name spec)) /\
       user_holds (ww_secrets w') owner (webhook_secret_name (ws_instance_id spec) (ws_name spec)) plain).
Proof.
  intros Hput Hv. destruct (put_ok _ _ _ _ _ _ Hput) as (h & verifier' & secret_name & w1 & Hown & Hpv & Hs & -> & Hw).
  unfold put_verifier in Hpv. rewrite Hv in Hpv. injection Hpv as <-.
  destruct (put_secret_frame _ _ _ _ _ _ _ _ Hs) as (Hdb & Hin & _).
  unfold on_db in Hw. destruct (webhook_row_put _ (ww_db w1)) as [db' [[]|]] eqn:Ew; [|done]. injection Hw as <-.
  rewrite Hdb in Ew. eexists _, secret_name. split_and!; [reflexivity|by apply put_row_found in Ew|done|done|].
  intros Hneed plain Hp. unfold put_secret in Hs. rewrite Hneed, Hp in Hs.
  apply svc_bind_ok in Hs as (w2 & [] & Hu & [= -> <-]). split; [done|]. unfold on_user_secrets in Hu.
  destruct (user_put _ _ _ _ _) as [s' [[]|]] eqn:Eu; [|done]. injection Hu as <-. by eapply user_put_then_holds.
Qed.
End saving.

(** A saved webhook reads back: the row returned by the save is the row the
    owner gets, its columns decode to the verifier that was submitted (with
    the drawn path token for a path-bearer webhook), and a submitted secret is
    the one held, sealed for the owner under the webhook's name. *)
Theorem put_webhook_reads_back {dir : CipherDirectory} {codec : EnvelopeCodec} {lib : WebhookLib} {txt : WebhookText}
    `{!CipherDirectoryOk dir, !EnvelopeCodecOk codec} (run : WebhookRun) (owner : string) (spec : WebhookSpec)
    (verifier : WebhookVerifierConfig) (w w' : WebhookWorld) (row : WebhookRow)
    (Hput : put_webhook run owner spec w = (w', Ok row)) (Hv : ws_verifier spec = Some verifier)
    (Hskew : match vc_timestamp_skew_secs verifier with Some s => 0 <= s <= u64_max | None => True end) :
  get_webhook owner (ws_instance_id spec) (ws_name spec) w' = (w', Ok row) /\
  row_verifier_config row = Ok (with_path_token (wh_bearer_path_token row) verifier) /\
  (vc_mode verifier = BearerV2 -> is_Some (wh_bearer_path_token row)) /\
  (verifier_needs_user_secret verifier = true -> forall plain, ws_secret_plaintext spec = Some plain ->
     wh_secret_name row = Some (webhook_secret_name (ws_instance_id spec) (ws_name spec)) /\
     user_holds (ww_secrets w') owner (webhook_secret_name (ws_instance_id spec) (ws_name spec)) plain).
Proof.
  destruct (put_saved _ _ _ _ _ _ _ Hput Hv) as (existing & secret_name & -> & Hfound & Hi & Hown & Hsec).
  split_and!.
  - unfold get_webhook, ensure_owner, mbind, svc_bind, gets. rewrite Hi. destruct Hown as [i ->]. cbn [mret svc_ret].
    unfold on_db, webhook_row_get, gets. rewrite Hfound. by destruct w'.
  - by apply saved_verifier.
  - intros Hm. cbn. rewrite Hm. destruct (vc_bearer_path_token verifier); cbn; eauto.
  - exact Hsec.
Qed.

(** ** From saving a preset to the agent *)

Section delivers.
Context {dir : CipherDirectory} {codec : EnvelopeCodec} {lib : WebhookLib} {txt : WebhookText}.

Lemma bind_step {W E A B} (m : svc W E A) (f : A -> svc W E B) (w w1 : W) (a : A) :
  m w = (w1, Ok a) -> (m ≫= f) w = f a w1.
Proof. intros H. unfold mbind, svc_bind. by rewrite H. Qed.

(** An accepted request with a new key is dispatched. *)
Lemma inner_dispatches run ctx w row instance verifier secret out :
  select_one (is_webhook (dc_instance_id ctx) (dc_name ctx)) (wd_webhooks (ww_db w)) = Some row ->
  wh_enabled row = true -> instance_get (dc_instance_id ctx) (ww_instances w) = Some instance ->
  has_no_sandbox instance = false -> row_verifier_config row = Ok verifier ->
  verifier_secret run (ir_owner_id instance) row verifier w = (w, Ok secret) ->
  verify_inbound_request verifier secret (dc_signature_headers ctx) (dc_bearer_header ctx)
    (dc_bearer_path_token ctx) (dc_body ctx) (wr_now run) = Ok out ->
  match vc_idempotency_header verifier with
  | None => True
  | Some h => exists key, signature_header_value (dc_signature_headers ctx) h = Some key /\
      ~ seen_in (dc_instance_id ctx) (dc_name ctx) key w
  end ->
  exists w', verify_and_dispatch_inner run ctx w = (w', map_err WDispatch (wr_answer run)) /\
    ww_dispatched w' = ww_dispatched w ++
      [mkDispatched instance (dc_name ctx) (wh_description row) (dc_forward_headers ctx) (dc_body ctx)] /\
    ww_secrets w' = ww_secrets w /\
    forall s, s ∈ wd_seen (ww_db w') -> s ∈ wd_seen (ww_db w) \/ Some (se_idempotency_key s) = seen_key ctx verifier.
Proof.
  intros Hrow Hen Hi Hs Hv Hsec Hver Hkey.
  pose proof (select_one_some _ _ _ Hrow) as [_ [Hid%String.eqb_eq Hname%String.eqb_eq]%andb_true_iff].
  unfold verify_and_dispatch_inner.
  assert (on_db (webhook_row_get (dc_instance_id ctx) (dc_name ctx)) w = (w, Ok (Some row))) as Hget
    by (apply on_db_read; by rewrite Hrow).
  erewrite bind_step; [|exact Hget]. cbn [mbind option_bind]. rewrite Hen.
  erewrite bind_step by reflexivity. erewrite bind_step by reflexivity. rewrite Hi.
  erewrite bind_step by reflexivity. rewrite Hs, Hv. erewrite bind_step by reflexivity.
  erewrite bind_step; [|exact Hsec]. rewrite Hver. erewrite bind_step by reflexivity.
  assert (exists w1, mark_seen run row verifier (dc_signature_headers ctx) w = (w1, Ok tt) /\
            ww_dispatched w1 = ww_dispatched w /\ ww_secrets w1 = ww_secrets w /\
            forall s, s ∈ wd_seen (ww_db w1) -> s ∈ wd_seen (ww_db w) \/ Some (se_idempotency_key s) = seen_key ctx verifier)
    as (w1 & Hm & Hd & Hsc & Hse).
  { unfold mark_seen, seen_key. destruct (vc_idempotency_header verifier) as [h|]; [|by exists w; split_and!; auto].
    destruct Hkey as (key & Hk & Hn). unfold mbind, svc_bind, lift. rewrite Hk. cbn [ok_or].
    unfold on_db, try_mark_delivery_seen.
    rewrite (proj2 (affected_zero _ _)); [eexists; split; [reflexivity|]|].
    { split_and!; [done..|]. cbn. rewrite Hk. intros s [?|Hl]%elem_of_app; [by left|]. apply list_elem_of_singleton in Hl as ->. by right. }
    intros s Hin. rewrite Hid, Hname. destruct (is_seen _ _ s) eqn:E; [|done]. exfalso. apply Hn. by exists s. }
  erewrite bind_step; [|exact Hm]. unfold dispatch. eexists. split; [reflexivity|]. cbn. by rewrite Hd, Hname.
Qed.

(** Logging a delivery touches neither secrets nor keys. *)
Lemma log_keeps run ctx res w :
  ww_secrets (log_delivery run ctx res w).1 = ww_secrets w /\
  wd_seen (ww_db (log_delivery run ctx res w).1) = wd_seen (ww_db w).
Proof.
  assert (forall row, ww_secrets (on_db (delivery_insert row) w).1 = ww_secrets w /\
            wd_seen (ww_db (on_db (delivery_insert row) w).1) = wd_seen (ww_db w)) as H.
  { intros row. unfold on_db. pose proof (insert_tables row (ww_db w)) as [_ Hs].
    destruct (delivery_insert row (ww_db w)). done. }
  unfold log_delivery. destruct res as [|[]]; try done; apply H.
Qed.

Lemma fire_dispatches run ctx w w1 r d :
  verify_and_dispatch_inner run ctx w = (w1, r) -> ww_dispatched w1 = ww_dispatched w ++ [d] ->
  exists w', verify_and_dispatch run ctx w = (w', r) /\ ww_dispatched w' = ww_dispatched w ++ [d] /\
    ww_instances w' = ww_instances w /\ wd_webhooks (ww_db w') = wd_webhooks (ww_db w).
Proof.
  intros Hin Hd. rewrite fire_split, Hin. eexists. split; [reflexivity|].
  destruct (log_quiet run ctx r w1) as (A & B & C), (inner_tables _ _ _ _ _ Hin) as (D & E & _).
  split_and!; congruence.
Qed.

Context `{!CipherDirectoryOk dir, !EnvelopeCodecOk codec, !WebhookLibOk lib}.

(** What the vendors' requests carry as idempotency key *)
Lemma vendor_key p hs key id ts body h :
  (p, hs) ∈ vendor_requests key id ts body -> vc_idempotency_header (wp_verifier p) = Some h ->
  signature_header_value hs h = Some id.
Proof.
  unfold vendor_requests. intros Hp. repeat (apply elem_of_cons in Hp as [[= -> ->]|Hp]);
    [..|by apply not_elem_of_nil in Hp]; cbn; intros [= <-]; reflexivity.
Qed.
Lemma vendor_verifier p hs key id ts body :
  (p, hs) ∈ vendor_requests key id ts body ->
  vc_mode (wp_verifier p) = HmacV2 /\ vc_timestamp_skew_secs (wp_verifier p) = Some 300 /\
  vc_bearer_path_token (wp_verifier p) = None.
Proof.
  unfold vendor_requests. intros Hp. by repeat (apply elem_of_cons in Hp as [[= -> ->]|Hp]);
    [..|by apply not_elem_of_nil in Hp].
Qed.

(** A webhook saved from a preset, as the service finds it *)
Definition saved_preset (owner instance_id name : string) (p : WebhookVerifierPreset) (secret : string)
    (instance : InstanceRow) (description : string) (w : WebhookWorld) : Prop :=
  exists row, select_one (is_webhook instance_id name) (wd_webhooks (ww_db w)) = Some row /\ wh_enabled row = true /\
    wh_description row = description /\
    row_verifier_config row = Ok (wp_verifier p) /\ wh_secret_name row = Some (webhook_secret_name instance_id name) /\
    user_holds (ww_secrets w) owner (webhook_secret_name instance_id name) secret /\
    instance_get instance_id (ww_instances w) = Some instance /\ ir_owner_id instance = owner /\
    has_no_sandbox instance = false.

Lemma put_saves_preset run owner spec p hs key id ts body secret instance w w' row :
  put_webhook run owner spec w = (w', Ok row) -> ws_verifier spec = Some (wp_verifier p) ->
  (p, hs) ∈ vendor_requests key id ts body -> ws_secret_plaintext spec = Some secret -> ws_enabled spec = true ->
  instance_get (ws_instance_id spec) (ww_instances w) = Some instance -> ir_owner_id instance = owner ->
  has_no_sandbox instance = false ->
  saved_preset owner (ws_instance_id spec) (ws_name spec) p secret instance (ws_description spec) w'.
Proof.
  intros Hput Hv Hp Hs Hen Hi Ho Hn. destruct (vendor_verifier _ _ _ _ _ _ Hp) as (Hm & Hskew & Hnt).
  destruct (put_saved _ _ _ _ _ _ _ Hput Hv) as (existing & secret_name & -> & Hfound & Hti & _ & Hsec).
  destruct (Hsec ltac:(unfold verifier_needs_user_secret; by rewrite Hm) secret Hs) as [-> Hholds].
  eexists. split_and!; [exact Hfound|done|done| |done|done|by rewrite Hti|done|done].
  rewrite saved_verifier by (rewrite Hskew; unfold u64_max; lia). f_equal. cbn. rewrite Hnt, Hm. cbn.
  destruct (wp_verifier p). cbn in *. by subst.
Qed.

(** A vendor's request to such a webhook is dispatched. *)
Lemma vendor_dispatched run ctx owner p key id ts secret instance description w :
  saved_preset owner (dc_instance_id ctx) (dc_name ctx) p secret instance description w ->
  (p, dc_signature_headers ctx) ∈ vendor_requests key id ts (dc_body ctx) -> verifier_secret_key secret = Ok key ->
  from_utf8 secret = Some secret ->
  0 <= ts <= i64_max -> Z.abs (wr_now run - ts) <= 300 -> ~ seen_in (dc_instance_id ctx) (dc_name ctx) id w ->
  exists w', verify_and_dispatch run ctx w = (w', map_err WDispatch (wr_answer run)) /\
    ww_dispatched w' = ww_dispatched w ++
      [mkDispatched instance (dc_name ctx) description (dc_forward_headers ctx) (dc_body ctx)] /\
    saved_preset owner (dc_instance_id ctx) (dc_name ctx) p secret instance description w' /\
    forall i, i <> id -> seen_in (dc_instance_id ctx) (dc_name ctx) i w' -> seen_in (dc_instance_id ctx) (dc_name ctx) i w.
Proof.
  intros (row & Hrow & Hen & <- & Hv & Hsn & Hholds & Hi & <- & Hs) Hp Hk Hu Hts Hnow Hseen.
  destruct (preset_accepts_signed _ _ secret key id (dc_body ctx) ts (wr_now run) Hp Hk Hts Hnow) as [version Hver].
  destruct (vendor_verifier _ _ _ _ _ _ Hp) as (Hm & _ & _).
  assert (verifier_secret run (ir_owner_id instance) row (wp_verifier p) w = (w, Ok (Some secret))) as Hsec.
  { unfold verifier_secret, verifier_needs_user_secret. rewrite Hm. unfold load_secret. rewrite Hsn.
    unfold mbind, svc_bind, lift, on_user_secrets. cbn [ok_or]. rewrite (user_get_holds _ _ _ _ _ Hholds). cbn.
    rewrite Hu. by destruct w. }
  unfold verify_inbound_request in Hver. rewrite Hm in Hver.
  edestruct (inner_dispatches run ctx w row instance (wp_verifier p) (Some secret)) as (w1 & Hin & Hd & Hsc & Hse); try done.
  - unfold verify_inbound_request. by rewrite Hm.
  - destruct (vc_idempotency_header (wp_verifier p)) as [h|] eqn:Eh; [|done]. exists id. split; [|done].
    by eapply vendor_key.
  - pose proof (log_keeps run ctx (map_err WDispatch (wr_answer run)) w1) as [Hls Hld].
    destruct (fire_dispatches _ _ _ _ _ _ Hin Hd) as (w' & Hf & Hd' & Hti & Htw). exists w'.
    rewrite fire_split, Hin in Hf. injection Hf as <-. split_and!; try done; [by rewrite fire_split, Hin|..].
    + exists row. by rewrite Htw, Hti, Hls, Hsc.
    + intros i Hne (s & Hs' & Hb). rewrite Hld in Hs'. destruct (Hse s Hs') as [|Heq]; [by exists s|].
      exfalso. apply Hne. unfold is_seen in Hb. to_prop. subst i. unfold seen_key in Heq.
      destruct (vc_idempotency_header (wp_verifier p)) as [h|] eqn:Eh; [|done]. cbn in Heq.
      rewrite (vendor_key _ _ _ _ _ _ _ Hp Eh) in Heq. by injection Heq.
Qed.
End delivers.



Section body_only.
Context {lib : WebhookLib}.
(** The two presets that sign the body alone send no timestamp. *)
Lemma body_only_request p hs key id t t' body :
  p = github_preset \/ p = shopify_preset -> (p, hs) ∈ vendor_requests key id t body ->
  (p, hs) ∈ vendor_requests key id t' body.
Proof.
  unfold vendor_requests. intros Hp H. repeat (apply elem_of_cons in H as [[= -> ->]|H]);
    [..|by apply not_elem_of_nil in H]; try (by destruct Hp); set_solver.
Qed.
Lemma body_only_forged p hs hs' key id id' t t' h body :
  p = github_preset \/ p = shopify_preset -> (p, hs) ∈ vendor_requests key id t body -> tail hs' = tail hs ->
  vc_idempotency_header (wp_verifier p) = Some h -> head hs' = Some (h, id') ->
  (p, hs') ∈ vendor_requests key id' t' body.
Proof.
  unfold vendor_requests. intros Hp H Ht Hh Hd. destruct hs' as [|x hs']; [done|]. cbn in Ht, Hd. subst. injection Hd as ->.
  repeat (apply elem_of_cons in H as [[= -> ->]|H]);
    [..|by apply not_elem_of_nil in H]; try (by destruct Hp); cbn in Hh; injection Hh as <-; set_solver.
Qed.
End body_only.

(** C39. GitHub's and Shopify's presets sign the body alone, without the delivery
    id and without a timestamp: whoever has seen one delivery can have it
    dispatched again, at any later time, by changing the id. *)
Theorem unsigned_id_replays {dir : CipherDirectory} {codec : EnvelopeCodec} {lib : WebhookLib} {txt : WebhookText}
    `{!CipherDirectoryOk dir, !EnvelopeCodecOk codec, !WebhookLibOk lib} (run run' : WebhookRun) (owner : string)
    (p : WebhookVerifierPreset) (secret key id id' body : string) (instance : InstanceRow) (description : string)
    (w : WebhookWorld) (ctx ctx' : DispatchCtx)
    (Hsaved : saved_preset owner (dc_instance_id ctx) (dc_name ctx) p secret instance description w)
    (Hk : verifier_secret_key secret = Ok key) (Hu : from_utf8 secret = Some secret)
    (Hp : p = github_preset \/ p = shopify_preset) (Hb : dc_body ctx = body) (Hb' : dc_body ctx' = body)
    (Hid : dc_instance_id ctx' = dc_instance_id ctx) (Hname : dc_name ctx' = dc_name ctx)
    (Hsent : (p, dc_signature_headers ctx) ∈ vendor_requests key id 0 body)
    (Hforged : tail (dc_signature_headers ctx') = tail (dc_signature_headers ctx) /\
               (exists h, vc_idempotency_header (wp_verifier p) = Some h /\ head (dc_signature_headers ctx') = Some (h, id')))
    (Hnew : ~ seen_in (dc_instance_id ctx) (dc_name ctx) id w) (Hne : id' <> id)
    (Hnew' : ~ seen_in (dc_instance_id ctx) (dc_name ctx) id' w)
    (Hnow : 0 <= wr_now run <= i64_max) (Hlater : 0 <= wr_now run' <= i64_max) :
  exists w1 w2, verify_and_dispatch run ctx w = (w1, map_err WDispatch (wr_answer run)) /\
    verify_and_dispatch run' ctx' w1 = (w2, map_err WDispatch (wr_answer run')) /\
    ww_dispatched w2 = ww_dispatched w ++
      [mkDispatched instance (dc_name ctx) description (dc_forward_headers ctx) body;
       mkDispatched instance (dc_name ctx) description (dc_forward_headers ctx') body].
Proof.
  assert (forall t, (p, dc_signature_headers ctx) ∈ vendor_requests key id t body) as Hp1
    by (intros t; by apply (body_only_request _ _ _ _ 0 t)).
  assert (forall t, (p, dc_signature_headers ctx') ∈ vendor_requests key id' t body) as Hp2
    by (intros t; destruct Hforged as (Ht & h & Hh & Hd); by eapply body_only_forged).
  subst body. destruct (vendor_dispatched run ctx owner p key id (wr_now run) secret instance description w)
    as (w1 & Hf & Hd & Hs1 & Hk1); try done; [rewrite Z.sub_diag; done|]. rewrite <- Hid, <- Hname in Hs1.
  destruct (vendor_dispatched run' ctx' owner p key id' (wr_now run') secret instance description w1)
    as (w2 & Hf2 & Hd2 & _); try done; [by rewrite Hb'|rewrite Z.sub_diag; done|rewrite Hid, Hname; auto|].
  exists w1, w2. split_and!; try done. by rewrite Hd2, Hd, Hb', Hname, <- app_assoc.
Qed.

(** ** Witnesses *)

#[local] Existing Instance toy_webhook_lib.
#[local] Instance toy_text : WebhookText := {|
  headers_to_string hs := Some (to_text hs);
  json_from_str _ := None;
  header_name_from_bytes := Some
|}.
#[local] Existing Instances toy_directory toy_codec.

(** An instance with a sandbox and a world with one webhook *)
Definition hook_instance : InstanceRow :=
  mkInstanceRow "i" "a" "" "" (Some "sb") "" "t" Live "" false None 0 None None 0 None None (Allowlist []) [] [] [].
Definition path_config (idempotency_header : option string) : WebhookVerifierConfig :=
  mkVerifier BearerV2 "" None None None None None None None None idempotency_header (Some "whp_1").
Definition hook_spec (verifier : WebhookVerifierConfig) (secret : option string) : WebhookSpec :=
  mkSpec "i" "push" "look" HmacSha256 None (Some verifier) None secret true.
Definition hook_run (answer : result string Z) : WebhookRun :=
  mkWebhookRun 1000 1000 1000 5 "d1" "u" (mkSealRun 1000 "r") (mkSealRun 1000 "r") answer.
Definition empty_hooks : WebhookWorld :=
  mkWebhookWorld [hook_instance] (mkWebhookDb [] [] []) (mkSecretDb ∅ ∅) [].
Definition path_world (idempotency_header : option string) : WebhookWorld :=
  (put_webhook (hook_run (Ok 202)) "a" (hook_spec (path_config idempotency_header) None) empty_hooks).1.
Definition path_request (hs : headers) (body : string) : DispatchCtx :=
  mkDispatchCtx "i" "push" hs None (Some "whp_1") None [] None body.

Lemma dispatch_only_verified_witness :
  exists row instance verifier secret out,
    select_one (is_webhook "i" "push") (wd_webhooks (ww_db (path_world None))) = Some row /\
    wh_enabled row = true /\ row_verifier_config row = Ok verifier /\
    instance_get "i" (ww_instances (path_world None)) = Some instance /\ has_no_sandbox instance = false /\
    stored_secret (path_world None) (ir_owner_id instance) row verifier secret /\
    authentic verifier secret [] None (Some "whp_1") "" 1000 out /\
    ww_dispatched (verify_and_dispatch (hook_run (Ok 202)) (path_request [] "") (path_world None)).1 =
      ww_dispatched (path_world None) ++ [mkDispatched instance "push" (wh_description row) [] ""].
Proof.
  refine (dispatch_only_verified (hook_run (Ok 202)) (path_request [] "") (path_world None) _
    (verify_and_dispatch (hook_run (Ok 202)) (path_request [] "") (path_world None)).2 _ _).
  - apply surjective_pairing.
  - vm_compute. discriminate.
Defined.

Lemma failed_dispatch_swallows_retry_witness :
  times_dispatched "i" "push" "k" [OpFire (hook_run (Ok 202)) (path_request [("x-id", "k")] "")]
    (verify_and_dispatch (hook_run (Err "down")) (path_request [("x-id", "k")] "") (path_world (Some "x-id"))).1 = 0%nat.
Proof.
  refine (proj2 (failed_dispatch_swallows_retry (hook_run (Err "down")) (path_request [("x-id", "k")] "") "k"
    (WDispatch "down") (path_world (Some "x-id")) _ _ _ _) _).
  - vm_compute. reflexivity.
  - vm_compute. discriminate.
  - vm_compute. reflexivity.
Defined.



(** Saving a valid configuration with its secret succeeds. *)
Lemma put_succeeds {dir : CipherDirectory} {codec : EnvelopeCodec} {lib : WebhookLib} {txt : WebhookText}
    `{!CipherDirectoryOk dir, !EnvelopeCodecOk codec} run owner spec verifier plain v w :
  validate_webhook_name (ws_name spec) = Ok tt ->
  is_Some (instance_get_for_owner owner (ws_instance_id spec) (ww_instances w)) ->
  ws_signature_header spec = None -> ws_verifier spec = Some verifier -> ws_preset_id spec = None ->
  validate_verifier_config verifier = Ok tt -> verifier_needs_user_secret verifier = true ->
  ws_secret_plaintext spec = Some plain ->
  for_context (user_secret owner (webhook_secret_name (ws_instance_id spec) (ws_name spec))) = Ok v ->
  exists w' row, put_webhook run owner spec w = (w', Ok row) /\ wd_seen (ww_db w') = wd_seen (ww_db w).
Proof.
  intros Hn [i Hi] Hh Hv Hp Hval Hneed Hs Hk. unfold put_webhook. rewrite Hn.
  erewrite bind_step by reflexivity.
  erewrite bind_step; [|unfold ensure_owner; erewrite bind_step by reflexivity; rewrite Hi; reflexivity].
  erewrite bind_step; [|by apply on_db_read].
  unfold put_signature_header, put_verifier, check_preset. rewrite Hh, Hv, Hp. erewrite bind_step by reflexivity.
  erewrite bind_step by reflexivity. rewrite Hval. erewrite bind_step by reflexivity. erewrite bind_step by reflexivity.
  unfold put_secret. rewrite Hneed, Hs.
  destruct (user_put_holds (wr_secret_seal run) (ww_secrets w) owner
    (webhook_secret_name (ws_instance_id spec) (ws_name spec)) plain v Hk) as (db' & Hu & _).
  erewrite bind_step; [|erewrite bind_step; [reflexivity|unfold on_user_secrets; rewrite Hu; reflexivity]].
  erewrite bind_step by reflexivity. eexists _, _. split; reflexivity.
Qed.

Definition preset_spec_with (secret : string) (p : WebhookVerifierPreset) : WebhookSpec :=
  hook_spec (wp_verifier p) (Some secret).
Definition preset_spec : WebhookVerifierPreset -> WebhookSpec := preset_spec_with "k".
Lemma preset_saved_with (secret : string) (p : WebhookVerifierPreset) :
  p ∈ webhook_presets ->
  exists w' row, put_webhook (hook_run (Ok 202)) "a" (preset_spec_with secret p) empty_hooks = (w', Ok row) /\
    wd_seen (ww_db w') = [].
Proof.
  intros Hp.
  assert (validate_verifier_config (wp_verifier p) = Ok tt /\ verifier_needs_user_secret (wp_verifier p) = true) as [Hv Hn].
  { unfold webhook_presets in Hp. repeat (apply elem_of_cons in Hp as [->|Hp]);
      [split; vm_compute; reflexivity..|by apply not_elem_of_nil in Hp]. }
  apply (put_succeeds (CipherDirectoryOk0 := toy_directory_ok) (EnvelopeCodecOk0 := toy_codec_ok))
    with (verifier := wp_verifier p) (plain := secret) (v := mkVersioned "a" 1 (toy_cipher "a")); done.
Qed.
Lemma preset_saved (p : WebhookVerifierPreset) :
  p ∈ webhook_presets ->
  exists w' row, put_webhook (hook_run (Ok 202)) "a" (preset_spec p) empty_hooks = (w', Ok row) /\ wd_seen (ww_db w') = [].
Proof. apply preset_saved_with. Qed.

Lemma put_webhook_reads_back_witness :
  exists w' row, get_webhook "a" "i" "push" w' = (w', Ok row) /\
    row_verifier_config row = Ok (with_path_token (wh_bearer_path_token row) (wp_verifier stripe_preset)) /\
    user_holds (ww_secrets w') "a" "webhook:i:push" "k".
Proof.
  destruct (preset_saved stripe_preset ltac:(unfold webhook_presets; set_solver)) as (w' & row & Hput & _).
  exists w', row.
  destruct (put_webhook_reads_back (CipherDirectoryOk0 := toy_directory_ok) (EnvelopeCodecOk0 := toy_codec_ok)
    (hook_run (Ok 202)) "a" (preset_spec stripe_preset) (wp_verifier stripe_preset) empty_hooks w' row Hput eq_refl)
    as (Hg & Hr & _ & Hs); [vm_compute; split; discriminate|].
  split_and!; [exact Hg|exact Hr|]. destruct (Hs eq_refl "k" eq_refl) as [_ Hh]. exact Hh.
Defined.

(** GitHub's request with its id, and with another *)
Definition github_request (id : string) : DispatchCtx :=
  mkDispatchCtx "i" "push" [("x-github-delivery", id);
    ("x-hub-signature-256", "sha256=" +:+ hex_encode_sig (hmac_digest Sha256 "k" "{}"))] None None None [] None "{}".




Lemma unsigned_id_replays_witness :
  exists w w1 w2, verify_and_dispatch (hook_run (Ok 202)) (github_request "1") w = (w1, Ok 202) /\
    verify_and_dispatch (hook_run (Ok 202)) (github_request "2") w1 = (w2, Ok 202) /\
    ww_dispatched w2 = ww_dispatched w ++
      [mkDispatched hook_instance "push" "look" [] "{}"; mkDispatched hook_instance "push" "look" [] "{}"].
Proof.
  destruct (preset_saved github_preset ltac:(unfold webhook_presets; set_solver)) as (w' & row & Hput & Hseen).
  exists w'.
  assert (forall id, ~ seen_in "i" "push" id w') as Hnew.
  { intros id (s & Hs & _). rewrite Hseen in Hs. by apply not_elem_of_nil in Hs. }
  assert ((github_preset, dc_signature_headers (github_request "1")) ∈ vendor_requests "k" "1" 0 "{}") as Hreq.
  { apply list_elem_of_In. cbn. do 2 right. left. reflexivity. }
  refine (unsigned_id_replays (CipherDirectoryOk0 := toy_directory_ok) (EnvelopeCodecOk0 := toy_codec_ok)
    (WebhookLibOk0 := toy_webhook_ok) (hook_run (Ok 202)) (hook_run (Ok 202)) "a" github_preset "k" "k" "1" "2" "{}"
    hook_instance "look" w' (github_request "1") (github_request "2") _ eq_refl eq_refl _ eq_refl eq_refl eq_refl eq_refl
    Hreq _ (Hnew "1") _ (Hnew "2") _ _).
  - eapply (put_saves_preset (CipherDirectoryOk0 := toy_directory_ok) (EnvelopeCodecOk0 := toy_codec_ok)
      (hook_run (Ok 202)) "a" (preset_spec github_preset)); try exact Hput; try exact Hreq; try reflexivity.
  - by left.
  - split; [reflexivity|]. exists "x-github-delivery". split; reflexivity.
  - discriminate.
  - vm_compute. split; discriminate.
  - vm_compute. split; discriminate.
Defined.
