(* ===== verification/Base64.v ===== *)
(** * The hand-written base64 encoder

    Models [base64_encode] of [crates/swarm/src/http/webhooks.rs], which the
    delivery detail page uses for bodies, and proves it right against a
    decoder of the standard alphabet (RFC 4648, section 4). *)

From Stdlib Require Import ZArith Ascii Lia.
From stdpp Require Import base list strings option.
From S2P Require Import Prelude RustStr.

Local Open Scope string_scope.
Local Open Scope list_scope.
Local Open Scope Z_scope.

(** [ALPHA] *)
Definition ALPHA : string := "ABCDEFGHIJKLMNOPQRSTUVWXYZabcdefghijklmnopqrstuvwxyz0123456789+/".

(** [ALPHA[n as usize] as char] *)
Definition alpha (n : Z) : ascii := default "000"%char (String.get (Z.to_nat n) ALPHA).

(** The four six-bit groups of a 24-bit number *)
Definition sextet (n shift : Z) : ascii := alpha (Z.land (Z.shiftr n shift) 63).

(** [base64_encode]: [chunks_exact(3)], then the remainder *)
Fixpoint base64_encode (input : string) : string :=
  match input with
  | String a (String b (String c rest)) =>
      let n := Z.lor (Z.lor (Z.shiftl (byte_val a) 16) (Z.shiftl (byte_val b) 8)) (byte_val c) in
      String (sextet n 18) (String (sextet n 12) (String (sextet n 6) (String (sextet n 0) (base64_encode rest))))
  | String a (String b EmptyString) =>
      let n := Z.lor (Z.shiftl (byte_val a) 16) (Z.shiftl (byte_val b) 8) in
      String (sextet n 18) (String (sextet n 12) (String (sextet n 6) "="))
  | String a EmptyString =>
      let n := Z.shiftl (byte_val a) 16 in
      String (sextet n 18) (String (sextet n 12) "==")
  | EmptyString => EmptyString
  end.

(** ** The reference decoder *)

(** The value of a character of the alphabet *)
Definition alpha_value (c : ascii) : option Z :=
  let v := byte_val c in
  if in_range 65 90 c then Some (v - 65)
  else if in_range 97 122 c then Some (v - 71)
  else if in_range 48 57 c then Some (v + 4)
  else if Ascii.eqb c "+" then Some 62
  else if Ascii.eqb c "/" then Some 63
  else None.

Definition byte_of (n : Z) : ascii := ascii_of_N (Z.to_N (n mod 256)).

(** Groups of four characters; the last may end in one or two ["="]. *)
Fixpoint base64_decode (s : string) : option string :=
  match s with
  | EmptyString => Some EmptyString
  | String p (String q (String r (String t rest))) =>
      x ← alpha_value p;
      y ← alpha_value q;
      if Ascii.eqb r "=" && Ascii.eqb t "=" && is_empty rest then
        Some (String (byte_of ((x * 262144 + y * 4096) / 65536)) EmptyString)
      else
        z ← alpha_value r;
        if Ascii.eqb t "=" && is_empty rest then
          let n := x * 262144 + y * 4096 + z * 64 in
          Some (String (byte_of (n / 65536)) (String (byte_of (n / 256)) EmptyString))
        else
          u ← alpha_value t;
          let n := x * 262144 + y * 4096 + z * 64 + u in
          decoded ← base64_decode rest;
          Some (String (byte_of (n / 65536)) (String (byte_of (n / 256)) (String (byte_of n) decoded)))
  | _ => None
  end.

(** ** Proofs *)

Lemma alpha_value_alpha n : 0 <= n < 64 -> alpha_value (alpha n) = Some n /\ Ascii.eqb (alpha n) "=" = false.
Proof.
  intros H. assert (exists k, (k < 64)%nat /\ n = Z.of_nat k) as (k & Hk & ->) by (exists (Z.to_nat n); lia).
  do 64 (destruct k as [|k]; [split; vm_compute; reflexivity|]). lia.
Qed.

(** Bit fields as arithmetic *)
Lemma lor_shiftl a b k : 0 <= k -> 0 <= b < 2 ^ k -> Z.lor (Z.shiftl a k) b = a * 2 ^ k + b.
Proof.
  intros Hk Hb. rewrite <- Z.shiftl_mul_pow2 by done. pose proof (Z.add_lor_land (Z.shiftl a k) b) as H.
  enough (Z.land (Z.shiftl a k) b = 0) as H0 by by rewrite H0, Z.add_0_r in H. clear H. apply Z.bits_inj'. intros i Hi.
  rewrite Z.land_spec, Z.bits_0. destruct (Z_lt_le_dec i k) as [Hlt|Hge].
  - by rewrite Z.shiftl_spec_low.
  - destruct (Z.eq_dec b 0) as [->|Hne]; [by rewrite Z.bits_0, andb_false_r|].
    rewrite (Z.bits_above_log2 b i); [apply andb_false_r|lia|]. apply Z.lt_le_trans with k; [|lia]. apply Z.log2_lt_pow2; lia.
Qed.
Lemma sextet_arith n shift : 0 <= shift -> sextet n shift = alpha (n / 2 ^ shift mod 64).
Proof.
  intros Hs. unfold sextet. rewrite Z.shiftr_div_pow2 by done. change 63 with (Z.ones 6). by rewrite Z.land_ones by lia.
Qed.
Lemma sextet_value n shift : 0 <= shift ->
  alpha_value (sextet n shift) = Some (n / 2 ^ shift mod 64) /\ Ascii.eqb (sextet n shift) "=" = false.
Proof. intros Hs. rewrite sextet_arith by done. apply alpha_value_alpha, Z.mod_pos_bound. lia. Qed.

Lemma byte_of_val c n : n mod 256 = byte_val c -> byte_of n = c.
Proof.
  intros H. unfold byte_of. rewrite H. unfold byte_val. by rewrite N2Z.id, ascii_N_embedding.
Qed.

(** The three shapes of a number of the encoder *)
Lemma pack_three a b c : 0 <= a < 256 -> 0 <= b < 256 -> 0 <= c < 256 ->
  Z.lor (Z.lor (Z.shiftl a 16) (Z.shiftl b 8)) c = a * 65536 + b * 256 + c.
Proof.
  intros Ha Hb Hc. replace (Z.shiftl a 16) with (Z.shiftl (Z.shiftl a 8) 8) by (by rewrite Z.shiftl_shiftl).
  rewrite <- Z.shiftl_lor, (lor_shiftl a b 8), lor_shiftl by lia. lia.
Qed.
Lemma pack_two a b : 0 <= a < 256 -> 0 <= b < 256 ->
  Z.lor (Z.shiftl a 16) (Z.shiftl b 8) = a * 65536 + b * 256.
Proof. intros Ha Hb. pose proof (pack_three a b 0 Ha Hb ltac:(lia)) as H. by rewrite Z.lor_0_r, Z.add_0_r in H. Qed.
Lemma pack_one a : Z.shiftl a 16 = a * 65536.
Proof. by rewrite Z.shiftl_mul_pow2 by lia. Qed.

(** A 24-bit number is its four six-bit groups. *)
Lemma sextets_join n : 0 <= n < 16777216 ->
  n / 2 ^ 18 mod 64 * 262144 + n / 2 ^ 12 mod 64 * 4096 + n / 2 ^ 6 mod 64 * 64 + n / 2 ^ 0 mod 64 = n.
Proof.
  change (2 ^ 18) with 262144. change (2 ^ 12) with 4096. change (2 ^ 6) with 64. change (2 ^ 0) with 1.
  intros H. Z.div_mod_to_equations. lia.
Qed.
(** Its bytes *)
Lemma unpack a b c : 0 <= a < 256 -> 0 <= b < 256 -> 0 <= c < 256 ->
  let n := a * 65536 + b * 256 + c in n / 65536 mod 256 = a /\ n / 256 mod 256 = b /\ n mod 256 = c.
Proof. intros Ha Hb Hc n. unfold n. split_and!; Z.div_mod_to_equations; lia. Qed.

(** The encoder is right: decoding what it produces, by the standard
    alphabet and padding rules, gives the bytes back, whatever they are. *)
Theorem base64_decode_encode (s : string) : base64_decode (base64_encode s) = Some s.
Proof.
  induction s as [s IH] using (induction_ltof1 _ String.length). unfold ltof in IH.
  destruct s as [|a [|b [|c rest]]]; [done|..]; cbn [base64_encode]; cbn zeta;
    pose proof (byte_val_range a) as Ha; try pose proof (byte_val_range b) as Hb; try pose proof (byte_val_range c) as Hc;
    rewrite ?pack_three, ?pack_two, ?pack_one by done;
    match goal with |- context [sextet ?n 18] =>
      destruct (sextet_value n 18 ltac:(lia)) as [E18 _], (sextet_value n 12 ltac:(lia)) as [E12 _],
        (sextet_value n 6 ltac:(lia)) as [E6 N6], (sextet_value n 0 ltac:(lia)) as [E0 N0];
      pose proof (sextets_join n ltac:(lia)) as Hj end;
    cbn [base64_decode]; rewrite E18, E12; cbn [mbind option_bind].
  - destruct (unpack (byte_val a) 0 0) as (U & _ & _); [lia..|].
    assert (byte_val a * 65536 / 2 ^ 6 mod 64 = 0 /\ byte_val a * 65536 / 2 ^ 0 mod 64 = 0) as [Z6 Z0].
    { change (2 ^ 6) with 64. change (2 ^ 0) with 1. split; Z.div_mod_to_equations; lia. }
    rewrite Z6, Z0 in Hj. cbn [Ascii.eqb is_empty andb Bool.eqb]. do 2 f_equal. apply byte_of_val.
    match goal with |- ?e / _ mod _ = _ => replace e with (byte_val a * 65536 + 0 * 256 + 0) by lia end. exact U.
  - destruct (unpack (byte_val a) (byte_val b) 0) as (U & V & _); [lia..|].
    assert ((byte_val a * 65536 + byte_val b * 256) / 2 ^ 0 mod 64 = 0) as Z0.
    { change (2 ^ 0) with 1. Z.div_mod_to_equations. lia. }
    rewrite Z0 in Hj. rewrite N6. cbn [andb]. rewrite E6. cbn [mbind option_bind Ascii.eqb is_empty andb Bool.eqb].
    do 2 f_equal; [|f_equal]; apply byte_of_val;
      match goal with |- ?e / _ mod _ = _ => replace e with (byte_val a * 65536 + byte_val b * 256 + 0) by lia end; assumption.
  - destruct (unpack (byte_val a) (byte_val b) (byte_val c)) as (U & V & W); [done..|].
    rewrite N6. cbn [andb]. rewrite E6. cbn [mbind option_bind]. rewrite N0. cbn [andb]. rewrite E0. cbn [mbind option_bind].
    rewrite IH by (cbn; lia). cbn [mbind option_bind]. rewrite Hj.
    do 2 f_equal; [|f_equal; [|f_equal]]; by apply byte_of_val.
Qed.
