(* ===== verification/WebhookHttp.v ===== *)
(** * The webhook routes

    Models the handlers of [crates/swarm/src/http/webhooks.rs] over
    [WebhookService]: the owner's create, update, delete, listing, verify-only
    and replay routes, the public firing route, and the views they answer
    with.  JSON bodies are the records serde fills; [HeaderValue::to_str], the
    JSON parser and the digest of the audit parameters are arguments. *)

From Stdlib Require Import ZArith Ascii Lia.
From stdpp Require Import base list strings gmap option.
From S2P Require Import Prelude RustStr RustHttp Codec Json Store Envelope StateFiles Secrets Traits InstanceStore Base64.
From S2P Require Import NetworkPolicy WebhookStore WebhookVerify WebhookService WebhookSafety.

Local Open Scope string_scope.
Local Open Scope list_scope.
Local Open Scope Z_scope.

(** ** Views *)

(** [WebhookView] *)
Record WebhookView : Type := mkWebhookView {
  wv_name : string;
  wv_description : string;
  wv_auth_scheme : string;
  wv_signature_header : string;
  wv_verifier_mode : string;
  wv_signature_algo : option string;
  wv_signature_encoding : option string;
  wv_signature_prefix : option string;
  wv_signature_separator : option string;
  wv_signature_value_split : option string;
  wv_timestamp_header : option string;
  wv_timestamp_skew_secs : option Z;
  wv_payload_template : option string;
  wv_idempotency_header : option string;
  wv_bearer_path_token : option string;
  wv_preset_id : option string;
  wv_enabled : bool;
  wv_created_at : Z;
  wv_updated_at : Z;
  wv_has_secret : bool;
  wv_path : string
}.
(** [WebhookView::from_row] *)
Definition webhook_path (r : WebhookRow) : string :=
  let base := "/webhooks/" +:+ wh_instance_id r +:+ "/" +:+ wh_name r in
  if (wh_verifier_mode r =? "bearer_v2")%string then
    match wh_bearer_path_token r with Some token => base +:+ "/" +:+ token | None => base end
  else base.
Definition webhook_view (r : WebhookRow) : WebhookView :=
  mkWebhookView (wh_name r) (wh_description r) (scheme_str (wh_auth_scheme r)) (wh_signature_header r)
    (wh_verifier_mode r) (wh_signature_algo r) (wh_signature_encoding r) (wh_signature_prefix r)
    (wh_signature_separator r) (wh_signature_value_split r) (wh_timestamp_header r) (wh_timestamp_skew_secs r)
    (wh_payload_template r) (wh_idempotency_header r) (wh_bearer_path_token r) (wh_preset_id r) (wh_enabled r)
    (wh_created_at r) (wh_updated_at r) (bool_decide (is_Some (wh_secret_name r))) (webhook_path r).

(** [DeliveryView], [AuditDeliveryView] *)
Record DeliveryView : Type := mkDeliveryView {
  dv_id : string;
  dv_fired_at : Z;
  dv_status_code : Z;
  dv_latency_ms : Z;
  dv_signature_ok : bool;
  dv_request_id : option string;
  dv_error : option string;
  dv_verify_error : option string;
  dv_body_size : option Z;
  dv_content_type : option string
}.
Definition delivery_view (r : DeliveryRow) : DeliveryView :=
  mkDeliveryView (dl_id r) (dl_fired_at r) (dl_status_code r) (dl_latency_ms r) (dl_signature_ok r) (dl_request_id r)
    (dl_error r) (dl_verify_error r) (dl_body_size r) (dl_content_type r).
Record AuditDeliveryView : Type := mkAuditDeliveryView { av_webhook_name : string; av_delivery : DeliveryView }.
Definition audit_delivery_view (r : DeliveryRow) : AuditDeliveryView :=
  mkAuditDeliveryView (dl_webhook_name r) (delivery_view r).

(** [DeliveryDetailView] *)
Record DeliveryDetailView : Type := mkDetailView {
  dd_audit : AuditDeliveryView;
  dd_request_headers : option json;
  dd_replayed_from_delivery_id : option string;
  dd_replayed_by_user_id : option string;
  dd_body_text : option string;
  dd_body_b64 : option string
}.
Definition delivery_detail_view {txt : WebhookText} (r : DeliveryRow) : DeliveryDetailView :=
  mkDetailView (audit_delivery_view r) (dl_request_headers r ≫= json_from_str) (dl_replayed_from_delivery_id r)
    (dl_replayed_by_user_id r) (dl_body r ≫= from_utf8) (base64_encode <$> dl_body r).

(** ** Request bodies *)

(** The verifier's fields, as both bodies carry them *)
Record VerifierFields : Type := mkVerifierFields {
  vf_signature_header : option string;
  vf_verifier_mode : option string;
  vf_signature_algo : option string;
  vf_signature_encoding : option string;
  vf_signature_prefix : option string;
  vf_signature_separator : option string;
  vf_signature_value_split : option string;
  vf_timestamp_header : option string;
  vf_timestamp_skew_secs : option Z;
  vf_payload_template : option string;
  vf_idempotency_header : option string;
  vf_bearer_path_token : option string
}.

(** [CreateWebhookBody] *)
Record CreateWebhookBody : Type := mkCreateWebhook {
  cw_name : string;
  cw_description : string;
  cw_preset_id : option string;
  cw_auth_scheme : string;
  cw_verifier : VerifierFields;
  cw_secret : option string;
  cw_enabled : bool
}.

(** [UpdateWebhookBody] *)
Record UpdateWebhookBody : Type := mkUpdateWebhook {
  uw_description : option string;
  uw_preset_id : option (option string);
  uw_auth_scheme : option string;
  uw_verifier : VerifierFields;
  uw_secret : option string;
  uw_enabled : option bool
}.

(** What a route answers *)
Inductive WebhookReply : Type :=
| ReplyStatus (status : Z)
| ReplyError (status : Z) (detail : string)
| ReplyWebhook (status : Z) (view : WebhookView)
| ReplyWebhooks (views : list WebhookView)
| ReplyDeliveries (views : list DeliveryView)
| ReplyAudit (views : list AuditDeliveryView)
| ReplyDetail (view : DeliveryDetailView)
| ReplyVerified (rendered_payload_b64 matched_version : option string)
| ReplyVerifyError (e : VerifyError)
| ReplyReplayed (status_code : Z)
| ReplyDeduped.

(** [parse_scheme], [parse_verifier_mode], [parse_signature_algo], [parse_signature_encoding]: 400 when unknown *)
Definition parse_or_400 {A} (parse : string -> option A) (raw : string) : result Z A := ok_or 400 (parse raw).
Definition parse_opt_or_400 {A} (parse : string -> option A) (raw : option string) : result Z (option A) :=
  match raw with Some raw => v ← parse_or_400 parse raw; Ok (Some v) | None => Ok None end.

(** [build_verifier_config] *)
Definition build_verifier_config (f : VerifierFields) : result Z (option WebhookVerifierConfig) :=
  match vf_verifier_mode f with
  | None => Ok None
  | Some mode_raw =>
      mode ← parse_or_400 mode_parse mode_raw;
      signature_algo ← parse_opt_or_400 algo_parse (vf_signature_algo f);
      signature_encoding ← parse_opt_or_400 encoding_parse (vf_signature_encoding f);
      let lower s := to_ascii_lowercase (trim s) in
      Ok (Some (mkVerifier mode (default "" (lower <$> vf_signature_header f)) signature_algo signature_encoding
        (vf_signature_prefix f) (vf_signature_separator f) (vf_signature_value_split f)
        (lower <$> vf_timestamp_header f) (as_u64 <$> vf_timestamp_skew_secs f) (vf_payload_template f)
        (lower <$> vf_idempotency_header f) (vf_bearer_path_token f)))
  end.

(** [err_to_status], [webhook_error_response] *)
Definition err_to_status (e : WebhookError) : Z :=
  match e with
  | WNotFound => 404
  | WBadRequest _ => 400
  | WSignatureMismatch => 401
  | WVerify _ => 401
  | WReplayDeduped _ => 200
  | WNotReady => 503
  | WDispatch _ => 502
  | WStore _ | WSecrets _ => 500
  end.
Definition webhook_error_response (e : WebhookError) : WebhookReply :=
  match e with WBadRequest m => ReplyError 400 m | _ => ReplyStatus (err_to_status e) end.

(** A route: it always answers. *)
Definition route : Type := WebhookWorld -> WebhookWorld * WebhookReply.
Definition answer {A} (m : wsvc A) (ok : A -> WebhookReply) (err : WebhookError -> WebhookReply) : route := fun w =>
  let '(w, r) := m w in (w, match r with Ok a => ok a | Err e => err e end).
Definition status_of (e : WebhookError) : WebhookReply := ReplyStatus (err_to_status e).

Section routes.
Context {dir : CipherDirectory} {codec : EnvelopeCodec} {lib : WebhookLib} {txt : WebhookText}.

(** [list_webhooks], [get_webhook], [delete_webhook] *)
Definition list_webhooks_route (caller id : string) : route :=
  answer (list_webhooks caller id) (fun rows => ReplyWebhooks (map webhook_view rows)) status_of.
Definition get_webhook_route (caller id name : string) : route :=
  answer (get_webhook caller id name) (fun row => ReplyWebhook 200 (webhook_view row)) status_of.
Definition delete_webhook_route (caller id name : string) : route :=
  answer (delete_webhook caller id name) (fun _ => ReplyStatus 204) status_of.

(** [!matches!(v.mode, BearerV2 | None)], true when no verifier was sent *)
Definition keyed_mode (verifier : option WebhookVerifierConfig) : bool :=
  match verifier with
  | None => true
  | Some v => match vc_mode v with BearerV2 | ModeNone => false | _ => true end
  end.
Definition drop_empty (s : option string) : option string := s ≫= fun s => if is_empty s then None else Some s.

(** [create_webhook] *)
Definition create_webhook (run : WebhookRun) (caller id : string) (body : CreateWebhookBody) : route := fun w =>
  match validate_webhook_name (cw_name body) with
  | Err m => (w, ReplyError 400 m)
  | Ok _ =>
      match parse_or_400 scheme_parse (cw_auth_scheme body) with
      | Err status => (w, ReplyStatus status)
      | Ok scheme =>
          match build_verifier_config (cw_verifier body) with
          | Err status => (w, ReplyStatus status)
          | Ok verifier =>
              let secret_required := keyed_mode verifier && bool_decide (scheme <> SchemeNone) in
              if secret_required && bool_decide (drop_empty (cw_secret body) = None)
              then (w, ReplyError 400 "auth scheme requires a signing secret")
              else
                let '(w, found) := get_webhook caller id (cw_name body) w in
                if is_ok found then (w, ReplyStatus 409)
                else
                  answer (put_webhook run caller (mkSpec id (cw_name body) (cw_description body) scheme
                      (cw_preset_id body) verifier (vf_signature_header (cw_verifier body)) (drop_empty (cw_secret body))
                      (cw_enabled body)))
                    (fun row => ReplyWebhook 201 (webhook_view row)) webhook_error_response w
          end
      end
  end.

(** [update_webhook] *)
Definition update_webhook (run : WebhookRun) (caller id name : string) (body : UpdateWebhookBody) : route := fun w =>
  let '(w, existing) := get_webhook caller id name w in
  match existing with
  | Err e => (w, webhook_error_response e)
  | Ok existing =>
      match (match uw_auth_scheme body with
             | Some s => parse_or_400 scheme_parse s
             | None => Ok (wh_auth_scheme existing)
             end) with
      | Err status => (w, ReplyStatus status)
      | Ok scheme =>
          match build_verifier_config (uw_verifier body) with
          | Err status => (w, ReplyStatus status)
          | Ok verifier =>
              let secret_plaintext := drop_empty (uw_secret body) in
              if bool_decide (scheme <> SchemeNone) && bool_decide (wh_auth_scheme existing <> scheme)
                 && keyed_mode verifier && bool_decide (secret_plaintext = None)
              then (w, ReplyError 400 "switching auth scheme requires a fresh signing secret")
              else
                answer (put_webhook run caller (mkSpec id (wh_name existing)
                    (default (wh_description existing) (uw_description body)) scheme
                    (default (wh_preset_id existing) (uw_preset_id body)) verifier
                    (vf_signature_header (uw_verifier body)) secret_plaintext
                    (default (wh_enabled existing) (uw_enabled body))))
                  (fun row => ReplyWebhook 200 (webhook_view row)) webhook_error_response w
          end
      end
  end.

(** [query_param]: the first pair of that name, not decoded *)
Definition query_param (query : option string) (key : string) : option string :=
  q ← query;
  snd <$> head (filter (fun p => p.1 = key) (omap (split_once "=") (split "&" q))).

(** [list_deliveries] *)
Definition list_deliveries_route (caller id name : string) (query : option string) : route :=
  let limit := default DEFAULT_DELIVERY_LIMIT (query_param query "limit" ≫= parse_uint u32_max) in
  answer (list_deliveries caller id name limit) (fun rows => ReplyDeliveries (map delivery_view rows)) status_of.

(** [json_headers_to_pairs]; [None] is the 400. *)
Definition json_headers_to_pairs (raw : json) : option headers :=
  match raw with
  | JObject members => mapM (fun '(name, value) => s ← as_str value; Some (to_ascii_lowercase name, s)) members
  | _ => None
  end.

(** [verify_only]; [verify_only_body] parses the JSON body into its headers and
    base64 text. *)
Definition verify_only_reply (r : result WebhookError VerifyOutcome) : WebhookReply :=
  match r with
  | Ok outcome => ReplyVerified (std_b64_encode <$> vo_rendered_payload outcome) (vo_matched_version outcome)
  | Err (WVerify e) => ReplyVerifyError e
  | Err e => status_of e
  end.
Definition verify_only_route (verify_only_body : string -> option (json * string)) (run : WebhookRun)
    (caller id name : string) (query : option string) (body : string) : route := fun w =>
  if bool_decide (query_param query "from" = Some "last-failed") then
    let '(w, r) := verify_only_last_failed run caller id name w in (w, verify_only_reply r)
  else
    match ('(hs, b64) ← verify_only_body body; raw ← ok (std_b64_decode b64); pairs ← json_headers_to_pairs hs;
           Some (pairs, raw)) with
    | None => (w, ReplyStatus 400)
    | Some (pairs, raw) =>
        let '(w, r) := verify_only run caller id name pairs (signature_header_value pairs "authorization") None raw w in
        (w, verify_only_reply r)
    end.

(** [get_delivery] *)
Definition get_delivery_route (caller id delivery_id : string) : route :=
  answer (get_delivery caller id delivery_id) (fun row => ReplyDetail (delivery_detail_view row)) status_of.
End routes.

(** ** Query strings *)

(** [char::to_digit(16)] *)
Definition digit16 (c : ascii) : option Z :=
  let v := byte_val c in
  if in_range 48 57 c then Some (v - 48)
  else if in_range 65 70 c then Some (v - 55)
  else if in_range 97 102 c then Some (v - 87)
  else None.

(** The loop of [qs_decode] *)
Fixpoint qs_bytes (s : string) : string :=
  match s with
  | EmptyString => EmptyString
  | String c rest =>
      if Ascii.eqb c "+" then String " " (qs_bytes rest)
      else if Ascii.eqb c "%" then
        match rest with
        | String h (String l rest') =>
            match digit16 h, digit16 l with
            | Some h, Some l => String (RustStr.b (Z.to_N (h * 16 + l))) (qs_bytes rest')
            | _, _ => String c (qs_bytes rest)
            end
        | _ => String c (qs_bytes rest)
        end
      else String c (qs_bytes rest)
  end.
(** [qs_decode] *)
Definition qs_decode (s : string) : string := default s (from_utf8 (qs_bytes s)).

(** [parse_query]: the last value of a name wins. *)
Definition parse_query (qs : string) : gmap string string :=
  if is_empty qs then ∅
  else fold_left (fun m pair => match split_once "=" pair with
                                | Some (k, v) => <[qs_decode k := qs_decode v]> m
                                | None => m
                                end) (split "&" qs) ∅.

(** [list_instance_deliveries] *)
Definition list_instance_deliveries_route (str_to_lowercase : string -> string) (caller id : string)
    (query : option string) : route := fun w =>
  let qs := parse_query (default "" query) in
  let limit := default DEFAULT_DELIVERY_LIMIT (qs !! "limit" ≫= parse_uint u32_max) in
  let before := qs !! "before" ≫= parse_i64 in
  let webhook := drop_empty (qs !! "webhook") in
  let q := drop_empty (qs !! "q") in
  if match q with Some q => 256 <? len q | None => false end then (w, ReplyStatus 400)
  else answer (list_instance_deliveries str_to_lowercase caller id webhook q before limit)
         (fun rows => ReplyAudit (map audit_delivery_view rows)) status_of w.

(** ** Replay and its audit row *)

(** [AdminAuditEntry] *)
Record AdminAuditEntry : Type := mkAdminAudit {
  aa_actor_subject : string;
  aa_action : string;
  aa_target_user : string;
  aa_params_hash : string;
  aa_ts : Z
}.

(** [replay_delivery], [audit_replay]: the caller is the owner and the
    replayer; the audit row is written after the dispatch.  [params_hash] is the
    digest of the JSON of the three path segments. *)
Definition replay_route {dir : CipherDirectory} {codec : EnvelopeCodec}
    (params_hash : string -> string -> string -> string) (run : WebhookRun) (subject caller id name delivery_id : string)
    (audit : list AdminAuditEntry) (w : WebhookWorld) : list AdminAuditEntry * WebhookWorld * WebhookReply :=
  match replay_delivery run caller id delivery_id caller w with
  | (w, Err e) => (audit, w, status_of e)
  | (w, Ok status) =>
      (audit ++ [mkAdminAudit subject "webhook.replay" caller (params_hash id name delivery_id) (wr_fired_at run)], w,
       ReplyReplayed status)
  end.

(** ** The public route *)

Section public.
Context {dir : CipherDirectory} {codec : EnvelopeCodec} {lib : WebhookLib} {txt : WebhookText}.
(** [HeaderValue::to_str]: [None] unless the value is visible ASCII *)
Context (to_str : string -> option string).

(** [readable_header_values], [forward_header_subset] *)
Definition readable_header_values (hs : headers) : headers :=
  omap (fun '(k, v) => (fun v => (to_ascii_lowercase k, v)) <$> to_str v) hs.
Definition FORWARD_ALLOW : list string :=
  ["content-type"; "user-agent"; "x-github-event"; "x-github-delivery"; "x-gitlab-event"; "x-stripe-signature";
   "x-event-key"; "x-hook-id"].
Definition forward_header_subset (hs : headers) : headers :=
  omap (fun '(k, v) =>
    let name := to_ascii_lowercase k in
    if bool_decide (name ∈ FORWARD_ALLOW) then (fun v => (name, v)) <$> to_str v else None) hs.

(** [fire_webhook_inner] *)
Definition fire_ctx (instance_id name : string) (bearer_path_token : option string) (hs : headers) (body : string) :
  DispatchCtx :=
  mkDispatchCtx instance_id name (readable_header_values hs) (header_get "authorization" hs ≫= to_str) bearer_path_token
    (header_get "x-request-id" hs ≫= to_str) (forward_header_subset hs) (header_get "content-type" hs ≫= to_str) body.
Definition fire_webhook_inner (run : WebhookRun) (instance_id name : string) (bearer_path_token : option string)
    (hs : headers) (body : string) : route := fun w =>
  if MAX_WEBHOOK_BODY <? len body then (w, ReplyStatus 413)
  else
    answer (verify_and_dispatch run (fire_ctx instance_id name bearer_path_token hs body))
      (fun _ => ReplyStatus 204)
      (fun e => match e with WReplayDeduped _ => ReplyDeduped | _ => status_of e end) w.

(** [fire_webhook], [fire_webhook_with_path_token] *)
Definition fire_webhook (run : WebhookRun) (instance_id name : string) (hs : headers) (body : string) : route :=
  fire_webhook_inner run instance_id name None hs body.
Definition fire_webhook_with_path_token (run : WebhookRun) (instance_id name token : string) (hs : headers)
    (body : string) : route := fire_webhook_inner run instance_id name (Some token) hs body.
End public.

(** ** Theorems *)

Section theorems.
Context {dir : CipherDirectory} {codec : EnvelopeCodec} {lib : WebhookLib} {txt : WebhookText}.

Lemma ensure_owner_none caller id w :
  instance_get_for_owner caller id (ww_instances w) = None -> ensure_owner caller id w = (w, Err WNotFound).
Proof. intros H. unfold ensure_owner, mbind, svc_bind, gets. by rewrite H. Qed.
Lemma after_ensure_owner {A} caller id (f : unit -> wsvc A) w :
  instance_get_for_owner caller id (ww_instances w) = None -> (ensure_owner caller id ≫= f) w = (w, Err WNotFound).
Proof. intros H. unfold mbind, svc_bind. by rewrite ensure_owner_none. Qed.

(** A refusal: nothing of the instance in the answer *)
Definition refusal (reply : WebhookReply) : Prop :=
  (exists s, reply = ReplyStatus s /\ s ∈ [400; 404]) \/ exists m, reply = ReplyError 400 m.
Definition refused (w : WebhookWorld) (p : WebhookWorld * WebhookReply) : Prop := p.1 = w /\ refusal p.2.

Lemma refused_404 w : refused w (w, ReplyStatus 404).
Proof. split; [done|]. left. exists 404. split; [done|set_solver]. Qed.
Lemma refused_400 w : refused w (w, ReplyStatus 400).
Proof. split; [done|]. left. exists 400. split; [done|set_solver]. Qed.
Lemma refused_error w m : refused w (w, ReplyError 400 m).
Proof. split; [done|]. right. eauto. Qed.
Lemma answer_refused {A} (m : wsvc A) f w : m w = (w, Err WNotFound) -> refused w (answer m f status_of w).
Proof. intros H. unfold answer. rewrite H. apply refused_404. Qed.

Lemma build_errors f s : build_verifier_config f = Err s -> s = 400.
Proof.
  unfold build_verifier_config, parse_opt_or_400, parse_or_400. destruct (vf_verifier_mode f); [|done].
  destruct (mode_parse _); [|cbn; congruence]. cbn [ok_or mbind result_bind].
  destruct (vf_signature_algo f) as [a|]; [destruct (algo_parse a)|];
    (destruct (vf_signature_encoding f) as [e|]; [destruct (encoding_parse e)|]); cbn; congruence.
Qed.

(** Every management route of an instance, with any arguments *)
Inductive owner_route (caller id : string) : (WebhookWorld -> WebhookWorld * WebhookReply) -> Prop :=
| or_list : owner_route caller id (list_webhooks_route caller id)
| or_get name : owner_route caller id (get_webhook_route caller id name)
| or_delete name : owner_route caller id (delete_webhook_route caller id name)
| or_create run body : owner_route caller id (create_webhook run caller id body)
| or_update run name body : owner_route caller id (update_webhook run caller id name body)
| or_deliveries name query : owner_route caller id (list_deliveries_route caller id name query)
| or_verify parse run name query body : owner_route caller id (verify_only_route parse run caller id name query body)
| or_delivery delivery_id : owner_route caller id (get_delivery_route caller id delivery_id)
| or_audit lower query : owner_route caller id (list_instance_deliveries_route lower caller id query)
| or_replay hash run subject name delivery_id audit :
    owner_route caller id (fun w => let '(_, w, reply) := replay_route hash run subject caller id name delivery_id audit w
                                    in (w, reply)).
End theorems.

(** C27. Whoever does not own an instance gets nothing from its webhook routes:
    every management call, whatever its arguments, answers 404 or 400 and
    changes nothing, so neither rows nor deliveries nor a replay are reachable. *)
Theorem webhook_routes_owner_only {dir : CipherDirectory} {codec : EnvelopeCodec} {lib : WebhookLib}
    {txt : WebhookText} (caller id : string) (r : WebhookWorld -> WebhookWorld * WebhookReply) (w : WebhookWorld)
    (Hroute : owner_route caller id r)
    (Hother : instance_get_for_owner caller id (ww_instances w) = None) : refused w (r w).
Proof.
  assert (forall name, get_webhook caller id name w = (w, Err WNotFound)) as Hget
    by (intros name; by apply after_ensure_owner).
  destruct Hroute.
  - apply answer_refused. by apply after_ensure_owner.
  - by apply answer_refused.
  - apply answer_refused. by apply after_ensure_owner.
  - unfold create_webhook. destruct (validate_webhook_name (cw_name body)) as [[]|m] eqn:Hn; [|apply refused_error].
    unfold parse_or_400. destruct (scheme_parse _) as [scheme|]; [|apply refused_400]. cbn [ok_or].
    destruct (build_verifier_config _) as [verifier|s] eqn:Hb; [|by apply build_errors in Hb as ->; apply refused_400].
    cbn zeta. case_match; [apply refused_error|]. rewrite Hget. cbn [is_ok].
    unfold answer, put_webhook. cbn [ws_name ws_instance_id]. rewrite Hn. erewrite bind_step by reflexivity.
    rewrite after_ensure_owner by done. apply refused_404.
  - unfold update_webhook. rewrite Hget. apply refused_404.
  - apply answer_refused. by apply after_ensure_owner.
  - unfold verify_only_route. case_match.
    + unfold verify_only_last_failed. rewrite after_ensure_owner by done. apply refused_404.
    + case_match; [|apply refused_400]. case_match. unfold verify_only. rewrite after_ensure_owner by done. apply refused_404.
  - apply answer_refused. by apply after_ensure_owner.
  - unfold list_instance_deliveries_route. cbn zeta. case_match; [apply refused_400|].
    apply answer_refused. by apply after_ensure_owner.
  - unfold replay_route, replay_delivery, get_delivery, mbind at 1, svc_bind at 1. rewrite after_ensure_owner by done.
    apply refused_404.
Qed.

(** ** What the public route answers *)

Section public_theorems.
Context {dir : CipherDirectory} {codec : EnvelopeCodec} {lib : WebhookLib} {txt : WebhookText}.
Context (to_str : string -> option string).

Lemma forwarded_allowed hs n v :
  (n, v) ∈ forward_header_subset to_str hs -> n ∈ FORWARD_ALLOW /\
    exists k raw, (k, raw) ∈ hs /\ n = to_ascii_lowercase k /\ to_str raw = Some v.
Proof.
  unfold forward_header_subset. intros ((k & raw) & Hin & H)%list_elem_of_omap. cbn zeta in H.
  case_bool_decide; [|done]. destruct (to_str raw) as [v'|] eqn:E; [|done]. injection H as <- <-. eauto 10.
Qed.
Lemma err_not_204 e : err_to_status e <> 204.
Proof. by destruct e. Qed.
End public_theorems.

(** The public route answers 204 only after the agent took the request: the
    body is at most 4 MiB, one dispatch was made, with this body, and of the
    request's headers only those on the allow list went along, so that neither
    Authorization nor Cookie reach the prompt. *)
Theorem fire_acknowledges_dispatch {dir : CipherDirectory} {codec : EnvelopeCodec} {lib : WebhookLib}
    {txt : WebhookText} (to_str : string -> option string) (run : WebhookRun) (instance_id name : string)
    (token : option string) (hs : headers) (body : string) (w w' : WebhookWorld)
    (H : fire_webhook_inner to_str run instance_id name token hs body w = (w', ReplyStatus 204)) :
  len body <= MAX_WEBHOOK_BODY /\ is_ok (wr_answer run) = true /\
  exists d, ww_dispatched w' = ww_dispatched w ++ [d] /\ di_body d = body /\ di_webhook_name d = name /\
    forall n v, (n, v) ∈ di_headers d -> n ∈ FORWARD_ALLOW /\
      exists k raw, (k, raw) ∈ hs /\ n = to_ascii_lowercase k /\ to_str raw = Some v.
Proof.
  unfold fire_webhook_inner in H. destruct (MAX_WEBHOOK_BODY <? len body) eqn:El; [done|]. to_prop.
  unfold answer in H. destruct (verify_and_dispatch _ _ w) as [w1 r] eqn:Hf. injection H as -> H.
  destruct r as [s|e]; [|exfalso; destruct e; try done; injection H; by apply err_not_204].
  apply fire_cases in Hf as [[_ [e He]]|(row & instance & verifier & secret & out & [Hrow _ _ _ _ _ _] & Hd & Hr & _)]; [done|].
  split_and!; [done|by destruct (wr_answer run)|]. eexists. split_and!; [exact Hd|done| |].
  - pose proof (select_one_some _ _ _ Hrow) as [_ [_ Hn%String.eqb_eq]%andb_true_iff]. exact Hn.
  - cbn. intros n v. apply forwarded_allowed.
Qed.

(** ** Edits that weaken a webhook *)

(** An update that names a scheme and a secret, and nothing else *)
Definition switch_scheme (scheme secret : string) : UpdateWebhookBody :=
  mkUpdateWebhook None None (Some scheme)
    (mkVerifierFields None None None None None None None None None None None None) (Some secret) None.

(** C37. Turning authentication on does not: an update of an open webhook to the
    HMAC scheme with a fresh secret answers 200 and shows the new scheme, but
    the verifier stays "none", the secret is dropped, and every request is
    still accepted. *)
Theorem scheme_switch_keeps_open {dir : CipherDirectory} {codec : EnvelopeCodec} {lib : WebhookLib} {txt : WebhookText}
    (run : WebhookRun) (owner id name secret : string) (row : WebhookRow) (c : WebhookVerifierConfig) (w : WebhookWorld)
    (Hrow : select_one (is_webhook id name) (wd_webhooks (ww_db w)) = Some row)
    (Hown : is_Some (instance_get_for_owner owner id (ww_instances w)))
    (Hname : validate_webhook_name name = Ok tt) (Hc : row_verifier_config row = Ok c) (Hmode : vc_mode c = ModeNone)
    (Hvalid : validate_verifier_config c = Ok tt) (Hpreset : wh_preset_id row = None)
    (Hskew : match vc_timestamp_skew_secs c with Some s => 0 <= s <= u64_max | None => True end)
    (Hsecret : is_empty secret = false) :
  exists w' row', update_webhook run owner id name (switch_scheme "hmac_sha256" secret) w =
      (w', ReplyWebhook 200 (webhook_view row')) /\
    wh_auth_scheme row' = HmacSha256 /\ wh_secret_name row' = None /\ ww_secrets w' = ww_secrets w /\
    select_one (is_webhook id name) (wd_webhooks (ww_db w')) = Some row' /\
    exists c', row_verifier_config row' = Ok c' /\ forall secret hs bh bp body now,
      verify_inbound_request c' secret hs bh bp body now = Ok (mkOutcome None None).
Proof.
  pose proof (select_one_some _ _ _ Hrow) as [_ [Hrid%String.eqb_eq Hrn%String.eqb_eq]%andb_true_iff].
  destruct Hown as [i Hi].
  assert (on_db (webhook_row_get id name) w = (w, Ok (Some row))) as Hget by (apply on_db_read; by rewrite Hrow).
  assert (ensure_owner owner id w = (w, Ok tt)) as Hens.
  { unfold ensure_owner. erewrite bind_step by reflexivity. by rewrite Hi. }
  unfold update_webhook, get_webhook. erewrite bind_step; [|exact Hens]. erewrite bind_step; [|exact Hget].
  cbn [lift ok_or uw_auth_scheme switch_scheme uw_verifier build_verifier_config vf_verifier_mode uw_secret].
  change (parse_or_400 scheme_parse "hmac_sha256") with (Ok (E := Z) HmacSha256). cbn [drop_empty mbind option_bind].
  rewrite Hsecret. rewrite (bool_decide_eq_false_2 (Some secret = None)) by done. rewrite andb_false_r.
  cbn [uw_description uw_preset_id default from_option uw_enabled vf_signature_header].
  set (spec := mkSpec _ _ _ _ _ _ _ _ _).
  set (row' := put_row run spec (Some row) c None).
  assert (exists db', webhook_row_put row' (ww_db w) = (db', Ok tt) /\
    put_webhook run owner spec w = (mkWebhookWorld (ww_instances w) db' (ww_secrets w) (ww_dispatched w), Ok row'))
    as (db' & Hdb & Hput).
  { eexists. split; [reflexivity|]. unfold put_webhook.
    change (ws_name spec) with (wh_name row). change (ws_instance_id spec) with id. rewrite Hrn, Hname.
    erewrite bind_step by reflexivity. erewrite bind_step; [|exact Hens]. erewrite bind_step; [|exact Hget].
    erewrite bind_step by reflexivity. cbn [put_verifier ws_verifier spec]. rewrite Hc. erewrite bind_step by reflexivity.
    rewrite Hvalid. erewrite bind_step by reflexivity. cbn [ws_preset_id spec]. rewrite Hpreset.
    erewrite bind_step by reflexivity. unfold put_secret, verifier_needs_user_secret. rewrite Hmode.
    erewrite bind_step by reflexivity. reflexivity. }
  unfold answer. rewrite Hput. eexists _, row'. split_and!; try reflexivity.
  - pose proof (put_row_found run spec c None (ww_db w) db') as Hfound. cbn zeta in Hfound.
    change (ws_name spec) with (wh_name row) in Hfound. change (ws_instance_id spec) with id in Hfound.
    rewrite Hrn, Hrow in Hfound. by apply Hfound.
  - unfold row'. rewrite saved_verifier by done. eexists. split; [reflexivity|]. intros.
    unfold verify_inbound_request, with_path_token. cbn [vc_mode]. by rewrite Hmode.
Qed.

(** A negative skew is cast to an unsigned number: a webhook created with
    one accepts every timestamp, however old. *)
Theorem negative_skew_accepts_stale (f : VerifierFields) (config : WebhookVerifierConfig) (s now ts : Z)
    (timestamp : string) (Hs : vf_timestamp_skew_secs f = Some s) (Hneg : i64_min <= s < 0)
    (Hb : build_verifier_config f = Ok (Some config)) (Hp : parse_i64 timestamp = Some ts)
    (Hnow : 0 <= now <= i64_max) (Hts : 0 <= ts <= i64_max) :
  check_skew config (Some timestamp) now = Ok tt.
Proof.
  assert (vc_timestamp_skew_secs config = Some (as_u64 s)) as Hc.
  { unfold build_verifier_config in Hb. destruct (vf_verifier_mode f); [|done].
    repeat (apply result_bind_ok in Hb as (? & _ & Hb)). injection Hb as <-. cbn. by rewrite Hs. }
  unfold check_skew. rewrite Hp. cbn [ok_or mbind result_bind]. rewrite Hc. cbn [default from_option].
  destruct (_ <? _) eqn:E; [|done]. apply Z.ltb_lt in E. exfalso.
  assert (as_u64 s = s + (u64_max + 1)) as Hu.
  { unfold as_u64. symmetry. apply (Z.mod_unique_pos s (u64_max + 1) (-1)); unfold u64_max, i64_min in *; lia. }
  rewrite Hu in E. unfold u64_max, i64_max, i64_min, id in *. lia.
Qed.

(** ** Witnesses *)

#[local] Existing Instances toy_webhook_lib toy_text toy_directory toy_codec.

Lemma webhook_routes_owner_only_witness :
  refused (path_world None) (delete_webhook_route "b" "i" "push" (path_world None)).
Proof.
  apply (webhook_routes_owner_only "b" "i" (delete_webhook_route "b" "i" "push") (path_world None)).
  - apply or_delete.
  - vm_compute. reflexivity.
Defined.

Lemma fire_acknowledges_dispatch_witness :
  exists d, ww_dispatched (fire_webhook_with_path_token Some (hook_run (Ok 202)) "i" "push" "whp_1"
      [("cookie", "c"); ("user-agent", "u")] "" (path_world None)).1 = ww_dispatched (path_world None) ++ [d] /\
    di_headers d = [("user-agent", "u")].
Proof.
  destruct (fire_acknowledges_dispatch Some (hook_run (Ok 202)) "i" "push" (Some "whp_1")
    [("cookie", "c"); ("user-agent", "u")] "" (path_world None)
    (fire_webhook_with_path_token Some (hook_run (Ok 202)) "i" "push" "whp_1"
      [("cookie", "c"); ("user-agent", "u")] "" (path_world None)).1) as (_ & _ & d & Hd & _).
  - vm_compute. reflexivity.
  - exists d. split; [exact Hd|]. revert Hd. vm_compute. intros Hd. by injection Hd as <-.
Defined.

(** An open webhook *)
Definition open_world : WebhookWorld :=
  (put_webhook (hook_run (Ok 202)) "a" (mkSpec "i" "push" "look" SchemeNone None None None None true) empty_hooks).1.
Definition open_row : WebhookRow :=
  mkWebhook "i" "push" "look" SchemeNone "" "none" None None None None None None None None None None None None true
    1000 1000.
Lemma scheme_switch_keeps_open_witness :
  exists w' row', update_webhook (hook_run (Ok 202)) "a" "i" "push" (switch_scheme "hmac_sha256" "s3cret") open_world =
      (w', ReplyWebhook 200 (webhook_view row')) /\
    wh_auth_scheme row' = HmacSha256 /\ wh_secret_name row' = None.
Proof.
  destruct (scheme_switch_keeps_open (hook_run (Ok 202)) "a" "i" "push" "s3cret" open_row (bare_verifier ModeNone "")
    open_world) as (w' & row' & Hu & Hs & Hn & _);
    [vm_compute; reflexivity|vm_compute; eauto|vm_compute; reflexivity..|exact I|vm_compute; reflexivity|].
  exists w', row'. split; [exact Hu|]. split; [exact Hs|exact Hn].
Defined.

Lemma negative_skew_accepts_stale_witness :
  exists config, build_verifier_config (mkVerifierFields None (Some "hmac_v2") None None None None None (Some "x-ts")
      (Some (-1)) None None None) = Ok (Some config) /\ check_skew config (Some "1") 2000000000 = Ok tt.
Proof.
  eexists. split; [reflexivity|].
  apply (negative_skew_accepts_stale (mkVerifierFields None (Some "hmac_v2") None None None None None (Some "x-ts")
      (Some (-1)) None None None) _ (-1) 2000000000 1 "1"); try reflexivity; vm_compute; split; try discriminate; reflexivity.
Defined.
