(* ===== verification/WebhookDispatch.v ===== *)
(** * Delivery to the agent

    Models [HttpWebhookDispatcher] of [crates/core/src/webhooks.rs]: the stable
    conversation of a webhook, the prompt, and the calls to the agent behind
    the sandbox's host name.  The agent's answers, and what [reqwest] and
    serde make of them, are the class [AgentHttp]; the calls are logged. *)

From Stdlib Require Import ZArith Ascii Lia.
From stdpp Require Import base list strings gmap option.
From S2P Require Import Prelude RustStr RustHttp Store Envelope Traits WebhookStore WebhookVerify WebhookService WebhookSafety WebhookHttp.

Local Open Scope string_scope.
Local Open Scope list_scope.
Local Open Scope Z_scope.

Definition WEBHOOK_CHAT_ID_PREFIX : string := "c-swarm-webhook-".
Definition WEBHOOK_CHAT_TITLE_PREFIX : string := "Webhook: ".
(** [webhook_chat_id], [webhook_chat_title] *)
Definition webhook_chat_id (webhook_name : string) : string := WEBHOOK_CHAT_ID_PREFIX +:+ webhook_name.
Definition webhook_chat_title (webhook_name : string) : string := WEBHOOK_CHAT_TITLE_PREFIX +:+ webhook_name.

(** [ConversationSummary] *)
Record ConversationSummary : Type := mkConversation { cs_id : string; cs_title : string }.

(** [find_webhook_chat] *)
Definition find_webhook_chat (conversations : list ConversationSummary) (target_id target_title : string) :
  option string :=
  cs_id <$> head (filter (fun c => cs_id c = target_id \/ cs_title c = target_title) conversations).

(** [urlencode] *)
Definition unreserved (c : ascii) : bool :=
  is_ascii_alphanumeric c || Ascii.eqb c "-" || Ascii.eqb c "_" || Ascii.eqb c "." || Ascii.eqb c "~".
Definition hex_digit (n : Z) : ascii := RustStr.b (Z.to_N (if n <? 10 then 48 + n else 55 + n)).
Fixpoint urlencode (s : string) : string :=
  match s with
  | EmptyString => EmptyString
  | String c s =>
      if unreserved c then String c (urlencode s)
      else String "%" (String (hex_digit (byte_val c / 16)) (String (hex_digit (byte_val c mod 16)) (urlencode s)))
  end.

(** [cube_base_url] *)
Definition cube_base_url (sandbox_domain : string) (port : Z) (sandbox_id : string) : string :=
  "https://" +:+ dec port +:+ "-" +:+ sandbox_id +:+ "." +:+ trim_end_matches "/" sandbox_domain.

(** [cube_port]: [SWARM_CUBE_INTERNAL_PORT], or 80 *)
Definition cube_port (env_value : option string) : Z := default 80 (env_value ≫= parse_u16).

(** [render_prompt] *)
Definition newline : string := String "010" EmptyString.
Definition first_bytes (n : nat) (s : string) : string := String.substring 0 n s.
Definition render_prompt {lib : WebhookLib} (description : string) (hs : headers) (body : string) : string :=
  (if is_empty (trim description) then "" else trim description +:+ newline +:+ newline)
  +:+ "---" +:+ newline +:+ "Webhook payload"
  +:+ (match hs with
       | [] => ""
       | _ => " (headers: " +:+ join ", " (map (fun '(k, v) => k +:+ "=" +:+ v) hs) +:+ ")"
       end)
  +:+ ":" +:+ newline
  +:+ match from_utf8 body with
      | Some text => text
      | None =>
          let preview_len := Nat.min (String.length body) 1024 in
          "(non-utf8, hex preview): " +:+ hex_encode_sig (first_bytes preview_len body)
          +:+ (if Nat.ltb preview_len (String.length body) then "..." else "")
      end.

(** A request to the agent: method, URL, bearer, CSRF header and body *)
Inductive AgentCall : Type :=
| ListConversations (url bearer : string)
| CreateConversation (url bearer csrf id title : string)
| PostTurn (url bearer csrf prompt : string).

Record AgentAnswer : Type := mkAgentAnswer { an_status : Z; an_text : string }.
(** The outside of the dispatcher: the answer to each call, given the calls
    before it; the JSON of two answers; and [StatusCode]'s [Display] *)
Class AgentHttp : Type := {
  agent_send : list AgentCall -> AgentCall -> result string AgentAnswer;
  conversations_json : string -> result string (list ConversationSummary);
  created_json : string -> result string string;
  status_display : Z -> string
}.
Abbreviation agent := (svc (list AgentCall) string).

Section dispatcher.
Context {http : AgentHttp} {lib : WebhookLib}.

(** [req.send().await.map_err(what)?], then the check of the status *)
Definition send (what : string) (call : AgentCall) : agent AgentAnswer := fun calls =>
  (calls ++ [call], map_err (fun e => what +:+ " send: " +:+ e) (agent_send calls call)).
Definition is_success (status : Z) : bool := (200 <=? status) && (status <? 300).
Definition send_ok (what : string) (call : AgentCall) : agent AgentAnswer :=
  resp ← send what call;
  if is_success (an_status resp) then mret resp
  else throw (what +:+ " " +:+ status_display (an_status resp) +:+ ": " +:+ an_text resp).

(** [ensure_webhook_chat_id] *)
Definition ensure_webhook_chat_id (base bearer webhook_name : string) : agent string :=
  let target_id := webhook_chat_id webhook_name in
  let target_title := webhook_chat_title webhook_name in
  list_resp ← send_ok "list-conversations" (ListConversations (base +:+ "/api/conversations") bearer);
  conversations ← lift (map_err (fun e => "list-conversations parse: " +:+ e) (conversations_json (an_text list_resp)));
  match find_webhook_chat conversations target_id target_title with
  | Some existing => mret existing
  | None =>
      create_resp ← send_ok "create-conversation"
        (CreateConversation (base +:+ "/api/conversations") bearer "swarm-webhook" target_id target_title);
      lift (map_err (fun e => "create-conversation parse: " +:+ e) (created_json (an_text create_resp)))
  end.

(** [dispatch] *)
Definition http_dispatch (sandbox_domain : string) (port_env : option string) (d : Dispatched) : agent Z :=
  match drop_empty (ir_cube_sandbox_id (di_instance d)) with
  | None => throw "instance has no cube sandbox id"
  | Some sandbox_id =>
      let base := cube_base_url sandbox_domain (cube_port port_env) sandbox_id in
      let bearer := "Bearer " +:+ ir_bearer_token (di_instance d) in
      chat_id ← ensure_webhook_chat_id base bearer (di_webhook_name d);
      let prompt := render_prompt (di_description d) (di_headers d) (di_body d) in
      turn_resp ← send_ok "turn" (PostTurn (base +:+ "/api/conversations/" +:+ urlencode chat_id +:+ "/turn") bearer
                    "swarm-webhook" prompt);
      mret (an_status turn_resp)
  end.
End dispatcher.

(** ** Theorems *)

Section theorems.
Context {http : AgentHttp} {lib : WebhookLib}.

(** Where a call goes and with which bearer *)
Definition call_url (c : AgentCall) : string :=
  match c with ListConversations u _ | CreateConversation u _ _ _ _ | PostTurn u _ _ _ => u end.
Definition call_bearer (c : AgentCall) : string :=
  match c with ListConversations _ b | CreateConversation _ b _ _ _ | PostTurn _ b _ _ => b end.
Definition is_turn (c : AgentCall) : bool := match c with PostTurn _ _ _ _ => true | _ => false end.

(** [send_ok] sends its call once, whatever comes of it. *)
Lemma send_ok_sends what call calls : (send_ok what call calls).1 = calls ++ [call].
Proof.
  unfold send_ok, send, mbind, svc_bind. destruct (agent_send calls call) as [a|e]; cbn; [|done].
  by destruct (is_success (an_status a)).
Qed.
Lemma send_ok_status what call calls calls' a :
  send_ok what call calls = (calls', Ok a) -> agent_send calls call = Ok a /\ is_success (an_status a) = true.
Proof.
  unfold send_ok, send, mbind, svc_bind. destruct (agent_send calls call) as [a'|e]; cbn; [|done].
  destruct (is_success (an_status a')) eqn:E; [|done]. by intros [= <- <-].
Qed.

(** The calls of the lookup: one or two, to the conversations of the sandbox *)
Lemma ensure_calls base bearer name calls :
  exists new, (ensure_webhook_chat_id base bearer name calls).1 = calls ++ new /\ (1 <= length new <= 2)%nat /\
    Forall (fun c => call_url c = base +:+ "/api/conversations" /\ call_bearer c = bearer /\ is_turn c = false) new.
Proof.
  unfold ensure_webhook_chat_id.
  set (c1 := ListConversations _ _). set (c2 := CreateConversation _ _ _ _ _).
  assert (forall m, (exists new, (m : list AgentCall) = calls ++ new /\ (new = [c1] \/ new = [c1; c2])) ->
    exists new, m = calls ++ new /\ (1 <= length new <= 2)%nat /\
    Forall (fun c => call_url c = base +:+ "/api/conversations" /\ call_bearer c = bearer /\ is_turn c = false) new) as Hm.
  { intros m (new & -> & [->| ->]); eexists; split; try done; split; [cbn; lia| |cbn; lia|]; by repeat constructor. }
  apply Hm. unfold mbind at 1, svc_bind at 1. pose proof (send_ok_sends "list-conversations" c1 calls) as H1.
  destruct (send_ok "list-conversations" c1 calls) as [m1 [a1|e1]]; cbn [fst] in *; subst m1; [|by exists [c1]; auto].
  unfold mbind at 1, svc_bind at 1, lift at 1. destruct (map_err _ (conversations_json _)) as [cs|]; [|by exists [c1]; auto].
  destruct (find_webhook_chat cs _ _); [by exists [c1]; auto|].
  unfold mbind, svc_bind. pose proof (send_ok_sends "create-conversation" c2 (calls ++ [c1])) as H2.
  destruct (send_ok _ c2 _) as [m2 [a2|e2]]; cbn [fst] in *; subst m2; exists [c1; c2]; (split; [by rewrite <- app_assoc|auto]).
Qed.
End theorems.

(** C28. One dispatch makes at most three calls to the agent, each to the host of
    the instance's own sandbox with the instance's own bearer; it posts at
    most one turn, as its last call, carrying the prompt of this description
    and body; it reports success only with the 2xx status of that turn, and
    calls nobody when the instance has no sandbox. *)
Theorem dispatch_calls_own_sandbox {http : AgentHttp} {lib : WebhookLib} (sandbox_domain : string)
    (port_env : option string) (d : Dispatched) (calls calls' : list AgentCall) (r : result string Z)
    (H : http_dispatch sandbox_domain port_env d calls = (calls', r)) :
  if has_no_sandbox (di_instance d) then calls' = calls /\ r = Err "instance has no cube sandbox id"
  else
    exists sandbox lookup turns, ir_cube_sandbox_id (di_instance d) = Some sandbox /\
      let base := cube_base_url sandbox_domain (cube_port port_env) sandbox in
      let bearer := "Bearer " +:+ ir_bearer_token (di_instance d) in
      calls' = calls ++ lookup ++ turns /\ (1 <= length lookup <= 2)%nat /\
      Forall (fun c => call_url c = base +:+ "/api/conversations" /\ call_bearer c = bearer /\ is_turn c = false) lookup /\
      (turns = [] /\ is_ok r = false \/
       exists chat_id, turns = [PostTurn (base +:+ "/api/conversations/" +:+ urlencode chat_id +:+ "/turn") bearer
           "swarm-webhook" (render_prompt (di_description d) (di_headers d) (di_body d))] /\
         forall s, r = Ok s -> is_success s = true /\ exists a, agent_send (calls ++ lookup) (default (PostTurn "" "" "" "") (head turns)) = Ok a /\
           an_status a = s).
Proof.
  unfold http_dispatch, has_no_sandbox in *. destruct (ir_cube_sandbox_id (di_instance d)) as [sandbox|];
    [|by injection H as <- <-].
  cbn [drop_empty mbind option_bind default from_option id] in *.
  destruct (is_empty sandbox) eqn:Es; [by injection H as <- <-|]. cbn zeta in H.
  set (base := cube_base_url _ _ _) in *. set (bearer := "Bearer " +:+ _) in *.
  destruct (ensure_calls base bearer (di_webhook_name d) calls) as (lookup & He & Hl & Hf).
  apply bind_cases in H as [(e & H & ->)|(m1 & chat_id & H1 & H)].
  - rewrite H in He. cbn in He. subst. exists sandbox, lookup, []. rewrite app_nil_r. split_and!; auto; lia.
  - rewrite H1 in He. cbn in He. subst m1. set (turn := PostTurn _ _ _ _) in H. exists sandbox, lookup, [turn].
    pose proof (send_ok_sends "turn" turn (calls ++ lookup)) as Hs.
    apply bind_cases in H as [(e & H & ->)|(m2 & a & H2 & H)].
    + rewrite H in Hs. cbn in Hs. subst. rewrite <- app_assoc. split_and!; auto; try lia. right. exists chat_id. done.
    + rewrite H2 in Hs. cbn in Hs. subst. injection H as <- <-. rewrite <- app_assoc. split_and!; auto; try lia.
      right. exists chat_id. split; [done|]. intros s [= <-]. apply send_ok_status in H2 as [Ha Hok]. cbn. eauto.
Qed.

(** A chat id in the URL of the turn decodes to itself, and is short enough for
    the agent when it is the one asked for. *)
Lemma hex_digit_value n : 0 <= n < 16 -> digit16 (hex_digit n) = Some n.
Proof.
  intros H. assert (exists k, (k < 16)%nat /\ n = Z.of_nat k) as (k & Hk & ->) by (exists (Z.to_nat n); lia).
  do 16 (destruct k as [|k]; [vm_compute; reflexivity|]). lia.
Qed.
Lemma unreserved_plain c : unreserved c = true -> Ascii.eqb c "+" = false /\ Ascii.eqb c "%" = false.
Proof. destruct c as [[] [] [] [] [] [] [] []]; vm_compute; auto. Qed.
Lemma qs_bytes_urlencode s : qs_bytes (urlencode s) = s.
Proof.
  induction s as [|c s IH]; [done|]. cbn [urlencode]. destruct (unreserved c) eqn:E.
  - destruct (unreserved_plain c E) as [E1 E2]. cbn [qs_bytes]. by rewrite E1, E2, IH.
  - pose proof (byte_val_range c) as Hc.
    assert (0 <= byte_val c / 16 < 16) by (split; [apply Z.div_pos|apply Z.div_lt_upper_bound]; lia).
    assert (0 <= byte_val c mod 16 < 16) by (apply Z.mod_pos_bound; lia).
    cbn [qs_bytes Ascii.eqb Bool.eqb]. rewrite !hex_digit_value by done. rewrite IH.
    replace (byte_val c / 16 * 16 + byte_val c mod 16) with (byte_val c) by (pose proof (Z.div_mod (byte_val c) 16); lia).
    unfold byte_val, RustStr.b. by rewrite N2Z.id, ascii_N_embedding.
Qed.

(** The conversation of a webhook whose name was accepted has an id of at
    most 80 bytes, the agent's limit, and that id goes into the URL of the turn
    as it is, no character escaped. *)
Theorem webhook_chat_id_fits (name : string) (H : validate_webhook_name name = Ok tt) :
  len (webhook_chat_id name) <= 80 /\ urlencode (webhook_chat_id name) = webhook_chat_id name.
Proof.
  unfold validate_webhook_name in H. destruct (is_empty name); [done|]. destruct (64 <? len name) eqn:El; [done|].
  destruct (all_bytes name_char name) eqn:Ec; [|done]. to_prop. split.
  - unfold len, webhook_chat_id in *. rewrite length_append. change (String.length WEBHOOK_CHAT_ID_PREFIX) with 16%nat. lia.
  - assert (all_bytes unreserved (webhook_chat_id name) = true) as Hu.
    { unfold webhook_chat_id. rewrite all_bytes_app. apply andb_true_iff. split; [vm_compute; reflexivity|].
      revert Ec. apply all_bytes_impl. intros c. destruct c as [[] [] [] [] [] [] [] []]; vm_compute; done. }
    clear -Hu. induction (webhook_chat_id name) as [|c s IH]; [done|]. cbn [all_bytes] in Hu. to_prop.
    cbn [urlencode]. rewrite H. by rewrite IH.
Qed.
Lemma webhook_chat_id_fits_witness :
  len (webhook_chat_id "push") <= 80 /\ urlencode (webhook_chat_id "push") = "c-swarm-webhook-push".
Proof. apply (webhook_chat_id_fits "push"). vm_compute. reflexivity. Defined.

(** The agent of the witness knows no conversation and takes the turn. *)
#[local] Existing Instance toy_webhook_lib.
#[local] Instance toy_agent : AgentHttp := {|
  agent_send _ _ := Ok (mkAgentAnswer 202 "c-1");
  conversations_json _ := Ok [];
  created_json text := Ok text;
  status_display := dec
|}.
Definition push_dispatch : Dispatched := mkDispatched hook_instance "push" "look" [] "hi".
Lemma dispatch_calls_own_sandbox_witness :
  exists lookup chat_id, (http_dispatch "cube.test/" None push_dispatch []).1 = lookup ++
      [PostTurn ("https://80-sb.cube.test" +:+ "/api/conversations/" +:+ urlencode chat_id +:+ "/turn") "Bearer "
         "swarm-webhook" (render_prompt "look" [] "hi")] /\ (1 <= length lookup <= 2)%nat.
Proof.
  destruct (dispatch_calls_own_sandbox "cube.test/" None push_dispatch [] (http_dispatch "cube.test/" None push_dispatch []).1
    (http_dispatch "cube.test/" None push_dispatch []).2 (surjective_pairing _))
    as (sandbox & lookup & turns & Hs & Hc & Hl & Hf & Ht).
  injection Hs as <-. destruct Ht as [[_ Hbad]|(chat & -> & _)]; [vm_compute in Hbad; discriminate|].
  exists lookup, chat. split; [exact Hc|exact Hl].
Defined.
